(* ===== verification/_CoqProject ===== *)
-Q . S2P
Prelude.v
Memory.v
CString.v
Disk.v
Ata.v
FatLayout.v
Fat32.v
FatLogic.v
FatChain.v
FatWrite.v
FatRead.v
FatDelete.v
FatInit.v
FatVolume.v
FatMount.v
Inserter.v
InserterSpec.v
FatExample.v
VolumeExample.v
AtaExample.v
Paging.v
PagingSpec.v
Process.v
Pic.v
Scheduler.v
SchedulerSpec.v
ProcessSpec.v
Terminal.v
TerminalSpec.v
Keyboard.v
Descriptors.v
Assembly.v
Cmos.v
System.v
Shell.v
ShellParse.v
ShellSpec.v
ShellPath.v
ShellFiles.v
ShellCd.v
ShellFs.v
Programs.v
BootSpec.v
InserterBoot.v
SystemSpec.v
UserCall.v
ShellMachine.v
WholeMachine.v
AssemblyExample.v
DeviceExample.v
SystemExample.v
BootExample.v
InserterExample.v
ShellExample.v
MachineExample.v
