(* ===== verification/Prelude.v ===== *)
(** * A verification library for a small x86 operating system

    The program (src/) is a 32-bit kernel in C with a FAT32-like file system, paging,
    round-robin processes, a text screen and a keyboard, and a user program, the
    shell, that reaches the kernel through the interrupt 0x30; a program of the host,
    the inserter, puts files on the disk image with the kernel's own file system code.
    This library models the C code part by part, and the assembly between a process
    and the kernel, and proves what the parts do and what they do together.

    ** How the code is modelled

    A C integer is a [Z]; where the code can wrap, [u8], [u16], [u32], [i8] or [i32]
    is written. Arrays are lists read and updated by index ([l.[i]], [l.[i := x]]),
    structures are records with the source's fields. A function that changes state
    is a computation of the monad [Eff S A := S -> Res (A * S)] of this file; a
    [Fault] is an access outside the objects of the model ([BadAccess]), outside
    the mapped memory ([PageFault]), or a loop out of fuel ([Stuck]). [wp] is total
    correctness: a computation that satisfies it ends without a fault. Proofs run
    computations step by step with [run_step] and [wp_step].

    What is not C code under src/ is behind a class: [ByteMem] (a byte-addressed
    memory), [BlockDevice] (Disk.v), [PortMachine] (I/O ports), [Alu] (flags),
    [ShellKernel] and [ProgramKernel] (the system calls), [FileMachine] (the four file
    calls on an array of the caller), [RestOfKernel] (the other calls of the shell),
    [Environment], [ShellEnvironment], [ProgramEnvironment], [HostEnvironment]
    (addresses the linker chooses, storage that nothing initialises), [UserStorage]
    and [UserFrame] (where the shell's locals are on its stack, its other registers).
    Classes named [...Laws], [...Spec] or [...Ok] state what is relied
    on; each has an instance, in the Example files at the latest.

    ** The files

    - Prelude: integers, results, the monad, arrays, little-endian fields.
      Memory, CString: memories and src/std/string.c over them; the kernel's paged
      memory is an instance, so [memcpy] and [memset] are run through translation.
    - Disk, Ata: the block interface of src/filesystem/disk.h with two
      implementations: the inserter's disk image (src/inserter/) and the ATA driver
      of src/filesystem/disk.c over the ports of a drive that keeps the protocol.
    - FatLayout, Fat32: the structures of fat32.h with their bytes, and every
      function of fat32.c, from [initialize_filesystem_fat32] to [delete].
      FatLogic runs them symbolically on what the clusters hold; FatChain, FatWrite,
      FatRead, FatDelete and FatInit say what each does on each branch; FatVolume is
      the abstract specification, a finite map from names to nodes. FatMount: a
      volume on another device with the same blocks.
    - Inserter, InserterSpec: src/inserter/external-inserter.c, from its arguments to
      the image it leaves, over the files of the host.
    - Paging, PagingSpec: src/paging/, the page directories, the frame map, CR3 and
      the cached translations; user pages of two processes never share a frame.
    - Process, ProcessSpec, Scheduler, SchedulerSpec: src/process/ and
      src/scheduler/, creation and destruction of processes, the timer interrupt.
    - Pic, Terminal, TerminalSpec, Keyboard, Descriptors, Cmos: the devices
      (src/interrupt/interrupt.c, src/framebuffer/, src/keyboard/, src/gdt/,
      src/interrupt/idt.c, src/cmos/).
    - Assembly: src/interrupt/intsetup.s and [process_context_switch] of
      src/kernel/kernel-entrypoint.s, an instruction at a time over the processor's
      registers and the kernel's stack ([Machine]).
    - System, SystemSpec, BootSpec: the system calls, the interrupt dispatch and
      [kernel_setup]; a file call of a process, from registers to disk and back; the
      state start-up ends in.
    - Shell: src/user_mode/, the line editor, the parser, every command, one
      Definition per C function, over [ShellKernel]. ShellParse, ShellSpec,
      ShellPath, ShellFiles and ShellCd hold its theorems, proved from the contract
      [ShellKernelLaws]; ShellFs proves the contract for any [FileMachine] that keeps
      [FileMachineSpec], of which the file system of Fat32.v is one.
    - UserCall, ShellMachine: the shell's file calls as it makes them, a request on
      its stack, [syscall] of src/user_mode/user-shell.c, the interrupt and its stub;
      the whole kernel behind them is another [FileMachine].
    - InserterBoot, WholeMachine: the parts together. The image that the inserter made
      is the disk of the machine, the machine boots, the shell runs a session.
    - Programs: src/timer/ and src/bounce/.
    - FatExample, VolumeExample, AtaExample, AssemblyExample, DeviceExample,
      SystemExample, BootExample, InserterExample, ShellExample, MachineExample: every
      theorem with hypotheses at a concrete state: the formatted disk image, a drive,
      an interrupted process, a kernel that has booted, a build, a session.

    ** What the theorems show

    - Refinement: [volume_refines] (any sequence of file calls does what the map
      operations do), [ata_refines_blocks], [file_syscall_spec] (a call made by a
      process), [insert_spec] (a run of the inserter), [shell_on_disk] and
      [shell_on_system] (a session at the shell, on the file system and on the kernel).
    - From end to end: [installed_shell_boots] (what the build put on the image is
      what runs after start-up), [installed_shell_session] (and a session on it leaves
      the volume that its lines make), [restart_keeps_volume].
    - Interrupts: the handler gets the frame, the process gets its registers back
      ([interrupt_returns]), also after other processes ran ([preempted_resumes]).
    - Files: a write allocates the first free clusters as one chain and touches
      nothing else ([write_file_spec]); what was written is read back
      ([write_read_roundtrip]), unless the size is several whole clusters
      ([write_loses_last_cluster]); [delete_undoes_write]; formatting and mounting
      establish the invariant [FSInv].
    - Processes: isolation of pages, the effect of creating a process and of
      destroying it, one running process after every tick, its turn for each one
      ([round_robin]), and where the code goes wrong ([last_slot_overrun],
      [create_read_failure], [create_then_destroy]).
    - Devices: the screen's cells, the keyboard's buffer, descriptors and gates, the
      controllers, the date.
    - Shell: the parser is a tokenizer ([parse_command_spec]) and ends
      ([parse_command_terminates]), as does the search ([find_ends]); which command
      a word selects; what [mv] and [cp] leave; the path stays well-formed and the
      prompt in its array; [cd] there and back.

    ** Bounds and fuel

    [CHAIN_FUEL] exceeds the words a cluster chain can visit without repeating
    one; [NEXT_FUEL] the slots of the process table; [FIND_DEPTH] the components of
    a path; the parser's loops get the length of the line. For each the theorems
    show that a result is reached. The waits for a device (the ATA status, the
    clock's update, the keyboard) have a number of polls, which the theorems relate
    to how long the device is busy or how many keys are pressed.

    ** Not modelled

    Of the assembly the loader, [load_gdt] and [set_tss_register]: [boot_system] is
    the state they lead to; [kernel_execute_user_program] is not called. [eip] within
    the stubs is not followed, and words that are not at the stack pointer plus a
    multiple of four are not looked at. Interrupts that arrive during start-up or
    inside a system call, and with them two processes inside the file system at once;
    in [shell_on_system] no tick of the timer comes between the shell's calls. The
    endless loops of the programs and of the shell are modelled a round at a time,
    [idle_main], which nothing calls, not at all. Of the rounds of the shell,
    [shell_on_disk] and [shell_on_system] cover the commands that work on the current
    directory; [cp] and [cd] have theorems of their own, [exec], [kill] and [apple]
    have definitions. The keyboard and the screen of a session are the parameter
    [RestOfKernel]: its keys are there when they are polled for. Of the inserter's host
    a failing [malloc] or write. *)

From Stdlib Require Import ZArith Lia.
From stdpp Require Import base tactics numbers strings list list_numbers gmap fin_maps.

#[global] Open Scope Z_scope.

(** ** Machine integers

    A C integer of width w is a [Z]; every conversion that can wrap is written
    out with one of the following. *)

Definition u8 (x : Z) : Z := x mod 2 ^ 8.
Definition u16 (x : Z) : Z := x mod 2 ^ 16.
Definition u32 (x : Z) : Z := x mod 2 ^ 32.
Definition i8 (x : Z) : Z := (x + 2 ^ 7) mod 2 ^ 8 - 2 ^ 7.
Definition i32 (x : Z) : Z := (x + 2 ^ 31) mod 2 ^ 32 - 2 ^ 31.

Definition is_byte (b : Z) : Prop := 0 <= b < 2 ^ 8.
Abbreviation all_bytes := (Forall is_byte).

Lemma u8_range x : 0 <= u8 x < 2 ^ 8.
Proof. apply Z.mod_pos_bound. lia. Qed.
Lemma u16_range x : 0 <= u16 x < 2 ^ 16.
Proof. apply Z.mod_pos_bound. lia. Qed.
Lemma u32_range x : 0 <= u32 x < 2 ^ 32.
Proof. apply Z.mod_pos_bound. lia. Qed.
Lemma u8_small x : 0 <= x < 2 ^ 8 -> u8 x = x.
Proof. apply Z.mod_small. Qed.
Lemma u16_small x : 0 <= x < 2 ^ 16 -> u16 x = x.
Proof. apply Z.mod_small. Qed.
Lemma u32_small x : 0 <= x < 2 ^ 32 -> u32 x = x.
Proof. apply Z.mod_small. Qed.
Lemma u32_idemp x : u32 (u32 x) = u32 x.
Proof. apply u32_small, u32_range. Qed.
Lemma u32_add_l x y : u32 (u32 x + y) = u32 (x + y).
Proof. unfold u32. apply Zplus_mod_idemp_l. Qed.

Lemma Zlor_add_high h l n :
  0 <= n -> 0 <= l < 2 ^ n -> Z.lor (h * 2 ^ n) l = h * 2 ^ n + l.
Proof.
  intros Hn Hl. apply Z.bits_inj'. intros i Hi.
  rewrite Z.lor_spec.
  destruct (Z.lt_ge_cases i n) as [Hlt | Hge].
  - rewrite Z.mul_pow2_bits_low by lia. simpl.
    rewrite <- (Z.mod_pow2_bits_low (h * 2 ^ n + l) n i) by lia.
    rewrite Z.add_comm, Z_mod_plus_full, Z.mod_small by lia. done.
  - rewrite Z.mul_pow2_bits by lia.
    rewrite <- (Z.mod_small l (2 ^ n)) at 1 by lia.
    rewrite Z.mod_pow2_bits_high by lia. rewrite orb_false_r.
    replace i with ((i - n) + n) at 2 by lia.
    rewrite <- Z.div_pow2_bits by lia.
    rewrite Z.div_add_l by lia. rewrite (Z.div_small l) by lia.
    by rewrite Z.add_0_r.
Qed.

(** ** Results

    An operation ends normally with a value or stops: [BadAccess] is an access
    outside every object of the model (an out-of-bounds read, a null pointer),
    [PageFault] an access through an address the active page directory does not
    map, [Stuck] a loop that used up its fuel. *)

Inductive fault : Type := BadAccess | PageFault | Stuck.

Inductive Res (A : Type) : Type :=
| Ok (a : A)
| Fault (e : fault).
Arguments Ok {A} a.
Arguments Fault {A} e.

#[global] Instance fault_eq_dec : EqDecision fault.
Proof. solve_decision. Defined.
#[global] Instance res_eq_dec {A : Type} `{EqDecision A} : EqDecision (Res A).
Proof. solve_decision. Defined.

Definition res_bind {A B : Type} (r : Res A) (f : A -> Res B) : Res B :=
  match r with
  | Ok a => f a
  | Fault e => Fault e
  end.

Definition of_option {A : Type} (e : fault) (o : option A) : Res A :=
  match o with
  | Some a => Ok a
  | None => Fault e
  end.

(** ** A state monad with faults *)

Definition Eff (S A : Type) : Type := S -> Res (A * S).

Definition ret {S A : Type} (a : A) : Eff S A := fun s => Ok (a, s).
Definition stop {S A : Type} (e : fault) : Eff S A := fun _ => Fault e.
Definition bind {S A B : Type} (c : Eff S A) (f : A -> Eff S B) : Eff S B :=
  fun s => match c s with
           | Ok (a, s') => f a s'
           | Fault e => Fault e
           end.
Definition get {S : Type} : Eff S S := fun s => Ok (s, s).
Definition gets {S A : Type} (f : S -> A) : Eff S A := fun s => Ok (f s, s).
Definition modify {S : Type} (f : S -> S) : Eff S unit := fun s => Ok (tt, f s).
Definition of_res {S A : Type} (r : Res A) : Eff S A :=
  fun s => match r with
           | Ok a => Ok (a, s)
           | Fault e => Fault e
           end.

Lemma bind_run {S A B : Type} (c : Eff S A) (f : A -> Eff S B) s a s' :
  c s = Ok (a, s') -> bind c f s = f a s'.
Proof. unfold bind. by intros ->. Qed.

(** Run the first computation of a sequence: by computation, or by the equation
    given. *)
Ltac run_step := erewrite bind_run; [| reflexivity].
Tactic Notation "run_step" "using" uconstr(H) := erewrite bind_run; [| eapply H].

Declare Scope eff_scope.
Delimit Scope eff_scope with eff.
Notation "x <- c ;; k" := (bind c (fun x => k))
  (at level 100, c at next level, k at level 200, right associativity) : eff_scope.
Notation "c1 ';;;' c2" := (bind c1 (fun _ => c2))
  (at level 100, c2 at level 200, right associativity) : eff_scope.

(** Total correctness: [wp c Q s] says that [c] run from [s] does not stop and
    ends with a result and a state that satisfy [Q]. *)
Definition wp {S A : Type} (c : Eff S A) (Q : A -> S -> Prop) (s : S) : Prop :=
  match c s with
  | Ok (a, s') => Q a s'
  | Fault _ => False
  end.

Section WP.
Context {S : Type}.
Implicit Types (s : S).

Lemma wp_ret {A} (a : A) (Q : A -> S -> Prop) s : Q a s -> wp (ret a) Q s.
Proof. done. Qed.
Lemma wp_gets {A} (f : S -> A) (Q : A -> S -> Prop) s :
  Q (f s) s -> wp (gets f) Q s.
Proof. done. Qed.
Lemma wp_modify (f : S -> S) (Q : unit -> S -> Prop) s :
  Q tt (f s) -> wp (modify f) Q s.
Proof. done. Qed.
Lemma wp_of_res {A} (r : Res A) (a : A) (Q : A -> S -> Prop) s :
  r = Ok a -> Q a s -> wp (of_res r) Q s.
Proof. by intros ->. Qed.
Lemma wp_bind {A B} (c : Eff S A) (f : A -> Eff S B) (Q : B -> S -> Prop) s :
  wp c (fun a s' => wp (f a) Q s') s -> wp (bind c f) Q s.
Proof. unfold wp, bind. by destruct (c s) as [[a s'] |]. Qed.
Lemma wp_mono {A} (c : Eff S A) (P Q : A -> S -> Prop) s :
  wp c P s -> (forall a s', P a s' -> Q a s') -> wp c Q s.
Proof. unfold wp. destruct (c s) as [[a s'] |]; eauto. Qed.
Lemma wp_run {A} (c : Eff S A) (Q : A -> S -> Prop) s :
  wp c Q s -> exists a s', c s = Ok (a, s') /\ Q a s'.
Proof. unfold wp. destruct (c s) as [[a s'] |]; [eauto | done]. Qed.
Lemma wp_intro {A} (c : Eff S A) (Q : A -> S -> Prop) s a s' :
  c s = Ok (a, s') -> Q a s' -> wp c Q s.
Proof. unfold wp. by intros ->. Qed.
Lemma wp_det {A} (c : Eff S A) (Q : A -> S -> Prop) s a s' :
  c s = Ok (a, s') -> wp c Q s -> Q a s'.
Proof. unfold wp. by intros ->. Qed.
End WP.

(** One step of a weakest-precondition proof. *)
Ltac wp_step :=
  lazymatch goal with
  | |- wp (bind _ _) _ _ => apply wp_bind
  | |- wp (ret _) _ _ => apply wp_ret
  | |- wp (gets _) _ _ => apply wp_gets
  | |- wp (modify _) _ _ => apply wp_modify
  end; cbv beta.
Ltac wp_steps := repeat wp_step.

(** ** Arrays indexed by C integers *)

Section Arrays.
Context {A : Type}.
Implicit Types (l k : list A) (i n : Z).

Definition zlen l : Z := Z.of_nat (length l).
Definition zget l i : option A :=
  if decide (0 <= i) then l !! Z.to_nat i else None.
Definition zset i (x : A) l : list A :=
  if decide (0 <= i) then <[Z.to_nat i := x]> l else l.
Definition ztake n l : list A := take (Z.to_nat n) l.
Definition zdrop n l : list A := drop (Z.to_nat n) l.
(** [n] elements from index [i]. *)
Definition zslice i n l : list A := ztake n (zdrop i l).
(** [new] written over the elements from index [i]. *)
Definition zsplice i (new l : list A) : list A := ztake i l ++ new ++ zdrop (i + zlen new) l.
Definition zrep n (x : A) : list A := replicate (Z.to_nat n) x.
End Arrays.

(** The bytes of a C string literal, without its terminator. *)
Fixpoint str (s : string) : list Z :=
  match s with
  | EmptyString => []
  | String c s' => Z.of_N (Ascii.N_of_ascii c) :: str s'
  end.

Notation "l .[ i ]" := (zget l i) (at level 1, left associativity, format "l .[ i ]").
Notation "l .[ i := x ]" := (zset i x l)
  (at level 1, left associativity, format "l .[ i  :=  x ]").

Section ArrayLemmas.
Context {A : Type}.
Implicit Types (l k : list A) (x y : A) (i j n : Z).

Lemma zlen_nonneg l : 0 <= zlen l.
Proof. unfold zlen. lia. Qed.
Lemma zlen_nil : zlen (@nil A) = 0.
Proof. done. Qed.
Lemma zlen_cons x l : zlen (x :: l) = zlen l + 1.
Proof. unfold zlen. cbn [length]. lia. Qed.
Lemma zlen_app l k : zlen (l ++ k) = zlen l + zlen k.
Proof. unfold zlen. rewrite length_app. lia. Qed.
Lemma zlen_zset l i x : zlen l.[i := x] = zlen l.
Proof. unfold zset, zlen. case_decide; [by rewrite length_insert | done]. Qed.
Lemma zlen_zrep n x : 0 <= n -> zlen (zrep n x) = n.
Proof. intros. unfold zlen, zrep. rewrite length_replicate. lia. Qed.
Lemma zlen_ztake n l : zlen (ztake n l) = Z.min (Z.max 0 n) (zlen l).
Proof. unfold zlen, ztake. rewrite length_take. lia. Qed.
Lemma zlen_zdrop n l : zlen (zdrop n l) = Z.max 0 (zlen l - Z.max 0 n).
Proof. unfold zlen, zdrop. rewrite length_drop. lia. Qed.
Lemma zlen_zslice i n l :
  0 <= i -> 0 <= n -> i + n <= zlen l -> zlen (zslice i n l) = n.
Proof. intros. unfold zslice. rewrite zlen_ztake, zlen_zdrop. lia. Qed.
Lemma zlen_fmap {B} (f : A -> B) l : zlen (f <$> l) = zlen l.
Proof. unfold zlen. by rewrite length_fmap. Qed.
Lemma zlen_0_inv l : zlen l = 0 -> l = [].
Proof. unfold zlen. destruct l; [done | cbn; lia]. Qed.

Lemma zget_range l i x : l.[i] = Some x -> 0 <= i < zlen l.
Proof.
  unfold zget, zlen. case_decide; [| done].
  intros Hl%lookup_lt_Some. lia.
Qed.
Lemma zget_is_Some l i : 0 <= i < zlen l -> exists x, l.[i] = Some x.
Proof.
  unfold zget, zlen. intros ?. rewrite decide_True by lia.
  apply lookup_lt_is_Some_2. lia.
Qed.
Lemma zget_None l i : ~ (0 <= i < zlen l) -> l.[i] = None.
Proof.
  unfold zget, zlen. intros ?. case_decide; [| done].
  apply lookup_ge_None_2. lia.
Qed.
Lemma zget_elem l i x : l.[i] = Some x -> x ∈ l.
Proof. unfold zget. case_decide; [| done]. apply list_elem_of_lookup_2. Qed.
Lemma elem_zget l x : x ∈ l -> exists i, l.[i] = Some x.
Proof.
  intros [k Hk]%list_elem_of_lookup. exists (Z.of_nat k). unfold zget.
  rewrite decide_True by lia. by rewrite Nat2Z.id.
Qed.
Lemma zget_zset_eq l i x : 0 <= i < zlen l -> l.[i := x].[i] = Some x.
Proof.
  unfold zget, zset, zlen. intros ?. rewrite !decide_True by lia.
  apply list_lookup_insert_eq. lia.
Qed.
Lemma zget_zset_ne l i j x : i <> j -> l.[i := x].[j] = l.[j].
Proof.
  unfold zget, zset. intros ?. case_decide; [| done]. case_decide; [| done].
  apply list_lookup_insert_ne. lia.
Qed.
Lemma zget_zset l i j x :
  l.[i := x].[j] = if decide (i = j /\ 0 <= i < zlen l) then Some x else l.[j].
Proof.
  case_decide as Hd.
  - destruct Hd as [<- ?]. by apply zget_zset_eq.
  - destruct (decide (i = j)) as [<- | ?]; [| by apply zget_zset_ne].
    rewrite !zget_None; [done | tauto | rewrite zlen_zset; tauto].
Qed.
Lemma zget_ext l k : (forall i, l.[i] = k.[i]) -> l = k.
Proof.
  intros H. apply list_eq. intros n. specialize (H (Z.of_nat n)).
  unfold zget in H. rewrite !decide_True, !Nat2Z.id in H by lia. exact H.
Qed.
Lemma zset_id l i x : l.[i] = Some x -> l.[i := x] = l.
Proof.
  intros H. apply zget_ext. intros j. rewrite zget_zset.
  case_decide as Hd; [| done]. destruct Hd as [<- _]. done.
Qed.
Lemma zset_zset l i x y : l.[i := x].[i := y] = l.[i := y].
Proof.
  apply zget_ext. intros j. rewrite !zget_zset, zlen_zset.
  by repeat case_decide.
Qed.
Lemma zset_comm l i j x y :
  i <> j -> l.[i := x].[j := y] = l.[j := y].[i := x].
Proof.
  intros. apply zget_ext. intros m. rewrite !zget_zset, !zlen_zset.
  repeat case_decide; try done. lia.
Qed.
Lemma zget_app_l l k i : i < zlen l -> (l ++ k).[i] = l.[i].
Proof.
  unfold zget, zlen. intros. case_decide; [| done].
  apply lookup_app_l. lia.
Qed.
Lemma zget_app_r l k i : zlen l <= i -> (l ++ k).[i] = k.[i - zlen l].
Proof.
  unfold zget, zlen. intros. rewrite !decide_True by lia.
  rewrite lookup_app_r by lia. f_equal. lia.
Qed.
Lemma zget_ztake n l i : i < n -> (ztake n l).[i] = l.[i].
Proof.
  unfold zget, ztake. intros. case_decide; [| done].
  apply lookup_take_lt. lia.
Qed.
Lemma zget_zdrop n l i : 0 <= n -> 0 <= i -> (zdrop n l).[i] = l.[n + i].
Proof.
  unfold zget, zdrop. intros. rewrite !decide_True by lia.
  rewrite lookup_drop. f_equal. lia.
Qed.
Lemma zget_zslice i n l j :
  0 <= i -> 0 <= j < n -> (zslice i n l).[j] = l.[i + j].
Proof. intros. unfold zslice. rewrite zget_ztake, zget_zdrop by lia. done. Qed.
Lemma zget_zrep n x i : 0 <= i < n -> (zrep n x).[i] = Some x.
Proof.
  unfold zget, zrep. intros. rewrite decide_True by lia.
  apply lookup_replicate_2. lia.
Qed.
Lemma zget_fmap {B} (f : A -> B) l i : (f <$> l).[i] = f <$> l.[i].
Proof. unfold zget. case_decide; [by rewrite list_lookup_fmap | done]. Qed.
Lemma zset_fmap {B} (f : A -> B) l i x : f <$> l.[i := x] = (f <$> l).[i := f x].
Proof. unfold zset. case_decide; [by rewrite list_fmap_insert | done]. Qed.
Lemma ztake_zdrop n l : ztake n l ++ zdrop n l = l.
Proof. apply take_drop. Qed.
Lemma ztake_app_eq n l k : zlen l = n -> ztake n (l ++ k) = l.
Proof.
  unfold ztake, zlen. intros <-. rewrite Nat2Z.id. apply take_app_length.
Qed.
Lemma zdrop_app_eq n l k : zlen l = n -> zdrop n (l ++ k) = k.
Proof.
  unfold zdrop, zlen. intros <-. rewrite Nat2Z.id. apply drop_app_length.
Qed.
Lemma ztake_all n l : zlen l <= n -> ztake n l = l.
Proof. unfold ztake, zlen. intros. apply take_ge. lia. Qed.
Lemma zslice_0 n l : zslice 0 n l = ztake n l.
Proof. unfold zslice, zdrop. by rewrite drop_0. Qed.
Lemma zslice_all n l : zlen l = n -> zslice 0 n l = l.
Proof. intros. rewrite zslice_0. apply ztake_all. lia. Qed.

Lemma Forall_zset (P : A -> Prop) l i x :
  Forall P l -> P x -> Forall P l.[i := x].
Proof. intros. unfold zset. case_decide; [by apply Forall_insert | done]. Qed.
Lemma Forall_zget (P : A -> Prop) l i x : Forall P l -> l.[i] = Some x -> P x.
Proof.
  unfold zget. case_decide; [| done]. intros. by eapply Forall_lookup_1.
Qed.
Lemma Forall_zslice (P : A -> Prop) i n l : Forall P l -> Forall P (zslice i n l).
Proof. intros. by apply Forall_take, Forall_drop. Qed.
Lemma Forall_zrep (P : A -> Prop) n x : P x -> Forall P (zrep n x).
Proof. intros. by apply Forall_replicate. Qed.
End ArrayLemmas.

Lemma filter_ext_in {A} (P Q : A -> Prop) `{!forall x, Decision (P x), !forall x, Decision (Q x)}
    (l : list A) :
  (forall x, x ∈ l -> P x <-> Q x) -> filter P l = filter Q l.
Proof.
  induction l as [| x l IH]; intros Heq; [done |]. rewrite !filter_cons.
  rewrite IH by (intros; apply Heq; by right).
  assert (P x <-> Q x) by (apply Heq; left). repeat case_decide; tauto.
Qed.

Lemma filter_all {A} (P : A -> Prop) `{!forall x, Decision (P x)} (l : list A) :
  (forall x, x ∈ l -> P x) -> filter P l = l.
Proof.
  induction l as [| x l IH]; intros Hall; [done |]. rewrite filter_cons_True by (apply Hall; left).
  f_equal. apply IH. intros y Hy. apply Hall. by right.
Qed.

(** The value of an element the code reads at an index its loop keeps in range. *)
Definition znth {A : Type} (d : A) (l : list A) (i : Z) : A := default d l.[i].

Lemma znth_Some {A} (d : A) l i x : l.[i] = Some x -> znth d l i = x.
Proof. unfold znth. by intros ->. Qed.
Lemma zget_znth {A} (d : A) l i : 0 <= i < zlen l -> l.[i] = Some (znth d l i).
Proof. intros [x Hx]%zget_is_Some. unfold znth. by rewrite Hx. Qed.

(** ** Loops that stop at the first index that satisfies a test

    [for (i = lo; i < hi; i++) if (p(i)) break;] *)

Fixpoint find_loop (n : nat) (i : Z) (p : Z -> bool) : option Z :=
  match n with
  | O => None
  | S n' => if p i then Some i else find_loop n' (i + 1) p
  end.
Definition for_find (lo hi : Z) (p : Z -> bool) : option Z :=
  find_loop (Z.to_nat (hi - lo)) lo p.

Lemma find_loop_Some n : forall i p r,
  find_loop n i p = Some r <->
  i <= r < i + Z.of_nat n /\ p r = true /\ (forall j, i <= j < r -> p j = false).
Proof.
  induction n as [| n IH]; intros i p r; cbn [find_loop].
  - split; [done | intros (? & ? & ?); lia].
  - destruct (p i) eqn:Hp.
    + split.
      * intros [= <-]. split; [lia |]. split; [done | lia].
      * intros (Hr & Hpr & Hlt). destruct (decide (i = r)) as [-> | ?]; [done |].
        rewrite Hlt in Hp by lia. done.
    + rewrite IH. split; intros (Hr & Hpr & Hlt); split_and!; try done; try lia.
      * intros j Hj. destruct (decide (j = i)) as [-> | ?]; [done | apply Hlt; lia].
      * destruct (decide (i = r)) as [-> | ?]; [congruence | lia].
      * intros j Hj. apply Hlt. lia.
Qed.

Lemma find_loop_None n : forall i p,
  find_loop n i p = None <-> (forall j, i <= j < i + Z.of_nat n -> p j = false).
Proof.
  induction n as [| n IH]; intros i p; cbn [find_loop].
  - split; [intros _ j ?; lia | done].
  - destruct (p i) eqn:Hp.
    + split; [done |]. intros H. rewrite H in Hp by lia. done.
    + rewrite IH. split; intros H j Hj.
      * destruct (decide (j = i)) as [-> | ?]; [done | apply H; lia].
      * apply H; lia.
Qed.

Lemma for_find_Some lo hi p r :
  for_find lo hi p = Some r <->
  lo <= r < hi /\ p r = true /\ (forall j, lo <= j < r -> p j = false).
Proof.
  unfold for_find. rewrite find_loop_Some.
  split; intros (? & ? & ?); split_and!; try done; lia.
Qed.
Lemma for_find_None lo hi p :
  for_find lo hi p = None <-> (forall j, lo <= j < hi -> p j = false).
Proof.
  unfold for_find. rewrite find_loop_None.
  split; intros H j Hj; apply H; lia.
Qed.
Lemma for_find_ext lo hi p q :
  (forall j, lo <= j < hi -> p j = q j) -> for_find lo hi p = for_find lo hi q.
Proof.
  intros Hpq. destruct (for_find lo hi q) as [r |] eqn:Hq.
  - apply for_find_Some in Hq as (? & ? & Hlt). apply for_find_Some.
    split; [done |]. split; [by rewrite Hpq |].
    intros j ?. rewrite Hpq by lia. apply Hlt. lia.
  - apply for_find_None. rewrite for_find_None in Hq.
    intros j ?. rewrite Hpq by lia. by apply Hq.
Qed.

(** ** Little-endian words

    A packed field of [n] bytes holds its value least significant byte first. *)

Fixpoint le_bytes (n : nat) (x : Z) : list Z :=
  match n with
  | O => []
  | S n' => x mod 256 :: le_bytes n' (x / 256)
  end.
Fixpoint le_val (bs : list Z) : Z :=
  match bs with
  | [] => 0
  | b :: bs' => b + 256 * le_val bs'
  end.

Lemma zlen_le_bytes n x : zlen (le_bytes n x) = Z.of_nat n.
Proof.
  revert x. induction n as [| n IH]; intros x; cbn [le_bytes]; [done |].
  rewrite zlen_cons, IH. lia.
Qed.
Lemma le_bytes_all_bytes n x : all_bytes (le_bytes n x).
Proof.
  revert x. induction n as [| n IH]; intros x; cbn [le_bytes]; constructor; [| done].
  apply (Z.mod_pos_bound x 256). lia.
Qed.
Lemma le_val_le_bytes n x : le_val (le_bytes n x) = x mod 2 ^ (8 * Z.of_nat n).
Proof.
  revert x. induction n as [| n IH]; intros x; cbn [le_bytes le_val].
  - by rewrite Z.mod_1_r.
  - rewrite IH.
    replace (8 * Z.of_nat (S n)) with (8 + 8 * Z.of_nat n) by lia.
    rewrite Z.pow_add_r by lia. change (2 ^ 8) with 256.
    rewrite Z.rem_mul_r by lia. done.
Qed.
Lemma le_val_le_bytes_small n x :
  0 <= x < 2 ^ (8 * Z.of_nat n) -> le_val (le_bytes n x) = x.
Proof. intros. rewrite le_val_le_bytes. by apply Z.mod_small. Qed.
Lemma le_val_range bs : all_bytes bs -> 0 <= le_val bs < 2 ^ (8 * zlen bs).
Proof.
  induction 1 as [| b bs Hb _ IH]; cbn [le_val]; [done |].
  rewrite zlen_cons, Z.mul_add_distr_l, Z.pow_add_r by (pose proof (zlen_nonneg bs); lia).
  unfold is_byte in Hb. lia.
Qed.
Lemma le_bytes_le_val bs n :
  all_bytes bs -> zlen bs = Z.of_nat n -> le_bytes n (le_val bs) = bs.
Proof.
  intros Hbs. revert n. induction Hbs as [| b bs Hb _ IH]; intros n Hn.
  - destruct n; [done | unfold zlen in Hn; cbn in Hn; lia].
  - rewrite zlen_cons in Hn. pose proof (zlen_nonneg bs).
    destruct n as [| n]; [lia |]. cbn [le_val le_bytes]. unfold is_byte in Hb.
    rewrite (Z.mul_comm 256), Z_mod_plus_full, Z.mod_small by lia.
    rewrite Z.div_add, Z.div_small, Z.add_0_l by lia. f_equal. apply IH. lia.
Qed.

(** ** Records packed one after another *)

Fixpoint chunks (k : Z) (n : nat) (l : list Z) : list (list Z) :=
  match n with
  | O => []
  | S n' => ztake k l :: chunks k n' (zdrop k l)
  end.

Section Packed.
Context {R : Type} (k : Z) (enc : R -> list Z) (dec : list Z -> R) (ok : R -> Prop).
Context (Hk : 0 < k).

Definition enc_all (rs : list R) : list Z := concat (enc <$> rs).
Definition dec_all (n : nat) (l : list Z) : list R := dec <$> chunks k n l.

Lemma length_chunks n l : length (chunks k n l) = n.
Proof. revert l. induction n; intros l; cbn [chunks length]; auto. Qed.
Lemma zlen_dec_all n l : zlen (dec_all n l) = Z.of_nat n.
Proof. unfold dec_all. rewrite zlen_fmap. unfold zlen. by rewrite length_chunks. Qed.

Context (enc_len : forall r, ok r -> zlen (enc r) = k).

Lemma zlen_enc_all rs : Forall ok rs -> zlen (enc_all rs) = k * zlen rs.
Proof.
  unfold enc_all. induction 1 as [| r rs Hr _ IH]; [unfold zlen; cbn; lia |].
  cbn [fmap list_fmap concat]. rewrite zlen_app, zlen_cons, enc_len, IH by done. lia.
Qed.

Lemma dec_enc_all (dec_enc : forall r, ok r -> dec (enc r) = r) rs n :
  Forall ok rs -> zlen rs = Z.of_nat n -> dec_all n (enc_all rs) = rs.
Proof.
  unfold dec_all, enc_all. intros Hrs. revert n.
  induction Hrs as [| r rs Hr _ IH]; intros n Hn.
  - destruct n; [done | unfold zlen in Hn; cbn in Hn; lia].
  - rewrite zlen_cons in Hn. pose proof (zlen_nonneg rs).
    destruct n as [| n]; [lia |].
    cbn [fmap list_fmap concat chunks].
    rewrite ztake_app_eq, zdrop_app_eq, dec_enc by auto.
    f_equal. apply IH. lia.
Qed.

Lemma enc_dec_all
    (enc_dec : forall l, all_bytes l -> zlen l = k -> enc (dec l) = l) n : forall l,
  all_bytes l -> zlen l = k * Z.of_nat n -> enc_all (dec_all n l) = l.
Proof.
  unfold dec_all, enc_all. induction n as [| n IH]; intros l Hl Hn.
  - rewrite (zlen_0_inv l) by lia. done.
  - cbn [fmap list_fmap concat chunks].
    rewrite enc_dec.
    + rewrite IH.
      * apply ztake_zdrop.
      * by apply Forall_drop.
      * rewrite zlen_zdrop. nia.
    + by apply Forall_take.
    + rewrite zlen_ztake. nia.
Qed.

Lemma dec_all_ok (dec_ok : forall l, all_bytes l -> zlen l = k -> ok (dec l)) n : forall l,
  all_bytes l -> zlen l = k * Z.of_nat n -> Forall ok (dec_all n l).
Proof.
  unfold dec_all. induction n as [| n IH]; intros l Hl Hn; [constructor |].
  cbn [fmap list_fmap chunks]. constructor.
  - apply dec_ok; [by apply Forall_take | rewrite zlen_ztake; nia].
  - apply IH; [by apply Forall_drop | rewrite zlen_zdrop; nia].
Qed.

Lemma enc_all_bytes (enc_bytes : forall r, ok r -> all_bytes (enc r)) rs :
  Forall ok rs -> all_bytes (enc_all rs).
Proof.
  unfold enc_all. induction 1; cbn [fmap list_fmap concat]; [constructor |].
  apply Forall_app; auto.
Qed.

(** The [i]-th record of a packed array. *)
Lemma zslice_enc_all rs : Forall ok rs -> forall i r,
  rs.[i] = Some r -> zslice (k * i) k (enc_all rs) = enc r.
Proof.
  unfold enc_all. induction 1 as [| r0 rs Hr0 _ IH]; intros i r Hi.
  - by rewrite zget_None in Hi by (unfold zlen; cbn; lia).
  - cbn [fmap list_fmap concat]. pose proof (zget_range _ _ _ Hi) as Hrg.
    destruct (decide (i = 0)) as [-> | ?].
    + cbn in Hi. injection Hi as ->. rewrite Z.mul_0_r, zslice_0.
      by apply ztake_app_eq, enc_len.
    + specialize (IH (i - 1) r).
      change (r0 :: rs) with ([r0] ++ rs) in Hi.
      rewrite zget_app_r in Hi by (unfold zlen; cbn; lia).
      change (zlen [r0]) with 1 in Hi. rewrite <- (IH Hi).
      unfold zslice at 1. f_equal. unfold zdrop.
      replace (Z.to_nat (k * i))
        with (length (enc r0) + Z.to_nat (k * (i - 1)))%nat.
      * by rewrite <- drop_drop, drop_app_length.
      * specialize (enc_len r0 Hr0). unfold zlen in enc_len. nia.
Qed.
End Packed.

(** ** Packed structs

    Integer fields of the given widths (in bytes), one after another. *)

Fixpoint enc_fields (ws : list nat) (vs : list Z) : list Z :=
  match ws, vs with
  | w :: ws', v :: vs' => le_bytes w v ++ enc_fields ws' vs'
  | _, _ => []
  end.
Fixpoint dec_fields (ws : list nat) (l : list Z) : list Z :=
  match ws with
  | [] => []
  | w :: ws' => le_val (ztake (Z.of_nat w) l) :: dec_fields ws' (zdrop (Z.of_nat w) l)
  end.
Definition fields_width (ws : list nat) : Z := Z.of_nat (sum_list ws).
Definition field_ok (w : nat) (v : Z) : Prop := 0 <= v < 2 ^ (8 * Z.of_nat w).

Lemma fields_width_cons w ws : fields_width (w :: ws) = Z.of_nat w + fields_width ws.
Proof. unfold fields_width. cbn -[Z.of_nat]. unfold id. lia. Qed.
Lemma zlen_enc_fields ws vs :
  length ws = length vs -> zlen (enc_fields ws vs) = fields_width ws.
Proof.
  revert vs. induction ws as [| w ws IH]; intros [| v vs] Hlen; try done.
  cbn [enc_fields]. rewrite zlen_app, zlen_le_bytes, fields_width_cons, IH; auto.
Qed.
Lemma enc_fields_bytes ws vs : all_bytes (enc_fields ws vs).
Proof.
  revert vs. induction ws as [| w ws IH]; intros [| v vs]; cbn [enc_fields]; try constructor.
  apply Forall_app. split; [apply le_bytes_all_bytes | apply IH].
Qed.
Lemma dec_enc_fields ws vs rest :
  Forall2 field_ok ws vs -> dec_fields ws (enc_fields ws vs ++ rest) = vs.
Proof.
  induction 1 as [| w v ws vs Hv _ IH]; [done |].
  cbn [enc_fields dec_fields]. rewrite <- app_assoc.
  rewrite ztake_app_eq, zdrop_app_eq by apply zlen_le_bytes.
  by rewrite le_val_le_bytes_small, IH.
Qed.
Lemma enc_dec_fields ws l :
  all_bytes l -> zlen l = fields_width ws -> enc_fields ws (dec_fields ws l) = l.
Proof.
  revert l. induction ws as [| w ws IH]; intros l Hl Hlen; cbn [enc_fields dec_fields].
  - by rewrite (zlen_0_inv l).
  - rewrite fields_width_cons in Hlen. unfold fields_width in Hlen.
    rewrite le_bytes_le_val, IH.
    + apply ztake_zdrop.
    + by apply Forall_drop.
    + rewrite zlen_zdrop. unfold fields_width. lia.
    + by apply Forall_take.
    + rewrite zlen_ztake. lia.
Qed.
Lemma dec_fields_ok ws l :
  all_bytes l -> zlen l = fields_width ws -> Forall2 field_ok ws (dec_fields ws l).
Proof.
  revert l. induction ws as [| w ws IH]; intros l Hl Hlen; cbn [dec_fields]; constructor.
  - rewrite fields_width_cons in Hlen. unfold fields_width in Hlen.
    pose proof (le_val_range (ztake (Z.of_nat w) l)) as Hr.
    rewrite zlen_ztake in Hr. unfold field_ok.
    replace (Z.min (Z.max 0 (Z.of_nat w)) (zlen l)) with (Z.of_nat w) in Hr by lia.
    apply Hr. by apply Forall_take.
  - rewrite fields_width_cons in Hlen. apply IH; [by apply Forall_drop |].
    rewrite zlen_zdrop. unfold fields_width in *. lia.
Qed.
