(* ===== verification/Memory.v ===== *)
(** Memory: byte-addressed memory behind an interface, and the block copies
    built from byte accesses. The kernel's paged memory (Paging.v) and a flat
    address range ([FlatMem]) are its instances. *)

From Stdlib Require Import ZArith Lia.
From stdpp Require Import base tactics numbers list gmap fin_maps.
From S2P Require Import Prelude.

(** A memory sends an address to the cell that holds its byte, or to nothing
    when the address is not mapped; two addresses may share a cell. *)
Class ByteMem (M : Type) := {
  mem_resolve : M -> Z -> option Z;
  mem_get : M -> Z -> Z;
  mem_put : Z -> Z -> M -> M
}.

Class ByteMemLaws (M : Type) `{ByteMem M} := {
  mem_get_byte m c : is_byte (mem_get m c);
  mem_resolve_put m c v a : mem_resolve (mem_put c v m) a = mem_resolve m a;
  mem_get_put_eq m c v : mem_get (mem_put c v m) c = u8 v;
  mem_get_put_ne m c c' v : c <> c' -> mem_get (mem_put c v m) c' = mem_get m c'
}.

Section Access.
Context {M : Type} `{ByteMem M}.

(** [*(uint8_t* ) a] and [*(uint8_t* ) a = v]; pointer arithmetic wraps at 32
    bits. *)
Definition load8 (a : Z) (m : M) : Res Z :=
  match mem_resolve m (u32 a) with
  | Some c => Ok (mem_get m c)
  | None => Fault PageFault
  end.
Definition store8 (a v : Z) (m : M) : Res M :=
  match mem_resolve m (u32 a) with
  | Some c => Ok (mem_put c v m)
  | None => Fault PageFault
  end.

Fixpoint load_bytes (n : nat) (a : Z) (m : M) : Res (list Z) :=
  match n with
  | O => Ok []
  | S n' => res_bind (load8 a m) (fun b =>
            res_bind (load_bytes n' (a + 1) m) (fun bs => Ok (b :: bs)))
  end.
Fixpoint store_bytes (a : Z) (bs : list Z) (m : M) : Res M :=
  match bs with
  | [] => Ok m
  | b :: bs' => res_bind (store8 a b m) (store_bytes (a + 1) bs')
  end.

(** The [n] addresses from [a] are mapped; they are mapped to distinct
    cells. *)
Definition mapped (m : M) (a n : Z) : Prop :=
  forall i, 0 <= i < n -> is_Some (mem_resolve m (u32 (a + i))).
Definition separate (m : M) (a n : Z) : Prop :=
  forall i j, 0 <= i < n -> 0 <= j < n ->
  mem_resolve m (u32 (a + i)) = mem_resolve m (u32 (a + j)) -> i = j.
Definition in_range (m : M) (a n c : Z) : Prop :=
  exists i, 0 <= i < n /\ mem_resolve m (u32 (a + i)) = Some c.
(** The [n] bytes from [a] are [bs]. *)
Definition holds (m : M) (a : Z) (bs : list Z) : Prop :=
  forall i b, bs.[i] = Some b ->
  exists c, mem_resolve m (u32 (a + i)) = Some c /\ mem_get m c = b.
End Access.

Section AccessLemmas.
Context {M : Type} `{ByteMemLaws M}.
Implicit Types (m : M) (a n : Z) (bs : list Z).

Lemma mapped_shift m a n : mapped m a n -> mapped m (a + 1) (n - 1).
Proof.
  intros Hm i Hi. replace (a + 1 + i) with (a + (i + 1)) by lia. apply Hm. lia.
Qed.
Lemma mapped_le m a n k : mapped m a n -> k <= n -> mapped m a k.
Proof. intros Hm Hk i Hi. apply Hm. lia. Qed.
Lemma mapped_sub m a n o k :
  mapped m a n -> 0 <= o -> o + k <= n -> mapped m (a + o) k.
Proof.
  intros Hm Ho Hk i Hi. rewrite <- Z.add_assoc. apply Hm. lia.
Qed.
Lemma mapped_u32 m a n : mapped m (u32 a) n <-> mapped m a n.
Proof. unfold mapped. by setoid_rewrite u32_add_l. Qed.
Lemma separate_shift m a n : separate m a n -> separate m (a + 1) (n - 1).
Proof.
  intros Hs i j Hi Hj Heq. specialize (Hs (i + 1) (j + 1)).
  rewrite !Z.add_assoc, !(Z.add_shuffle0 a _ 1) in Hs.
  specialize (Hs ltac:(lia) ltac:(lia) Heq). lia.
Qed.
Lemma separate_sub m a n o k :
  separate m a n -> 0 <= o -> o + k <= n -> separate m (a + o) k.
Proof.
  intros Hs Ho Hk i j Hi Hj Heq. rewrite <- !Z.add_assoc in Heq.
  apply Hs in Heq; lia.
Qed.
Lemma load_bytes_u32 (n : nat) : forall a m, load_bytes n (u32 a) m = load_bytes n a m.
Proof.
  assert (Hg : forall (n : nat) a b m, u32 a = u32 b -> load_bytes n a m = load_bytes n b m).
  { clear n. induction n as [| n IH]; intros a b m Hab; cbn [load_bytes]; [done |].
    unfold load8. rewrite Hab, (IH (a + 1) (b + 1)); [done |].
    by rewrite <- u32_add_l, Hab, u32_add_l. }
  intros. apply Hg, u32_idemp.
Qed.

Lemma load_bytes_mapped (n : nat) : forall a m,
  mapped m a (Z.of_nat n) ->
  exists bs, load_bytes n a m = Ok bs /\ zlen bs = Z.of_nat n /\ all_bytes bs /\
    holds m a bs.
Proof.
  induction n as [| n IH]; intros a m Hm; cbn [load_bytes].
  - exists []. split_and!; try done. intros i b Hi.
    apply zget_range in Hi. unfold zlen in Hi; cbn in Hi. lia.
  - destruct (Hm 0 ltac:(lia)) as [c Hc]. rewrite Z.add_0_r in Hc.
    unfold load8. rewrite Hc. cbn [res_bind].
    destruct (IH (a + 1) m) as (bs & Hl & Hlen & Hby & Hh).
    { eapply mapped_le; [by apply mapped_shift | lia]. }
    rewrite Hl. cbn [res_bind]. eexists. split; [done |].
    rewrite zlen_cons. split_and!; [lia | |].
    + constructor; [apply mem_get_byte | done].
    + intros i b Hi. pose proof (zget_range _ _ _ Hi).
      destruct (decide (i = 0)) as [-> | ?].
      * cbn in Hi. injection Hi as <-. rewrite Z.add_0_r. eauto.
      * change (mem_get m c :: bs) with ([mem_get m c] ++ bs) in Hi.
        rewrite zget_app_r in Hi by (unfold zlen; cbn; lia).
        change (zlen [mem_get m c]) with 1 in Hi.
        destruct (Hh _ _ Hi) as (c' & Hr & Hg). exists c'.
        by replace (a + i) with (a + 1 + (i - 1)) by lia.
Qed.

(** The bytes an address range holds are determined. *)
Lemma load_bytes_holds (n : nat) : forall a m bs,
  zlen bs = Z.of_nat n -> holds m a bs -> load_bytes n a m = Ok bs.
Proof.
  induction n as [| n IH]; intros a m bs Hn Hh; cbn [load_bytes].
  - by rewrite (zlen_0_inv bs).
  - destruct bs as [| b bs]; [unfold zlen in Hn; cbn in Hn; lia |].
    rewrite zlen_cons in Hn.
    destruct (Hh 0 b eq_refl) as (c & Hr & Hg). rewrite Z.add_0_r in Hr.
    unfold load8. rewrite Hr, Hg. cbn [res_bind].
    rewrite (IH (a + 1) m bs); [done | lia |].
    intros i b' Hi. pose proof (zget_range _ _ _ Hi).
    replace (a + 1 + i) with (a + (i + 1)) by lia. apply Hh.
    change (b :: bs) with ([b] ++ bs). rewrite zget_app_r by (unfold zlen; cbn; lia).
    change (zlen [b]) with 1. by replace (i + 1 - 1) with i by lia.
Qed.

Lemma load_bytes_inv (n : nat) a m bs :
  load_bytes n a m = Ok bs -> mapped m a (Z.of_nat n) -> holds m a bs /\ zlen bs = Z.of_nat n.
Proof.
  intros Hl Hm. destruct (load_bytes_mapped n a m Hm) as (cs & Hcs & Hlen & _ & Hh).
  rewrite Hl in Hcs. by injection Hcs as <-.
Qed.

Lemma holds_ztake m a bs n : holds m a bs -> holds m a (ztake n bs).
Proof.
  intros Hh i b Hi. pose proof (zget_range _ _ _ Hi) as Hr. rewrite zlen_ztake in Hr.
  rewrite zget_ztake in Hi by lia. by apply Hh.
Qed.

(** What a block store does: it fails only on an unmapped address, keeps the
    mapping, leaves every cell outside the range alone, and leaves the bytes
    in the range when no two of its addresses share a cell. *)
Record stored (m : M) (a : Z) (bs : list Z) (m' : M) : Prop := {
  stored_resolve : forall x, mem_resolve m' x = mem_resolve m x;
  stored_frame : forall c, ~ in_range m a (zlen bs) c -> mem_get m' c = mem_get m c;
  stored_holds : separate m a (zlen bs) -> all_bytes bs -> holds m' a bs
}.

Lemma store_bytes_mapped bs : forall a m,
  mapped m a (zlen bs) ->
  exists m', store_bytes a bs m = Ok m' /\ stored m a bs m'.
Proof.
  induction bs as [| b bs IH]; intros a m Hm; cbn [store_bytes].
  - exists m. split; [done |]. split; [done | done |].
    intros _ _ i x Hi. apply zget_range in Hi. unfold zlen in Hi; cbn in Hi. lia.
  - rewrite zlen_cons in Hm. pose proof (zlen_nonneg bs).
    destruct (Hm 0 ltac:(lia)) as [c Hc]. rewrite Z.add_0_r in Hc.
    unfold store8. rewrite Hc. cbn [res_bind].
    destruct (IH (a + 1) (mem_put c b m)) as (m' & Hst & [Hres Hfr Hho]).
    { intros i Hi. rewrite mem_resolve_put.
      replace (a + 1 + i) with (a + (i + 1)) by lia. apply Hm. lia. }
    exists m'. split; [done |]. split.
    + intros x. by rewrite Hres, mem_resolve_put.
    + intros c' Hc'. rewrite (Hfr c').
      * apply mem_get_put_ne. intros ->. apply Hc'.
        exists 0. rewrite zlen_cons, Z.add_0_r. split; [lia | done].
      * intros (i & Hi & Hri). rewrite mem_resolve_put in Hri. apply Hc'.
        exists (i + 1). rewrite zlen_cons.
        split; [lia | by replace (a + (i + 1)) with (a + 1 + i) by lia].
    + intros Hsep [Hb Hbs]%Forall_cons_1 i x Hi.
      rewrite zlen_cons in Hsep. pose proof (zget_range _ _ _ Hi) as Hir.
      rewrite zlen_cons in Hir.
      destruct (decide (i = 0)) as [-> | ?].
      * cbn in Hi. injection Hi as <-. exists c.
        rewrite Z.add_0_r, Hres, mem_resolve_put. split; [done |].
        rewrite (Hfr c); [rewrite mem_get_put_eq; by apply u8_small |].
        intros (j & Hj & Hrj). rewrite mem_resolve_put in Hrj.
        specialize (Hsep 0 (j + 1) ltac:(lia) ltac:(lia)).
        rewrite Z.add_0_r, Hc in Hsep.
        replace (a + (j + 1)) with (a + 1 + j) in Hsep by lia.
        rewrite Hrj in Hsep. specialize (Hsep eq_refl). lia.
      * change (b :: bs) with ([b] ++ bs) in Hi.
        rewrite zget_app_r in Hi by (unfold zlen; cbn; lia).
        change (zlen [b]) with 1 in Hi.
        destruct (Hho) with (i := i - 1) (b := x) as (c' & Hr' & Hg').
        -- intros p q Hp Hq. rewrite !mem_resolve_put.
           apply (separate_shift _ _ _ Hsep); lia.
        -- done.
        -- done.
        -- exists c'. by replace (a + i) with (a + 1 + (i - 1)) by lia.
Qed.
End AccessLemmas.

Section StoredLemmas.
Context {M : Type} `{ByteMemLaws M}.
Implicit Types (m : M) (a n : Z) (bs : list Z).

Lemma stored_mapped m a bs m' b n : stored m a bs m' -> mapped m b n -> mapped m' b n.
Proof. intros [Hres _ _] Hm i Hi. rewrite Hres. by apply Hm. Qed.
Lemma stored_separate m a bs m' b n :
  stored m a bs m' -> separate m b n -> separate m' b n.
Proof. intros [Hres _ _] Hs i j. rewrite !Hres. apply Hs. Qed.
Lemma stored_holds_other m a bs m' b cs :
  stored m a bs m' ->
  (forall c, in_range m a (zlen bs) c -> ~ in_range m b (zlen cs) c) ->
  holds m b cs -> holds m' b cs.
Proof.
  intros [Hres Hfr _] Hdisj Hh i x Hi. destruct (Hh _ _ Hi) as (c & Hr & Hg).
  exists c. rewrite Hres. split; [done |]. rewrite Hfr; [done |].
  intros Hc. apply (Hdisj _ Hc). exists i. split; [by eapply zget_range | done].
Qed.

Lemma store_bytes_app bs : forall a cs m,
  store_bytes a (bs ++ cs) m =
  res_bind (store_bytes a bs m) (store_bytes (a + zlen bs) cs).
Proof.
  induction bs as [| b bs IH]; intros a cs m; cbn [app store_bytes].
  - by rewrite zlen_nil, Z.add_0_r.
  - destruct (store8 a b m) as [m' |]; cbn [res_bind]; [| done].
    rewrite IH, zlen_cons. by replace (a + 1 + zlen bs) with (a + (zlen bs + 1)) by lia.
Qed.
End StoredLemmas.

(** ** A flat address range

    Bytes at [flat_lo <= a < flat_hi], each its own cell; a byte never stored
    reads as zero. *)

Record FlatMem := {
  flat_lo : Z;
  flat_hi : Z;
  flat_cells : gmap Z Z
}.

#[export] Instance flat_byte_mem : ByteMem FlatMem := {|
  mem_resolve m a := if decide (flat_lo m <= a < flat_hi m) then Some a else None;
  mem_get m c := u8 (default 0 (flat_cells m !! c));
  mem_put c v m :=
    {| flat_lo := flat_lo m; flat_hi := flat_hi m; flat_cells := <[c := u8 v]> (flat_cells m) |}
|}.

#[export] Instance flat_byte_mem_laws : ByteMemLaws FlatMem.
Proof.
  split; unfold mem_get, mem_put, mem_resolve; cbn.
  - intros. apply u8_range.
  - done.
  - intros. rewrite lookup_insert_eq. apply u8_small, u8_range.
  - intros. by rewrite lookup_insert_ne.
Qed.

Lemma flat_mapped (m : FlatMem) a n :
  flat_lo m <= a -> a + n <= flat_hi m -> 0 <= a -> flat_hi m <= 2 ^ 32 -> mapped m a n.
Proof.
  intros. intros i Hi. rewrite u32_small by lia. cbn. rewrite decide_True by lia. eauto.
Qed.
Lemma flat_separate (m : FlatMem) a n :
  flat_lo m <= a -> a + n <= flat_hi m -> 0 <= a -> flat_hi m <= 2 ^ 32 -> separate m a n.
Proof.
  intros ? ? ? ? i j Hi Hj. rewrite !u32_small by lia. cbn.
  rewrite !decide_True by lia. intros [= ?]. lia.
Qed.
Lemma flat_resolve (m : FlatMem) a c : mem_resolve m a = Some c -> a = c.
Proof. cbn. case_decide; [by intros [= ->] | done]. Qed.
