(* ===== verification/CString.v ===== *)
(** CString: the memory functions of src/std/string.c. *)

From Stdlib Require Import ZArith Lia.
From stdpp Require Import base tactics numbers list gmap.
From S2P Require Import Prelude Memory.

(** ** memcmp

    A [const uint8_t*] argument is the function that reads [buf[i]]: an array,
    or bytes at an address. *)

Definition byte_ptr : Type := Z -> Res Z.
Definition array_ptr (l : list Z) : byte_ptr := fun i => of_option BadAccess l.[i].

Fixpoint memcmp_loop (n : nat) (i : Z) (buf1 buf2 : byte_ptr) : Res Z :=
  match n with
  | O => Ok 0
  | S n' =>
    res_bind (buf1 i) (fun x =>
    res_bind (buf2 i) (fun y =>
    if x <? y then Ok (-1)
    else if y <? x then Ok 1
    else memcmp_loop n' (i + 1) buf1 buf2))
  end.
Definition memcmp (s1 s2 : byte_ptr) (n : Z) : Res Z := memcmp_loop (Z.to_nat n) 0 s1 s2.

(** [memcmp(s1, s2, n) == 0] on two arrays that hold at least [n] bytes. *)
Definition mem_eq (s1 s2 : list Z) (n : Z) : bool :=
  match memcmp (array_ptr s1) (array_ptr s2) n with
  | Ok r => r =? 0
  | Fault _ => false
  end.

Section MemoryFunctions.
Context {M : Type} `{ByteMem M}.

Definition mem_ptr (a : Z) (m : M) : byte_ptr := fun i => load8 (a + i) m.

(** [for (i = 0; i < n; i++) buf[i] = (uint8_t) c;] *)
Fixpoint memset_loop (n : nat) (i s c : Z) (m : M) : Res M :=
  match n with
  | O => Ok m
  | S n' => res_bind (store8 (s + i) (u8 c) m) (memset_loop n' (i + 1) s c)
  end.
Definition memset (s c n : Z) (m : M) : Res M := memset_loop (Z.to_nat n) 0 s c m.

(** [for (i = 0; i < n; i++) dstbuf[i] = srcbuf[i];] *)
Fixpoint memcpy_loop (n : nat) (i dest src : Z) (m : M) : Res M :=
  match n with
  | O => Ok m
  | S n' =>
    res_bind (load8 (src + i) m) (fun v =>
    res_bind (store8 (dest + i) v m) (memcpy_loop n' (i + 1) dest src))
  end.
Definition memcpy (dest src n : Z) (m : M) : Res M := memcpy_loop (Z.to_nat n) 0 dest src m.

(** [for (i = n; i != 0; i--) dstbuf[i-1] = srcbuf[i-1];] *)
Fixpoint memmove_down (n : nat) (dest src : Z) (m : M) : Res M :=
  match n with
  | O => Ok m
  | S n' =>
    let i := Z.of_nat n in
    res_bind (load8 (src + (i - 1)) m) (fun v =>
    res_bind (store8 (dest + (i - 1)) v m) (memmove_down n' dest src))
  end.
Definition memmove (dest src n : Z) (m : M) : Res M :=
  if u32 dest <? u32 src
  then memcpy_loop (Z.to_nat n) 0 dest src m
  else memmove_down (Z.to_nat n) dest src m.
End MemoryFunctions.

(** ** memcmp decides equality *)

Lemma memcmp_loop_zero n : forall i s1 s2,
  0 <= i -> i + Z.of_nat n <= zlen s1 -> i + Z.of_nat n <= zlen s2 ->
  exists r, memcmp_loop n i (array_ptr s1) (array_ptr s2) = Ok r /\
  (r = 0 <-> forall j, i <= j < i + Z.of_nat n -> s1.[j] = s2.[j]).
Proof.
  induction n as [| n IH]; intros i s1 s2 Hi H1 H2; cbn [memcmp_loop].
  - exists 0. split; [done |]. split; [intros _ j ?; lia | done].
  - destruct (zget_is_Some s1 i ltac:(lia)) as [x Hx].
    destruct (zget_is_Some s2 i ltac:(lia)) as [y Hy].
    unfold array_ptr at 1 2. rewrite Hx, Hy. cbn [of_option res_bind].
    destruct (Z.ltb_spec x y); [| destruct (Z.ltb_spec y x)].
    1, 2: eexists; split; [done |]; split; [lia |]; intros Hj;
      specialize (Hj i ltac:(lia)); rewrite Hx, Hy in Hj; injection Hj as ->; lia.
    destruct (IH (i + 1) s1 s2) as (r & Hr & Hiff); [lia.. |].
    exists r. split; [done |]. rewrite Hiff. split; intros Hj j Hjr.
    + destruct (decide (j = i)) as [-> | ?]; [rewrite Hx, Hy; f_equal; lia | apply Hj; lia].
    + apply Hj. lia.
Qed.

Lemma mem_eq_true n s1 s2 :
  0 <= n -> n <= zlen s1 -> n <= zlen s2 ->
  mem_eq s1 s2 n = true <-> ztake n s1 = ztake n s2.
Proof.
  intros Hn H1 H2. unfold mem_eq, memcmp.
  destruct (memcmp_loop_zero (Z.to_nat n) 0 s1 s2) as (r & Hr & Hiff); [lia.. |].
  rewrite Hr, Z.eqb_eq, Hiff. split.
  - intros Hj. apply zget_ext. intros j.
    destruct (decide (0 <= j < n)) as [? | ?].
    + rewrite !zget_ztake by lia. apply Hj. lia.
    + rewrite !zget_None; rewrite ?zlen_ztake; done || lia.
  - intros Heq j Hj. rewrite <- (zget_ztake n s1), <- (zget_ztake n s2) by lia.
    by rewrite Heq.
Qed.

Lemma mem_eq_full n s1 s2 :
  zlen s1 = n -> zlen s2 = n -> mem_eq s1 s2 n = true <-> s1 = s2.
Proof.
  intros H1 H2. pose proof (zlen_nonneg s1).
  rewrite mem_eq_true by lia. by rewrite !ztake_all by lia.
Qed.

(** memcmp's sign is the order of the first bytes that differ, and a byte past
    that one is never read. *)
Lemma memcmp_first_difference n : forall i s1 s2 k x y,
  0 <= i -> i <= k < i + Z.of_nat n ->
  (forall j, i <= j < k -> exists b, s1.[j] = Some b /\ s2.[j] = Some b) ->
  s1.[k] = Some x -> s2.[k] = Some y -> x <> y ->
  memcmp_loop n i (array_ptr s1) (array_ptr s2) = Ok (if x <? y then -1 else 1).
Proof.
  induction n as [| n IH]; intros i s1 s2 k x y Hi Hk Hsame Hx Hy Hne; [lia |].
  cbn [memcmp_loop]. unfold array_ptr at 1 2.
  destruct (decide (i = k)) as [-> | ?].
  - rewrite Hx, Hy. cbn [of_option res_bind].
    destruct (Z.ltb_spec x y); [done |]. destruct (Z.ltb_spec y x); [done | lia].
  - destruct (Hsame i ltac:(lia)) as (b & Hb1 & Hb2).
    rewrite Hb1, Hb2. cbn [of_option res_bind]. rewrite Z.ltb_irrefl.
    apply (IH (i + 1) s1 s2 k); try done; [lia.. |]. intros j Hj. apply Hsame. lia.
Qed.

(** ** memset, memcpy, memmove as block stores *)

Section MemoryFunctionLemmas.
Context {M : Type} `{ByteMemLaws M}.
Implicit Types (m : M) (bs : list Z).

Lemma memset_loop_store n : forall i s c m,
  memset_loop n i s c m = store_bytes (s + i) (replicate n (u8 c)) m.
Proof.
  induction n as [| n IH]; intros i s c m; cbn [memset_loop replicate store_bytes]; [done |].
  destruct (store8 (s + i) (u8 c) m) as [m' | e]; cbn [res_bind]; [| done].
  by rewrite IH, Z.add_assoc.
Qed.

(** [apart m a b n k]: no cell of the [n] addresses from [a] is a cell of the
    [k] addresses from [b]. *)
Definition apart m (a n b k : Z) : Prop :=
  forall c, in_range m a n c -> ~ in_range m b k c.

Lemma load8_holds m a bs i b : holds m a bs -> bs.[i] = Some b -> load8 (a + i) m = Ok b.
Proof. intros Hh Hi. destruct (Hh _ _ Hi) as (c & Hr & Hg). unfold load8. by rewrite Hr, Hg. Qed.

Lemma store8_mapped m a n i v :
  mapped m a n -> 0 <= i < n ->
  exists c, mem_resolve m (u32 (a + i)) = Some c /\ store8 (a + i) v m = Ok (mem_put c v m).
Proof. intros Hm Hi. destruct (Hm i Hi) as [c Hc]. exists c. unfold store8. by rewrite Hc. Qed.

(** What remains to be copied is still in the source. *)
Definition copy_rest m (src : Z) bs (lo hi : Z) : Prop :=
  forall i b, lo <= i < hi -> bs.[i] = Some b -> load8 (src + i) m = Ok b.

Lemma copy_rest_put m src bs lo hi lo' hi' c v :
  copy_rest m src bs lo hi -> lo <= lo' -> hi' <= hi ->
  (forall i, lo' <= i < hi' -> mem_resolve m (u32 (src + i)) <> Some c) ->
  copy_rest (mem_put c v m) src bs lo' hi'.
Proof.
  intros Hr Hlo Hhi Hne i b Hi Hb. specialize (Hr i b ltac:(lia) Hb). specialize (Hne i Hi).
  unfold load8 in *. rewrite mem_resolve_put.
  destruct (mem_resolve m (u32 (src + i))) as [c' |]; [| done].
  rewrite mem_get_put_ne; [done | congruence].
Qed.

(** The ascending copy is a block store of the source's bytes when a byte it
    writes is not one it still has to read. *)
Lemma memcpy_loop_store n : forall i dest src m bs,
  0 <= i -> zlen bs = i + Z.of_nat n ->
  mapped m dest (i + Z.of_nat n) ->
  copy_rest m src bs i (i + Z.of_nat n) ->
  (forall p q, i <= p -> p < q < i + Z.of_nat n ->
     mem_resolve m (u32 (dest + p)) <> mem_resolve m (u32 (src + q))) ->
  memcpy_loop n i dest src m = store_bytes (dest + i) (zdrop i bs) m.
Proof.
  induction n as [| n IH]; intros i dest src m bs Hi Hlen Hm Hrest Hne; cbn [memcpy_loop].
  - rewrite (zlen_0_inv (zdrop i bs)); [done |]. rewrite zlen_zdrop. lia.
  - destruct (zget_is_Some bs i ltac:(lia)) as [b Hb].
    rewrite (Hrest i b ltac:(lia) Hb). cbn [res_bind].
    assert (zdrop i bs = b :: zdrop (i + 1) bs) as ->.
    { unfold zdrop. replace (Z.to_nat (i + 1)) with (S (Z.to_nat i)) by lia.
      apply drop_S. unfold zget in Hb. by rewrite decide_True in Hb by lia. }
    cbn [store_bytes].
    destruct (store8_mapped m dest (i + Z.of_nat (S n)) i b Hm ltac:(lia)) as (c & Hc & Hst).
    rewrite Hst. cbn [res_bind]. rewrite <- Z.add_assoc. apply IH; try lia.
    + intros j Hj. rewrite mem_resolve_put. apply Hm. lia.
    + apply (copy_rest_put m src bs i (i + Z.of_nat (S n))); [done | lia.. |].
      intros j Hj Heq. apply (Hne i j); [lia.. |]. congruence.
    + intros p q Hp Hq. rewrite !mem_resolve_put. apply Hne; lia.
Qed.

(** The descending copy, when a byte it writes is not one it still has to
    read. *)
Lemma memmove_down_stored n : forall dest src m bs,
  zlen bs = Z.of_nat n -> mapped m dest (Z.of_nat n) ->
  copy_rest m src bs 0 (Z.of_nat n) ->
  (forall p q, 0 <= q -> q < p < Z.of_nat n ->
     mem_resolve m (u32 (dest + p)) <> mem_resolve m (u32 (src + q))) ->
  exists m', memmove_down n dest src m = Ok m' /\ stored m dest bs m'.
Proof.
  induction n as [| n IH]; intros dest src m bs Hlen Hm Hrest Hne; cbn [memmove_down].
  - exists m. rewrite (zlen_0_inv bs Hlen). split; [done |]. split; try done.
    intros _ _ i b Hi. by apply zget_range in Hi as [? ?%Z.nle_gt].
  - replace (Z.of_nat (S n) - 1) with (Z.of_nat n) by lia. set (k := Z.of_nat n) in *.
    destruct (zget_is_Some bs k ltac:(lia)) as [b Hb].
    rewrite (Hrest k b ltac:(lia) Hb). cbn [res_bind].
    destruct (store8_mapped m dest (Z.of_nat (S n)) k b Hm ltac:(lia)) as (c & Hc & ->).
    cbn [res_bind].
    assert (Hlen' : zlen (ztake k bs) = k) by (rewrite zlen_ztake; lia).
    destruct (IH dest src (mem_put c b m) (ztake k bs)) as (m' & Hrun & [Hres Hfr Hho]).
    { done. }
    { intros j Hj. rewrite mem_resolve_put. apply Hm. lia. }
    { intros j x Hj. rewrite zget_ztake by lia. revert j x Hj.
      apply (copy_rest_put m src bs 0 (Z.of_nat (S n))); [done | lia.. |].
      intros j Hj Heq. apply (Hne k j); [lia.. |]. congruence. }
    { intros p q Hp Hq. rewrite !mem_resolve_put. apply Hne; lia. }
    exists m'. split; [done |]. split.
    + intros x. by rewrite Hres, mem_resolve_put.
    + intros c' Hc'. rewrite (Hfr c').
      * apply mem_get_put_ne. intros ->. apply Hc'. exists k. split; [lia | done].
      * intros (i & Hi & Hri). rewrite mem_resolve_put in Hri. apply Hc'.
        exists i. split; [lia | done].
    + intros Hsep Hbs i x Hi. pose proof (zget_range _ _ _ Hi) as Hir.
      destruct (decide (i = k)) as [-> | ?].
      * assert (x = b) as -> by congruence. exists c.
        rewrite Hres, mem_resolve_put. split; [done |]. rewrite (Hfr c).
        -- rewrite mem_get_put_eq. apply u8_small. exact (Forall_zget _ _ _ _ Hbs Hb).
        -- intros (j & Hj & Hrj). rewrite mem_resolve_put in Hrj.
           specialize (Hsep k j ltac:(lia) ltac:(lia) ltac:(congruence)). lia.
      * apply Hho.
        -- intros p q Hp Hq. rewrite !mem_resolve_put. apply Hsep; lia.
        -- by apply Forall_take.
        -- rewrite zget_ztake; [done | lia].
Qed.

(** Distinct addresses have distinct cells. *)
Definition injective_mem m : Prop :=
  forall a b c, mem_resolve m a = Some c -> mem_resolve m b = Some c -> a = b.

Lemma holds_copy_rest m a bs : holds m a bs -> copy_rest m a bs 0 (zlen bs).
Proof. intros Hh i b _ Hb. by apply load8_holds with bs. Qed.

Lemma injective_resolve_ne m a b :
  injective_mem m -> is_Some (mem_resolve m a) -> a <> b ->
  mem_resolve m a <> mem_resolve m b.
Proof. intros Hinj [c Hc] Hab Heq. apply Hab, (Hinj a b c); congruence. Qed.
End MemoryFunctionLemmas.

(** C27. [memmove] copies correctly whatever the overlap of its two areas: in a
    memory whose addresses have distinct cells, the destination ends with the
    bytes the source had at the call, and no other cell changes. *)
Theorem memmove_correct {M : Type} `{ByteMemLaws M} (m : M) (dest src n : Z) (bs : list Z)
    (Hn : zlen bs = n) (Hbs : all_bytes bs)
    (Hd : 0 <= dest < 2 ^ 32) (Hdn : dest + n <= 2 ^ 32) (Hs : 0 <= src < 2 ^ 32) (Hsn : src + n <= 2 ^ 32)
    (Hinj : injective_mem m) (Hsrc : holds m src bs) (Hdst : mapped m dest n) :
  exists m', memmove dest src n m = Ok m' /\ holds m' dest bs /\
    (forall c, ~ in_range m dest n c -> mem_get m' c = mem_get m c) /\
    (forall a, mem_resolve m' a = mem_resolve m a).
Proof.
  pose proof (zlen_nonneg bs). subst n.
  assert (Hlen : zlen bs = Z.of_nat (Z.to_nat (zlen bs))) by lia.
  assert (Hsep : separate m dest (zlen bs)).
  { intros i j Hi Hj Heq. destruct (Hdst i Hi) as [c Hc].
    specialize (Hinj _ _ _ Hc ltac:(by rewrite <- Heq)). rewrite !u32_small in Hinj by lia. lia. }
  assert (exists m', memmove dest src (zlen bs) m = Ok m' /\ stored m dest bs m')
    as (m' & Hrun & Hst).
  { unfold memmove. rewrite (u32_small dest), (u32_small src) by lia.
    destruct (Z.ltb_spec dest src) as [Hlt | Hge].
    - rewrite (memcpy_loop_store _ 0 dest src m bs).
      + rewrite Z.add_0_r. unfold zdrop. rewrite drop_0. by apply store_bytes_mapped.
      + lia.
      + lia.
      + by rewrite <- Hlen.
      + rewrite <- Hlen. by apply holds_copy_rest.
      + intros p q Hp Hq. apply injective_resolve_ne; [done | apply Hdst; lia |].
        rewrite !u32_small by lia. lia.
    - apply memmove_down_stored; rewrite <- ?Hlen; try done.
      + by apply holds_copy_rest.
      + intros p q Hp Hq. apply injective_resolve_ne; [done | apply Hdst; lia |].
        rewrite !u32_small by lia. lia. }
  exists m'. destruct Hst as [Hres Hfr Hho]. split_and!; auto.
Qed.
