(* ===== verification/Disk.v ===== *)
(** Disk: the block-device interface of src/filesystem/disk.h, and its
    implementation over a disk image in memory (src/inserter/external-inserter.c). *)

From Stdlib Require Import ZArith Lia.
From stdpp Require Import base tactics numbers list gmap.
From S2P Require Import Prelude Memory.

Definition BLOCK_SIZE : Z := 512.

(** ** The interface

    [read_blocks lba count] gives the bytes stored at the caller's pointer,
    [write_blocks bytes lba count] takes the bytes read from it. *)
Class BlockDevice (D : Type) := {
  read_blocks : Z -> Z -> D -> Res (list Z * D);
  write_blocks : list Z -> Z -> Z -> D -> Res D
}.

(** [bytes] are the blocks [blk (lba)], ..., [blk (lba + count - 1)]. *)
Definition blocks_of (blk : Z -> list Z) (lba count : Z) : list Z :=
  concat (blk <$> seqZ lba count).

(** What the file system relies on: a block is 512 bytes, a read gives the
    blocks and changes none, a write changes the blocks it names and no other. *)
Class BlockDeviceSpec (D : Type) `{BlockDevice D} := {
  dev_ok : D -> Prop;
  dev_blocks : Z;
  block : D -> Z -> list Z;
  block_bytes d b :
    dev_ok d -> 0 <= b < dev_blocks -> zlen (block d b) = BLOCK_SIZE /\ all_bytes (block d b);
  read_blocks_ok d lba count :
    dev_ok d -> 0 <= lba -> 0 < count < 256 -> lba + count <= dev_blocks ->
    exists d', read_blocks lba count d = Ok (blocks_of (block d) lba count, d') /\
      dev_ok d' /\ (forall b, 0 <= b < dev_blocks -> block d' b = block d b);
  write_blocks_ok d bs lba count :
    dev_ok d -> 0 <= lba -> 0 < count < 256 -> lba + count <= dev_blocks ->
    zlen bs = BLOCK_SIZE * count -> all_bytes bs ->
    exists d', write_blocks bs lba count d = Ok d' /\ dev_ok d' /\
      (forall b, 0 <= b < dev_blocks -> block d' b =
         if decide (lba <= b < lba + count)
         then zslice (BLOCK_SIZE * (b - lba)) BLOCK_SIZE bs
         else block d b)
}.

(** ** A disk image in memory

    [image_storage] is the 4 MiB the inserter allocates. *)
Module Image.

Definition IMAGE_SIZE : Z := 4 * 1024 * 1024.
Definition IMAGE_BLOCKS : Z := 8192.

(** [image_storage + BLOCK_SIZE*(logical_block_address+i)], in 32-bit unsigned
    arithmetic. *)
Definition image_offset (lba i : Z) : Z := u32 (BLOCK_SIZE * u32 (lba + i)).

Fixpoint read_loop (n : nat) (i lba : Z) (img : FlatMem) : Res (list Z) :=
  match n with
  | O => Ok []
  | S n' =>
    res_bind (load_bytes (Z.to_nat BLOCK_SIZE) (image_offset lba i) img) (fun b =>
    res_bind (read_loop n' (i + 1) lba img) (fun bs => Ok (b ++ bs)))
  end.
Definition image_read_blocks (lba count : Z) (img : FlatMem) : Res (list Z * FlatMem) :=
  res_bind (read_loop (Z.to_nat count) 0 lba img) (fun bs => Ok (bs, img)).

Fixpoint write_loop (n : nat) (i : Z) (ptr : list Z) (lba : Z) (img : FlatMem) : Res FlatMem :=
  match n with
  | O => Ok img
  | S n' =>
    res_bind (store_bytes (image_offset lba i) (zslice (BLOCK_SIZE * i) BLOCK_SIZE ptr) img)
      (write_loop n' (i + 1) ptr lba)
  end.
Definition image_write_blocks (ptr : list Z) (lba count : Z) (img : FlatMem) : Res FlatMem :=
  write_loop (Z.to_nat count) 0 ptr lba img.

#[export] Instance image_device : BlockDevice FlatMem := {|
  read_blocks := image_read_blocks;
  write_blocks := image_write_blocks
|}.

(** A disk made by [qemu-img create] or [malloc]: every byte zero. *)
Definition blank_image : FlatMem :=
  {| flat_lo := 0; flat_hi := IMAGE_SIZE; flat_cells := ∅ |}.

Definition image_ok (img : FlatMem) : Prop := flat_lo img = 0 /\ flat_hi img = IMAGE_SIZE.
Definition image_block (img : FlatMem) (b : Z) : list Z :=
  mem_get img <$> seqZ (BLOCK_SIZE * b) BLOCK_SIZE.

Lemma zlen_image_block img b : zlen (image_block img b) = BLOCK_SIZE.
Proof. unfold image_block. rewrite zlen_fmap. unfold zlen. by rewrite length_seqZ. Qed.

Lemma zget_seqZ m n i : 0 <= i < n -> (seqZ m n).[i] = Some (m + i).
Proof.
  intros. unfold zget. rewrite decide_True by lia. apply lookup_seqZ. lia.
Qed.

Lemma zget_image_block img b i :
  0 <= i < BLOCK_SIZE -> (image_block img b).[i] = Some (mem_get img (BLOCK_SIZE * b + i)).
Proof. intros. unfold image_block. by rewrite zget_fmap, zget_seqZ. Qed.

Lemma image_block_bytes img b : all_bytes (image_block img b).
Proof. apply Forall_fmap, Forall_forall. intros. apply mem_get_byte. Qed.

Lemma image_offset_eq lba i :
  0 <= lba + i < IMAGE_BLOCKS -> image_offset lba i = BLOCK_SIZE * (lba + i).
Proof.
  unfold image_offset, IMAGE_BLOCKS, BLOCK_SIZE. intros.
  rewrite (u32_small (lba + i)) by lia. rewrite u32_small; lia.
Qed.

Lemma image_resolve img a :
  image_ok img -> 0 <= a < IMAGE_SIZE -> mem_resolve img (u32 a) = Some a.
Proof.
  intros [Hlo Hhi] Ha. unfold IMAGE_SIZE in *. rewrite u32_small by lia. cbn.
  by rewrite decide_True by lia.
Qed.

Lemma image_block_mapped img b :
  image_ok img -> 0 <= b < IMAGE_BLOCKS -> mapped img (BLOCK_SIZE * b) BLOCK_SIZE.
Proof.
  intros [Hlo Hhi] Hb. unfold IMAGE_SIZE, IMAGE_BLOCKS, BLOCK_SIZE in *.
  apply flat_mapped; lia.
Qed.

Lemma image_block_holds img b :
  image_ok img -> 0 <= b < IMAGE_BLOCKS -> holds img (BLOCK_SIZE * b) (image_block img b).
Proof.
  intros Hok Hb i x Hi. pose proof (zget_range _ _ _ Hi) as Hir.
  rewrite zlen_image_block in Hir. rewrite zget_image_block in Hi by done.
  injection Hi as <-. eexists. split; [| done].
  apply image_resolve; [done |]. unfold IMAGE_SIZE, IMAGE_BLOCKS, BLOCK_SIZE in *. lia.
Qed.

Lemma read_loop_ok n : forall i lba img,
  image_ok img -> 0 <= lba -> 0 <= i -> lba + i + Z.of_nat n <= IMAGE_BLOCKS ->
  read_loop n i lba img = Ok (blocks_of (image_block img) (lba + i) (Z.of_nat n)).
Proof.
  induction n as [| n IH]; intros i lba img Hok Hlba Hi Hn; cbn [read_loop]; [done |].
  rewrite image_offset_eq by lia.
  rewrite (load_bytes_holds _ _ _ (image_block img (lba + i))).
  - cbn [res_bind]. rewrite IH by (done || lia). cbn [res_bind].
    unfold blocks_of. rewrite (seqZ_cons (lba + i)) by lia.
    cbn [fmap list_fmap concat]. do 5 f_equal; lia.
  - by rewrite zlen_image_block.
  - apply image_block_holds; [done | lia].
Qed.

Lemma image_stored_block img lba bs img' b :
  image_ok img -> 0 <= lba < IMAGE_BLOCKS -> 0 <= b < IMAGE_BLOCKS ->
  zlen bs = BLOCK_SIZE -> all_bytes bs ->
  stored img (BLOCK_SIZE * lba) bs img' ->
  image_block img' b = if decide (b = lba) then bs else image_block img b.
Proof.
  intros Hok Hlba Hb Hlen Hbs [Hres Hfr Hho].
  unfold IMAGE_BLOCKS, IMAGE_SIZE, BLOCK_SIZE in *.
  apply zget_ext. intros i. destruct (decide (0 <= i < 512)) as [Hi | Hi].
  - rewrite zget_image_block by done. case_decide as Hd.
    + subst b. destruct (zget_is_Some bs i ltac:(lia)) as [x Hx]. rewrite Hx. f_equal.
      destruct Hok as [Hlo Hhi]. unfold IMAGE_SIZE in *.
      destruct (Hho) with (i := i) (b := x) as (c & Hc & Hg); try done.
      { apply flat_separate; lia. }
      rewrite Hres, image_resolve in Hc; unfold IMAGE_SIZE; [by injection Hc as <- | done | lia].
    + rewrite zget_image_block by done. f_equal. apply Hfr.
      intros (j & Hj & Hr). rewrite image_resolve in Hr; unfold IMAGE_SIZE; [| done | lia].
      injection Hr as Hr. unfold BLOCK_SIZE in *. lia.
  - rewrite zget_None by (rewrite zlen_image_block; exact Hi).
    case_decide; rewrite zget_None; [done | lia | done | rewrite zlen_image_block; exact Hi].
Qed.

Lemma store_image_shape bs : forall a img img',
  store_bytes a bs img = Ok img' -> image_ok img -> image_ok img'.
Proof.
  induction bs as [| b bs IH]; intros a img img' Hrun Hok; cbn [store_bytes] in Hrun.
  - by injection Hrun as <-.
  - unfold store8 in Hrun. destruct (mem_resolve img (u32 a)); cbn [res_bind] in Hrun; [| done].
    eapply IH; [exact Hrun |]. exact Hok.
Qed.
Lemma store_image_ok img lba bs :
  image_ok img -> 0 <= lba < IMAGE_BLOCKS -> zlen bs = BLOCK_SIZE -> all_bytes bs ->
  exists img', store_bytes (BLOCK_SIZE * lba) bs img = Ok img' /\ image_ok img' /\
    (forall b, 0 <= b < IMAGE_BLOCKS ->
       image_block img' b = if decide (b = lba) then bs else image_block img b).
Proof.
  intros Hok Hlba Hlen Hbs.
  destruct (store_bytes_mapped bs (BLOCK_SIZE * lba) img) as (img' & Hrun & Hst).
  { rewrite Hlen. by apply image_block_mapped. }
  exists img'. split; [done |]. split; [by eapply store_image_shape |].
  intros b Hb. by apply image_stored_block.
Qed.

Lemma write_loop_ok n : forall i ptr lba img,
  image_ok img -> 0 <= lba -> 0 <= i -> lba + i + Z.of_nat n <= IMAGE_BLOCKS ->
  BLOCK_SIZE * (i + Z.of_nat n) <= zlen ptr -> all_bytes ptr ->
  exists img', write_loop n i ptr lba img = Ok img' /\ image_ok img' /\
    (forall b, 0 <= b < IMAGE_BLOCKS -> image_block img' b =
       if decide (lba + i <= b < lba + i + Z.of_nat n)
       then zslice (BLOCK_SIZE * (b - lba)) BLOCK_SIZE ptr else image_block img b).
Proof.
  induction n as [| n IH]; intros i ptr lba img Hok Hlba Hi Hn Hlen Hby; cbn [write_loop].
  - exists img. split_and!; try done. intros b Hb. by rewrite decide_False by lia.
  - rewrite image_offset_eq by lia. unfold BLOCK_SIZE in Hlen.
    destruct (store_image_ok img (lba + i) (zslice (BLOCK_SIZE * i) BLOCK_SIZE ptr))
      as (img1 & -> & Hok1 & Hb1).
    + done.
    + lia.
    + unfold BLOCK_SIZE. apply zlen_zslice; lia.
    + by apply Forall_zslice.
    + cbn [res_bind]. destruct (IH (i + 1) ptr lba img1) as (img' & Hrun & Hok' & Hb');
        try (unfold BLOCK_SIZE; done || lia).
      exists img'. split_and!; [done | done |]. intros b Hb. rewrite Hb', Hb1 by done.
      destruct (decide (b = lba + i)) as [-> | ?].
      * rewrite decide_False, !decide_True by lia. f_equal. lia.
      * case_decide; [by rewrite decide_True by lia |].
        by rewrite !decide_False by lia.
Qed.

(** The inserter's image implements the interface. *)
#[export] Instance image_device_spec : BlockDeviceSpec FlatMem.
Proof.
  refine {| dev_ok := image_ok; dev_blocks := IMAGE_BLOCKS; block := image_block |}.
  - intros. split; [apply zlen_image_block | apply image_block_bytes].
  - intros img lba count Hok Hlba Hc Hcap. exists img. unfold read_blocks. cbn.
    unfold image_read_blocks. rewrite read_loop_ok by (done || lia). cbn [res_bind].
    rewrite Z.add_0_r, Z2Nat.id by lia. done.
  - intros img bs lba count Hok Hlba Hc Hcap Hlen Hbs. unfold write_blocks. cbn.
    unfold image_write_blocks.
    destruct (write_loop_ok (Z.to_nat count) 0 bs lba img)
      as (img' & Hrun & Hok' & Hb); [done | lia | lia | lia | lia | done |].
    exists img'. split_and!; [done | done |]. intros b Hbr. rewrite Hb by done.
    by rewrite Z.add_0_r, Z2Nat.id by lia.
Defined.
End Image.
