(* ===== verification/Ata.v ===== *)
(** Ata: src/filesystem/disk.c - the ATA PIO driver, against the documented
    protocol of the drive, as an implementation of the block interface of Disk.v. *)

From Stdlib Require Import ZArith Lia.
From stdpp Require Import base tactics numbers list.
From S2P Require Import Prelude Disk.
#[local] Open Scope eff_scope.

Definition ATA_STATUS_BSY : Z := 0x80.
Definition ATA_STATUS_RDY : Z := 0x40.
Definition HALF_BLOCK_SIZE : Z := BLOCK_SIZE / 2.

(** ** The drive's ports

    The drive is a parameter: what its ports read and how reads and writes change
    it. [ata_polls] is how often the model lets a wait poll the status. *)
Class AtaPorts (D : Type) := {
  ata_in : Z -> D -> Z * D;
  ata_out : Z -> Z -> D -> D;
  ata_in16 : Z -> D -> Z * D;
  ata_out16 : Z -> Z -> D -> D;
  ata_polls : nat
}.

Section Driver.
Context {D : Type} `{AtaPorts D}.

Definition port_in8 (port : Z) : Eff D Z := fun d => let '(v, d') := ata_in port d in Ok (u8 v, d').
Definition port_out8 (port v : Z) : Eff D unit := modify (ata_out port (u8 v)).
Definition in16 (port : Z) : Eff D Z := fun d => let '(v, d') := ata_in16 port d in Ok (u16 v, d').
Definition out16 (port v : Z) : Eff D unit := modify (ata_out16 port (u16 v)).

(** [while (in(0x1F7) & ATA_STATUS_BSY);] *)
Fixpoint ATA_busy_wait (fuel : nat) : Eff D unit :=
  s <- port_in8 0x1F7 ;;
  if Z.land s ATA_STATUS_BSY =? 0 then ret tt else
  match fuel with
  | O => stop Stuck
  | S fuel' => ATA_busy_wait fuel'
  end.
(** [while (!(in(0x1F7) & ATA_STATUS_RDY));] *)
Fixpoint ATA_DRQ_wait (fuel : nat) : Eff D unit :=
  s <- port_in8 0x1F7 ;;
  if negb (Z.land s ATA_STATUS_RDY =? 0) then ret tt else
  match fuel with
  | O => stop Stuck
  | S fuel' => ATA_DRQ_wait fuel'
  end.

(** The five registers and the command. *)
Definition ata_command (lba count cmd : Z) : Eff D unit :=
  ATA_busy_wait ata_polls ;;;
  port_out8 0x1F6 (Z.lor 0xE0 (Z.land (Z.shiftr lba 24) 0xF)) ;;;
  port_out8 0x1F2 count ;;;
  port_out8 0x1F3 (u8 lba) ;;;
  port_out8 0x1F4 (u8 (Z.shiftr lba 8)) ;;;
  port_out8 0x1F5 (u8 (Z.shiftr lba 16)) ;;;
  port_out8 0x1F7 cmd.

(** [for (j = 0; j < HALF_BLOCK_SIZE; j++) target[j] = in16(0x1F0);] - the bytes
    stored at the target. *)
Fixpoint read_words (n : nat) : Eff D (list Z) :=
  match n with
  | O => ret []
  | S n' => w <- in16 0x1F0 ;; ws <- read_words n' ;; ret (le_bytes 2 w ++ ws)
  end.
Fixpoint read_sectors (n : nat) : Eff D (list Z) :=
  match n with
  | O => ret []
  | S n' =>
    ATA_busy_wait ata_polls ;;;
    ATA_DRQ_wait ata_polls ;;;
    b <- read_words (Z.to_nat HALF_BLOCK_SIZE) ;;
    bs <- read_sectors n' ;;
    ret (b ++ bs)
  end.
Definition ata_read_blocks (lba count : Z) : Eff D (list Z) :=
  ata_command (u32 lba) (u8 count) 0x20 ;;; read_sectors (Z.to_nat (u8 count)).

(** [((uint16_t* ) ptr)[k]] in the bytes at [ptr]. *)
Definition word_at (ptr : list Z) (k : Z) : Res Z :=
  res_bind (of_option BadAccess ptr.[2 * k]) (fun lo =>
  res_bind (of_option BadAccess ptr.[2 * k + 1]) (fun hi => Ok (lo + 256 * hi))).
Fixpoint write_words (n : nat) (k : Z) (ptr : list Z) : Eff D unit :=
  match n with
  | O => ret tt
  | S n' => w <- of_res (word_at ptr k) ;; out16 0x1F0 w ;;; write_words n' (k + 1) ptr
  end.
Fixpoint write_sectors (n : nat) (i : Z) (ptr : list Z) : Eff D unit :=
  match n with
  | O => ret tt
  | S n' =>
    ATA_busy_wait ata_polls ;;;
    ATA_DRQ_wait ata_polls ;;;
    write_words (Z.to_nat HALF_BLOCK_SIZE) (HALF_BLOCK_SIZE * i) ptr ;;;
    write_sectors n' (i + 1) ptr
  end.
Definition ata_write_blocks (ptr : list Z) (lba count : Z) : Eff D unit :=
  ata_command (u32 lba) (u8 count) 0x30 ;;; write_sectors (Z.to_nat (u8 count)) 0 ptr.

(** The driver behind the block interface. *)
#[export] Instance ata_block_device : BlockDevice D := {|
  read_blocks lba count d := ata_read_blocks lba count d;
  write_blocks ptr lba count d :=
    res_bind (ata_write_blocks ptr lba count d) (fun r => Ok r.2)
|}.
End Driver.

(** ** The protocol *)

(** Idle, delivering word [word] of sector [lba] with [left] sectors to go, or
    taking words for sector [lba], of which it has [taken] bytes. *)
Inductive ata_phase : Type :=
| Idle
| DataIn (lba left word : Z)
| DataOut (lba left : Z) (taken : list Z).

(** What the driver relies on, from the ATA standard's PIO protocol: a drive that
    is busy becomes ready after finitely many polls; registers keep what is
    written; READ SECTORS (0x20) and WRITE SECTORS (0x30) move whole sectors, word
    by word, in LBA order, and a drive stays ready within a sector. *)
Class AtaSpec (D : Type) `{AtaPorts D} := {
  ata_phase_of : D -> ata_phase;
  ata_busy : D -> nat;
  ata_register : D -> Z -> Z;
  ata_sector : D -> Z -> list Z;
  ata_sectors : Z;
  ata_capacity : 0 <= ata_sectors <= 2 ^ 28;
  ata_sector_bytes d b : 0 <= b < ata_sectors -> zlen (ata_sector d b) = BLOCK_SIZE /\ all_bytes (ata_sector d b);
  ata_patience d : (ata_busy d <= ata_polls)%nat;
  ata_status_ready d : ata_busy d = O ->
    exists v, ata_in 0x1F7 d = (v, d) /\ Z.land (u8 v) ATA_STATUS_BSY = 0 /\ Z.land (u8 v) ATA_STATUS_RDY <> 0;
  ata_status_busy d n : ata_busy d = S n ->
    exists v d', ata_in 0x1F7 d = (v, d') /\ Z.land (u8 v) ATA_STATUS_BSY <> 0 /\ ata_busy d' = n /\
      ata_phase_of d' = ata_phase_of d /\ ata_register d' = ata_register d /\ ata_sector d' = ata_sector d;
  ata_set_register d port v : ata_busy d = O -> ata_phase_of d = Idle -> 0x1F2 <= port <= 0x1F6 -> is_byte v ->
    let d' := ata_out port v d in
    ata_busy d' = O /\ ata_phase_of d' = Idle /\ ata_sector d' = ata_sector d /\ ata_register d' port = v /\
    (forall p, p <> port -> ata_register d' p = ata_register d p);
  ata_start d cmd lba count : ata_busy d = O -> ata_phase_of d = Idle ->
    0 < count < 256 -> 0 <= lba -> lba + count <= ata_sectors ->
    ata_register d 0x1F2 = count -> ata_register d 0x1F3 = lba mod 2 ^ 8 ->
    ata_register d 0x1F4 = lba / 2 ^ 8 mod 2 ^ 8 -> ata_register d 0x1F5 = lba / 2 ^ 16 mod 2 ^ 8 ->
    ata_register d 0x1F6 = 0xE0 + lba / 2 ^ 24 -> cmd = 0x20 \/ cmd = 0x30 ->
    let d' := ata_out 0x1F7 cmd d in
    ata_sector d' = ata_sector d /\
    ata_phase_of d' = if cmd =? 0x20 then DataIn lba count 0 else DataOut lba count [];
  ata_deliver d lba left word : ata_busy d = O -> ata_phase_of d = DataIn lba left word ->
    0 <= lba < ata_sectors -> 0 <= word < HALF_BLOCK_SIZE ->
    exists v d', ata_in16 0x1F0 d = (v, d') /\ u16 v = le_val (zslice (2 * word) 2 (ata_sector d lba)) /\
      ata_sector d' = ata_sector d /\
      (if word =? HALF_BLOCK_SIZE - 1
       then ata_phase_of d' = if left =? 1 then Idle else DataIn (lba + 1) (left - 1) 0
       else ata_phase_of d' = DataIn lba left (word + 1) /\ ata_busy d' = O);
  ata_take d lba left taken v : ata_busy d = O -> ata_phase_of d = DataOut lba left taken ->
    0 <= lba < ata_sectors -> zlen taken < BLOCK_SIZE -> all_bytes taken -> 0 <= v < 2 ^ 16 ->
    let d' := ata_out16 0x1F0 v d in
    let t := taken ++ le_bytes 2 v in
    if zlen t =? BLOCK_SIZE
    then ata_phase_of d' = (if left =? 1 then Idle else DataOut (lba + 1) (left - 1) []) /\
      forall b, 0 <= b < ata_sectors -> ata_sector d' b = if decide (b = lba) then t else ata_sector d b
    else ata_phase_of d' = DataOut lba left t /\ ata_busy d' = O /\ ata_sector d' = ata_sector d
}.

(** ** The driver moves blocks *)

Section Refinement.
Context {D : Type} `{AtaSpec D}.
Implicit Types (d : D).

(** A drive that has become ready, otherwise as it was. *)
Record Settled d d' : Prop := {
  se_ready : ata_busy d' = O;
  se_phase : ata_phase_of d' = ata_phase_of d;
  se_register : ata_register d' = ata_register d;
  se_sector : ata_sector d' = ata_sector d
}.

Lemma busy_wait_ok n : forall fuel d,
  ata_busy d = n -> (n <= fuel)%nat -> exists d', ATA_busy_wait fuel d = Ok (tt, d') /\ Settled d d'.
Proof.
  induction n as [| n IH]; intros fuel d Hb Hf.
  - destruct (ata_status_ready d Hb) as (v & Hin & Hbsy & _). exists d. split; [| by split].
    destruct fuel; cbn [ATA_busy_wait]; unfold bind, port_in8; rewrite Hin, Hbsy; done.
  - destruct (ata_status_busy d n Hb) as (v & d1 & Hin & Hbsy & Hb1 & Hp & Hr & Hs).
    destruct fuel as [| fuel]; [lia |].
    destruct (IH fuel d1 Hb1 ltac:(lia)) as (d' & Hrun & [? Hp' Hr' Hs']). exists d'. split.
    + cbn [ATA_busy_wait]. unfold bind, port_in8. rewrite Hin. by rewrite (proj2 (Z.eqb_neq _ _) Hbsy).
    + split; [done | congruence..].
Qed.
Lemma wait_ready d : exists d', ATA_busy_wait ata_polls d = Ok (tt, d') /\ Settled d d'.
Proof. by apply (busy_wait_ok (ata_busy d)), ata_patience. Qed.
Lemma drq_run d {A} (k : Eff D A) : ata_busy d = O -> (ATA_DRQ_wait ata_polls ;;; k) d = k d.
Proof.
  intros Hb. destruct (ata_status_ready d Hb) as (v & Hin & _ & Hrdy).
  assert (Hrun : ATA_DRQ_wait ata_polls d = Ok (tt, d)).
  { destruct ata_polls; cbn [ATA_DRQ_wait]; unfold bind, port_in8; rewrite Hin;
      by rewrite (proj2 (Z.eqb_neq _ _) Hrdy). }
  by rewrite (bind_run _ _ _ _ _ Hrun).
Qed.

Lemma lba_head lba : 0 <= lba < 2 ^ 28 -> u8 (Z.lor 0xE0 (Z.land (Z.shiftr lba 24) 0xF)) = 0xE0 + lba / 2 ^ 24.
Proof.
  intros Hl. change 0xF with (Z.ones 4). rewrite Z.land_ones, Z.shiftr_div_pow2 by lia.
  assert (Hq : 0 <= lba / 2 ^ 24 < 2 ^ 4) by (split; [apply Z.div_pos; lia | apply Z.div_lt_upper_bound; lia]).
  rewrite (Z.mod_small _ (2 ^ 4)) by done. change 0xE0 with (14 * 2 ^ 4) at 1.
  rewrite Zlor_add_high by lia. rewrite u8_small; lia.
Qed.
Lemma u8_u8 x : u8 (u8 x) = u8 x.
Proof. apply u8_small, u8_range. Qed.

Lemma command_ok d lba count cmd :
  ata_phase_of d = Idle -> 0 < count < 256 -> 0 <= lba -> lba + count <= ata_sectors ->
  cmd = 0x20 \/ cmd = 0x30 ->
  exists d', ata_command lba count cmd d = Ok (tt, d') /\ ata_sector d' = ata_sector d /\
    ata_phase_of d' = if cmd =? 0x20 then DataIn lba count 0 else DataOut lba count [].
Proof.
  intros Hid Hc Hl Hcap Hcmd. pose proof (ata_capacity (D := D)) as Hmax.
  unfold ata_command. destruct (wait_ready d) as (d0 & Hwait & [Hb0 Hp0 _ Hs0]).
  rewrite (bind_run _ _ _ _ _ Hwait).
  rewrite Hid in Hp0.
  set (head := u8 (Z.lor 0xE0 (Z.land (Z.shiftr lba 24) 0xF))).
  destruct (ata_set_register d0 0x1F6 head) as (Hb1 & Hp1 & Hs1 & Hr1 & Ho1); [done | done | lia | apply u8_range |].
  set (d1 := ata_out 0x1F6 head d0) in *.
  destruct (ata_set_register d1 0x1F2 (u8 count)) as (Hb2 & Hp2 & Hs2 & Hr2 & Ho2); [done | done | lia | apply u8_range |].
  set (d2 := ata_out 0x1F2 (u8 count) d1) in *.
  destruct (ata_set_register d2 0x1F3 (u8 lba)) as (Hb3 & Hp3 & Hs3 & Hr3 & Ho3); [done | done | lia | apply u8_range |].
  set (d3 := ata_out 0x1F3 (u8 lba) d2) in *.
  destruct (ata_set_register d3 0x1F4 (u8 (Z.shiftr lba 8))) as (Hb4 & Hp4 & Hs4 & Hr4 & Ho4);
    [done | done | lia | apply u8_range |].
  set (d4 := ata_out 0x1F4 (u8 (Z.shiftr lba 8)) d3) in *.
  destruct (ata_set_register d4 0x1F5 (u8 (Z.shiftr lba 16))) as (Hb5 & Hp5 & Hs5 & Hr5 & Ho5);
    [done | done | lia | apply u8_range |].
  set (d5 := ata_out 0x1F5 (u8 (Z.shiftr lba 16)) d4) in *.
  destruct (ata_start d5 (u8 cmd) lba count) as [Hs6 Hp6]; try done.
  - rewrite Ho5, Ho4, Ho3, Hr2 by done. apply u8_small. lia.
  - by rewrite Ho5, Ho4, Hr3 by done.
  - rewrite Ho5, Hr4 by done. unfold u8. by rewrite Z.shiftr_div_pow2 by lia.
  - rewrite Hr5. unfold u8. by rewrite Z.shiftr_div_pow2 by lia.
  - rewrite Ho5, Ho4, Ho3, Ho2, Hr1 by done. unfold head. rewrite lba_head by lia. done.
  - by destruct Hcmd as [-> | ->]; [left | right].
  - exists (ata_out 0x1F7 (u8 cmd) d5). split.
    { unfold bind, port_out8, modify. fold head d1 d2. rewrite !u8_u8. by fold d3 d4 d5. }
    split; [congruence |]. rewrite Hp6. by destruct Hcmd as [-> | ->].
Qed.

(** ** Reading *)

Lemma word_split l w :
  0 <= w -> 2 * w + 2 <= zlen l -> all_bytes l ->
  zdrop (2 * w) l = le_bytes 2 (le_val (zslice (2 * w) 2 l)) ++ zdrop (2 * (w + 1)) l.
Proof.
  intros Hw Hlen Hby.
  rewrite le_bytes_le_val; [| by apply Forall_zslice | apply zlen_zslice; lia].
  unfold zslice. rewrite <- (ztake_zdrop 2 (zdrop (2 * w) l)) at 1. f_equal.
  unfold zdrop. rewrite drop_drop. f_equal. lia.
Qed.

Lemma read_words_ok n : forall d lba left word,
  ata_busy d = O -> ata_phase_of d = DataIn lba left word -> 0 <= lba < ata_sectors ->
  0 <= word -> word + Z.of_nat n = HALF_BLOCK_SIZE -> (0 < n)%nat ->
  exists d', read_words n d = Ok (zdrop (2 * word) (ata_sector d lba), d') /\
    ata_sector d' = ata_sector d /\
    ata_phase_of d' = if left =? 1 then Idle else DataIn (lba + 1) (left - 1) 0.
Proof.
  induction n as [| n IH]; intros d lba left word Hb Hp Hl Hw Hn Hpos; [lia |].
  destruct (ata_deliver d lba left word Hb Hp Hl) as (v & d1 & Hin & Hv & Hs1 & Hnext);
    [unfold HALF_BLOCK_SIZE, BLOCK_SIZE in *; lia |].
  destruct (ata_sector_bytes d lba Hl) as [Hlen Hby].
  assert (HB : BLOCK_SIZE = 2 * HALF_BLOCK_SIZE) by done.
  cbn [read_words]. erewrite bind_run; [| unfold in16; rewrite Hin; reflexivity].
  rewrite Hv, (word_split _ word) by (done || lia).
  destruct (Z.eqb_spec word (HALF_BLOCK_SIZE - 1)) as [-> | Hne].
  - assert (n = O) as -> by lia. exists d1. cbn [read_words]. split; [| done].
    run_step. unfold ret. do 3 f_equal. symmetry. apply zlen_0_inv. rewrite zlen_zdrop, Hlen. lia.
  - destruct Hnext as [Hp1 Hb1].
    destruct (IH d1 lba left (word + 1) Hb1 Hp1 Hl) as (d' & Hrun & Hs' & Hp'); [lia | lia | lia |].
    exists d'. split; [| by rewrite Hs', Hs1]. rewrite (bind_run _ _ _ _ _ Hrun). by rewrite Hs1.
Qed.

Lemma blocks_of_cons blk lba n :
  0 <= n -> blocks_of blk lba (n + 1) = blk lba ++ blocks_of blk (lba + 1) n.
Proof.
  intros Hn. unfold blocks_of. rewrite seqZ_cons by lia. cbn [fmap list_fmap concat].
  replace (Z.pred (n + 1)) with n by lia. by replace (Z.succ lba) with (lba + 1) by lia.
Qed.

Lemma read_sectors_ok n : forall d lba,
  (0 < n)%nat -> ata_phase_of d = DataIn lba (Z.of_nat n) 0 -> 0 <= lba ->
  lba + Z.of_nat n <= ata_sectors ->
  exists d', read_sectors n d = Ok (blocks_of (ata_sector d) lba (Z.of_nat n), d') /\
    ata_sector d' = ata_sector d /\ ata_phase_of d' = Idle.
Proof.
  induction n as [| n IH]; intros d lba Hpos Hp Hl Hcap; [lia |]. cbn [read_sectors].
  destruct (wait_ready d) as (d0 & Hwait & [Hb0 Hp0 _ Hs0]).
  rewrite (bind_run _ _ _ _ _ Hwait). rewrite drq_run by done.
  destruct (read_words_ok (Z.to_nat HALF_BLOCK_SIZE) d0 lba (Z.of_nat (S n)) 0) as (d1 & Hrun & Hs1 & Hp1);
    [done | congruence | lia | done | done | by apply Nat.ltb_lt |].
  rewrite (bind_run _ _ _ _ _ Hrun).
  assert (Hz : zdrop (2 * 0) (ata_sector d0 lba) = ata_sector d lba) by (rewrite Hs0; apply drop_0).
  rewrite Hz. replace (Z.of_nat (S n)) with (Z.of_nat n + 1) in * by lia.
  rewrite blocks_of_cons by lia. destruct (Z.eqb_spec (Z.of_nat n + 1) 1) as [Heq | Hne].
  - assert (n = O) as -> by lia. exists d1. cbn [read_sectors]. split; [| by split; [congruence |]].
    done.
  - replace (Z.of_nat n + 1 - 1) with (Z.of_nat n) in Hp1 by lia.
    destruct (IH d1 (lba + 1)) as (d' & Hrun' & Hs' & Hp'); [lia | done | lia | lia |].
    exists d'. rewrite (bind_run _ _ _ _ _ Hrun'). split; [| by split; [congruence |]].
    by rewrite Hs1, Hs0.
Qed.

Lemma ata_read_ok d lba count :
  ata_phase_of d = Idle -> 0 <= lba -> 0 < count < 256 -> lba + count <= ata_sectors ->
  exists d', ata_read_blocks lba count d = Ok (blocks_of (ata_sector d) lba count, d') /\
    ata_sector d' = ata_sector d /\ ata_phase_of d' = Idle.
Proof.
  intros Hid Hl Hc Hcap. pose proof (ata_capacity (D := D)). unfold ata_read_blocks.
  rewrite (u32_small lba), (u8_small count) by lia.
  destruct (command_ok d lba count 0x20) as (d1 & Hrun & Hs1 & Hp1); [done | done | done | done | by left |].
  rewrite (bind_run _ _ _ _ _ Hrun).
  destruct (read_sectors_ok (Z.to_nat count) d1 lba) as (d' & Hrun' & Hs' & Hp');
    rewrite ?Z2Nat.id by lia; [lia | exact Hp1 | done | done |].
  rewrite Z2Nat.id, Hs1 in Hrun' by lia. exists d'. split; [done |]. by rewrite Hs', Hs1.
Qed.

(** ** Writing *)

Lemma word_at_ok ptr k :
  0 <= k -> 2 * k + 2 <= zlen ptr -> word_at ptr k = Ok (le_val (zslice (2 * k) 2 ptr)).
Proof.
  intros Hk Hlen. unfold word_at.
  destruct (zget_is_Some ptr (2 * k)) as [x Hx]; [lia |].
  destruct (zget_is_Some ptr (2 * k + 1)) as [y Hy]; [lia |].
  rewrite Hx, Hy. cbn [of_option res_bind]. do 2 f_equal.
  assert (Hsl : zslice (2 * k) 2 ptr = [x; y]); [| by rewrite Hsl; cbn; lia].
  apply zget_ext. intros i. destruct (decide (0 <= i < 2)) as [Hi | Hi].
  - rewrite zget_zslice by lia. assert (i = 0 \/ i = 1) as [-> | ->] by lia.
    + by rewrite Z.add_0_r, Hx.
    + by rewrite Hy.
  - rewrite !zget_None; [done | done |]. rewrite zlen_zslice; lia.
Qed.

Lemma zslice_step ptr k n :
  0 <= k -> 0 <= n -> 2 * k + 2 * (n + 1) <= zlen ptr -> all_bytes ptr ->
  zslice (2 * k) (2 * (n + 1)) ptr =
    le_bytes 2 (le_val (zslice (2 * k) 2 ptr)) ++ zslice (2 * (k + 1)) (2 * n) ptr.
Proof.
  intros Hk Hn Hlen Hby.
  rewrite le_bytes_le_val; [| by apply Forall_zslice | apply zlen_zslice; lia].
  apply zget_ext. intros i. destruct (decide (0 <= i < 2 * (n + 1))) as [Hi | Hi].
  - rewrite zget_zslice by lia. destruct (Z.lt_ge_cases i 2).
    + rewrite zget_app_l by (rewrite zlen_zslice; lia). by rewrite zget_zslice by lia.
    + rewrite zget_app_r by (rewrite zlen_zslice; lia). rewrite zlen_zslice by lia.
      rewrite zget_zslice by lia. f_equal. lia.
  - rewrite !zget_None; [done | |]; rewrite ?zlen_app, !zlen_zslice; lia.
Qed.

Lemma write_words_ok n : forall d lba left taken k ptr,
  ata_busy d = O -> ata_phase_of d = DataOut lba left taken -> 0 <= lba < ata_sectors ->
  zlen taken + 2 * Z.of_nat n = BLOCK_SIZE -> all_bytes taken -> (0 < n)%nat -> 0 <= k ->
  2 * k + 2 * Z.of_nat n <= zlen ptr -> all_bytes ptr ->
  exists d', write_words n k ptr d = Ok (tt, d') /\
    ata_phase_of d' = (if left =? 1 then Idle else DataOut (lba + 1) (left - 1) []) /\
    (forall b, 0 <= b < ata_sectors -> ata_sector d' b =
       if decide (b = lba) then taken ++ zslice (2 * k) (2 * Z.of_nat n) ptr else ata_sector d b).
Proof.
  induction n as [| n IH]; intros d lba left taken k ptr Hb Hp Hl Ht Htb Hpos Hk Hlen Hby; [lia |].
  cbn [write_words]. erewrite bind_run; [| unfold of_res; rewrite word_at_ok by lia; reflexivity].
  set (v := le_val (zslice (2 * k) 2 ptr)).
  assert (Hv : 0 <= v < 2 ^ 16).
  { pose proof (le_val_range (zslice (2 * k) 2 ptr)) as Hr. rewrite zlen_zslice in Hr by lia.
    apply Hr. by apply Forall_zslice. }
  pose proof (ata_take d lba left taken v Hb Hp Hl ltac:(lia) Htb Hv) as Hstep. cbv zeta in Hstep.
  run_step. rewrite u16_small by done. set (d1 := ata_out16 0x1F0 v d) in *.
  assert (Hlt : zlen (taken ++ le_bytes 2 v) = zlen taken + 2) by (by rewrite zlen_app, zlen_le_bytes).
  rewrite Hlt in Hstep.
  replace (Z.of_nat (S n)) with (Z.of_nat n + 1) in * by lia. rewrite (zslice_step ptr k) by (done || lia).
  fold v. destruct (Z.eqb_spec (zlen taken + 2) BLOCK_SIZE) as [Heq | Hne].
  - destruct Hstep as [Hp1 Hs1]. assert (n = O) as -> by lia. exists d1. cbn [write_words].
    split; [done |]. split; [done |]. intros b Hbr. rewrite Hs1 by done. case_decide; [| done].
    rewrite (zlen_0_inv (zslice (2 * (k + 1)) _ ptr)) by (rewrite zlen_zslice; lia). by rewrite app_nil_r.
  - destruct Hstep as (Hp1 & Hb1 & Hs1).
    destruct (IH d1 lba left (taken ++ le_bytes 2 v) (k + 1) ptr Hb1 Hp1 Hl)
      as (d' & Hrun & Hp' & Hs'); [lia | | lia.. | done |].
    { apply Forall_app. split; [done | apply le_bytes_all_bytes]. }
    exists d'. split; [done |]. split; [done |]. intros b Hbr. rewrite Hs', Hs1, <- app_assoc by done. done.
Qed.

Lemma write_sectors_ok n : forall d lba i ptr,
  (0 < n)%nat -> ata_phase_of d = DataOut lba (Z.of_nat n) [] -> 0 <= lba -> 0 <= i ->
  lba + Z.of_nat n <= ata_sectors -> BLOCK_SIZE * (i + Z.of_nat n) <= zlen ptr -> all_bytes ptr ->
  exists d', write_sectors n i ptr d = Ok (tt, d') /\ ata_phase_of d' = Idle /\
    (forall b, 0 <= b < ata_sectors -> ata_sector d' b =
       if decide (lba <= b < lba + Z.of_nat n)
       then zslice (BLOCK_SIZE * (i + (b - lba))) BLOCK_SIZE ptr else ata_sector d b).
Proof.
  induction n as [| n IH]; intros d lba i ptr Hpos Hp Hl Hi Hcap Hlen Hby; [lia |]. cbn [write_sectors].
  assert (HB : BLOCK_SIZE = 2 * HALF_BLOCK_SIZE) by done. assert (HH : HALF_BLOCK_SIZE = 256) by done.
  destruct (wait_ready d) as (d0 & Hwait & [Hb0 Hp0 _ Hs0]).
  rewrite (bind_run _ _ _ _ _ Hwait), drq_run by done.
  destruct (write_words_ok (Z.to_nat HALF_BLOCK_SIZE) d0 lba (Z.of_nat (S n)) [] (HALF_BLOCK_SIZE * i) ptr)
    as (d1 & Hrun & Hp1 & Hs1); [done | congruence | lia | done | done | by apply Nat.ltb_lt | lia | | done |].
  { rewrite Z2Nat.id; lia. }
  rewrite (bind_run _ _ _ _ _ Hrun). rewrite Z2Nat.id in Hs1 by lia. cbn [app] in Hs1.
  replace (2 * (HALF_BLOCK_SIZE * i)) with (BLOCK_SIZE * i) in Hs1 by lia.
  replace (2 * HALF_BLOCK_SIZE) with BLOCK_SIZE in Hs1.
  destruct (Z.eqb_spec (Z.of_nat (S n)) 1) as [Heq | Hne].
  - assert (n = O) as -> by lia. exists d1. cbn [write_sectors]. split; [done |]. split; [done |].
    intros b Hb. rewrite Hs1, Hs0 by done. destruct (decide (b = lba)) as [-> | Hbl].
    + rewrite decide_True by lia. do 2 f_equal. lia.
    + by rewrite decide_False by lia.
  - replace (Z.of_nat (S n) - 1) with (Z.of_nat n) in Hp1 by lia.
    destruct (IH d1 (lba + 1) (i + 1) ptr) as (d' & Hrun' & Hp' & Hs'); [lia | done | lia.. | done |].
    exists d'. split; [done |]. split; [done |]. intros b Hb. rewrite Hs', Hs1, Hs0 by done.
    destruct (decide (b = lba)) as [-> | Hbl].
    + rewrite decide_False, decide_True by lia. do 2 f_equal. lia.
    + destruct (decide (lba + 1 <= b < lba + 1 + Z.of_nat n)).
      * rewrite decide_True by lia. do 2 f_equal. lia.
      * by rewrite decide_False by lia.
Qed.

Lemma ata_write_ok d bs lba count :
  ata_phase_of d = Idle -> 0 <= lba -> 0 < count < 256 -> lba + count <= ata_sectors ->
  zlen bs = BLOCK_SIZE * count -> all_bytes bs ->
  exists d', ata_write_blocks bs lba count d = Ok (tt, d') /\ ata_phase_of d' = Idle /\
    (forall b, 0 <= b < ata_sectors -> ata_sector d' b =
       if decide (lba <= b < lba + count)
       then zslice (BLOCK_SIZE * (b - lba)) BLOCK_SIZE bs else ata_sector d b).
Proof.
  intros Hid Hl Hc Hcap Hlen Hby. pose proof (ata_capacity (D := D)). unfold ata_write_blocks.
  rewrite (u32_small lba), (u8_small count) by lia.
  destruct (command_ok d lba count 0x30) as (d1 & Hrun & Hs1 & Hp1); [done | done | done | done | by right |].
  rewrite (bind_run _ _ _ _ _ Hrun).
  destruct (write_sectors_ok (Z.to_nat count) d1 lba 0 bs) as (d' & Hrun' & Hp' & Hs');
    rewrite ?Z2Nat.id in * by lia; [lia | exact Hp1 | done | done | done | lia | done |].
  exists d'. split; [done |]. split; [done |]. intros b Hb. by rewrite Hs', Hs1.
Qed.

(** The driver implements the interface the file system is proved against. *)
#[export] Instance ata_block_device_spec : BlockDeviceSpec D.
Proof.
  refine {| dev_ok d := ata_phase_of d = Idle; dev_blocks := ata_sectors; block := ata_sector |}.
  - intros d b _ Hb. by apply ata_sector_bytes.
  - intros d lba count Hok Hl Hc Hcap.
    destruct (ata_read_ok d lba count Hok Hl Hc Hcap) as (d' & Hrun & Hs & Hp).
    exists d'. split; [done |]. split; [done |]. intros. by rewrite Hs.
  - intros d bs lba count Hok Hl Hc Hcap Hlen Hby.
    destruct (ata_write_ok d bs lba count Hok Hl Hc Hcap Hlen Hby) as (d' & Hrun & Hp & Hs).
    exists d'. split; [cbn; by rewrite Hrun |]. by split.
Defined.

(** C13. The driver refines the block interface: on an idle drive that keeps the ATA
    protocol, reading [count] blocks ends with the bytes of those sectors and the
    drive idle and unchanged; writing them ends with the drive idle, those sectors
    holding the bytes given and every other sector unchanged. Both end whatever
    the drive's delays. *)
Theorem ata_refines_blocks d lba count bs
    (Hidle : ata_phase_of d = Idle) (Hlba : 0 <= lba) (Hcount : 0 < count < 256)
    (Hcap : lba + count <= ata_sectors) (Hlen : zlen bs = BLOCK_SIZE * count) (Hbs : all_bytes bs) :
  (exists d', ata_read_blocks lba count d = Ok (blocks_of (ata_sector d) lba count, d') /\
     ata_phase_of d' = Idle /\ forall b, ata_sector d' b = ata_sector d b) /\
  (exists d', ata_write_blocks bs lba count d = Ok (tt, d') /\ ata_phase_of d' = Idle /\
     forall b, 0 <= b < ata_sectors -> ata_sector d' b =
       if decide (lba <= b < lba + count)
       then zslice (BLOCK_SIZE * (b - lba)) BLOCK_SIZE bs else ata_sector d b).
Proof.
  split; [| by apply ata_write_ok].
  destruct (ata_read_ok d lba count Hidle Hlba Hcount Hcap) as (d' & Hrun & Hs & Hp).
  exists d'. split; [done |]. split; [done |]. intros b. by rewrite Hs.
Qed.
End Refinement.
