(* ===== verification/FatLayout.v ===== *)
(** FatLayout: the on-disk structures of src/filesystem/fat32.h and their packed
    byte layout. *)

From Stdlib Require Import ZArith Lia.
From stdpp Require Import base tactics numbers list.
From S2P Require Import Prelude Disk.

(** ** Constants *)

Definition BOOT_SECTOR : Z := 0.
Definition CLUSTER_BLOCK_COUNT : Z := 4.
Definition CLUSTER_SIZE : Z := BLOCK_SIZE * CLUSTER_BLOCK_COUNT.
Definition CLUSTER_MAP_SIZE : Z := 512.
Definition CLUSTER_0_VALUE : Z := 0x0FFFFFF0.
Definition CLUSTER_1_VALUE : Z := 0x0FFFFFFF.
Definition FAT32_FAT_END_OF_FILE : Z := 0x0FFFFFFF.
Definition FAT32_FAT_EMPTY_ENTRY : Z := 0x00000000.
Definition FAT_CLUSTER_NUMBER : Z := 1.
Definition ROOT_CLUSTER_NUMBER : Z := 2.
Definition ATTR_SUBDIRECTORY : Z := 16.
Definition UATTR_NOT_EMPTY : Z := 170.

(** [sizeof(driver_state.dir_table_buf)/sizeof(struct FAT32DirectoryEntry)] *)
Definition DIR_ENTRIES : Z := 64.

(** ** Directory entries *)

Record FAT32DirectoryEntry := mkEntry {
  name : list Z;
  ext : list Z;
  attribute : Z;
  user_attribute : Z;
  undelete : Z;
  create_time : Z;
  create_date : Z;
  access_date : Z;
  cluster_high : Z;
  modified_time : Z;
  modified_date : Z;
  cluster_low : Z;
  filesize : Z
}.

(** The thirteen fields of the packed struct; [name] and [ext] come first. *)
Definition entry_widths : list nat := [1; 1; 1; 2; 2; 2; 2; 2; 2; 2; 4]%nat.
Definition entry_fields (e : FAT32DirectoryEntry) : list Z :=
  [attribute e; user_attribute e; undelete e; create_time e; create_date e;
   access_date e; cluster_high e; modified_time e; modified_date e; cluster_low e;
   filesize e].

Definition entry_ok (e : FAT32DirectoryEntry) : Prop :=
  zlen (name e) = 8 /\ all_bytes (name e) /\ zlen (ext e) = 3 /\ all_bytes (ext e) /\
  Forall2 field_ok entry_widths (entry_fields e).

Definition empty_entry : FAT32DirectoryEntry :=
  mkEntry (zrep 8 0) (zrep 3 0) 0 0 0 0 0 0 0 0 0 0 0.

Definition encode_entry (e : FAT32DirectoryEntry) : list Z :=
  name e ++ ext e ++ enc_fields entry_widths (entry_fields e).
Definition decode_entry (l : list Z) : FAT32DirectoryEntry :=
  match dec_fields entry_widths (zdrop 3 (zdrop 8 l)) with
  | [a; ua; un; ct; cd; ad; ch; mt; md; cl; fs] =>
    mkEntry (ztake 8 l) (ztake 3 (zdrop 8 l)) a ua un ct cd ad ch mt md cl fs
  | _ => empty_entry
  end.

Lemma zlen_encode_entry e : entry_ok e -> zlen (encode_entry e) = 32.
Proof.
  intros (Hn & _ & He & _). unfold encode_entry.
  rewrite !zlen_app, Hn, He, zlen_enc_fields by done. done.
Qed.
Lemma encode_entry_bytes e : entry_ok e -> all_bytes (encode_entry e).
Proof.
  intros (_ & Hn & _ & He & _). unfold encode_entry.
  rewrite !Forall_app. auto using enc_fields_bytes.
Qed.

Lemma decode_encode_entry e : entry_ok e -> decode_entry (encode_entry e) = e.
Proof.
  intros (Hn & _ & He & _ & Hf). unfold decode_entry, encode_entry.
  rewrite (ztake_app_eq 8), (zdrop_app_eq 8) by done.
  rewrite (ztake_app_eq 3), (zdrop_app_eq 3) by done.
  rewrite <- (app_nil_r (enc_fields _ _)), dec_enc_fields by done. by destruct e.
Qed.

Lemma encode_decode_entry l :
  all_bytes l -> zlen l = 32 -> encode_entry (decode_entry l) = l.
Proof.
  intros Hl Hlen. unfold encode_entry.
  pose proof (enc_dec_fields entry_widths (zdrop 3 (zdrop 8 l))) as Hf.
  replace l with (ztake 8 l ++ ztake 3 (zdrop 8 l) ++ zdrop 3 (zdrop 8 l)) at 4
    by (by rewrite !ztake_zdrop).
  rewrite <- Hf; [done | by apply Forall_drop, Forall_drop |].
  rewrite !zlen_zdrop. unfold fields_width. cbn. lia.
Qed.

Lemma decode_entry_ok l : all_bytes l -> zlen l = 32 -> entry_ok (decode_entry l).
Proof.
  intros Hl Hlen. unfold entry_ok. split_and!.
  - cbn. rewrite zlen_ztake. lia.
  - by apply Forall_take.
  - cbn. rewrite zlen_ztake, zlen_zdrop. lia.
  - by apply Forall_take, Forall_drop.
  - apply (dec_fields_ok entry_widths (zdrop 3 (zdrop 8 l))).
    + by apply Forall_drop, Forall_drop.
    + rewrite !zlen_zdrop. unfold fields_width. cbn. lia.
Qed.

(** The cluster an entry names: [(cluster_high << 16) + cluster_low]. *)
Definition entry_cluster (e : FAT32DirectoryEntry) : Z :=
  u32 (Z.shiftl (cluster_high e) 16 + cluster_low e).
Definition set_cluster (c : Z) (e : FAT32DirectoryEntry) : FAT32DirectoryEntry :=
  mkEntry (name e) (ext e) (attribute e) (user_attribute e) (undelete e) (create_time e)
    (create_date e) (access_date e) (u16 (Z.shiftr c 16)) (modified_time e)
    (modified_date e) (u16 c) (filesize e).

Lemma shiftr16_add_u16 c : Z.shiftl (Z.shiftr c 16) 16 + u16 c = c.
Proof.
  rewrite Z.shiftl_mul_pow2, Z.shiftr_div_pow2 by lia. unfold u16.
  pose proof (Z.div_mod c (2 ^ 16)). lia.
Qed.
Lemma u16_shiftr16 c : 0 <= c < 2 ^ 32 -> u16 (Z.shiftr c 16) = Z.shiftr c 16.
Proof.
  intros. apply u16_small. rewrite Z.shiftr_div_pow2 by lia. split.
  - apply Z.div_pos; lia.
  - apply Z.div_lt_upper_bound; lia.
Qed.
Lemma entry_cluster_set c e : 0 <= c < 2 ^ 32 -> entry_cluster (set_cluster c e) = c.
Proof.
  intros Hc. unfold entry_cluster. cbn. rewrite u16_shiftr16, shiftr16_add_u16 by done.
  by apply u32_small.
Qed.

(** ** Directory tables: 64 entries of 32 bytes *)

Definition table_ok (t : list FAT32DirectoryEntry) : Prop :=
  zlen t = DIR_ENTRIES /\ Forall entry_ok t.
Definition encode_table (t : list FAT32DirectoryEntry) : list Z := enc_all encode_entry t.
Definition decode_table (l : list Z) : list FAT32DirectoryEntry :=
  dec_all 32 decode_entry (Z.to_nat DIR_ENTRIES) l.

Lemma zlen_encode_table t : table_ok t -> zlen (encode_table t) = CLUSTER_SIZE.
Proof.
  intros [Hlen Hok]. unfold encode_table.
  rewrite (zlen_enc_all 32 _ entry_ok zlen_encode_entry _ Hok), Hlen. done.
Qed.
Lemma encode_table_bytes t : table_ok t -> all_bytes (encode_table t).
Proof. intros [_ Hok]. by apply (enc_all_bytes _ entry_ok encode_entry_bytes). Qed.
Lemma decode_encode_table t : table_ok t -> decode_table (encode_table t) = t.
Proof.
  intros [Hlen Hok]. unfold decode_table, encode_table.
  by apply (dec_enc_all 32 _ _ entry_ok zlen_encode_entry decode_encode_entry).
Qed.
Lemma encode_decode_table l :
  all_bytes l -> zlen l = CLUSTER_SIZE -> encode_table (decode_table l) = l.
Proof.
  intros. unfold decode_table, encode_table.
  by apply (enc_dec_all 32 _ _ ltac:(lia) encode_decode_entry).
Qed.
Lemma decode_table_ok l : all_bytes l -> zlen l = CLUSTER_SIZE -> table_ok (decode_table l).
Proof.
  intros. split; [by apply zlen_dec_all |].
  by apply (dec_all_ok 32 _ entry_ok ltac:(lia) decode_entry_ok).
Qed.

(** ** The allocation table: 512 words *)

Definition word_ok (w : Z) : Prop := 0 <= w < 2 ^ 32.
Definition fat_ok (fat : list Z) : Prop := zlen fat = CLUSTER_MAP_SIZE /\ Forall word_ok fat.
Definition encode_words (ws : list Z) : list Z := enc_all (le_bytes 4) ws.
Definition decode_words (l : list Z) : list Z := dec_all 4 le_val (Z.to_nat CLUSTER_MAP_SIZE) l.

Lemma zlen_encode_word w : word_ok w -> zlen (le_bytes 4 w) = 4.
Proof. intros _. apply zlen_le_bytes. Qed.
Lemma zlen_encode_words ws : fat_ok ws -> zlen (encode_words ws) = CLUSTER_SIZE.
Proof.
  intros [Hlen Hok]. unfold encode_words.
  rewrite (zlen_enc_all 4 _ word_ok zlen_encode_word _ Hok), Hlen. done.
Qed.
Lemma encode_words_bytes ws : all_bytes (encode_words ws).
Proof.
  unfold encode_words, enc_all. induction ws; cbn [fmap list_fmap concat]; [constructor |].
  apply Forall_app. split; [apply le_bytes_all_bytes | done].
Qed.
Lemma decode_encode_words ws : fat_ok ws -> decode_words (encode_words ws) = ws.
Proof.
  intros [Hlen Hok]. unfold decode_words, encode_words.
  apply (dec_enc_all 4 _ _ word_ok zlen_encode_word); [| done..].
  intros. by apply le_val_le_bytes_small.
Qed.
Lemma encode_decode_words l :
  all_bytes l -> zlen l = CLUSTER_SIZE -> encode_words (decode_words l) = l.
Proof.
  intros. unfold decode_words, encode_words.
  apply (enc_dec_all 4 _ _ ltac:(lia)); [| done..].
  intros b Hb Hlen. by apply le_bytes_le_val.
Qed.
Lemma decode_words_ok l : all_bytes l -> zlen l = CLUSTER_SIZE -> fat_ok (decode_words l).
Proof.
  intros. split; [by apply zlen_dec_all |].
  apply (dec_all_ok 4 _ word_ok ltac:(lia)); [| done..].
  intros b Hb Hlen. unfold word_ok. pose proof (le_val_range b Hb) as Hr.
  by rewrite Hlen in Hr.
Qed.
