(* ===== verification/Fat32.v ===== *)
(** Fat32: the file-system driver of src/filesystem/fat32.c, over any block
    device and any caller memory. *)

From Stdlib Require Import ZArith Lia.
From stdpp Require Import base tactics numbers strings list.
From S2P Require Import Prelude Memory CString Disk FatLayout.
#[local] Open Scope eff_scope.

(** ** State

    The packed [struct FAT32DriverState] (its three members are adjacent), and
    the argument of an operation. *)
Record FAT32DriverState := mkDriver {
  fat_table : list Z;
  dir_table_buf : list FAT32DirectoryEntry;
  cluster_buf : list Z
}.

Record FAT32DriverRequest := mkRequest {
  buf : Z;
  req_name : list Z;
  req_ext : list Z;
  parent_cluster_number : Z;
  buffer_size : Z
}.

(** The driver state of a machine that has just started: a zeroed global. *)
Definition boot_driver_state : FAT32DriverState :=
  mkDriver (zrep CLUSTER_MAP_SIZE 0) (zrep DIR_ENTRIES empty_entry) (zrep CLUSTER_SIZE 0).

Definition set_fat_table (f : list Z) (s : FAT32DriverState) : FAT32DriverState :=
  mkDriver f (dir_table_buf s) (cluster_buf s).
Definition set_dir_table_buf (t : list FAT32DirectoryEntry) (s : FAT32DriverState)
  : FAT32DriverState := mkDriver (fat_table s) t (cluster_buf s).

(** What an operation works on: the device, the driver state, the memory that
    [request.buf] points into, and the stores it made through
    [driver_state.fat_table.cluster_map] past the end of [driver_state], most
    recent first, as (index, value). *)
Record FS (D M : Type) := mkFS {
  disk : D;
  driver_state : FAT32DriverState;
  umem : M;
  stray : list (Z * Z)
}.
Arguments mkFS {D M}.
Arguments disk {D M}.
Arguments driver_state {D M}.
Arguments umem {D M}.
Arguments stray {D M}.

(** ** cluster_map

    [driver_state.fat_table.cluster_map[i]]: an index past the 512 words of the
    table falls in the members that follow it, 4 bytes per index. *)
Definition DRIVER_STATE_WORDS : Z := 1536.

Definition cluster_map_get (i : Z) (s : FAT32DriverState) : Res Z :=
  if decide (0 <= i < CLUSTER_MAP_SIZE) then of_option BadAccess (fat_table s).[i]
  else if decide (CLUSTER_MAP_SIZE <= i < 1024) then
    Ok (le_val (zslice (4 * (i - CLUSTER_MAP_SIZE)) 4 (encode_table (dir_table_buf s))))
  else if decide (1024 <= i < DRIVER_STATE_WORDS) then
    Ok (le_val (zslice (4 * (i - 1024)) 4 (cluster_buf s)))
  else Fault BadAccess.

Definition cluster_map_put (i v : Z) (s : FAT32DriverState) : FAT32DriverState :=
  if decide (0 <= i < CLUSTER_MAP_SIZE) then set_fat_table (fat_table s).[i := v] s
  else if decide (CLUSTER_MAP_SIZE <= i < 1024) then
    set_dir_table_buf
      (decode_table (zsplice (4 * (i - CLUSTER_MAP_SIZE)) (le_bytes 4 v)
                             (encode_table (dir_table_buf s)))) s
  else if decide (1024 <= i < DRIVER_STATE_WORDS) then
    mkDriver (fat_table s) (dir_table_buf s)
      (zsplice (4 * (i - 1024)) (le_bytes 4 v) (cluster_buf s))
  else s.

(** [for (i = ...; i < CLUSTER_SIZE; i++) if (cluster_map[i] == EMPTY) ...break;] *)
Fixpoint find_empty (n : nat) (i : Z) (s : FAT32DriverState) : Res (option Z) :=
  match n with
  | O => Ok None
  | S n' => res_bind (cluster_map_get i s) (fun v =>
            if v =? FAT32_FAT_EMPTY_ENTRY then Ok (Some i) else find_empty n' (i + 1) s)
  end.
Definition find_empty_cluster (s : FAT32DriverState) : Res (option Z) :=
  find_empty (Z.to_nat CLUSTER_SIZE) 0 s.

(** ** Directory tables *)

Definition cluster_to_lba (cluster : Z) : Z := u32 (cluster * CLUSTER_BLOCK_COUNT).

Definition dir_entry (name ext : list Z) (attr start size : Z) : FAT32DirectoryEntry :=
  mkEntry name ext attr UATTR_NOT_EMPTY 0 0 0 0 (u16 (Z.shiftr start 16)) 0 0 (u16 start) size.

Definition dot_dot : list Z := str ".." ++ zrep 6 0.

Definition init_directory_table (dir_table : list FAT32DirectoryEntry) (name : list Z)
    (parent_dir_cluster : Z) : list FAT32DirectoryEntry :=
  let dir := dir_entry (ztake 8 name) (zrep 3 0) ATTR_SUBDIRECTORY parent_dir_cluster 0 in
  let parent_entry := dir_entry dot_dot (zrep 3 0) ATTR_SUBDIRECTORY parent_dir_cluster 0 in
  dir_table.[0 := dir].[1 := parent_entry].

Definition zero_table : list FAT32DirectoryEntry := zrep DIR_ENTRIES empty_entry.

(** [driver_state.dir_table_buf.table[i]], for an [i] below 64. *)
Definition row (t : list FAT32DirectoryEntry) (i : Z) : FAT32DirectoryEntry :=
  znth empty_entry t i.

Definition same_name (e : FAT32DirectoryEntry) (request : FAT32DriverRequest) : bool :=
  mem_eq (name e) (req_name request) 8.
Definition same_name_ext (e : FAT32DirectoryEntry) (request : FAT32DriverRequest) : bool :=
  mem_eq (name e) (req_name request) 8 && mem_eq (ext e) (req_ext request) 3.

(** [user_attribute == UATTR_NOT_EMPTY && attribute == ATTR_SUBDIRECTORY] of the
    table's first entry: the cluster holds a directory. *)
Definition is_directory_table (t : list FAT32DirectoryEntry) : bool :=
  (user_attribute (row t 0) =? UATTR_NOT_EMPTY) && (attribute (row t 0) =? ATTR_SUBDIRECTORY).

Definition find_free_row (t : list FAT32DirectoryEntry) : option Z :=
  for_find 2 64 (fun i => negb (user_attribute (row t i) =? UATTR_NOT_EMPTY)).
Definition find_entry (lo : Z) (t : list FAT32DirectoryEntry) (request : FAT32DriverRequest)
  : option Z := for_find lo 64 (fun i => same_name_ext (row t i) request).

Definition fs_signature : list Z :=
  str "Course          " ++ str "Designed by     " ++ str "Lab Sister ITB  " ++
  str "Made with <3    " ++ str "-----------2023" ++ [10] ++ zrep 430 0 ++ str "Ok".

Section Driver.
Context {D M : Type} `{BlockDevice D} `{ByteMem M}.
Implicit Types (request : FAT32DriverRequest).

Definition set_disk (d : D) (st : FS D M) : FS D M :=
  mkFS d (driver_state st) (umem st) (stray st).
Definition set_driver (s : FAT32DriverState) (st : FS D M) : FS D M :=
  mkFS (disk st) s (umem st) (stray st).
Definition set_umem (m : M) (st : FS D M) : FS D M :=
  mkFS (disk st) (driver_state st) m (stray st).
Definition log_stray (i v : Z) (st : FS D M) : FS D M :=
  mkFS (disk st) (driver_state st) (umem st) ((i, v) :: stray st).

(** ** Clusters *)

Definition read_clusters (cluster_number cluster_count : Z) : Eff (FS D M) (list Z) :=
  fun st =>
    match read_blocks (cluster_to_lba cluster_number)
            (u8 (cluster_count * CLUSTER_BLOCK_COUNT)) (disk st) with
    | Ok (bs, d) => Ok (bs, set_disk d st)
    | Fault e => Fault e
    end.
Definition write_device (ptr : list Z) (lba count : Z) : Eff (FS D M) unit :=
  fun st =>
    match write_blocks ptr lba count (disk st) with
    | Ok d => Ok (tt, set_disk d st)
    | Fault e => Fault e
    end.
Definition write_clusters (ptr : list Z) (cluster_number cluster_count : Z)
  : Eff (FS D M) unit :=
  write_device ptr (cluster_to_lba cluster_number) (u8 (cluster_count * CLUSTER_BLOCK_COUNT)).

(** Loads and stores through [request.buf]. *)
Definition load_user (a n : Z) : Eff (FS D M) (list Z) :=
  fun st => of_res (load_bytes (Z.to_nat n) a (umem st)) st.
Definition store_user (a : Z) (bs : list Z) : Eff (FS D M) unit :=
  fun st => match store_bytes a bs (umem st) with
            | Ok m => Ok (tt, set_umem m st)
            | Fault e => Fault e
            end.

Definition map_get (i : Z) : Eff (FS D M) Z :=
  fun st => of_res (cluster_map_get i (driver_state st)) st.
Definition map_put (i v : Z) : Eff (FS D M) unit :=
  modify (fun st =>
    if decide (0 <= i < DRIVER_STATE_WORDS)
    then set_driver (cluster_map_put i v (driver_state st)) st
    else log_stray i v st).

Definition get_table : Eff (FS D M) (list FAT32DirectoryEntry) :=
  gets (fun st => dir_table_buf (driver_state st)).
Definition put_table (t : list FAT32DirectoryEntry) : Eff (FS D M) unit :=
  modify (fun st => set_driver (set_dir_table_buf t (driver_state st)) st).

(** [read_clusters(driver_state.dir_table_buf.table, c, 1)], and the same for
    the allocation table; [flush_table] and [flush_fat] write them back. *)
Definition load_table (c : Z) : Eff (FS D M) unit :=
  bs <- read_clusters c 1 ;; put_table (decode_table bs).
Definition flush_table (c : Z) : Eff (FS D M) unit :=
  t <- get_table ;; write_clusters (encode_table t) c 1.
Definition load_fat : Eff (FS D M) unit :=
  bs <- read_clusters FAT_CLUSTER_NUMBER 1 ;;
  modify (fun st => set_driver (set_fat_table (decode_words bs) (driver_state st)) st).
Definition flush_fat : Eff (FS D M) unit :=
  f <- gets (fun st => fat_table (driver_state st)) ;;
  write_clusters (encode_words f) FAT_CLUSTER_NUMBER 1.

(** ** Initialisation *)

Definition is_empty_storage : Eff (FS D M) bool :=
  boot_sector <- read_clusters BOOT_SECTOR 1 ;;
  r <- of_res (memcmp (array_ptr boot_sector) (array_ptr fs_signature) BLOCK_SIZE) ;;
  ret (negb (r =? 0)).

Definition new_fat_table : list Z :=
  [CLUSTER_0_VALUE; CLUSTER_1_VALUE; FAT32_FAT_END_OF_FILE] ++ zrep 509 0.
Definition new_root_dir : list FAT32DirectoryEntry :=
  init_directory_table zero_table (str "root" ++ zrep 4 0) ROOT_CLUSTER_NUMBER.

Definition create_fat32 : Eff (FS D M) unit :=
  write_device fs_signature BOOT_SECTOR 1 ;;;
  write_clusters (encode_words new_fat_table) FAT_CLUSTER_NUMBER 1 ;;;
  write_clusters (encode_table new_root_dir) ROOT_CLUSTER_NUMBER 1 ;;;
  modify (fun st => set_driver
    (mkDriver new_fat_table new_root_dir (cluster_buf (driver_state st))) st).

Definition initialize_filesystem_fat32 : Eff (FS D M) unit :=
  empty <- is_empty_storage ;;
  if empty then create_fat32 else load_fat.

(** ** read_directory *)

Definition read_directory request : Eff (FS D M) Z :=
  load_table (parent_cluster_number request) ;;;
  t <- get_table ;;
  if negb (user_attribute (row t 0) =? UATTR_NOT_EMPTY) then ret (-1) else
  match for_find 0 DIR_ENTRIES (fun i => same_name (row t i) request) with
  | None => ret 2
  | Some i =>
    if negb (attribute (row t i) =? ATTR_SUBDIRECTORY) then ret 1 else
    bs <- read_clusters (entry_cluster (row t i)) 1 ;;
    store_user (buf request) bs ;;;
    ret 0
  end.

(** ** read

    The chain loop visits a word of [driver_state] per turn and changes none,
    so a run longer than the number of words never ends: [CHAIN_FUEL]
    exceeds it. *)
Definition CHAIN_FUEL : nat := Z.to_nat (DRIVER_STATE_WORDS + 1).

Fixpoint read_chain (fuel : nat) request (cluster_num counter : Z) : Eff (FS D M) unit :=
  match fuel with
  | O => stop Stuck
  | S fuel' =>
    bs <- read_clusters cluster_num 1 ;;
    store_user (buf request + CLUSTER_SIZE * counter) bs ;;;
    next <- map_get cluster_num ;;
    if next =? FAT32_FAT_END_OF_FILE then ret tt
    else read_chain fuel' request next (u16 (counter + 1))
  end.

Definition read request : Eff (FS D M) Z :=
  load_table (parent_cluster_number request) ;;;
  t <- get_table ;;
  if negb (user_attribute (row t 0) =? UATTR_NOT_EMPTY) then ret (-1) else
  load_fat ;;;
  match find_entry 0 t request with
  | None => ret 2
  | Some i =>
    if attribute (row t i) =? ATTR_SUBDIRECTORY then ret 1 else
    if buffer_size request <? filesize (row t i) then ret (-1) else
    read_chain CHAIN_FUEL request (entry_cluster (row t i)) 0 ;;;
    ret 0
  end.

(** ** write *)

(** The rest of [write] when [buffer_size] is 0: a new directory. *)
Definition write_folder request (entry_row : Z) : Eff (FS D M) Z :=
  found <- (fun st => of_res (find_empty_cluster (driver_state st)) st) ;;
  let cluster_number := default 0 found in
  if cluster_number =? 0 then ret (-1) else
  map_put cluster_number FAT32_FAT_END_OF_FILE ;;;
  flush_fat ;;;
  let new_dir := init_directory_table zero_table (req_name request)
                   (parent_cluster_number request) in
  let new_dir := new_dir.[0 := set_cluster cluster_number (row new_dir 0)] in
  t <- get_table ;;
  put_table t.[entry_row := row new_dir 0] ;;;
  flush_table (parent_cluster_number request) ;;;
  write_clusters (encode_table new_dir) cluster_number 1 ;;;
  ret 0.

(** [cluster_needed] for a file of [size] bytes. *)
Definition clusters_for (size : Z) : Z :=
  if size mod CLUSTER_SIZE =? 0 then size / CLUSTER_SIZE else size / CLUSTER_SIZE + 1.

(** The loop that fills the clusters after the first: [n] more values of [i]
    to go. The result is the final [cluster_needed]. *)
Fixpoint fill_clusters (n : nat) request (i temp_cluster file_part cluster_needed : Z)
  : Eff (FS D M) Z :=
  match n with
  | O => ret cluster_needed
  | S n' =>
    if cluster_needed <=? 0 then ret cluster_needed else
    v <- map_get i ;;
    if v =? FAT32_FAT_EMPTY_ENTRY then
      map_put temp_cluster i ;;;
      let cluster_buffer_size :=
        if cluster_needed =? 1 then buffer_size request mod CLUSTER_SIZE else CLUSTER_SIZE in
      data <- load_user (buf request + CLUSTER_SIZE * file_part) cluster_buffer_size ;;
      write_clusters (data ++ zrep (CLUSTER_SIZE - cluster_buffer_size) 0) i 1 ;;;
      map_put i FAT32_FAT_END_OF_FILE ;;;
      fill_clusters n' request (i + 1) i (file_part + 1) (cluster_needed - 1)
    else fill_clusters n' request (i + 1) temp_cluster file_part cluster_needed
  end.

(** The rest of [write] for a file. *)
Definition write_file request (entry_row : Z) : Eff (FS D M) Z :=
  let cluster_needed := clusters_for (buffer_size request) in
  found <- (fun st => of_res (find_empty_cluster (driver_state st)) st) ;;
  let start_cluster := default 0 found in
  let cluster_needed := if found is Some _ then cluster_needed - 1 else cluster_needed in
  cluster_buffer <- load_user (buf request) CLUSTER_SIZE ;;
  first <- load_user (buf request) CLUSTER_SIZE ;;
  write_clusters first start_cluster 1 ;;;
  map_put start_cluster FAT32_FAT_END_OF_FILE ;;;
  cluster_needed <- fill_clusters (Z.to_nat (CLUSTER_SIZE - (start_cluster + 1))) request
                      (start_cluster + 1) start_cluster 1 cluster_needed ;;
  flush_fat ;;;
  let new_file := dir_entry (ztake 8 (req_name request)) (ztake 3 (req_ext request)) 0
                    start_cluster (buffer_size request) in
  t <- get_table ;;
  put_table t.[entry_row := new_file] ;;;
  flush_table (parent_cluster_number request) ;;;
  if 0 <? cluster_needed then ret (-1) else ret 0.

Definition write request : Eff (FS D M) Z :=
  load_table (parent_cluster_number request) ;;;
  t <- get_table ;;
  if negb (is_directory_table t) then ret 2 else
  match find_free_row t with
  | None => ret (-1)
  | Some entry_row =>
    if find_entry 2 t request is Some _ then ret 1 else
    if buffer_size request =? 0 then write_folder request entry_row
    else write_file request entry_row
  end.

(** ** delete *)

Definition clear_name (e : FAT32DirectoryEntry) : FAT32DirectoryEntry :=
  mkEntry (zrep 8 0) (ext e) (attribute e) (user_attribute e) (undelete e) (create_time e)
    (create_date e) (access_date e) (cluster_high e) (modified_time e) (modified_date e)
    (cluster_low e) (filesize e).
Definition clear_attributes (e : FAT32DirectoryEntry) : FAT32DirectoryEntry :=
  mkEntry (name e) (ext e) FAT32_FAT_EMPTY_ENTRY FAT32_FAT_EMPTY_ENTRY (undelete e)
    (create_time e) (create_date e) (access_date e) (cluster_high e) (modified_time e)
    (modified_date e) (cluster_low e) (filesize e).
Definition clear_entry (e : FAT32DirectoryEntry) : FAT32DirectoryEntry :=
  clear_attributes (clear_name e).

Definition is_empty_folder (t : list FAT32DirectoryEntry) : bool :=
  if for_find 2 64 (fun i => user_attribute (row t i) =? UATTR_NOT_EMPTY) is Some _
  then false else true.

Definition delete_folder request (entry_row cluster_number : Z) : Eff (FS D M) Z :=
  bs <- read_clusters cluster_number 1 ;;
  let target_dir := decode_table bs in
  if negb (is_empty_folder target_dir) then ret 2 else
  t <- get_table ;;
  put_table t.[entry_row := clear_entry (row t entry_row)] ;;;
  flush_table (parent_cluster_number request) ;;;
  let target_dir := target_dir.[0 := clear_entry (row target_dir 0)]
                              .[1 := clear_entry (row target_dir 1)] in
  write_clusters (encode_table target_dir) cluster_number 1 ;;;
  map_put cluster_number FAT32_FAT_EMPTY_ENTRY ;;;
  flush_fat ;;;
  ret 0.

(** [while (next_cluster != END_OF_FILE) ...]; the result is the last cluster
    freed. *)
Fixpoint free_chain (fuel : nat) (cluster_number next_cluster : Z) : Eff (FS D M) Z :=
  if next_cluster =? FAT32_FAT_END_OF_FILE then ret cluster_number else
  match fuel with
  | O => stop Stuck
  | S fuel' =>
    next <- map_get next_cluster ;;
    map_put next_cluster FAT32_FAT_EMPTY_ENTRY ;;;
    write_clusters (zrep CLUSTER_SIZE 0) next_cluster 1 ;;;
    free_chain fuel' next_cluster next
  end.

Definition delete_file request (entry_row cluster_number : Z) : Eff (FS D M) Z :=
  t <- get_table ;;
  put_table t.[entry_row := empty_entry] ;;;
  flush_table (parent_cluster_number request) ;;;
  next <- map_get cluster_number ;;
  map_put cluster_number FAT32_FAT_EMPTY_ENTRY ;;;
  write_clusters (zrep CLUSTER_SIZE 0) cluster_number 1 ;;;
  last <- free_chain CHAIN_FUEL cluster_number next ;;
  map_put FAT32_FAT_END_OF_FILE FAT32_FAT_EMPTY_ENTRY ;;;
  flush_fat ;;;
  write_clusters (zrep CLUSTER_SIZE 0) last 1 ;;;
  ret 0.

Definition delete request : Eff (FS D M) Z :=
  load_table (parent_cluster_number request) ;;;
  t <- get_table ;;
  if negb (is_directory_table t) then ret (-1) else
  match find_entry 2 t request with
  | None => ret 1
  | Some i =>
    let cluster_number := entry_cluster (row t i) in
    if attribute (row t i) =? ATTR_SUBDIRECTORY
    then delete_folder request i cluster_number
    else delete_file request i cluster_number
  end.
End Driver.
