(* ===== verification/FatLogic.v ===== *)
(** FatLogic: symbolic execution of the file-system driver. A run on any block
    device that meets its interface is described by what the first 512 clusters
    hold, the driver's tables, the caller's memory and the stray stores. *)

From Stdlib Require Import ZArith Lia.
From stdpp Require Import base tactics numbers list.
From S2P Require Import Prelude Memory CString Disk FatLayout Fat32.

(** ** Abstract states *)

Record Abs (M : Type) := mkAbs {
  a_cl : Z -> list Z;
  a_fat : list Z;
  a_tab : list FAT32DirectoryEntry;
  a_cbuf : list Z;
  a_mem : M;
  a_stray : list (Z * Z)
}.
Arguments mkAbs {M}.
Arguments a_cl {M}.
Arguments a_fat {M}.
Arguments a_tab {M}.
Arguments a_cbuf {M}.
Arguments a_mem {M}.
Arguments a_stray {M}.

(** Clusters the allocation table can name. *)
Definition in_fat (c : Z) : Prop := 0 <= c < CLUSTER_MAP_SIZE.

Definition upd (cl : Z -> list Z) (c : Z) (bs : list Z) : Z -> list Z :=
  fun k => if decide (k = c) then bs else cl k.

Lemma upd_eq cl c bs : upd cl c bs c = bs.
Proof. unfold upd. by rewrite decide_True. Qed.
Lemma upd_ne cl c bs k : k <> c -> upd cl c bs k = cl k.
Proof. intros. unfold upd. by rewrite decide_False. Qed.

Definition cluster_data_ok (bs : list Z) : Prop := zlen bs = CLUSTER_SIZE /\ all_bytes bs.

Section Abstract.
Context {M : Type}.
Implicit Types (a : Abs M).
Definition abs_ok a : Prop := forall c, in_fat c -> cluster_data_ok (a_cl a c).
Definition a_set_cl (cl : Z -> list Z) a : Abs M :=
  mkAbs cl (a_fat a) (a_tab a) (a_cbuf a) (a_mem a) (a_stray a).
Definition a_set_fat (f : list Z) a : Abs M :=
  mkAbs (a_cl a) f (a_tab a) (a_cbuf a) (a_mem a) (a_stray a).
Definition a_set_tab (t : list FAT32DirectoryEntry) a : Abs M :=
  mkAbs (a_cl a) (a_fat a) t (a_cbuf a) (a_mem a) (a_stray a).
Definition a_set_mem (m : M) a : Abs M :=
  mkAbs (a_cl a) (a_fat a) (a_tab a) (a_cbuf a) m (a_stray a).
Definition a_log (i v : Z) a : Abs M :=
  mkAbs (a_cl a) (a_fat a) (a_tab a) (a_cbuf a) (a_mem a) ((i, v) :: a_stray a).
End Abstract.

Section Logic.
Context {D M : Type} `{BlockDeviceSpec D} `{ByteMem M}.
(** The device holds every cluster the allocation table can name. *)
Context (Hcap : CLUSTER_BLOCK_COUNT * CLUSTER_MAP_SIZE <= dev_blocks).
Implicit Types (a : Abs M) (st : FS D M).

(** The 2048 bytes of a cluster on the device. *)
Definition cluster (d : D) (c : Z) : list Z :=
  blocks_of (block d) (CLUSTER_BLOCK_COUNT * c) CLUSTER_BLOCK_COUNT.

Record repr st a : Prop := {
  repr_dev : dev_ok (disk st);
  repr_cl : forall c, in_fat c -> cluster (disk st) c = a_cl a c;
  repr_drv : driver_state st = mkDriver (a_fat a) (a_tab a) (a_cbuf a);
  repr_mem : umem st = a_mem a;
  repr_stray : stray st = a_stray a
}.

(** The abstract state of a concrete one. *)
Definition view st : Abs M :=
  mkAbs (cluster (disk st)) (fat_table (driver_state st)) (dir_table_buf (driver_state st))
    (cluster_buf (driver_state st)) (umem st) (stray st).
Lemma repr_view st : dev_ok (disk st) -> repr st (view st).
Proof. intros. split; try done. cbn. by destruct (driver_state st). Qed.

(** From a state described by [a], [c] ends with a result and a state
    described by some [a'] that satisfy [Q]. *)
Definition awp {A : Type} a (c : Eff (FS D M) A) (Q : A -> Abs M -> Prop) : Prop :=
  forall st, repr st a -> wp c (fun r st' => exists a', repr st' a' /\ Q r a') st.

(** ** Blocks and clusters *)

Lemma cluster_blocks d c :
  cluster d c = block d (4 * c) ++ block d (4 * c + 1) ++ block d (4 * c + 2) ++
                block d (4 * c + 3).
Proof.
  unfold cluster, blocks_of, CLUSTER_BLOCK_COUNT.
  rewrite !seqZ_cons by lia. cbn [fmap list_fmap concat].
  rewrite (seqZ_nil _ _) by lia. cbn [fmap list_fmap concat]. rewrite app_nil_r.
  do 3 f_equal; [f_equal; lia | f_equal; f_equal; lia].
Qed.

Lemma cluster_block_range c j :
  in_fat c -> 0 <= j < 4 -> 0 <= 4 * c + j < dev_blocks.
Proof. unfold in_fat, CLUSTER_BLOCK_COUNT, CLUSTER_MAP_SIZE in *. lia. Qed.

Lemma cluster_ok d c : dev_ok d -> in_fat c -> cluster_data_ok (cluster d c).
Proof.
  intros Hd Hc. rewrite cluster_blocks. unfold cluster_data_ok.
  destruct (block_bytes d (4 * c) Hd) as [L0 B0];
    [pose proof (cluster_block_range c 0 Hc); lia |].
  destruct (block_bytes d (4 * c + 1) Hd) as [L1 B1];
    [by apply cluster_block_range; [| lia] |].
  destruct (block_bytes d (4 * c + 2) Hd) as [L2 B2];
    [by apply cluster_block_range; [| lia] |].
  destruct (block_bytes d (4 * c + 3) Hd) as [L3 B3];
    [by apply cluster_block_range; [| lia] |].
  rewrite !zlen_app, L0, L1, L2, L3, !Forall_app. done.
Qed.

Lemma same_blocks_same_cluster d d' c :
  in_fat c -> (forall b, 0 <= b < dev_blocks -> block d' b = block d b) ->
  cluster d' c = cluster d c.
Proof.
  intros Hc Hb. rewrite !cluster_blocks.
  pose proof (cluster_block_range c 0 Hc). pose proof (cluster_block_range c 1 Hc).
  pose proof (cluster_block_range c 2 Hc). pose proof (cluster_block_range c 3 Hc).
  rewrite !Hb by lia. done.
Qed.

Lemma zslice_split4 (bs : list Z) :
  zlen bs = 2048 ->
  zslice 0 512 bs ++ zslice 512 512 bs ++ zslice 1024 512 bs ++ zslice 1536 512 bs = bs.
Proof.
  intros Hl. apply zget_ext. intros i.
  destruct (decide (0 <= i < 2048)) as [Hi | Hi].
  - destruct (decide (i < 512)); [| destruct (decide (i < 1024));
      [| destruct (decide (i < 1536))]].
    + rewrite zget_app_l by (rewrite zlen_zslice; lia). by rewrite zget_zslice by lia.
    + rewrite zget_app_r by (rewrite zlen_zslice; lia).
      rewrite zlen_zslice by lia.
      rewrite zget_app_l by (rewrite zlen_zslice; lia).
      rewrite zget_zslice by lia. f_equal. lia.
    + do 2 (rewrite zget_app_r by (rewrite zlen_zslice; lia); rewrite zlen_zslice by lia).
      rewrite zget_app_l by (rewrite zlen_zslice; lia).
      rewrite zget_zslice by lia. f_equal. lia.
    + do 3 (rewrite zget_app_r by (rewrite zlen_zslice; lia); rewrite zlen_zslice by lia).
      rewrite zget_zslice by lia. f_equal. lia.
  - rewrite !zget_None; [done | lia |]. rewrite !zlen_app, !zlen_zslice by lia. lia.
Qed.

Lemma cluster_to_lba_eq c : in_fat c -> cluster_to_lba c = CLUSTER_BLOCK_COUNT * c.
Proof.
  unfold in_fat, cluster_to_lba, CLUSTER_MAP_SIZE, CLUSTER_BLOCK_COUNT. intros.
  rewrite u32_small; lia.
Qed.

(** ** Rules *)

Lemma awp_ret {A} (r : A) a (Q : A -> Abs M -> Prop) : Q r a -> awp a (ret r) Q.
Proof. intros HQ st Hr. apply wp_ret. eauto. Qed.
Lemma awp_bind {A B} (c : Eff (FS D M) A) (f : A -> Eff (FS D M) B) a
    (Q : B -> Abs M -> Prop) :
  awp a c (fun r a' => awp a' (f r) Q) -> awp a (bind c f) Q.
Proof.
  intros Hc st Hr. apply wp_bind. eapply wp_mono; [by apply Hc |].
  intros r st' (a' & Hr' & Hf). by apply Hf.
Qed.
Lemma awp_mono {A} (c : Eff (FS D M) A) a (P Q : A -> Abs M -> Prop) :
  awp a c P -> (forall r a', P r a' -> Q r a') -> awp a c Q.
Proof.
  intros Hc HPQ st Hr. eapply wp_mono; [by apply Hc |].
  intros r st' (a' & Hr' & HP). eauto.
Qed.
(** The clusters of a represented state are 2048 bytes each. *)
Lemma repr_ok st a : repr st a -> abs_ok a.
Proof. intros [Hd Hcl _ _ _] c Hc. rewrite <- Hcl by done. by apply cluster_ok. Qed.
Lemma awp_ok {A} (c : Eff (FS D M) A) a (Q : A -> Abs M -> Prop) :
  (abs_ok a -> awp a c Q) -> awp a c Q.
Proof. intros Hc st Hr. apply Hc; [by eapply repr_ok | done]. Qed.

Lemma awp_read_clusters c a (Q : list Z -> Abs M -> Prop) :
  in_fat c -> Q (a_cl a c) a -> awp a (read_clusters c 1) Q.
Proof.
  intros Hc HQ st [Hd Hcl Hdrv Hm Hs]. unfold wp, read_clusters.
  rewrite cluster_to_lba_eq by done.
  change (u8 (1 * CLUSTER_BLOCK_COUNT)) with CLUSTER_BLOCK_COUNT.
  pose proof (cluster_block_range c 0 Hc). pose proof (cluster_block_range c 3 Hc).
  unfold CLUSTER_BLOCK_COUNT in *.
  destruct (read_blocks_ok (disk st) (4 * c) 4 Hd) as (d' & -> & Hd' & Hb); [lia.. |].
  exists a. split.
  - split; cbn; try done. intros k Hk.
    by rewrite (same_blocks_same_cluster (disk st)) by auto; auto.
  - change (blocks_of (block (disk st)) (4 * c) 4) with (cluster (disk st) c).
    by rewrite Hcl.
Qed.

Lemma write_cluster_repr st a c bs :
  repr st a -> in_fat c -> cluster_data_ok bs ->
  exists d', write_blocks bs (cluster_to_lba c) CLUSTER_BLOCK_COUNT (disk st) = Ok d' /\
    repr (set_disk d' st) (a_set_cl (upd (a_cl a) c bs) a).
Proof.
  intros [Hd Hcl Hdrv Hm Hs] Hc [Hlen Hby]. rewrite cluster_to_lba_eq by done.
  pose proof (cluster_block_range c 0 Hc). pose proof (cluster_block_range c 3 Hc).
  unfold CLUSTER_BLOCK_COUNT in *. unfold CLUSTER_SIZE, CLUSTER_BLOCK_COUNT in Hlen.
  destruct (write_blocks_ok (disk st) bs (4 * c) 4 Hd) as (d' & Hw & Hd' & Hb);
    [lia.. | unfold BLOCK_SIZE in *; lia | done |].
  exists d'. split; [done |]. split; cbn; try done. intros k Hk.
  pose proof (cluster_block_range k 0 Hk). pose proof (cluster_block_range k 3 Hk).
  unfold BLOCK_SIZE in *. destruct (decide (k = c)) as [-> | Hne].
  - rewrite upd_eq, cluster_blocks, !Hb by lia. rewrite !decide_True by lia.
    rewrite <- (zslice_split4 bs) at 5 by lia.
    repeat f_equal; lia.
  - rewrite upd_ne, <- Hcl, !cluster_blocks, !Hb by (done || lia).
    by rewrite !decide_False by lia.
Qed.

Lemma awp_write_clusters c bs a (Q : unit -> Abs M -> Prop) :
  in_fat c -> cluster_data_ok bs -> Q tt (a_set_cl (upd (a_cl a) c bs) a) ->
  awp a (write_clusters bs c 1) Q.
Proof.
  intros Hc Hbs HQ st Hr.
  destruct (write_cluster_repr st a c bs Hr Hc Hbs) as (d' & Hw & Hr').
  unfold wp, write_clusters, write_device.
  change (u8 (1 * CLUSTER_BLOCK_COUNT)) with CLUSTER_BLOCK_COUNT. rewrite Hw. eauto.
Qed.

Lemma awp_get_table a (Q : list FAT32DirectoryEntry -> Abs M -> Prop) :
  Q (a_tab a) a -> awp a get_table Q.
Proof. intros HQ st Hr. apply wp_gets. exists a. by rewrite (repr_drv _ _ Hr). Qed.
Lemma awp_put_table t a (Q : unit -> Abs M -> Prop) :
  Q tt (a_set_tab t a) -> awp a (put_table t) Q.
Proof.
  intros HQ st [Hd Hcl Hdrv Hm Hs]. apply wp_modify. exists (a_set_tab t a).
  split; [| done]. split; cbn; try done. by rewrite Hdrv.
Qed.
Lemma awp_load_table c a (Q : unit -> Abs M -> Prop) :
  in_fat c -> Q tt (a_set_tab (decode_table (a_cl a c)) a) -> awp a (load_table c) Q.
Proof. intros. apply awp_bind, awp_read_clusters; [done |]. by apply awp_put_table. Qed.
Lemma awp_flush_table c a (Q : unit -> Abs M -> Prop) :
  in_fat c -> table_ok (a_tab a) ->
  Q tt (a_set_cl (upd (a_cl a) c (encode_table (a_tab a))) a) -> awp a (flush_table c) Q.
Proof.
  intros. apply awp_bind, awp_get_table, awp_write_clusters; [done | | done].
  split; [by apply zlen_encode_table | by apply encode_table_bytes].
Qed.
Lemma awp_load_fat a (Q : unit -> Abs M -> Prop) :
  Q tt (a_set_fat (decode_words (a_cl a FAT_CLUSTER_NUMBER)) a) -> awp a load_fat Q.
Proof.
  intros HQ. apply awp_bind, awp_read_clusters; [done |].
  intros st [Hd Hcl Hdrv Hm Hs]. apply wp_modify. eexists. split; [| exact HQ].
  split; cbn; try done. by rewrite Hdrv.
Qed.
Lemma awp_flush_fat a (Q : unit -> Abs M -> Prop) :
  fat_ok (a_fat a) ->
  Q tt (a_set_cl (upd (a_cl a) FAT_CLUSTER_NUMBER (encode_words (a_fat a))) a) ->
  awp a flush_fat Q.
Proof.
  intros Hf HQ. apply awp_bind. intros st Hr. apply wp_gets. exists a.
  rewrite (repr_drv _ _ Hr). split; [done |]. apply awp_write_clusters; [done | | done].
  split; [by apply zlen_encode_words | apply encode_words_bytes].
Qed.
Lemma awp_of_driver {A} (f : FAT32DriverState -> Res A) (r : A) a
    (Q : A -> Abs M -> Prop) :
  f (mkDriver (a_fat a) (a_tab a) (a_cbuf a)) = Ok r -> Q r a ->
  awp a (fun st => of_res (f (driver_state st)) st) Q.
Proof. intros Hf HQ st Hr. unfold wp. rewrite (repr_drv _ _ Hr), Hf. cbn. eauto. Qed.
Lemma awp_map_get i v a (Q : Z -> Abs M -> Prop) :
  (a_fat a).[i] = Some v -> fat_ok (a_fat a) -> Q v a -> awp a (map_get i) Q.
Proof.
  intros Hi [Hlen _] HQ. apply (awp_of_driver (cluster_map_get i) v); [| done].
  unfold cluster_map_get. pose proof (zget_range _ _ _ Hi).
  rewrite decide_True by lia. cbn. by rewrite Hi.
Qed.
Lemma awp_map_put i v a (Q : unit -> Abs M -> Prop) :
  in_fat i -> Q tt (a_set_fat (a_fat a).[i := v] a) -> awp a (map_put i v) Q.
Proof.
  intros Hi HQ st [Hd Hcl Hdrv Hm Hs]. apply wp_modify.
  exists (a_set_fat (a_fat a).[i := v] a). split; [| done].
  unfold in_fat, CLUSTER_MAP_SIZE in Hi.
  rewrite decide_True by (unfold DRIVER_STATE_WORDS; lia).
  split; cbn; try done. rewrite Hdrv. unfold cluster_map_put.
  by rewrite decide_True by (unfold CLUSTER_MAP_SIZE; lia).
Qed.
Lemma awp_map_put_stray i v a (Q : unit -> Abs M -> Prop) :
  DRIVER_STATE_WORDS <= i -> Q tt (a_log i v a) -> awp a (map_put i v) Q.
Proof.
  intros Hi HQ st [Hd Hcl Hdrv Hm Hs]. apply wp_modify. eexists.
  rewrite decide_False by lia. split; [| exact HQ]. split; cbn; try done. by rewrite Hs.
Qed.
Lemma awp_load_user x n bs a (Q : list Z -> Abs M -> Prop) :
  load_bytes (Z.to_nat n) x (a_mem a) = Ok bs -> Q bs a -> awp a (load_user x n) Q.
Proof.
  intros Hl HQ st Hr. unfold wp, load_user. rewrite (repr_mem _ _ Hr), Hl. cbn. eauto.
Qed.
Lemma awp_store_user x bs m a (Q : unit -> Abs M -> Prop) :
  store_bytes x bs (a_mem a) = Ok m -> Q tt (a_set_mem m a) -> awp a (store_user x bs) Q.
Proof.
  intros Hst HQ st [Hd Hcl Hdrv Hm Hs]. unfold wp, store_user. rewrite Hm, Hst.
  eexists. split; [| exact HQ]. by split.
Qed.
End Logic.

(** The fields of a request have the sizes of its C struct. *)
Record request_ok (request : FAT32DriverRequest) : Prop := {
  ro_name : zlen (req_name request) = 8;
  ro_name_bytes : all_bytes (req_name request);
  ro_ext : zlen (req_ext request) = 3;
  ro_ext_bytes : all_bytes (req_ext request);
  ro_size : 0 <= buffer_size request < 2 ^ 32
}.

(** ** The invariant of a mounted file system

    The cached allocation table is the one on the disk, its words are 32-bit
    values, and the clusters of the boot sector, of the table and of the root
    directory are not free. *)
Section Invariant.
Context {D M : Type} `{BlockDeviceSpec D}.
Implicit Types (st : FS D M).

Definition fat_of st : list Z := fat_table (driver_state st).
(** The directory table stored in a cluster. *)
Definition dir_table st (c : Z) : list FAT32DirectoryEntry :=
  decode_table (cluster (disk st) c).

Record FSInv st : Prop := {
  inv_dev : dev_ok (disk st);
  inv_fat : fat_ok (fat_of st);
  inv_coherent : cluster (disk st) FAT_CLUSTER_NUMBER = encode_words (fat_of st);
  inv_reserved : forall c, 0 <= c <= ROOT_CLUSTER_NUMBER ->
    (fat_of st).[c] <> Some FAT32_FAT_EMPTY_ENTRY
}.

Context `{ByteMem M} (Hcap : CLUSTER_BLOCK_COUNT * CLUSTER_MAP_SIZE <= dev_blocks).

Lemma dir_table_ok st c : dev_ok (disk st) -> in_fat c -> table_ok (dir_table st c).
Proof.
  intros Hd Hc. destruct (cluster_ok Hcap (disk st) c Hd Hc). by apply decode_table_ok.
Qed.
Lemma repr_dir_table st (a : Abs M) c t :
  repr st a -> in_fat c -> table_ok t -> a_cl a c = encode_table t -> dir_table st c = t.
Proof.
  intros Hr Hc Ht Heq. unfold dir_table.
  rewrite (repr_cl _ _ Hr), Heq by done. by apply decode_encode_table.
Qed.
Lemma repr_fat_of st (a : Abs M) : repr st a -> fat_of st = a_fat a.
Proof. intros Hr. unfold fat_of. by rewrite (repr_drv _ _ Hr). Qed.

(** The invariant of the state an abstract state describes. *)
Lemma repr_inv st (a : Abs M) :
  repr st a -> fat_ok (a_fat a) ->
  a_cl a FAT_CLUSTER_NUMBER = encode_words (a_fat a) ->
  (forall c, 0 <= c <= ROOT_CLUSTER_NUMBER -> (a_fat a).[c] <> Some FAT32_FAT_EMPTY_ENTRY) ->
  FSInv st.
Proof.
  intros Hr Hf Hcoh Hres. split.
  - apply Hr.
  - by rewrite (repr_fat_of st a).
  - rewrite (repr_fat_of st a), <- Hcoh by done. by apply (repr_cl _ _ Hr).
  - by rewrite (repr_fat_of st a).
Qed.

(** A symbolic run gives a concrete one. *)
Lemma awp_run {A} st (a : Abs M) (c : Eff (FS D M) A) (r : A) (b : Abs M) :
  repr st a -> awp a c (fun r' a' => r' = r /\ a' = b) ->
  exists st', c st = Ok (r, st') /\ repr st' b.
Proof.
  intros Hr Hc. destruct (wp_run _ _ _ (Hc st Hr)) as (r' & st' & Hrun & a' & Hr' & -> & ->).
  eauto.
Qed.
End Invariant.

(** One step of a symbolic run. *)
Ltac awp_step :=
  lazymatch goal with
  | |- awp _ (bind _ _) _ => apply awp_bind
  | |- awp _ (ret _) _ => apply awp_ret
  | |- awp _ (read_clusters _ _) _ => apply awp_read_clusters
  | |- awp _ (write_clusters _ _ _) _ => apply awp_write_clusters
  | |- awp _ get_table _ => apply awp_get_table
  | |- awp _ (put_table _) _ => apply awp_put_table
  | |- awp _ (load_table _) _ => apply awp_load_table
  | |- awp _ (flush_table _) _ => apply awp_flush_table
  | |- awp _ load_fat _ => apply awp_load_fat
  | |- awp _ flush_fat _ => apply awp_flush_fat
  end; try done; cbv beta.
