(* ===== verification/FatChain.v ===== *)
(** FatChain: cluster chains in the allocation table; free clusters, linking and
    freeing. *)

From Stdlib Require Import ZArith Lia.
From stdpp Require Import base tactics numbers list.
From S2P Require Import Prelude Memory Disk FatLayout Fat32 FatLogic.

Implicit Types (fat : list Z) (c i : Z) (cs : list Z).

(** ** Free clusters, in the order the allocator finds them *)

Definition is_free fat c : Prop := fat.[c] = Some FAT32_FAT_EMPTY_ENTRY.
#[export] Instance is_free_dec fat c : Decision (is_free fat c).
Proof. unfold is_free. apply _. Defined.

Definition free_from fat i : list Z :=
  filter (is_free fat) (seqZ i (CLUSTER_MAP_SIZE - i)).
Definition free_clusters fat : list Z := free_from fat 0.

Lemma elem_of_free_from fat i c :
  c ∈ free_from fat i <-> is_free fat c /\ i <= c < CLUSTER_MAP_SIZE.
Proof.
  unfold free_from. rewrite list_elem_of_filter, elem_of_seqZ.
  split; intros [? ?]; (split; [done | lia]).
Qed.
Lemma NoDup_free_from fat i : NoDup (free_from fat i).
Proof. apply NoDup_filter, NoDup_seqZ. Qed.
Lemma free_from_step fat i :
  i < CLUSTER_MAP_SIZE ->
  free_from fat i =
    if decide (is_free fat i) then i :: free_from fat (i + 1) else free_from fat (i + 1).
Proof.
  intros Hi. unfold free_from. rewrite seqZ_cons by lia. rewrite filter_cons.
  replace (Z.pred (CLUSTER_MAP_SIZE - i)) with (CLUSTER_MAP_SIZE - (i + 1)) by lia.
  by rewrite <- Z.add_1_r.
Qed.
Lemma free_from_end fat i : CLUSTER_MAP_SIZE <= i -> free_from fat i = [].
Proof. intros Hi. unfold free_from. by rewrite seqZ_nil by lia. Qed.
Lemma free_from_ext fat fat' i :
  (forall c, i <= c < CLUSTER_MAP_SIZE -> fat.[c] = fat'.[c]) ->
  free_from fat i = free_from fat' i.
Proof.
  intros Heq. unfold free_from. apply filter_ext_in.
  intros c Hc%elem_of_seqZ. unfold is_free. rewrite Heq by lia. done.
Qed.

Lemma free_from_tail fat i c cs : free_from fat i = c :: cs -> free_from fat (c + 1) = cs.
Proof.
  intros Hfree. assert (is_free fat c /\ i <= c < CLUSTER_MAP_SIZE) as [Hcf Hcr].
  { apply elem_of_free_from. rewrite Hfree. left. }
  remember (Z.to_nat (c - i)) as n eqn:Hn. revert i Hfree Hcr Hn.
  induction n as [| n IH]; intros i Hfree Hcr Hn; rewrite free_from_step in Hfree by lia.
  - assert (i = c) as -> by lia. rewrite decide_True in Hfree by done. congruence.
  - case_decide; [injection Hfree; intros; lia |].
    apply (IH (i + 1) Hfree); lia.
Qed.
Lemma free_from_in_fat fat i : 0 <= i -> Forall in_fat (free_from fat i).
Proof.
  intros Hi. apply Forall_forall. intros c [_ Hc]%elem_of_free_from. unfold in_fat. lia.
Qed.
Lemma free_from_free fat i : Forall (is_free fat) (free_from fat i).
Proof. apply Forall_forall. by intros c [Hc _]%elem_of_free_from. Qed.

(** The scan of the whole table stops at the first free cluster. *)
Lemma find_empty_first n : forall i s c cs,
  fat_ok (fat_table s) -> 0 <= i -> c < i + Z.of_nat n ->
  free_from (fat_table s) i = c :: cs -> find_empty n i s = Ok (Some c).
Proof.
  induction n as [| n IH]; intros i s c cs Hf Hi Hn Hfree.
  - assert (c ∈ free_from (fat_table s) i) as [_ ?]%elem_of_free_from
      by (rewrite Hfree; left). lia.
  - cbn [find_empty].
    assert (i < CLUSTER_MAP_SIZE) as Hlt.
    { destruct (Z.lt_ge_cases i CLUSTER_MAP_SIZE); [done |].
      by rewrite free_from_end in Hfree by done. }
    destruct (zget_is_Some (fat_table s) i) as [v Hv]; [destruct Hf; lia |].
    unfold cluster_map_get. rewrite decide_True by lia. rewrite Hv. cbn [of_option res_bind].
    rewrite free_from_step in Hfree by done.
    destruct (Z.eqb_spec v FAT32_FAT_EMPTY_ENTRY) as [-> | Hne].
    + rewrite decide_True in Hfree by done. congruence.
    + rewrite decide_False in Hfree by (unfold is_free; congruence).
      apply (IH _ _ _ cs); done || lia.
Qed.

Lemma find_empty_cluster_first s c cs :
  fat_ok (fat_table s) -> free_clusters (fat_table s) = c :: cs ->
  find_empty_cluster s = Ok (Some c).
Proof.
  intros Hf Hfree. unfold find_empty_cluster. apply (find_empty_first _ _ _ _ cs); try done.
  assert (c ∈ free_clusters (fat_table s)) as [_ ?]%elem_of_free_from
    by (rewrite Hfree; left).
  unfold CLUSTER_MAP_SIZE, CLUSTER_SIZE, BLOCK_SIZE, CLUSTER_BLOCK_COUNT in *. lia.
Qed.

(** ** Chains *)

Inductive chain fat : Z -> list Z -> Prop :=
| chain_last c : fat.[c] = Some FAT32_FAT_END_OF_FILE -> chain fat c [c]
| chain_next c d cs :
    fat.[c] = Some d -> d <> FAT32_FAT_END_OF_FILE -> chain fat d cs -> chain fat c (c :: cs).

Lemma chain_det fat c cs cs' : chain fat c cs -> chain fat c cs' -> cs = cs'.
Proof.
  intros Hc. revert cs'. induction Hc as [c Hl | c d cs Hl Hd Hc IH]; intros cs' Hc'.
  - inversion Hc'; subst; [done | congruence].
  - inversion Hc' as [| ? d' ? Hl' Hd' Hc'']; subst; [congruence |].
    f_equal. apply IH. congruence.
Qed.
Lemma chain_ext fat fat' c cs :
  chain fat c cs -> (forall d, d ∈ cs -> fat'.[d] = fat.[d]) -> chain fat' c cs.
Proof.
  induction 1 as [c Hl | c d cs Hl Hd Hc IH]; intros Heq.
  - apply chain_last. rewrite Heq; [done | left].
  - eapply chain_next; [rewrite Heq; [done | left] | done |].
    apply IH. intros. apply Heq. by right.
Qed.
Lemma chain_in_fat fat c cs d : fat_ok fat -> chain fat c cs -> d ∈ cs -> in_fat d.
Proof.
  intros [Hlen _]. induction 1 as [c Hl | c e cs Hl _ _ IH]; intros Hd.
  - apply list_elem_of_singleton in Hd as ->. apply zget_range in Hl. unfold in_fat. lia.
  - apply elem_of_cons in Hd as [-> | Hd]; [| by apply IH].
    apply zget_range in Hl. unfold in_fat. lia.
Qed.
Lemma chain_head fat c cs : chain fat c cs -> c ∈ cs.
Proof. destruct 1; left. Qed.
Lemma chain_suffix fat cs1 : forall c x cs2,
  chain fat c (cs1 ++ x :: cs2) -> chain fat x (x :: cs2).
Proof.
  induction cs1 as [| y cs1 IH]; intros c x cs2 Hc.
  - inversion Hc; subst; done.
  - inversion Hc as [? Hl Heq | ? ? ? ? ? Hc']; subst.
    + by destruct cs1.
    + by apply (IH _ _ _ Hc').
Qed.
(** A chain visits no cluster twice, so it has at most 512 clusters. *)
Lemma chain_NoDup fat c cs : chain fat c cs -> NoDup cs.
Proof.
  induction 1 as [c Hl | c d cs Hl Hd Hc IH]; [apply NoDup_singleton |].
  apply NoDup_cons. split; [| done]. intros Hin.
  apply list_elem_of_split in Hin as (l1 & l2 & ->).
  pose proof (chain_suffix _ _ _ _ _ Hc) as Hs.
  assert (Hc' : chain fat c (c :: l1 ++ c :: l2)) by by apply chain_next with d.
  pose proof (f_equal length (chain_det _ _ _ _ Hs Hc')) as Hlen.
  cbn in Hlen. rewrite length_app in Hlen. cbn in Hlen. lia.
Qed.
Lemma chain_length fat c cs : fat_ok fat -> chain fat c cs -> zlen cs <= CLUSTER_MAP_SIZE.
Proof.
  intros Hf Hc. pose proof (chain_NoDup _ _ _ Hc) as Hnd.
  assert (Hsub : cs ⊆ seqZ 0 CLUSTER_MAP_SIZE).
  { intros d Hd%(chain_in_fat _ _ _ _ Hf Hc). apply elem_of_seqZ. unfold in_fat in Hd. lia. }
  pose proof (NoDup_submseteq _ _ Hnd Hsub) as Hl%submseteq_length.
  rewrite length_seqZ in Hl. unfold zlen, CLUSTER_MAP_SIZE in *. lia.
Qed.

(** ** Linking

    What the allocator does to the table: [link fat t cs] appends [cs] to the
    chain that ends at [t]. *)
Fixpoint link fat (t : Z) cs : list Z :=
  match cs with
  | [] => fat
  | c :: cs' => link fat.[t := c].[c := FAT32_FAT_END_OF_FILE] c cs'
  end.

Lemma zlen_link cs : forall fat t, zlen (link fat t cs) = zlen fat.
Proof. induction cs as [| c cs IH]; intros; cbn [link]; [done |]. by rewrite IH, !zlen_zset. Qed.
Lemma link_frame cs : forall fat t i,
  i <> t -> i ∉ cs -> (link fat t cs).[i] = fat.[i].
Proof.
  induction cs as [| c cs IH]; intros fat t i Ht Hi; cbn [link]; [done |].
  apply not_elem_of_cons in Hi as [? ?].
  by rewrite IH, !zget_zset_ne by done.
Qed.
Lemma link_words cs : forall fat t,
  Forall word_ok fat -> Forall in_fat cs -> Forall word_ok (link fat t cs).
Proof.
  induction cs as [| c cs IH]; intros fat t Hf Hcs; cbn [link]; [done |].
  apply Forall_cons in Hcs as [Hc Hcs]. apply IH; [| done].
  apply Forall_zset; [apply Forall_zset; [done |] | done].
  unfold in_fat, word_ok, CLUSTER_MAP_SIZE in *. lia.
Qed.
Lemma link_chain cs : forall fat t,
  zlen fat = CLUSTER_MAP_SIZE -> Forall in_fat (t :: cs) -> NoDup (t :: cs) ->
  fat.[t] = Some FAT32_FAT_END_OF_FILE ->
  chain (link fat t cs) t (t :: cs).
Proof.
  induction cs as [| c cs IH]; intros fat t Hlen Hin Hnd Ht; cbn [link].
  - by apply chain_last.
  - apply Forall_cons in Hin as [Htin Hin]. apply NoDup_cons in Hnd as [Hnt Hnd].
    pose proof (Forall_inv Hin) as Hc. unfold in_fat, CLUSTER_MAP_SIZE in Htin, Hc.
    assert (t <> c) by (intros ->; apply Hnt; left).
    apply chain_next with c.
    + rewrite link_frame by (done || (intros ?; apply Hnt; by right)).
      rewrite zget_zset_ne, zget_zset_eq by (done || unfold CLUSTER_MAP_SIZE in *; lia). done.
    + unfold FAT32_FAT_END_OF_FILE. lia.
    + apply IH; [by rewrite !zlen_zset | done | done |].
      rewrite zget_zset_eq; [done |]. rewrite zlen_zset. unfold CLUSTER_MAP_SIZE in *. lia.
Qed.

(** The table after the clusters [cs] have been allocated to one file. *)
Definition allocate fat cs : list Z :=
  match cs with
  | [] => fat
  | c :: cs' => link fat.[c := FAT32_FAT_END_OF_FILE] c cs'
  end.

Lemma allocate_ok fat cs : fat_ok fat -> Forall in_fat cs -> fat_ok (allocate fat cs).
Proof.
  intros [Hlen Hw] Hin. destruct cs as [| c cs]; [done |]. cbn [allocate].
  apply Forall_cons in Hin as [_ Hin]. split.
  - by rewrite zlen_link, zlen_zset.
  - by apply link_words; [apply Forall_zset |].
Qed.
Lemma allocate_frame fat cs i : i ∉ cs -> (allocate fat cs).[i] = fat.[i].
Proof.
  destruct cs as [| c cs]; intros Hi; [done |]. cbn [allocate].
  apply not_elem_of_cons in Hi as [? ?]. by rewrite link_frame, zget_zset_ne by done.
Qed.
Lemma allocate_chain fat c cs :
  fat_ok fat -> Forall in_fat (c :: cs) -> NoDup (c :: cs) ->
  chain (allocate fat (c :: cs)) c (c :: cs).
Proof.
  intros [Hlen _] Hin Hnd. cbn [allocate]. apply link_chain; [by rewrite zlen_zset | done | done |].
  apply zget_zset_eq. rewrite Hlen. exact (Forall_inv Hin).
Qed.

(** ** Freeing *)

Definition free_all fat cs : list Z :=
  foldl (fun f c => f.[c := FAT32_FAT_EMPTY_ENTRY]) fat cs.

Lemma zlen_free_all cs : forall fat, zlen (free_all fat cs) = zlen fat.
Proof. induction cs as [| c cs IH]; intros; [done |]. cbn. by rewrite IH, zlen_zset. Qed.
Lemma free_all_frame cs : forall fat i, i ∉ cs -> (free_all fat cs).[i] = fat.[i].
Proof.
  induction cs as [| c cs IH]; intros fat i Hi; [done |]. cbn.
  apply not_elem_of_cons in Hi as [? ?]. by rewrite IH, zget_zset_ne by done.
Qed.
Lemma free_all_free cs : forall fat i,
  i ∈ cs -> 0 <= i < zlen fat -> is_free (free_all fat cs) i.
Proof.
  induction cs as [| c cs IH]; intros fat i Hi Hr; [by apply not_elem_of_nil in Hi |]. cbn.
  destruct (decide (i ∈ cs)) as [Hc | Hc]; [apply IH; [done | by rewrite zlen_zset] |].
  apply elem_of_cons in Hi as [-> | ?]; [| done].
  unfold is_free. rewrite free_all_frame by done. by apply zget_zset_eq.
Qed.
Lemma free_all_ok cs : forall fat, fat_ok fat -> fat_ok (free_all fat cs).
Proof.
  induction cs as [| c cs IH]; intros fat [Hlen Hw]; [done |]. cbn. apply IH.
  split; [by rewrite zlen_zset | by apply Forall_zset].
Qed.

(** Freeing what was just allocated gives the table back. *)
Lemma free_all_allocate fat cs :
  fat_ok fat -> Forall (is_free fat) cs -> free_all (allocate fat cs) cs = fat.
Proof.
  intros [Hlen _] Hfree. apply zget_ext. intros i.
  destruct (decide (i ∈ cs)) as [Hi | Hi].
  - rewrite Forall_forall in Hfree. specialize (Hfree i Hi). unfold is_free in Hfree.
    rewrite Hfree. apply free_all_free; [done |].
    destruct cs as [| c cs]; [by apply not_elem_of_nil in Hi |]. cbn [allocate].
    rewrite zlen_link, zlen_zset. by eapply zget_range.
  - by rewrite free_all_frame, allocate_frame.
Qed.
