(* ===== verification/FatWrite.v ===== *)
(** FatWrite: what [write] does to the disk, the allocation table and the parent
    directory, on every branch. *)

From Stdlib Require Import ZArith Lia.
From stdpp Require Import base tactics numbers list.
From S2P Require Import Prelude Memory CString Disk FatLayout Fat32 FatLogic FatChain.

(** ** The bytes a file's clusters receive *)

(** Bytes the loop copies into the [j]-th cluster: the last of several gets
    [size % CLUSTER_SIZE]. *)
Definition part_size (size j : Z) : Z :=
  if (0 <? j) && (j =? clusters_for size - 1) then size mod CLUSTER_SIZE else CLUSTER_SIZE.
Definition file_part (size : Z) (data : list Z) (j : Z) : list Z :=
  zslice (CLUSTER_SIZE * j) (part_size size j) data ++ zrep (CLUSTER_SIZE - part_size size j) 0.

(** The bytes [write] reads through [request.buf]: at least one whole cluster. *)
Definition source_ok (size : Z) (data : list Z) : Prop :=
  zlen data = Z.max CLUSTER_SIZE size /\ all_bytes data.

Ltac consts := unfold CLUSTER_SIZE, BLOCK_SIZE, CLUSTER_BLOCK_COUNT, CLUSTER_MAP_SIZE,
  DIR_ENTRIES, FAT_CLUSTER_NUMBER in *.

Lemma clusters_for_bounds size :
  0 < size ->
  1 <= clusters_for size /\ CLUSTER_SIZE * (clusters_for size - 1) < size <=
  CLUSTER_SIZE * clusters_for size.
Proof.
  intros Hs. unfold clusters_for. consts.
  pose proof (Z.div_mod size (512 * 4) ltac:(lia)).
  pose proof (Z.mod_pos_bound size (512 * 4) ltac:(lia)).
  destruct (Z.eqb_spec (size mod (512 * 4)) 0); lia.
Qed.
Lemma part_size_range size j : 0 <= part_size size j <= CLUSTER_SIZE.
Proof.
  unfold part_size. consts. pose proof (Z.mod_pos_bound size (512 * 4) ltac:(lia)).
  destruct ((0 <? j) && (j =? clusters_for size - 1)); lia.
Qed.
Lemma part_in_source size j :
  0 < size -> 0 <= j < clusters_for size ->
  CLUSTER_SIZE * j + part_size size j <= Z.max CLUSTER_SIZE size.
Proof.
  intros Hs Hj. pose proof (clusters_for_bounds size Hs) as (H1 & H2 & H3).
  unfold part_size. destruct (Z.ltb_spec 0 j); cbn [andb]; [| consts; lia].
  destruct (Z.eqb_spec j (clusters_for size - 1)) as [-> | ?].
  - revert H2 H3. unfold clusters_for. consts.
    pose proof (Z.div_mod size (512 * 4) ltac:(lia)).
    destruct (Z.eqb_spec (size mod (512 * 4)) 0); lia.
  - consts. lia.
Qed.
Lemma file_part_ok size data j :
  0 < size -> source_ok size data -> 0 <= j < clusters_for size ->
  cluster_data_ok (file_part size data j).
Proof.
  intros Hs [Hlen Hby] Hj. pose proof (part_size_range size j).
  pose proof (part_in_source size j Hs Hj). unfold file_part. split.
  - rewrite zlen_app, zlen_zslice, zlen_zrep by (consts; lia). lia.
  - apply Forall_app. split; [by apply Forall_zslice | by apply Forall_zrep].
Qed.

(** ** Writing the clusters *)

Fixpoint write_parts (part : Z -> list Z) (cl : Z -> list Z) (cs : list Z) (j : Z)
  : Z -> list Z :=
  match cs with
  | [] => cl
  | c :: cs' => write_parts part (upd cl c (part j)) cs' (j + 1)
  end.
Lemma write_parts_other part cs : forall cl j k,
  k ∉ cs -> write_parts part cl cs j k = cl k.
Proof.
  induction cs as [| c cs IH]; intros cl j k Hk; [done |]. cbn [write_parts].
  apply not_elem_of_cons in Hk as [? ?]. by rewrite IH, upd_ne.
Qed.
Lemma write_parts_part part cs : forall cl j i c,
  NoDup cs -> cs.[i] = Some c -> write_parts part cl cs j c = part (j + i).
Proof.
  induction cs as [| c0 cs IH]; intros cl j i c Hnd Hi.
  - apply zget_range in Hi. unfold zlen in Hi; cbn in Hi. lia.
  - apply NoDup_cons in Hnd as [Hn Hnd]. cbn [write_parts].
    pose proof (zget_range _ _ _ Hi). destruct (decide (i = 0)) as [-> | ?].
    + cbn in Hi. injection Hi as ->. rewrite write_parts_other, upd_eq by done.
      f_equal. lia.
    + change (c0 :: cs) with ([c0] ++ cs) in Hi.
      rewrite zget_app_r in Hi by (unfold zlen; cbn; lia). change (zlen [c0]) with 1 in Hi.
      rewrite (IH _ _ (i - 1) c Hnd Hi). f_equal. lia.
Qed.

Lemma load_part {M} `{ByteMemLaws M} (m : M) a data o n :
  holds m a data -> 0 <= o -> 0 <= n -> o + n <= zlen data ->
  load_bytes (Z.to_nat n) (a + o) m = Ok (zslice o n data).
Proof.
  intros Hh Ho Hn Hlen. apply load_bytes_holds.
  - rewrite zlen_zslice; lia.
  - intros i b Hi. pose proof (zget_range _ _ _ Hi) as Hr.
    rewrite zlen_zslice in Hr by lia. rewrite zget_zslice in Hi by lia.
    rewrite <- Z.add_assoc. by apply Hh.
Qed.

Section Write.
Context {D M : Type} `{BlockDeviceSpec D} `{ByteMemLaws M}.
Context (Hcap : CLUSTER_BLOCK_COUNT * CLUSTER_MAP_SIZE <= dev_blocks).
Implicit Types (a : Abs M) (st : FS D M).

(** The loop that fills the clusters after the first, when the table has as
    many free ones as are needed. *)
Lemma awp_fill_clusters n : forall request i t j needed data a (Q : Z -> Abs M -> Prop),
  let size := buffer_size request in
  let cs := take (Z.to_nat needed) (free_from (a_fat a) i) in
  i + Z.of_nat n = CLUSTER_SIZE -> 0 <= t < i -> i <= CLUSTER_MAP_SIZE ->
  fat_ok (a_fat a) -> 0 < size -> source_ok size data -> holds (a_mem a) (buf request) data ->
  0 < j -> 0 <= needed -> j + needed = clusters_for size -> zlen cs = needed ->
  Q 0 (a_set_cl (write_parts (file_part size data) (a_cl a) cs j)
        (a_set_fat (link (a_fat a) t cs) a)) ->
  awp a (fill_clusters n request i t j needed) Q.
Proof.
  induction n as [| n IH];
    intros request i t j needed data a Q size cs Hn Ht Hi Hf Hs Hd Hh Hj Hn0 Hneed Hlen HQ;
    cbn [fill_clusters]; [consts; lia |].
  destruct (Z.leb_spec needed 0) as [Hle | Hgt].
  { assert (needed = 0) as -> by lia. apply awp_ret. by destruct a. }
  assert (i < CLUSTER_MAP_SIZE) as Hlt.
  { destruct (Z.lt_ge_cases i CLUSTER_MAP_SIZE); [done |].
    unfold cs in Hlen. rewrite free_from_end, take_nil in Hlen by done.
    unfold zlen in Hlen. cbn in Hlen. lia. }
  assert (Hin : in_fat i) by (unfold in_fat; lia).
  destruct (zget_is_Some (a_fat a) i) as [v Hv]; [destruct Hf as [-> _]; lia |].
  apply awp_bind, (awp_map_get i v); [done.. |].
  unfold cs in HQ, Hlen. rewrite free_from_step in HQ, Hlen by done.
  destruct (Z.eqb_spec v FAT32_FAT_EMPTY_ENTRY) as [-> | Hne].
  - rewrite decide_True in HQ, Hlen by done.
    replace (Z.to_nat needed) with (S (Z.to_nat (needed - 1))) in HQ, Hlen by lia.
    cbn [take] in HQ, Hlen. rewrite zlen_cons in Hlen.
    apply awp_bind, awp_map_put; [unfold in_fat; lia |].
    pose proof (part_in_source size j Hs ltac:(lia)) as Hsrc.
    assert ((if needed =? 1 then size mod CLUSTER_SIZE else CLUSTER_SIZE) = part_size size j)
      as Hps.
    { unfold part_size. destruct (Z.ltb_spec 0 j); [| lia]. cbn [andb].
      destruct (Z.eqb_spec needed 1), (Z.eqb_spec j (clusters_for size - 1)); try done; lia. }
    change (buffer_size request) with size. rewrite Hps.
    pose proof (part_size_range size j) as Hpr.
    apply awp_bind. eapply awp_load_user.
    { apply load_part with (data := data); [done | consts; lia | lia |].
      destruct Hd as [-> _]. done. }
    change (zslice (CLUSTER_SIZE * j) (part_size size j) data ++
            zrep (CLUSTER_SIZE - part_size size j) 0) with (file_part size data j).
    apply awp_bind, (awp_write_clusters Hcap); [done | apply file_part_ok; [done.. | lia] |].
    apply awp_bind, awp_map_put; [done |].
    assert (Hsame : free_from (a_fat a).[t := i].[i := FAT32_FAT_END_OF_FILE] (i + 1) =
                    free_from (a_fat a) (i + 1)).
    { apply free_from_ext. intros c Hc. by rewrite !zget_zset_ne by lia. }
    apply (IH _ _ _ _ _ data); cbn [a_fat a_set_fat a_set_cl a_mem a_cl];
      rewrite ?Hsame; try done; try (fold size; lia).
    destruct Hf as [Hfl Hfw]. split; [by rewrite !zlen_zset |].
    apply Forall_zset; [apply Forall_zset; [done |] | done].
    unfold word_ok. consts. lia.
  - rewrite decide_False in HQ, Hlen by (unfold is_free; congruence).
    apply (IH _ _ _ _ _ data); try done; fold size; lia.
Qed.

Lemma dir_entry_ok nm ex attr start size :
  zlen nm = 8 -> all_bytes nm -> zlen ex = 3 -> all_bytes ex ->
  0 <= attr < 2 ^ 8 -> 0 <= size < 2 ^ 32 ->
  entry_ok (dir_entry nm ex attr start size).
Proof.
  intros. pose proof (u16_range start). pose proof (u16_range (Z.shiftr start 16)).
  unfold entry_ok. split_and!; try done.
  unfold entry_widths, entry_fields, dir_entry, UATTR_NOT_EMPTY. cbn.
  repeat (apply List.Forall2_cons; [unfold field_ok; cbn; lia |]). apply List.Forall2_nil.
Qed.

(** The entry of a new file, and of a new directory, in its parent. *)
Definition file_entry (request : FAT32DriverRequest) (start : Z) : FAT32DirectoryEntry :=
  dir_entry (req_name request) (req_ext request) 0 start (buffer_size request).
Definition folder_entry (request : FAT32DriverRequest) (start : Z) : FAT32DirectoryEntry :=
  dir_entry (req_name request) (zrep 3 0) ATTR_SUBDIRECTORY start 0.

Lemma table_ok_set t i e : table_ok t -> entry_ok e -> table_ok t.[i := e].
Proof. intros [Hl Hok] He. split; [by rewrite zlen_zset | by apply Forall_zset]. Qed.

Lemma awp_write_file request entry_row data a (Q : Z -> Abs M -> Prop) :
  let size := buffer_size request in
  let cs := take (Z.to_nat (clusters_for size)) (free_clusters (a_fat a)) in
  let fat' := allocate (a_fat a) cs in
  let tab' := (a_tab a).[entry_row := file_entry request (znth 0 cs 0)] in
  request_ok request -> 0 < size -> in_fat (parent_cluster_number request) ->
  fat_ok (a_fat a) -> table_ok (a_tab a) ->
  source_ok size data -> holds (a_mem a) (buf request) data ->
  zlen cs = clusters_for size ->
  Q 0 (a_set_cl (upd (upd (write_parts (file_part size data) (a_cl a) cs 0)
                      FAT_CLUSTER_NUMBER (encode_words fat'))
                  (parent_cluster_number request) (encode_table tab'))
        (a_set_tab tab' (a_set_fat fat' a))) ->
  awp a (write_file request entry_row) Q.
Proof.
  intros size cs fat' tab' Hro Hs Hp Hf Ht Hd Hh Hlen HQ.
  pose proof (clusters_for_bounds size Hs) as (Hk & _).
  destruct (free_clusters (a_fat a)) as [| c cs0] eqn:Hfree;
    [unfold cs in Hlen; rewrite take_nil in Hlen; unfold zlen in Hlen; cbn in Hlen; lia |].
  assert (cs = c :: take (Z.to_nat (clusters_for size - 1)) cs0) as Hcs.
  { unfold cs. by replace (Z.to_nat (clusters_for size))
      with (S (Z.to_nat (clusters_for size - 1))) by lia. }
  assert (Hc : is_free (a_fat a) c /\ 0 <= c < CLUSTER_MAP_SIZE).
  { apply elem_of_free_from. fold (free_clusters (a_fat a)). rewrite Hfree. left. }
  pose proof (free_from_tail _ _ _ _ Hfree) as Hrest.
  unfold write_file. cbv zeta.
  apply awp_bind, (awp_of_driver find_empty_cluster (Some c)).
  { by apply find_empty_cluster_first with cs0. }
  change (default 0 (Some c)) with c. fold size.
  assert (Hload : load_bytes (Z.to_nat CLUSTER_SIZE) (buf request) (a_mem a) =
                  Ok (zslice 0 CLUSTER_SIZE data)).
  { rewrite <- (Z.add_0_r (buf request)). apply load_part; try done.
    destruct Hd as [-> _]. consts; lia. }
  assert (Hp0 : file_part size data 0 = zslice 0 CLUSTER_SIZE data).
  { unfold file_part, part_size. cbn [Z.ltb Z.compare andb].
    by rewrite Z.sub_diag, Z.mul_0_r, app_nil_r. }
  apply awp_bind, (awp_load_user _ _ _ _ _ Hload).
  apply awp_bind, (awp_load_user _ _ _ _ _ Hload). rewrite <- Hp0.
  apply awp_bind, (awp_write_clusters Hcap); [apply Hc | apply file_part_ok; done || lia |].
  apply awp_bind, awp_map_put; [apply Hc |]. apply awp_bind.
  assert (Hext : free_from (a_fat a).[c := FAT32_FAT_END_OF_FILE] (c + 1) = cs0).
  { rewrite <- Hrest. apply free_from_ext. intros k Hk'. by rewrite zget_zset_ne by lia. }
  apply awp_fill_clusters with (data := data);
    cbn [a_fat a_set_fat a_set_cl a_mem a_cl]; fold size; rewrite ?Hext; try done;
    try (consts; lia).
  { split; [rewrite zlen_zset; apply Hf |]. apply Forall_zset; [apply Hf | done]. }
  { rewrite Hcs, zlen_cons in Hlen. lia. }
  assert (Hlink : link (a_fat a).[c := FAT32_FAT_END_OF_FILE] c
                    (take (Z.to_nat (clusters_for size - 1)) cs0) = fat').
  { unfold fat'. by rewrite Hcs. }
  rewrite Hlink.
  assert (Hin : Forall in_fat cs).
  { unfold cs. rewrite <- Hfree. apply Forall_take, free_from_in_fat. lia. }
  apply awp_bind, (awp_flush_fat Hcap); [by apply allocate_ok |].
  apply awp_bind, awp_get_table, awp_bind, awp_put_table.
  assert (Hent : dir_entry (ztake 8 (req_name request)) (ztake 3 (req_ext request)) 0 c size =
                 file_entry request (znth 0 cs 0)).
  { destruct Hro. rewrite !ztake_all by lia. unfold file_entry, znth. by rewrite Hcs. }
  rewrite Hent. apply awp_bind, (awp_flush_table Hcap); [done | |].
  { apply table_ok_set; [done |]. destruct Hro. by apply dir_entry_ok. }
  apply awp_ret. rewrite Hcs in HQ. exact HQ.
Qed.

(** ** Folders *)

Definition new_folder_table (request : FAT32DriverRequest) (c : Z)
  : list FAT32DirectoryEntry :=
  zero_table.[0 := folder_entry request c]
            .[1 := dir_entry dot_dot (zrep 3 0) ATTR_SUBDIRECTORY
                     (parent_cluster_number request) 0].

Lemma zero_table_ok : table_ok zero_table.
Proof.
  split; [done |]. apply Forall_zrep. unfold entry_ok. split_and!; try done.
  - by apply Forall_zrep.
  - by apply Forall_zrep.
  - unfold entry_widths, entry_fields. cbn.
    repeat (apply List.Forall2_cons; [done |]). apply List.Forall2_nil.
Qed.
Lemma dot_dot_ok : zlen dot_dot = 8 /\ all_bytes dot_dot.
Proof. split; [done |]. repeat (apply List.Forall_cons; [done |]). apply List.Forall_nil. Qed.
Lemma folder_entry_ok request c : request_ok request -> entry_ok (folder_entry request c).
Proof. intros []. by apply dir_entry_ok; try done; apply Forall_zrep. Qed.
Lemma new_folder_table_ok request c :
  request_ok request -> table_ok (new_folder_table request c).
Proof.
  intros Hro. apply table_ok_set; [apply table_ok_set; [apply zero_table_ok |] |].
  - by apply folder_entry_ok.
  - destruct dot_dot_ok. by apply dir_entry_ok; try done; apply Forall_zrep.
Qed.

Lemma awp_write_folder request entry_row c cs a (Q : Z -> Abs M -> Prop) :
  let fat' := allocate (a_fat a) [c] in
  let tab' := (a_tab a).[entry_row := folder_entry request c] in
  request_ok request -> in_fat (parent_cluster_number request) ->
  fat_ok (a_fat a) -> table_ok (a_tab a) ->
  free_clusters (a_fat a) = c :: cs -> c <> 0 ->
  Q 0 (a_set_cl (upd (upd (upd (a_cl a) FAT_CLUSTER_NUMBER (encode_words fat'))
                  (parent_cluster_number request) (encode_table tab'))
                  c (encode_table (new_folder_table request c)))
        (a_set_tab tab' (a_set_fat fat' a))) ->
  awp a (write_folder request entry_row) Q.
Proof.
  intros fat' tab' Hro Hp Hf Ht Hfree Hc0 HQ.
  assert (Hc : in_fat c).
  { pose proof (free_from_in_fat (a_fat a) 0 ltac:(lia)) as Hall.
    unfold free_clusters in Hfree. rewrite Hfree in Hall. exact (Forall_inv Hall). }
  unfold write_folder. apply awp_bind, (awp_of_driver find_empty_cluster (Some c)).
  { by apply find_empty_cluster_first with cs. }
  change (default 0 (Some c)) with c. cbv zeta.
  destruct (Z.eqb_spec c 0); [done |].
  apply awp_bind, awp_map_put; [done |].
  apply awp_bind, (awp_flush_fat Hcap).
  { apply (allocate_ok _ [c]); [done | by constructor]. }
  assert (Hrow : row (init_directory_table zero_table (req_name request)
                   (parent_cluster_number request)) 0 =
                 dir_entry (req_name request) (zrep 3 0) ATTR_SUBDIRECTORY
                   (parent_cluster_number request) 0).
  { destruct Hro. unfold init_directory_table. by rewrite ztake_all by lia. }
  assert (Hnew : (init_directory_table zero_table (req_name request)
                    (parent_cluster_number request)).[0 := folder_entry request c] =
                 new_folder_table request c).
  { unfold init_directory_table, new_folder_table.
    rewrite zset_comm by lia. by rewrite zset_zset. }
  rewrite Hrow. change (set_cluster c _) with (folder_entry request c). rewrite Hnew.
  change (row (new_folder_table request c) 0) with (folder_entry request c).
  apply awp_bind, awp_get_table, awp_bind, awp_put_table.
  apply awp_bind, (awp_flush_table Hcap); [done | |].
  { apply table_ok_set; [done | by apply folder_entry_ok]. }
  apply awp_bind, (awp_write_clusters Hcap); [done | | by apply awp_ret].
  pose proof (new_folder_table_ok request c Hro).
  split; [by apply zlen_encode_table | by apply encode_table_bytes].
Qed.

(** ** write

    What every successful [write] needs: a mounted file system, a request
    whose parent is a directory with a free row, and no entry of that name. *)
Record WriteReady st (request : FAT32DriverRequest) (entry_row : Z) : Prop := {
  wr_inv : FSInv st;
  wr_request : request_ok request;
  wr_parent : in_fat (parent_cluster_number request);
  wr_parent_ne : parent_cluster_number request <> FAT_CLUSTER_NUMBER;
  wr_parent_used : ~ is_free (fat_of st) (parent_cluster_number request);
  wr_directory : is_directory_table (dir_table st (parent_cluster_number request)) = true;
  wr_row : find_free_row (dir_table st (parent_cluster_number request)) = Some entry_row;
  wr_new : find_entry 2 (dir_table st (parent_cluster_number request)) request = None
}.

(** The run up to the creation of the entry. *)
Lemma awp_write_ready st request entry_row (Q : Z -> Abs M -> Prop) :
  WriteReady st request entry_row ->
  awp (a_set_tab (dir_table st (parent_cluster_number request)) (view st))
    (if buffer_size request =? 0 then write_folder request entry_row
     else write_file request entry_row) Q ->
  awp (view st) (write request) Q.
Proof.
  intros [_ _ Hp _ _ Hdir Hrow Hnew] HQ.
  apply awp_bind, (awp_load_table Hcap); [done |].
  apply awp_bind, awp_get_table. cbn [a_tab a_set_tab a_cl view].
  change (decode_table (cluster (disk st) ?p)) with (dir_table st p).
  by rewrite Hdir, Hrow, Hnew.
Qed.

Lemma allocate_reserved st cs :
  FSInv st -> Forall (is_free (fat_of st)) cs -> forall c,
  0 <= c <= ROOT_CLUSTER_NUMBER ->
  (allocate (fat_of st) cs).[c] <> Some FAT32_FAT_EMPTY_ENTRY.
Proof.
  intros Hinv Hfree c Hc. pose proof (inv_reserved st Hinv c Hc) as Hr.
  rewrite allocate_frame; [done |]. intros Hin. rewrite Forall_forall in Hfree.
  by apply Hr, Hfree.
Qed.

(** The clusters the allocator takes are distinct, free, and none of the
    reserved ones. *)
Lemma taken_clusters st n :
  FSInv st -> let cs := take n (free_clusters (fat_of st)) in
  Forall (is_free (fat_of st)) cs /\ Forall in_fat cs /\ NoDup cs /\
  FAT_CLUSTER_NUMBER ∉ cs.
Proof.
  intros Hinv cs. assert (Hfree : Forall (is_free (fat_of st)) cs)
    by apply Forall_take, free_from_free.
  split_and!; [done | | |].
  - apply Forall_take, free_from_in_fat. lia.
  - eapply sublist_NoDup; [apply NoDup_free_from | apply sublist_take].
  - intros Hc. rewrite Forall_forall in Hfree. specialize (Hfree _ Hc).
    by apply (inv_reserved _ Hinv FAT_CLUSTER_NUMBER ltac:(done)).
Qed.

(** The state after a file was written to the clusters [cs]. *)
Record FileWritten st (request : FAT32DriverRequest) (entry_row : Z) (cs data : list Z) st'
  : Prop := {
  fw_inv : FSInv st';
  fw_fat : fat_of st' = allocate (fat_of st) cs;
  fw_dir : dir_table st' (parent_cluster_number request) =
    (dir_table st (parent_cluster_number request)).[entry_row := file_entry request (znth 0 cs 0)];
  fw_data : forall j c, cs.[j] = Some c ->
    cluster (disk st') c = file_part (buffer_size request) data j;
  fw_frame : forall c, in_fat c -> c <> FAT_CLUSTER_NUMBER ->
    c <> parent_cluster_number request -> c ∉ cs ->
    cluster (disk st') c = cluster (disk st) c;
  fw_memory : umem st' = umem st;
  fw_stray : stray st' = stray st
}.
Lemma write_file_run st request entry_row data cs :
  let p := parent_cluster_number request in
  let fat' := allocate (fat_of st) cs in
  let tab' := (dir_table st p).[entry_row := file_entry request (znth 0 cs 0)] in
  WriteReady st request entry_row -> 0 < buffer_size request ->
  source_ok (buffer_size request) data -> holds (umem st) (buf request) data ->
  cs = take (Z.to_nat (clusters_for (buffer_size request))) (free_clusters (fat_of st)) ->
  zlen cs = clusters_for (buffer_size request) ->
  exists st', write request st = Ok (0, st') /\
    repr st' (mkAbs (upd (upd (write_parts (file_part (buffer_size request) data)
                                 (cluster (disk st)) cs 0)
                            FAT_CLUSTER_NUMBER (encode_words fat')) p (encode_table tab'))
                fat' tab' (cluster_buf (driver_state st)) (umem st) (stray st)).
Proof.
  intros p fat' tab' Hready Hsize Hdata Hmem Hcs Hspace.
  pose proof Hready as [Hinv Hro Hp _ _ _ _ _].
  apply (awp_run st (view st)); [apply repr_view, Hinv |].
  apply (awp_write_ready st request entry_row); [done |].
  destruct (Z.eqb_spec (buffer_size request) 0); [lia |].
  apply awp_write_file with (data := data); cbn [a_fat a_tab a_set_tab a_mem view];
    fold (fat_of st); rewrite <- ?Hcs; try done.
  - apply Hinv.
  - apply (dir_table_ok Hcap); [apply Hinv | done].
Qed.

Lemma write_file_written st request entry_row data cs :
  WriteReady st request entry_row -> 0 < buffer_size request ->
  source_ok (buffer_size request) data -> holds (umem st) (buf request) data ->
  cs = take (Z.to_nat (clusters_for (buffer_size request))) (free_clusters (fat_of st)) ->
  zlen cs = clusters_for (buffer_size request) ->
  exists st', write request st = Ok (0, st') /\
    FileWritten st request entry_row cs data st' /\ chain (fat_of st') (znth 0 cs 0) cs.
Proof.
  intros Hready Hsize Hdata Hmem Hcs Hspace.
  pose proof Hready as [Hinv Hro Hp Hp1 Hpu _ _ _].
  pose proof (clusters_for_bounds _ Hsize) as [Hk _].
  destruct (taken_clusters st (Z.to_nat (clusters_for (buffer_size request))) Hinv)
    as (Hfree & Hin & Hnd & Hn1). rewrite <- Hcs in Hfree, Hin, Hnd, Hn1.
  assert (Hnp : parent_cluster_number request ∉ cs).
  { intros Hc. rewrite Forall_forall in Hfree. by apply Hpu, Hfree. }
  destruct (write_file_run st request entry_row data cs) as (st' & Hrun & Hr); try done.
  exists st'. split; [done |].
  assert (Hfat : fat_of st' = allocate (fat_of st) cs) by by rewrite (repr_fat_of _ _ Hr).
  assert (Hf' : fat_ok (allocate (fat_of st) cs)) by (apply allocate_ok; [apply Hinv | done]).
  split; [split |]; try done.
  - apply (repr_inv _ _ Hr); cbn [a_fat a_cl]; [done | by rewrite upd_ne, upd_eq |].
    by apply allocate_reserved.
  - apply (repr_dir_table _ _ _ _ Hr); [done | | cbn; by rewrite upd_eq].
    apply table_ok_set; [apply (dir_table_ok Hcap); [apply Hinv | done] |].
    destruct Hro. by apply dir_entry_ok.
  - intros j c Hj. assert (Hc : c ∈ cs) by by apply (zget_elem _ j).
    rewrite Forall_forall in Hin. rewrite (repr_cl _ _ Hr) by auto. cbn [a_cl].
    rewrite !upd_ne by congruence. by rewrite (write_parts_part _ _ _ _ j c).
  - intros c Hc H1' H2' Hni. rewrite (repr_cl _ _ Hr) by done. cbn [a_cl].
    by rewrite !upd_ne, write_parts_other.
  - apply (repr_mem _ _ Hr).
  - apply (repr_stray _ _ Hr).
  - rewrite Hfat. destruct cs as [| c cs']; [unfold zlen in Hspace; cbn in Hspace; lia |].
    apply allocate_chain; [apply Hinv | done..].
Qed.

(** ** The state after a directory was created in the cluster [c] *)
Record FolderWritten st (request : FAT32DriverRequest) (entry_row c : Z) st' : Prop := {
  fo_inv : FSInv st';
  fo_fat : fat_of st' = (fat_of st).[c := FAT32_FAT_END_OF_FILE];
  fo_dir : dir_table st' (parent_cluster_number request) =
    (dir_table st (parent_cluster_number request)).[entry_row := folder_entry request c];
  fo_table : dir_table st' c = new_folder_table request c;
  fo_frame : forall d, in_fat d -> d <> FAT_CLUSTER_NUMBER ->
    d <> parent_cluster_number request -> d <> c ->
    cluster (disk st') d = cluster (disk st) d;
  fo_memory : umem st' = umem st;
  fo_stray : stray st' = stray st
}.

Lemma write_folder_written st request entry_row c cs :
  WriteReady st request entry_row -> buffer_size request = 0 ->
  free_clusters (fat_of st) = c :: cs ->
  exists st', write request st = Ok (0, st') /\ FolderWritten st request entry_row c st'.
Proof.
  intros Hready Hsize Hfree. pose proof Hready as [Hinv Hro Hp Hp1 Hpu _ _ _].
  destruct (taken_clusters st 1 Hinv) as (Hcf & Hin & _ & Hn1).
  rewrite Hfree in Hcf, Hin, Hn1. cbn [take] in Hcf, Hin, Hn1.
  pose proof (Forall_inv Hcf) as Hc. pose proof (Forall_inv Hin) as Hci.
  apply not_elem_of_cons in Hn1 as [Hn1 _].
  assert (Hcp : c <> parent_cluster_number request) by (by intros ->).
  assert (Hc0 : c <> 0).
  { intros ->. by apply (inv_reserved _ Hinv 0 ltac:(done)). }
  pose proof (inv_fat _ Hinv) as Hf.
  pose proof (dir_table_ok Hcap st _ (inv_dev _ Hinv) Hp) as Htab.
  edestruct (awp_run st (view st) (write request) 0) as (st' & Hrun & Hr).
  { apply repr_view, Hinv. }
  { apply (awp_write_ready st request entry_row); [done |]. rewrite Hsize. cbn [Z.eqb].
    apply awp_write_folder with (c := c) (cs := cs); try done. }
  exists st'. split; [done |]. cbn [a_fat a_tab a_set_tab a_set_cl a_set_fat a_cl view] in Hr.
  assert (Hf' : fat_ok (allocate (fat_of st) [c])) by by apply allocate_ok.
  split; try done.
  - apply (repr_inv _ _ Hr); [done | cbn; by rewrite !upd_ne, upd_eq by auto |].
    by apply allocate_reserved.
  - by rewrite (repr_fat_of _ _ Hr).
  - apply (repr_dir_table _ _ _ _ Hr); [done | | cbn; by rewrite upd_ne, upd_eq by auto].
    apply table_ok_set; [done |]. by apply folder_entry_ok.
  - apply (repr_dir_table _ _ _ _ Hr); [done | by apply new_folder_table_ok |].
    cbn. by rewrite upd_eq.
  - intros d Hd H1' H2' H3'. rewrite (repr_cl _ _ Hr) by done. cbn. by rewrite !upd_ne.
  - apply (repr_mem _ _ Hr).
  - apply (repr_stray _ _ Hr).
Qed.

(** ** Requests [write] turns down *)

(** Nothing but the driver's directory buffer may differ. *)
Record Unchanged st st' : Prop := {
  un_dev : dev_ok (disk st');
  un_cluster : forall c, in_fat c -> cluster (disk st') c = cluster (disk st) c;
  un_fat : fat_of st' = fat_of st;
  un_memory : umem st' = umem st;
  un_stray : stray st' = stray st
}.

Lemma repr_unchanged st t st' :
  repr st' (a_set_tab t (view st)) -> Unchanged st st'.
Proof.
  intros Hr. split; try apply Hr. by rewrite (repr_fat_of _ _ Hr).
Qed.

(** The answer to a request whose parent is not a directory, has no free row,
    or already has the name. *)
Definition write_refusal (t : list FAT32DirectoryEntry) (request : FAT32DriverRequest)
  : option Z :=
  if negb (is_directory_table t) then Some 2
  else if find_free_row t is None then Some (-1)
  else if find_entry 2 t request is Some _ then Some 1
  else None.

Lemma write_refused st request r :
  dev_ok (disk st) -> in_fat (parent_cluster_number request) ->
  write_refusal (dir_table st (parent_cluster_number request)) request = Some r ->
  exists st', write request st = Ok (r, st') /\ Unchanged st st'.
Proof.
  intros Hd Hp Hr.
  destruct (awp_run st (view st) (write request) r
              (a_set_tab (dir_table st (parent_cluster_number request)) (view st)))
    as (st' & Hrun & Hrep); [by apply repr_view | | eauto using repr_unchanged].
  apply awp_bind, (awp_load_table Hcap); [done |]. apply awp_bind, awp_get_table.
  cbn [a_tab a_set_tab a_cl view].
  change (decode_table (cluster (disk st) ?p)) with (dir_table st p).
  unfold write_refusal in Hr. destruct (negb _); [by apply awp_ret; injection Hr as <- |].
  destruct (find_free_row _) as [i |]; [| by apply awp_ret; injection Hr as <-].
  destruct (find_entry _ _ _) as [j |]; [| done]. apply awp_ret. by injection Hr as <-.
Qed.
End Write.

(** C10. Writing a file: when the table has as many free clusters as the size
    needs, [write] returns 0, allocates the first free clusters in order as one
    chain, stores the caller's bytes in them, adds the entry in the first free
    row of the parent and touches no other cluster; the cached and the stored
    allocation table agree again. *)
Theorem write_file_spec {D M : Type} `{BlockDeviceSpec D} `{ByteMemLaws M}
    (Hcap : CLUSTER_BLOCK_COUNT * CLUSTER_MAP_SIZE <= dev_blocks)
    (st : FS D M) (request : FAT32DriverRequest) (entry_row : Z) (data cs : list Z)
    (Hready : WriteReady st request entry_row) (Hsize : 0 < buffer_size request)
    (Hdata : source_ok (buffer_size request) data) (Hmem : holds (umem st) (buf request) data)
    (Hcs : cs = take (Z.to_nat (clusters_for (buffer_size request))) (free_clusters (fat_of st)))
    (Hspace : zlen cs = clusters_for (buffer_size request)) :
  exists st', write request st = Ok (0, st') /\ FileWritten st request entry_row cs data st' /\
    chain (fat_of st') (znth 0 cs 0) cs.
Proof. exact (write_file_written Hcap st request entry_row data cs Hready Hsize Hdata Hmem Hcs Hspace). Qed.

(** Creating a directory: [write] with [buffer_size] 0 takes the first free
    cluster, stores there a table with the entry of the directory itself and the
    entry ".." of its parent and 62 empty rows, enters the directory in the
    first free row of the parent, and touches no other cluster. *)
Theorem write_folder_spec {D M : Type} `{BlockDeviceSpec D} `{ByteMemLaws M}
    (Hcap : CLUSTER_BLOCK_COUNT * CLUSTER_MAP_SIZE <= dev_blocks)
    (st : FS D M) (request : FAT32DriverRequest) (entry_row c : Z) (cs : list Z)
    (Hready : WriteReady st request entry_row) (Hsize : buffer_size request = 0)
    (Hspace : free_clusters (fat_of st) = c :: cs) :
  exists st', write request st = Ok (0, st') /\ FolderWritten st request entry_row c st'.
Proof. exact (write_folder_written Hcap st request entry_row c cs Hready Hsize Hspace). Qed.

(** A request [write] turns down (2: the parent is no directory, -1: it has
    no free row, 1: the name is taken) changes no cluster, no allocation table
    and no memory. *)
Theorem write_refused_spec {D M : Type} `{BlockDeviceSpec D} `{ByteMemLaws M}
    (Hcap : CLUSTER_BLOCK_COUNT * CLUSTER_MAP_SIZE <= dev_blocks)
    (st : FS D M) (request : FAT32DriverRequest) (r : Z)
    (Hdev : dev_ok (disk st)) (Hp : in_fat (parent_cluster_number request))
    (Hr : write_refusal (dir_table st (parent_cluster_number request)) request = Some r) :
  exists st', write request st = Ok (r, st') /\ Unchanged st st'.
Proof. exact (write_refused Hcap st request r Hdev Hp Hr). Qed.
