(* ===== verification/FatRead.v ===== *)
(** FatRead: what [read] and [read_directory] return and where they store it. *)

From Stdlib Require Import ZArith Lia.
From stdpp Require Import base tactics numbers list.
From S2P Require Import Prelude Memory CString Disk FatLayout Fat32 FatLogic FatChain FatWrite.

(** The bytes of the clusters of a chain, in order. *)
Definition chain_bytes (cl : Z -> list Z) (cs : list Z) : list Z := enc_all cl cs.

Lemma chain_bytes_cons cl c cs : chain_bytes cl (c :: cs) = cl c ++ chain_bytes cl cs.
Proof. done. Qed.
Lemma chain_bytes_ok cl cs :
  (forall c, c ∈ cs -> cluster_data_ok (cl c)) ->
  zlen (chain_bytes cl cs) = CLUSTER_SIZE * zlen cs /\ all_bytes (chain_bytes cl cs).
Proof.
  intros Hok. split.
  - apply (zlen_enc_all CLUSTER_SIZE cl (fun c => cluster_data_ok (cl c))).
    + by intros c [].
    + by apply Forall_forall.
  - apply (enc_all_bytes cl (fun c => cluster_data_ok (cl c))); [by intros c [] |].
    by apply Forall_forall.
Qed.
Lemma chain_bytes_ext cl cl' cs :
  (forall c, c ∈ cs -> cl c = cl' c) -> chain_bytes cl cs = chain_bytes cl' cs.
Proof.
  intros Heq. unfold chain_bytes, enc_all. f_equal. apply list_fmap_ext.
  intros i c Hc. apply Heq. by eapply list_elem_of_lookup_2.
Qed.

Section Read.
Context {D M : Type} `{BlockDeviceSpec D} `{ByteMemLaws M}.
Context (Hcap : CLUSTER_BLOCK_COUNT * CLUSTER_MAP_SIZE <= dev_blocks).
Implicit Types (a : Abs M) (st : FS D M).

(** ** The chain loop stores the whole chain at [buf] *)
Lemma awp_read_chain fat c cs : chain fat c cs ->
  forall fuel request j m a (Q : unit -> Abs M -> Prop),
  a_fat a = fat -> fat_ok fat -> (length cs <= fuel)%nat ->
  0 <= j -> j + zlen cs <= CLUSTER_MAP_SIZE ->
  store_bytes (buf request + CLUSTER_SIZE * j) (chain_bytes (a_cl a) cs) (a_mem a) = Ok m ->
  Q tt (a_set_mem m a) ->
  awp a (read_chain fuel request c j) Q.
Proof.
  induction 1 as [c Hl | c d cs Hl Hd Hc IH];
    intros fuel request j m a Q Ha Hf Hfuel Hj Hlen Hst HQ;
    (destruct fuel as [| fuel]; [cbn in Hfuel; lia |]); cbn [read_chain];
    (assert (Hin : in_fat c) by (pose proof (zget_range _ _ _ Hl); destruct Hf; unfold in_fat; lia)).
  - apply (awp_ok Hcap). intros Hok. apply awp_bind, (awp_read_clusters Hcap); [done |].
    unfold chain_bytes, enc_all in Hst. cbn [fmap list_fmap concat] in Hst.
    rewrite app_nil_r in Hst.
    apply awp_bind, (awp_store_user _ _ _ _ _ Hst).
    apply awp_bind, (awp_map_get c FAT32_FAT_END_OF_FILE); cbn; [by rewrite Ha | by rewrite Ha |].
    by apply awp_ret.
  - apply (awp_ok Hcap). intros Hok. apply awp_bind, (awp_read_clusters Hcap); [done |].
    rewrite chain_bytes_cons, store_bytes_app in Hst.
    destruct (store_bytes _ (a_cl a c) (a_mem a)) as [m1 |] eqn:Hst1; cbn [res_bind] in Hst; [| done].
    rewrite zlen_cons in Hlen. pose proof (zlen_nonneg cs).
    apply awp_bind, (awp_store_user _ _ _ _ _ Hst1).
    apply awp_bind, (awp_map_get c d); cbn; [by rewrite Ha | by rewrite Ha |].
    destruct (Z.eqb_spec d FAT32_FAT_END_OF_FILE); [done |].
    rewrite u16_small by (unfold CLUSTER_MAP_SIZE in *; lia).
    apply (IH fuel request (j + 1) m); try done; cbn; [cbn in Hfuel; lia.. |].
    destruct (Hok c Hin) as [Hlc _]. rewrite Hlc in Hst.
    by replace (buf request + CLUSTER_SIZE * (j + 1))
      with (buf request + CLUSTER_SIZE * j + CLUSTER_SIZE) by lia.
Qed.

(** ** read *)

(** The answer of [read] when it loads no cluster of a file. *)
Definition read_refusal (t : list FAT32DirectoryEntry) (request : FAT32DriverRequest)
  : option Z :=
  if negb (user_attribute (row t 0) =? UATTR_NOT_EMPTY) then Some (-1) else
  match find_entry 0 t request with
  | None => Some 2
  | Some i =>
    if attribute (row t i) =? ATTR_SUBDIRECTORY then Some 1
    else if buffer_size request <? filesize (row t i) then Some (-1)
    else None
  end.

(** The allocation table on the disk. *)
Definition stored_fat st : list Z := decode_words (cluster (disk st) FAT_CLUSTER_NUMBER).

Lemma stored_fat_ok st : dev_ok (disk st) -> fat_ok (stored_fat st).
Proof.
  intros Hd. destruct (cluster_ok Hcap (disk st) FAT_CLUSTER_NUMBER Hd); [done |].
  by apply decode_words_ok.
Qed.
Lemma stored_fat_coherent st : FSInv st -> stored_fat st = fat_of st.
Proof.
  intros Hinv. unfold stored_fat. rewrite (inv_coherent _ Hinv).
  apply decode_encode_words, Hinv.
Qed.

(** Only the caller's memory [m] and the driver's buffers may differ. *)
Record OnlyMemory st (m : M) st' : Prop := {
  om_dev : dev_ok (disk st');
  om_cluster : forall c, in_fat c -> cluster (disk st') c = cluster (disk st) c;
  om_fat : fat_of st' = fat_of st;
  om_memory : umem st' = m;
  om_stray : stray st' = stray st
}.

Lemma only_memory_inv st m st' : FSInv st -> OnlyMemory st m st' -> FSInv st'.
Proof.
  intros [Hd Hf Hc Hr] [Hd' Hcl Hfat _ _]. split; rewrite ?Hfat; try done.
  by rewrite Hcl.
Qed.

Lemma repr_only_memory st t m st' :
  repr st' (mkAbs (cluster (disk st)) (fat_of st) t (cluster_buf (driver_state st)) m (stray st)) ->
  OnlyMemory st m st'.
Proof. intros Hr. split; try apply Hr. by rewrite (repr_fat_of _ _ Hr). Qed.

(** The run of [read] up to the search. *)
Lemma awp_read_start st request (Q : Z -> Abs M -> Prop) :
  let t := dir_table st (parent_cluster_number request) in
  FSInv st -> in_fat (parent_cluster_number request) ->
  user_attribute (row t 0) = UATTR_NOT_EMPTY ->
  awp (a_set_tab t (view st))
    (match find_entry 0 t request with
     | None => ret 2
     | Some i =>
       if attribute (row t i) =? ATTR_SUBDIRECTORY then ret 1 else
       if buffer_size request <? filesize (row t i) then ret (-1) else
       bind (read_chain CHAIN_FUEL request (entry_cluster (row t i)) 0) (fun _ => ret 0)
     end) Q ->
  awp (view st) (read request) Q.
Proof.
  intros t Hinv Hp Hua HQ.
  apply awp_bind, (awp_load_table Hcap); [done |].
  apply awp_bind, awp_get_table. cbn [a_tab a_set_tab a_cl view].
  change (decode_table (cluster (disk st) (parent_cluster_number request))) with t.
  rewrite Hua. cbn [negb Z.eqb]. rewrite Z.eqb_refl. cbn [negb].
  apply awp_bind, (awp_load_fat Hcap). cbn [a_cl a_set_tab view].
  change (decode_words (cluster (disk st) FAT_CLUSTER_NUMBER)) with (stored_fat st).
  rewrite stored_fat_coherent by done. exact HQ.
Qed.

Lemma read_refused st request r :
  FSInv st -> in_fat (parent_cluster_number request) ->
  read_refusal (dir_table st (parent_cluster_number request)) request = Some r ->
  exists st', read request st = Ok (r, st') /\ OnlyMemory st (umem st) st'.
Proof.
  intros Hinv Hp Hr. set (t := dir_table st (parent_cluster_number request)) in *.
  destruct (awp_run st (view st) (read request) r (a_set_tab t (view st)))
    as (st' & Hrun & Hrep); [by apply repr_view, Hinv | | by eauto using repr_only_memory].
  unfold read_refusal in Hr.
  destruct (Z.eqb_spec (user_attribute (row t 0)) UATTR_NOT_EMPTY) as [Hua | Hua]; cbn [negb] in Hr.
  - apply awp_read_start; [done.. |]. fold t.
    destruct (find_entry 0 t request) as [i |]; [| by apply awp_ret; injection Hr as <-].
    destruct (attribute (row t i) =? ATTR_SUBDIRECTORY); [by apply awp_ret; injection Hr as <- |].
    destruct (buffer_size request <? filesize (row t i)); [| done].
    apply awp_ret. by injection Hr as <-.
  - apply awp_bind, (awp_load_table Hcap); [done |].
    apply awp_bind, awp_get_table. cbn [a_tab a_set_tab a_cl view].
    change (decode_table (cluster (disk st) (parent_cluster_number request))) with t.
    rewrite (proj2 (Z.eqb_neq _ _) Hua). apply awp_ret. by injection Hr as <-.
Qed.

(** The state after the chain [cs] of a file was loaded. *)
Lemma read_found st request i cs m :
  let t := dir_table st (parent_cluster_number request) in
  FSInv st -> in_fat (parent_cluster_number request) ->
  user_attribute (row t 0) = UATTR_NOT_EMPTY ->
  find_entry 0 t request = Some i -> attribute (row t i) <> ATTR_SUBDIRECTORY ->
  filesize (row t i) <= buffer_size request ->
  chain (fat_of st) (entry_cluster (row t i)) cs ->
  store_bytes (buf request) (chain_bytes (cluster (disk st)) cs) (umem st) = Ok m ->
  exists st', read request st = Ok (0, st') /\ OnlyMemory st m st'.
Proof.
  intros t Hinv Hp Hua Hfind Hat Hsz Hch Hst.
  destruct (awp_run st (view st) (read request) 0 (a_set_mem m (a_set_tab t (view st))))
    as (st' & Hrun & Hrep); [by apply repr_view, Hinv | | by eauto using repr_only_memory].
  apply awp_read_start; [done.. |]. fold t. rewrite Hfind.
  rewrite (proj2 (Z.eqb_neq _ _) Hat), (proj2 (Z.ltb_ge _ _) Hsz).
  pose proof (chain_length _ _ _ (inv_fat _ Hinv) Hch) as Hlen.
  apply awp_bind. eapply awp_read_chain; try done.
  - apply Hinv.
  - unfold CHAIN_FUEL, DRIVER_STATE_WORDS, zlen, CLUSTER_MAP_SIZE in *. lia.
  - rewrite Z.mul_0_r, Z.add_0_r. exact Hst.
  - by apply awp_ret.
Qed.

(** ** read_directory *)

Definition read_directory_refusal (t : list FAT32DirectoryEntry)
    (request : FAT32DriverRequest) : option Z :=
  if negb (user_attribute (row t 0) =? UATTR_NOT_EMPTY) then Some (-1) else
  match for_find 0 DIR_ENTRIES (fun i => same_name (row t i) request) with
  | None => Some 2
  | Some i => if negb (attribute (row t i) =? ATTR_SUBDIRECTORY) then Some 1 else None
  end.

Lemma awp_read_directory_start st request (Q : Z -> Abs M -> Prop) :
  let t := dir_table st (parent_cluster_number request) in
  in_fat (parent_cluster_number request) ->
  awp (a_set_tab t (view st))
    (if negb (user_attribute (row t 0) =? UATTR_NOT_EMPTY) then ret (-1) else
     match for_find 0 DIR_ENTRIES (fun i => same_name (row t i) request) with
     | None => ret 2
     | Some i =>
       if negb (attribute (row t i) =? ATTR_SUBDIRECTORY) then ret 1 else
       bind (read_clusters (entry_cluster (row t i)) 1) (fun bs =>
       bind (store_user (buf request) bs) (fun _ => ret 0))
     end) Q ->
  awp (view st) (read_directory request) Q.
Proof.
  intros t Hp HQ. apply awp_bind, (awp_load_table Hcap); [done |].
  apply awp_bind, awp_get_table. exact HQ.
Qed.

Lemma read_directory_refused st request r :
  dev_ok (disk st) -> in_fat (parent_cluster_number request) ->
  read_directory_refusal (dir_table st (parent_cluster_number request)) request = Some r ->
  exists st', read_directory request st = Ok (r, st') /\ OnlyMemory st (umem st) st'.
Proof.
  intros Hd Hp Hr. set (t := dir_table st (parent_cluster_number request)) in *.
  destruct (awp_run st (view st) (read_directory request) r (a_set_tab t (view st)))
    as (st' & Hrun & Hrep); [by apply repr_view | | by eauto using repr_only_memory].
  apply awp_read_directory_start; [done |]. fold t. unfold read_directory_refusal in Hr.
  destruct (negb _); [by apply awp_ret; injection Hr as <- |].
  destruct (for_find _ _ _) as [i |]; [| by apply awp_ret; injection Hr as <-].
  destruct (negb _); [by apply awp_ret; injection Hr as <- | done].
Qed.

Lemma read_directory_found st request i m :
  let t := dir_table st (parent_cluster_number request) in
  dev_ok (disk st) -> in_fat (parent_cluster_number request) ->
  user_attribute (row t 0) = UATTR_NOT_EMPTY ->
  for_find 0 DIR_ENTRIES (fun i => same_name (row t i) request) = Some i ->
  attribute (row t i) = ATTR_SUBDIRECTORY -> in_fat (entry_cluster (row t i)) ->
  store_bytes (buf request) (cluster (disk st) (entry_cluster (row t i))) (umem st) = Ok m ->
  exists st', read_directory request st = Ok (0, st') /\ OnlyMemory st m st'.
Proof.
  intros t Hd Hp Hua Hfind Hat Hc Hst.
  destruct (awp_run st (view st) (read_directory request) 0 (a_set_mem m (a_set_tab t (view st))))
    as (st' & Hrun & Hrep); [by apply repr_view | | by eauto using repr_only_memory].
  apply awp_read_directory_start; [done |]. fold t. rewrite Hua, Z.eqb_refl. cbn [negb].
  rewrite Hfind, Hat, Z.eqb_refl. cbn [negb].
  apply awp_bind, (awp_read_clusters Hcap); [done |].
  apply awp_bind, (awp_store_user _ _ m); [exact Hst |]. by apply awp_ret.
Qed.
End Read.

(** ** Reading back what was written *)

(** The last cluster receives [size % CLUSTER_SIZE] bytes: none at all for a
    size of several whole clusters. *)
Definition whole_last_cluster (size : Z) : Prop :=
  size mod CLUSTER_SIZE = 0 /\ CLUSTER_SIZE < size.
#[export] Instance whole_last_cluster_dec size : Decision (whole_last_cluster size).
Proof. unfold whole_last_cluster. apply _. Defined.

Lemma part_covers size j :
  0 < size -> ~ whole_last_cluster size -> 0 <= j < clusters_for size ->
  forall o, 0 <= o < CLUSTER_SIZE -> CLUSTER_SIZE * j + o < size -> o < part_size size j.
Proof.
  intros Hs Hw Hj o Ho Hlt. unfold part_size.
  destruct (Z.ltb_spec 0 j) as [Hj0 |]; cbn [andb]; [| lia].
  destruct (Z.eqb_spec j (clusters_for size - 1)) as [-> |]; [| lia].
  unfold whole_last_cluster in Hw. revert Hlt Hj0. unfold clusters_for. consts.
  pose proof (Z.div_mod size (512 * 4) ltac:(lia)).
  destruct (Z.eqb_spec (size mod (512 * 4)) 0); lia.
Qed.

Lemma file_part_get size data j o :
  0 < size -> source_ok size data -> 0 <= j < clusters_for size -> 0 <= o < part_size size j ->
  (file_part size data j).[o] = data.[CLUSTER_SIZE * j + o].
Proof.
  intros Hs [Hlen _] Hj Ho. pose proof (part_in_source size j Hs Hj).
  pose proof (part_size_range size j). unfold file_part.
  rewrite zget_app_l; [apply zget_zslice; consts; lia |].
  rewrite zlen_zslice; consts; lia.
Qed.

Lemma file_part_zero size data j o :
  0 < size -> source_ok size data -> 0 <= j < clusters_for size ->
  part_size size j <= o < CLUSTER_SIZE -> (file_part size data j).[o] = Some 0.
Proof.
  intros Hs [Hlen _] Hj Ho. pose proof (part_in_source size j Hs Hj).
  pose proof (part_size_range size j). unfold file_part.
  assert (Hl : zlen (zslice (CLUSTER_SIZE * j) (part_size size j) data) = part_size size j)
    by (rewrite zlen_zslice; consts; lia).
  rewrite zget_app_r by lia. rewrite Hl. apply zget_zrep. lia.
Qed.

(** The clusters of a file hold its bytes. *)
Lemma chain_bytes_file size data cl cs :
  0 < size -> source_ok size data -> zlen cs = clusters_for size ->
  (forall j c, cs.[j] = Some c -> cl c = file_part size data j) ->
  forall i, 0 <= i < CLUSTER_SIZE * clusters_for size ->
  (chain_bytes cl cs).[i] = (file_part size data (i / CLUSTER_SIZE)).[i mod CLUSTER_SIZE].
Proof.
  intros Hs Hd Hlen Hcl i Hi. assert (HC : 0 < CLUSTER_SIZE) by done.
  pose proof (Z.mod_pos_bound i CLUSTER_SIZE HC) as Hm.
  pose proof (Z.div_mod i CLUSTER_SIZE ltac:(lia)) as Hdm.
  assert (0 <= i / CLUSTER_SIZE < clusters_for size) as Hj
    by (split; [by apply Z.div_pos; lia | apply Z.div_lt_upper_bound; lia]).
  destruct (zget_is_Some cs (i / CLUSTER_SIZE) ltac:(lia)) as [c Hc].
  assert (Hall : Forall (fun c => cluster_data_ok (cl c)) cs).
  { apply Forall_forall. intros d [k Hk]%elem_zget. pose proof (zget_range _ _ _ Hk).
    rewrite (Hcl _ _ Hk). apply file_part_ok; [done.. | lia]. }
  rewrite <- (Hcl _ _ Hc).
  assert (Hen : forall c, cluster_data_ok (cl c) -> zlen (cl c) = CLUSTER_SIZE) by (by intros ? []).
  rewrite <- (zslice_enc_all CLUSTER_SIZE cl _ HC Hen cs Hall _ _ Hc).
  rewrite zget_zslice by lia. unfold chain_bytes. by rewrite <- Hdm.
Qed.

Lemma row_zset_eq t i e : 0 <= i < zlen t -> row t.[i := e] i = e.
Proof. intros. unfold row, znth. by rewrite zget_zset_eq. Qed.
Lemma row_zset_ne t i j e : i <> j -> row t.[i := e] j = row t j.
Proof. intros. unfold row, znth. by rewrite zget_zset_ne. Qed.

Lemma mem_eq_refl n l : zlen l = n -> mem_eq l l n = true.
Proof. intros. by apply mem_eq_full. Qed.

(** A new entry is the one a search for its name finds. *)
Lemma find_entry_new lo t request e i :
  zlen t = DIR_ENTRIES -> lo <= i < 64 -> 0 <= i -> find_entry lo t request = None ->
  name e = req_name request -> ext e = req_ext request -> request_ok request ->
  find_entry lo t.[i := e] request = Some i.
Proof.
  intros Hlen Hi Hi0 Hnone Hn He Hro. unfold find_entry in *.
  rewrite for_find_None in Hnone. apply for_find_Some. split; [done |]. split.
  - rewrite row_zset_eq by (rewrite Hlen; unfold DIR_ENTRIES; lia). destruct Hro.
    unfold same_name_ext. by rewrite Hn, He, !mem_eq_refl.
  - intros j Hj. rewrite row_zset_ne by lia. apply Hnone. lia.
Qed.

Lemma find_entry_same lo t r r' :
  req_name r' = req_name r -> req_ext r' = req_ext r -> find_entry lo t r' = find_entry lo t r.
Proof. intros Hn He. unfold find_entry, same_name_ext. by rewrite Hn, He. Qed.

Lemma entry_cluster_dir_entry nm ex attr c size :
  in_fat c -> entry_cluster (dir_entry nm ex attr c size) = c.
Proof.
  intros Hc. unfold in_fat, CLUSTER_MAP_SIZE in Hc. unfold entry_cluster, dir_entry. cbn.
  rewrite u16_shiftr16, shiftr16_add_u16 by lia. apply u32_small. lia.
Qed.

Section RoundTrip.
Context {D M : Type} `{BlockDeviceSpec D} `{ByteMemLaws M}.
Context (Hcap : CLUSTER_BLOCK_COUNT * CLUSTER_MAP_SIZE <= dev_blocks).
Implicit Types (st : FS D M).

Lemma set_umem_inv st (m : M) : FSInv st -> FSInv (set_umem m st).
Proof. intros [? ? ? ?]. by split. Qed.

(** A request that asks for the file another one wrote. *)
Record SameFile (r r' : FAT32DriverRequest) : Prop := {
  sf_name : req_name r' = req_name r;
  sf_ext : req_ext r' = req_ext r;
  sf_parent : parent_cluster_number r' = parent_cluster_number r;
  sf_room : buffer_size r <= buffer_size r'
}.

Lemma read_written st request entry_row cs data st1 (m : M) rq :
  let size := buffer_size request in
  let p := parent_cluster_number request in
  WriteReady st request entry_row -> 0 < size ->
  find_entry 0 (dir_table st p) request = None ->
  FileWritten st request entry_row cs data st1 -> chain (fat_of st1) (znth 0 cs 0) cs ->
  zlen cs = clusters_for size -> SameFile request rq ->
  mapped m (buf rq) (CLUSTER_SIZE * clusters_for size) ->
  exists st2 m2, read rq (set_umem m st1) = Ok (0, st2) /\ OnlyMemory (set_umem m st1) m2 st2 /\
    stored m (buf rq) (chain_bytes (cluster (disk st1)) cs) m2.
Proof.
  intros size p Hready Hs Hshadow [Hinv1 Hfat Hdir Hdata _ _ _] Hch Hlen [Hn He Hpar Hroom] Hmap.
  pose proof Hready as [Hinv Hro Hp _ _ Hisdir Hrow _].
  fold p in Hdir, Hisdir, Hrow, Hp.
  assert (Ht : table_ok (dir_table st p)) by (apply (dir_table_ok Hcap); [apply Hinv | done]).
  pose proof Hrow as Hrow'. unfold find_free_row in Hrow'.
  apply for_find_Some in Hrow' as (Hrow2 & _ & _).
  assert (Hbytes : zlen (chain_bytes (cluster (disk st1)) cs) = CLUSTER_SIZE * zlen cs).
  { apply chain_bytes_ok. intros c Hc. apply (cluster_ok Hcap); [apply Hinv1 |].
    by apply (chain_in_fat _ _ _ _ (inv_fat _ Hinv1) Hch). }
  destruct (store_bytes_mapped (chain_bytes (cluster (disk st1)) cs) (buf rq) m)
    as (m2 & Hst & Hstored); [by rewrite Hbytes, Hlen |].
  assert (Hin : in_fat (znth 0 cs 0)).
  { apply (chain_in_fat _ _ _ _ (inv_fat _ Hinv1) Hch). by apply (chain_head (fat_of st1)). }
  assert (Hrow_e : row (dir_table (set_umem m st1) p) entry_row =
                   file_entry request (znth 0 cs 0)).
  { change (dir_table (set_umem m st1) p) with (dir_table st1 p). rewrite Hdir.
    apply row_zset_eq. destruct Ht as [-> _]. unfold DIR_ENTRIES. lia. }
  destruct (read_found Hcap (set_umem m st1) rq entry_row cs m2) as (st2 & Hrun & Hom);
    rewrite ?Hpar; fold p; rewrite ?Hrow_e; try done.
  - by apply set_umem_inv.
  - change (dir_table (set_umem m st1) p) with (dir_table st1 p). rewrite Hdir.
    rewrite row_zset_ne by lia. unfold is_directory_table in Hisdir.
    apply andb_prop in Hisdir as [Hua _]. by apply Z.eqb_eq in Hua.
  - rewrite (find_entry_same _ _ request) by done.
    change (dir_table (set_umem m st1) p) with (dir_table st1 p). rewrite Hdir.
    apply find_entry_new; done || lia || apply Ht.
  - unfold file_entry. by rewrite entry_cluster_dir_entry.
  - eauto.
Qed.
End RoundTrip.

Section FileBytes.
Context {M : Type} `{ByteMemLaws M}.

(** The bytes at the buffer after the clusters of a file were stored there. *)
Lemma stored_file size data cl cs (m m2 : M) a :
  0 < size -> source_ok size data -> zlen cs = clusters_for size ->
  (forall j c, cs.[j] = Some c -> cl c = file_part size data j) ->
  (forall c, c ∈ cs -> cluster_data_ok (cl c)) ->
  stored m a (chain_bytes cl cs) m2 -> separate m a (CLUSTER_SIZE * clusters_for size) ->
  forall o bs, 0 <= o -> o + zlen bs <= CLUSTER_SIZE * clusters_for size ->
  (forall i b, bs.[i] = Some b ->
     (file_part size data ((o + i) / CLUSTER_SIZE)).[(o + i) mod CLUSTER_SIZE] = Some b) ->
  holds m2 (a + o) bs.
Proof.
  intros Hs Hd Hlen Hcl Hok [_ _ Hho] Hsep o bs Ho Hbs Hget i b Hi.
  destruct (chain_bytes_ok cl cs Hok) as [Hcb Hby]. rewrite Hlen in Hcb.
  rewrite Hcb in Hho. specialize (Hho Hsep Hby). pose proof (zget_range _ _ _ Hi).
  rewrite <- Z.add_assoc. apply Hho.
  rewrite (chain_bytes_file size data) by (done || lia). by apply Hget.
Qed.

Lemma file_part_div size data i b :
  0 < size -> source_ok size data -> 0 <= i < CLUSTER_SIZE * clusters_for size ->
  i mod CLUSTER_SIZE < part_size size (i / CLUSTER_SIZE) -> data.[i] = Some b ->
  (file_part size data (i / CLUSTER_SIZE)).[i mod CLUSTER_SIZE] = Some b.
Proof.
  intros Hs Hd Hi Hp Hb. assert (HC : 0 < CLUSTER_SIZE) by done.
  pose proof (Z.mod_pos_bound i CLUSTER_SIZE HC).
  rewrite file_part_get; [| done | done | | lia].
  - by rewrite <- Z.div_mod by lia.
  - split; [by apply Z.div_pos; lia | apply Z.div_lt_upper_bound; lia].
Qed.
End FileBytes.

Section ReadTheorems.
Context {D M : Type} `{BlockDeviceSpec D} `{ByteMemLaws M}.
Context (Hcap : CLUSTER_BLOCK_COUNT * CLUSTER_MAP_SIZE <= dev_blocks).
Implicit Types (st : FS D M).

(** What [write] and then [read] of the same file leave in a buffer with room
    for its whole clusters. *)
Lemma write_then_read st request entry_row data cs (m : M) rq :
  let size := buffer_size request in
  WriteReady st request entry_row -> 0 < size ->
  source_ok size data -> holds (umem st) (buf request) data ->
  cs = take (Z.to_nat (clusters_for size)) (free_clusters (fat_of st)) ->
  zlen cs = clusters_for size ->
  find_entry 0 (dir_table st (parent_cluster_number request)) request = None ->
  SameFile request rq ->
  mapped m (buf rq) (CLUSTER_SIZE * clusters_for size) ->
  separate m (buf rq) (CLUSTER_SIZE * clusters_for size) ->
  exists st1 st2, write request st = Ok (0, st1) /\ read rq (set_umem m st1) = Ok (0, st2) /\
    (forall o bs, 0 <= o -> o + zlen bs <= CLUSTER_SIZE * clusters_for size ->
     (forall i b, bs.[i] = Some b ->
        (file_part size data ((o + i) / CLUSTER_SIZE)).[(o + i) mod CLUSTER_SIZE] = Some b) ->
     holds (umem st2) (buf rq + o) bs).
Proof.
  intros size Hready Hs Hdata Hmem Hcs Hspace Hshadow Hsame Hmap Hsep.
  destruct (write_file_written Hcap st request entry_row data cs)
    as (st1 & Hw & Hfw & Hch); try done.
  destruct (read_written Hcap st request entry_row cs data st1 m rq)
    as (st2 & m2 & Hr & Hom & Hst); try done.
  exists st1, st2. split_and!; [done | done |]. rewrite (om_memory _ _ _ Hom).
  pose proof (fw_inv _ _ _ _ _ _ Hfw) as Hinv.
  apply (stored_file size data (cluster (disk st1)) cs m); try done.
  - apply (fw_data _ _ _ _ _ _ Hfw).
  - intros c Hc. apply (cluster_ok Hcap); [apply Hinv |].
    by apply (chain_in_fat _ _ _ _ (inv_fat _ Hinv) Hch).
Qed.

(** C9. A file comes back as it was written: after a successful [write] of
    [buffer_size] bytes, a [read] of that name into any memory with room for the
    file's whole clusters returns 0 and leaves the written bytes at [buf], unless
    the size is several whole clusters. *)
Theorem write_read_roundtrip st request entry_row data cs (m : M) rq
    (Hready : WriteReady st request entry_row) (Hsize : 0 < buffer_size request)
    (Hdata : source_ok (buffer_size request) data) (Hmem : holds (umem st) (buf request) data)
    (Hcs : cs = take (Z.to_nat (clusters_for (buffer_size request))) (free_clusters (fat_of st)))
    (Hspace : zlen cs = clusters_for (buffer_size request))
    (Hshadow : find_entry 0 (dir_table st (parent_cluster_number request)) request = None)
    (Hlast : ~ whole_last_cluster (buffer_size request))
    (Hsame : SameFile request rq)
    (Hmap : mapped m (buf rq) (CLUSTER_SIZE * clusters_for (buffer_size request)))
    (Hsep : separate m (buf rq) (CLUSTER_SIZE * clusters_for (buffer_size request))) :
  exists st1 st2, write request st = Ok (0, st1) /\ read rq (set_umem m st1) = Ok (0, st2) /\
    holds (umem st2) (buf rq) (ztake (buffer_size request) data).
Proof.
  destruct (write_then_read st request entry_row data cs m rq)
    as (st1 & st2 & Hw & Hr & Hh); try done.
  exists st1, st2. split_and!; [done | done |]. rewrite <- (Z.add_0_r (buf rq)).
  pose proof (clusters_for_bounds _ Hsize) as (_ & _ & Hup).
  assert (HC : 0 < CLUSTER_SIZE) by done. destruct Hdata as [Hlen Hby].
  apply Hh; [done | rewrite zlen_ztake; lia |].
  intros i b Hi. rewrite Z.add_0_l. pose proof (zget_range _ _ _ Hi) as Hir.
  rewrite zlen_ztake in Hir. rewrite zget_ztake in Hi by lia.
  pose proof (Z.mod_pos_bound i CLUSTER_SIZE HC).
  pose proof (Z.div_mod i CLUSTER_SIZE ltac:(lia)).
  apply file_part_div; [done | done | lia | | done].
  apply part_covers; [done | done | | lia | lia].
  split; [by apply Z.div_pos; lia | apply Z.div_lt_upper_bound; lia].
Qed.

(** C18. The exception of the round trip: a file of several whole clusters loses
    its last one. [write] stores [size % CLUSTER_SIZE] = 0 bytes there, and [read]
    gives zeros for the last 2048 bytes of the file. *)
Theorem write_loses_last_cluster st request entry_row data cs (m : M) rq
    (Hready : WriteReady st request entry_row) (Hsize : 0 < buffer_size request)
    (Hdata : source_ok (buffer_size request) data) (Hmem : holds (umem st) (buf request) data)
    (Hcs : cs = take (Z.to_nat (clusters_for (buffer_size request))) (free_clusters (fat_of st)))
    (Hspace : zlen cs = clusters_for (buffer_size request))
    (Hshadow : find_entry 0 (dir_table st (parent_cluster_number request)) request = None)
    (Hlast : whole_last_cluster (buffer_size request))
    (Hsame : SameFile request rq)
    (Hmap : mapped m (buf rq) (CLUSTER_SIZE * clusters_for (buffer_size request)))
    (Hsep : separate m (buf rq) (CLUSTER_SIZE * clusters_for (buffer_size request))) :
  exists st1 st2, write request st = Ok (0, st1) /\ read rq (set_umem m st1) = Ok (0, st2) /\
    holds (umem st2) (buf rq + (buffer_size request - CLUSTER_SIZE)) (zrep CLUSTER_SIZE 0).
Proof.
  destruct (write_then_read st request entry_row data cs m rq)
    as (st1 & st2 & Hw & Hr & Hh); try done.
  exists st1, st2. split_and!; [done | done |].
  destruct Hlast as [Hmod Hbig]. assert (HC : 0 < CLUSTER_SIZE) by done.
  pose proof (Z.div_mod (buffer_size request) CLUSTER_SIZE ltac:(lia)) as Hdm.
  rewrite Hmod, Z.add_0_r in Hdm.
  assert (Hk : clusters_for (buffer_size request) = buffer_size request / CLUSTER_SIZE).
  { unfold clusters_for. by rewrite Hmod. }
  apply Hh; [lia | rewrite zlen_zrep, Hk by done; lia |].
  intros i b Hi. pose proof (zget_range _ _ _ Hi) as Hir. rewrite zlen_zrep in Hir by done.
  rewrite zget_zrep in Hi by done. injection Hi as <-.
  set (k := buffer_size request / CLUSTER_SIZE) in *.
  replace (buffer_size request - CLUSTER_SIZE + i) with (i + (k - 1) * CLUSTER_SIZE) by lia.
  rewrite Z.div_add, Z.mod_add, Z.div_small, Z.mod_small, Z.add_0_l by lia.
  assert (1 < k) by nia.
  apply file_part_zero; [done | done | lia |]. unfold part_size. rewrite Hk.
  rewrite (proj2 (Z.ltb_lt _ _)), Z.eqb_refl, Hmod by lia. cbn [andb]. lia.
Qed.

(** Reading a file: when the name is found, is no directory and the buffer
    size covers the file size, [read] follows the chain of the entry's cluster to
    its end and stores every cluster of it whole at [buf]; the disk and the
    allocation table stay as they are, and so does every other memory cell. *)
Theorem read_spec st request i cs
    (Hinv : FSInv st) (Hp : in_fat (parent_cluster_number request))
    (Hua : user_attribute (row (dir_table st (parent_cluster_number request)) 0) = UATTR_NOT_EMPTY)
    (Hfind : find_entry 0 (dir_table st (parent_cluster_number request)) request = Some i)
    (Hat : attribute (row (dir_table st (parent_cluster_number request)) i) <> ATTR_SUBDIRECTORY)
    (Hsz : filesize (row (dir_table st (parent_cluster_number request)) i) <= buffer_size request)
    (Hch : chain (fat_of st)
             (entry_cluster (row (dir_table st (parent_cluster_number request)) i)) cs)
    (Hmap : mapped (umem st) (buf request) (CLUSTER_SIZE * zlen cs)) :
  exists st' m, read request st = Ok (0, st') /\ OnlyMemory st m st' /\
    stored (umem st) (buf request) (chain_bytes (cluster (disk st)) cs) m.
Proof.
  assert (Hlen : zlen (chain_bytes (cluster (disk st)) cs) = CLUSTER_SIZE * zlen cs).
  { apply chain_bytes_ok. intros c Hc. apply (cluster_ok Hcap); [apply Hinv |].
    by apply (chain_in_fat _ _ _ _ (inv_fat _ Hinv) Hch). }
  destruct (store_bytes_mapped (chain_bytes (cluster (disk st)) cs) (buf request) (umem st))
    as (m & Hst & Hstored); [by rewrite Hlen |].
  destruct (read_found Hcap st request i cs m) as (st' & Hrun & Hom); eauto.
Qed.

(** A request [read] turns down (-1: the parent is no directory or the
    buffer is too small, 2: no such name, 1: the name is a directory) changes
    neither the disk, nor the allocation table, nor the caller's memory. *)
Theorem read_refused_spec st request r
    (Hinv : FSInv st) (Hp : in_fat (parent_cluster_number request))
    (Hr : read_refusal (dir_table st (parent_cluster_number request)) request = Some r) :
  exists st', read request st = Ok (r, st') /\ OnlyMemory st (umem st) st'.
Proof. by apply (read_refused Hcap). Qed.

(** C17. Reading a directory: [read_directory] stores the 2048 bytes of the
    directory's table at [buf] when the name is found and is a directory; it
    answers -1, 2 or 1 otherwise, and then changes nothing. *)
Theorem read_directory_spec st request
    (Hd : dev_ok (disk st)) (Hp : in_fat (parent_cluster_number request))
    (Hmap : mapped (umem st) (buf request) CLUSTER_SIZE)
    (Hin : forall i,
       for_find 0 DIR_ENTRIES
         (fun i => same_name (row (dir_table st (parent_cluster_number request)) i) request) = Some i ->
       in_fat (entry_cluster (row (dir_table st (parent_cluster_number request)) i))) :
  match read_directory_refusal (dir_table st (parent_cluster_number request)) request with
  | Some r => exists st', read_directory request st = Ok (r, st') /\ OnlyMemory st (umem st) st'
  | None => exists st' m i, read_directory request st = Ok (0, st') /\ OnlyMemory st m st' /\
      for_find 0 DIR_ENTRIES
        (fun i => same_name (row (dir_table st (parent_cluster_number request)) i) request) = Some i /\
      stored (umem st) (buf request)
        (cluster (disk st) (entry_cluster (row (dir_table st (parent_cluster_number request)) i))) m
  end.
Proof.
  destruct (read_directory_refusal _ _) as [r |] eqn:Hr; [by apply (read_directory_refused Hcap) |].
  set (t := dir_table st (parent_cluster_number request)) in *.
  unfold read_directory_refusal in Hr.
  destruct (Z.eqb_spec (user_attribute (row t 0)) UATTR_NOT_EMPTY); cbn [negb] in Hr; [| done].
  destruct (for_find _ _ _) as [i |] eqn:Hfind; [| done].
  destruct (Z.eqb_spec (attribute (row t i)) ATTR_SUBDIRECTORY); cbn [negb] in Hr; [| done].
  specialize (Hin i eq_refl).
  destruct (cluster_ok Hcap (disk st) (entry_cluster (row t i)) Hd Hin) as [Hlen _].
  destruct (store_bytes_mapped (cluster (disk st) (entry_cluster (row t i))) (buf request) (umem st))
    as (m & Hst & Hstored); [by rewrite Hlen |].
  destruct (read_directory_found Hcap st request i m) as (st' & Hrun & Hom); try done.
  exists st', m, i. done.
Qed.
End ReadTheorems.
