(* ===== verification/FatDelete.v ===== *)
(** FatDelete: what [delete] does to the disk, the allocation table and the
    parent directory, on every branch. *)

From Stdlib Require Import ZArith Lia.
From stdpp Require Import base tactics numbers list.
From S2P Require Import Prelude Memory CString Disk FatLayout Fat32 FatLogic FatChain FatWrite FatRead.

(** The bytes [delete] leaves in a freed cluster. *)
Definition zero_cluster : list Z := zrep CLUSTER_SIZE 0.
Lemma zero_cluster_ok : cluster_data_ok zero_cluster.
Proof. split; [done |]. by apply Forall_zrep. Qed.

(** The last cluster of a chain. *)
Definition chain_end (prev : Z) (cs : list Z) : Z := foldl (fun _ c => c) prev cs.
Lemma chain_end_elem cs : forall prev, chain_end prev cs ∈ prev :: cs.
Proof.
  unfold chain_end. induction cs as [| c cs IH]; intros prev; cbn; [left |].
  right. apply IH.
Qed.

Section Delete.
Context {D M : Type} `{BlockDeviceSpec D} `{ByteMemLaws M}.
Context (Hcap : CLUSTER_BLOCK_COUNT * CLUSTER_MAP_SIZE <= dev_blocks).
Implicit Types (a : Abs M) (st : FS D M).

(** The loop frees and zeroes the whole chain. *)
Lemma awp_free_chain fat c cs : chain fat c cs ->
  forall fuel prev j a (Q : Z -> Abs M -> Prop),
  (forall d, d ∈ cs -> (a_fat a).[d] = fat.[d]) -> fat_ok (a_fat a) ->
  (length cs <= fuel)%nat ->
  Q (chain_end prev cs)
    (a_set_cl (write_parts (fun _ => zero_cluster) (a_cl a) cs j)
      (a_set_fat (free_all (a_fat a) cs) a)) ->
  awp a (free_chain fuel prev c) Q.
Proof.
  intros Hchain. pose proof (chain_NoDup _ _ _ Hchain) as Hnd. revert Hnd.
  induction Hchain as [c Hl | c d cs Hl Hd Hc IH];
    intros Hnd fuel prev j a Q Heq Hf Hfuel HQ;
    (destruct fuel as [| fuel]; [cbn in Hfuel; lia |]); cbn [free_chain];
    assert (Hv : (a_fat a).[c] = fat.[c]) by (apply Heq; left);
    (assert (Hin : in_fat c)
       by (pose proof (zget_range _ _ _ (eq_trans Hv Hl)); destruct Hf; unfold in_fat; lia));
    (assert (c <> FAT32_FAT_END_OF_FILE)
       by (unfold in_fat, CLUSTER_MAP_SIZE, FAT32_FAT_END_OF_FILE in *; lia));
    rewrite (proj2 (Z.eqb_neq _ _)) by done.
  - apply awp_bind, (awp_map_get c FAT32_FAT_END_OF_FILE); [by rewrite Hv | done |].
    apply awp_bind, awp_map_put; [done |].
    apply awp_bind, (awp_write_clusters Hcap); [done | apply zero_cluster_ok |].
    destruct fuel; cbn [free_chain]; apply awp_ret; exact HQ.
  - apply awp_bind, (awp_map_get c d); [by rewrite Hv | done |].
    apply awp_bind, awp_map_put; [done |].
    apply awp_bind, (awp_write_clusters Hcap); [done | apply zero_cluster_ok |].
    apply NoDup_cons in Hnd as [Hn Hnd].
    apply (IH Hnd _ _ (j + 1)); cbn [a_fat a_set_fat a_set_cl]; [| | cbn in Hfuel; lia | exact HQ].
    + intros e He. rewrite zget_zset_ne by (by intros ->). apply Heq. by right.
    + destruct Hf as [Hlen Hw]. split; [by rewrite zlen_zset | by apply Forall_zset].
Qed.

(** ** Files *)

(** A request that names a file of the parent, whose clusters are [cs]. *)
Record FileAt st (request : FAT32DriverRequest) (i : Z) (cs : list Z) : Prop := {
  fa_inv : FSInv st;
  fa_parent : in_fat (parent_cluster_number request);
  fa_parent_ne : parent_cluster_number request <> FAT_CLUSTER_NUMBER;
  fa_directory : is_directory_table (dir_table st (parent_cluster_number request)) = true;
  fa_row : find_entry 2 (dir_table st (parent_cluster_number request)) request = Some i;
  fa_file : attribute (row (dir_table st (parent_cluster_number request)) i) <> ATTR_SUBDIRECTORY;
  fa_chain :
    chain (fat_of st) (entry_cluster (row (dir_table st (parent_cluster_number request)) i)) cs;
  fa_above : Forall (fun c => ROOT_CLUSTER_NUMBER < c) cs;
  fa_separate : parent_cluster_number request ∉ cs
}.

Record FileDeleted st (request : FAT32DriverRequest) (i : Z) (cs : list Z) st' : Prop := {
  fd_inv : FSInv st';
  fd_fat : fat_of st' = free_all (fat_of st) cs;
  fd_dir : dir_table st' (parent_cluster_number request) =
    (dir_table st (parent_cluster_number request)).[i := empty_entry];
  fd_zero : forall c, c ∈ cs -> cluster (disk st') c = zero_cluster;
  fd_frame : forall c, in_fat c -> c <> FAT_CLUSTER_NUMBER ->
    c <> parent_cluster_number request -> c ∉ cs ->
    cluster (disk st') c = cluster (disk st) c;
  fd_memory : umem st' = umem st;
  fd_stray : stray st' = (FAT32_FAT_END_OF_FILE, FAT32_FAT_EMPTY_ENTRY) :: stray st
}.

Lemma empty_entry_ok : entry_ok empty_entry.
Proof. destruct zero_table_ok as [_ Hz]. exact (Forall_inv Hz). Qed.

Lemma awp_delete_start st request i (Q : Z -> Abs M -> Prop) :
  let t := dir_table st (parent_cluster_number request) in
  in_fat (parent_cluster_number request) -> is_directory_table t = true ->
  find_entry 2 t request = Some i ->
  awp (a_set_tab t (view st))
    (if attribute (row t i) =? ATTR_SUBDIRECTORY
     then delete_folder request i (entry_cluster (row t i))
     else delete_file request i (entry_cluster (row t i))) Q ->
  awp (view st) (delete request) Q.
Proof.
  intros t Hp Hdir Hfind HQ. apply awp_bind, (awp_load_table Hcap); [done |].
  apply awp_bind, awp_get_table. cbn [a_tab a_set_tab a_cl view].
  change (decode_table (cluster (disk st) (parent_cluster_number request))) with t.
  by rewrite Hdir, Hfind.
Qed.

Lemma awp_delete_file request i c cs a (Q : Z -> Abs M -> Prop) :
  let tab' := (a_tab a).[i := empty_entry] in
  let fat' := free_all (a_fat a) cs in
  in_fat (parent_cluster_number request) -> fat_ok (a_fat a) -> table_ok (a_tab a) ->
  chain (a_fat a) c cs ->
  Q 0 (a_log FAT32_FAT_END_OF_FILE FAT32_FAT_EMPTY_ENTRY
        (a_set_cl (upd (upd (write_parts (fun _ => zero_cluster)
                         (upd (a_cl a) (parent_cluster_number request) (encode_table tab')) cs 0)
                       FAT_CLUSTER_NUMBER (encode_words fat')) (chain_end c cs) zero_cluster)
          (a_set_tab tab' (a_set_fat fat' a)))) ->
  awp a (delete_file request i c) Q.
Proof.
  intros tab' fat' Hp Hf Ht Hch HQ. unfold delete_file.
  assert (Hend : in_fat (chain_end c cs)).
  { apply (chain_in_fat _ _ _ _ Hf Hch). pose proof (chain_end_elem cs c) as Hel.
    apply elem_of_cons in Hel as [-> | Hel]; [by apply (chain_head (a_fat a)) | done]. }
  assert (Hcin : in_fat c) by (apply (chain_in_fat _ _ _ _ Hf Hch), (chain_head _ _ _ Hch)).
  apply awp_bind, awp_get_table, awp_bind, awp_put_table.
  apply awp_bind, (awp_flush_table Hcap); [done | apply table_ok_set; [done | apply empty_entry_ok] |].
  destruct (zget_is_Some (a_fat a) c) as [v Hv]; [destruct Hf; unfold in_fat in *; lia |].
  apply awp_bind, (awp_map_get c v); [done | done |].
  apply awp_bind, awp_map_put; [done |].
  apply awp_bind, (awp_write_clusters Hcap); [done | apply zero_cluster_ok |].
  apply awp_bind. cbn [a_tab a_set_tab a_cl a_set_cl a_fat a_set_fat].
  assert (Hfl : forall b (Q : unit -> Abs M -> Prop), fat_ok (a_fat b) ->
            Q tt (a_set_cl (upd (a_cl b) FAT_CLUSTER_NUMBER (encode_words (a_fat b))) b) ->
            awp b flush_fat Q) by (intros; by apply (awp_flush_fat Hcap)).
  assert (Hfin : forall b r, a_fat b = fat' -> in_fat r ->
    Q 0 (a_log FAT32_FAT_END_OF_FILE FAT32_FAT_EMPTY_ENTRY
          (a_set_cl (upd (upd (a_cl b) FAT_CLUSTER_NUMBER (encode_words fat')) r zero_cluster) b)) ->
    awp b (bind (map_put FAT32_FAT_END_OF_FILE FAT32_FAT_EMPTY_ENTRY) (fun _ =>
           bind flush_fat (fun _ => bind (write_clusters (zrep CLUSTER_SIZE 0) r 1) (fun _ => ret 0)))) Q).
  { intros b r Hbf Hr HQ'. apply awp_bind, awp_map_put_stray; [done |].
    apply awp_bind, Hfl; cbn [a_fat a_log]; [rewrite Hbf; by apply free_all_ok |].
    apply awp_bind, (awp_write_clusters Hcap); [done | apply zero_cluster_ok |].
    apply awp_ret. rewrite Hbf. exact HQ'. }
  pose proof (chain_NoDup _ _ _ Hch) as Hnd.
  inversion Hch as [? Hl | ? d cs' Hl Hd Hc']; subst.
  - assert (v = FAT32_FAT_END_OF_FILE) as -> by congruence.
    unfold CHAIN_FUEL. destruct (Z.to_nat _); cbn [free_chain]; rewrite Z.eqb_refl; apply awp_ret;
      by apply Hfin.
  - assert (v = d) as -> by congruence. apply NoDup_cons in Hnd as [Hn Hnd].
    apply (awp_free_chain (a_fat a) d cs' Hc' _ _ 1); cbn [a_fat a_set_fat a_set_cl a_set_tab a_cl].
    + intros e He. apply zget_zset_ne. by intros ->.
    + destruct Hf as [Hlen Hw]. split; [by rewrite zlen_zset | by apply Forall_zset].
    + pose proof (chain_length _ _ _ Hf Hc'). unfold CHAIN_FUEL, DRIVER_STATE_WORDS, zlen in *.
      unfold CLUSTER_MAP_SIZE in *. lia.
    + by apply Hfin.
Qed.

Lemma zero_parts_in cl cs j c :
  NoDup cs -> c ∈ cs -> write_parts (fun _ => zero_cluster) cl cs j c = zero_cluster.
Proof.
  intros Hnd [k Hk]%elem_zget. by apply (write_parts_part (fun _ => zero_cluster) cs cl j k).
Qed.

Lemma free_all_reserved st cs c :
  FSInv st -> Forall (fun c => ROOT_CLUSTER_NUMBER < c) cs -> 0 <= c <= ROOT_CLUSTER_NUMBER ->
  (free_all (fat_of st) cs).[c] <> Some FAT32_FAT_EMPTY_ENTRY.
Proof.
  intros Hinv Hab Hc. rewrite free_all_frame; [by apply (inv_reserved _ Hinv) |].
  intros Hin. rewrite Forall_forall in Hab. specialize (Hab _ Hin). lia.
Qed.

Lemma delete_file_deleted st request i cs :
  FileAt st request i cs ->
  exists st', delete request st = Ok (0, st') /\ FileDeleted st request i cs st'.
Proof.
  intros [Hinv Hp Hp1 Hdir Hfind Hfile Hch Hab Hsep].
  set (p := parent_cluster_number request) in *. set (t := dir_table st p) in *.
  set (c := entry_cluster (row t i)) in *.
  assert (Ht : table_ok t) by (apply (dir_table_ok Hcap); [apply Hinv | done]).
  assert (Hf : fat_ok (fat_of st)) by apply Hinv.
  pose proof (chain_NoDup _ _ _ Hch) as Hnd.
  assert (Hall : forall d, d ∈ cs -> in_fat d /\ ROOT_CLUSTER_NUMBER < d).
  { intros d Hd. split; [by apply (chain_in_fat _ _ _ _ Hf Hch) |].
    rewrite Forall_forall in Hab. by apply Hab. }
  assert (Hend : chain_end c cs ∈ cs).
  { pose proof (chain_end_elem cs c) as Hel.
    apply elem_of_cons in Hel as [-> | Hel]; [by apply (chain_head (fat_of st)) | done]. }
  assert (Hne_end : forall d, d ∉ cs -> d <> chain_end c cs) by (intros d Hd ->; done).
  assert (Hfc : FAT_CLUSTER_NUMBER ∉ cs).
  { intros Hd%Hall. unfold FAT_CLUSTER_NUMBER, ROOT_CLUSTER_NUMBER in Hd. lia. }
  edestruct (awp_run st (view st) (delete request) 0) as (st' & Hrun & Hr).
  { apply repr_view, Hinv. }
  { apply (awp_delete_start st request i); try done. fold p t c.
    rewrite (proj2 (Z.eqb_neq _ _) Hfile). by apply (awp_delete_file request i c cs). }
  exists st'. split; [done |]. cbn [a_log a_set_cl a_set_tab a_set_fat a_cl a_fat a_tab a_mem a_stray view] in Hr.
  assert (Hcl : forall d, d ∈ cs -> cluster (disk st') d = zero_cluster).
  { intros d Hd. destruct (Hall d Hd) as [Hdin Hdab]. rewrite (repr_cl _ _ Hr) by done. cbn [a_cl a_log a_set_cl].
    destruct (decide (d = chain_end c cs)) as [-> | Hne]; [by rewrite upd_eq |].
    rewrite !upd_ne by (done || (intros ->; done)). by apply zero_parts_in. }
  split; try done.
  - apply (repr_inv _ _ Hr); cbn [a_fat a_cl a_log a_set_cl]; [by apply free_all_ok | |].
    + rewrite upd_ne, upd_eq; [done | by apply Hne_end].
    + intros d Hd. by apply free_all_reserved.
  - by rewrite (repr_fat_of _ _ Hr).
  - apply (repr_dir_table _ _ _ _ Hr); [done | |].
    + apply table_ok_set; [done | apply empty_entry_ok].
    + cbn [a_cl a_log a_set_cl]. rewrite upd_ne by (by apply Hne_end). rewrite upd_ne by done.
      rewrite write_parts_other by done. apply upd_eq.
  - intros d Hd H1' H2' H3'. rewrite (repr_cl _ _ Hr) by done. cbn [a_cl a_log a_set_cl].
    rewrite upd_ne by (by apply Hne_end). rewrite upd_ne by done.
    rewrite write_parts_other by done. by apply upd_ne.
  - apply (repr_mem _ _ Hr).
  - apply (repr_stray _ _ Hr).
Qed.

(** ** Directories *)

(** A request that names a directory of the parent, stored in the cluster [c]. *)
Record FolderAt st (request : FAT32DriverRequest) (i c : Z) : Prop := {
  la_inv : FSInv st;
  la_parent : in_fat (parent_cluster_number request);
  la_parent_ne : parent_cluster_number request <> FAT_CLUSTER_NUMBER;
  la_directory : is_directory_table (dir_table st (parent_cluster_number request)) = true;
  la_row : find_entry 2 (dir_table st (parent_cluster_number request)) request = Some i;
  la_folder : attribute (row (dir_table st (parent_cluster_number request)) i) = ATTR_SUBDIRECTORY;
  la_cluster : c = entry_cluster (row (dir_table st (parent_cluster_number request)) i);
  la_in : ROOT_CLUSTER_NUMBER < c < CLUSTER_MAP_SIZE;
  la_separate : parent_cluster_number request <> c
}.

(** The rows of a deleted directory: the first two lose their name and
    attributes. *)
Definition cleared_folder (t : list FAT32DirectoryEntry) : list FAT32DirectoryEntry :=
  t.[0 := clear_entry (row t 0)].[1 := clear_entry (row t 1)].

Record FolderDeleted st (request : FAT32DriverRequest) (i c : Z) st' : Prop := {
  ld_inv : FSInv st';
  ld_fat : fat_of st' = (fat_of st).[c := FAT32_FAT_EMPTY_ENTRY];
  ld_dir : dir_table st' (parent_cluster_number request) =
    (dir_table st (parent_cluster_number request)).[i :=
       clear_entry (row (dir_table st (parent_cluster_number request)) i)];
  ld_table : dir_table st' c = cleared_folder (dir_table st c);
  ld_frame : forall d, in_fat d -> d <> FAT_CLUSTER_NUMBER ->
    d <> parent_cluster_number request -> d <> c ->
    cluster (disk st') d = cluster (disk st) d;
  ld_memory : umem st' = umem st;
  ld_stray : stray st' = stray st
}.

Lemma clear_entry_ok e : entry_ok e -> entry_ok (clear_entry e).
Proof.
  destruct e. unfold entry_ok. cbn. intros (Hn & Hnb & He & Heb & Hf).
  split_and!; try done; [by apply Forall_zrep |].
  unfold entry_widths, entry_fields in *. cbn in *.
  inversion Hf as [| ? ? ? ? _ Hf1]; subst. inversion Hf1 as [| ? ? ? ? _ Hf2]; subst.
  by repeat (apply List.Forall2_cons; [done |]).
Qed.
Lemma row_ok t i : table_ok t -> entry_ok (row t i).
Proof.
  intros [_ Hall]. unfold row, znth. destruct t.[i] as [e |] eqn:He; cbn.
  - by apply (Forall_zget _ _ _ _ Hall He).
  - apply empty_entry_ok.
Qed.
Lemma cleared_folder_ok t : table_ok t -> table_ok (cleared_folder t).
Proof.
  intros Ht. apply table_ok_set; [apply table_ok_set; [done |] |];
    by apply clear_entry_ok, row_ok.
Qed.

Lemma delete_folder_deleted st request i c :
  FolderAt st request i c -> is_empty_folder (dir_table st c) = true ->
  exists st', delete request st = Ok (0, st') /\ FolderDeleted st request i c st'.
Proof.
  intros [Hinv Hp Hp1 Hdir Hfind Hfold -> Hin Hsep] Hempty.
  set (p := parent_cluster_number request) in *. set (t := dir_table st p) in *.
  set (c := entry_cluster (row t i)) in *.
  assert (Ht : table_ok t) by (apply (dir_table_ok Hcap); [apply Hinv | done]).
  assert (Hcin : in_fat c) by (unfold in_fat; unfold ROOT_CLUSTER_NUMBER in Hin; lia).
  assert (Hc1 : c <> FAT_CLUSTER_NUMBER)
    by (unfold ROOT_CLUSTER_NUMBER, FAT_CLUSTER_NUMBER in *; lia).
  assert (Htc : table_ok (dir_table st c)) by (apply (dir_table_ok Hcap); [apply Hinv | done]).
  assert (Hcc : table_ok (cleared_folder (dir_table st c))) by by apply cleared_folder_ok.
  assert (Ht' : table_ok t.[i := clear_entry (row t i)])
    by (apply table_ok_set; [done | by apply clear_entry_ok, row_ok]).
  assert (Hf : fat_ok (fat_of st).[c := FAT32_FAT_EMPTY_ENTRY]).
  { apply (free_all_ok [c]), Hinv. }
  edestruct (awp_run st (view st) (delete request) 0) as (st' & Hrun & Hr).
  { apply repr_view, Hinv. }
  { apply (awp_delete_start st request i); try done. fold p t c.
    rewrite Hfold, Z.eqb_refl. unfold delete_folder.
    apply awp_bind, (awp_read_clusters Hcap); [done |]. cbn [a_cl a_set_tab view].
    change (decode_table (cluster (disk st) c)) with (dir_table st c).
    rewrite Hempty. cbn [negb].
    apply awp_bind, awp_get_table, awp_bind, awp_put_table.
    apply awp_bind, (awp_flush_table Hcap); [done | done |].
    apply awp_bind, (awp_write_clusters Hcap); [done | split |].
    { by apply zlen_encode_table. } { by apply encode_table_bytes. }
    apply awp_bind, awp_map_put; [done |].
    by apply awp_bind, (awp_flush_fat Hcap), awp_ret. }
  exists st'. split; [done |].
  cbn [a_set_cl a_set_tab a_set_fat a_cl a_fat a_tab a_mem a_stray view] in Hr.
  split; try done.
  - apply (repr_inv _ _ Hr); cbn [a_fat a_cl a_set_cl a_set_tab a_set_fat view]; [done | by rewrite upd_eq |].
    intros d Hd. rewrite zget_zset_ne; [by apply (inv_reserved _ Hinv) | lia].
  - by rewrite (repr_fat_of _ _ Hr).
  - apply (repr_dir_table _ _ _ _ Hr); [done | done |].
    cbn. by rewrite upd_ne, upd_ne, upd_eq.
  - apply (repr_dir_table _ _ _ _ Hr); [done | done |].
    cbn. by rewrite upd_ne, upd_eq.
  - intros d Hd H1' H2' H3'. rewrite (repr_cl _ _ Hr) by done. cbn. by rewrite !upd_ne.
  - apply (repr_mem _ _ Hr).
  - apply (repr_stray _ _ Hr).
Qed.

(** ** Requests [delete] turns down *)
Definition delete_refusal st (request : FAT32DriverRequest) : option Z :=
  let t := dir_table st (parent_cluster_number request) in
  if negb (is_directory_table t) then Some (-1) else
  match find_entry 2 t request with
  | None => Some 1
  | Some i =>
    if (attribute (row t i) =? ATTR_SUBDIRECTORY) &&
       negb (is_empty_folder (dir_table st (entry_cluster (row t i)))) then Some 2
    else None
  end.

Lemma delete_refused st request r :
  dev_ok (disk st) -> in_fat (parent_cluster_number request) ->
  (r = 2 -> forall i, find_entry 2 (dir_table st (parent_cluster_number request)) request = Some i ->
     in_fat (entry_cluster (row (dir_table st (parent_cluster_number request)) i))) ->
  delete_refusal st request = Some r ->
  exists st', delete request st = Ok (r, st') /\ Unchanged st st'.
Proof.
  intros Hd Hp Hin Hr. unfold delete_refusal in Hr.
  destruct (awp_run st (view st) (delete request) r
              (a_set_tab (dir_table st (parent_cluster_number request)) (view st)))
    as (st' & Hrun & Hrep); [by apply repr_view | | eauto using repr_unchanged].
  apply awp_bind, (awp_load_table Hcap); [done |].
  apply awp_bind, awp_get_table. cbn [a_tab a_set_tab a_cl view].
  change (decode_table (cluster (disk st) (parent_cluster_number request)))
    with (dir_table st (parent_cluster_number request)).
  set (t := dir_table st (parent_cluster_number request)) in *.
  destruct (negb (is_directory_table t)); [by apply awp_ret; injection Hr as <- |].
  destruct (find_entry 2 t request) as [i |]; [| by apply awp_ret; injection Hr as <-].
  destruct (attribute (row t i) =? ATTR_SUBDIRECTORY); cbn [andb] in Hr; [| done].
  destruct (is_empty_folder (dir_table st (entry_cluster (row t i)))) eqn:He; cbn [negb] in Hr; [done |].
  injection Hr as <-. unfold delete_folder.
  apply awp_bind, (awp_read_clusters Hcap); [by apply Hin |]. cbn [a_cl a_set_tab view].
  change (decode_table (cluster (disk st) (entry_cluster (row t i))))
    with (dir_table st (entry_cluster (row t i))).
  rewrite He. by apply awp_ret.
Qed.
End Delete.

Section DeleteTheorems.
Context {D M : Type} `{BlockDeviceSpec D} `{ByteMemLaws M}.
Context (Hcap : CLUSTER_BLOCK_COUNT * CLUSTER_MAP_SIZE <= dev_blocks).
Implicit Types (st : FS D M).

(** C14. Deleting a file: [delete] returns 0, frees exactly the clusters of the
    file's chain, zeroes them, clears the row of its parent and touches no other
    cluster. It also stores a 0 through [cluster_map[0x0FFFFFFF]], a word far
    outside the driver's state. *)
Theorem delete_file_spec st request i cs (Hfile : FileAt st request i cs) :
  exists st', delete request st = Ok (0, st') /\ FileDeleted st request i cs st' /\
    Forall (is_free (fat_of st')) cs.
Proof.
  destruct (delete_file_deleted Hcap st request i cs Hfile) as (st' & Hrun & Hdel).
  exists st'. split_and!; [done | done |]. rewrite (fd_fat _ _ _ _ _ Hdel).
  destruct Hfile as [Hinv _ _ _ _ _ Hch _ _].
  apply Forall_forall. intros c Hc. apply free_all_free; [done |].
  destruct (inv_fat _ Hinv) as [-> _]. exact (chain_in_fat _ _ _ _ (inv_fat _ Hinv) Hch Hc).
Qed.

(** Deleting an empty directory frees its cluster, clears the names and the
    attributes of its row in the parent and of its own first two rows, and
    touches no other cluster. *)
Theorem delete_folder_spec st request i c
    (Hfolder : FolderAt st request i c) (Hempty : is_empty_folder (dir_table st c) = true) :
  exists st', delete request st = Ok (0, st') /\ FolderDeleted st request i c st'.
Proof. exact (delete_folder_deleted Hcap st request i c Hfolder Hempty). Qed.

(** A request [delete] turns down (-1: the parent is no directory, 1: no such
    name, 2: a directory with entries) changes no cluster, no allocation table
    and no memory. *)
Theorem delete_refused_spec st request r
    (Hdev : dev_ok (disk st)) (Hp : in_fat (parent_cluster_number request))
    (Hin : r = 2 -> forall i,
       find_entry 2 (dir_table st (parent_cluster_number request)) request = Some i ->
       in_fat (entry_cluster (row (dir_table st (parent_cluster_number request)) i)))
    (Hr : delete_refusal st request = Some r) :
  exists st', delete request st = Ok (r, st') /\ Unchanged st st'.
Proof. exact (delete_refused Hcap st request r Hdev Hp Hin Hr). Qed.

(** A file that was just written is one [delete] finds. *)
Lemma written_file_at st request entry_row cs data st1 :
  WriteReady st request entry_row -> FileWritten st request entry_row cs data st1 ->
  chain (fat_of st1) (znth 0 cs 0) cs -> Forall (is_free (fat_of st)) cs ->
  FileAt st1 request entry_row cs.
Proof.
  intros [Hinv Hro Hp Hp1 Hpu Hdir Hrow Hnew] [Hinv1 Hfat Hdir1 _ _ _ _] Hch Hfree.
  pose proof (dir_table_ok Hcap st _ (inv_dev _ Hinv) Hp) as Ht.
  pose proof Hrow as Hrow'. unfold find_free_row in Hrow'.
  apply for_find_Some in Hrow' as (Hrow2 & _ & _). rewrite Forall_forall in Hfree.
  assert (Hrow_e : row (dir_table st1 (parent_cluster_number request)) entry_row =
                   file_entry request (znth 0 cs 0)).
  { rewrite Hdir1. apply row_zset_eq. destruct Ht as [-> _]. unfold DIR_ENTRIES. lia. }
  split; try done.
  - rewrite Hdir1. unfold is_directory_table in *. by rewrite !row_zset_ne by lia.
  - rewrite Hdir1. apply find_entry_new; done || lia || apply Ht.
  - by rewrite Hrow_e.
  - rewrite Hrow_e. unfold file_entry. rewrite entry_cluster_dir_entry; [done |].
    apply (chain_in_fat _ _ _ _ (inv_fat _ Hinv1) Hch), (chain_head _ _ _ Hch).
  - apply Forall_forall. intros c Hc.
    pose proof (chain_in_fat _ _ _ _ (inv_fat _ Hinv1) Hch Hc) as Hcin. unfold in_fat in Hcin.
    apply Z.lt_nge. intros Hle. by apply (inv_reserved _ Hinv c); [lia | apply Hfree].
  - intros Hc. by apply Hpu, Hfree.
Qed.

(** C15. [delete] undoes [write]: deleting the file that was just written gives
    the allocation table back word for word, in memory and on the disk, empties
    the row the file had, zeroes the clusters it had and leaves every other
    cluster as it was before the write. *)
Theorem delete_undoes_write st request entry_row data cs
    (Hready : WriteReady st request entry_row) (Hsize : 0 < buffer_size request)
    (Hdata : source_ok (buffer_size request) data) (Hmem : holds (umem st) (buf request) data)
    (Hcs : cs = take (Z.to_nat (clusters_for (buffer_size request))) (free_clusters (fat_of st)))
    (Hspace : zlen cs = clusters_for (buffer_size request)) :
  exists st1 st2, write request st = Ok (0, st1) /\ delete request st1 = Ok (0, st2) /\
    fat_of st2 = fat_of st /\
    cluster (disk st2) FAT_CLUSTER_NUMBER = cluster (disk st) FAT_CLUSTER_NUMBER /\
    dir_table st2 (parent_cluster_number request) =
      (dir_table st (parent_cluster_number request)).[entry_row := empty_entry] /\
    (forall c, c ∈ cs -> cluster (disk st2) c = zero_cluster) /\
    (forall c, in_fat c -> c <> parent_cluster_number request -> c ∉ cs ->
       cluster (disk st2) c = cluster (disk st) c).
Proof.
  destruct (write_file_written Hcap st request entry_row data cs)
    as (st1 & Hw & Hfw & Hch); try done.
  pose proof (wr_inv _ _ _ Hready) as Hinv.
  destruct (taken_clusters st (Z.to_nat (clusters_for (buffer_size request))) Hinv)
    as (Hfree & _). rewrite <- Hcs in Hfree.
  destruct (delete_file_deleted Hcap st1 request entry_row cs) as (st2 & Hd & Hfd);
    [by eapply written_file_at |].
  destruct Hfw as [Hinv1 Hfat1 Hdir1 _ Hframe1 _ _].
  destruct Hfd as [Hinv2 Hfat2 Hdir2 Hzero Hframe2 _ _].
  assert (Hfat : fat_of st2 = fat_of st).
  { rewrite Hfat2, Hfat1. apply free_all_allocate; [apply Hinv | done]. }
  assert (Hcl1 : cluster (disk st2) FAT_CLUSTER_NUMBER = cluster (disk st) FAT_CLUSTER_NUMBER)
    by by rewrite (inv_coherent _ Hinv2), (inv_coherent _ Hinv), Hfat.
  exists st1, st2. split_and!; try done.
  - by rewrite Hdir2, Hdir1, zset_zset.
  - intros c Hc Hcp Hcs'. destruct (decide (c = FAT_CLUSTER_NUMBER)) as [-> |]; [done |].
    by rewrite Hframe2, Hframe1.
Qed.
End DeleteTheorems.
