(* ===== verification/FatInit.v ===== *)
(** FatInit: formatting an empty device and mounting a formatted one. *)

From Stdlib Require Import ZArith Lia.
From stdpp Require Import base tactics numbers strings list.
From S2P Require Import Prelude Memory CString Disk FatLayout Fat32 FatLogic FatChain FatWrite FatRead.

Section Init.
Context {D M : Type} `{BlockDeviceSpec D} `{ByteMem M}.
Context (Hcap : CLUSTER_BLOCK_COUNT * CLUSTER_MAP_SIZE <= dev_blocks).
Implicit Types (a : Abs M) (st : FS D M).

Lemma fs_signature_ok : zlen fs_signature = BLOCK_SIZE /\ all_bytes fs_signature.
Proof.
  split; [done |]. apply (bool_decide_eq_true_1 (Forall (fun b => 0 <= b < 256) fs_signature)).
  by vm_compute.
Qed.

(** The boot sector carries the signature of a formatted device. *)
Definition has_signature st : Prop := ztake BLOCK_SIZE (cluster (disk st) 0) = fs_signature.

(** A signed boot sector is not a directory. *)
Lemma signature_no_directory st :
  has_signature st -> is_directory_table (dir_table st 0) = false.
Proof.
  unfold has_signature, dir_table. intros Hs. rewrite <- (ztake_zdrop BLOCK_SIZE (cluster (disk st) 0)), Hs.
  generalize (zdrop BLOCK_SIZE (cluster (disk st) 0)). intros l. reflexivity.
Qed.

(** Cluster 0 after its first block was replaced by the signature. *)
Definition signed_cluster (bs : list Z) : list Z := fs_signature ++ zdrop BLOCK_SIZE bs.

Lemma awp_write_signature a (Q : unit -> Abs M -> Prop) :
  Q tt (a_set_cl (upd (a_cl a) 0 (signed_cluster (a_cl a 0))) a) ->
  awp a (write_device fs_signature BOOT_SECTOR 1) Q.
Proof.
  intros HQ st [Hd Hcl Hdrv Hm Hs]. unfold wp, write_device.
  destruct fs_signature_ok as [Hlen Hby].
  pose proof (cluster_block_range Hcap 0 0 ltac:(done) ltac:(lia)).
  destruct (write_blocks_ok (disk st) fs_signature BOOT_SECTOR 1 Hd)
    as (d' & -> & Hd' & Hb); [done | lia | unfold BOOT_SECTOR; lia | by rewrite Hlen | done |].
  eexists. split; [| exact HQ]. split; cbn; try done. intros c Hc.
  destruct (decide (c = 0)) as [-> | Hne].
  - rewrite upd_eq, <- Hcl by done. unfold signed_cluster. rewrite !cluster_blocks.
    change (4 * 0) with 0.
    pose proof (cluster_block_range Hcap 0 3 ltac:(done) ltac:(lia)).
    rewrite !Hb by lia. unfold BOOT_SECTOR.
    rewrite decide_True, !decide_False by lia.
    destruct (block_bytes (disk st) 0 Hd ltac:(lia)) as [Hl0 _].
    rewrite zdrop_app_eq by done. by rewrite zslice_all.
  - rewrite upd_ne by done. rewrite <- Hcl by done. unfold in_fat in Hc.
    rewrite !cluster_blocks.
    pose proof (cluster_block_range Hcap c 0 Hc ltac:(lia)).
    pose proof (cluster_block_range Hcap c 3 Hc ltac:(lia)).
    rewrite !Hb by lia. unfold BOOT_SECTOR. by rewrite !decide_False by lia.
Qed.

Lemma awp_is_empty_storage a (Q : bool -> Abs M -> Prop) :
  (forall b, (b = false <-> ztake BLOCK_SIZE (a_cl a 0) = fs_signature) -> Q b a) ->
  awp a is_empty_storage Q.
Proof.
  intros HQ. apply (awp_ok Hcap). intros Hok.
  apply awp_bind, (awp_read_clusters Hcap); [done |].
  destruct (Hok 0 ltac:(done)) as [Hlen _]. destruct fs_signature_ok as [Hsl _].
  pose proof (mem_eq_true BLOCK_SIZE (a_cl a 0) fs_signature ltac:(done)
                ltac:(by rewrite Hlen) ltac:(by rewrite Hsl)) as Heq.
  rewrite (ztake_all _ fs_signature) in Heq by (by rewrite Hsl).
  unfold mem_eq in Heq.
  destruct (memcmp_loop_zero (Z.to_nat BLOCK_SIZE) 0 (a_cl a 0) fs_signature)
    as (r & Hr & _); [done | by rewrite Hlen | by rewrite Hsl |].
  fold (memcmp (array_ptr (a_cl a 0)) (array_ptr fs_signature) BLOCK_SIZE) in Hr.
  rewrite Hr in Heq. apply awp_bind. intros st Hst. unfold wp, of_res.
  unfold BOOT_SECTOR. rewrite Hr. exists a. split; [done |].
  apply awp_ret, HQ. rewrite <- Heq. by destruct (r =? 0).
Qed.

Lemma new_fat_ok : fat_ok new_fat_table.
Proof.
  split; [done |].
  apply (bool_decide_eq_true_1 (Forall (fun w => 0 <= w < 4294967296) new_fat_table)).
  by vm_compute.
Qed.
Lemma new_root_ok : table_ok new_root_dir.
Proof.
  assert (Hnm : zlen (str "root" ++ zrep 4 0) = 8 /\ all_bytes (str "root" ++ zrep 4 0)).
  { split; [done |]. repeat (apply List.Forall_cons; [done |]). apply List.Forall_nil. }
  destruct Hnm as [Hl Hb]. destruct dot_dot_ok as [Hdl Hdb].
  unfold new_root_dir, init_directory_table.
  apply table_ok_set; [apply table_ok_set; [apply zero_table_ok |] |];
    apply dir_entry_ok; try done; by apply Forall_zrep.
Qed.

(** What formatting leaves: the signature, a table in which only the first
    three clusters are taken, and the root directory. *)
Record Formatted st st' : Prop := {
  fm_inv : FSInv st';
  fm_signature : has_signature st';
  fm_fat : fat_of st' = new_fat_table;
  fm_root : dir_table st' ROOT_CLUSTER_NUMBER = new_root_dir;
  fm_boot : zdrop BLOCK_SIZE (cluster (disk st') 0) = zdrop BLOCK_SIZE (cluster (disk st) 0);
  fm_frame : forall c, ROOT_CLUSTER_NUMBER < c < CLUSTER_MAP_SIZE ->
    cluster (disk st') c = cluster (disk st) c;
  fm_memory : umem st' = umem st;
  fm_stray : stray st' = stray st
}.

Lemma new_fat_reserved c :
  0 <= c <= ROOT_CLUSTER_NUMBER -> new_fat_table.[c] <> Some FAT32_FAT_EMPTY_ENTRY.
Proof.
  intros Hc. assert (c = 0 \/ c = 1 \/ c = 2) as [-> | [-> | ->]]
    by (unfold ROOT_CLUSTER_NUMBER in Hc; lia); done.
Qed.

Lemma awp_create_fat32 a (Q : unit -> Abs M -> Prop) :
  Q tt (mkAbs (upd (upd (upd (a_cl a) 0 (signed_cluster (a_cl a 0)))
                 FAT_CLUSTER_NUMBER (encode_words new_fat_table))
                 ROOT_CLUSTER_NUMBER (encode_table new_root_dir))
          new_fat_table new_root_dir (a_cbuf a) (a_mem a) (a_stray a)) ->
  awp a create_fat32 Q.
Proof.
  intros HQ. apply awp_bind, awp_write_signature.
  apply awp_bind, (awp_write_clusters Hcap); [done | |].
  { split; [apply zlen_encode_words, new_fat_ok | apply encode_words_bytes]. }
  apply awp_bind, (awp_write_clusters Hcap); [done | |].
  { split; [apply zlen_encode_table, new_root_ok | apply encode_table_bytes, new_root_ok]. }
  intros st [Hd Hcl Hdrv Hm Hs]. apply wp_modify. eexists. split; [| exact HQ].
  split; cbn; try done. by rewrite Hdrv.
Qed.

Lemma format_ok st :
  dev_ok (disk st) -> ~ has_signature st ->
  exists st', initialize_filesystem_fat32 st = Ok (tt, st') /\ Formatted st st'.
Proof.
  intros Hd Hns.
  edestruct (awp_run st (view st) initialize_filesystem_fat32 tt) as (st' & Hrun & Hr).
  { by apply repr_view. }
  { apply awp_bind, awp_is_empty_storage. intros [] Hb; [by apply awp_create_fat32 |].
    by apply proj1 in Hb; specialize (Hb eq_refl). }
  exists st'. split; [done |]. cbn [view a_cl] in Hr.
  assert (H0cl : cluster (disk st') 0 = signed_cluster (cluster (disk st) 0))
    by by rewrite (repr_cl _ _ Hr).
  destruct fs_signature_ok as [Hsl _]. split; try apply Hr.
  - apply (repr_inv _ _ Hr); cbn [a_fat a_cl]; [apply new_fat_ok | done | apply new_fat_reserved].
  - unfold has_signature. rewrite H0cl. by apply ztake_app_eq.
  - by rewrite (repr_fat_of _ _ Hr).
  - apply (repr_dir_table _ _ _ _ Hr); [done | apply new_root_ok | done].
  - rewrite H0cl. by apply zdrop_app_eq.
  - intros c Hc. unfold ROOT_CLUSTER_NUMBER in Hc.
    rewrite (repr_cl _ _ Hr) by (unfold in_fat; lia). cbn [a_cl].
    unfold FAT_CLUSTER_NUMBER, ROOT_CLUSTER_NUMBER. by rewrite !upd_ne by lia.
Qed.

Lemma mount_ok st :
  dev_ok (disk st) -> has_signature st ->
  (forall c, 0 <= c <= ROOT_CLUSTER_NUMBER ->
     (stored_fat st).[c] <> Some FAT32_FAT_EMPTY_ENTRY) ->
  exists st', initialize_filesystem_fat32 st = Ok (tt, st') /\ FSInv st' /\
    fat_of st' = stored_fat st /\
    (forall c, in_fat c -> cluster (disk st') c = cluster (disk st) c) /\
    umem st' = umem st /\ stray st' = stray st.
Proof.
  intros Hd Hs Hres.
  edestruct (awp_run st (view st) initialize_filesystem_fat32 tt) as (st' & Hrun & Hr).
  { by apply repr_view. }
  { apply awp_bind, awp_is_empty_storage. intros [] Hb; [by apply proj2 in Hb; specialize (Hb Hs) |].
    by apply (awp_load_fat Hcap). }
  exists st'. split; [done |]. pose proof (stored_fat_ok Hcap st Hd) as Hf.
  split_and!; try apply Hr.
  - apply (repr_inv _ _ Hr); cbn [a_fat a_cl a_set_fat view]; [done | | done].
    destruct (cluster_ok Hcap (disk st) FAT_CLUSTER_NUMBER Hd); [done |].
    symmetry. by apply encode_decode_words.
  - by rewrite (repr_fat_of _ _ Hr).
Qed.

(** A state after a restart: the driver state and the memory are new, the disk
    is the same. *)
Definition restart (s : FAT32DriverState) (m : M) st : FS D M := mkFS (disk st) s m [].

(** C16. A device without the signature is formatted: afterwards the invariant
    holds, the signature is on the boot sector, the table has its first three
    clusters taken and the other 509 free, the root directory is empty and every
    data cluster is untouched. After a restart the formatted device is mounted
    and not formatted again: no cluster changes and the table is the same. *)
Theorem format_then_mount st (Hd : dev_ok (disk st)) (Hns : ~ has_signature st) :
  exists st1, initialize_filesystem_fat32 st = Ok (tt, st1) /\ Formatted st st1 /\
    free_clusters (fat_of st1) = seqZ 3 509 /\
    forall s m, exists st2,
      initialize_filesystem_fat32 (restart s m st1) = Ok (tt, st2) /\ FSInv st2 /\
      fat_of st2 = fat_of st1 /\
      (forall c, in_fat c -> cluster (disk st2) c = cluster (disk st1) c).
Proof.
  destruct (format_ok st Hd Hns) as (st1 & Hrun & Hfm).
  exists st1. split_and!; [done | done | by rewrite (fm_fat _ _ Hfm) |].
  intros s m. pose proof (stored_fat_coherent _ (fm_inv _ _ Hfm)) as Hsf.
  destruct (mount_ok (restart s m st1)) as (st2 & Hrun2 & Hinv2 & Hfat2 & Hcl2 & _).
  - apply (inv_dev _ (fm_inv _ _ Hfm)).
  - apply (fm_signature _ _ Hfm).
  - change (stored_fat (restart s m st1)) with (stored_fat st1). rewrite Hsf.
    apply (inv_reserved _ (fm_inv _ _ Hfm)).
  - exists st2. split_and!; try done. by rewrite Hfat2, <- Hsf.
Qed.
End Init.
