(* ===== verification/FatVolume.v ===== *)
(** FatVolume: a directory of the file system as a finite map from names to
    nodes. The map's operations are the specification; [read], [write] and
    [delete] on the disk implement them. *)

From Stdlib Require Import ZArith Lia.
From stdpp Require Import base tactics numbers strings list gmap fin_maps fin_map_dom.
From S2P Require Import Prelude Memory CString Disk FatLayout Fat32 FatLogic FatChain FatWrite.
From S2P Require Import FatRead FatDelete FatInit.
#[local] Open Scope eff_scope.

(** ** The specification *)

Definition Name : Type := list Z * list Z.

(** A file has its size and the bytes of its clusters; of a directory only
    whether it has no entries is kept. *)
Inductive Node : Type :=
| File (size : Z) (bytes : list Z)
| Folder (empty : bool).

(** [vol_shadow]: the names a search meets before the entries, those of the
    directory itself and of its parent. [vol_space]: how many clusters are free. *)
Record Volume := mkVolume {
  vol_nodes : gmap Name Node;
  vol_shadow : list Name;
  vol_space : Z
}.

(** The rows a directory has for entries. *)
Definition VOLUME_ROWS : Z := DIR_ENTRIES - 2.

Inductive Call : Type :=
| CallWrite (request : FAT32DriverRequest) (data : list Z)
| CallRead (request : FAT32DriverRequest)
| CallDelete (request : FAT32DriverRequest).

Definition request_key (request : FAT32DriverRequest) : Name := (req_name request, req_ext request).
Definition call_request (c : Call) : FAT32DriverRequest :=
  match c with
  | CallWrite request _ | CallRead request | CallDelete request => request
  end.

(** A file's clusters: its bytes, padded with zeros - except that the last
    cluster of a file of several whole clusters is all zeros. *)
Definition file_bytes (size : Z) (data : list Z) : list Z :=
  enc_all (file_part size data) (seqZ 0 (clusters_for size)).

Definition node_clusters (n : Node) : Z :=
  match n with
  | File _ bytes => zlen bytes / CLUSTER_SIZE
  | Folder _ => 1
  end.
Definition new_node (request : FAT32DriverRequest) (data : list Z) : Node :=
  if buffer_size request =? 0 then Folder true
  else File (buffer_size request) (file_bytes (buffer_size request) data).

(** The code that is returned, the volume after, and what is put at [buf]. *)
Definition vol_step (v : Volume) (c : Call) : Z * Volume * option (list Z) :=
  let nodes := vol_nodes v in
  let k := request_key (call_request c) in
  match c with
  | CallWrite request data =>
    if decide (VOLUME_ROWS <= Z.of_nat (size nodes)) then (-1, v, None) else
    match nodes !! k with
    | Some _ => (1, v, None)
    | None =>
      let n := new_node request data in
      (0, mkVolume (<[k := n]> nodes) (vol_shadow v)
            (vol_space v - (if buffer_size request =? 0 then 1 else clusters_for (buffer_size request))), None)
    end
  | CallRead request =>
    match nodes !! k with
    | None => (2, v, None)
    | Some (Folder _) => (1, v, None)
    | Some (File sz bytes) =>
      if buffer_size request <? sz then (-1, v, None) else (0, v, Some bytes)
    end
  | CallDelete request =>
    match nodes !! k with
    | None => (1, v, None)
    | Some (Folder false) => (2, v, None)
    | Some n => (0, mkVolume (base.delete k nodes) (vol_shadow v) (vol_space v + node_clusters n), None)
    end
  end.

Lemma vol_step_shadow v c : vol_shadow (vol_step v c).1.2 = vol_shadow v.
Proof.
  destruct c; cbn [vol_step call_request]; [case_decide; [done |] | |];
    destruct (vol_nodes v !! _) as [[| []] |]; try done. by destruct (_ <? _).
Qed.

(** ** The disk behind it *)

Definition key (e : FAT32DirectoryEntry) : Name := (name e, ext e).
Definition used (t : list FAT32DirectoryEntry) (i : Z) : Prop :=
  2 <= i < DIR_ENTRIES /\ user_attribute (row t i) = UATTR_NOT_EMPTY.

(** The node of an entry whose clusters are [cs]. *)
Definition node_of (cl : Z -> list Z) (e : FAT32DirectoryEntry) (cs : list Z) : Node :=
  if attribute e =? ATTR_SUBDIRECTORY then Folder (is_empty_folder (decode_table (cl (entry_cluster e))))
  else File (filesize e) (chain_bytes cl cs).

(** An entry of the directory in the cluster [p] that owns the clusters [cs]. *)
Record Owns (fat : list Z) (p : Z) (e : FAT32DirectoryEntry) (cs : list Z) : Prop := {
  ow_chain : chain fat (entry_cluster e) cs;
  ow_above : Forall (fun c => ROOT_CLUSTER_NUMBER < c) cs;
  ow_parent : p ∉ cs;
  ow_folder : attribute e = ATTR_SUBDIRECTORY -> cs = [entry_cluster e];
  ow_name : name e <> zrep 8 0
}.

Section Volume.
Context {D M : Type} `{BlockDeviceSpec D} `{ByteMemLaws M}.
Context (Hcap : CLUSTER_BLOCK_COUNT * CLUSTER_MAP_SIZE <= dev_blocks).
Implicit Types (st : FS D M) (v : Volume) (chs : Z -> list Z).

(** The directory in the cluster [p] represents the volume [v]; entry [i] owns
    the clusters [chs i]. *)
Record Layout st (p : Z) v chs : Prop := {
  lo_inv : FSInv st;
  lo_parent : in_fat p /\ p <> FAT_CLUSTER_NUMBER;
  lo_parent_used : ~ is_free (fat_of st) p;
  lo_directory : is_directory_table (dir_table st p) = true;
  lo_shadow : vol_shadow v = [key (row (dir_table st p) 0); key (row (dir_table st p) 1)];
  lo_space : vol_space v = zlen (free_clusters (fat_of st));
  lo_owns : forall i, used (dir_table st p) i -> Owns (fat_of st) p (row (dir_table st p) i) (chs i);
  lo_lookup : forall i, used (dir_table st p) i ->
    vol_nodes v !! key (row (dir_table st p) i) =
      Some (node_of (cluster (disk st)) (row (dir_table st p) i) (chs i));
  lo_complete : forall k, is_Some (vol_nodes v !! k) ->
    exists i, used (dir_table st p) i /\ key (row (dir_table st p) i) = k;
  lo_distinct : forall i j, used (dir_table st p) i -> used (dir_table st p) j ->
    key (row (dir_table st p) i) = key (row (dir_table st p) j) -> i = j;
  lo_disjoint : forall i j c, used (dir_table st p) i -> used (dir_table st p) j ->
    c ∈ chs i -> c ∈ chs j -> i = j;
  lo_unused : forall i, 2 <= i < DIR_ENTRIES -> ~ used (dir_table st p) i ->
    name (row (dir_table st p) i) = zrep 8 0;
  lo_signature : has_signature st
}.
Definition Represents st (p : Z) v : Prop := exists chs, Layout st p v chs.

(** ** Calls *)

Definition run_call (c : Call) : Eff (FS D M) Z :=
  match c with
  | CallWrite request _ => write request
  | CallRead request => read request
  | CallDelete request => delete request
  end.

(** What the caller whose memory is [m] has to see to: a name of its own, the
    bytes to write at [buf], room at [buf] for the clusters to read; and that
    there is space for what is written. A directory has no extension. *)
Record call_ok (m : M) (p : Z) v (c : Call) : Prop := {
  co_request : request_ok (call_request c);
  co_parent : parent_cluster_number (call_request c) = p;
  co_name : req_name (call_request c) <> zrep 8 0;
  co_shadow : request_key (call_request c) ∉ vol_shadow v;
  co_call :
    match c with
    | CallWrite request data =>
      (buffer_size request = 0 -> req_ext request = zrep 3 0 /\ 1 <= vol_space v) /\
      (0 < buffer_size request -> source_ok (buffer_size request) data /\ holds m (buf request) data /\
         clusters_for (buffer_size request) <= vol_space v)
    | CallRead request =>
      forall sz bytes, vol_nodes v !! request_key request = Some (File sz bytes) ->
        mapped m (buf request) (zlen bytes)
    | CallDelete _ => True
    end
}.

(** Each call comes from some caller's memory; what is seen of it is its code
    and the caller's memory after it. *)
Fixpoint run_calls (calls : list (M * Call)) : Eff (FS D M) (list (Z * M)) :=
  match calls with
  | [] => ret []
  | (m, c) :: rest =>
    modify (set_umem m) ;;;
    code <- run_call c ;;
    m' <- gets umem ;;
    l <- run_calls rest ;;
    ret ((code, m') :: l)
  end.
Fixpoint vol_run (v : Volume) (calls : list (M * Call)) : list (Z * option (list Z)) * Volume :=
  match calls with
  | [] => ([], v)
  | (_, c) :: rest =>
    let '(code, v', out) := vol_step v c in
    let '(l, v'') := vol_run v' rest in
    ((code, out) :: l, v'')
  end.
Fixpoint calls_ok (p : Z) v (calls : list (M * Call)) : Prop :=
  match calls with
  | [] => True
  | (m, c) :: rest => call_ok m p v c /\ calls_ok p (vol_step v c).1.2 rest
  end.

(** The caller's memory after a call: as it was, or with the bytes of the file. *)
Definition answered (m : M) (c : Call) (out : option (list Z)) (m' : M) : Prop :=
  match out with
  | None => m' = m
  | Some bytes => stored m (buf (call_request c)) bytes m'
  end.

(** ** The allocation table *)

Lemma chain_not_free fat c cs d : chain fat c cs -> 0 ∉ cs -> d ∈ cs -> ~ is_free fat d.
Proof.
  unfold is_free. induction 1 as [c Hl | c e cs Hl He Hc IH]; intros Hz Hd.
  - apply list_elem_of_singleton in Hd as ->. by rewrite Hl.
  - apply not_elem_of_cons in Hz as [_ Hz]. apply elem_of_cons in Hd as [-> | Hd]; [| by apply IH].
    rewrite Hl. intros [= ->]. by apply Hz, (chain_head fat).
Qed.
Lemma owns_not_zero fat p e cs : Owns fat p e cs -> 0 ∉ cs.
Proof. intros [_ Hab _ _ _] Hz. rewrite Forall_forall in Hab. by specialize (Hab _ Hz). Qed.
Lemma owns_not_free fat p e cs d : Owns fat p e cs -> d ∈ cs -> ~ is_free fat d.
Proof.
  intros [Hch Hab _ _ _]. apply (chain_not_free _ _ _ _ Hch). intros Hz.
  rewrite Forall_forall in Hab. by specialize (Hab _ Hz).
Qed.

(** The free clusters after [cs] were taken, or given back. *)
Lemma free_count fat fat' cs :
  NoDup cs -> Forall in_fat cs -> Forall (is_free fat) cs ->
  (forall c, in_fat c -> is_free fat' c <-> is_free fat c /\ c ∉ cs) ->
  zlen (free_clusters fat) = zlen cs + zlen (free_clusters fat').
Proof.
  intros Hnd Hin Hfr Heq. rewrite Forall_forall in Hin, Hfr.
  rewrite <- zlen_app. unfold zlen. f_equal. apply Permutation_length, NoDup_Permutation.
  - apply NoDup_free_from.
  - apply NoDup_app. split_and!; [done | | apply NoDup_free_from].
    intros c Hc [Hf Hr]%elem_of_free_from. apply Heq in Hf as [_ ?]; [done |]. by apply Hin.
  - intros c. unfold free_clusters. rewrite elem_of_app, !elem_of_free_from. split.
    + intros [Hf Hr]. destruct (decide (c ∈ cs)); [by left | right]. split; [| done].
      by apply Heq.
    + intros [Hc | [Hf Hr]]; [split; [by apply Hfr | by apply Hin] |].
      split; [by apply Heq | done].
Qed.

(** ** Searching *)

Lemma used_row t i : used t i -> 0 <= i < DIR_ENTRIES.
Proof. intros [? _]. unfold DIR_ENTRIES in *. lia. Qed.

Lemma same_key t i request :
  table_ok t -> request_ok request -> 0 <= i < DIR_ENTRIES ->
  same_name_ext (row t i) request = true <-> key (row t i) = request_key request.
Proof.
  intros Ht [Hn _ He _ _] Hi. destruct (row_ok t i Ht) as (Hrn & _ & Hre & _ & _).
  unfold same_name_ext, key, request_key. rewrite andb_true_iff, !mem_eq_full by done.
  split; [by intros [-> ->] | by intros [= -> ->]].
Qed.

Section Search.
Context st (p : Z) v chs (Hl : Layout st p v chs).
Context (request : FAT32DriverRequest) (Hro : request_ok request).
Context (Hname : req_name request <> zrep 8 0) (Hshadow : request_key request ∉ vol_shadow v).

Lemma layout_table : table_ok (dir_table st p).
Proof. apply (dir_table_ok Hcap); [apply (inv_dev _ (lo_inv _ _ _ _ Hl)) | apply Hl]. Qed.
Lemma layout_above i c : used (dir_table st p) i -> c ∈ chs i -> in_fat c /\ c <> FAT_CLUSTER_NUMBER /\ c <> p.
Proof.
  intros Hu Hc. destruct (lo_owns _ _ _ _ Hl i Hu) as [Hch Hab Hp _ _].
  rewrite Forall_forall in Hab. specialize (Hab _ Hc). unfold ROOT_CLUSTER_NUMBER in Hab.
  split; [apply (chain_in_fat _ _ _ _ (inv_fat _ (lo_inv _ _ _ _ Hl)) Hch Hc) |].
  split; [unfold FAT_CLUSTER_NUMBER; lia | by intros ->].
Qed.

(** A row a search accepts is that of an entry with the name. *)
Lemma match_used j :
  0 <= j < DIR_ENTRIES -> same_name_ext (row (dir_table st p) j) request = true ->
  used (dir_table st p) j /\ key (row (dir_table st p) j) = request_key request.
Proof.
  intros Hj Hsame. pose proof (proj1 (same_key _ _ _ layout_table Hro Hj) Hsame) as Hkey.
  split; [| done]. destruct (Z.lt_ge_cases j 2) as [Hlt | Hge].
  - exfalso. apply Hshadow. rewrite (lo_shadow _ _ _ _ Hl), <- Hkey, !elem_of_cons.
    assert (j = 0 \/ j = 1) as [-> | ->] by lia; auto.
  - split; [lia |]. destruct (decide (user_attribute (row (dir_table st p) j) = UATTR_NOT_EMPTY)) as [| Hn]; [done |].
    exfalso. apply Hname. injection Hkey as <- _. apply (lo_unused _ _ _ _ Hl); [lia |]. by intros [_ ?].
Qed.
Lemma find_known lo i :
  0 <= lo <= 2 -> used (dir_table st p) i -> key (row (dir_table st p) i) = request_key request ->
  find_entry lo (dir_table st p) request = Some i.
Proof.
  intros Hlo Hu Hkey. pose proof (used_row _ _ Hu) as Hi. unfold DIR_ENTRIES in Hi.
  apply for_find_Some. split; [destruct Hu; lia |]. split.
  - by apply (same_key _ _ _ layout_table Hro).
  - intros j Hj. apply not_true_is_false. intros Hsame.
    destruct (match_used j) as [Huj Hkj]; [unfold DIR_ENTRIES; lia | done |].
    assert (j = i) by (apply (lo_distinct _ _ _ _ Hl); congruence). lia.
Qed.
Lemma find_unknown lo :
  0 <= lo -> vol_nodes v !! request_key request = None ->
  find_entry lo (dir_table st p) request = None.
Proof.
  intros Hlo Hnone. apply for_find_None. intros j Hj. apply not_true_is_false. intros Hsame.
  destruct (match_used j) as [Huj Hkj]; [unfold DIR_ENTRIES; lia | done |].
  pose proof (lo_lookup _ _ _ _ Hl j Huj) as Hlk. rewrite Hkj in Hlk. congruence.
Qed.
Lemma find_node nd :
  vol_nodes v !! request_key request = Some nd ->
  exists i, used (dir_table st p) i /\ key (row (dir_table st p) i) = request_key request /\
    nd = node_of (cluster (disk st)) (row (dir_table st p) i) (chs i) /\
    forall lo, 0 <= lo <= 2 -> find_entry lo (dir_table st p) request = Some i.
Proof.
  intros Hnd. destruct (lo_complete _ _ _ _ Hl _ ltac:(by rewrite Hnd)) as (i & Hu & Hkey).
  exists i. pose proof (lo_lookup _ _ _ _ Hl i Hu) as Hlk. rewrite Hkey, Hnd in Hlk.
  injection Hlk as ->. split_and!; try done. intros lo Hlo. by apply find_known.
Qed.
End Search.

(** ** Rows and size *)

#[export] Instance used_dec t i : Decision (used t i).
Proof. unfold used. apply _. Defined.
Definition used_rows (t : list FAT32DirectoryEntry) : list Z := filter (used t) (seqZ 2 VOLUME_ROWS).

Lemma layout_size st p v chs :
  Layout st p v chs -> size (vol_nodes v) = length (used_rows (dir_table st p)).
Proof.
  intros Hl. set (t := dir_table st p).
  assert (Hel : forall i, i ∈ used_rows t <-> used t i).
  { intros i. unfold used_rows. rewrite list_elem_of_filter, elem_of_seqZ. unfold used, VOLUME_ROWS.
    split; [by intros [? _] | intros [? ?]; split; [done | lia]]. }
  assert (Hnd : NoDup ((fun i => key (row t i)) <$> used_rows t)).
  { apply NoDup_fmap_2_strong; [| apply NoDup_filter, NoDup_seqZ].
    intros i j Hi%Hel Hj%Hel Hk. by apply (lo_distinct _ _ _ _ Hl). }
  rewrite <- (length_fmap (fun i => key (row t i))), <- size_dom.
  assert (dom (vol_nodes v) = list_to_set ((fun i => key (row t i)) <$> used_rows t) :> gset Name) as ->.
  { apply set_eq. intros k. rewrite elem_of_dom, elem_of_list_to_set, list_elem_of_fmap. split.
    - intros (i & Hu & Hk)%(lo_complete _ _ _ _ Hl). exists i. by rewrite Hel.
    - intros (i & -> & Hu%Hel). eexists. exact (lo_lookup _ _ _ _ Hl i Hu). }
  by apply size_list_to_set.
Qed.

Lemma free_row t :
  (Z.of_nat (length (used_rows t)) < VOLUME_ROWS -> exists e, find_free_row t = Some e) /\
  (VOLUME_ROWS <= Z.of_nat (length (used_rows t)) -> find_free_row t = None).
Proof.
  split.
  - intros Hlt. destruct (find_free_row t) as [e |] eqn:He; [by exists e |]. exfalso.
    unfold find_free_row in He. rewrite for_find_None in He.
    assert (used_rows t = seqZ 2 VOLUME_ROWS) as Heq.
    { apply filter_all. intros i Hi%elem_of_seqZ. unfold VOLUME_ROWS, DIR_ENTRIES in Hi.
      split; [unfold DIR_ENTRIES; lia |]. specialize (He i ltac:(lia)).
      apply negb_false_iff in He. by apply Z.eqb_eq. }
    rewrite Heq, length_seqZ in Hlt. unfold VOLUME_ROWS, DIR_ENTRIES in Hlt. lia.
  - intros Hge. apply for_find_None. intros j Hj. apply negb_false_iff, Z.eqb_eq.
    destruct (decide (used t j)) as [[_ ?] | Hn]; [done |]. exfalso.
    assert (Hlen : (length (used_rows t) < length (seqZ 2 VOLUME_ROWS))%nat).
    { apply length_filter_lt with j; [| done]. apply elem_of_seqZ. unfold VOLUME_ROWS, DIR_ENTRIES. lia. }
    rewrite length_seqZ in Hlen. lia.
Qed.

(** ** Updates

    A row changes and with it the clusters it owns; the clusters [cs] are the only
    others that may. *)
Record Updated st (p e : Z) (ent : FAT32DirectoryEntry) (cs : list Z) st' : Prop := {
  up_inv : FSInv st';
  up_dir : dir_table st' p = (dir_table st p).[e := ent];
  up_fat : forall c, c ∉ cs -> (fat_of st').[c] = (fat_of st).[c];
  up_frame : forall c, in_fat c -> c <> FAT_CLUSTER_NUMBER -> c <> p -> c ∉ cs ->
    cluster (disk st') c = cluster (disk st) c
}.

Lemma node_of_ext cl cl' e cs fat p :
  Owns fat p e cs -> (forall c, c ∈ cs -> cl' c = cl c) -> node_of cl' e cs = node_of cl e cs.
Proof.
  intros [Hch _ _ Hfo _] Heq. unfold node_of. case_match eqn:He.
  - rewrite Heq; [done |]. apply Z.eqb_eq in He. rewrite (Hfo He). left.
  - f_equal. by apply chain_bytes_ext.
Qed.
Lemma owns_ext fat fat' p e cs :
  Owns fat p e cs -> (forall c, c ∈ cs -> fat'.[c] = fat.[c]) -> Owns fat' p e cs.
Proof. intros [? ? ? ? ?] Heq. split; try done. by apply (chain_ext fat). Qed.

(** Free clusters are counted when only [cs] are taken, or released. *)
Lemma count_taken cs (fat fat' : list Z) :
  NoDup cs -> Forall in_fat cs -> Forall (is_free fat) cs ->
  (forall c, c ∈ cs -> ~ is_free fat' c) -> (forall c, c ∉ cs -> is_free fat' c <-> is_free fat c) ->
  zlen (free_clusters fat) = zlen cs + zlen (free_clusters fat').
Proof.
  intros Hnd Hin Hfr Htk Hsame. apply free_count; try done. intros c _.
  destruct (decide (c ∈ cs)) as [Hc | Hc]; [specialize (Htk c Hc) | specialize (Hsame c Hc)]; tauto.
Qed.

Section Update.
Context st (p : Z) v chs (e : Z) (ent : FAT32DirectoryEntry) (cs : list Z) st'.
Context (Hl : Layout st p v chs) (Hup : Updated st p e ent cs st').
Context (He : 2 <= e < DIR_ENTRIES) (Hpcs : p ∉ cs).
Context (Hcs : forall i c, used (dir_table st p) i -> i <> e -> c ∈ chs i -> c ∉ cs).

Lemma updated_row i : i <> e -> row (dir_table st' p) i = row (dir_table st p) i.
Proof. intros Hi. rewrite (up_dir _ _ _ _ _ _ Hup). by apply row_zset_ne. Qed.
Lemma updated_at : row (dir_table st' p) e = ent.
Proof.
  rewrite (up_dir _ _ _ _ _ _ Hup). apply row_zset_eq.
  destruct (layout_table st p v chs Hl) as [-> _]. lia.
Qed.
Lemma updated_used i : i <> e -> used (dir_table st' p) i <-> used (dir_table st p) i.
Proof. intros Hi. unfold used. by rewrite updated_row. Qed.
Lemma updated_owns i :
  used (dir_table st p) i -> i <> e ->
  Owns (fat_of st') p (row (dir_table st p) i) (chs i) /\
  node_of (cluster (disk st')) (row (dir_table st p) i) (chs i) =
    node_of (cluster (disk st)) (row (dir_table st p) i) (chs i).
Proof.
  intros Hu Hi. pose proof (lo_owns _ _ _ _ Hl i Hu) as Hown. split.
  - apply (owns_ext _ _ _ _ _ Hown). intros c Hc. by apply (up_fat _ _ _ _ _ _ Hup), (Hcs i).
  - apply (node_of_ext _ _ _ _ _ _ Hown). intros c Hc.
    destruct (layout_above _ _ _ _ Hl i c Hu Hc) as (? & ? & ?).
    apply (up_frame _ _ _ _ _ _ Hup); try done. by apply (Hcs i).
Qed.
Lemma updated_parent :
  ~ is_free (fat_of st') p /\ is_directory_table (dir_table st' p) = true /\
  vol_shadow v = [key (row (dir_table st' p) 0); key (row (dir_table st' p) 1)].
Proof.
  split_and!.
  - unfold is_free. rewrite (up_fat _ _ _ _ _ _ Hup) by done. apply (lo_parent_used _ _ _ _ Hl).
  - unfold is_directory_table. rewrite updated_row by lia. apply (lo_directory _ _ _ _ Hl).
  - rewrite !updated_row by lia. apply (lo_shadow _ _ _ _ Hl).
Qed.
Lemma updated_signature : 0 ∉ cs -> has_signature st'.
Proof.
  intros Hz. pose proof (lo_signature _ _ _ _ Hl) as Hsig. unfold has_signature.
  rewrite (up_frame _ _ _ _ _ _ Hup 0); [exact Hsig | done | done | | done].
  intros Hp. pose proof (lo_directory _ _ _ _ Hl) as Hd. rewrite <- Hp in Hd.
  by rewrite (signature_no_directory st Hsig) in Hd.
Qed.
Lemma updated_free c : c ∉ cs -> is_free (fat_of st') c <-> is_free (fat_of st) c.
Proof. intros Hc. unfold is_free. by rewrite (up_fat _ _ _ _ _ _ Hup). Qed.
(** Rows stay distinct, and their clusters disjoint, when the new row's are. *)
Lemma updated_distinct i j :
  (forall i, i <> e -> used (dir_table st p) i -> key (row (dir_table st p) i) <> key ent) ->
  used (dir_table st' p) i -> used (dir_table st' p) j ->
  key (row (dir_table st' p) i) = key (row (dir_table st' p) j) -> i = j.
Proof.
  intros Hone Hui Huj.
  destruct (decide (i = e)) as [-> | Hi]; destruct (decide (j = e)) as [-> | Hj]; [done | | |].
  - rewrite updated_at, (updated_row j Hj). intros Hk.
    by destruct (Hone j Hj (proj1 (updated_used j Hj) Huj)).
  - rewrite updated_at, (updated_row i Hi). intros Hk.
    by destruct (Hone i Hi (proj1 (updated_used i Hi) Hui)).
  - rewrite (updated_row i Hi), (updated_row j Hj).
    exact (lo_distinct _ _ _ _ Hl i j (proj1 (updated_used i Hi) Hui) (proj1 (updated_used j Hj) Huj)).
Qed.
Lemma updated_disjoint i j c :
  used (dir_table st' p) i -> used (dir_table st' p) j ->
  c ∈ (if decide (i = e) then cs else chs i) -> c ∈ (if decide (j = e) then cs else chs j) -> i = j.
Proof.
  intros Hui Huj Hci Hcj.
  destruct (decide (i = e)) as [Hi | Hi]; destruct (decide (j = e)) as [Hj | Hj]; [congruence | | |].
  - destruct (Hcs j c (proj1 (updated_used j Hj) Huj) Hj Hcj Hci).
  - destruct (Hcs i c (proj1 (updated_used i Hi) Hui) Hi Hci Hcj).
  - exact (lo_disjoint _ _ _ _ Hl i j c (proj1 (updated_used i Hi) Hui) (proj1 (updated_used j Hj) Huj) Hci Hcj).
Qed.
End Update.

(** A free row becomes an entry that owns free clusters. *)
Lemma layout_insert st p v chs e ent cs st' :
  Layout st p v chs -> Updated st p e ent cs st' -> 2 <= e < DIR_ENTRIES ->
  ~ used (dir_table st p) e -> NoDup cs -> Forall (is_free (fat_of st)) cs ->
  user_attribute ent = UATTR_NOT_EMPTY -> Owns (fat_of st') p ent cs ->
  vol_nodes v !! key ent = None ->
  Layout st' p (mkVolume (<[key ent := node_of (cluster (disk st')) ent cs]> (vol_nodes v))
                  (vol_shadow v) (vol_space v - zlen cs))
    (fun i => if decide (i = e) then cs else chs i).
Proof.
  intros Hl Hup He Hfree Hnd Hcf Hua Hown Hnone.
  assert (Hcs : forall i c, used (dir_table st p) i -> i <> e -> c ∈ chs i -> c ∉ cs).
  { intros i c Hu _ Hc Hin. rewrite Forall_forall in Hcf.
    exact (owns_not_free _ _ _ _ _ (lo_owns _ _ _ _ Hl i Hu) Hc (Hcf c Hin)). }
  pose proof (ow_parent _ _ _ _ Hown) as Hpcs.
  destruct (updated_parent st p v chs e ent cs st' Hl Hup He Hpcs) as (Hpf & Hdir & Hsh).
  pose proof (updated_at st p v chs e ent cs st' Hl Hup He) as Hat.
  assert (Hrow : forall i, i <> e -> row (dir_table st' p) i = row (dir_table st p) i)
    by (intros; by eapply updated_row).
  assert (Hused : forall i, i <> e -> used (dir_table st' p) i <-> used (dir_table st p) i)
    by (intros; by eapply updated_used).
  assert (Hone : forall i, i <> e -> used (dir_table st' p) i ->
            key (row (dir_table st p) i) <> key ent).
  { intros i Hi Hu Hk. apply (proj1 (Hused i Hi)) in Hu. pose proof (lo_lookup _ _ _ _ Hl i Hu) as Hlk.
    rewrite Hk in Hlk. congruence. }
  split; cbn [vol_nodes vol_shadow vol_space].
  - apply Hup.
  - apply Hl.
  - done.
  - done.
  - done.
  - rewrite (lo_space _ _ _ _ Hl), (count_taken cs (fat_of st) (fat_of st')); [lia | done | | done | |].
    + eapply Forall_impl; [exact Hcf |]. intros c Hc. apply zget_range in Hc.
      destruct (inv_fat _ (lo_inv _ _ _ _ Hl)) as [Hlen _]. unfold in_fat. lia.
    + intros c Hc Hf. by destruct (owns_not_free _ _ _ _ _ Hown Hc).
    + by eapply updated_free.
  - intros i Hu. case_decide as Hi; [subst i; by rewrite Hat |].
    rewrite (Hrow i Hi). apply (proj1 (Hused i Hi)) in Hu. by eapply updated_owns.
  - intros i Hu. case_decide as Hi; [subst i; rewrite Hat; by rewrite lookup_insert_eq |].
    rewrite (Hrow i Hi). rewrite lookup_insert_ne by (intros Hk; exact (Hone i Hi Hu (eq_sym Hk))).
    apply (proj1 (Hused i Hi)) in Hu. rewrite (lo_lookup _ _ _ _ Hl i Hu). f_equal. symmetry.
    by eapply updated_owns.
  - intros k [nd Hk]. destruct (decide (k = key ent)) as [-> | Hne].
    + exists e. by rewrite Hat; unfold used; rewrite Hat.
    + rewrite lookup_insert_ne in Hk by done.
      destruct (lo_complete _ _ _ _ Hl k ltac:(by eexists)) as (i & Hu & Hki).
      assert (Hi : i <> e) by (by intros ->). exists i. rewrite (Hused i Hi), (Hrow i Hi). by split.
  - intros i j. apply (updated_distinct st p v chs e ent cs st' Hl Hup He).
    intros i' Hi Hu. apply Hone; [done |]. by apply Hused.
  - intros i j c. by eapply updated_disjoint.
  - intros i Hi Hu. destruct (decide (i = e)) as [-> | Hie].
    + destruct Hu. unfold used. by rewrite Hat.
    + rewrite Hrow by done. apply (lo_unused _ _ _ _ Hl); [done |]. by rewrite <- Hused.
  - apply (updated_signature st p v chs e ent cs st' Hl Hup). by eapply owns_not_zero.
Qed.

(** An entry becomes a free row and its clusters free clusters. *)
Lemma layout_remove st p v chs e ent st' :
  Layout st p v chs -> used (dir_table st p) e -> Updated st p e ent (chs e) st' ->
  user_attribute ent <> UATTR_NOT_EMPTY -> name ent = zrep 8 0 ->
  Forall (is_free (fat_of st')) (chs e) ->
  Layout st' p (mkVolume (base.delete (key (row (dir_table st p) e)) (vol_nodes v))
                  (vol_shadow v) (vol_space v + zlen (chs e))) chs.
Proof.
  intros Hl Hue Hup Hua Hname Hcf.
  assert (He : 2 <= e < DIR_ENTRIES) by apply Hue.
  assert (Hcs : forall i c, used (dir_table st p) i -> i <> e -> c ∈ chs i -> c ∉ chs e).
  { intros i c Hu Hi Hc Hin. apply Hi. by apply (lo_disjoint _ _ _ _ Hl i e c). }
  pose proof (lo_owns _ _ _ _ Hl e Hue) as Hown. pose proof (ow_parent _ _ _ _ Hown) as Hpcs.
  destruct (updated_parent st p v chs e ent (chs e) st' Hl Hup He Hpcs) as (Hpf & Hdir & Hsh).
  pose proof (updated_at st p v chs e ent (chs e) st' Hl Hup He) as Hat.
  assert (Hrow : forall i, i <> e -> row (dir_table st' p) i = row (dir_table st p) i)
    by (intros; by eapply updated_row).
  assert (Hused : forall i, used (dir_table st' p) i -> used (dir_table st p) i /\ i <> e).
  { intros i Hu. destruct (decide (i = e)) as [-> | Hi].
    - destruct Hu as [_ Hu]. by rewrite Hat in Hu.
    - split; [| exact Hi]. exact (proj1 (updated_used st p e ent (chs e) st' Hup i Hi) Hu). }
  assert (Hone : forall i, used (dir_table st p) i -> i <> e ->
            key (row (dir_table st p) i) <> key (row (dir_table st p) e)).
  { intros i Hu Hi Hk. by apply Hi, (lo_distinct _ _ _ _ Hl). }
  split; cbn [vol_nodes vol_shadow vol_space].
  - apply Hup.
  - apply Hl.
  - done.
  - done.
  - done.
  - rewrite (lo_space _ _ _ _ Hl), (count_taken (chs e) (fat_of st') (fat_of st)); [lia | | | done | |].
    + exact (chain_NoDup _ _ _ (ow_chain _ _ _ _ Hown)).
    + apply Forall_forall. intros c Hc. by eapply layout_above.
    + intros c Hc Hf. by destruct (owns_not_free _ _ _ _ _ Hown Hc).
    + intros c Hc. symmetry. by eapply updated_free.
  - intros i [Hu Hi]%Hused. rewrite Hrow by done. by eapply updated_owns.
  - intros i [Hu Hi]%Hused. rewrite Hrow by done. rewrite lookup_delete_ne by (by apply not_eq_sym, Hone).
    rewrite (lo_lookup _ _ _ _ Hl i Hu). f_equal. symmetry. by eapply updated_owns.
  - intros k Hk. destruct (decide (k = key (row (dir_table st p) e))) as [-> | Hne].
    { rewrite lookup_delete_eq in Hk. by destruct Hk. }
    rewrite lookup_delete_ne in Hk by done. destruct (lo_complete _ _ _ _ Hl k Hk) as (i & Hu & Hki).
    assert (Hi : i <> e) by congruence. exists i. rewrite Hrow by done. split; [| done].
    by eapply updated_used.
  - intros i j [Hui Hi]%Hused [Huj Hj]%Hused. rewrite !Hrow by done. by apply (lo_distinct _ _ _ _ Hl).
  - intros i j c [Hui _]%Hused [Huj _]%Hused. by apply (lo_disjoint _ _ _ _ Hl).
  - intros i Hi Hu. destruct (decide (i = e)) as [-> | Hie]; [by rewrite Hat |].
    rewrite Hrow by done. apply (lo_unused _ _ _ _ Hl); [done |]. intros Hu'. apply Hu.
    by eapply updated_used.
  - apply (updated_signature st p v chs e ent (chs e) st' Hl Hup). by eapply owns_not_zero.
Qed.

(** ** What the operations do to a layout *)

Lemma layout_same st p v chs st' :
  Layout st p v chs -> FSInv st' -> fat_of st' = fat_of st ->
  (forall c, in_fat c -> cluster (disk st') c = cluster (disk st) c) -> Layout st' p v chs.
Proof.
  intros Hl Hinv Hfat Hcl. pose proof Hl as [_ [Hp Hp1] Hpu Hd Hsh Hsp Ho Hlk Hc Hk Hj Hu0 Hsig].
  assert (Hdir : dir_table st' p = dir_table st p) by (unfold dir_table; by rewrite Hcl).
  split; rewrite ?Hdir, ?Hfat;
    [exact Hinv | by split | exact Hpu | exact Hd | exact Hsh | exact Hsp | exact Ho | | exact Hc | exact Hk
    | exact Hj | exact Hu0 |]; [| unfold has_signature; by rewrite Hcl].
  intros i Hu. rewrite Hlk by done. f_equal. symmetry.
  apply (node_of_ext _ _ _ _ (fat_of st) p); [by apply (lo_owns _ _ _ _ Hl) |].
  intros c Hin. apply Hcl. by eapply layout_above.
Qed.
Lemma layout_umem st p v chs (m : M) : Layout st p v chs -> Layout (set_umem m st) p v chs.
Proof. intros Hl. apply (layout_same st); [done | apply set_umem_inv, Hl | done | done]. Qed.
Lemma layout_memory st p v chs m st' : Layout st p v chs -> OnlyMemory st m st' -> Layout st' p v chs.
Proof.
  intros Hl Hom. apply (layout_same st); [done | | apply Hom | apply Hom].
  apply (only_memory_inv _ _ _ (lo_inv _ _ _ _ Hl) Hom).
Qed.
Lemma layout_unchanged st p v chs st' : Layout st p v chs -> Unchanged st st' -> Layout st' p v chs.
Proof. intros Hl [? ? ? ? ?]. apply (layout_memory st p v chs (umem st)); [done |]. by split. Qed.

Lemma written_updated st request e cs data st' :
  FileWritten st request e cs data st' ->
  Updated st (parent_cluster_number request) e (file_entry request (znth 0 cs 0)) cs st'.
Proof.
  intros Hw. split; try apply Hw. intros c Hc. rewrite (fw_fat _ _ _ _ _ _ Hw). by apply allocate_frame.
Qed.
Lemma folder_updated st request e c st' :
  FolderWritten st request e c st' ->
  Updated st (parent_cluster_number request) e (folder_entry request c) [c] st'.
Proof.
  intros Hw. split; try apply Hw.
  - intros d Hd%not_elem_of_cons. rewrite (fo_fat _ _ _ _ _ Hw). apply zget_zset_ne. by intros ->; destruct Hd.
  - intros d Hd Hd1 Hdp Hdc%not_elem_of_cons. apply (fo_frame _ _ _ _ _ Hw); try done. by destruct Hdc.
Qed.
Lemma deleted_updated st request i cs st' :
  FileDeleted st request i cs st' -> Updated st (parent_cluster_number request) i empty_entry cs st'.
Proof.
  intros Hd. split; try apply Hd. intros c Hc. rewrite (fd_fat _ _ _ _ _ Hd). by apply free_all_frame.
Qed.
Lemma folder_deleted_updated st request i c st' :
  FolderDeleted st request i c st' ->
  Updated st (parent_cluster_number request) i
    (clear_entry (row (dir_table st (parent_cluster_number request)) i)) [c] st'.
Proof.
  intros Hd. split; try apply Hd.
  - intros d Hn%not_elem_of_cons. rewrite (ld_fat _ _ _ _ _ Hd). apply zget_zset_ne. by intros ->; destruct Hn.
  - intros d Hin Hd1 Hdp Hdc%not_elem_of_cons. apply (ld_frame _ _ _ _ _ Hd); try done. by destruct Hdc.
Qed.

(** The nodes of new entries. *)
Lemma written_bytes size data cl cs :
  zlen cs = clusters_for size -> (forall j c, cs.[j] = Some c -> cl c = file_part size data j) ->
  chain_bytes cl cs = file_bytes size data.
Proof.
  intros Hlen Hcl. unfold chain_bytes, file_bytes, enc_all. f_equal. apply zget_ext. intros j.
  rewrite !zget_fmap. destruct (cs.[j]) as [c |] eqn:Hj; cbn.
  - pose proof (zget_range _ _ _ Hj) as Hr. rewrite (Hcl _ _ Hj).
    assert ((seqZ 0 (clusters_for size)).[j] = Some j) as ->; [| done].
    unfold zget. rewrite decide_True by lia. rewrite lookup_seqZ. split; lia.
  - symmetry. destruct ((seqZ 0 (clusters_for size)).[j]) as [x |] eqn:Hx; [| done]. exfalso.
    pose proof (zget_range _ _ _ Hx) as Hr. unfold zlen in Hr. rewrite length_seqZ in Hr.
    destruct (zget_is_Some cs j) as [c Hc]; [lia | congruence].
Qed.
Lemma new_folder_empty request c : is_empty_folder (new_folder_table request c) = true.
Proof.
  unfold is_empty_folder. destruct (for_find _ _ _) as [i |] eqn:Hi; [| done]. exfalso.
  apply for_find_Some in Hi as (Hi & Hu & _). unfold new_folder_table in Hu.
  rewrite !row_zset_ne in Hu by lia. unfold row, zero_table, znth in Hu.
  by rewrite zget_zrep in Hu by (unfold DIR_ENTRIES; lia).
Qed.

(** ** One call *)

(** The directory's own entry stays, and after a read its whole table. *)
Definition self_kept st (p : Z) st' : Prop := row (dir_table st' p) 0 = row (dir_table st p) 0.
Definition table_kept (c : Call) st (p : Z) st' : Prop :=
  match c with
  | CallRead _ => dir_table st' p = dir_table st p
  | _ => self_kept st p st'
  end.

Lemma updated_self st p e ent cs st' : 2 <= e -> Updated st p e ent cs st' -> self_kept st p st'.
Proof. intros He Hup. unfold self_kept. rewrite (up_dir _ _ _ _ _ _ Hup). apply row_zset_ne. lia. Qed.

Definition agrees st (p : Z) v (m : M) (c : Call) : Prop :=
  exists st', run_call c (set_umem m st) = Ok ((vol_step v c).1.1, st') /\
    Represents st' p (vol_step v c).1.2 /\ answered m c (vol_step v c).2 (umem st') /\ table_kept c st p st'.

Lemma only_memory_table st (m : M) st' p : in_fat p -> OnlyMemory st m st' -> dir_table st' p = dir_table st p.
Proof. intros Hp Hom. unfold dir_table. by rewrite (om_cluster _ _ _ Hom). Qed.
Lemma unchanged_self st st' p : in_fat p -> Unchanged st st' -> self_kept st p st'.
Proof.
  intros Hp [? ? ? ? ?]. unfold self_kept. rewrite (only_memory_table st (umem st) st'); [done.. | by split].
Qed.

Lemma read_agrees st p v (m : M) request :
  Represents st p v -> call_ok m p v (CallRead request) -> agrees st p v m (CallRead request).
Proof.
  intros [chs Hl0] [Hro Hp Hn Hsh Hroom]. pose proof (layout_umem st p v chs m Hl0) as Hl.
  pose proof (proj1 (lo_parent _ _ _ _ Hl)) as Hp1.
  cbn [call_request] in *. set (st0 := set_umem m st) in *.
  assert (Hrefused : forall r,
    read_refusal (dir_table st0 p) request = Some r -> (vol_step v (CallRead request)) = (r, v, None) ->
    agrees st p v m (CallRead request)).
  { intros r Hr Hv. destruct (read_refused Hcap st0 request r) as (st' & Hrun & Hom);
      [apply Hl | rewrite Hp; apply Hl | by rewrite Hp |].
    exists st'. rewrite Hv. split; [exact Hrun |]. split; [exists chs; by eapply layout_memory |].
    split; [exact (om_memory _ _ _ Hom) | by apply (only_memory_table st0 _ _ p Hp1 Hom)]. }
  assert (Hua : user_attribute (row (dir_table st0 p) 0) = UATTR_NOT_EMPTY).
  { pose proof (lo_directory _ _ _ _ Hl) as Hd. unfold is_directory_table in Hd.
    apply andb_prop in Hd as [Hd _]. by apply Z.eqb_eq in Hd. }
  destruct (vol_nodes v !! request_key request) as [nd |] eqn:Hnd.
  - destruct (find_node st0 p v chs Hl request Hro Hn Hsh nd Hnd) as (i & Hu & Hk & -> & Hfind).
    specialize (Hfind 0 ltac:(lia)). unfold node_of in Hnd.
    destruct (attribute (row (dir_table st0 p) i) =? ATTR_SUBDIRECTORY) eqn:Hattr.
    { apply (Hrefused 1); [unfold read_refusal | unfold vol_step; cbn [call_request]].
      - rewrite Hua, Z.eqb_refl, Hfind, Hattr. done.
      - by rewrite Hnd. }
    destruct (buffer_size request <? filesize (row (dir_table st0 p) i)) eqn:Hsz.
    { apply (Hrefused (-1)); [unfold read_refusal | unfold vol_step; cbn [call_request]].
      - rewrite Hua, Z.eqb_refl, Hfind, Hattr, Hsz. done.
      - by rewrite Hnd, Hsz. }
    unfold node_of in Hroom. rewrite Hattr in Hroom. specialize (Hroom _ _ eq_refl). set (bs := chain_bytes (cluster (disk st0)) (chs i)) in *.
    destruct (store_bytes_mapped bs (buf request) m) as (m' & Hst & Hstored); [done |].
    destruct (read_found Hcap st0 request i (chs i) m') as (st' & Hrun & Hom); rewrite ?Hp; try done.
    + apply Hl.
    + by apply Z.eqb_neq.
    + by apply Z.ltb_ge.
    + apply (lo_owns _ _ _ _ Hl i Hu).
    + assert (Hv : vol_step v (CallRead request) = (0, v, Some bs))
        by (unfold vol_step; cbn [call_request]; by rewrite Hnd, Hsz).
      exists st'. rewrite Hv. split; [exact Hrun |]. split; [exists chs; by eapply layout_memory |].
      split; [| by apply (only_memory_table st0 _ _ p Hp1 Hom)].
      cbn [answered call_request snd]. by rewrite (om_memory _ _ _ Hom).
  - apply (Hrefused 2); [unfold read_refusal | unfold vol_step; cbn [call_request]; by rewrite Hnd].
    rewrite Hua, Z.eqb_refl. by rewrite (find_unknown st0 p v chs Hl request Hro Hn Hsh 0).
Qed.

Lemma find_free_row_range t e : find_free_row t = Some e -> 2 <= e < DIR_ENTRIES /\ ~ used t e.
Proof.
  intros (Hr & Hf & _)%for_find_Some. split; [unfold DIR_ENTRIES; lia |]. intros [_ Hu].
  by rewrite Hu in Hf.
Qed.

(** Creating an entry for a new name. *)
Section Create.
Context st0 (p : Z) v chs (Hl : Layout st0 p v chs).
Context (request : FAT32DriverRequest) (e : Z) (Hready : WriteReady st0 request e).
Context (Hp : parent_cluster_number request = p) (Hname : req_name request <> zrep 8 0).
Context (Hrow : find_free_row (dir_table st0 p) = Some e).
Context (Hnone : vol_nodes v !! request_key request = None).

Lemma free_above cs :
  Forall (is_free (fat_of st0)) cs -> Forall (fun c => ROOT_CLUSTER_NUMBER < c) cs /\ p ∉ cs.
Proof.
  intros Hcf. rewrite Forall_forall in Hcf. split.
  - apply Forall_forall. intros c Hc. pose proof (zget_range _ _ _ (Hcf c Hc)) as Hr.
    apply Z.lt_nge. intros Hle. apply (inv_reserved _ (lo_inv _ _ _ _ Hl) c); [lia | by apply Hcf].
  - intros Hc. by apply (lo_parent_used _ _ _ _ Hl), Hcf.
Qed.

Lemma folder_created :
  buffer_size request = 0 -> req_ext request = zrep 3 0 -> 1 <= vol_space v ->
  exists st', write request st0 = Ok (0, st') /\ umem st' = umem st0 /\
    Represents st' p (mkVolume (<[request_key request := Folder true]> (vol_nodes v))
      (vol_shadow v) (vol_space v - 1)) /\ self_kept st0 p st'.
Proof.
  intros Hsize Hext Hsp. destruct (find_free_row_range _ _ Hrow) as [He Hfree].
  rewrite (lo_space _ _ _ _ Hl) in Hsp.
  destruct (free_clusters (fat_of st0)) as [| c cs] eqn:Hfc; [done |].
  assert (Hc : is_free (fat_of st0) c).
  { apply (elem_of_free_from _ 0). unfold free_clusters in Hfc. rewrite Hfc. left. }
  pose proof (zget_range _ _ _ Hc) as Hcr.
  assert (Hcl : entry_cluster (folder_entry request c) = c).
  { apply entry_cluster_dir_entry. destruct (inv_fat _ (lo_inv _ _ _ _ Hl)) as [Hlen _]. unfold in_fat. lia. }
  destruct (free_above [c]) as [Hab Hpc]; [by apply Forall_singleton |].
  destruct (write_folder_written Hcap st0 request e c cs Hready Hsize Hfc) as (st' & Hrun & Hw).
  exists st'. split; [done |]. split; [apply (fo_memory _ _ _ _ _ Hw) |].
  pose proof (folder_updated _ _ _ _ _ Hw) as Hup. rewrite Hp in Hup.
  split; [| exact (updated_self _ _ _ _ _ _ (proj1 He) Hup)].
  exists (fun i => if decide (i = e) then [c] else chs i).
  replace (Folder true) with (node_of (cluster (disk st')) (folder_entry request c) [c]).
  2: { unfold node_of. rewrite Hcl. change (decode_table (cluster (disk st') c)) with (dir_table st' c).
       by rewrite (fo_table _ _ _ _ _ Hw), new_folder_empty. }
  assert (Hkey : request_key request = key (folder_entry request c))
    by (unfold request_key, key, folder_entry; cbn; by rewrite Hext).
  rewrite Hkey in Hnone |- *. change 1 with (zlen [c]).
  apply (layout_insert st0); try done; [apply NoDup_singleton | by apply Forall_singleton |].
  split; rewrite ?Hcl; try done.
  apply chain_last. rewrite (fo_fat _ _ _ _ _ Hw). by apply zget_zset_eq.
Qed.

Lemma file_created data :
  0 < buffer_size request -> source_ok (buffer_size request) data ->
  holds (umem st0) (buf request) data -> clusters_for (buffer_size request) <= vol_space v ->
  exists st', write request st0 = Ok (0, st') /\ umem st' = umem st0 /\
    Represents st' p
      (mkVolume (<[request_key request := File (buffer_size request) (file_bytes (buffer_size request) data)]>
                   (vol_nodes v)) (vol_shadow v) (vol_space v - clusters_for (buffer_size request))) /\
    self_kept st0 p st'.
Proof.
  intros Hpos Hso Hho Hsp. destruct (find_free_row_range _ _ Hrow) as [He Hfree].
  rewrite (lo_space _ _ _ _ Hl) in Hsp. pose proof (clusters_for_bounds _ Hpos) as (Hk & _).
  set (cs := take (Z.to_nat (clusters_for (buffer_size request))) (free_clusters (fat_of st0))).
  assert (Hlen : zlen cs = clusters_for (buffer_size request)).
  { unfold cs, zlen in *. rewrite length_take. lia. }
  destruct (write_file_written Hcap st0 request e data cs) as (st' & Hrun & Hw & Hch); try done.
  exists st'. split; [done |]. split; [apply (fw_memory _ _ _ _ _ _ Hw) |].
  pose proof (written_updated _ _ _ _ _ _ Hw) as Hup. rewrite Hp in Hup.
  destruct (taken_clusters st0 (Z.to_nat (clusters_for (buffer_size request))) (lo_inv _ _ _ _ Hl))
    as (Hcf & Hcin & Hnd & _). fold cs in Hcf, Hcin, Hnd.
  destruct (free_above cs Hcf) as [Hab Hpc].
  assert (Hcl : entry_cluster (file_entry request (znth 0 cs 0)) = znth 0 cs 0).
  { apply entry_cluster_dir_entry. rewrite Forall_forall in Hcin. apply Hcin. exact (chain_head _ _ _ Hch). }
  split; [| exact (updated_self _ _ _ _ _ _ (proj1 He) Hup)].
  exists (fun i => if decide (i = e) then cs else chs i).
  replace (File _ _) with (node_of (cluster (disk st')) (file_entry request (znth 0 cs 0)) cs).
  2: { unfold node_of. cbn [attribute file_entry dir_entry filesize]. change (0 =? ATTR_SUBDIRECTORY) with false.
       cbv iota. f_equal. apply written_bytes; [done | apply (fw_data _ _ _ _ _ _ Hw)]. }
  change (request_key request) with (key (file_entry request (znth 0 cs 0))) in Hnone |- *.
  rewrite <- Hlen. apply (layout_insert st0); try done. by split; rewrite ?Hcl.
Qed.
End Create.

Lemma write_agrees st p v (m : M) request data :
  Represents st p v -> call_ok m p v (CallWrite request data) -> agrees st p v m (CallWrite request data).
Proof.
  intros [chs Hl0] [Hro Hp Hn Hsh [Hfo Hfi]]. pose proof (layout_umem st p v chs m Hl0) as Hl.
  cbn [call_request] in *. set (st0 := set_umem m st) in *.
  assert (Hrefused : forall r,
    write_refusal (dir_table st0 p) request = Some r -> (vol_step v (CallWrite request data)) = (r, v, None) ->
    agrees st p v m (CallWrite request data)).
  { intros r Hr Hv. destruct (write_refused Hcap st0 request r) as (st' & Hrun & Hun);
      [apply (lo_inv _ _ _ _ Hl) | rewrite Hp; apply Hl | by rewrite Hp |].
    exists st'. rewrite Hv. split; [exact Hrun |]. split; [exists chs; by eapply layout_unchanged |].
    split; [exact (un_memory _ _ Hun) | apply (unchanged_self st0 _ p); [apply Hl | exact Hun]]. }
  pose proof (layout_size st0 p v chs Hl) as Hsize. destruct (free_row (dir_table st0 p)) as [Hsome Hnone].
  rewrite <- Hsize in Hsome, Hnone. unfold write_refusal in Hrefused. rewrite (lo_directory _ _ _ _ Hl) in Hrefused.
  unfold vol_step in Hrefused. cbn [call_request negb] in Hrefused.
  destruct (decide (VOLUME_ROWS <= Z.of_nat (size (vol_nodes v)))) as [Hfull | Hroom].
  { apply (Hrefused (-1)); [by rewrite Hnone | done]. }
  destruct Hsome as [e Hrow]; [lia |]. rewrite Hrow in Hrefused.
  destruct (vol_nodes v !! request_key request) as [nd |] eqn:Hnd.
  { destruct (find_node st0 p v chs Hl request Hro Hn Hsh nd Hnd) as (i & _ & _ & _ & Hfind).
    apply (Hrefused 1); [by rewrite (Hfind 2) by lia | done]. }
  assert (Hready : WriteReady st0 request e).
  { pose proof Hl as [? [? ?] ? ? _ _ _ _ _ _ _ _ _]. split; rewrite ?Hp; try done.
    by apply (find_unknown st0 p v chs). }
  unfold agrees, vol_step. cbn [call_request]. rewrite decide_False by done. rewrite Hnd. unfold new_node.
  destruct (Z.eqb_spec (buffer_size request) 0) as [Hz | Hz].
  - destruct (Hfo Hz) as [Hext Hsp].
    destruct (folder_created st0 p v chs Hl request e Hready Hp Hn Hrow Hnd Hz Hext Hsp) as (st' & Hrun & Hm & Hr & Hs).
    by exists st'.
  - assert (Hpos : 0 < buffer_size request) by (destruct Hro; lia).
    destruct (Hfi Hpos) as (Hso & Hho & Hsp).
    destruct (file_created st0 p v chs Hl request e Hready Hp Hn Hrow Hnd data Hpos Hso Hho Hsp) as (st' & Hrun & Hm & Hr & Hs).
    by exists st'.
Qed.

(** Removing an entry. *)
Section Remove.
Context st0 (p : Z) v chs (Hl : Layout st0 p v chs).
Context (request : FAT32DriverRequest) (i : Z) (Hp : parent_cluster_number request = p).
Context (Hu : used (dir_table st0 p) i) (Hfind : find_entry 2 (dir_table st0 p) request = Some i).

Definition removed (n : Z) : Volume :=
  mkVolume (base.delete (key (row (dir_table st0 p) i)) (vol_nodes v)) (vol_shadow v) (vol_space v + n).

Lemma folder_removed c :
  attribute (row (dir_table st0 p) i) = ATTR_SUBDIRECTORY -> c = entry_cluster (row (dir_table st0 p) i) ->
  ROOT_CLUSTER_NUMBER < c < CLUSTER_MAP_SIZE ->
  is_empty_folder (dir_table st0 c) = true ->
  exists st', delete request st0 = Ok (0, st') /\ umem st' = umem st0 /\ Represents st' p (removed 1) /\ self_kept st0 p st'.
Proof.
  intros Hattr Hc Hr Hemp. pose proof Hl as [Hinv [Hin Hp1] _ Hdir _ _ _ _ _ _ _ _ _].
  destruct (lo_owns _ _ _ _ Hl i Hu) as [_ _ Hpc Hfo _]. pose proof (Hfo Hattr) as Hcs.
  rewrite <- Hc in Hcs. rewrite Hcs in Hpc.
  destruct (delete_folder_deleted Hcap st0 request i c) as (st' & Hrun & Hdel); [| done |].
  { split; rewrite ?Hp; try done. intros Hpeq. apply Hpc. rewrite Hpeq. left. }
  pose proof (folder_deleted_updated _ _ _ _ _ Hdel) as Hup. rewrite Hp, <- Hcs in Hup.
  exists st'. split; [done |]. split; [exact (ld_memory _ _ _ _ _ Hdel) |].
  split; [| exact (updated_self _ _ _ _ _ _ (proj1 (proj1 Hu)) Hup)].
  exists chs. unfold removed. change 1 with (zlen [c]). rewrite <- Hcs.
  eapply layout_remove; try done. rewrite Hcs. apply Forall_singleton.
  unfold is_free. rewrite (ld_fat _ _ _ _ _ Hdel). apply zget_zset_eq.
  destruct (inv_fat _ Hinv) as [-> _]. unfold ROOT_CLUSTER_NUMBER in Hr. lia.
Qed.

Lemma file_removed :
  attribute (row (dir_table st0 p) i) <> ATTR_SUBDIRECTORY ->
  exists st', delete request st0 = Ok (0, st') /\ umem st' = umem st0 /\
    Represents st' p (removed (zlen (chain_bytes (cluster (disk st0)) (chs i)) / CLUSTER_SIZE)) /\
    self_kept st0 p st'.
Proof.
  intros Hattr. pose proof Hl as [Hinv [Hin Hp1] _ Hdir _ _ _ _ _ _ _ _ _].
  destruct (lo_owns _ _ _ _ Hl i Hu) as [Hch Hab Hpc _ _].
  assert (Hcin : forall c, c ∈ chs i -> in_fat c) by (intros c Hc; by eapply layout_above).
  destruct (delete_file_deleted Hcap st0 request i (chs i)) as (st' & Hrun & Hdel).
  { by split; rewrite ?Hp. }
  pose proof (deleted_updated _ _ _ _ _ Hdel) as Hup. rewrite Hp in Hup.
  exists st'. split; [done |]. split; [exact (fd_memory _ _ _ _ _ Hdel) |].
  split; [| exact (updated_self _ _ _ _ _ _ (proj1 (proj1 Hu)) Hup)].
  exists chs. unfold removed.
  assert (Hlen : zlen (chain_bytes (cluster (disk st0)) (chs i)) = CLUSTER_SIZE * zlen (chs i)).
  { apply chain_bytes_ok. intros c Hc. apply (cluster_ok Hcap); [apply Hinv | by apply Hcin]. }
  rewrite Hlen, Z.mul_comm, Z.div_mul by done.
  eapply layout_remove; try done. rewrite (fd_fat _ _ _ _ _ Hdel). apply Forall_forall. intros c Hc.
  apply free_all_free; [done |]. destruct (inv_fat _ Hinv) as [-> _]. by apply Hcin.
Qed.
End Remove.

Lemma delete_agrees st p v (m : M) request :
  Represents st p v -> call_ok m p v (CallDelete request) -> agrees st p v m (CallDelete request).
Proof.
  intros [chs Hl0] [Hro Hp Hn Hsh _]. pose proof (layout_umem st p v chs m Hl0) as Hl.
  cbn [call_request] in *. set (st0 := set_umem m st) in *.
  pose proof Hl as [Hinv [Hin Hp1] _ Hdir _ _ _ _ _ _ _ _ _].
  assert (Hrefused : forall r,
    (r = 2 -> forall i, find_entry 2 (dir_table st0 p) request = Some i ->
       in_fat (entry_cluster (row (dir_table st0 p) i))) ->
    delete_refusal st0 request = Some r -> vol_step v (CallDelete request) = (r, v, None) ->
    agrees st p v m (CallDelete request)).
  { intros r Hr2 Hr Hv. destruct (delete_refused Hcap st0 request r) as (st' & Hrun & Hun);
      rewrite ?Hp; try done; [apply Hinv |].
    exists st'. rewrite Hv. split; [exact Hrun |]. split; [exists chs; by eapply layout_unchanged |].
    split; [exact (un_memory _ _ Hun) | by apply (unchanged_self st0 _ p)]. }
  unfold delete_refusal in Hrefused. rewrite Hp, Hdir in Hrefused. cbn [negb] in Hrefused.
  unfold vol_step in Hrefused. cbn [call_request] in Hrefused.
  destruct (vol_nodes v !! request_key request) as [nd |] eqn:Hnd.
  2: { apply (Hrefused 1); [done | | done]. by rewrite (find_unknown st0 p v chs). }
  destruct (find_node st0 p v chs Hl request Hro Hn Hsh nd Hnd) as (i & Hu & Hk & Heq & Hfind).
  specialize (Hfind 2 ltac:(lia)). rewrite Hfind in Hrefused.
  pose proof (lo_owns _ _ _ _ Hl i Hu) as [Hch Hab _ Hfo _]. unfold node_of in Heq.
  destruct (attribute (row (dir_table st0 p) i) =? ATTR_SUBDIRECTORY) eqn:Hattr; cbn [andb] in Hrefused.
  - set (c := entry_cluster (row (dir_table st0 p) i)) in *. apply Z.eqb_eq in Hattr.
    pose proof (chain_in_fat _ _ _ _ (inv_fat _ Hinv) Hch (chain_head _ _ _ Hch)) as Hcin.
    rewrite (Hfo Hattr) in Hab. pose proof (Forall_inv Hab) as Hcab. cbv beta in Hcab.
    change (decode_table (cluster (disk st0) c)) with (dir_table st0 c) in Heq.
    destruct (is_empty_folder (dir_table st0 c)) eqn:Hemp; subst nd.
    + destruct (folder_removed st0 p v chs Hl request i Hp Hu Hfind c) as (st' & Hrun & Hm & Hr & Hs); try done.
      { unfold in_fat in Hcin. lia. }
      exists st'. unfold vol_step. cbn [call_request]. rewrite Hnd. split; [exact Hrun |]. unfold removed in Hr. by rewrite Hk in Hr.
    + apply (Hrefused 2); [| done | done]. by intros _ j [= <-].
  - apply Z.eqb_neq in Hattr.
    destruct (file_removed st0 p v chs Hl request i Hp Hu Hfind Hattr) as (st' & Hrun & Hm & Hr & Hs).
    subst nd. exists st'. unfold vol_step. cbn [call_request]. rewrite Hnd. split; [exact Hrun |]. unfold removed in Hr. by rewrite Hk in Hr.
Qed.

Lemma call_agrees st p v (m : M) c : Represents st p v -> call_ok m p v c -> agrees st p v m c.
Proof. destruct c; [apply write_agrees | apply read_agrees | apply delete_agrees]. Qed.

(** A fresh file system: the root directory is the empty volume with 509 free
    clusters. *)
Definition root_name : list Z := str "root" ++ zrep 4 0.
Definition fresh_volume : Volume := mkVolume ∅ [(root_name, zrep 3 0); (dot_dot, zrep 3 0)] 509.

Lemma formatted_represents st st' :
  Formatted st st' -> Represents st' ROOT_CLUSTER_NUMBER fresh_volume.
Proof.
  intros [Hinv Hsig Hfat Hroot _ _ _ _]. exists (fun _ => []).
  assert (Hno : forall i, 2 <= i < DIR_ENTRIES -> row new_root_dir i = empty_entry).
  { intros i Hi. unfold DIR_ENTRIES in Hi. unfold new_root_dir, init_directory_table.
    rewrite !row_zset_ne by lia. unfold row, zero_table, znth.
    by rewrite zget_zrep by (unfold DIR_ENTRIES; lia). }
  assert (Hun : forall i, ~ used new_root_dir i) by (intros i [Hi Hu]; by rewrite Hno in Hu).
  split; rewrite ?Hroot, ?Hfat; try (intros i Hu; destruct (Hun i Hu)).
  - exact Hinv.
  - split; [split; [discriminate | reflexivity] | discriminate].
  - vm_compute. discriminate.
  - reflexivity.
  - reflexivity.
  - vm_compute. reflexivity.
  - intros k Hk. by destruct (lookup_empty_is_Some (M := gmap Name) (A := Node) k).
  - intros i j Hu. destruct (Hun i Hu).
  - intros i j c Hu. destruct (Hun i Hu).
  - intros i Hi _. by rewrite Hno.
  - exact Hsig.
Qed.

Lemma run_calls_agree calls : forall st (p : Z) v,
  Represents st p v -> calls_ok p v calls ->
  exists answers st', run_calls calls st = Ok (answers, st') /\
    Represents st' p (vol_run v calls).2 /\
    Forall3 (fun call spec answer => answer.1 = spec.1 /\ answered call.1 call.2 spec.2 answer.2)
      calls (vol_run v calls).1 answers.
Proof.
  induction calls as [| [m c] calls IH]; intros st p v Hrep Hok.
  - exists [], st. split; [done |]. split; [done | constructor].
  - destruct Hok as [Hc Hok]. destruct (call_agrees st p v m c Hrep Hc) as (st1 & Hrun & Hrep1 & Hans & _).
    destruct (vol_step v c) as [[code v1] out] eqn:Hstep. cbn [fst snd] in *.
    destruct (IH st1 p v1 Hrep1 Hok) as (answers & st' & Hruns & Hrep' & Hall).
    exists ((code, umem st1) :: answers), st'. cbn [vol_run]. rewrite Hstep.
    destruct (vol_run v1 calls) as [l v2] eqn:Hrun2. cbn [fst snd] in *. split; [| split; [done | by constructor]].
    cbn [run_calls]. run_step. erewrite bind_run; [| exact Hrun]. run_step. by erewrite bind_run; [| exact Hruns].
Qed.
(** C1. A directory is a finite map. From any state in which the directory in the
    cluster [p] represents a volume - from a formatted disk's root directory in
    particular - every sequence of admissible [write], [read] and [delete] calls
    on that directory runs to its end, returns exactly the codes that the map
    operations give (0, and the refusals -1, 1 and 2), delivers exactly the bytes
    the map holds into the callers' memory, which is otherwise unchanged, and ends
    in a state that represents the resulting map, with the free clusters counted. *)
Theorem volume_refines calls st (p : Z) v
    (Hrep : Represents st p v) (Hok : calls_ok p v calls) :
  exists answers st', run_calls calls st = Ok (answers, st') /\
    Represents st' p (vol_run v calls).2 /\
    Forall3 (fun call spec answer => answer.1 = spec.1 /\ answered call.1 call.2 spec.2 answer.2)
      calls (vol_run v calls).1 answers.
Proof. by apply run_calls_agree. Qed.
End Volume.
