(* ===== verification/FatMount.v ===== *)
(** FatMount: a volume survives a restart - also on another device with the same
    blocks, which is how an image made by the inserter becomes the disk of the
    machine. *)

From Stdlib Require Import ZArith Lia.
From stdpp Require Import base tactics numbers strings list gmap.
From S2P Require Import Prelude Memory CString Disk FatLayout Fat32 FatLogic FatChain FatWrite.
From S2P Require Import FatRead FatDelete FatInit FatVolume.

(** ** Two devices with the same clusters *)

Section Copy.
Context {D M D' M' : Type} `{BlockDeviceSpec D} `{ByteMemLaws M} `{BlockDeviceSpec D'} `{ByteMemLaws M'}.
Context (Hcap : CLUSTER_BLOCK_COUNT * CLUSTER_MAP_SIZE <= dev_blocks (D := D)).
Context (Hcap' : CLUSTER_BLOCK_COUNT * CLUSTER_MAP_SIZE <= dev_blocks (D := D')).
Implicit Types (st : FS D M) (new : FS D' M') (v : Volume).

Definition same_clusters (d : D) (d' : D') : Prop := forall c, in_fat c -> cluster d' c = cluster d c.

Lemma same_clusters_table st new c :
  same_clusters (disk st) (disk new) -> in_fat c -> dir_table new c = dir_table st c.
Proof. intros Hcl Hc. unfold dir_table. by rewrite Hcl. Qed.
Lemma same_clusters_fat st new : same_clusters (disk st) (disk new) -> stored_fat new = stored_fat st.
Proof. intros Hcl. unfold stored_fat. by rewrite Hcl. Qed.
Lemma same_clusters_signature st new :
  same_clusters (disk st) (disk new) -> has_signature st -> has_signature new.
Proof. intros Hcl. unfold has_signature. by rewrite Hcl. Qed.

Lemma layout_copy st p v chs new :
  Layout st p v chs -> FSInv new -> fat_of new = fat_of st -> same_clusters (disk st) (disk new) ->
  Layout new p v chs.
Proof.
  intros Hl Hinv Hfat Hcl. pose proof Hl as [Hi [Hp Hp1] Hpu Hd Hsh Hsp Ho Hlk Hc Hk Hj Hu0 Hsig].
  pose proof (same_clusters_table st new p Hcl Hp) as Hdir.
  split; rewrite ?Hdir, ?Hfat; try assumption; [by split | | by apply (same_clusters_signature st)].
  intros i Hu. rewrite Hlk by done. f_equal. symmetry.
  apply (node_of_ext _ _ _ _ (fat_of st) p); [by apply Ho |].
  intros c Hin. apply Hcl. by apply (layout_above st p v chs Hl i).
Qed.

(** Mounting a device that has the blocks of a volume. *)
Lemma mount_represents st p v new :
  Represents st p v -> dev_ok (disk new) -> same_clusters (disk st) (disk new) ->
  exists mounted, initialize_filesystem_fat32 new = Ok (tt, mounted) /\ Represents mounted p v /\
    (forall c, in_fat c -> cluster (disk mounted) c = cluster (disk new) c) /\ umem mounted = umem new.
Proof.
  intros [chs Hl] Hd Hcl. pose proof (lo_inv _ _ _ _ Hl) as Hinv.
  pose proof (stored_fat_coherent _ Hinv) as Hfat. rewrite <- (same_clusters_fat st new Hcl) in Hfat.
  destruct (mount_ok Hcap' new Hd) as (mounted & Hrun & Hinv1 & Hfat1 & Hcl1 & Hm & _).
  - by apply (same_clusters_signature st), Hl.
  - rewrite Hfat. apply (inv_reserved _ Hinv).
  - exists mounted. split_and!; try done. exists chs. apply (layout_copy st); [done | done | congruence |].
    intros c Hc. by rewrite Hcl1, Hcl.
Qed.

(** C6. The volume survives a restart. After any sequence of admissible calls the
    machine is switched off; whatever driver state, memory and device it is started
    with again, if the device has the blocks that were left, mounting it ends and
    the directory represents the volume the calls made - nothing of it was only in
    memory. *)
Theorem restart_keeps_volume (calls : list (M * Call)) st p v
    (Hrep : Represents st p v) (Hok : calls_ok p v calls) :
  exists answers st1, run_calls calls st = Ok (answers, st1) /\
    (forall new, dev_ok (disk new) -> same_clusters (disk st1) (disk new) ->
     exists mounted, initialize_filesystem_fat32 new = Ok (tt, mounted) /\ Represents mounted p (vol_run v calls).2).
Proof.
  destruct (run_calls_agree Hcap calls st p v Hrep Hok) as (answers & st1 & Hrun & Hrep1 & _).
  exists answers, st1. split; [done |]. intros new Hd Hcl.
  destruct (mount_represents st1 p _ new Hrep1 Hd Hcl) as (mounted & Hrun2 & Hrep2 & _). by exists mounted.
Qed.
End Copy.
