(* ===== verification/Inserter.v ===== *)
(** Inserter: the host program of src/inserter/external-inserter.c, from its
    arguments to the disk image it leaves. *)

From Stdlib Require Import ZArith Lia.
From stdpp Require Import base tactics numbers strings list gmap.
From S2P Require Import Prelude Memory CString Disk FatLayout Fat32 FatLogic FatChain FatWrite.
From S2P Require Import FatRead FatDelete FatInit FatVolume FatMount.
Import Image.
#[local] Open Scope eff_scope.

(** ** The host

    Files by the path they are opened with, and what was printed. What [malloc]
    returns is not initialised: its bytes are arbitrary. *)
Abbreviation Path := (list Z) (only parsing).
Record Host := mkHost {
  files : gmap Path (list Z);
  stdout : list Z;
  stderr : list Z
}.
Class HostEnvironment := {
  image_junk : gmap Z Z;
  buffer_junk : gmap Z Z
}.

Definition set_files (f : gmap Path (list Z)) (h : Host) : Host := mkHost f (stdout h) (stderr h).
Definition print (text : list Z) (h : Host) : Host := mkHost (files h) (stdout h ++ text) (stderr h).
Definition print_error (text : list Z) (h : Host) : Host := mkHost (files h) (stdout h) (stderr h ++ text).

(** Both blocks are of 4 MiB; a pointer is its offset in the block. *)
Definition malloc (junk : gmap Z Z) : FlatMem :=
  {| flat_lo := 0; flat_hi := IMAGE_SIZE; flat_cells := junk |}.

(** [fread(ptr, 4*1024*1024, 1, fptr)] of a file that was just opened: as much of
    it as there is. *)
Definition fread (content : list Z) (m : FlatMem) : Res FlatMem :=
  store_bytes 0 (ztake IMAGE_SIZE content) m.
(** [fwrite(image_storage, 4*1024*1024, 1, fptr)] *)
Definition image_bytes (m : FlatMem) : list Z := mem_get m <$> seqZ 0 IMAGE_SIZE.

(** ** Conversions of the standard library *)

Definition is_space (c : Z) : bool := (c =? 32) || ((9 <=? c) && (c <=? 13)).
Definition is_digit (c : Z) : bool := (48 <=? c) && (c <=? 57).

Fixpoint skip_spaces (l : list Z) : list Z :=
  match l with
  | c :: l' => if is_space c then skip_spaces l' else l
  | [] => []
  end.
Fixpoint scan_digits (n : Z) (l : list Z) : Z :=
  match l with
  | c :: l' => if is_digit c then scan_digits (10 * n + (c - 48)) l' else n
  | [] => n
  end.
(** [sscanf(s, "%u", &x)]: spaces, a sign, digits; nothing is stored without a
    digit. The value goes through an [unsigned long] of 64 bits. *)
Definition ULONG_MAX : Z := 2 ^ 64 - 1.
Definition scan_number (negative : bool) (l : list Z) : option Z :=
  match l with
  | c :: _ =>
    if is_digit c then
      let n := scan_digits 0 l in
      Some (u32 (if ULONG_MAX <? n then ULONG_MAX else if negative then - n else n))
    else None
  | [] => None
  end.
Definition scan_u (s : list Z) : option Z :=
  match skip_spaces s with
  | c :: l => if c =? 45 then scan_number true l
              else if c =? 43 then scan_number false l
              else scan_number false (c :: l)
  | [] => None
  end.
(** [sscanf(s, "%8s", x)]: at most eight characters that are not spaces. *)
Fixpoint scan_word (n : nat) (l : list Z) : list Z :=
  match n, l with
  | S n', c :: l' => if is_space c then [] else c :: scan_word n' l'
  | _, _ => []
  end.
Definition scan_8s (s : list Z) : option (list Z) :=
  match scan_word 8 (skip_spaces s) with
  | [] => None
  | w => Some w
  end.

(** [printf("%ld", n)] for an [n] that is not negative: at most 20 digits. *)
Fixpoint decimal_digits (fuel : nat) (n : Z) (rest : list Z) : list Z :=
  match fuel with
  | O => rest
  | S fuel' =>
    let rest' := (48 + n mod 10) :: rest in
    if n <? 10 then rest' else decimal_digits fuel' (n / 10) rest'
  end.
Definition decimal (n : Z) : list Z := decimal_digits 20 n [].

(** ** main *)

Record Inserter := mkInserter {
  host : Host;
  driver : FS FlatMem FlatMem
}.
Definition on_host (f : Host -> Host) : Eff Inserter unit :=
  modify (fun s => mkInserter (f (host s)) (driver s)).
Definition on_driver {A : Type} (c : Eff (FS FlatMem FlatMem) A) : Eff Inserter A :=
  fun s => match c (driver s) with
           | Ok (a, st) => Ok (a, mkInserter (host s) st)
           | Fault e => Fault e
           end.
(** A block that [fread] fills: [image_storage] is the disk of the driver,
    [file_buffer] the memory its request points into. *)
Definition fread_image (content : list Z) : Eff (FS FlatMem FlatMem) unit :=
  fun st => res_bind (fread content (disk st)) (fun m => Ok (tt, set_disk m st)).
Definition fread_buffer (content : list Z) : Eff (FS FlatMem FlatMem) unit :=
  fun st => res_bind (fread content (umem st)) (fun m => Ok (tt, set_umem m st)).

Definition usage : list Z :=
  str "inserter: ./inserter <file to insert> <parent cluster index> <storage>" ++ [10].
Definition report (retcode : Z) : list Z :=
  (if retcode =? 0 then str "Write success"
   else if retcode =? 1 then str "Error: File/folder name already exist"
   else if retcode =? 2 then str "Error: Invalid parent cluster"
   else str "Error: Unknown error") ++ [10].
Definition banner (name : list Z) (size : Z) : list Z :=
  str "Filename : " ++ name ++ [10] ++ str "Filesize : " ++ decimal size ++ str " bytes" ++ [10].

(** [sscanf] stores the characters and a terminator from [name] on: behind eight
    characters it falls on the first byte of [ext]. *)
Definition scan_name (s : list Z) (request : FAT32DriverRequest) : FAT32DriverRequest :=
  match scan_8s s with
  | Some w =>
    let bytes := zsplice 0 (w ++ [0]) (req_name request ++ req_ext request) in
    mkRequest (buf request) (ztake 8 bytes) (zslice 8 3 bytes)
      (parent_cluster_number request) (buffer_size request)
  | None => request
  end.
Definition scan_parent (s : list Z) (request : FAT32DriverRequest) : FAT32DriverRequest :=
  match scan_u s with
  | Some n => mkRequest (buf request) (req_name request) (req_ext request) n (buffer_size request)
  | None => request
  end.
Definition insert_request (name number : list Z) (filesize : Z) : FAT32DriverRequest :=
  scan_name name (scan_parent number (mkRequest 0 (zrep 8 0) (zrep 3 0) 0 (u32 filesize))).

Section Main.
Context `{HostEnvironment}.

(** The target's size; a file that cannot be opened has size 0 and leaves the
    buffer as it is. *)
Definition read_target (content : option (list Z)) : Eff Inserter Z :=
  match content with
  | Some bytes => on_driver (fread_buffer bytes) ;;; ret (zlen bytes)
  | None => ret 0
  end.
(** [fread] on the null pointer of an image that cannot be opened does not
    return. *)
Definition read_storage (content : option (list Z)) : Eff Inserter unit :=
  match content with
  | Some bytes => on_driver (fread_image bytes)
  | None => stop BadAccess
  end.

Definition main (argv : list (list Z)) : Eff Inserter Z :=
  if zlen argv <? 4 then on_host (print_error usage) ;;; ret 1 else
  let target := znth [] argv 1 in
  let number := znth [] argv 2 in
  let storage := znth [] argv 3 in
  fs <- gets (fun s => files (host s)) ;;
  read_storage (fs !! storage) ;;;
  filesize <- read_target (fs !! target) ;;
  on_host (print (banner target filesize)) ;;;
  on_driver initialize_filesystem_fat32 ;;;
  retcode <- on_driver (write (insert_request target number filesize)) ;;
  on_host (print (report retcode)) ;;;
  image <- gets (fun s => image_bytes (disk (driver s))) ;;
  on_host (fun h => set_files (<[storage := image]> (files h)) h) ;;;
  ret 0.

(** A run of the program: its exit code and the host it leaves. *)
Definition inserter (argv : list (list Z)) : Eff Host Z :=
  fun h =>
    match main argv (mkInserter h (mkFS (malloc image_junk) boot_driver_state (malloc buffer_junk) [])) with
    | Ok (code, s) => Ok (code, host s)
    | Fault e => Fault e
    end.

(** The runs of a makefile target: one after the other, all on one image. *)
Fixpoint inserter_runs (storage : Path) (args : list (Path * list Z)) : Eff Host (list Z) :=
  match args with
  | [] => ret []
  | (target, number) :: rest =>
    code <- inserter [str "./inserter"; target; number; storage] ;;
    codes <- inserter_runs storage rest ;;
    ret (code :: codes)
  end.
End Main.
