(* ===== verification/InserterSpec.v ===== *)
(** InserterSpec: what a run of the inserter does to the volume of the image, what
    a sequence of runs does, and that the image can be booted. *)

From Stdlib Require Import ZArith Lia.
From stdpp Require Import base tactics numbers strings list gmap.
From S2P Require Import Prelude Memory CString Disk FatLayout Fat32 FatLogic FatChain FatWrite.
From S2P Require Import FatRead FatDelete FatInit FatVolume FatMount Inserter.
Import Image.
#[local] Open Scope eff_scope.

(** ** Images as lists of bytes *)

Lemma zlen_image_bytes m : zlen (image_bytes m) = IMAGE_SIZE.
Proof. unfold image_bytes. rewrite zlen_fmap. unfold zlen. rewrite length_seqZ. unfold IMAGE_SIZE. lia. Qed.
Lemma image_bytes_all m : all_bytes (image_bytes m).
Proof. apply Forall_fmap, Forall_forall. intros. apply mem_get_byte. Qed.
Lemma zget_image_bytes m a : 0 <= a < IMAGE_SIZE -> (image_bytes m).[a] = Some (mem_get m a).
Proof. intros Ha. unfold image_bytes. by rewrite zget_fmap, zget_seqZ. Qed.
Lemma image_bytes_holds m : image_ok m -> holds m 0 (image_bytes m).
Proof.
  intros Hok i b Hi. pose proof (zget_range _ _ _ Hi) as Hr. rewrite zlen_image_bytes in Hr.
  rewrite zget_image_bytes in Hi by done. injection Hi as <-. exists i. split; [| done].
  rewrite Z.add_0_l. by apply image_resolve.
Qed.

(** Two images with the same bytes have the same clusters. *)
Lemma image_bytes_same (m n : FlatMem) :
  image_bytes m = image_bytes n -> forall c, in_fat c -> cluster m c = cluster n c.
Proof.
  intros Heq c Hc.
  assert (Hget : forall a, 0 <= a < IMAGE_SIZE -> mem_get m a = mem_get n a).
  { intros a Ha. pose proof (zget_image_bytes m a Ha) as Hm. rewrite Heq, zget_image_bytes in Hm by done. congruence. }
  assert (Hblock : forall b, 0 <= b < IMAGE_BLOCKS -> image_block m b = image_block n b).
  { intros b Hb. unfold image_block. apply list_fmap_ext. intros i a Hi.
    apply lookup_seqZ in Hi as [-> Hi]. apply Hget. unfold IMAGE_SIZE, IMAGE_BLOCKS, BLOCK_SIZE in *. lia. }
  unfold in_fat in Hc. rewrite !cluster_blocks. cbn [block image_device_spec].
  rewrite !Hblock; [done | unfold CLUSTER_MAP_SIZE, IMAGE_BLOCKS in *; lia ..].
Qed.

(** What a block from [malloc] holds once [content] was read into it. *)
Definition filled (junk : gmap Z Z) (content : list Z) : list Z :=
  content ++ zdrop (zlen content) (image_bytes (malloc junk)).

Lemma malloc_ok junk : image_ok (malloc junk).
Proof. done. Qed.
Lemma fread_filled junk content :
  zlen content <= IMAGE_SIZE -> all_bytes content ->
  exists m, fread content (malloc junk) = Ok m /\ image_ok m /\ image_bytes m = filled junk content.
Proof.
  intros Hlen Hby. unfold fread. rewrite ztake_all by done.
  destruct (store_bytes_mapped content 0 (malloc junk)) as (m & Hrun & Hst);
    [apply flat_mapped; cbn; unfold IMAGE_SIZE in *; lia |].
  exists m. split; [exact Hrun |]. split; [by apply (store_image_shape content 0 (malloc junk)) |].
  apply zget_ext. intros a. pose proof (zlen_nonneg content).
  destruct (decide (0 <= a < IMAGE_SIZE)) as [Ha |].
  2: { rewrite !zget_None; [done | |]; unfold filled;
       rewrite ?zlen_app, ?zlen_zdrop, ?zlen_image_bytes; lia. }
  rewrite zget_image_bytes by done. unfold filled.
  destruct (Z.lt_ge_cases a (zlen content)) as [Hlt | Hge].
  - rewrite zget_app_l by done. destruct (zget_is_Some content a ltac:(lia)) as [b Hb]. rewrite Hb. f_equal.
    destruct (stored_holds _ _ _ _ Hst) with (i := a) (b := b) as (c & Hc & <-); [| done | done |].
    { apply flat_separate; cbn; unfold IMAGE_SIZE in *; lia. }
    rewrite (stored_resolve _ _ _ _ Hst), Z.add_0_l in Hc. apply flat_resolve in Hc as <-.
    rewrite u32_small; [done | unfold IMAGE_SIZE in Ha; lia].
  - rewrite zget_app_r, zget_zdrop by lia. replace (zlen content + (a - zlen content)) with a by lia.
    rewrite zget_image_bytes by done. f_equal. apply (stored_frame _ _ _ _ Hst).
    intros (j & Hj & Hc). apply flat_resolve in Hc. rewrite Z.add_0_l, u32_small in Hc by (unfold IMAGE_SIZE in Hlen; lia).
    lia.
Qed.

Definition image_room : CLUSTER_BLOCK_COUNT * CLUSTER_MAP_SIZE <= dev_blocks (D := FlatMem) :=
  ltac:(by vm_compute).

#[global] Opaque image_bytes.

(** ** What an image stands for

    The volume in the directory of cluster [p] that an image holds, with the
    directory's entry for itself; and the one there once the image is mounted, which
    is the empty one when it has to be formatted first. *)
Record image_file (img : list Z) : Prop := {
  if_size : zlen img = IMAGE_SIZE;
  if_bytes : all_bytes img
}.
Definition own_entry (st : FS FlatMem FlatMem) (p : Z) : FAT32DirectoryEntry := row (dir_table st p) 0.
Definition holds_volume (img : list Z) (p : Z) (own : FAT32DirectoryEntry) (v : Volume) : Prop :=
  exists st : FS FlatMem FlatMem, image_bytes (disk st) = img /\ Represents st p v /\ own_entry st p = own.
Definition stands_for (img : list Z) (p : Z) (own : FAT32DirectoryEntry) (v : Volume) : Prop :=
  forall st : FS FlatMem FlatMem, image_ok (disk st) -> image_bytes (disk st) = img ->
  exists st1, initialize_filesystem_fat32 st = Ok (tt, st1) /\ Represents st1 p v /\ own_entry st1 p = own /\
    umem st1 = umem st.

Lemma image_bytes_file m : image_file (image_bytes m).
Proof. split; [apply zlen_image_bytes | apply image_bytes_all]. Qed.

Lemma holds_stands_for img p own v : holds_volume img p own v -> stands_for img p own v.
Proof.
  intros (st & <- & Hrep & Hown) st0 Hok Heq.
  assert (Hcl : same_clusters (disk st) (disk st0)) by (intros c Hc; exact (image_bytes_same _ _ Heq c Hc)).
  destruct (mount_represents image_room st p v st0 Hrep Hok Hcl) as (st1 & Hrun & Hrep1 & Hcl1 & Hm).
  exists st1. refine (conj Hrun (conj Hrep1 (conj _ Hm))). rewrite <- Hown. unfold own_entry. f_equal.
  destruct Hrep as [chs Hl]. pose proof (proj1 (lo_parent _ _ _ _ Hl)) as Hp.
  apply same_clusters_table; [| done]. intros c Hc. rewrite Hcl1 by done. by apply Hcl.
Qed.
Lemma blank_stands_for img :
  ztake BLOCK_SIZE img <> fs_signature -> stands_for img ROOT_CLUSTER_NUMBER (row new_root_dir 0) fresh_volume.
Proof.
  intros Hns st Hok <-. destruct (format_ok image_room st Hok) as (st1 & Hrun & Hfm).
  - unfold has_signature. intros Hs. apply Hns. rewrite <- Hs, cluster_blocks, ztake_app_eq
      by apply zlen_image_block. apply zget_ext. intros i.
    destruct (decide (0 <= i < BLOCK_SIZE)) as [Hi |].
    + rewrite zget_ztake by lia. rewrite zget_image_bytes by (unfold BLOCK_SIZE, IMAGE_SIZE in *; lia).
      cbn [block image_device_spec]. rewrite zget_image_block by done. do 2 f_equal.
    + rewrite !zget_None; [done | |]; cbn [block image_device_spec];
        rewrite ?zlen_image_block, ?zlen_ztake, ?zlen_image_bytes; unfold BLOCK_SIZE, IMAGE_SIZE in *; lia.
  - exists st1. split; [done |]. split; [by eapply formatted_represents |].
    split; [| apply (fm_memory _ _ Hfm)]. unfold own_entry. exact (f_equal (fun t => row t 0) (fm_root _ _ Hfm)).
Qed.

(** ** The request *)

Lemma skip_spaces_sub s : exists l, s = l ++ skip_spaces s.
Proof.
  induction s as [| c s [l IH]]; [by exists [] |]. cbn [skip_spaces].
  destruct (is_space c); [| by exists []]. exists (c :: l). cbn. by rewrite <- IH.
Qed.
Lemma skip_spaces_head s c l : skip_spaces s = c :: l -> is_space c = false.
Proof.
  induction s as [| d s IH]; cbn [skip_spaces]; [done |]. destruct (is_space d) eqn:Hd; [done |].
  by intros [= <- _].
Qed.
Lemma scan_word_ok (P : Z -> Prop) n : forall l,
  Forall P l -> Forall P (scan_word n l) /\ zlen (scan_word n l) <= Z.of_nat n.
Proof.
  induction n as [| n IH]; intros l Hl; cbn [scan_word]; [by split |].
  destruct Hl as [| c l Hc Hl]; [split; [constructor | unfold zlen; cbn; lia] |].
  destruct (is_space c); [split; [constructor | unfold zlen; cbn; lia] |].
  destruct (IH l Hl) as [? ?]. split; [by constructor | rewrite zlen_cons; lia].
Qed.
Lemma scan_8s_ok s :
  Forall (fun c => 0 < c < 2 ^ 8) s -> skip_spaces s <> [] ->
  exists w, scan_8s s = Some w /\ 1 <= zlen w <= 8 /\ Forall (fun c => 0 < c < 2 ^ 8) w.
Proof.
  intros Hs Hne. destruct (skip_spaces_sub s) as [l Hl]. rewrite Hl in Hs. apply Forall_app in Hs as [_ Hs].
  destruct (scan_word_ok _ 8 _ Hs) as [Hw Hlen]. unfold scan_8s.
  destruct (skip_spaces s) as [| c rest] eqn:Hsk; [done |]. pose proof (skip_spaces_head _ _ _ Hsk) as Hc.
  assert (Hstep : scan_word 8 (c :: rest) = c :: scan_word 7 rest) by (cbn [scan_word]; by rewrite Hc).
  rewrite Hstep in *. exists (c :: scan_word 7 rest). split; [done |]. split; [| done].
  generalize (scan_word 7 rest) Hlen. intros w. pose proof (zlen_nonneg w). rewrite zlen_cons. lia.
Qed.

(** A name padded with zeros. *)
Definition padded (w : list Z) : list Z := w ++ zrep (8 - zlen w) 0.

Lemma padded_ok w :
  1 <= zlen w <= 8 -> Forall (fun c => 0 < c < 2 ^ 8) w ->
  zlen (padded w) = 8 /\ all_bytes (padded w) /\ padded w <> zrep 8 0.
Proof.
  intros Hlen Hw. unfold padded. split_and!.
  - rewrite zlen_app, zlen_zrep; lia.
  - apply Forall_app. split; [| by apply Forall_zrep]. eapply Forall_impl; [exact Hw |].
    unfold is_byte. lia.
  - intros Heq. destruct Hw as [| c w Hc _]; [unfold zlen in Hlen; cbn in Hlen; lia |].
    injection Heq as -> _. lia.
Qed.
(** The eight bytes and the terminator of a name that fits leave [ext] zero. *)
Lemma insert_request_eq target number size w p :
  scan_8s target = Some w -> zlen w <= 8 -> scan_u number = Some p -> 0 <= size < 2 ^ 32 ->
  insert_request target number size = mkRequest 0 (padded w) (zrep 3 0) p size.
Proof.
  intros Hw Hlen Hp Hs. unfold insert_request, scan_name, scan_parent. rewrite Hw, Hp.
  cbn [buf req_name req_ext parent_cluster_number buffer_size]. rewrite u32_small by done. unfold padded.
  do 9 (destruct w as [| ? w]; [reflexivity |]). unfold zlen in Hlen. cbn in Hlen. lia.
Qed.

(** ** Numbers *)

Lemma scan_decimal_digits fuel : forall n rest,
  0 <= n < 10 ^ Z.of_nat fuel -> scan_digits 0 (decimal_digits fuel n rest) = scan_digits n rest.
Proof.
  induction fuel as [| fuel IH]; intros n rest Hn; [change (10 ^ Z.of_nat 0) with 1 in Hn; by replace n with 0 by lia |].
  pose proof (Z.div_mod n 10 ltac:(lia)) as Hdm. pose proof (Z.mod_pos_bound n 10 ltac:(lia)) as Hm.
  assert (Hdigit : forall k, scan_digits k ((48 + n mod 10) :: rest) = scan_digits (10 * k + n mod 10) rest).
  { intros k. cbn [scan_digits]. unfold is_digit. rewrite (proj2 (Z.leb_le _ _)), (proj2 (Z.leb_le _ _)) by lia.
    cbn [andb]. f_equal. lia. }
  cbn [decimal_digits]. destruct (Z.ltb_spec n 10) as [Hs | Hs].
  - rewrite Hdigit. f_equal. rewrite Z.mod_small by lia. lia.
  - replace (Z.of_nat (S fuel)) with (Z.of_nat fuel + 1) in Hn by lia. rewrite Z.pow_add_r in Hn by lia.
    rewrite IH, Hdigit; [f_equal; lia |]. split; [by apply Z.div_pos; lia | apply Z.div_lt_upper_bound; lia].
Qed.
Lemma decimal_digits_head fuel : forall n rest,
  0 <= n -> exists c l, decimal_digits (S fuel) n rest = c :: l /\ 48 <= c <= 57.
Proof.
  induction fuel as [| fuel IH]; intros n rest Hn; pose proof (Z.mod_pos_bound n 10 ltac:(lia)).
  - exists (48 + n mod 10), rest. split; [| lia]. cbn [decimal_digits]. by destruct (n <? 10).
  - change (decimal_digits (S (S fuel)) n rest) with
      (if n <? 10 then (48 + n mod 10) :: rest else decimal_digits (S fuel) (n / 10) ((48 + n mod 10) :: rest)).
    destruct (n <? 10); [| apply IH, Z.div_pos; lia]. exists (48 + n mod 10), rest. split; [done | lia].
Qed.

(** A cluster number written in decimal is read back by the inserter, leading
    spaces or not. *)
Theorem scan_u_decimal n spaces
    (Hn : 0 <= n < 2 ^ 32) (Hsp : Forall (fun c => is_space c = true) spaces) :
  scan_u (spaces ++ decimal n) = Some n.
Proof.
  destruct (decimal_digits_head 19 n [] ltac:(lia)) as (c & l & Hd & Hc).
  assert (Hskip : skip_spaces (spaces ++ decimal n) = decimal n).
  { induction Hsp as [| x xs Hx _ IH]; [| cbn [app skip_spaces]; by rewrite Hx]. cbn [app]. unfold decimal.
    rewrite Hd. cbn [skip_spaces]. unfold is_space.
    rewrite (proj2 (Z.eqb_neq c 32)), (proj2 (Z.leb_gt c 13)) by lia. by rewrite andb_false_r. }
  unfold scan_u. rewrite Hskip. pose proof (scan_decimal_digits 20 n [] ltac:(lia)) as Hscan.
  unfold decimal. rewrite Hd in *. rewrite (proj2 (Z.eqb_neq c 45)), (proj2 (Z.eqb_neq c 43)) by lia.
  unfold scan_number, is_digit. rewrite (proj2 (Z.leb_le 48 c)), (proj2 (Z.leb_le c 57)) by lia. cbn [andb].
  rewrite Hscan. cbn [scan_digits]. rewrite (proj2 (Z.ltb_ge _ _)) by (unfold ULONG_MAX; lia). by rewrite u32_small.
Qed.

(** ** One run *)

Section Runs.
Context `{HostEnvironment}.
Implicit Types (h : Host) (v : Volume).

Definition target_bytes h (target : Path) : list Z := default [] (files h !! target).
(** What a run writes: the file, and behind one shorter than a cluster what [malloc]
    left in the buffer. *)
Definition insertion h (target : Path) (number : list Z) : Call :=
  let content := target_bytes h target in
  CallWrite (insert_request target number (zlen content))
    (ztake (Z.max CLUSTER_SIZE (zlen content)) (filled buffer_junk content)).

(** The arguments name a directory and an entry for it; the file fits its buffer and
    the volume has room for it. *)
Record insert_ok h (p : Z) v (target : Path) (number : list Z) : Prop := {
  io_number : scan_u number = Some p;
  io_text : Forall (fun c => 0 < c < 2 ^ 8) target;
  io_name : skip_spaces target <> [];
  io_size : zlen (target_bytes h target) <= IMAGE_SIZE;
  io_bytes : all_bytes (target_bytes h target);
  io_shadow : request_key (insert_request target number (zlen (target_bytes h target))) ∉ vol_shadow v;
  io_space : (if zlen (target_bytes h target) =? 0 then 1 else clusters_for (zlen (target_bytes h target)))
    <= vol_space v
}.

Lemma filled_length junk content : zlen content <= IMAGE_SIZE -> zlen (filled junk content) = IMAGE_SIZE.
Proof.
  intros Hl. pose proof (zlen_nonneg content). unfold filled. rewrite zlen_app, zlen_zdrop, zlen_image_bytes. lia.
Qed.

Lemma filled_source junk content :
  zlen content <= IMAGE_SIZE -> all_bytes content ->
  source_ok (zlen content) (ztake (Z.max CLUSTER_SIZE (zlen content)) (filled junk content)).
Proof.
  intros Hl Hb. split.
  - rewrite zlen_ztake, filled_length by done.
    pose proof (zlen_nonneg content). unfold IMAGE_SIZE, CLUSTER_SIZE, CLUSTER_BLOCK_COUNT, BLOCK_SIZE in *. lia.
  - apply Forall_take, Forall_app. split; [done |]. apply Forall_drop, image_bytes_all.
Qed.
Lemma filled_get junk content i :
  i < zlen content -> (ztake (Z.max CLUSTER_SIZE (zlen content)) (filled junk content)).[i] = content.[i].
Proof. intros Hi. rewrite zget_ztake by lia. unfold filled. by apply zget_app_l. Qed.

Lemma insertion_ok h p v target number (m : FlatMem) :
  insert_ok h p v target number -> image_ok m -> image_bytes m = filled buffer_junk (target_bytes h target) ->
  call_ok m p v (insertion h target number).
Proof.
  intros [Hn Ht Hne Hsz Hby Hsh Hsp] Hok Hm. unfold insertion. set (content := target_bytes h target) in *.
  destruct (scan_8s_ok target Ht Hne) as (w & Hw & Hlen & Hwb). destruct (padded_ok w Hlen Hwb) as (Hl & Hb & Hz).
  pose proof (zlen_nonneg content) as Hc.
  assert (Hsmall : 0 <= zlen content < 2 ^ 32) by (unfold IMAGE_SIZE in Hsz; lia).
  assert (Hreq : insert_request target number (zlen content) = mkRequest 0 (padded w) (zrep 3 0) p (zlen content))
    by (apply insert_request_eq; [done | lia | done | done]).
  rewrite Hreq in Hsh |- *. split; cbn [call_request buf req_name req_ext parent_cluster_number buffer_size].
  - split; cbn; [exact Hl | exact Hb | done | by apply Forall_zrep | exact Hsmall].
  - reflexivity.
  - exact Hz.
  - exact Hsh.
  - split; [intros Hz0; rewrite Hz0 in Hsp; by split |]. intros Hpos.
    rewrite (proj2 (Z.eqb_neq _ _)) in Hsp by lia. split_and!; [by apply filled_source | | exact Hsp].
    rewrite <- Hm. apply holds_ztake. by apply image_bytes_holds.
Qed.

(** The buffer when the file is there, and when it is not. *)
Lemma read_target_run h h0 st target :
  umem st = malloc buffer_junk -> zlen (target_bytes h target) <= IMAGE_SIZE -> all_bytes (target_bytes h target) ->
  exists m, read_target (files h !! target) (mkInserter h0 st) =
    Ok (zlen (target_bytes h target), mkInserter h0 (set_umem m st)) /\ image_ok m /\
    image_bytes m = filled buffer_junk (target_bytes h target).
Proof.
  unfold target_bytes, read_target. intros Hm Hsz Hby. destruct (files h !! target) as [content |]; cbn [default] in *.
  - destruct (fread_filled buffer_junk content Hsz Hby) as (m & Hrun & Hok & Heq). exists m.
    split; [| exact (conj Hok Heq)]. unfold bind, on_driver, fread_buffer. cbn [driver host]. rewrite Hm, Hrun. reflexivity.
  - exists (umem st). rewrite Hm. split_and!; [| done | done]. unfold ret. do 3 f_equal. rewrite <- Hm. by destruct st.
Qed.

Lemma insert_run argv0 target number storage more h img p own v :
  files h !! storage = Some img -> image_file img -> stands_for img p own v -> insert_ok h p v target number ->
  let step := vol_step v (insertion h target number) in
  exists img',
    inserter (argv0 :: target :: number :: storage :: more) h =
      Ok (0, mkHost (<[storage := img']> (files h))
               (stdout h ++ banner target (zlen (target_bytes h target)) ++ report step.1.1) (stderr h)) /\
    image_file img' /\ holds_volume img' p own step.1.2.
Proof.
  intros Himg [Hlen Hby] Hv Hok step.
  destruct (fread_filled image_junk img) as (d & Hread & Hd & Hdb); [lia | done |].
  set (st0 := mkFS d boot_driver_state (malloc buffer_junk) []).
  destruct (read_target_run h h st0 target eq_refl) as (m & Htarget & Hm & Hmb); [apply Hok.. |].
  destruct (Hv (set_umem m st0)) as (st1 & Hinit & Hrep & Hown & Hum); [exact Hd | |].
  { change (image_bytes d = img). rewrite Hdb. unfold filled. rewrite (zlen_0_inv (zdrop _ _)), app_nil_r; [done |].
    rewrite zlen_zdrop, zlen_image_bytes. lia. }
  pose proof (insertion_ok h p v target number m Hok Hm Hmb) as Hcall.
  destruct (call_agrees image_room st1 p v m _ Hrep Hcall) as (st2 & Hwrite & Hrep2 & _ & Hkept).
  assert (Hsame : set_umem m st1 = st1) by (cbn [umem set_umem st0] in Hum; rewrite <- Hum; by destruct st1).
  rewrite Hsame in Hwrite. fold step in Hwrite, Hrep2.
  change (write (insert_request target number (zlen (target_bytes h target))) st1 = Ok (step.1.1, st2)) in Hwrite.
  exists (image_bytes (disk st2)). split; [| split; [apply image_bytes_file |]].
  2: { exists st2. refine (conj eq_refl (conj Hrep2 _)). rewrite <- Hown. exact Hkept. }
  assert (Hargs : (zlen (argv0 :: target :: number :: storage :: more) <? 4) = false).
  { apply Z.ltb_ge. rewrite !zlen_cons. pose proof (zlen_nonneg more). lia. }
  unfold inserter, main. rewrite Hargs.
  change (znth [] (argv0 :: target :: number :: storage :: more) 1) with target.
  change (znth [] (argv0 :: target :: number :: storage :: more) 2) with number.
  change (znth [] (argv0 :: target :: number :: storage :: more) 3) with storage.
  run_step. cbn [host]. rewrite Himg. cbn [read_storage].
  erewrite (bind_run (on_driver (fread_image img)));
    [| unfold on_driver, fread_image; cbn [driver disk]; rewrite Hread; reflexivity].
  change (set_disk d _) with st0. cbn [host]. erewrite bind_run; [| exact Htarget].
  run_step. erewrite (bind_run (on_driver initialize_filesystem_fat32));
    [| unfold on_driver; cbn [driver]; rewrite Hinit; reflexivity].
  erewrite (bind_run (on_driver (write _))); [| unfold on_driver; cbn [driver]; rewrite Hwrite; reflexivity].
  do 3 run_step. unfold ret. cbn [host driver print set_files files stdout stderr]. by rewrite app_assoc.
Qed.

(** C5. A run of the inserter on an image does to the volume of the directory whose
    number is given what writing the file does: the entry gets the first eight
    characters of the file's name, a file that cannot be opened becomes a directory,
    and of a file shorter than a cluster what [malloc] left behind it goes to the
    disk too. The new image is written over the old one and holds the new volume, the
    directory's entry for itself included; no other file of the host changes; the code of [write] is reported. *)
Theorem insert_spec argv0 target number storage more h img p own v
    (Himg : files h !! storage = Some img) (Hfile : image_file img) (Hv : stands_for img p own v)
    (Hok : insert_ok h p v target number) :
  let step := vol_step v (insertion h target number) in
  exists img',
    inserter (argv0 :: target :: number :: storage :: more) h =
      Ok (0, mkHost (<[storage := img']> (files h))
               (stdout h ++ banner target (zlen (target_bytes h target)) ++ report step.1.1) (stderr h)) /\
    image_file img' /\ holds_volume img' p own step.1.2.
Proof. by apply (insert_run argv0 target number storage more h img p own v). Qed.

(** ** Several runs, and the machine that boots from the image *)

Fixpoint insertions h v (args : list (Path * list Z)) : Volume :=
  match args with
  | [] => v
  | (target, number) :: rest => insertions h (vol_step v (insertion h target number)).1.2 rest
  end.
Fixpoint insertions_ok h (storage : Path) (p : Z) v (args : list (Path * list Z)) : Prop :=
  match args with
  | [] => True
  | (target, number) :: rest =>
    target <> storage /\ insert_ok h p v target number /\
    insertions_ok h storage p (vol_step v (insertion h target number)).1.2 rest
  end.

(** Only the image changes. *)
Definition only_image h (storage : Path) h' : Prop :=
  forall path, path <> storage -> files h' !! path = files h !! path.

Lemma only_image_bytes h storage h' target :
  only_image h storage h' -> target <> storage -> target_bytes h' target = target_bytes h target.
Proof. intros Ho Ht. unfold target_bytes. by rewrite Ho. Qed.
Lemma only_image_insertions h storage h' p args : forall v,
  only_image h storage h' -> insertions_ok h storage p v args ->
  insertions_ok h' storage p v args /\ insertions h' v args = insertions h v args.
Proof.
  induction args as [| [target number] args IH]; intros v Ho Hok; [done |].
  destruct Hok as (Ht & Hok & Hrest). pose proof (only_image_bytes h storage h' target Ho Ht) as Hb.
  assert (Hi : insertion h' target number = insertion h target number) by (unfold insertion; by rewrite Hb).
  cbn [insertions insertions_ok]. rewrite Hi. destruct (IH _ Ho Hrest) as [? ?]. split_and!; try done.
  destruct Hok as [? ? ? ? ? ? ?]. split; by rewrite ?Hb.
Qed.

(** A sequence of runs on one image carries out its insertions. *)
Lemma inserter_runs_spec storage args : forall h img p own v,
  files h !! storage = Some img -> image_file img -> stands_for img p own v -> insertions_ok h storage p v args ->
  exists h' img', inserter_runs storage args h = Ok (zrep (zlen args) 0, h') /\ only_image h storage h' /\
    files h' !! storage = Some img' /\ image_file img' /\ stands_for img' p own (insertions h v args) /\
    (args <> [] -> holds_volume img' p own (insertions h v args)).
Proof.
  induction args as [| [target number] args IH]; intros h img p own v Himg Hf Hv Hok.
  - exists h, img. by split_and!.
  - destruct Hok as (Ht & Hok & Hrest).
    destruct (insert_run (str "./inserter") target number storage [] h img p own v Himg Hf Hv Hok)
      as (img1 & Hrun & Hf1 & Hh1). pose proof (holds_stands_for _ _ _ _ Hh1) as Hv1.
    match type of Hrun with _ = Ok (0, ?x) => set (h1 := x) in Hrun end.
    assert (Ho : only_image h storage h1) by (intros path Hp; cbn; by apply lookup_insert_ne).
    destruct (only_image_insertions h storage h1 p args _ Ho Hrest) as [Hrest1 Heq].
    destruct (IH h1 img1 p own _ (lookup_insert_eq _ _ _) Hf1 Hv1 Hrest1) as (h2 & img2 & Hrun2 & Ho2 & Himg2 & Hf2 & Hv2 & Hh2).
    exists h2, img2. cbn [insertions]. rewrite <- Heq. split_and!; try done.
    + cbn [inserter_runs]. erewrite bind_run; [| exact Hrun]. erewrite bind_run; [| exact Hrun2].
      unfold ret. do 2 f_equal. rewrite zlen_cons. unfold zrep.
      rewrite (Z2Nat.inj_add (zlen args) 1) by (pose proof (zlen_nonneg args); lia). by rewrite Nat.add_comm.
    + intros path Hp. rewrite Ho2 by done. by apply Ho.
    + intros _. destruct args as [| a args]; [| by apply Hh2]. cbn [inserter_runs] in Hrun2. injection Hrun2 as <-.
      subst h1. cbn [files] in Himg2. rewrite lookup_insert_eq in Himg2. by injection Himg2 as <-.
Qed.
End Runs.
