(* ===== verification/FatExample.v ===== *)
(** FatExample: the file system on the inserter's disk image. Each theorem of
    the file system is applied to a concrete state. *)

From Stdlib Require Import ZArith Lia.
From stdpp Require Import base tactics numbers strings list gmap.
From S2P Require Import Prelude Memory CString Disk FatLayout Fat32 FatLogic FatChain FatWrite.
From S2P Require Import FatRead FatDelete FatInit.
Import Image.

(** The state after an operation that ends. *)
Definition exec {S A : Type} (c : Eff S A) (s : S) : S :=
  match c s with
  | Ok (_, s') => s'
  | Fault _ => s
  end.

Lemma exec_ok {S A : Type} (c : Eff S A) (s s' : S) (a : A) : c s = Ok (a, s') -> exec c s = s'.
Proof. unfold exec. by intros ->. Qed.

Definition image_capacity : CLUSTER_BLOCK_COUNT * CLUSTER_MAP_SIZE <= dev_blocks (D := FlatMem) :=
  ltac:(by vm_compute).

(** ** A machine with a blank disk *)

Definition sample_bytes : list Z := (fun i => (7 * i + 1) mod 251) <$> seqZ 0 4096.
Definition user_memory : FlatMem :=
  let m := {| flat_lo := 4096; flat_hi := 65536; flat_cells := ∅ |} in
  match store_bytes 4096 sample_bytes m with Ok m' => m' | Fault _ => m end.

Definition start : FS FlatMem FlatMem := mkFS blank_image boot_driver_state user_memory [].
Definition formatted : FS FlatMem FlatMem := exec initialize_filesystem_fat32 start.

Definition file_name : list Z := str "hello" ++ zrep 3 0.
(** 3000 bytes at 4096: two clusters, the second with 952 bytes. *)
Definition write_request : FAT32DriverRequest := mkRequest 4096 file_name (str "txt") 2 3000.
(** A buffer of two clusters at 16384. *)
Definition read_request : FAT32DriverRequest := mkRequest 16384 file_name (str "txt") 2 4096.
Definition folder_name : list Z := str "docs" ++ zrep 4 0.
Definition folder_request : FAT32DriverRequest := mkRequest 16384 folder_name (zrep 3 0) 2 0.

Lemma start_blank : ~ has_signature start.
Proof.
  apply (bool_decide_eq_false_1 (ztake BLOCK_SIZE (cluster (disk start) 0) = fs_signature)).
  by vm_compute.
Qed.
Lemma start_ok : dev_ok (disk start).
Proof. done. Qed.

Lemma formatted_ok : Formatted start formatted.
Proof.
  destruct (format_ok image_capacity start start_ok start_blank) as (st' & Hrun & Hfm).
  unfold formatted. by rewrite (exec_ok _ _ _ _ Hrun).
Qed.

#[global] Opaque formatted.

Lemma bytes_dec (l : list Z) : forallb (fun b => (0 <=? b) && (b <? 256)) l = true -> all_bytes l.
Proof.
  intros Hl. apply Forall_forall. intros b Hb. rewrite forallb_forall in Hl.
  specialize (Hl b ltac:(by apply list_elem_of_In)). unfold is_byte.
  apply andb_prop in Hl as [?%Z.leb_le ?%Z.ltb_lt]. lia.
Qed.

Lemma user_bounds : flat_lo user_memory = 4096 /\ flat_hi user_memory = 65536.
Proof. by vm_compute. Qed.
Lemma user_mapped a n :
  4096 <= a -> a + n <= 65536 -> mapped user_memory a n /\ separate user_memory a n.
Proof.
  intros. destruct user_bounds as [Hlo Hhi].
  split; [apply flat_mapped | apply flat_separate]; lia.
Qed.
Lemma sample_bytes_ok : zlen sample_bytes = 4096 /\ all_bytes sample_bytes.
Proof. split; [by vm_compute |]. apply bytes_dec. by vm_compute. Qed.
Lemma user_holds : holds user_memory 4096 sample_bytes.
Proof.
  apply (load_bytes_inv (Z.to_nat 4096)).
  - apply (bool_decide_eq_true_1 (load_bytes (Z.to_nat 4096) 4096 user_memory = Ok sample_bytes)).
    by vm_compute.
  - rewrite Z2Nat.id by lia. by apply user_mapped.
Qed.
#[global] Opaque user_memory sample_bytes.

Lemma sample_request_ok nm ex b p n :
  zlen nm = 8 -> zlen ex = 3 -> forallb (fun b => (0 <=? b) && (b <? 256)) (nm ++ ex) = true ->
  0 <= n < 2 ^ 32 -> request_ok (mkRequest b nm ex p n).
Proof. intros ? ? Hb ?. apply bytes_dec, Forall_app in Hb as [? ?]. by split. Qed.

(** A request to the root directory of the formatted disk for a new name. *)
Lemma formatted_ready rq :
  request_ok rq -> parent_cluster_number rq = 2 ->
  find_entry 2 new_root_dir rq = None -> WriteReady formatted rq 2.
Proof.
  intros Hro Hp Hnew. pose proof formatted_ok as Hfm.
  assert (Hroot : dir_table formatted 2 = new_root_dir) by exact (fm_root _ _ Hfm).
  assert (Hfat : ~ is_free (fat_of formatted) 2).
  { unfold is_free. rewrite (fm_fat _ _ Hfm). by vm_compute. }
  split; rewrite ?Hp; rewrite ?Hroot; try assumption.
  - exact (fm_inv _ _ Hfm).
  - unfold in_fat, CLUSTER_MAP_SIZE. lia.
  - unfold FAT_CLUSTER_NUMBER. lia.
  - vm_compute. reflexivity.
  - vm_compute. reflexivity.
Qed.

Lemma formatted_umem : umem formatted = user_memory.
Proof. apply (fm_memory _ _ formatted_ok). Qed.

Lemma write_request_ready : WriteReady formatted write_request 2.
Proof. apply formatted_ready; [by apply sample_request_ok | done | by vm_compute]. Qed.
Lemma folder_request_ready : WriteReady formatted folder_request 2.
Proof. apply formatted_ready; [by apply sample_request_ok | done | by vm_compute]. Qed.

Lemma sample_source n : 2048 <= n <= 4096 -> source_ok n (ztake n sample_bytes).
Proof.
  intros Hn. destruct sample_bytes_ok as [Hlen Hby]. split; [| by apply Forall_take].
  rewrite zlen_ztake. change CLUSTER_SIZE with 2048. lia.
Qed.
Lemma sample_holds n : holds (umem formatted) 4096 (ztake n sample_bytes).
Proof. rewrite formatted_umem. apply holds_ztake, user_holds. Qed.
Lemma sample_clusters :
  [3; 4] = take (Z.to_nat (clusters_for 3000)) (free_clusters (fat_of formatted)).
Proof. by rewrite (fm_fat _ _ formatted_ok). Qed.

(** ** The theorems on the image *)

Lemma write_file_spec_witness :
  exists st', write write_request formatted = Ok (0, st') /\
    FileWritten formatted write_request 2 [3; 4] (ztake 3000 sample_bytes) st' /\ chain (fat_of st') 3 [3; 4].
Proof.
  apply (write_file_spec image_capacity formatted write_request 2 (ztake 3000 sample_bytes) [3; 4]);
    [apply write_request_ready | done | by apply sample_source | apply sample_holds
    | apply sample_clusters | done].
Defined.

Lemma write_folder_spec_witness :
  exists st', write folder_request formatted = Ok (0, st') /\
    FolderWritten formatted folder_request 2 3 st'.
Proof.
  apply (write_folder_spec image_capacity formatted folder_request 2 3 (seqZ 4 508));
    [apply folder_request_ready | done |].
  by rewrite (fm_fat _ _ formatted_ok).
Defined.

(** Cluster 3 of the formatted disk is empty: no directory. *)
Definition orphan_request : FAT32DriverRequest := mkRequest 4096 file_name (str "txt") 3 3000.
Lemma formatted_cluster_3 : dir_table formatted 3 = zero_table.
Proof.
  unfold dir_table. rewrite (fm_frame _ _ formatted_ok) by (vm_compute; done).
  by vm_compute.
Qed.

Lemma write_refused_spec_witness :
  exists st', write orphan_request formatted = Ok (2, st') /\ Unchanged formatted st'.
Proof.
  apply (write_refused_spec image_capacity); [apply (fm_inv _ _ formatted_ok) | by vm_compute |].
  change (parent_cluster_number orphan_request) with 3. rewrite formatted_cluster_3.
  by vm_compute.
Defined.

Lemma root_no_shadow rq :
  parent_cluster_number rq = 2 -> find_entry 0 new_root_dir rq = None ->
  find_entry 0 (dir_table formatted (parent_cluster_number rq)) rq = None.
Proof.
  intros Hp Hn. rewrite Hp. change 2 with ROOT_CLUSTER_NUMBER.
  by rewrite (fm_root _ _ formatted_ok).
Qed.

Lemma write_read_roundtrip_witness :
  exists st1 st2, write write_request formatted = Ok (0, st1) /\
    read read_request (set_umem user_memory st1) = Ok (0, st2) /\
    holds (umem st2) 16384 (ztake 3000 (ztake 3000 sample_bytes)).
Proof.
  apply (write_read_roundtrip image_capacity formatted write_request 2
           (ztake 3000 sample_bytes) [3; 4] user_memory read_request);
    [apply write_request_ready | done | by apply sample_source | apply sample_holds
    | apply sample_clusters | done | by apply root_no_shadow; vm_compute | by intros [? ?]
    | by split | by apply user_mapped | by apply user_mapped].
Defined.

(** 4096 bytes: two whole clusters. *)
Definition whole_request : FAT32DriverRequest := mkRequest 4096 file_name (str "txt") 2 4096.

Lemma write_loses_last_cluster_witness :
  exists st1 st2, write whole_request formatted = Ok (0, st1) /\
    read read_request (set_umem user_memory st1) = Ok (0, st2) /\
    holds (umem st2) (16384 + (4096 - CLUSTER_SIZE)) (zrep CLUSTER_SIZE 0).
Proof.
  apply (write_loses_last_cluster image_capacity formatted whole_request 2
           (ztake 4096 sample_bytes) [3; 4] user_memory read_request);
    [| done | by apply sample_source | apply sample_holds
    | by rewrite (fm_fat _ _ formatted_ok) | done | by apply root_no_shadow; vm_compute | by split
    | by split | by apply user_mapped | by apply user_mapped].
  apply formatted_ready; [by apply sample_request_ok | done | by vm_compute].
Defined.

(** ** A disk with one file and one with one directory *)

Definition written : FS FlatMem FlatMem := exec (write write_request) formatted.
Definition foldered : FS FlatMem FlatMem := exec (write folder_request) formatted.

Lemma written_ok :
  FileWritten formatted write_request 2 [3; 4] (ztake 3000 sample_bytes) written /\
  chain (fat_of written) 3 [3; 4].
Proof.
  destruct (write_file_written image_capacity formatted write_request 2
              (ztake 3000 sample_bytes) [3; 4]) as (st' & Hrun & Hw);
    [apply write_request_ready | done | by apply sample_source | apply sample_holds
    | apply sample_clusters | done |].
  unfold written. by rewrite (exec_ok _ _ _ _ Hrun).
Qed.
Lemma foldered_ok : FolderWritten formatted folder_request 2 3 foldered.
Proof.
  destruct (write_folder_written image_capacity formatted folder_request 2 3 (seqZ 4 508))
    as (st' & Hrun & Hw); [apply folder_request_ready | done | |].
  { by rewrite (fm_fat _ _ formatted_ok). }
  unfold foldered. by rewrite (exec_ok _ _ _ _ Hrun).
Qed.
#[global] Opaque written foldered.

(** The root directories of the two disks. *)
Lemma written_root : dir_table written 2 = new_root_dir.[2 := file_entry write_request 3].
Proof.
  destruct written_ok as [Hw _]. pose proof (fw_dir _ _ _ _ _ _ Hw) as Hd.
  change (parent_cluster_number write_request) with ROOT_CLUSTER_NUMBER in Hd.
  rewrite (fm_root _ _ formatted_ok) in Hd. exact Hd.
Qed.
Lemma foldered_root : dir_table foldered 2 = new_root_dir.[2 := folder_entry folder_request 3].
Proof.
  pose proof (fo_dir _ _ _ _ _ foldered_ok) as Hd.
  change (parent_cluster_number folder_request) with ROOT_CLUSTER_NUMBER in Hd.
  rewrite (fm_root _ _ formatted_ok) in Hd. exact Hd.
Qed.
Lemma written_umem : umem written = user_memory.
Proof. destruct written_ok as [Hw _]. rewrite (fw_memory _ _ _ _ _ _ Hw). apply formatted_umem. Qed.

Lemma read_spec_witness :
  exists st' m, read read_request written = Ok (0, st') /\ OnlyMemory written m st' /\
    stored (umem written) 16384 (chain_bytes (cluster (disk written)) [3; 4]) m.
Proof.
  destruct written_ok as [Hw Hch].
  apply (read_spec image_capacity written read_request 2 [3; 4]);
    change (parent_cluster_number read_request) with 2; rewrite ?written_root.
  - exact (fw_inv _ _ _ _ _ _ Hw).
  - by vm_compute.
  - by vm_compute.
  - by vm_compute.
  - by vm_compute.
  - by vm_compute.
  - exact Hch.
  - rewrite written_umem. by apply user_mapped.
Defined.

Lemma read_refused_spec_witness :
  exists st', read read_request formatted = Ok (2, st') /\
    OnlyMemory formatted (umem formatted) st'.
Proof.
  apply (read_refused_spec image_capacity); [exact (fm_inv _ _ formatted_ok) | by vm_compute |].
  change (parent_cluster_number read_request) with ROOT_CLUSTER_NUMBER.
  rewrite (fm_root _ _ formatted_ok). by vm_compute.
Defined.

(** The root directory's own row names it. *)
Definition root_request : FAT32DriverRequest :=
  mkRequest 16384 (str "root" ++ zrep 4 0) (zrep 3 0) 2 2048.

Lemma read_directory_spec_witness :
  exists st' m i, read_directory root_request formatted = Ok (0, st') /\
    OnlyMemory formatted m st' /\
    for_find 0 DIR_ENTRIES (fun i => same_name (row new_root_dir i) root_request) = Some i /\
    stored (umem formatted) 16384
      (cluster (disk formatted) (entry_cluster (row new_root_dir i))) m.
Proof.
  pose proof (read_directory_spec image_capacity formatted root_request) as Hs.
  change (parent_cluster_number root_request) with ROOT_CLUSTER_NUMBER in Hs.
  rewrite (fm_root _ _ formatted_ok) in Hs.
  replace (read_directory_refusal new_root_dir root_request) with (@None Z) in Hs by by vm_compute.
  apply Hs; [exact (inv_dev _ (fm_inv _ _ formatted_ok)) | by vm_compute | |].
  - rewrite formatted_umem. by apply user_mapped.
  - intros i Hi. replace (for_find _ _ _) with (Some 0) in Hi by by vm_compute.
    injection Hi as <-. by vm_compute.
Defined.

Lemma written_file : FileAt written write_request 2 [3; 4].
Proof.
  destruct written_ok as [Hw Hch].
  apply (written_file_at image_capacity formatted write_request 2 [3; 4] (ztake 3000 sample_bytes));
    [apply write_request_ready | exact Hw | exact Hch |].
  rewrite sample_clusters. apply Forall_take, free_from_free.
Qed.

Lemma delete_file_spec_witness :
  exists st', delete write_request written = Ok (0, st') /\
    FileDeleted written write_request 2 [3; 4] st' /\ Forall (is_free (fat_of st')) [3; 4].
Proof. apply (delete_file_spec image_capacity), written_file. Defined.

Lemma foldered_table : dir_table foldered 3 = new_folder_table folder_request 3.
Proof. apply (fo_table _ _ _ _ _ foldered_ok). Qed.
Lemma foldered_folder : FolderAt foldered folder_request 2 3.
Proof.
  split; change (parent_cluster_number folder_request) with 2; rewrite ?foldered_root.
  - exact (fo_inv _ _ _ _ _ foldered_ok).
  - by vm_compute.
  - by vm_compute.
  - by vm_compute.
  - by vm_compute.
  - by vm_compute.
  - by vm_compute.
  - by vm_compute.
  - by vm_compute.
Qed.

Lemma delete_folder_spec_witness :
  exists st', delete folder_request foldered = Ok (0, st') /\
    FolderDeleted foldered folder_request 2 3 st'.
Proof.
  apply (delete_folder_spec image_capacity); [apply foldered_folder |].
  rewrite foldered_table. by vm_compute.
Defined.

Lemma delete_refused_spec_witness :
  exists st', delete write_request formatted = Ok (1, st') /\ Unchanged formatted st'.
Proof.
  apply (delete_refused_spec image_capacity formatted write_request 1);
    [exact (inv_dev _ (fm_inv _ _ formatted_ok)) | by vm_compute | intros Hr; discriminate Hr |].
  unfold delete_refusal. change (parent_cluster_number write_request) with ROOT_CLUSTER_NUMBER.
  rewrite (fm_root _ _ formatted_ok). by vm_compute.
Defined.

Lemma delete_undoes_write_witness :
  exists st1 st2, write write_request formatted = Ok (0, st1) /\
    delete write_request st1 = Ok (0, st2) /\
    fat_of st2 = fat_of formatted /\
    cluster (disk st2) 1 = cluster (disk formatted) 1 /\
    dir_table st2 2 = (dir_table formatted 2).[2 := empty_entry] /\
    (forall c, c ∈ [3; 4] -> cluster (disk st2) c = zero_cluster) /\
    (forall c, in_fat c -> c <> 2 -> c ∉ [3; 4] ->
       cluster (disk st2) c = cluster (disk formatted) c).
Proof.
  apply (delete_undoes_write image_capacity formatted write_request 2 (ztake 3000 sample_bytes) [3; 4]);
    [apply write_request_ready | done | by apply sample_source | apply sample_holds
    | apply sample_clusters | done].
Defined.

Lemma format_then_mount_witness :
  exists st1, initialize_filesystem_fat32 start = Ok (tt, st1) /\ Formatted start st1 /\
    free_clusters (fat_of st1) = seqZ 3 509 /\
    forall s m, exists st2,
      initialize_filesystem_fat32 (restart s m st1) = Ok (tt, st2) /\ FSInv st2 /\
      fat_of st2 = fat_of st1 /\
      (forall c, in_fat c -> cluster (disk st2) c = cluster (disk st1) c).
Proof. apply (format_then_mount image_capacity); [apply start_ok | apply start_blank]. Defined.

(** An overlapping copy, four bytes up. *)
Lemma memmove_correct_witness :
  exists m', memmove 4100 4096 100 user_memory = Ok m' /\
    holds m' 4100 (ztake 100 sample_bytes) /\
    (forall c, ~ in_range user_memory 4100 100 c -> mem_get m' c = mem_get user_memory c) /\
    (forall a, mem_resolve m' a = mem_resolve user_memory a).
Proof.
  destruct sample_bytes_ok as [Hlen Hby].
  apply (memmove_correct user_memory 4100 4096 100 (ztake 100 sample_bytes));
    [rewrite zlen_ztake; lia | by apply Forall_take | lia.. | | |].
  - intros a b c Ha%flat_resolve Hb%flat_resolve. congruence.
  - apply holds_ztake, user_holds.
  - by apply user_mapped.
Defined.
