(* ===== verification/VolumeExample.v ===== *)
(** VolumeExample: calls on the root directory of the formatted image, and what
    they leave. *)

From Stdlib Require Import ZArith Lia.
From stdpp Require Import base tactics numbers strings list gmap.
From S2P Require Import Prelude Memory CString Disk FatLayout Fat32 FatLogic FatChain FatWrite.
From S2P Require Import FatRead FatDelete FatInit FatVolume FatExample.
Import Image.

(** A file is written, written again, read, deleted and read again; a directory
    is made and deleted. *)
Definition sample_calls : list (FlatMem * Call) :=
  (fun c => (user_memory, c)) <$>
    [CallWrite write_request (ztake 3000 sample_bytes); CallWrite write_request (ztake 3000 sample_bytes);
     CallRead read_request; CallDelete read_request; CallRead read_request;
     CallWrite folder_request []; CallDelete folder_request].

Lemma sample_codes :
  (vol_run fresh_volume sample_calls).1.*1 = [0; 1; 0; 0; 2; 0; 0] /\
  vol_space (vol_run fresh_volume sample_calls).2 = 509.
Proof. by vm_compute. Qed.

(** What a call needs besides its own part. *)
Lemma sample_call_ok (v : Volume) c :
  request_ok (call_request c) -> parent_cluster_number (call_request c) = 2 ->
  bool_decide (req_name (call_request c) = zrep 8 0) = false ->
  bool_decide (request_key (call_request c) ∈ vol_shadow v) = false ->
  match c with
  | CallWrite request data =>
    (buffer_size request = 0 -> req_ext request = zrep 3 0 /\ 1 <= vol_space v) /\
    (0 < buffer_size request -> source_ok (buffer_size request) data /\ holds user_memory (buf request) data /\
       clusters_for (buffer_size request) <= vol_space v)
  | CallRead request =>
    forall sz bytes, vol_nodes v !! request_key request = Some (File sz bytes) ->
      mapped user_memory (buf request) (zlen bytes)
  | CallDelete _ => True
  end -> call_ok user_memory ROOT_CLUSTER_NUMBER v c.
Proof.
  intros Hro Hp Hn%bool_decide_eq_false_1 Hs%bool_decide_eq_false_1 Hc. by split.
Qed.
Lemma sample_source_holds :
  source_ok 3000 (ztake 3000 sample_bytes) /\ holds user_memory 4096 (ztake 3000 sample_bytes).
Proof. split; [by apply sample_source |]. apply holds_ztake, user_holds. Qed.
Lemma write_request_ok : request_ok write_request.
Proof. by apply sample_request_ok. Qed.
Lemma folder_request_ok : request_ok folder_request.
Proof. by apply sample_request_ok. Qed.
Lemma read_request_ok : request_ok read_request.
Proof. by apply sample_request_ok. Qed.

Lemma small_node (nd : option Node) :
  match nd with Some (File _ bytes) => zlen bytes <=? 4096 | _ => true end = true ->
  forall sz bytes, nd = Some (File sz bytes) -> mapped user_memory 16384 (zlen bytes).
Proof. intros Hsmall sz bytes ->. apply Z.leb_le in Hsmall. apply user_mapped; lia. Qed.

Lemma sample_calls_ok : calls_ok ROOT_CLUSTER_NUMBER fresh_volume sample_calls.
Proof.
  destruct sample_source_holds as [Hs Hh].
  unfold sample_calls. cbn [calls_ok fmap list_fmap].
  repeat first [exact I | refine (conj _ _)]; apply sample_call_ok;
    try exact write_request_ok; try exact folder_request_ok; try exact read_request_ok;
    try match goal with
        | |- bool_decide _ = false => vm_compute; reflexivity
        | |- parent_cluster_number _ = _ => reflexivity
        | |- True => exact I
        end.
  1, 2: split; [discriminate |]; intros _; split; [exact Hs |]; split; [exact Hh | vm_compute; discriminate].
  1, 2: apply small_node; vm_compute; reflexivity.
  split; [| discriminate]. intros _. split; [reflexivity | vm_compute; discriminate].
Qed.

Lemma volume_refines_witness :
  exists answers st', run_calls sample_calls formatted = Ok (answers, st') /\
    Represents st' ROOT_CLUSTER_NUMBER (vol_run fresh_volume sample_calls).2 /\
    Forall3 (fun call spec answer => answer.1 = spec.1 /\ answered call.1 call.2 spec.2 answer.2)
      sample_calls (vol_run fresh_volume sample_calls).1 answers.
Proof.
  apply (volume_refines image_capacity);
    [apply (formatted_represents _ _ formatted_ok) | exact sample_calls_ok].
Defined.
