(* ===== verification/AtaExample.v ===== *)
(** AtaExample: a drive that keeps the ATA protocol, with the driver's theorem
    applied to it; the file system is formatted on it through the driver. *)

From Stdlib Require Import ZArith Lia.
From stdpp Require Import base tactics numbers list gmap.
From S2P Require Import Prelude Memory Disk Ata FatLayout Fat32 FatLogic FatInit.

Definition DRIVE_SECTORS : Z := 8192.

(** 4 MiB of sectors; [drive_wait] is how many polls the drive stays busy. *)
Record Drive := mkDrive {
  drive_phase : ata_phase;
  drive_wait : nat;
  drive_registers : Z -> Z;
  drive_media : gmap Z (list Z)
}.

(** Sectors of 512 bytes, whatever the medium holds. *)
Definition sector_of (l : list Z) : list Z := u8 <$> ztake BLOCK_SIZE (l ++ zrep BLOCK_SIZE 0).
Definition drive_sector (d : Drive) (b : Z) : list Z := sector_of (default [] (drive_media d !! b)).
Definition drive_busy (d : Drive) : nat := min (drive_wait d) 3.

Lemma zlen_sector_of l : zlen (sector_of l) = BLOCK_SIZE.
Proof.
  unfold sector_of. rewrite zlen_fmap, zlen_ztake, zlen_app, zlen_zrep by done.
  pose proof (zlen_nonneg l). unfold BLOCK_SIZE in *. lia.
Qed.
Lemma sector_of_bytes l : all_bytes (sector_of l).
Proof. apply Forall_fmap, Forall_forall. intros. apply u8_range. Qed.
Lemma sector_of_id l : zlen l = BLOCK_SIZE -> all_bytes l -> sector_of l = l.
Proof.
  intros Hl Hb. unfold sector_of. rewrite (ztake_app_eq BLOCK_SIZE l) by done.
  clear Hl. induction Hb as [| x l Hx _ IH]; [done |]. cbn. by rewrite IH, u8_small.
Qed.

Definition command_lba (r : Z -> Z) : Z :=
  r 0x1F3 + 2 ^ 8 * r 0x1F4 + 2 ^ 16 * r 0x1F5 + 2 ^ 24 * (r 0x1F6 mod 16).

#[export] Instance drive_ports : AtaPorts Drive := {|
  ata_in port d :=
    if decide (port = 0x1F7) then
      match drive_busy d with
      | O => (0x50, d)
      | S n => (0xD0, mkDrive (drive_phase d) n (drive_registers d) (drive_media d))
      end
    else (drive_registers d port, d);
  ata_out port v d :=
    if decide (port = 0x1F7) then
      let r := drive_registers d in
      let phase := if v =? 0x20 then DataIn (command_lba r) (r 0x1F2) 0 else DataOut (command_lba r) (r 0x1F2) [] in
      mkDrive phase 2 r (drive_media d)
    else mkDrive (drive_phase d) (drive_wait d) (fun p => if decide (p = port) then v else drive_registers d p)
           (drive_media d);
  ata_in16 port d :=
    match drive_phase d with
    | DataIn lba more word =>
      (le_val (zslice (2 * word) 2 (drive_sector d lba)),
       if word =? HALF_BLOCK_SIZE - 1
       then mkDrive (if more =? 1 then Idle else DataIn (lba + 1) (more - 1) 0) 3 (drive_registers d) (drive_media d)
       else mkDrive (DataIn lba more (word + 1)) 0 (drive_registers d) (drive_media d))
    | _ => (0, d)
    end;
  ata_out16 port v d :=
    match drive_phase d with
    | DataOut lba more taken =>
      let t := taken ++ le_bytes 2 v in
      if zlen t =? BLOCK_SIZE
      then mkDrive (if more =? 1 then Idle else DataOut (lba + 1) (more - 1) []) 3 (drive_registers d)
             (<[lba := t]> (drive_media d))
      else mkDrive (DataOut lba more t) 0 (drive_registers d) (drive_media d)
    | _ => d
    end;
  ata_polls := 3
|}.

Lemma command_lba_bytes lba r :
  0 <= lba < 2 ^ 28 -> r 0x1F3 = lba mod 2 ^ 8 -> r 0x1F4 = lba / 2 ^ 8 mod 2 ^ 8 ->
  r 0x1F5 = lba / 2 ^ 16 mod 2 ^ 8 -> r 0x1F6 = 0xE0 + lba / 2 ^ 24 -> command_lba r = lba.
Proof.
  intros Hl H3 H4 H5 H6. unfold command_lba. rewrite H3, H4, H5, H6.
  assert (Hq : 0 <= lba / 2 ^ 24 < 16) by (split; [apply Z.div_pos; lia | apply Z.div_lt_upper_bound; lia]).
  replace (0xE0 + lba / 2 ^ 24) with (lba / 2 ^ 24 + 14 * 16) by lia.
  rewrite Z.mod_add, (Z.mod_small _ 16) by lia.
  pose proof (Z.div_mod lba (2 ^ 8) ltac:(lia)). pose proof (Z.div_mod (lba / 2 ^ 8) (2 ^ 8) ltac:(lia)).
  pose proof (Z.div_mod (lba / 2 ^ 16) (2 ^ 8) ltac:(lia)).
  rewrite !Z.div_div in * by lia. change (2 ^ 8 * 2 ^ 8) with (2 ^ 16) in *. change (2 ^ 16 * 2 ^ 8) with (2 ^ 24) in *.
  lia.
Qed.

#[export] Instance drive_spec : AtaSpec Drive.
Proof.
  refine {| ata_phase_of := drive_phase; ata_busy := drive_busy; ata_register := drive_registers;
            ata_sector := drive_sector; ata_sectors := DRIVE_SECTORS |}.
  - done.
  - intros d b _. split; [apply zlen_sector_of | apply sector_of_bytes].
  - intros d. unfold drive_busy. cbn. lia.
  - intros d Hb. exists 0x50. cbn. by rewrite Hb.
  - intros d n Hb. exists 0xD0. eexists. cbn. rewrite Hb. split; [done |]. split; [done |]. split; [| done].
    unfold drive_busy in *. cbn. lia.
  - intros d port v Hb Hp Hr Hv d'.
    assert (d' = mkDrive (drive_phase d) (drive_wait d)
              (fun p => if decide (p = port) then v else drive_registers d p) (drive_media d)) as ->
      by (unfold d', ata_out, drive_ports; by rewrite decide_False by lia).
    split; [done |]. split; [done |]. split; [done |]. cbn [drive_registers].
    split; [by rewrite decide_True |]. intros p Hne. by rewrite decide_False.
  - intros d cmd lba count Hb Hp Hc Hl Hcap H2 H3 H4 H5 H6 Hcmd d'.
    assert (Hl' : command_lba (drive_registers d) = lba)
      by (apply command_lba_bytes; [unfold DRIVE_SECTORS in Hcap; lia | assumption..]).
    split; [done |]. unfold d'. cbn. by rewrite Hl', H2.
  - intros d lba left word Hb Hp Hl Hw. cbn. rewrite Hp. eexists. eexists. split; [done |].
    split.
    { apply u16_small. pose proof (le_val_range (zslice (2 * word) 2 (drive_sector d lba))) as Hr.
      rewrite zlen_zslice in Hr; [apply Hr, Forall_zslice, sector_of_bytes | lia | lia |].
      unfold drive_sector. rewrite zlen_sector_of. change HALF_BLOCK_SIZE with 256 in Hw. unfold BLOCK_SIZE. lia. }
    destruct (word =? _); [by split |]. by split.
  - intros d lba left taken v Hb Hp Hl Ht Htb Hv d' t.
    assert (Hd : d' = if zlen t =? BLOCK_SIZE
              then mkDrive (if left =? 1 then Idle else DataOut (lba + 1) (left - 1) []) 3 (drive_registers d)
                     (<[lba := t]> (drive_media d))
              else mkDrive (DataOut lba left t) 0 (drive_registers d) (drive_media d))
      by (unfold d', ata_out16, drive_ports; by rewrite Hp).
    clearbody d'. subst d'. destruct (Z.eqb_spec (zlen t) BLOCK_SIZE) as [Heq | Hne]; [| by split].
    split; [done |]. intros b _. unfold drive_sector. cbn [drive_media]. case_decide as Hd.
    + subst b. rewrite lookup_insert_eq. cbn. apply sector_of_id; [done |].
      apply Forall_app. split; [done | apply le_bytes_all_bytes].
    + by rewrite lookup_insert_ne by congruence.
Defined.

(** A blank drive, still busy with something. *)
Definition blank_drive : Drive := mkDrive Idle 3 (fun _ => 0) ∅.

Lemma ata_refines_blocks_witness :
  (exists d', ata_read_blocks 5 2 blank_drive = Ok (blocks_of (ata_sector blank_drive) 5 2, d') /\
     ata_phase_of d' = Idle /\ forall b, ata_sector d' b = ata_sector blank_drive b) /\
  (exists d', ata_write_blocks (zrep 1024 7) 5 2 blank_drive = Ok (tt, d') /\ ata_phase_of d' = Idle /\
     forall b, 0 <= b < ata_sectors -> ata_sector d' b =
       if decide (5 <= b < 5 + 2)
       then zslice (BLOCK_SIZE * (b - 5)) BLOCK_SIZE (zrep 1024 7) else ata_sector blank_drive b).
Proof.
  apply (ata_refines_blocks blank_drive 5 2 (zrep 1024 7));
    [reflexivity | lia | lia | by vm_compute | reflexivity |].
  apply Forall_zrep. by split.
Defined.

(** The file system formats this drive through the driver. *)
Definition drive_fs : FS Drive FlatMem :=
  mkFS blank_drive boot_driver_state {| flat_lo := 4096; flat_hi := 65536; flat_cells := ∅ |} [].
Lemma drive_blank : ~ has_signature drive_fs.
Proof.
  apply (bool_decide_eq_false_1 (ztake BLOCK_SIZE (cluster (disk drive_fs) 0) = fs_signature)).
  by vm_compute.
Qed.
Lemma drive_formats :
  exists st, initialize_filesystem_fat32 drive_fs = Ok (tt, st) /\ Formatted drive_fs st.
Proof. apply format_ok; [by vm_compute | done | apply drive_blank]. Qed.
