(* ===== verification/Paging.v ===== *)
(** Paging: src/paging/paging.c - page directories of 4 MiB pages, the map of
    physical frames, and address translation by the active directory. *)

From Stdlib Require Import ZArith Lia.
From stdpp Require Import base tactics numbers list gmap fin_maps.
From S2P Require Import Prelude Memory.
#[local] Open Scope eff_scope.

(** ** Constants *)

Definition PAGE_ENTRY_COUNT : Z := 1024.
Definition PAGE_FRAME_SIZE : Z := Z.shiftl 1 (2 + 10 + 10).
Definition PAGE_FRAME_MAX_COUNT : Z := 32.
Definition PAGING_DIRECTORY_TABLE_MAX_COUNT : Z := 32.
Definition KERNEL_VIRTUAL_ADDRESS_BASE : Z := 0xC0000000.
(** The entry that maps the kernel's half: [0xC0000000 >> 22]. *)
Definition KERNEL_PAGE_INDEX : Z := 0x300.

(** ** Page directories *)

Record PageDirectoryEntryFlag := mkFlag {
  present_bit : bool;
  write_bit : bool;
  user_supervisor_bit : bool;
  pwt_bit : bool;
  pcd_bit : bool;
  accessed_bit : bool;
  dirty_bit : bool;
  use_pagesize_4_mb : bool
}.

Record PageDirectoryEntry := mkPDE {
  flag : PageDirectoryEntryFlag;
  global_page : Z;
  ignored : Z;
  pat_support : Z;
  higher_address : Z;
  reserved : Z;
  lower_address : Z
}.

#[export] Instance flag_eq_dec : EqDecision PageDirectoryEntryFlag.
Proof. solve_decision. Defined.
#[export] Instance pde_eq_dec : EqDecision PageDirectoryEntry.
Proof. solve_decision. Defined.

Abbreviation PageDirectory := (list PageDirectoryEntry).

Definition zero_flag : PageDirectoryEntryFlag :=
  mkFlag false false false false false false false false.
Definition zero_entry : PageDirectoryEntry := mkPDE zero_flag 0 0 0 0 0 0.
Definition zero_directory : PageDirectory := zrep PAGE_ENTRY_COUNT zero_entry.

Definition kernel_flag : PageDirectoryEntryFlag :=
  mkFlag true true false false false false false true.
Definition user_flag : PageDirectoryEntryFlag :=
  mkFlag true true true false false false false true.
Definition kernel_entry : PageDirectoryEntry := mkPDE kernel_flag 0 0 0 0 0 0.

(** [entry.flag = f; entry.lower_address = a;] *)
Definition set_mapping (f : PageDirectoryEntryFlag) (a : Z) (e : PageDirectoryEntry)
  : PageDirectoryEntry :=
  mkPDE f (global_page e) (ignored e) (pat_support e) (higher_address e) (reserved e) a.

Definition entry (d : PageDirectory) (i : Z) : PageDirectoryEntry := znth zero_entry d i.

(** [((uint32_t) virtual_addr >> 22) & 0x3FF] *)
Definition page_index (virtual_addr : Z) : Z := Z.land (Z.shiftr (u32 virtual_addr) 22) 0x3FF.

(** The directory the boot code leaves: [_paging_kernel_page_directory] with its
    identity mapping removed. *)
Definition boot_kernel_directory : PageDirectory :=
  zero_directory.[KERNEL_PAGE_INDEX := kernel_entry].

(** ** State

    The variables of paging.c, the register CR3 and the translations the
    processor has cached. *)
Record Paging := mkPaging {
  kernel_directory : PageDirectory;
  page_directory_list : list PageDirectory;
  page_directory_used : list bool;
  page_frame_map : list bool;
  free_page_frame_count : Z;
  cr3 : Z;
  tlb : gmap Z PageDirectoryEntry
}.

Definition set_kernel_directory (d : PageDirectory) (s : Paging) : Paging :=
  mkPaging d (page_directory_list s) (page_directory_used s) (page_frame_map s)
    (free_page_frame_count s) (cr3 s) (tlb s).
Definition set_directories (l : list PageDirectory) (u : list bool) (s : Paging) : Paging :=
  mkPaging (kernel_directory s) l u (page_frame_map s) (free_page_frame_count s) (cr3 s) (tlb s).
Definition set_frames (m : list bool) (n : Z) (s : Paging) : Paging :=
  mkPaging (kernel_directory s) (page_directory_list s) (page_directory_used s) m n (cr3 s) (tlb s).
Definition set_cr3 (c : Z) (s : Paging) : Paging :=
  mkPaging (kernel_directory s) (page_directory_list s) (page_directory_used s)
    (page_frame_map s) (free_page_frame_count s) c ∅.
Definition set_tlb (t : gmap Z PageDirectoryEntry) (s : Paging) : Paging :=
  mkPaging (kernel_directory s) (page_directory_list s) (page_directory_used s)
    (page_frame_map s) (free_page_frame_count s) (cr3 s) t.

(** Where the linker puts the page directories: page aligned, in the 4 MiB of the
    kernel, the list apart from the kernel's own directory. *)
Class Layout := {
  kernel_directory_addr : Z;
  page_directory_list_addr : Z
}.
Class LayoutOk `{Layout} := {
  layout_kernel : KERNEL_VIRTUAL_ADDRESS_BASE < kernel_directory_addr /\
    kernel_directory_addr + 4096 <= KERNEL_VIRTUAL_ADDRESS_BASE + PAGE_FRAME_SIZE;
  layout_list : KERNEL_VIRTUAL_ADDRESS_BASE < page_directory_list_addr /\
    page_directory_list_addr + 4096 * PAGING_DIRECTORY_TABLE_MAX_COUNT <=
      KERNEL_VIRTUAL_ADDRESS_BASE + PAGE_FRAME_SIZE;
  layout_apart : kernel_directory_addr + 4096 <= page_directory_list_addr \/
    page_directory_list_addr + 4096 * PAGING_DIRECTORY_TABLE_MAX_COUNT <= kernel_directory_addr
}.

(** A [struct PageDirectory*] points at one of the directories. *)
Inductive pd_ref : Type := KernelDir | ListDir (i : Z).
#[export] Instance pd_ref_eq_dec : EqDecision pd_ref.
Proof. solve_decision. Defined.

(** ** Operations *)

Section Operations.
Context `{Layout}.

(** [&page_directory_list[i]] *)
Definition directory_addr (i : Z) : Z := page_directory_list_addr + 4096 * i.

Definition pd_of_addr (p : Z) : option pd_ref :=
  if decide (p = kernel_directory_addr) then Some KernelDir
  else
    let i := (p - page_directory_list_addr) / 4096 in
    if decide (p = directory_addr i /\ 0 <= i < PAGING_DIRECTORY_TABLE_MAX_COUNT)
    then Some (ListDir i) else None.

Definition directory (s : Paging) (r : pd_ref) : option PageDirectory :=
  match r with
  | KernelDir => Some (kernel_directory s)
  | ListDir i => (page_directory_list s).[i]
  end.
Definition with_directory (r : pd_ref) (d : PageDirectory) (s : Paging) : Paging :=
  match r with
  | KernelDir => set_kernel_directory d s
  | ListDir i => set_directories (page_directory_list s).[i := d] (page_directory_used s) s
  end.

(** Access through a [struct PageDirectory*]. *)
Definition get_directory (p : Z) : Eff Paging PageDirectory :=
  fun s => of_res (of_option BadAccess (pd_of_addr p ≫= directory s)) s.
Definition put_directory (p : Z) (d : PageDirectory) : Eff Paging unit :=
  fun s => match pd_of_addr p with
           | Some r => Ok (tt, with_directory r d s)
           | None => Fault BadAccess
           end.

(** invlpg: the processor forgets the page of the address. *)
Definition flush_single_tlb (virtual_addr : Z) : Eff Paging unit :=
  modify (fun s => set_tlb (delete (page_index virtual_addr) (tlb s)) s).

Definition update_page_directory_entry (page_dir physical_addr virtual_addr : Z)
    (f : PageDirectoryEntryFlag) : Eff Paging unit :=
  let i := page_index virtual_addr in
  d <- get_directory page_dir ;;
  put_directory page_dir
    d.[i := set_mapping f (Z.land (Z.shiftr (u32 physical_addr) 22) 0x3FF) (entry d i)] ;;;
  flush_single_tlb virtual_addr.

Definition paging_allocate_check (amount : Z) : Eff Paging bool :=
  gets (fun s => negb (free_page_frame_count s <? amount)).

(** First fit. *)
Definition find_free_frame (m : list bool) : option Z :=
  for_find 0 PAGE_FRAME_MAX_COUNT (fun i => negb (znth true m i)).

Definition paging_allocate_user_page_frame (page_dir virtual_addr : Z) : Eff Paging Z :=
  m <- gets page_frame_map ;;
  match find_free_frame m with
  | None => ret (u32 (-1))
  | Some i =>
    modify (fun s => set_frames m.[i := true] (u32 (free_page_frame_count s - 1)) s) ;;;
    update_page_directory_entry page_dir (u32 (i * PAGE_FRAME_SIZE)) virtual_addr user_flag ;;;
    ret i
  end.

(** [junk] is the flag of the entry, a local variable nothing initialises. *)
Definition paging_free_user_page_frame (junk : PageDirectoryEntryFlag) (page_dir virtual_addr : Z)
  : Eff Paging bool :=
  d <- get_directory page_dir ;;
  let page_num :=
    u32 (Z.shiftl (lower_address (entry d (page_index virtual_addr))) 22) / PAGE_FRAME_SIZE in
  m <- gets page_frame_map ;;
  used <- of_res (of_option BadAccess m.[page_num]) ;;
  if (used : bool) then
    modify (fun s => set_frames m.[page_num := false] (free_page_frame_count s) s) ;;;
    update_page_directory_entry page_dir 0 virtual_addr junk ;;;
    modify (fun s => set_frames (page_frame_map s) (u32 (free_page_frame_count s + 1)) s) ;;;
    ret true
  else ret false.

Definition paging_create_new_page_directory : Eff Paging Z :=
  u <- gets page_directory_used ;;
  match for_find 0 PAGING_DIRECTORY_TABLE_MAX_COUNT (fun i => negb (znth true u i)) with
  | None => ret 0
  | Some i =>
    modify (fun s => set_directories (page_directory_list s) u.[i := true] s) ;;;
    d <- get_directory (directory_addr i) ;;
    put_directory (directory_addr i) d.[KERNEL_PAGE_INDEX := kernel_entry] ;;;
    ret (directory_addr i)
  end.

(** [for (i = 0; i < 32; i++) if (&page_directory_list[i] == page_dir) ...] *)
Definition free_directory_step (page_dir : Z) (s : Paging) (i : Z) : Paging :=
  if directory_addr i =? page_dir
  then set_directories (page_directory_list s).[i := zero_directory]
         (page_directory_used s).[i := false] s
  else s.
Definition paging_free_page_directory (page_dir : Z) : Eff Paging bool :=
  modify (fun s => foldl (free_directory_step page_dir) s
                     (seqZ 0 PAGING_DIRECTORY_TABLE_MAX_COUNT)) ;;;
  ret false.

Definition paging_get_current_page_directory_addr : Eff Paging Z :=
  gets (fun s => u32 (cr3 s + KERNEL_VIRTUAL_ADDRESS_BASE)).

(** Loading CR3 drops every cached translation. *)
Definition paging_use_page_directory (page_dir_virtual_addr : Z) : Eff Paging unit :=
  modify (set_cr3
    (if KERNEL_VIRTUAL_ADDRESS_BASE <? page_dir_virtual_addr
     then u32 (page_dir_virtual_addr - KERNEL_VIRTUAL_ADDRESS_BASE)
     else page_dir_virtual_addr)).

(** The state in which the kernel's C code starts. *)
Definition boot_paging : Paging := {|
  kernel_directory := boot_kernel_directory;
  page_directory_list := zrep PAGING_DIRECTORY_TABLE_MAX_COUNT zero_directory;
  page_directory_used := zrep PAGING_DIRECTORY_TABLE_MAX_COUNT false;
  page_frame_map := zrep PAGE_FRAME_MAX_COUNT false;
  free_page_frame_count := PAGE_FRAME_MAX_COUNT;
  cr3 := kernel_directory_addr - KERNEL_VIRTUAL_ADDRESS_BASE;
  tlb := ∅
|}.

(** ** Translation *)

(** What an entry maps an address of its page to. *)
Definition entry_translate (e : PageDirectoryEntry) (va : Z) : option Z :=
  if present_bit (flag e) && use_pagesize_4_mb (flag e)
  then Some (Z.shiftl (lower_address e) 22 + u32 va mod PAGE_FRAME_SIZE)
  else None.
Definition translate_in (d : PageDirectory) (va : Z) : option Z :=
  entry_translate (entry d (page_index va)) va.

(** The directory CR3 names. *)
Definition active_directory (s : Paging) : option pd_ref :=
  pd_of_addr (u32 (cr3 s + KERNEL_VIRTUAL_ADDRESS_BASE)).
Definition translate (s : Paging) (va : Z) : option Z :=
  match active_directory s ≫= directory s with
  | Some d => translate_in d va
  | None => None
  end.
End Operations.

(** ** The memory a program sees *)

Record PagedMemory := mkPaged {
  paging : Paging;
  frames : gmap Z Z
}.

#[export] Instance paged_memory `{Layout} : ByteMem PagedMemory := {|
  mem_resolve m va := translate (paging m) va;
  mem_get m pa := u8 (default 0 (frames m !! pa));
  mem_put pa v m := mkPaged (paging m) (<[pa := u8 v]> (frames m))
|}.
#[export] Instance paged_memory_laws `{Layout} : ByteMemLaws PagedMemory.
Proof.
  split; unfold mem_get, mem_put, mem_resolve; cbn.
  - intros. apply u8_range.
  - done.
  - intros. rewrite lookup_insert_eq. apply u8_small, u8_range.
  - intros. by rewrite lookup_insert_ne.
Qed.
