(* ===== verification/PagingSpec.v ===== *)
(** PagingSpec: the invariant of the page directories and of the frame map, what
    each operation of paging.c does to them, and the isolation it gives. *)

From Stdlib Require Import ZArith Lia.
From stdpp Require Import base tactics numbers list gmap fin_maps.
From S2P Require Import Prelude Memory Paging.

(** ** Arithmetic of addresses *)

Lemma PAGE_FRAME_SIZE_eq : PAGE_FRAME_SIZE = 2 ^ 22.
Proof. done. Qed.
Lemma land_3FF x : Z.land x 0x3FF = x mod 2 ^ 10.
Proof. change 0x3FF with (Z.ones 10). apply Z.land_ones. lia. Qed.
Lemma page_index_range va : 0 <= page_index va < PAGE_ENTRY_COUNT.
Proof. unfold page_index. rewrite land_3FF. by apply (Z.mod_pos_bound _ (2 ^ 10)). Qed.
Lemma page_index_eq va : page_index va = u32 va / PAGE_FRAME_SIZE.
Proof.
  unfold page_index. rewrite land_3FF, Z.shiftr_div_pow2, PAGE_FRAME_SIZE_eq by lia.
  pose proof (u32_range va). apply Z.mod_small. split; [apply Z.div_pos; lia |].
  apply Z.div_lt_upper_bound; lia.
Qed.
Lemma frame_of_addr i :
  0 <= i < PAGE_ENTRY_COUNT -> Z.land (Z.shiftr (u32 (u32 (i * PAGE_FRAME_SIZE))) 22) 0x3FF = i.
Proof.
  unfold PAGE_ENTRY_COUNT. intros Hi. rewrite u32_idemp, PAGE_FRAME_SIZE_eq.
  rewrite u32_small by lia. rewrite land_3FF, Z.shiftr_div_pow2, Z.div_mul by lia.
  apply Z.mod_small. lia.
Qed.
Lemma page_num_of_lower a :
  0 <= a < PAGE_ENTRY_COUNT -> u32 (Z.shiftl a 22) / PAGE_FRAME_SIZE = a.
Proof.
  unfold PAGE_ENTRY_COUNT. intros Ha. rewrite Z.shiftl_mul_pow2, PAGE_FRAME_SIZE_eq by lia.
  rewrite u32_small by lia. apply Z.div_mul. lia.
Qed.

(** ** Counting free frames *)

Definition count_free (m : list bool) : Z := zlen (filter (fun b => b = false) m).

Lemma zset_split {A} (l : list A) i x y :
  l.[i] = Some y -> exists l1 l2, l = l1 ++ y :: l2 /\ l.[i := x] = l1 ++ x :: l2.
Proof.
  unfold zget, zset. case_decide; [| done]. intros Hi.
  exists (take (Z.to_nat i) l), (drop (S (Z.to_nat i)) l). split.
  - by rewrite take_drop_middle.
  - apply insert_take_drop. by apply lookup_lt_Some in Hi.
Qed.
Lemma count_free_take m i : m.[i] = Some false -> count_free m.[i := true] = count_free m - 1.
Proof.
  intros Hi. destruct (zset_split m i true false Hi) as (l1 & l2 & -> & ->).
  unfold count_free. rewrite !filter_app, !filter_cons, !zlen_app.
  repeat case_decide; try done; rewrite ?zlen_cons; lia.
Qed.
Lemma count_free_release m i : m.[i] = Some true -> count_free m.[i := false] = count_free m + 1.
Proof.
  intros Hi. destruct (zset_split m i false true Hi) as (l1 & l2 & -> & ->).
  unfold count_free. rewrite !filter_app, !filter_cons, !zlen_app.
  repeat case_decide; try done; rewrite ?zlen_cons; lia.
Qed.
Lemma count_free_bounds m : 0 <= count_free m <= zlen m.
Proof.
  split; [apply zlen_nonneg |]. unfold count_free, zlen.
  pose proof (length_filter (fun b => b = false) m). lia.
Qed.

(** The search stops at the lowest free frame, and finds one when the count is
    positive. *)
Lemma find_free_frame_Some m i :
  zlen m = PAGE_FRAME_MAX_COUNT -> find_free_frame m = Some i ->
  m.[i] = Some false /\ forall j, 0 <= j < i -> m.[j] = Some true.
Proof.
  intros Hlen Hf. unfold find_free_frame in Hf. apply for_find_Some in Hf as (Hi & Hp & Hlt).
  rewrite <- Hlen in Hi. split.
  - rewrite (zget_znth true) by lia. by destruct (znth true m i).
  - intros j Hj. rewrite (zget_znth true) by lia. specialize (Hlt j Hj).
    by destruct (znth true m j).
Qed.
Lemma find_free_frame_None m :
  zlen m = PAGE_FRAME_MAX_COUNT -> find_free_frame m = None <-> count_free m = 0.
Proof.
  intros Hlen. unfold find_free_frame. rewrite for_find_None, <- Hlen. split.
  - intros Hall. unfold count_free. destruct (filter _ m) as [| b l] eqn:Hf; [done |].
    assert (Hin : b ∈ filter (fun b => b = false) m) by (rewrite Hf; left).
    apply list_elem_of_filter in Hin as [Heq [j Hj]%elem_zget].
    pose proof (zget_range _ _ _ Hj). specialize (Hall j ltac:(lia)).
    by rewrite (znth_Some _ _ _ _ Hj), Heq in Hall.
  - intros Hc j Hj. destruct (zget_is_Some m j Hj) as [[] Hb].
    + by rewrite (znth_Some _ _ _ _ Hb).
    + assert (Hin : false ∈ filter (fun b => b = false) m).
      { apply list_elem_of_filter. split; [done | by apply (zget_elem m j)]. }
      unfold count_free in Hc. rewrite (zlen_0_inv _ Hc) in Hin. by apply not_elem_of_nil in Hin.
Qed.

Section Spec.
Context `{LayoutOk}.
Implicit Types (s : Paging) (r : pd_ref) (d : PageDirectory).

(** ** Pointers to directories *)

Definition valid_ref r : Prop :=
  match r with
  | KernelDir => True
  | ListDir i => 0 <= i < PAGING_DIRECTORY_TABLE_MAX_COUNT
  end.
Definition addr_of r : Z :=
  match r with
  | KernelDir => kernel_directory_addr
  | ListDir i => directory_addr i
  end.

Lemma pd_of_addr_of r : valid_ref r -> pd_of_addr (addr_of r) = Some r.
Proof.
  destruct layout_kernel, layout_list, layout_apart as [Ha | Ha]; destruct r as [| i]; cbn; intros Hr;
    unfold pd_of_addr, directory_addr, PAGING_DIRECTORY_TABLE_MAX_COUNT in *;
    (case_decide; [first [done | exfalso; lia] | first [done | idtac]]);
    replace (page_directory_list_addr + 4096 * i - page_directory_list_addr) with (i * 4096) by lia;
    rewrite Z.div_mul by lia; by rewrite decide_True by lia.
Qed.
Lemma pd_of_addr_valid p r : pd_of_addr p = Some r -> valid_ref r /\ p = addr_of r.
Proof.
  unfold pd_of_addr. case_decide; [by intros [= <-] |].
  case_decide as Hd; [| done]. intros [= <-]. destruct Hd as [Hp Hi]. done.
Qed.

(** CR3 holds physical addresses: the round trip through it. *)
Lemma addr_range r :
  valid_ref r -> KERNEL_VIRTUAL_ADDRESS_BASE < addr_of r < KERNEL_VIRTUAL_ADDRESS_BASE + PAGE_FRAME_SIZE.
Proof.
  destruct layout_kernel, layout_list. destruct r as [| i]; cbn; intros Hr;
    unfold directory_addr, PAGING_DIRECTORY_TABLE_MAX_COUNT in *; lia.
Qed.

(** ** Entries *)

Definition pd_entry s r (i : Z) : PageDirectoryEntry :=
  entry (default zero_directory (directory s r)) i.

(** A page of the user half that a directory maps. *)
Definition maps s r (i : Z) : Prop :=
  valid_ref r /\ 0 <= i < PAGE_ENTRY_COUNT /\ i <> KERNEL_PAGE_INDEX /\
  present_bit (flag (pd_entry s r i)) = true.
Definition in_use s r : Prop :=
  match r with
  | KernelDir => True
  | ListDir i => (page_directory_used s).[i] = Some true
  end.

Definition tables_ok s : Prop :=
  forall r, valid_ref r -> exists d, directory s r = Some d /\ zlen d = PAGE_ENTRY_COUNT.

(** The invariant: the count is the number of free frames; unused directories are
    zero; used ones map the kernel's half; a mapped user page has a frame that is
    taken, and no two mapped user pages share one. *)
Record PagingInv s : Prop := {
  pi_frames : zlen (page_frame_map s) = PAGE_FRAME_MAX_COUNT;
  pi_count : free_page_frame_count s = count_free (page_frame_map s);
  pi_used : zlen (page_directory_used s) = PAGING_DIRECTORY_TABLE_MAX_COUNT;
  pi_table : tables_ok s;
  pi_unused : forall i, (page_directory_used s).[i] = Some false ->
    directory s (ListDir i) = Some zero_directory;
  pi_kernel : forall r, valid_ref r -> in_use s r -> pd_entry s r KERNEL_PAGE_INDEX = kernel_entry;
  pi_owned : forall r i, maps s r i ->
    (page_frame_map s).[lower_address (pd_entry s r i)] = Some true;
  pi_unique : forall r i r' i', maps s r i -> maps s r' i' ->
    lower_address (pd_entry s r i) = lower_address (pd_entry s r' i') -> r = r' /\ i = i'
}.

(** ** Mapping a page *)

Definition map_page r (va : Z) (f : PageDirectoryEntryFlag) (a : Z) s : Paging :=
  let d := default zero_directory (directory s r) in
  let i := page_index va in
  set_tlb (delete i (tlb s)) (with_directory r d.[i := set_mapping f a (entry d i)] s).

Lemma update_run s r d pa va f :
  valid_ref r -> directory s r = Some d ->
  update_page_directory_entry (addr_of r) pa va f s =
    Ok (tt, map_page r va f (Z.land (Z.shiftr (u32 pa) 22) 0x3FF) s).
Proof.
  intros Hr Hd. unfold update_page_directory_entry, bind, get_directory, put_directory.
  rewrite pd_of_addr_of by done. cbn [mbind option_bind]. rewrite Hd. cbn.
  unfold map_page. rewrite Hd. cbn. f_equal. f_equal. by destruct r.
Qed.

Lemma directory_with s r r' d :
  valid_ref r -> is_Some (directory s r) ->
  directory (with_directory r d s) r' = if decide (r = r') then Some d else directory s r'.
Proof.
  intros Hr [d0 Hd]. destruct r as [| i], r' as [| j]; cbn in *; try (by case_decide).
  rewrite zget_zset. pose proof (zget_range _ _ _ Hd).
  destruct (decide (ListDir i = ListDir j)) as [[= <-] | Hne]; [by rewrite decide_True |].
  rewrite decide_False; [done |]. intros [-> _]. done.
Qed.
Lemma directory_set_tlb s t r : directory (set_tlb t s) r = directory s r.
Proof. by destruct r. Qed.
Lemma directory_set_frames s m n r : directory (set_frames m n s) r = directory s r.
Proof. by destruct r. Qed.

Lemma entry_zset d i j e :
  0 <= i < zlen d -> entry d.[i := e] j = if decide (i = j) then e else entry d j.
Proof.
  intros Hi. unfold entry, znth. rewrite zget_zset.
  destruct (decide (i = j)) as [<- | Hne].
  - by rewrite decide_True.
  - by rewrite decide_False by tauto.
Qed.

Lemma pd_entry_map_page s r va f a r' j :
  tables_ok s -> valid_ref r ->
  pd_entry (map_page r va f a s) r' j =
    if decide (r = r' /\ page_index va = j) then set_mapping f a (pd_entry s r j)
    else pd_entry s r' j.
Proof.
  intros Htab Hr. destruct (Htab r Hr) as (d & Hd & Hlen).
  unfold pd_entry, map_page. rewrite directory_set_tlb, directory_with by (done || by exists d).
  pose proof (page_index_range va). rewrite Hd. cbn [from_option id].
  destruct (decide (r = r')) as [<- | Hne].
  - cbn [from_option id]. rewrite entry_zset by (by rewrite Hlen).
    destruct (decide (page_index va = j)) as [<- | Hj].
    + by rewrite decide_True.
    + rewrite decide_False by tauto. by rewrite Hd.
  - by rewrite decide_False by tauto.
Qed.

(** [map_page] changes one entry and nothing else of what the invariant sees. *)
Lemma map_page_frames s r va f a :
  page_frame_map (map_page r va f a s) = page_frame_map s /\
  free_page_frame_count (map_page r va f a s) = free_page_frame_count s /\
  page_directory_used (map_page r va f a s) = page_directory_used s /\
  cr3 (map_page r va f a s) = cr3 s.
Proof. by destruct r. Qed.

Lemma map_page_tables s r va f a :
  tables_ok s -> valid_ref r -> tables_ok (map_page r va f a s).
Proof.
  intros Htab Hr r' Hr'. destruct (Htab r Hr) as (d & Hd & Hlen).
  unfold map_page. rewrite directory_set_tlb, directory_with by (done || by exists d).
  case_decide; [| by apply Htab]. eexists. split; [done |]. rewrite zlen_zset.
  by rewrite Hd.
Qed.

Lemma maps_map_page s r va f a r' j :
  tables_ok s -> valid_ref r ->
  maps (map_page r va f a s) r' j ->
  (r = r' /\ page_index va = j /\ present_bit f = true /\ j <> KERNEL_PAGE_INDEX) \/
  (~ (r = r' /\ page_index va = j) /\ maps s r' j).
Proof.
  intros Htab Hr (Hr' & Hj & Hk & Hp). rewrite pd_entry_map_page in Hp by done.
  case_decide as Hd; [left | right; by split_and!].
  destruct Hd as [<- <-]. by split_and!.
Qed.

(** ** Allocating a frame *)

Definition allocated r (va i : Z) s : Paging :=
  map_page r va user_flag i
    (set_frames (page_frame_map s).[i := true] (free_page_frame_count s - 1) s).

Lemma set_frames_tables s m n : tables_ok s -> tables_ok (set_frames m n s).
Proof. intros Htab r Hr. rewrite directory_set_frames. by apply Htab. Qed.

Lemma allocate_run s r va i :
  PagingInv s -> valid_ref r -> find_free_frame (page_frame_map s) = Some i ->
  paging_allocate_user_page_frame (addr_of r) va s = Ok (i, allocated r va i s).
Proof.
  intros Hinv Hr Hf. destruct (pi_table _ Hinv r Hr) as (d & Hd & _).
  destruct (find_free_frame_Some _ _ (pi_frames _ Hinv) Hf) as [Hi _].
  pose proof (zget_range _ _ _ Hi) as Hir. rewrite (pi_frames _ Hinv) in Hir.
  unfold PAGE_FRAME_MAX_COUNT in Hir.
  pose proof (count_free_take _ _ Hi). pose proof (count_free_bounds (page_frame_map s).[i := true]) as Hb.
  rewrite zlen_zset, (pi_frames _ Hinv) in Hb. unfold PAGE_FRAME_MAX_COUNT in Hb.
  unfold paging_allocate_user_page_frame, bind, gets, modify. rewrite Hf.
  rewrite (u32_small (free_page_frame_count s - 1)) by (rewrite (pi_count _ Hinv); lia).
  rewrite (update_run _ r d) by (done || by rewrite directory_set_frames).
  rewrite frame_of_addr by (unfold PAGE_ENTRY_COUNT; lia). done.
Qed.

Lemma allocated_inv s r va i :
  PagingInv s -> valid_ref r -> in_use s r -> page_index va <> KERNEL_PAGE_INDEX ->
  find_free_frame (page_frame_map s) = Some i -> PagingInv (allocated r va i s).
Proof.
  intros Hinv Hr Huse Hk Hf.
  destruct (find_free_frame_Some _ _ (pi_frames _ Hinv) Hf) as [Hi _].
  pose proof (pi_table _ Hinv) as Htab. unfold allocated.
  set (s1 := set_frames _ _ s).
  assert (Htab1 : tables_ok s1) by by apply set_frames_tables.
  assert (Hent1 : forall r' j, pd_entry s1 r' j = pd_entry s r' j)
    by (intros; unfold pd_entry, s1; by rewrite directory_set_frames).
  assert (Hmaps1 : forall r' j, maps s1 r' j -> maps s r' j)
    by (unfold maps; intros r' j; by rewrite Hent1).
  destruct (map_page_frames s1 r va user_flag i) as (Hm & Hc & Hu & _).
  split; rewrite ?Hm, ?Hc, ?Hu; cbn [s1 set_frames page_frame_map free_page_frame_count page_directory_used].
  - rewrite zlen_zset. apply (pi_frames _ Hinv).
  - by rewrite count_free_take, (pi_count _ Hinv).
  - apply (pi_used _ Hinv).
  - by apply map_page_tables.
  - intros j Hj. destruct (Htab1 r Hr) as (d & Hd & _).
    unfold map_page. rewrite directory_set_tlb, directory_with by (done || by exists d).
    rewrite decide_False; [apply (pi_unused _ Hinv j Hj) |].
    intros ->. cbn in Huse. congruence.
  - intros r' Hr' Hu'. rewrite pd_entry_map_page, decide_False by (done || tauto).
    rewrite Hent1. apply (pi_kernel _ Hinv r' Hr'). destruct r'; [done |].
    unfold in_use in *. by rewrite Hu in Hu'.
  - intros r' j Hmap. rewrite pd_entry_map_page by done.
    apply maps_map_page in Hmap as [(<- & <- & _) | [Hne Hmap]]; [| | done | done].
    + rewrite decide_True by done. apply zget_zset_eq. by eapply zget_range.
    + rewrite decide_False by done. rewrite Hent1. apply Hmaps1 in Hmap.
      pose proof (pi_owned _ Hinv _ _ Hmap) as Ho.
      rewrite zget_zset_ne; [done |]. intros ->. congruence.
  - intros r1 j1 r2 j2 Hm1 Hm2. rewrite !pd_entry_map_page by done.
    apply maps_map_page in Hm1 as [(<- & <- & _) | [Hne1 Hm1]]; try done;
      apply maps_map_page in Hm2 as [(<- & <- & _) | [Hne2 Hm2]]; try done;
      rewrite ?(decide_True (P := r = r /\ _)), ?decide_False by done; rewrite ?Hent1.
    + intros Heq. cbn in Heq. apply Hmaps1 in Hm2. pose proof (pi_owned _ Hinv _ _ Hm2). congruence.
    + intros Heq. cbn in Heq. apply Hmaps1 in Hm1. pose proof (pi_owned _ Hinv _ _ Hm1). congruence.
    + apply (pi_unique _ Hinv); by apply Hmaps1.
Qed.

(** ** Freeing a frame *)

Definition freed (junk : PageDirectoryEntryFlag) r (va : Z) s : Paging :=
  map_page r va junk 0
    (set_frames (page_frame_map s).[lower_address (pd_entry s r (page_index va)) := false]
       (u32 (free_page_frame_count s + 1)) s).

(** A call on any directory: the frame is freed when the map says it is taken. *)
Lemma free_run_map s junk r va b :
  tables_ok s -> valid_ref r ->
  0 <= lower_address (pd_entry s r (page_index va)) < PAGE_ENTRY_COUNT ->
  (page_frame_map s).[lower_address (pd_entry s r (page_index va))] = Some b ->
  paging_free_user_page_frame junk (addr_of r) va s = Ok (b, if b then freed junk r va s else s).
Proof.
  intros Htab Hr Hlow Hused. destruct (Htab r Hr) as (d & Hd & _).
  assert (Hent : entry d (page_index va) = pd_entry s r (page_index va))
    by (unfold pd_entry; by rewrite Hd).
  unfold paging_free_user_page_frame.
  erewrite bind_run; [| unfold get_directory, of_res; rewrite pd_of_addr_of by done;
                        cbn [mbind option_bind]; rewrite Hd; reflexivity].
  rewrite Hent, page_num_of_lower by done. run_step.
  erewrite bind_run; [| unfold of_res; rewrite Hused; reflexivity].
  destruct b; [| done]. run_step.
  erewrite bind_run; [| apply (update_run _ r d); [done | by rewrite directory_set_frames]].
  change (Z.land (Z.shiftr (u32 0) 22) 0x3FF) with 0. run_step. unfold ret, freed.
  f_equal. f_equal. unfold map_page. rewrite !directory_set_frames. by destruct r.
Qed.

Lemma free_run s junk r va :
  PagingInv s -> valid_ref r ->
  (page_frame_map s).[lower_address (pd_entry s r (page_index va))] = Some true ->
  paging_free_user_page_frame junk (addr_of r) va s = Ok (true, freed junk r va s).
Proof.
  intros Hinv Hr Hused. apply (free_run_map s junk r va true); [apply Hinv | done | | done].
  pose proof (zget_range _ _ _ Hused) as Hir. rewrite (pi_frames _ Hinv) in Hir.
  unfold PAGE_ENTRY_COUNT. unfold PAGE_FRAME_MAX_COUNT in Hir. lia.
Qed.

Lemma count_after_free s a :
  PagingInv s -> (page_frame_map s).[a] = Some true ->
  u32 (free_page_frame_count s + 1) = count_free (page_frame_map s).[a := false].
Proof.
  intros Hinv Ha. pose proof (count_free_release _ _ Ha) as Hc.
  pose proof (count_free_bounds (page_frame_map s).[a := false]) as Hb.
  rewrite zlen_zset, (pi_frames _ Hinv) in Hb. unfold PAGE_FRAME_MAX_COUNT in Hb.
  rewrite (pi_count _ Hinv), u32_small; lia.
Qed.

Lemma freed_inv s junk r va :
  PagingInv s -> maps s r (page_index va) -> in_use s r -> present_bit junk = false ->
  PagingInv (freed junk r va s).
Proof.
  intros Hinv Hmap Huse Hjunk. pose proof Hmap as (Hr & _ & Hk & _).
  pose proof (pi_owned _ Hinv _ _ Hmap) as Hused.
  pose proof (pi_table _ Hinv) as Htab. unfold freed.
  set (a := lower_address (pd_entry s r (page_index va))) in *. set (s1 := set_frames _ _ s).
  assert (Htab1 : tables_ok s1) by by apply set_frames_tables.
  assert (Hent1 : forall r' j, pd_entry s1 r' j = pd_entry s r' j)
    by (intros; unfold pd_entry, s1; by rewrite directory_set_frames).
  assert (Hmaps1 : forall r' j, maps (map_page r va junk 0 s1) r' j ->
            ~ (r = r' /\ page_index va = j) /\ maps s r' j).
  { intros r' j Hm. apply maps_map_page in Hm as [(_ & _ & Hp & _) | [Hne Hm]]; [congruence | | done | done].
    split; [done |]. unfold maps in *. by rewrite Hent1 in Hm. }
  destruct (map_page_frames s1 r va junk 0) as (Hm & Hc & Hu & _).
  split; rewrite ?Hm, ?Hc, ?Hu; cbn [s1 set_frames page_frame_map free_page_frame_count page_directory_used].
  - rewrite zlen_zset. apply (pi_frames _ Hinv).
  - by apply count_after_free.
  - apply (pi_used _ Hinv).
  - by apply map_page_tables.
  - intros j Hj. destruct (Htab1 r Hr) as (d & Hd & _).
    unfold map_page. rewrite directory_set_tlb, directory_with by (done || by exists d).
    rewrite decide_False; [apply (pi_unused _ Hinv j Hj) |].
    intros ->. cbn in Huse. congruence.
  - intros r' Hr' Hu'. rewrite pd_entry_map_page, decide_False by (done || tauto).
    rewrite Hent1. apply (pi_kernel _ Hinv r' Hr'). destruct r'; [done |].
    unfold in_use in *. by rewrite Hu in Hu'.
  - intros r' j Hmj. rewrite pd_entry_map_page by done. apply Hmaps1 in Hmj as [Hne Hmj].
    rewrite decide_False by done. rewrite Hent1. rewrite zget_zset_ne; [by apply (pi_owned _ Hinv) |].
    intros Heq. apply Hne. by apply (pi_unique _ Hinv).
  - intros r1 j1 r2 j2 Hm1 Hm2. rewrite !pd_entry_map_page by done.
    apply Hmaps1 in Hm1 as [Hne1 Hm1]. apply Hmaps1 in Hm2 as [Hne2 Hm2].
    rewrite !decide_False by done. rewrite !Hent1. by apply (pi_unique _ Hinv).
Qed.

(** ** Creating and freeing a directory *)

Definition created (i : Z) s : Paging :=
  set_directories (page_directory_list s).[i := zero_directory.[KERNEL_PAGE_INDEX := kernel_entry]]
    (page_directory_used s).[i := true] s.

Lemma create_run s i :
  PagingInv s ->
  for_find 0 PAGING_DIRECTORY_TABLE_MAX_COUNT
    (fun i => negb (znth true (page_directory_used s) i)) = Some i ->
  (page_directory_used s).[i] = Some false /\
  paging_create_new_page_directory s = Ok (directory_addr i, created i s).
Proof.
  intros Hinv Hf. pose proof Hf as Hf'. apply for_find_Some in Hf' as (Hi & Hp & _).
  pose proof (pi_used _ Hinv) as Hlen.
  assert (Hu : (page_directory_used s).[i] = Some false).
  { rewrite (zget_znth true) by lia. by destruct (znth true _ i). }
  split; [done |]. unfold paging_create_new_page_directory, bind, gets, modify, get_directory, put_directory.
  rewrite Hf. change (directory_addr i) with (addr_of (ListDir i)).
  rewrite pd_of_addr_of by done. cbn [mbind option_bind].
  assert (Hd : directory (set_directories (page_directory_list s) (page_directory_used s).[i := true] s)
                 (ListDir i) = Some zero_directory) by exact (pi_unused _ Hinv i Hu).
  rewrite Hd. done.
Qed.

Lemma pd_entry_directory s s' r i : directory s' r = directory s r -> pd_entry s' r i = pd_entry s r i.
Proof. intros Heq. unfold pd_entry. by rewrite Heq. Qed.

Lemma directory_set s i d u r :
  is_Some (page_directory_list s).[i] ->
  directory (set_directories (page_directory_list s).[i := d] u s) r =
    if decide (r = ListDir i) then Some d else directory s r.
Proof.
  intros [d0 Hd]. destruct r as [| j]; cbn; [by rewrite decide_False |].
  rewrite zget_zset. pose proof (zget_range _ _ _ Hd).
  destruct (decide (ListDir j = ListDir i)) as [[= <-] | Hne]; [by rewrite decide_True |].
  rewrite decide_False; [done |]. intros [-> _]. done.
Qed.

(** Installing a directory without user pages keeps the invariant. *)
Lemma set_directory_inv s i d b :
  PagingInv s -> 0 <= i < PAGING_DIRECTORY_TABLE_MAX_COUNT -> zlen d = PAGE_ENTRY_COUNT ->
  (forall j, 0 <= j < PAGE_ENTRY_COUNT -> j <> KERNEL_PAGE_INDEX ->
     present_bit (flag (entry d j)) = false) ->
  (if b : bool then entry d KERNEL_PAGE_INDEX = kernel_entry else d = zero_directory) ->
  PagingInv (set_directories (page_directory_list s).[i := d] (page_directory_used s).[i := b] s).
Proof.
  intros Hinv Hi Hlen Hempty Hb.
  destruct (pi_table _ Hinv (ListDir i) Hi) as (d0 & Hd0 & _).
  assert (Hdir : forall u r, directory (set_directories (page_directory_list s).[i := d] u s) r =
            if decide (r = ListDir i) then Some d else directory s r)
    by (intros; apply directory_set; by exists d0).
  set (s' := set_directories _ _ s).
  assert (Hmaps : forall r j, maps s' r j -> r <> ListDir i /\ maps s r j).
  { intros r j (Hr & Hj & Hk & Hp). unfold s', pd_entry in Hp. rewrite Hdir in Hp.
    destruct (decide (r = ListDir i)) as [-> | Hne].
    - cbn [from_option id] in Hp. by rewrite Hempty in Hp.
    - done. }
  assert (Hent : forall r j, r <> ListDir i -> pd_entry s' r j = pd_entry s r j).
  { intros r j Hne. apply pd_entry_directory. unfold s'. by rewrite Hdir, decide_False. }
  pose proof (pi_used _ Hinv) as Hu. split.
  - apply (pi_frames _ Hinv).
  - apply (pi_count _ Hinv).
  - cbn. by rewrite zlen_zset.
  - intros r Hr. unfold s'. rewrite Hdir. case_decide; [by exists d | by apply (pi_table _ Hinv)].
  - intros j Hj. unfold s'. rewrite Hdir. cbn in Hj. rewrite zget_zset in Hj.
    destruct (decide (ListDir j = ListDir i)) as [[= ->] | Hne].
    + rewrite decide_True in Hj by (by rewrite Hu). injection Hj as ->. by rewrite Hb.
    + rewrite decide_False in Hj by (intros [-> _]; done). by apply (pi_unused _ Hinv).
  - intros r Hr Hus. destruct (decide (r = ListDir i)) as [-> | Hne].
    + cbn in Hus. rewrite zget_zset_eq in Hus by (by rewrite Hu). injection Hus as ->.
      unfold pd_entry, s'. by rewrite Hdir, decide_True.
    + rewrite Hent by done. apply (pi_kernel _ Hinv); [done |]. destruct r as [| j]; [done |].
      cbn in *. rewrite zget_zset_ne in Hus; [done | by intros ->].
  - intros r j [Hne Hm]%Hmaps. rewrite Hent by done. by apply (pi_owned _ Hinv).
  - intros r j r' j' [Hne Hm]%Hmaps [Hne' Hm']%Hmaps. rewrite !Hent by done.
    by apply (pi_unique _ Hinv).
Qed.

Lemma entry_zero j : entry zero_directory j = zero_entry.
Proof.
  unfold entry, znth. destruct (decide (0 <= j < PAGE_ENTRY_COUNT)).
  - unfold zero_directory. by rewrite zget_zrep.
  - rewrite zget_None; [done |]. unfold zero_directory. by rewrite zlen_zrep.
Qed.
Lemma entry_new_directory j :
  entry zero_directory.[KERNEL_PAGE_INDEX := kernel_entry] j =
    if decide (KERNEL_PAGE_INDEX = j) then kernel_entry else zero_entry.
Proof. rewrite entry_zset by done. case_decide; [done | apply entry_zero]. Qed.

Lemma created_inv s i :
  PagingInv s -> (page_directory_used s).[i] = Some false -> PagingInv (created i s).
Proof.
  intros Hinv Hu. pose proof (zget_range _ _ _ Hu) as Hi. rewrite (pi_used _ Hinv) in Hi.
  apply set_directory_inv; [done | done | done | | by rewrite entry_new_directory].
  intros j Hj Hk. by rewrite entry_new_directory, decide_False by congruence.
Qed.

Definition directory_freed (i : Z) s : Paging :=
  set_directories (page_directory_list s).[i := zero_directory] (page_directory_used s).[i := false] s.

Lemma directory_addr_inj i j : directory_addr i = directory_addr j -> i = j.
Proof. unfold directory_addr. lia. Qed.

Lemma free_directory_fold i l : forall s,
  foldl (free_directory_step (directory_addr i)) s l =
    if decide (i ∈ l) then directory_freed i s else s.
Proof.
  induction l as [| j l IH]; intros s; cbn [foldl]; [done |].
  unfold free_directory_step at 2. destruct (Z.eqb_spec (directory_addr j) (directory_addr i)) as [Heq | Hne].
  - apply directory_addr_inj in Heq as ->. rewrite IH, (decide_True (P := i ∈ i :: l)) by left.
    case_decide; [| done]. unfold directory_freed. cbn. by rewrite !zset_zset.
  - rewrite IH. destruct (decide (i ∈ l)) as [Hin | Hin].
    + by rewrite decide_True by by right.
    + rewrite decide_False; [done |]. intros [-> | ?]%elem_of_cons; done.
Qed.

Lemma free_directory_run s i :
  0 <= i < PAGING_DIRECTORY_TABLE_MAX_COUNT ->
  paging_free_page_directory (directory_addr i) s = Ok (false, directory_freed i s).
Proof.
  intros Hi. unfold paging_free_page_directory, bind, modify, ret.
  rewrite free_directory_fold, decide_True; [done |].
  apply elem_of_seqZ. unfold PAGING_DIRECTORY_TABLE_MAX_COUNT in *. lia.
Qed.

Lemma directory_freed_inv s i :
  PagingInv s -> 0 <= i < PAGING_DIRECTORY_TABLE_MAX_COUNT -> PagingInv (directory_freed i s).
Proof.
  intros Hinv Hi. apply set_directory_inv; [done | done | done | | done].
  intros j _ _. by rewrite entry_zero.
Qed.

(** ** The state at boot *)

Lemma boot_inv : PagingInv boot_paging.
Proof.
  assert (Hent : forall r j, valid_ref r -> j <> KERNEL_PAGE_INDEX ->
            pd_entry boot_paging r j = zero_entry).
  { intros [| i] j Hr Hj.
    - unfold pd_entry. cbn [directory boot_paging kernel_directory from_option id].
      unfold boot_kernel_directory. by rewrite entry_new_directory, decide_False by congruence.
    - unfold pd_entry. cbn [directory boot_paging page_directory_list].
      rewrite zget_zrep by done. apply entry_zero. }
  assert (Hno : forall r i, ~ maps boot_paging r i).
  { intros r i (Hr & _ & Hk & Hp). by rewrite Hent in Hp. }
  split; try done.
  - intros [| i] Hr; [by exists boot_kernel_directory |].
    exists zero_directory. cbn in *. by rewrite zget_zrep.
  - intros i Hi. cbn in *. apply zget_range in Hi. rewrite zlen_zrep in Hi by done.
    by rewrite zget_zrep.
  - intros [| i] Hr Hu; [done |]. cbn in *. by rewrite zget_zrep in Hu.
  - intros r i Hm. by apply Hno in Hm.
  - intros r i r' i' Hm. by apply Hno in Hm.
Qed.

(** ** Histories

    The calls the kernel makes, on pages below its half: a frame is allocated for
    a page that has none and freed from a page that has one, through a directory
    in use; the flag a free leaves in the entry has its present bit clear. *)
Inductive paging_step : Paging -> Paging -> Prop :=
| step_allocate s r va i s' :
    valid_ref r -> in_use s r -> page_index va <> KERNEL_PAGE_INDEX ->
    paging_allocate_user_page_frame (addr_of r) va s = Ok (i, s') -> paging_step s s'
| step_free s junk r va b s' :
    maps s r (page_index va) -> in_use s r -> present_bit junk = false ->
    paging_free_user_page_frame junk (addr_of r) va s = Ok (b, s') -> paging_step s s'
| step_create s p s' :
    paging_create_new_page_directory s = Ok (p, s') -> paging_step s s'
| step_free_directory s i b s' :
    0 <= i < PAGING_DIRECTORY_TABLE_MAX_COUNT ->
    paging_free_page_directory (directory_addr i) s = Ok (b, s') -> paging_step s s'
| step_switch s p s' :
    paging_use_page_directory p s = Ok (tt, s') -> paging_step s s'.

Lemma switch_inv s c : PagingInv s -> PagingInv (set_cr3 c s).
Proof. intros [? ? ? Ht Hun Hk Ho Huq]. by split. Qed.

Lemma paging_step_inv s s' : PagingInv s -> paging_step s s' -> PagingInv s'.
Proof.
  intros Hinv Hstep. destruct Hstep as [s r va i s' Hr Hu Hk Hrun | s junk r va b s' Hm Hu Hj Hrun
    | s p s' Hrun | s i b s' Hi Hrun | s p s' Hrun].
  - destruct (find_free_frame (page_frame_map s)) as [j |] eqn:Hf.
    + rewrite (allocate_run s r va j) in Hrun by done. injection Hrun as <- <-.
      by apply allocated_inv.
    + unfold paging_allocate_user_page_frame, bind, gets in Hrun. rewrite Hf in Hrun.
      by injection Hrun as <- <-.
  - rewrite free_run in Hrun; [| done | apply Hm | by apply (pi_owned _ Hinv)].
    injection Hrun as <- <-. by apply freed_inv.
  - destruct (for_find 0 PAGING_DIRECTORY_TABLE_MAX_COUNT
                (fun i => negb (znth true (page_directory_used s) i))) as [i |] eqn:Hf.
    + destruct (create_run s i Hinv Hf) as [Hun Hc]. rewrite Hc in Hrun. injection Hrun as <- <-.
      by apply created_inv.
    + unfold paging_create_new_page_directory, bind, gets in Hrun. rewrite Hf in Hrun.
      by injection Hrun as <- <-.
  - rewrite free_directory_run in Hrun by done. injection Hrun as <- <-. by apply directory_freed_inv.
  - injection Hrun as <-. by apply switch_inv.
Qed.

Lemma reachable_inv s : rtc paging_step boot_paging s -> PagingInv s.
Proof.
  intros Hreach. assert (Hg : forall s0, rtc paging_step s0 s -> PagingInv s0 -> PagingInv s).
  { clear Hreach. induction 1 as [| s0 s1 s2 Hstep _ IH]; [done |]. intros Hinv. apply IH.
    by apply (paging_step_inv s0). }
  apply (Hg _ Hreach), boot_inv.
Qed.

(** The frame an address of a mapped page lies in. *)
Lemma translate_frame s r d va pa :
  PagingInv s -> valid_ref r -> directory s r = Some d -> page_index va <> KERNEL_PAGE_INDEX ->
  translate_in d va = Some pa ->
  maps s r (page_index va) /\
  pa = lower_address (pd_entry s r (page_index va)) * PAGE_FRAME_SIZE + u32 va mod PAGE_FRAME_SIZE.
Proof.
  intros Hinv Hr Hd Hk Ht. unfold translate_in, entry_translate in Ht.
  assert (Hent : pd_entry s r (page_index va) = entry d (page_index va))
    by (unfold pd_entry; by rewrite Hd).
  rewrite <- Hent in Ht. destruct (present_bit _) eqn:Hp; cbn [andb] in Ht; [| done].
  destruct (use_pagesize_4_mb _); [| done]. apply (inj Some) in Ht. split.
  - split; [done |]. split; [apply page_index_range |]. by split.
  - by rewrite <- Ht, Z.shiftl_mul_pow2 by lia.
Qed.

(** ** Cached translations *)

(** Every translation the processor has cached is the active directory's. *)
Definition tlb_coherent s : Prop :=
  forall i e r, tlb s !! i = Some e -> active_directory s = Some r -> pd_entry s r i = e.

Lemma map_page_coherent s r va f a :
  tables_ok s -> valid_ref r -> tlb_coherent s -> tlb_coherent (map_page r va f a s).
Proof.
  intros Htab Hr Hco i e r' Hi Hact.
  assert (Htlb : tlb (map_page r va f a s) = delete (page_index va) (tlb s)) by by destruct r.
  rewrite Htlb in Hi. apply lookup_delete_Some in Hi as [Hne Hi].
  rewrite pd_entry_map_page, decide_False by (done || tauto).
  apply Hco; [done |]. unfold active_directory in *.
  destruct (map_page_frames s r va f a) as (_ & _ & _ & Hc). by rewrite Hc in Hact.
Qed.

Lemma pd_entry_of_directory s r d i : directory s r = Some d -> pd_entry s r i = entry d i.
Proof. intros Hd. unfold pd_entry. by rewrite Hd. Qed.

(** ** Theorems *)



(** C34. Freeing a page gives its frame back: the call returns true, the frame is
    free again and the count one higher; with a flag whose present bit is clear,
    the page is unmapped, every other page is as before and the invariant is
    kept. *)
Theorem free_page_spec s junk r va
    (Hinv : PagingInv s) (Hm : maps s r (page_index va)) (Hu : in_use s r)
    (Hj : present_bit junk = false) :
  exists s', paging_free_user_page_frame junk (addr_of r) va s = Ok (true, s') /\
    PagingInv s' /\
    page_frame_map s' =
      (page_frame_map s).[lower_address (pd_entry s r (page_index va)) := false] /\
    free_page_frame_count s' = free_page_frame_count s + 1 /\
    ~ maps s' r (page_index va) /\
    (forall r' j, ~ (r = r' /\ page_index va = j) -> pd_entry s' r' j = pd_entry s r' j).
Proof.
  pose proof Hm as (Hr & _ & Hk & _). pose proof (pi_table _ Hinv) as Htab.
  exists (freed junk r va s). unfold freed. set (s1 := set_frames _ _ s).
  assert (Htab1 : tables_ok s1) by by apply set_frames_tables.
  destruct (map_page_frames s1 r va junk 0) as (Hmap & Hc & _).
  split; [apply free_run; [done | done | by apply (pi_owned _ Hinv)] |].
  split; [by apply freed_inv |]. split; [done |]. split.
  { rewrite Hc. cbn [s1 set_frames free_page_frame_count].
    pose proof (pi_owned _ Hinv _ _ Hm) as Ho.
    rewrite (count_after_free s _ Hinv Ho), count_free_release, (pi_count _ Hinv) by done. done. }
  split.
  - intros (_ & _ & _ & Hp). rewrite pd_entry_map_page, decide_True in Hp by done.
    cbn in Hp. congruence.
  - intros r' j Hne. rewrite pd_entry_map_page, decide_False by done.
    unfold pd_entry, s1. by rewrite directory_set_frames.
Qed.

(** The flag a free leaves in the entry is a local variable nothing
    initialises. When it happens to have its present and page-size bits set, the
    freed page stays mapped, to the frame at physical address 0, where the kernel
    lives. *)
Theorem free_page_uninitialised_flag s junk r va
    (Hinv : PagingInv s) (Hm : maps s r (page_index va))
    (Hj : present_bit junk = true) (Hj4 : use_pagesize_4_mb junk = true) :
  exists s' d', paging_free_user_page_frame junk (addr_of r) va s = Ok (true, s') /\
    directory s' r = Some d' /\ translate_in d' va = Some (u32 va mod PAGE_FRAME_SIZE).
Proof.
  pose proof Hm as (Hr & _ & Hk & _). pose proof (pi_table _ Hinv) as Htab.
  exists (freed junk r va s). unfold freed. set (s1 := set_frames _ _ s).
  assert (Htab1 : tables_ok s1) by by apply set_frames_tables.
  destruct (map_page_tables s1 r va junk 0 Htab1 Hr r Hr) as (d' & Hd' & _). exists d'.
  split; [apply free_run; [done | done | by apply (pi_owned _ Hinv)] |]. split; [done |].
  unfold translate_in. rewrite <- (pd_entry_of_directory _ _ _ _ Hd').
  rewrite pd_entry_map_page, decide_True by done. unfold entry_translate. cbn [set_mapping flag].
  by rewrite Hj, Hj4.
Qed.

(** A new directory is the first unused one; it maps the kernel's half and no
    user page, and the invariant is kept. When all 32 are in use the result is the
    null pointer and nothing changes. *)
Theorem create_directory_spec s (Hinv : PagingInv s) :
  match for_find 0 PAGING_DIRECTORY_TABLE_MAX_COUNT
          (fun i => negb (znth true (page_directory_used s) i)) with
  | Some i => exists s', paging_create_new_page_directory s = Ok (directory_addr i, s') /\
      PagingInv s' /\ (page_directory_used s).[i] = Some false /\ in_use s' (ListDir i) /\
      (forall j, ~ maps s' (ListDir i) j) /\
      (forall r j, r <> ListDir i -> pd_entry s' r j = pd_entry s r j) /\
      page_frame_map s' = page_frame_map s
  | None => paging_create_new_page_directory s = Ok (0, s)
  end.
Proof.
  destruct (for_find 0 _ _) as [i |] eqn:Hf.
  - destruct (create_run s i Hinv Hf) as [Hu Hrun]. exists (created i s).
    pose proof (zget_range _ _ _ Hu) as Hi.
    assert (Hl : is_Some (page_directory_list s).[i]).
    { rewrite (pi_used _ Hinv) in Hi. destruct (pi_table _ Hinv (ListDir i) Hi) as (d & Hd & _).
      by exists d. }
    split_and!; [done | by apply created_inv | done | | | | done].
    + cbn. by apply zget_zset_eq.
    + intros j (_ & _ & Hk & Hp). unfold pd_entry, created in Hp.
      rewrite directory_set, decide_True in Hp by done. cbn [from_option id] in Hp.
      rewrite entry_new_directory, decide_False in Hp by congruence. done.
    + intros r j Hne. apply pd_entry_directory. unfold created.
      by rewrite directory_set, decide_False.
  - unfold paging_create_new_page_directory, bind, gets. by rewrite Hf.
Qed.

(** Freeing a directory makes it unused and zero, whatever it mapped, and
    keeps the invariant; the frames of its pages stay taken. The result is false
    on success too. *)
Theorem free_directory_spec s i
    (Hinv : PagingInv s) (Hi : 0 <= i < PAGING_DIRECTORY_TABLE_MAX_COUNT) :
  exists s', paging_free_page_directory (directory_addr i) s = Ok (false, s') /\
    PagingInv s' /\ (page_directory_used s').[i] = Some false /\
    directory s' (ListDir i) = Some zero_directory /\
    (forall r j, r <> ListDir i -> pd_entry s' r j = pd_entry s r j) /\
    page_frame_map s' = page_frame_map s /\ tlb s' = tlb s.
Proof.
  exists (directory_freed i s).
  assert (Hl : is_Some (page_directory_list s).[i]).
  { destruct (pi_table _ Hinv (ListDir i) Hi) as (d & Hd & _). by exists d. }
  split_and!; [by apply free_directory_run | by apply directory_freed_inv | | | | done | done].
  - cbn. apply zget_zset_eq. by rewrite (pi_used _ Hinv).
  - unfold directory_freed. by rewrite directory_set, decide_True.
  - intros r j Hne. apply pd_entry_directory. unfold directory_freed.
    by rewrite directory_set, decide_False.
Qed.

(** [paging_allocate_check(n)] says whether [n] frames are free. *)
Theorem allocate_check_spec s n (Hinv : PagingInv s) :
  exists b, paging_allocate_check n s = Ok (b, s) /\
    (b = true <-> n <= zlen (filter (fun b => b = false) (page_frame_map s))).
Proof.
  eexists. split; [done |]. rewrite (pi_count _ Hinv). unfold count_free.
  destruct (Z.ltb_spec (zlen (filter (fun b => b = false) (page_frame_map s))) n); cbn [negb]; split; lia || done.
Qed.

(** Editing an entry of any directory keeps the cached translations those of
    the active directory: the page it edits is flushed. *)
Theorem update_keeps_tlb s r pa va f s'
    (Htab : tables_ok s) (Hr : valid_ref r) (Hco : tlb_coherent s)
    (Hrun : update_page_directory_entry (addr_of r) pa va f s = Ok (tt, s')) :
  tlb_coherent s'.
Proof.
  destruct (Htab r Hr) as (d & Hd & _). rewrite (update_run _ r d) in Hrun by done.
  assert (map_page r va f (Z.land (Z.shiftr (u32 pa) 22) 0x3FF) s = s') as <- by congruence.
  by apply map_page_coherent.
Qed.
End Spec.
