(* ===== verification/Process.v ===== *)
(** Process: src/process/process.c - process control blocks, creation and
    destruction of processes. *)

From Stdlib Require Import ZArith Lia.
From stdpp Require Import base tactics numbers list gmap fin_maps.
From S2P Require Import Prelude Memory Disk Fat32 Paging.
#[local] Open Scope eff_scope.

(** ** Constants *)

Definition PROCESS_PAGE_FRAME_COUNT_MAX : Z := 8.
Definition PROCESS_COUNT_MAX : Z := 16.
Definition CPU_EFLAGS_BASE_FLAG : Z := 0x2.
Definition CPU_EFLAGS_FLAG_INTERRUPT_ENABLE : Z := 0x200.
Definition PROCESS_CREATE_SUCCESS : Z := 0.
Definition PROCESS_CREATE_FAIL_MAX_PROCESS_EXCEEDED : Z := 1.
Definition PROCESS_CREATE_FAIL_INVALID_ENTRYPOINT : Z := 2.
Definition PROCESS_CREATE_FAIL_NOT_ENOUGH_MEMORY : Z := 3.
Definition PROCESS_CREATE_FAIL_FS_READ_FAILURE : Z := 4.
(** The last word below the kernel's half, where a process's stack starts. *)
Definition USER_STACK : Z := 0xBFFFFFFC.

(** ** Process control blocks *)

Record CPURegister := mkCPU {
  edi : Z; esi : Z;
  ebp : Z; esp : Z;
  ebx : Z; edx : Z; ecx : Z; eax : Z;
  gs : Z; fs : Z; es : Z; ds : Z
}.

Record Context := mkContext {
  cpu : CPURegister;
  eip : Z;
  cs : Z;
  eflags : Z;
  ctx_esp : Z;
  ss : Z;
  page_directory_virtual_addr : Z
}.

Inductive PROCESS_STATE : Type := PROCESS_READY | PROCESS_RUNNING | PROCESS_TERMINATED.
#[export] Instance process_state_eq_dec : EqDecision PROCESS_STATE.
Proof. solve_decision. Defined.

Record ProcessControlBlock := mkPCB {
  pid : Z;
  state : PROCESS_STATE;
  pcb_name : list Z;
  context : Context;
  virtual_addr_used : list Z;
  page_frame_used_count : Z
}.

Definition zero_cpu : CPURegister := mkCPU 0 0 0 0 0 0 0 0 0 0 0 0.
Definition zero_context : Context := mkContext zero_cpu 0 0 0 0 0 0.
Definition zero_pcb : ProcessControlBlock :=
  mkPCB 0 PROCESS_READY (zrep 10 0) zero_context (zrep PROCESS_PAGE_FRAME_COUNT_MAX 0) 0.

Definition set_state (x : PROCESS_STATE) (p : ProcessControlBlock) : ProcessControlBlock :=
  mkPCB (pid p) x (pcb_name p) (context p) (virtual_addr_used p) (page_frame_used_count p).
Definition set_context (c : Context) (p : ProcessControlBlock) : ProcessControlBlock :=
  mkPCB (pid p) (state p) (pcb_name p) c (virtual_addr_used p) (page_frame_used_count p).
(** [memcpy(&name, request.name, 8); pid = ...; state = PROCESS_READY;] *)
Definition set_metadata (nm : list Z) (i : Z) (p : ProcessControlBlock) : ProcessControlBlock :=
  mkPCB i PROCESS_READY (zsplice 0 (ztake 8 nm) (pcb_name p)) (context p)
    (virtual_addr_used p) (page_frame_used_count p).
Definition set_virtual_addr (j a : Z) (p : ProcessControlBlock) : ProcessControlBlock :=
  mkPCB (pid p) (state p) (pcb_name p) (context p) (virtual_addr_used p).[j := a]
    (page_frame_used_count p).
Definition set_frame_count (n : Z) (p : ProcessControlBlock) : ProcessControlBlock :=
  mkPCB (pid p) (state p) (pcb_name p) (context p) (virtual_addr_used p) n.

(** The context a new process starts with: user segments, the entry point and
    the top of the user stack; the other registers keep what the block held. *)
Definition initial_context (entrypoint pd : Z) (c : Context) : Context :=
  let r := cpu c in
  mkContext
    (mkCPU (edi r) (esi r) USER_STACK USER_STACK (ebx r) (edx r) (ecx r) (eax r)
       (Z.lor 0x20 0x3) (Z.lor 0x20 0x3) (Z.lor 0x20 0x3) (Z.lor 0x20 0x3))
    entrypoint (Z.lor 0x18 0x3)
    (Z.lor (eflags c) (Z.lor CPU_EFLAGS_BASE_FLAG CPU_EFLAGS_FLAG_INTERRUPT_ENABLE))
    USER_STACK (Z.lor 0x20 0x3) pd.

(** ** The kernel's state

    [fsys] holds the disk, the file-system driver, the paging state and the
    physical memory. [out_log] are the bytes written to I/O ports, latest first;
    [cpu_context] is the context the processor was last switched to. *)
Record Kernel (D : Type) := mkKernel {
  fsys : FS D PagedMemory;
  process_list : list ProcessControlBlock;
  process_used : list bool;
  active_process_count : Z;
  current_process_idx : Z;
  next_process_idx : Z;
  out_log : list (Z * Z);
  cpu_context : option Context
}.
Arguments mkKernel {D}.
Arguments fsys {D}.
Arguments process_list {D}.
Arguments process_used {D}.
Arguments active_process_count {D}.
Arguments current_process_idx {D}.
Arguments next_process_idx {D}.
Arguments out_log {D}.
Arguments cpu_context {D}.

Section Kernel.
Context {D : Type} `{BlockDevice D} `{Layout}.
Implicit Types (k : Kernel D) (request : FAT32DriverRequest).

Definition k_paging k : Paging := paging (umem (fsys k)).
Definition k_frames k : gmap Z Z := frames (umem (fsys k)).
Definition set_fsys (f : FS D PagedMemory) k : Kernel D :=
  mkKernel f (process_list k) (process_used k) (active_process_count k)
    (current_process_idx k) (next_process_idx k) (out_log k) (cpu_context k).
Definition set_paging (p : Paging) k : Kernel D :=
  set_fsys (set_umem (mkPaged p (k_frames k)) (fsys k)) k.
Definition set_process_list (l : list ProcessControlBlock) k : Kernel D :=
  mkKernel (fsys k) l (process_used k) (active_process_count k)
    (current_process_idx k) (next_process_idx k) (out_log k) (cpu_context k).
Definition set_manager (u : list bool) (n : Z) k : Kernel D :=
  mkKernel (fsys k) (process_list k) u n
    (current_process_idx k) (next_process_idx k) (out_log k) (cpu_context k).

(** Calls into the file system and into paging.c. *)
Definition on_fs {A : Type} (c : Eff (FS D PagedMemory) A) : Eff (Kernel D) A :=
  fun k => match c (fsys k) with
           | Ok (a, f) => Ok (a, set_fsys f k)
           | Fault e => Fault e
           end.
Definition on_paging {A : Type} (c : Eff Paging A) : Eff (Kernel D) A :=
  fun k => match c (k_paging k) with
           | Ok (a, p) => Ok (a, set_paging p k)
           | Fault e => Fault e
           end.

(** [_process_list[i]], read and written. *)
Definition get_pcb (i : Z) : Eff (Kernel D) ProcessControlBlock :=
  fun k => of_res (of_option BadAccess (process_list k).[i]) k.
Definition update_pcb (i : Z) (f : ProcessControlBlock -> ProcessControlBlock)
  : Eff (Kernel D) unit :=
  p <- get_pcb i ;; modify (fun k => set_process_list (process_list k).[i := f p] k).

(** ** process.c *)

(** The index of the block the function returns, [None] for the null pointer. *)
Definition process_get_current_running_pcb_pointer : Eff (Kernel D) (option Z) :=
  gets (fun k => for_find 0 PROCESS_COUNT_MAX (fun i =>
    znth false (process_used k) i &&
    bool_decide (state (znth zero_pcb (process_list k) i) = PROCESS_RUNNING))).

Definition process_list_get_inactive_index : Eff (Kernel D) Z :=
  gets (fun k => default (u32 (-1))
    (for_find 0 PROCESS_COUNT_MAX (fun i => negb (znth true (process_used k) i)))).
Definition process_generate_new_pid : Eff (Kernel D) Z := process_list_get_inactive_index.

Definition ceil_div (a b : Z) : Z := u32 (a / b + (if a mod b =? 0 then 0 else 1)).

(** What creation does once it has picked the block [p_index]: frames, loading,
    context. *)
Definition load_process request (p_index : Z) : Eff (Kernel D) Z :=
  new_pid <- process_generate_new_pid ;;
  update_pcb p_index (set_metadata (req_name request) new_pid) ;;;
  current_pd <- on_paging paging_get_current_page_directory_addr ;;
  new_pd <- on_paging paging_create_new_page_directory ;;
  frame0 <- on_paging (paging_allocate_user_page_frame new_pd (buf request)) ;;
  update_pcb p_index (set_virtual_addr 0 (u32 (frame0 + KERNEL_VIRTUAL_ADDRESS_BASE))) ;;;
  frame1 <- on_paging (paging_allocate_user_page_frame new_pd USER_STACK) ;;
  update_pcb p_index (set_virtual_addr 1 (u32 (frame1 + KERNEL_VIRTUAL_ADDRESS_BASE))) ;;;
  update_pcb p_index (set_frame_count 2) ;;;
  modify (fun k => set_manager (process_used k).[p_index := true]
                     (u32 (active_process_count k + 1)) k) ;;;
  on_paging (paging_use_page_directory new_pd) ;;;
  res_code <- on_fs (read request) ;;
  if negb (u32 res_code =? 0) then ret PROCESS_CREATE_FAIL_FS_READ_FAILURE else
  on_paging (paging_use_page_directory current_pd) ;;;
  update_pcb p_index (fun p => set_context (initial_context (buf request) new_pd (context p)) p) ;;;
  update_pcb p_index (set_state PROCESS_READY) ;;;
  ret PROCESS_CREATE_SUCCESS.

Definition page_frame_count_needed (size : Z) : Z :=
  ceil_div (u32 (size + PAGE_FRAME_SIZE)) PAGE_FRAME_SIZE.

Definition process_create_user_process request : Eff (Kernel D) Z :=
  n <- gets active_process_count ;;
  if PROCESS_COUNT_MAX <=? n then ret PROCESS_CREATE_FAIL_MAX_PROCESS_EXCEEDED else
  if KERNEL_VIRTUAL_ADDRESS_BASE <=? buf request then ret PROCESS_CREATE_FAIL_INVALID_ENTRYPOINT else
  let needed := page_frame_count_needed (buffer_size request) in
  enough <- on_paging (paging_allocate_check needed) ;;
  if negb enough || (PROCESS_PAGE_FRAME_COUNT_MAX <? needed)
  then ret PROCESS_CREATE_FAIL_NOT_ENOUGH_MEMORY else
  p_index <- process_list_get_inactive_index ;;
  load_process request (i32 p_index).

(** The loop over [virtual_addr_used]: [j] of the eight are freed already. [junk]
    gives the uninitialised flag of each call. *)
Fixpoint free_frames (n : nat) (j : Z) (junk : Z -> PageDirectoryEntryFlag) (the_pid : Z)
  : Eff (Kernel D) unit :=
  match n with
  | O => ret tt
  | S n' =>
    p <- get_pcb the_pid ;;
    a <- of_res (of_option BadAccess (virtual_addr_used p).[j]) ;;
    on_paging (paging_free_user_page_frame (junk j) (page_directory_virtual_addr (context p)) a) ;;;
    free_frames n' (j + 1) junk the_pid
  end.

Definition process_destroy (junk : Z -> PageDirectoryEntryFlag) (the_pid : Z)
  : Eff (Kernel D) bool :=
  l <- gets process_list ;;
  match for_find 0 PROCESS_COUNT_MAX (fun i => pid (znth zero_pcb l i) =? the_pid) with
  | None => ret false
  | Some i =>
    modify (fun k => set_manager (process_used k).[i := false]
                       (u32 (active_process_count k - 1)) k) ;;;
    free_frames (Z.to_nat PROCESS_PAGE_FRAME_COUNT_MAX) 0 junk the_pid ;;;
    p <- get_pcb the_pid ;;
    on_paging (paging_free_page_directory (page_directory_virtual_addr (context p))) ;;;
    update_pcb i (fun _ => zero_pcb) ;;;
    ret true
  end.
Lemma set_paging_same k : set_paging (k_paging k) k = k.
Proof.
  destruct k as [f ? ? ? ? ? ? ?]. unfold set_paging, set_fsys, k_paging, k_frames. cbn. f_equal.
  destruct f as [d s m str]. unfold set_umem. cbn. f_equal. by destruct m.
Qed.
End Kernel.
