(* ===== verification/Pic.v ===== *)
(** Pic: I/O ports and the interrupt controllers (src/framebuffer/portio.c and
    the PIC functions of src/interrupt/interrupt.c). *)

From Stdlib Require Import ZArith Lia.
From stdpp Require Import base tactics numbers list.
From S2P Require Import Prelude.
#[local] Open Scope eff_scope.

(** ** Ports

    The machine behind the ports is a parameter: what [in] reads depends on the
    bytes written so far, latest first. *)
Class PortMachine := {
  port_in : list (Z * Z) -> Z -> Z
}.

(** A state that carries the log of port writes. *)
Class PortState (S : Type) := {
  ports : S -> list (Z * Z);
  set_ports : list (Z * Z) -> S -> S
}.
Class PortStateLaws (S : Type) `{PortState S} := {
  ports_set l s : ports (set_ports l s) = l;
  set_set l l' s : set_ports l (set_ports l' s) = set_ports l s;
  set_self s : set_ports (ports s) s = s
}.

Definition PIC1_OFFSET : Z := 0x20.
Definition PIC2_OFFSET : Z := 0x28.
Definition PIC1_COMMAND : Z := 0x20.
Definition PIC1_DATA : Z := 0x21.
Definition PIC2_COMMAND : Z := 0xA0.
Definition PIC2_DATA : Z := 0xA1.
Definition PIC_ACK : Z := 0x20.
Definition PIC_DISABLE_ALL_MASK : Z := 0xFF.
Definition ICW1_ICW4 : Z := 0x01.
Definition ICW1_INIT : Z := 0x10.
Definition ICW4_8086 : Z := 0x01.
Definition IRQ_TIMER : Z := 0.
Definition IRQ_KEYBOARD : Z := 1.
Definition PIT_MAX_FREQUENCY : Z := 1193182.
Definition PIT_TIMER_FREQUENCY : Z := 1000.
Definition PIT_TIMER_COUNTER : Z := PIT_MAX_FREQUENCY / PIT_TIMER_FREQUENCY.
Definition PIT_COMMAND_REGISTER_PIO : Z := 0x43.
Definition PIT_COMMAND_VALUE : Z :=
  Z.lor (Z.lor (Z.lor 0 (Z.shiftl 3 1)) (Z.shiftl 3 4)) (Z.shiftl 0 6).
Definition PIT_CHANNEL_0_DATA_PIO : Z := 0x40.

Section Pic.
Context {S : Type} `{PortState S} `{PortMachine}.

(** [out(port, data)] and [in(port)]: 16-bit port, 8-bit data. *)
Definition out (port data : Z) : Eff S unit :=
  modify (fun s => set_ports ((u16 port, u8 data) :: ports s) s).
Definition in_ (port : Z) : Eff S Z := gets (fun s => u8 (port_in (ports s) (u16 port))).

Definition io_wait : Eff S unit := out 0x80 0.

Definition pic_ack (irq : Z) : Eff S unit :=
  (if 8 <=? irq then out PIC2_COMMAND PIC_ACK else ret tt) ;;;
  out PIC1_COMMAND PIC_ACK.

Definition pic_remap : Eff S unit :=
  out PIC1_COMMAND (Z.lor ICW1_INIT ICW1_ICW4) ;;;
  io_wait ;;;
  out PIC2_COMMAND (Z.lor ICW1_INIT ICW1_ICW4) ;;;
  io_wait ;;;
  out PIC1_DATA PIC1_OFFSET ;;;
  io_wait ;;;
  out PIC2_DATA PIC2_OFFSET ;;;
  io_wait ;;;
  out PIC1_DATA 4 ;;;
  io_wait ;;;
  out PIC2_DATA 2 ;;;
  io_wait ;;;
  out PIC1_DATA ICW4_8086 ;;;
  io_wait ;;;
  out PIC2_DATA ICW4_8086 ;;;
  io_wait ;;;
  out PIC1_DATA PIC_DISABLE_ALL_MASK ;;;
  out PIC2_DATA PIC_DISABLE_ALL_MASK.

(** [out(PIC1_DATA, in(PIC1_DATA) & ~(1 << irq))] *)
Definition unmask (irq : Z) : Eff S unit :=
  m <- in_ PIC1_DATA ;; out PIC1_DATA (Z.land m (Z.lnot (Z.shiftl 1 irq))).

Definition activate_keyboard_interrupt : Eff S unit := unmask IRQ_KEYBOARD.

Definition activate_timer_interrupt : Eff S unit :=
  out PIT_COMMAND_REGISTER_PIO PIT_COMMAND_VALUE ;;;
  out PIT_CHANNEL_0_DATA_PIO (u8 (Z.land PIT_TIMER_COUNTER 0xFF)) ;;;
  out PIT_CHANNEL_0_DATA_PIO (u8 (Z.land (Z.shiftr PIT_TIMER_COUNTER 8) 0xFF)) ;;;
  unmask IRQ_TIMER.
End Pic.

(** ** The 8259 pair

    What the controllers make of the bytes written to them, read from the oldest:
    ICW1 starts an initialisation, the next data bytes are the vector offset,
    the cascade wiring and ICW4; after that a data byte is the mask. *)
Inductive pic_phase : Type := AwaitOffset | AwaitCascade | AwaitMode | Ready.
#[export] Instance pic_phase_eq_dec : EqDecision pic_phase.
Proof. solve_decision. Defined.

Record Pic8259 := mkPic {
  phase : pic_phase;
  vector_offset : Z;
  cascade : Z;
  mask : Z
}.

(** One byte written to a controller's command or data port. *)
Definition pic_command (v : Z) (p : Pic8259) : Pic8259 :=
  if Z.testbit v 4 then mkPic AwaitOffset (vector_offset p) (cascade p) 0 else p.
Definition pic_data (v : Z) (p : Pic8259) : Pic8259 :=
  match phase p with
  | AwaitOffset => mkPic AwaitCascade v (cascade p) (mask p)
  | AwaitCascade => mkPic AwaitMode (vector_offset p) v (mask p)
  | AwaitMode => mkPic Ready (vector_offset p) (cascade p) (mask p)
  | Ready => mkPic Ready (vector_offset p) (cascade p) v
  end.
Definition pic_step (command data : Z) (p : Pic8259) (w : Z * Z) : Pic8259 :=
  if decide (w.1 = command) then pic_command w.2 p
  else if decide (w.1 = data) then pic_data w.2 p else p.

(** A controller after a log of writes, latest first. *)
Definition pic_after (command data : Z) (p : Pic8259) (log : list (Z * Z)) : Pic8259 :=
  foldl (pic_step command data) p (rev log).
Definition master_after := pic_after PIC1_COMMAND PIC1_DATA.
Definition slave_after := pic_after PIC2_COMMAND PIC2_DATA.

(** The mask register reads back what it holds. *)
Class PicMachine `{PortMachine} (p1 p2 : Pic8259) := {
  pic1_reads log : phase (master_after p1 log) = Ready ->
    port_in log PIC1_DATA = mask (master_after p1 log);
  pic2_reads log : phase (slave_after p2 log) = Ready ->
    port_in log PIC2_DATA = mask (slave_after p2 log)
}.

Lemma pic_after_app c d p l1 l2 : pic_after c d p (l1 ++ l2) = pic_after c d (pic_after c d p l2) l1.
Proof. unfold pic_after. by rewrite rev_app_distr, foldl_app. Qed.

Lemma master_app p l1 l2 : master_after p (l1 ++ l2) = master_after (master_after p l2) l1.
Proof. apply pic_after_app. Qed.
Lemma slave_app p l1 l2 : slave_after p (l1 ++ l2) = slave_after (slave_after p l2) l1.
Proof. apply pic_after_app. Qed.

Section PicTheorems.
Context {S : Type} `{PortStateLaws S} `{PicMachine p1 p2}.
Implicit Types (s : S).

Lemma out_run port v s :
  out port v s = Ok (tt, set_ports ((u16 port, u8 v) :: ports s) s).
Proof. done. Qed.

Lemma out_then {A} port v (k : unit -> Eff S A) l s :
  bind (out port v) k (set_ports l s) = k tt (set_ports ((u16 port, u8 v) :: l) s).
Proof. unfold bind. by rewrite out_run, ports_set, set_set. Qed.

(** What the three setup functions write, latest first. *)
Definition remap_log : list (Z * Z) :=
  [(0xA1, 0xFF); (0x21, 0xFF); (0x80, 0); (0xA1, 0x01); (0x80, 0); (0x21, 0x01);
   (0x80, 0); (0xA1, 2); (0x80, 0); (0x21, 4); (0x80, 0); (0xA1, 0x28); (0x80, 0); (0x21, 0x20);
   (0x80, 0); (0xA0, 0x11); (0x80, 0); (0x20, 0x11)].
Definition pit_log : list (Z * Z) := [(0x40, 0x04); (0x40, 0xA9); (0x43, 0x36)].

Lemma remap_pics p :
  pic_after PIC1_COMMAND PIC1_DATA p remap_log = mkPic Ready 0x20 4 0xFF /\
  pic_after PIC2_COMMAND PIC2_DATA p remap_log = mkPic Ready 0x28 2 0xFF.
Proof. by destruct p. Qed.
Lemma pic_remap_run s : pic_remap s = Ok (tt, set_ports (remap_log ++ ports s) s).
Proof.
  rewrite <- (set_self s) at 1. unfold pic_remap, io_wait. rewrite !out_then, out_run.
  by rewrite ports_set, set_set.
Qed.
Lemma unmask_run irq s v :
  u8 (Z.land (u8 (port_in (ports s) PIC1_DATA)) (Z.lnot (Z.shiftl 1 irq))) = v ->
  unmask irq s = Ok (tt, set_ports ((0x21, v) :: ports s) s).
Proof. intros <-. done. Qed.
Lemma activate_timer_run s :
  activate_timer_interrupt s = unmask IRQ_TIMER (set_ports (pit_log ++ ports s) s).
Proof.
  rewrite <- (set_self s) at 1. unfold activate_timer_interrupt. by rewrite !out_then.
Qed.

(** Remapping and unmasking: after [pic_remap] the master raises vectors from
    0x20 with the slave on line 2, the slave from 0x28 with identity 2, both are
    out of their initialisation and every line is masked, whatever was written
    before; [activate_keyboard_interrupt] then opens line 1 alone and
    [activate_timer_interrupt] line 0. *)
Theorem pic_setup_spec s :
  exists s1 s2 s3, pic_remap s = Ok (tt, s1) /\ activate_keyboard_interrupt s1 = Ok (tt, s2) /\
    activate_timer_interrupt s2 = Ok (tt, s3) /\
    master_after p1 (ports s1) = mkPic Ready 0x20 4 0xFF /\
    slave_after p2 (ports s1) = mkPic Ready 0x28 2 0xFF /\
    master_after p1 (ports s2) = mkPic Ready 0x20 4 0xFD /\
    slave_after p2 (ports s2) = mkPic Ready 0x28 2 0xFF /\
    master_after p1 (ports s3) = mkPic Ready 0x20 4 0xFC /\
    slave_after p2 (ports s3) = mkPic Ready 0x28 2 0xFF.
Proof.
  set (l1 := remap_log ++ ports s).
  assert (Hm1 : master_after p1 l1 = mkPic Ready 0x20 4 0xFF)
    by (unfold l1; rewrite master_app; exact (proj1 (remap_pics _))).
  assert (Hs1 : slave_after p2 l1 = mkPic Ready 0x28 2 0xFF)
    by (unfold l1; rewrite slave_app; exact (proj2 (remap_pics _))).
  set (l2 := [(0x21, 0xFD)] ++ l1).
  assert (Hm2 : master_after p1 l2 = mkPic Ready 0x20 4 0xFD)
    by (unfold l2; rewrite master_app, Hm1; vm_compute; reflexivity).
  assert (Hs2 : slave_after p2 l2 = mkPic Ready 0x28 2 0xFF)
    by (unfold l2; rewrite slave_app, Hs1; vm_compute; reflexivity).
  set (l3 := pit_log ++ l2).
  assert (Hm3 : master_after p1 l3 = mkPic Ready 0x20 4 0xFD)
    by (unfold l3; rewrite master_app, Hm2; vm_compute; reflexivity).
  assert (Hs3 : slave_after p2 l3 = mkPic Ready 0x28 2 0xFF)
    by (unfold l3; rewrite slave_app, Hs2; vm_compute; reflexivity).
  set (l4 := [(0x21, 0xFC)] ++ l3).
  assert (Hm4 : master_after p1 l4 = mkPic Ready 0x20 4 0xFC)
    by (unfold l4; rewrite master_app, Hm3; vm_compute; reflexivity).
  assert (Hs4 : slave_after p2 l4 = mkPic Ready 0x28 2 0xFF)
    by (unfold l4; rewrite slave_app, Hs3; vm_compute; reflexivity).
  exists (set_ports l1 s), (set_ports l2 s), (set_ports l4 s).
  rewrite !ports_set. split_and!; try done.
  - by rewrite pic_remap_run.
  - unfold activate_keyboard_interrupt. rewrite (unmask_run _ _ 0xFD); rewrite ports_set.
    + by rewrite set_set.
    + by rewrite (pic1_reads l1), Hm1 by by rewrite Hm1.
  - rewrite activate_timer_run, (unmask_run _ _ 0xFC); rewrite !ports_set.
    + by rewrite !set_set.
    + by rewrite (pic1_reads l3), Hm3 by by rewrite Hm3.
Qed.
End PicTheorems.
