(* ===== verification/Scheduler.v ===== *)
(** Scheduler: src/scheduler/scheduler.c - round robin over the process list,
    driven by the timer interrupt. *)

From Stdlib Require Import ZArith Lia.
From stdpp Require Import base tactics numbers list gmap fin_maps.
From S2P Require Import Prelude Memory Disk Fat32 Paging Process Pic.
#[local] Open Scope eff_scope.

(** ** Interrupt frames *)

Record InterruptFrame := mkFrame {
  f_cpu : CPURegister;
  int_number : Z;
  error_code : Z;
  i_eip : Z;
  i_cs : Z;
  i_eflags : Z
}.

Section Scheduler.
Context {D : Type} `{BlockDevice D} `{Layout}.
Implicit Types (k : Kernel D).

#[export] Instance kernel_ports : PortState (Kernel D) := {|
  ports := out_log;
  set_ports l k := mkKernel (fsys k) (process_list k) (process_used k) (active_process_count k)
                     (current_process_idx k) (next_process_idx k) l (cpu_context k)
|}.

Definition set_indices (cur next : Z) k : Kernel D :=
  mkKernel (fsys k) (process_list k) (process_used k) (active_process_count k)
    cur next (out_log k) (cpu_context k).
Definition set_cpu_context (c : option Context) k : Kernel D :=
  mkKernel (fsys k) (process_list k) (process_used k) (active_process_count k)
    (current_process_idx k) (next_process_idx k) (out_log k) c.

Definition scheduler_save_context_to_current_running_pcb (ctx : Context) : Eff (Kernel D) unit :=
  p <- process_get_current_running_pcb_pointer ;;
  match p with
  | None => stop BadAccess
  | Some i => update_pcb i (set_context ctx)
  end.

(** [while (i != current_process_idx)]: the index of the next ready process, or
    the current one when the search comes back to it. An index past the end of
    the arrays is a bad access. *)
Fixpoint find_next (fuel : nat) (i cur : Z) (used : list bool) (l : list ProcessControlBlock)
  : Res Z :=
  if i =? cur then Ok i else
  match fuel with
  | O => Fault Stuck
  | S fuel' =>
    res_bind (of_option BadAccess used.[i]) (fun u =>
    res_bind (of_option BadAccess l.[i]) (fun p =>
    if (u : bool) && bool_decide (state p = PROCESS_READY) then Ok i
    else let i' := i + 1 in
         find_next fuel' (if PROCESS_COUNT_MAX <=? i' then 0 else i') cur used l))
  end.

(** More turns than there are processes. *)
Definition NEXT_FUEL : nat := Z.to_nat (PROCESS_COUNT_MAX + 1).

(** process_context_switch, in assembly: the registers of the context. *)
Definition process_context_switch (c : Context) : Eff (Kernel D) unit :=
  modify (set_cpu_context (Some c)).

Definition scheduler_switch_to_next_process : Eff (Kernel D) unit :=
  cur0 <- gets current_process_idx ;;
  update_pcb cur0 (set_state PROCESS_READY) ;;;
  modify (fun k => set_indices (next_process_idx k) (next_process_idx k) k) ;;;
  cur <- gets current_process_idx ;;
  i <- (fun k => of_res (find_next NEXT_FUEL (cur + 1) cur (process_used k) (process_list k)) k) ;;
  modify (fun k => set_indices cur (if i =? cur then cur else i) k) ;;;
  update_pcb cur (set_state PROCESS_RUNNING) ;;;
  p <- get_pcb cur ;;
  on_paging (paging_use_page_directory (page_directory_virtual_addr (context p))) ;;;
  pic_ack (PIC1_OFFSET + IRQ_TIMER) ;;;
  p <- get_pcb cur ;;
  process_context_switch (context p).

(** The context of the interrupted process. *)
Definition frame_context (frame : InterruptFrame) (pd : Z) : Context :=
  mkContext (f_cpu frame) (i_eip frame) (i_cs frame) (i_eflags frame) (esp (f_cpu frame))
    (Z.lor 0x20 0x3) pd.

Definition timer_isr (frame : InterruptFrame) : Eff (Kernel D) unit :=
  pd <- on_paging paging_get_current_page_directory_addr ;;
  scheduler_save_context_to_current_running_pcb (frame_context frame pd) ;;;
  scheduler_switch_to_next_process.

Definition scheduler_init `{PortMachine} : Eff (Kernel D) unit := activate_timer_interrupt.
End Scheduler.
