(* ===== verification/SchedulerSpec.v ===== *)
(** SchedulerSpec: what a timer tick does, that exactly one process is running,
    and that every process gets its turn. *)

From Stdlib Require Import ZArith Lia.
From stdpp Require Import base tactics numbers list gmap fin_maps.
From S2P Require Import Prelude Memory Disk Fat32 Paging Process Pic Scheduler.
#[local] Open Scope eff_scope.

(** ** The search for the next process *)

(** [i + d] around the process list. *)
Definition around (i d : Z) : Z := (i + d) mod PROCESS_COUNT_MAX.

Definition is_ready (used : list bool) (l : list ProcessControlBlock) (i : Z) : bool :=
  znth false used i && bool_decide (state (znth zero_pcb l i) = PROCESS_READY).

(** The first ready process after [cur] in cyclic order, [cur] when there is
    none. *)
Definition next_of (used : list bool) (l : list ProcessControlBlock) (cur : Z) : Z :=
  match for_find 1 PROCESS_COUNT_MAX (fun d => is_ready used l (around cur d)) with
  | Some d => around cur d
  | None => cur
  end.

Lemma around_range i d : 0 <= around i d < PROCESS_COUNT_MAX.
Proof. by apply Z.mod_pos_bound. Qed.
Lemma around_full i : 0 <= i < PROCESS_COUNT_MAX -> around i PROCESS_COUNT_MAX = i.
Proof.
  unfold around, PROCESS_COUNT_MAX. intros. rewrite <- (Z.mul_1_l 16) at 1.
  rewrite Z.mod_add by lia. by apply Z.mod_small.
Qed.
Lemma around_ne i d : 0 <= i < PROCESS_COUNT_MAX -> 1 <= d < PROCESS_COUNT_MAX -> around i d <> i.
Proof.
  unfold around, PROCESS_COUNT_MAX. intros Hi Hd Heq.
  pose proof (Z.div_mod (i + d) 16 ltac:(lia)). rewrite Heq in *.
  assert ((i + d) / 16 = 0 \/ (i + d) / 16 = 1 \/ (i + d) / 16 >= 2 \/ (i + d) / 16 < 0) by lia. lia.
Qed.
Lemma around_step i d :
  0 <= i < PROCESS_COUNT_MAX -> 1 <= d < PROCESS_COUNT_MAX ->
  (if PROCESS_COUNT_MAX <=? around i d + 1 then 0 else around i d + 1) = around i (d + 1).
Proof.
  unfold around, PROCESS_COUNT_MAX. intros Hi Hd.
  rewrite Z.add_assoc, <- (Z.add_mod_idemp_l (i + d)) by lia.
  pose proof (Z.mod_pos_bound (i + d) 16 ltac:(lia)) as Hm. revert Hm.
  generalize ((i + d) mod 16). intros m Hm.
  destruct (Z.leb_spec 16 (m + 1)).
  - assert (m = 15) as -> by lia. done.
  - by rewrite Z.mod_small by lia.
Qed.

Lemma find_next_around n : forall d cur used l,
  zlen used = PROCESS_COUNT_MAX -> zlen l = PROCESS_COUNT_MAX ->
  0 <= cur < PROCESS_COUNT_MAX -> 1 <= d -> d + Z.of_nat n = PROCESS_COUNT_MAX ->
  forall fuel, (n <= fuel)%nat ->
  find_next fuel (around cur d) cur used l =
    Ok (match find_loop n d (fun d => is_ready used l (around cur d)) with
        | Some d => around cur d
        | None => cur
        end).
Proof.
  induction n as [| n IH]; intros d cur used l Hu Hl Hc Hd Hn fuel Hfuel.
  - assert (d = PROCESS_COUNT_MAX) as -> by lia. rewrite around_full by done.
    destruct fuel; cbn [find_next find_loop]; by rewrite Z.eqb_refl.
  - destruct fuel as [| fuel]; [lia |]. cbn [find_next find_loop].
    rewrite (proj2 (Z.eqb_neq _ _)) by (apply around_ne; [done | lia]).
    pose proof (around_range cur d) as Hr.
    rewrite (zget_znth false) by (by rewrite Hu). cbn [of_option res_bind].
    rewrite (zget_znth zero_pcb) by (by rewrite Hl). cbn [of_option res_bind].
    unfold is_ready at 1. destruct (_ && _); [done |]. rewrite around_step by (done || lia).
    apply IH; done || lia.
Qed.

(** From the slots 0 to 14 the search ends with [next_of]; from the last slot it
    looks past the end of the process table. *)
Lemma find_next_ok cur used l :
  zlen used = PROCESS_COUNT_MAX -> zlen l = PROCESS_COUNT_MAX -> 0 <= cur < 15 ->
  find_next NEXT_FUEL (cur + 1) cur used l = Ok (next_of used l cur).
Proof.
  intros Hu Hl Hc. assert (around cur 1 = cur + 1) as <-.
  { unfold around, PROCESS_COUNT_MAX. apply Z.mod_small. lia. }
  unfold next_of, for_find.
  apply find_next_around; [done | done | unfold PROCESS_COUNT_MAX; lia | done | done |].
  unfold NEXT_FUEL. lia.
Qed.
Lemma find_next_last used l :
  zlen used = PROCESS_COUNT_MAX -> find_next NEXT_FUEL (15 + 1) 15 used l = Fault BadAccess.
Proof.
  intros Hu. assert (Hout : used.[15 + 1] = None) by (apply zget_None; rewrite Hu; unfold PROCESS_COUNT_MAX; lia).
  change NEXT_FUEL with (S 16). generalize 16%nat as n. intros n. cbn [find_next]. by rewrite Hout.
Qed.

Lemma next_of_cases used l cur :
  next_of used l cur = cur \/
  (is_ready used l (next_of used l cur) = true /\ 0 <= next_of used l cur < PROCESS_COUNT_MAX).
Proof.
  unfold next_of. destruct (for_find _ _ _) as [d |] eqn:Hf; [| by left]. right.
  apply for_find_Some in Hf as (_ & Hp & _). split; [done | apply around_range].
Qed.

Section Spec.
Context {D : Type} `{BlockDevice D} `{Layout}.
Implicit Types (k : Kernel D).

(** ** Switching *)

Definition tables_ok k : Prop :=
  zlen (process_list k) = PROCESS_COUNT_MAX /\ zlen (process_used k) = PROCESS_COUNT_MAX /\
  0 <= current_process_idx k < PROCESS_COUNT_MAX.

(** The process list while the search runs. *)
Definition paused k : list ProcessControlBlock :=
  (process_list k).[current_process_idx k :=
     set_state PROCESS_READY (znth zero_pcb (process_list k) (current_process_idx k))].

(** The state after a switch to [next_process_idx]. *)
Definition switched k : Kernel D :=
  let cur := next_process_idx k in
  let p := set_state PROCESS_RUNNING (znth zero_pcb (paused k) cur) in
  mkKernel
    (fsys (set_paging (set_cr3
       (if KERNEL_VIRTUAL_ADDRESS_BASE <? page_directory_virtual_addr (context p)
        then u32 (page_directory_virtual_addr (context p) - KERNEL_VIRTUAL_ADDRESS_BASE)
        else page_directory_virtual_addr (context p)) (k_paging k)) k))
    (paused k).[cur := p] (process_used k) (active_process_count k)
    cur (next_of (process_used k) (paused k) cur)
    ((PIC1_COMMAND, PIC_ACK) :: (PIC2_COMMAND, PIC_ACK) :: out_log k)
    (Some (context p)).

Lemma get_pcb_run k i :
  0 <= i < zlen (process_list k) -> get_pcb i k = Ok (znth zero_pcb (process_list k) i, k).
Proof. intros Hi. unfold get_pcb. by rewrite (zget_znth zero_pcb). Qed.
Lemma update_pcb_run k i f :
  0 <= i < zlen (process_list k) ->
  update_pcb i f k =
    Ok (tt, set_process_list (process_list k).[i := f (znth zero_pcb (process_list k) i)] k).
Proof. intros Hi. unfold update_pcb, bind. by rewrite get_pcb_run. Qed.

Lemma znth_zset_eq (l : list ProcessControlBlock) i p :
  0 <= i < zlen l -> znth zero_pcb l.[i := p] i = p.
Proof. intros. unfold znth. by rewrite zget_zset_eq. Qed.
Lemma znth_zset_ne (l : list ProcessControlBlock) i j p :
  i <> j -> znth zero_pcb l.[i := p] j = znth zero_pcb l j.
Proof. intros. unfold znth. by rewrite zget_zset_ne. Qed.

Lemma zlen_paused k : zlen (paused k) = zlen (process_list k).
Proof. apply zlen_zset. Qed.

Lemma switch_run k :
  tables_ok k -> 0 <= next_process_idx k < 15 ->
  scheduler_switch_to_next_process k = Ok (tt, switched k).
Proof.
  intros (Hl & Hu & Hc) Hn.
  assert (Hlen : 0 <= next_process_idx k < zlen (paused k))
    by (rewrite zlen_paused, Hl; unfold PROCESS_COUNT_MAX; lia).
  assert (Hif : forall i, (if i =? next_process_idx k then next_process_idx k else i) = i)
    by (intros i; destruct (Z.eqb_spec i (next_process_idx k)); congruence).
  unfold scheduler_switch_to_next_process. run_step.
  run_step using update_pcb_run; [| by rewrite Hl]. fold (paused k). run_step. run_step.
  erewrite bind_run; [| by cbn; rewrite find_next_ok by (done || by rewrite zlen_paused)].
  rewrite Hif. run_step.
  run_step using update_pcb_run; [| exact Hlen].
  run_step using get_pcb_run; [| by cbn; rewrite zlen_zset].
  run_step. run_step. cbn [set_process_list process_list]. rewrite znth_zset_eq by done.
  run_step using get_pcb_run; [| by cbn; rewrite zlen_zset].
  cbn. by rewrite znth_zset_eq.
Qed.

(** ** The scheduler's invariant

    The current process is the one running, the other processes are ready, the
    next one is known, and the last slot of the table is not used. *)
Record SchedInv k : Prop := {
  si_tables : tables_ok k;
  si_current : (process_used k).[current_process_idx k] = Some true;
  si_last : (process_used k).[15] = Some false;
  si_running : forall i, (process_used k).[i] = Some true ->
    state (znth zero_pcb (process_list k) i) =
      if decide (i = current_process_idx k) then PROCESS_RUNNING else PROCESS_READY;
  si_next : next_process_idx k = next_of (process_used k) (process_list k) (current_process_idx k)
}.

(** What a switch needs: everything ready but perhaps the current process, and a
    process in the next slot. *)
Record SwitchReady k : Prop := {
  sr_tables : tables_ok k;
  sr_last : (process_used k).[15] = Some false;
  sr_next : (process_used k).[next_process_idx k] = Some true;
  sr_ready : forall i, (process_used k).[i] = Some true -> i <> current_process_idx k ->
    state (znth zero_pcb (process_list k) i) = PROCESS_READY
}.

Lemma used_below_15 k i :
  zlen (process_used k) = PROCESS_COUNT_MAX -> (process_used k).[15] = Some false ->
  (process_used k).[i] = Some true -> 0 <= i < 15.
Proof.
  intros Hu Hlast Hi. pose proof (zget_range _ _ _ Hi) as Hr. rewrite Hu in Hr.
  unfold PROCESS_COUNT_MAX in Hr. destruct (decide (i = 15)) as [-> | ?]; [congruence | lia].
Qed.

Lemma paused_ready k i :
  SwitchReady k -> (process_used k).[i] = Some true ->
  state (znth zero_pcb (paused k) i) = PROCESS_READY.
Proof.
  intros [(Hl & Hu & Hc) _ _ Hready] Hi. unfold paused.
  destruct (decide (i = current_process_idx k)) as [-> | Hne].
  - by rewrite znth_zset_eq by (by rewrite Hl).
  - rewrite znth_zset_ne by congruence. by apply Hready.
Qed.

Lemma is_ready_used used l i : is_ready used l i = true -> used.[i] = Some true.
Proof.
  unfold is_ready, znth. destruct used.[i] as [[] |]; done.
Qed.

(** A process that is running does not change what comes next. *)
Lemma next_of_running used l cur x :
  0 <= cur < PROCESS_COUNT_MAX ->
  next_of used l.[cur := x] cur = next_of used l cur.
Proof.
  intros Hc. unfold next_of.
  rewrite (for_find_ext _ _ _ (fun d => is_ready used l (around cur d))); [done |].
  intros d Hd. unfold is_ready. by rewrite znth_zset_ne by (intros Heq; by apply (around_ne cur d)).
Qed.

Lemma switched_inv k : SwitchReady k -> SchedInv (switched k).
Proof.
  intros Hsr. pose proof Hsr as [(Hl & Hu & Hc) Hlast Hnext Hready].
  pose proof (used_below_15 k _ Hu Hlast Hnext) as Hn.
  assert (Hlen : 0 <= next_process_idx k < zlen (paused k))
    by (rewrite zlen_paused, Hl; unfold PROCESS_COUNT_MAX; lia).
  split; cbn [switched process_list process_used current_process_idx next_process_idx].
  - split; [cbn; by rewrite zlen_zset, zlen_paused |]. split; [done |].
    cbn. unfold PROCESS_COUNT_MAX. lia.
  - exact Hnext.
  - exact Hlast.
  - intros i Hi. case_decide as Hd; [subst i; by rewrite znth_zset_eq |].
    rewrite znth_zset_ne by congruence. by apply paused_ready.
  - symmetry. apply next_of_running. unfold PROCESS_COUNT_MAX. lia.
Qed.

(** ** Ticks *)

Lemma running_pointer k :
  SchedInv k -> process_get_current_running_pcb_pointer k = Ok (Some (current_process_idx k), k).
Proof.
  intros [(Hl & Hu & Hc) Hcur Hlast Hrun _]. unfold process_get_current_running_pcb_pointer, gets.
  rewrite (proj2 (for_find_Some _ _ _ (current_process_idx k))); [done |].
  split; [exact Hc |]. split.
  - rewrite (znth_Some _ _ _ _ Hcur). cbn [andb]. apply bool_decide_eq_true.
    by rewrite Hrun, decide_True.
  - intros j Hj. destruct (process_used k).[j] as [[] |] eqn:Hjk.
    + rewrite (znth_Some _ _ _ _ Hjk). cbn [andb]. apply bool_decide_eq_false.
      by rewrite Hrun, decide_False by (done || lia).
    + by rewrite (znth_Some _ _ _ _ Hjk).
    + unfold znth. by rewrite Hjk.
Qed.

(** The kernel after the context of the current process was saved. *)
Definition saved (frame : InterruptFrame) k : Kernel D :=
  set_process_list
    (process_list k).[current_process_idx k :=
       set_context (frame_context frame (u32 (cr3 (k_paging k) + KERNEL_VIRTUAL_ADDRESS_BASE)))
         (znth zero_pcb (process_list k) (current_process_idx k))] k.

Lemma timer_run frame k :
  SchedInv k -> timer_isr frame k = Ok (tt, switched (saved frame k)) /\ SwitchReady (saved frame k).
Proof.
  intros Hinv. pose proof Hinv as [(Hl & Hu & Hc) Hcur Hlast Hrun Hnext].
  assert (Hn : (process_used k).[next_process_idx k] = Some true).
  { rewrite Hnext. destruct (next_of_cases (process_used k) (process_list k) (current_process_idx k))
      as [-> | [Hr _]]; [done | by eapply is_ready_used]. }
  pose proof (used_below_15 k _ Hu Hlast Hn) as Hn15.
  assert (Hlen : 0 <= current_process_idx k < zlen (process_list k)) by by rewrite Hl.
  assert (Htab : tables_ok (saved frame k)) by (split; [cbn; by rewrite zlen_zset | by split]).
  split.
  - unfold timer_isr. unfold bind at 1, on_paging at 1.
    cbn [paging_get_current_page_directory_addr gets]. rewrite set_paging_same.
    unfold bind at 1, scheduler_save_context_to_current_running_pcb. unfold bind at 1.
    rewrite running_pointer, update_pcb_run by done. by apply (switch_run (saved frame k)).
  - split; try done. intros i Hi Hne. cbn in *. rewrite znth_zset_ne by congruence.
    by rewrite Hrun, decide_False.
Qed.

(** A sequence of timer interrupts. *)
Fixpoint ticks (frames : list InterruptFrame) : Eff (Kernel D) unit :=
  match frames with
  | [] => ret tt
  | f :: frames' => timer_isr f ;;; ticks frames'
  end.

(** How far [j] is from the current process in cyclic order. *)
Definition distance (cur j : Z) : Z := (j - cur) mod PROCESS_COUNT_MAX.
Lemma distance_range cur j : 0 <= distance cur j < PROCESS_COUNT_MAX.
Proof. by apply Z.mod_pos_bound. Qed.
Lemma around_distance cur j : 0 <= j < PROCESS_COUNT_MAX -> around cur (distance cur j) = j.
Proof.
  intros Hj. unfold around, distance. rewrite Z.add_mod_idemp_r by done.
  replace (cur + (j - cur)) with j by lia. by apply Z.mod_small.
Qed.
Lemma distance_around cur d : 0 <= d < PROCESS_COUNT_MAX -> distance cur (around cur d) = d.
Proof.
  intros Hd. unfold around, distance. rewrite Zminus_mod_idemp_l.
  replace (cur + d - cur) with d by lia. by apply Z.mod_small.
Qed.
Lemma distance_0 cur j :
  0 <= cur < PROCESS_COUNT_MAX -> 0 <= j < PROCESS_COUNT_MAX -> distance cur j = 0 -> j = cur.
Proof.
  intros Hc Hj Hd. rewrite <- (around_distance cur j), Hd by done. unfold around.
  rewrite Z.add_0_r. by apply Z.mod_small.
Qed.

(** A tick brings a waiting process nearer. *)
Lemma next_nearer k j :
  SchedInv k -> (process_used k).[j] = Some true -> j <> current_process_idx k ->
  distance (next_process_idx k) j < distance (current_process_idx k) j.
Proof.
  intros [(Hl & Hu & Hc) Hcur Hlast Hrun Hnext] Hj Hne.
  pose proof (zget_range _ _ _ Hj) as Hjr. rewrite Hu in Hjr.
  set (cur := current_process_idx k) in *. rewrite Hnext. unfold next_of.
  pose proof (distance_range cur j) as Hdr.
  assert (distance cur j <> 0) by (intros Hd; by apply Hne, distance_0).
  assert (Hready : is_ready (process_used k) (process_list k) (around cur (distance cur j)) = true).
  { rewrite around_distance by done. unfold is_ready. rewrite (znth_Some _ _ _ _ Hj). cbn [andb].
    apply bool_decide_eq_true. by rewrite Hrun, decide_False. }
  destruct (for_find _ _ _) as [d |] eqn:Hf.
  - apply for_find_Some in Hf as (Hd & _ & Hlt).
    assert (d <= distance cur j).
    { apply Z.le_ngt. intros Hgt. specialize (Hlt (distance cur j) ltac:(lia)). congruence. }
    assert (Heq : distance (around cur d) j = distance cur j - d).
    { rewrite <- (around_distance cur j) at 1 by done. set (e := distance cur j) in *.
      unfold distance, around. rewrite Zminus_mod_idemp_l, Zminus_mod_idemp_r.
      replace (cur + e - (cur + d)) with (e - d) by lia. apply Z.mod_small. lia. }
    lia.
  - rewrite for_find_None in Hf. specialize (Hf (distance cur j) ltac:(lia)). congruence.
Qed.

Lemma timer_tick frame k :
  SchedInv k -> exists k', timer_isr frame k = Ok (tt, k') /\ SchedInv k' /\
    current_process_idx k' = next_process_idx k /\ process_used k' = process_used k.
Proof.
  intros Hinv. destruct (timer_run frame k Hinv) as [Hrun Hsr].
  exists (switched (saved frame k)). split; [done |]. split; [by apply switched_inv | done].
Qed.

Lemma ticks_nearer frames : forall k j,
  SchedInv k -> (process_used k).[j] = Some true ->
  distance (current_process_idx k) j <= Z.of_nat (length frames) ->
  exists m k', ticks (take m frames) k = Ok (tt, k') /\ SchedInv k' /\ current_process_idx k' = j.
Proof.
  induction frames as [| f frames IH]; intros k j Hinv Hj Hd;
    (destruct (decide (j = current_process_idx k)) as [-> | Hne]; [by exists 0%nat, k |]);
    pose proof (next_nearer k j Hinv Hj Hne) as Hlt;
    pose proof (distance_range (next_process_idx k) j); [cbn in Hd; lia |].
  destruct (timer_tick f k Hinv) as (k1 & Hrun & Hinv1 & Hc & Hu).
  destruct (IH k1 j) as (m & k2 & Hrun2 & Hrest); [done | by rewrite Hu | rewrite Hc; cbn in Hd; lia |].
  exists (S m), k2. cbn [take ticks]. by rewrite (bind_run _ _ _ _ _ Hrun).
Qed.

(** ** Theorems *)



(** The first switch, with a ready process in slot [next_process_idx],
    establishes the scheduler's invariant. *)
Theorem first_switch_spec k (Hready : SwitchReady k) :
  exists k', scheduler_switch_to_next_process k = Ok (tt, k') /\ SchedInv k' /\
    current_process_idx k' = next_process_idx k.
Proof.
  pose proof Hready as [Htab Hlast Hnext _]. pose proof Htab as (_ & Hu & _).
  exists (switched k). split; [apply switch_run; [done | by apply (used_below_15 k)] |].
  split; [by apply switched_inv | done].
Qed.

(** C36. A process in the last slot breaks the scheduler: switching to slot 15 goes
    on to read the entries at index 16, past the end of the process table. *)
Theorem last_slot_overrun k (Htab : tables_ok k) (Hnext : next_process_idx k = 15) :
  scheduler_switch_to_next_process k = Fault BadAccess.
Proof.
  destruct Htab as (Hl & Hu & Hc). unfold scheduler_switch_to_next_process. run_step.
  run_step using update_pcb_run; [| by rewrite Hl]. run_step. run_step.
  cbn [set_indices set_process_list current_process_idx next_process_idx process_used process_list].
  unfold bind at 1, of_res at 1. cbn [process_used process_list set_indices set_process_list].
  by rewrite Hnext, find_next_last.
Qed.

(** The choice of the next process is made one tick early and not looked at
    again: when the chosen process was destroyed meanwhile, the processor gets the
    zeroed context of its slot, with a null page directory in CR3. *)
Theorem stale_choice k
    (Htab : tables_ok k) (Hn : 0 <= next_process_idx k < 15)
    (Hne : next_process_idx k <> current_process_idx k)
    (Hgone : (process_list k).[next_process_idx k] = Some zero_pcb) :
  exists k', scheduler_switch_to_next_process k = Ok (tt, k') /\
    cpu_context k' = Some zero_context /\ cr3 (k_paging k') = 0.
Proof.
  exists (switched k). split; [by apply switch_run |].
  assert (Hz : znth zero_pcb (paused k) (next_process_idx k) = zero_pcb).
  { unfold paused. rewrite znth_zset_ne by congruence. by apply znth_Some. }
  cbn [switched cpu_context]. rewrite Hz. split; [done |]. unfold k_paging.
  cbn [switched fsys]. by rewrite Hz.
Qed.
End Spec.
