(* ===== verification/ProcessSpec.v ===== *)
(** ProcessSpec: what process creation and destruction do to the process table,
    the page directories, the frames and the file system. *)

From Stdlib Require Import ZArith Lia.
From stdpp Require Import base tactics numbers list gmap fin_maps.
From S2P Require Import Prelude Memory CString Disk FatLayout Fat32 FatLogic FatChain FatRead.
From S2P Require Import Paging PagingSpec Process.
#[local] Open Scope eff_scope.

(** ** Address spaces *)

Section Space.
Context `{LayoutOk}.
Implicit Types (s : Paging) (r : pd_ref).

(** CR3 names the directory [r]. *)
Definition active s r : Prop := valid_ref r /\ cr3 s = addr_of r - KERNEL_VIRTUAL_ADDRESS_BASE.

Lemma base_add_addr r :
  valid_ref r -> u32 (addr_of r - KERNEL_VIRTUAL_ADDRESS_BASE + KERNEL_VIRTUAL_ADDRESS_BASE) = addr_of r.
Proof.
  intros Hr. pose proof (addr_range r Hr) as Ha. rewrite PAGE_FRAME_SIZE_eq in Ha.
  unfold KERNEL_VIRTUAL_ADDRESS_BASE in *. rewrite u32_small by lia. lia.
Qed.
Lemma active_directory_of s r : active s r -> active_directory s = Some r.
Proof.
  intros [Hr Hc]. unfold active_directory. rewrite Hc, base_add_addr by done. by apply pd_of_addr_of.
Qed.

(** Switching to a directory makes it the active one. *)
Lemma use_run s r :
  valid_ref r ->
  paging_use_page_directory (addr_of r) s =
    Ok (tt, set_cr3 (addr_of r - KERNEL_VIRTUAL_ADDRESS_BASE) s).
Proof.
  intros Hr. pose proof (addr_range r Hr) as Ha. rewrite PAGE_FRAME_SIZE_eq in Ha.
  unfold paging_use_page_directory, modify.
  unfold KERNEL_VIRTUAL_ADDRESS_BASE in *.
  destruct (Z.ltb_spec 0xC0000000 (addr_of r)); [| lia]. by rewrite u32_small by lia.
Qed.
Lemma current_run s r :
  active s r -> paging_get_current_page_directory_addr s = Ok (addr_of r, s).
Proof.
  intros [Hr Hc]. unfold paging_get_current_page_directory_addr, gets.
  by rewrite Hc, base_add_addr.
Qed.

Lemma translate_active s r va :
  PagingInv s -> active s r -> translate s va = entry_translate (pd_entry s r (page_index va)) va.
Proof.
  intros Hinv Ha. unfold translate. rewrite (active_directory_of s r Ha). cbn [mbind option_bind].
  destruct Ha as [Hr _]. destruct (pi_table _ Hinv r Hr) as (d & Hd & _).
  rewrite Hd. unfold translate_in. by rewrite (pd_entry_of_directory _ _ _ _ Hd).
Qed.

(** Stores go to the frames and leave the directories alone. *)
Lemma store_bytes_paging bs : forall a (m m' : PagedMemory),
  store_bytes a bs m = Ok m' -> paging m' = paging m.
Proof.
  induction bs as [| b bs IH]; intros a m m' Hst; cbn [store_bytes] in Hst; [congruence |].
  unfold store8 in Hst. destruct (mem_resolve m (u32 a)); cbn [res_bind] in Hst; [| done].
  by rewrite (IH _ _ _ Hst).
Qed.

(** Two pages of a new directory: the space a process gets. *)
Record NewSpace s (j va f0 f1 : Z) s' : Prop := {
  ns_inv : PagingInv s';
  ns_used : in_use s' (ListDir j);
  ns_valid : valid_ref (ListDir j);
  ns_free : (page_frame_map s).[f0] = Some false /\ (page_frame_map s).[f1] = Some false /\ f0 <> f1;
  ns_map : page_frame_map s' = (page_frame_map s).[f0 := true].[f1 := true];
  ns_count : free_page_frame_count s' = free_page_frame_count s - 2;
  ns_code : forall a, page_index a = page_index va ->
    entry_translate (pd_entry s' (ListDir j) (page_index a)) a =
      Some (f0 * PAGE_FRAME_SIZE + u32 a mod PAGE_FRAME_SIZE);
  ns_stack : forall a, page_index a = page_index USER_STACK ->
    entry_translate (pd_entry s' (ListDir j) (page_index a)) a =
      Some (f1 * PAGE_FRAME_SIZE + u32 a mod PAGE_FRAME_SIZE);
  ns_entries : forall i, i <> page_index va -> i <> page_index USER_STACK ->
    pd_entry s' (ListDir j) i = if decide (KERNEL_PAGE_INDEX = i) then kernel_entry else zero_entry;
  ns_other : forall r i, r <> ListDir j -> pd_entry s' r i = pd_entry s r i;
  ns_cr3 : cr3 s' = cr3 s
}.

Lemma mapped_entry e a f :
  flag e = user_flag -> lower_address e = f ->
  entry_translate e a = Some (f * PAGE_FRAME_SIZE + u32 a mod PAGE_FRAME_SIZE).
Proof.
  intros Hf Hl. unfold entry_translate. rewrite Hf, Hl. cbn [user_flag present_bit use_pagesize_4_mb andb].
  by rewrite Z.shiftl_mul_pow2 by lia.
Qed.

Lemma pd_entry_allocated s r va f r' i :
  PagingInv s -> valid_ref r ->
  pd_entry (allocated r va f s) r' i =
    if decide (r = r' /\ page_index va = i) then set_mapping user_flag f (pd_entry s r i)
    else pd_entry s r' i.
Proof.
  intros Hinv Hr. unfold allocated.
  rewrite pd_entry_map_page by (done || apply set_frames_tables, (pi_table _ Hinv)).
  unfold pd_entry. by rewrite !directory_set_frames.
Qed.

Definition unused_directory s : option Z :=
  for_find 0 PAGING_DIRECTORY_TABLE_MAX_COUNT (fun i => negb (znth true (page_directory_used s) i)).

Lemma new_space s j va :
  PagingInv s -> unused_directory s = Some j -> 2 <= free_page_frame_count s ->
  page_index va <> KERNEL_PAGE_INDEX -> page_index va <> page_index USER_STACK ->
  exists s1 s2 s3 f0 f1,
    paging_create_new_page_directory s = Ok (addr_of (ListDir j), s1) /\
    paging_allocate_user_page_frame (addr_of (ListDir j)) va s1 = Ok (f0, s2) /\
    paging_allocate_user_page_frame (addr_of (ListDir j)) USER_STACK s2 = Ok (f1, s3) /\
    NewSpace s j va f0 f1 s3.
Proof.
  intros Hinv Hj Hfree Hk Hne. destruct (create_run s j Hinv Hj) as [Hun Hcreate].
  pose proof (created_inv s j Hinv Hun) as Hinv1.
  assert (Hr : valid_ref (ListDir j))
    by (pose proof (zget_range _ _ _ Hun) as Hr; by rewrite (pi_used _ Hinv) in Hr).
  assert (Hu1 : in_use (created j s) (ListDir j)) by (cbn; apply zget_zset_eq; by eapply zget_range).
  rewrite (pi_count _ Hinv) in Hfree.
  destruct (find_free_frame (page_frame_map s)) as [f0 |] eqn:Hf0;
    [| apply find_free_frame_None in Hf0; [lia | apply (pi_frames _ Hinv)]].
  destruct (find_free_frame_Some _ _ (pi_frames _ Hinv) Hf0) as [Hfree0 _].
  pose proof (allocated_inv (created j s) (ListDir j) va f0 Hinv1 Hr Hu1 Hk Hf0) as Hinv2.
  set (s2 := allocated (ListDir j) va f0 (created j s)) in *.
  assert (Hmap2 : page_frame_map s2 = (page_frame_map s).[f0 := true]) by done.
  destruct (find_free_frame (page_frame_map s2)) as [f1 |] eqn:Hf1;
    [| apply find_free_frame_None in Hf1; [| apply (pi_frames _ Hinv2)];
       rewrite Hmap2, count_free_take in Hf1 by done; lia].
  destruct (find_free_frame_Some _ _ (pi_frames _ Hinv2) Hf1) as [Hfree1 _].
  rewrite Hmap2 in Hfree1.
  assert (Hf01 : f0 <> f1).
  { intros ->. rewrite zget_zset_eq in Hfree1 by (by eapply zget_range). done. }
  rewrite zget_zset_ne in Hfree1 by done.
  assert (Hks : page_index USER_STACK <> KERNEL_PAGE_INDEX) by done.
  pose proof (allocated_inv s2 (ListDir j) USER_STACK f1 Hinv2 Hr Hu1 Hks Hf1) as Hinv3.
  exists (created j s), s2, (allocated (ListDir j) USER_STACK f1 s2), f0, f1.
  split; [done |]. split; [by apply allocate_run |]. split; [by apply allocate_run |].
  split; try done.
  - cbn. lia.
  - intros a Ha. apply mapped_entry;
      rewrite pd_entry_allocated, decide_False by (done || (intros [_ ?]; congruence));
      unfold s2; by rewrite pd_entry_allocated, decide_True.
  - intros a Ha. by apply mapped_entry; rewrite pd_entry_allocated, decide_True.
  - intros i Hi Hi'. rewrite pd_entry_allocated, decide_False by (done || (intros [_ ?]; congruence)).
    unfold s2. rewrite pd_entry_allocated, decide_False by (done || (intros [_ ?]; congruence)).
    unfold pd_entry, created. rewrite directory_set, decide_True; [apply entry_new_directory | done |].
    destruct (pi_table _ Hinv (ListDir j) Hr) as (d & Hd & _). by exists d.
  - intros r i Hri. rewrite pd_entry_allocated, decide_False by (done || (intros [? _]; congruence)).
    unfold s2. rewrite pd_entry_allocated, decide_False by (done || (intros [? _]; congruence)).
    apply pd_entry_directory. unfold created. rewrite directory_set, decide_False; [done | done |].
    destruct (pi_table _ Hinv (ListDir j) Hr) as (d & Hd & _).
    by exists d.
Qed.
End Space.

(** ** The process table *)

Section Create.
Context {D : Type} `{BlockDeviceSpec D} `{LayoutOk}.
Context (Hcap : CLUSTER_BLOCK_COUNT * CLUSTER_MAP_SIZE <= dev_blocks).
Implicit Types (k : Kernel D) (request : FAT32DriverRequest).

Definition unused_slot k : option Z :=
  for_find 0 PROCESS_COUNT_MAX (fun i => negb (znth true (process_used k) i)).

(** The process table and what it rests on. *)
Record KernelInv k : Prop := {
  ki_fs : FSInv (fsys k);
  ki_paging : PagingInv (k_paging k);
  ki_active : exists r, active (k_paging k) r;
  ki_list : zlen (process_list k) = PROCESS_COUNT_MAX;
  ki_used : zlen (process_used k) = PROCESS_COUNT_MAX;
  ki_addrs : forall i p, (process_list k).[i] = Some p ->
    zlen (virtual_addr_used p) = PROCESS_PAGE_FRAME_COUNT_MAX
}.

Lemma on_paging_run {A} (c : Eff Paging A) k a p :
  c (k_paging k) = Ok (a, p) -> on_paging c k = Ok (a, set_paging p k).
Proof. unfold on_paging. by intros ->. Qed.
Lemma on_fs_run {A} (c : Eff (FS D PagedMemory) A) k a f :
  c (fsys k) = Ok (a, f) -> on_fs c k = Ok (a, set_fsys f k).
Proof. unfold on_fs. by intros ->. Qed.
Lemma update_pcb_slot k i p f :
  (process_list k).[i] = Some p ->
  update_pcb i f k = Ok (tt, set_process_list (process_list k).[i := f p] k).
Proof. intros Hi. unfold update_pcb, bind, get_pcb. by rewrite Hi. Qed.

(** The kernel with another file system and process table. *)
Definition kernel_with k (f : FS D PagedMemory) (l : list ProcessControlBlock) (u : list bool)
    (n : Z) : Kernel D :=
  mkKernel f l u n (current_process_idx k) (next_process_idx k) (out_log k) (cpu_context k).

(** The block of a new process while it is filled in, and when it is done. *)
Definition filled_pcb request (i f0 f1 : Z) (p : ProcessControlBlock) : ProcessControlBlock :=
  set_frame_count 2
    (set_virtual_addr 1 (u32 (f1 + KERNEL_VIRTUAL_ADDRESS_BASE))
      (set_virtual_addr 0 (u32 (f0 + KERNEL_VIRTUAL_ADDRESS_BASE))
        (set_metadata (req_name request) i p))).
Definition new_pcb request (i pd f0 f1 : Z) (p : ProcessControlBlock) : ProcessControlBlock :=
  set_state PROCESS_READY
    (set_context (initial_context (buf request) pd (context p)) (filled_pcb request i f0 f1 p)).

(** The run up to the call of [read], which works in the new address space. *)
Definition loading k (j : Z) (s3 : Paging) : FS D PagedMemory :=
  set_umem (mkPaged (set_cr3 (directory_addr j - KERNEL_VIRTUAL_ADDRESS_BASE) s3) (k_frames k)) (fsys k).

Lemma inactive_index_run k i :
  unused_slot k = Some i -> process_list_get_inactive_index k = Ok (i, k).
Proof. intros Hi. unfold process_list_get_inactive_index, gets. fold (unused_slot k). by rewrite Hi. Qed.

Lemma zset_slot (l : list ProcessControlBlock) i p q : l.[i] = Some p -> l.[i := q].[i] = Some q.
Proof. intros Hi. apply zget_zset_eq. by eapply zget_range. Qed.

(** Loading a process, when the read of its program ends with [res] in [f]. *)
Lemma load_process_run k request i p r j s1 s2 s3 f0 f1 res f :
  unused_slot k = Some i -> (process_list k).[i] = Some p -> active (k_paging k) r ->
  0 <= active_process_count k < PROCESS_COUNT_MAX -> valid_ref (ListDir j) ->
  paging_create_new_page_directory (k_paging k) = Ok (addr_of (ListDir j), s1) ->
  paging_allocate_user_page_frame (addr_of (ListDir j)) (buf request) s1 = Ok (f0, s2) ->
  paging_allocate_user_page_frame (addr_of (ListDir j)) USER_STACK s2 = Ok (f1, s3) ->
  Fat32.read request (loading k j s3) = Ok (res, f) ->
  let u := (process_used k).[i := true] in
  let n := active_process_count k + 1 in
  load_process request i k =
    if u32 res =? 0 then
      Ok (PROCESS_CREATE_SUCCESS,
          kernel_with k
            (set_umem (mkPaged (set_cr3 (addr_of r - KERNEL_VIRTUAL_ADDRESS_BASE) (paging (umem f)))
                               (frames (umem f))) f)
            (process_list k).[i := new_pcb request i (addr_of (ListDir j)) f0 f1 p] u n)
    else
      Ok (PROCESS_CREATE_FAIL_FS_READ_FAILURE,
          kernel_with k f (process_list k).[i := filled_pcb request i f0 f1 p] u n).
Proof.
  intros Hi Hp Ha Hn Hj Hc Ha0 Ha1 Hread u n. unfold load_process.
  run_step using inactive_index_run; [| exact Hi].
  run_step using update_pcb_slot; [| exact Hp].
  run_step using on_paging_run; [| by eapply current_run].
  run_step using on_paging_run; [| exact Hc].
  run_step using on_paging_run; [| exact Ha0].
  run_step using update_pcb_slot; [| cbn; by eapply zset_slot].
  run_step using on_paging_run; [| exact Ha1].
  run_step using update_pcb_slot; [| cbn; by eapply zset_slot, zset_slot].
  run_step using update_pcb_slot; [| cbn; by eapply zset_slot, zset_slot, zset_slot].
  run_step. run_step using on_paging_run; [| by apply use_run].
  run_step using on_fs_run; [| exact Hread].
  destruct (u32 res =? 0); cbn [negb].
  - run_step using on_paging_run; [| destruct Ha; by apply use_run].
    run_step using update_pcb_slot; [| cbn; by eapply zset_slot, zset_slot, zset_slot, zset_slot].
    run_step using update_pcb_slot; [| cbn; by eapply zset_slot, zset_slot, zset_slot, zset_slot, zset_slot].
    cbn. rewrite !zset_zset, (u32_small (active_process_count k + 1)); [done |].
    unfold PROCESS_COUNT_MAX in Hn. lia.
  - cbn. rewrite !zset_zset, (u32_small (active_process_count k + 1)); [done |].
    unfold PROCESS_COUNT_MAX in Hn. lia.
Qed.

(** ** Creating a process *)

(** The program a request names: a file of its parent directory, whose clusters
    are [cs]. *)
Record Program (f : FS D PagedMemory) request (e : Z) (cs : list Z) : Prop := {
  pr_parent : in_fat (parent_cluster_number request);
  pr_directory :
    user_attribute (row (dir_table f (parent_cluster_number request)) 0) = UATTR_NOT_EMPTY;
  pr_row : find_entry 0 (dir_table f (parent_cluster_number request)) request = Some e;
  pr_file : attribute (row (dir_table f (parent_cluster_number request)) e) <> ATTR_SUBDIRECTORY;
  pr_size : filesize (row (dir_table f (parent_cluster_number request)) e) <= buffer_size request;
  pr_chain : chain (fat_of f) (entry_cluster (row (dir_table f (parent_cluster_number request)) e)) cs
}.

(** What creation needs besides the program: a block, a directory and enough
    frames; an entry point below the kernel, not in the page of the stack; a
    program that fits in the page of its entry point. *)
Record CreateReady k request (i j : Z) (cs : list Z) : Prop := {
  cr_inv : KernelInv k;
  cr_count : 0 <= active_process_count k < PROCESS_COUNT_MAX;
  cr_slot : unused_slot k = Some i;
  cr_directory : unused_directory (k_paging k) = Some j;
  cr_entrypoint : 0 <= buf request < KERNEL_VIRTUAL_ADDRESS_BASE;
  cr_page : page_index (buf request) <> page_index USER_STACK;
  cr_size : 0 < buffer_size request <= 7 * PAGE_FRAME_SIZE;
  cr_frames : page_frame_count_needed (buffer_size request) <= free_page_frame_count (k_paging k);
  cr_fit : buf request mod PAGE_FRAME_SIZE + CLUSTER_SIZE * zlen cs <= PAGE_FRAME_SIZE
}.

(** The state after creation. *)
Record ProcessCreated k request (i j : Z) (cs : list Z) (f0 f1 : Z) k' : Prop := {
  pc_inv : KernelInv k';
  pc_list : exists p, (process_list k).[i] = Some p /\
    process_list k' = (process_list k).[i := new_pcb request i (directory_addr j) f0 f1 p];
  pc_used : process_used k' = (process_used k).[i := true];
  pc_active : active_process_count k' = active_process_count k + 1;
  pc_space : NewSpace (k_paging k) j (buf request) f0 f1 (k_paging k');
  pc_loaded : forall o b, (chain_bytes (cluster (disk (fsys k))) cs).[o] = Some b ->
    mem_get (umem (fsys k')) (f0 * PAGE_FRAME_SIZE + buf request mod PAGE_FRAME_SIZE + o) = b;
  pc_frames : forall a, a / PAGE_FRAME_SIZE <> f0 ->
    mem_get (umem (fsys k')) a = mem_get (umem (fsys k)) a;
  pc_disk : forall c, in_fat c -> cluster (disk (fsys k')) c = cluster (disk (fsys k)) c;
  pc_rest : current_process_idx k' = current_process_idx k /\ next_process_idx k' = next_process_idx k /\
    out_log k' = out_log k /\ cpu_context k' = cpu_context k
}.

Lemma needed_bounds size :
  0 < size <= 7 * PAGE_FRAME_SIZE -> 2 <= page_frame_count_needed size <= PROCESS_PAGE_FRAME_COUNT_MAX.
Proof.
  rewrite PAGE_FRAME_SIZE_eq. intros Hs. unfold page_frame_count_needed, ceil_div.
  rewrite PAGE_FRAME_SIZE_eq, (u32_small (size + 2 ^ 22)) by lia.
  pose proof (Z.div_mod (size + 2 ^ 22) (2 ^ 22) ltac:(lia)) as Hdm.
  pose proof (Z.mod_pos_bound (size + 2 ^ 22) (2 ^ 22) ltac:(lia)).
  unfold PROCESS_PAGE_FRAME_COUNT_MAX.
  destruct (Z.eqb_spec ((size + 2 ^ 22) mod 2 ^ 22) 0); rewrite u32_small; lia.
Qed.

Lemma user_page va : 0 <= va < KERNEL_VIRTUAL_ADDRESS_BASE -> page_index va <> KERNEL_PAGE_INDEX.
Proof.
  unfold KERNEL_VIRTUAL_ADDRESS_BASE, KERNEL_PAGE_INDEX. intros Hva.
  rewrite page_index_eq, PAGE_FRAME_SIZE_eq, u32_small by lia.
  assert (va / 2 ^ 22 < 768) by (apply Z.div_lt_upper_bound; lia). lia.
Qed.
Lemma same_page va o :
  0 <= va -> 0 <= o -> va mod PAGE_FRAME_SIZE + o < PAGE_FRAME_SIZE -> va < KERNEL_VIRTUAL_ADDRESS_BASE ->
  u32 (va + o) = va + o /\ page_index (va + o) = page_index va /\
  (va + o) mod PAGE_FRAME_SIZE = va mod PAGE_FRAME_SIZE + o.
Proof.
  rewrite PAGE_FRAME_SIZE_eq. unfold KERNEL_VIRTUAL_ADDRESS_BASE. intros Hva Ho Hfit Hk.
  pose proof (Z.div_mod va (2 ^ 22) ltac:(lia)) as Hdm.
  pose proof (Z.mod_pos_bound va (2 ^ 22) ltac:(lia)).
  assert (Hu : u32 (va + o) = va + o).
  { apply u32_small. assert (va / 2 ^ 22 < 768) by (apply Z.div_lt_upper_bound; lia). lia. }
  assert (Hq : va + o = (va mod 2 ^ 22 + o) + va / 2 ^ 22 * 2 ^ 22) by lia.
  split; [done |]. rewrite !page_index_eq, PAGE_FRAME_SIZE_eq, Hu, (u32_small va) by lia. split.
  - rewrite Hq at 1. rewrite Z.div_add, Z.div_small by lia. lia.
  - rewrite Hq at 1. rewrite Z.mod_add, Z.mod_small by lia. done.
Qed.

(** The cells of the addresses that follow the entry point. *)
Lemma resolve_page (m : PagedMemory) r va f n :
  PagingInv (paging m) -> active (paging m) r -> 0 <= va < KERNEL_VIRTUAL_ADDRESS_BASE ->
  (forall a, page_index a = page_index va ->
     entry_translate (pd_entry (paging m) r (page_index a)) a =
       Some (f * PAGE_FRAME_SIZE + u32 a mod PAGE_FRAME_SIZE)) ->
  va mod PAGE_FRAME_SIZE + n <= PAGE_FRAME_SIZE -> forall o, 0 <= o < n ->
  mem_resolve m (u32 (va + o)) = Some (f * PAGE_FRAME_SIZE + va mod PAGE_FRAME_SIZE + o).
Proof.
  intros Hinv Ha Hva Hent Hn o Ho.
  destruct (same_page va o) as (Hu & Hidx & Hoff); [lia.. |].
  unfold mem_resolve, paged_memory. rewrite (translate_active _ r) by done.
  rewrite Hent by (by rewrite Hu). by rewrite u32_idemp, Hu, Hoff, Z.add_assoc.
Qed.

(** The page of a process's stack, mapped and its addresses to different cells. *)
Definition STACK_PAGE : Z := KERNEL_VIRTUAL_ADDRESS_BASE - PAGE_FRAME_SIZE.
Record StackReady {M} `{ByteMem M} (m : M) : Prop := {
  sr_mapped : mapped m STACK_PAGE PAGE_FRAME_SIZE;
  sr_separate : separate m STACK_PAGE PAGE_FRAME_SIZE
}.
Lemma stack_ready (m : PagedMemory) r f :
  PagingInv (paging m) -> active (paging m) r ->
  (forall a, page_index a = page_index USER_STACK ->
     entry_translate (pd_entry (paging m) r (page_index a)) a =
       Some (f * PAGE_FRAME_SIZE + u32 a mod PAGE_FRAME_SIZE)) -> StackReady m.
Proof.
  intros Hinv Ha Hent.
  assert (Hr : forall o, 0 <= o < PAGE_FRAME_SIZE ->
    mem_resolve m (u32 (STACK_PAGE + o)) = Some (f * PAGE_FRAME_SIZE + STACK_PAGE mod PAGE_FRAME_SIZE + o)).
  { by apply (resolve_page m r STACK_PAGE f PAGE_FRAME_SIZE). }
  split.
  - intros i Hi. rewrite Hr by done. by eexists.
  - intros i j Hi Hj. rewrite !Hr by done. intros [= ?]. lia.
Qed.

Lemma set_cr3_inv s c : PagingInv s -> PagingInv (set_cr3 c s).
Proof. intros [? ? ? Ht Hun Hk Ho Huq]. by split. Qed.

(** The program in the new address space: the read succeeds, touches no other
    frame and no directory. *)
Lemma read_program (f : FS D PagedMemory) request e cs r fr :
  FSInv f -> PagingInv (paging (umem f)) -> active (paging (umem f)) r -> Program f request e cs ->
  0 <= buf request < KERNEL_VIRTUAL_ADDRESS_BASE ->
  (forall a, page_index a = page_index (buf request) ->
     entry_translate (pd_entry (paging (umem f)) r (page_index a)) a =
       Some (fr * PAGE_FRAME_SIZE + u32 a mod PAGE_FRAME_SIZE)) ->
  buf request mod PAGE_FRAME_SIZE + CLUSTER_SIZE * zlen cs <= PAGE_FRAME_SIZE ->
  exists f' m', read request f = Ok (0, f') /\ OnlyMemory f m' f' /\ paging m' = paging (umem f) /\
    (forall o b, (chain_bytes (cluster (disk f)) cs).[o] = Some b ->
       mem_get m' (fr * PAGE_FRAME_SIZE + buf request mod PAGE_FRAME_SIZE + o) = b) /\
    (forall a, a / PAGE_FRAME_SIZE <> fr -> mem_get m' a = mem_get (umem f) a).
Proof.
  intros Hinv Hpg Ha [Hp Hua Hfind Hat Hsz Hch] Hbuf Hent Hfit.
  set (bs := chain_bytes (cluster (disk f)) cs).
  assert (Hbs : zlen bs = CLUSTER_SIZE * zlen cs /\ all_bytes bs).
  { apply chain_bytes_ok. intros c Hc. apply (cluster_ok Hcap); [apply Hinv |].
    by apply (chain_in_fat _ _ _ _ (inv_fat _ Hinv) Hch). }
  destruct Hbs as [Hlen Hby].
  pose proof (resolve_page (umem f) r (buf request) fr (zlen bs) Hpg Ha Hbuf Hent ltac:(by rewrite Hlen))
    as Hres.
  destruct (store_bytes_mapped bs (buf request) (umem f)) as (m' & Hst & [Hr' Hfr Hho]).
  { intros o Ho. by rewrite Hres. }
  destruct (read_found Hcap f request e cs m') as (f' & Hrun & Hom); try done.
  exists f', m'. split; [done |]. split; [done |]. split; [by eapply store_bytes_paging |]. split.
  - intros o b Ho. pose proof (zget_range _ _ _ Ho) as Hor.
    destruct (Hho) with (i := o) (b := b) as (c & Hc & Hg); try done.
    { intros x y Hx Hy. rewrite !Hres by done. intros Heq. apply (inj Some) in Heq. lia. }
    rewrite Hr', Hres in Hc by done. apply (inj Some) in Hc. by rewrite Hc.
  - intros a Hfa. apply Hfr. intros (o & Ho & Hc). rewrite Hres in Hc by done.
    apply (inj Some) in Hc. apply Hfa. rewrite <- Hc.
    pose proof (Z.mod_pos_bound (buf request) PAGE_FRAME_SIZE ltac:(done)).
    rewrite <- Z.add_assoc, Z.div_add_l by done. rewrite Z.div_small; lia.
Qed.

Lemma create_enter k request i j cs :
  CreateReady k request i j cs ->
  process_create_user_process request k = load_process request i k.
Proof.
  intros [Hinv Hn Hslot Hdir Hbuf Hpage Hsize Hfree Hfit].
  unfold process_create_user_process. run_step. rewrite (proj2 (Z.leb_gt _ _)) by lia.
  rewrite (proj2 (Z.leb_gt _ _)) by lia. run_step.
  destruct (needed_bounds _ Hsize) as [Hlo Hhi]. unfold k_paging in Hfree.
  change (paging (umem (fsys k))) with (k_paging k) in *.
  rewrite (proj2 (Z.ltb_ge (free_page_frame_count (k_paging k)) _)) by lia. cbn [negb orb].
  rewrite (proj2 (Z.ltb_ge _ _)) by lia.
  rewrite set_paging_same. run_step using inactive_index_run; [| exact Hslot].
  unfold unused_slot in Hslot. apply for_find_Some in Hslot as (Hi & _ & _).
  unfold PROCESS_COUNT_MAX in Hi. f_equal. unfold i32. rewrite Z.mod_small; lia.
Qed.

(** The kernel's invariant after a block, the file system and the paging state
    were replaced. *)
Lemma kernel_with_inv k f l u n i p q :
  KernelInv k -> FSInv f -> PagingInv (paging (umem f)) -> (exists r, active (paging (umem f)) r) ->
  (process_list k).[i] = Some p -> l = (process_list k).[i := q] ->
  zlen (virtual_addr_used q) = zlen (virtual_addr_used p) -> zlen u = PROCESS_COUNT_MAX ->
  KernelInv (kernel_with k f l u n).
Proof.
  intros [_ _ _ Hl _ Hv] Hf Hp Ha Hi -> Hq Hu. split; cbn; try done.
  - by rewrite zlen_zset.
  - intros j x Hj. rewrite zget_zset in Hj. case_decide.
    + injection Hj as <-. rewrite Hq. by eapply Hv.
    + by eapply Hv.
Qed.

Lemma zlen_filled request i f0 f1 p :
  zlen (virtual_addr_used (filled_pcb request i f0 f1 p)) = zlen (virtual_addr_used p).
Proof. cbn. by rewrite !zlen_zset. Qed.

(** What creation prepares before it reads the program. *)
Lemma create_space k request i j cs :
  CreateReady k request i j cs ->
  exists p r s1 s2 s3 f0 f1,
    (process_list k).[i] = Some p /\ active (k_paging k) r /\
    paging_create_new_page_directory (k_paging k) = Ok (addr_of (ListDir j), s1) /\
    paging_allocate_user_page_frame (addr_of (ListDir j)) (buf request) s1 = Ok (f0, s2) /\
    paging_allocate_user_page_frame (addr_of (ListDir j)) USER_STACK s2 = Ok (f1, s3) /\
    NewSpace (k_paging k) j (buf request) f0 f1 s3.
Proof.
  intros [Hinv Hn Hslot Hdir Hbuf Hpage Hsize Hfree Hfit].
  destruct (needed_bounds _ Hsize) as [Hlo _].
  destruct (new_space (k_paging k) j (buf request)) as (s1 & s2 & s3 & f0 & f1 & Hc & Ha0 & Ha1 & Hns);
    [apply Hinv | done | lia | by apply user_page | done |].
  unfold unused_slot in Hslot. apply for_find_Some in Hslot as (Hi & _ & _).
  destruct (zget_is_Some (process_list k) i) as [p Hp]; [by rewrite (ki_list _ Hinv) |].
  destruct (ki_active _ Hinv) as [r Hr]. by exists p, r, s1, s2, s3, f0, f1.
Qed.

Lemma create_succeeds k request i j e cs
    (Hready : CreateReady k request i j cs) (Hprog : Program (fsys k) request e cs) :
  exists f0 f1 k', process_create_user_process request k = Ok (PROCESS_CREATE_SUCCESS, k') /\
    ProcessCreated k request i j cs f0 f1 k'.
Proof.
  rewrite (create_enter k request i j cs Hready).
  destruct (create_space k request i j cs Hready)
    as (p & r & s1 & s2 & s3 & f0 & f1 & Hp & Hr & Hc & Ha0 & Ha1 & Hns).
  pose proof Hready as [Hinv Hn Hslot Hdir Hbuf Hpage Hsize Hfree Hfit].
  destruct (read_program (loading k j s3) request e cs (ListDir j) f0) as (f' & m' & Hread & Hom & Hpg & Hld & Hfr);
    try done.
  - apply set_umem_inv, Hinv.
  - apply set_cr3_inv, Hns.
  - split; [apply Hns | done].
  - by destruct Hprog; split.
  - apply Hns.
  - assert (Hm : umem f' = m') by apply Hom.
    exists f0, f1. eexists. split.
    { rewrite (load_process_run k request i p r j s1 s2 s3 f0 f1 0 f'); try done. apply Hns. }
    change (u32 0 =? 0) with true. cbv iota. rewrite Hm, Hpg. cbn [loading set_umem umem paging].
    assert (Hcr : set_cr3 (addr_of r - KERNEL_VIRTUAL_ADDRESS_BASE)
              (set_cr3 (directory_addr j - KERNEL_VIRTUAL_ADDRESS_BASE) s3) = set_cr3 (cr3 (k_paging k)) s3).
    { destruct Hr as [_ ->]. done. }
    rewrite Hcr. destruct Hns as [Hi3 Hu3 Hv3 Hf3 Hm3 Hn3 Hc3 Hs3 He3 Ho3 Hcr3].
    split; try done.
    + apply (kernel_with_inv k _ _ _ _ i p (new_pcb request i (addr_of (ListDir j)) f0 f1 p)); try done.
      * apply set_umem_inv. eapply only_memory_inv; [| exact Hom]. apply set_umem_inv, Hinv.
      * by apply set_cr3_inv.
      * exists r. destruct Hr as [Hrv Hrc]. by split.
      * apply zlen_filled.
      * rewrite zlen_zset. apply Hinv.
    + by exists p.
    + split; try done. by apply set_cr3_inv.
    + apply Hom.
Qed.

(** ** Requests creation turns down *)

Definition create_refusal k request : option Z :=
  let needed := page_frame_count_needed (buffer_size request) in
  if PROCESS_COUNT_MAX <=? active_process_count k then Some PROCESS_CREATE_FAIL_MAX_PROCESS_EXCEEDED
  else if KERNEL_VIRTUAL_ADDRESS_BASE <=? buf request then Some PROCESS_CREATE_FAIL_INVALID_ENTRYPOINT
  else if (free_page_frame_count (k_paging k) <? needed) || (PROCESS_PAGE_FRAME_COUNT_MAX <? needed)
  then Some PROCESS_CREATE_FAIL_NOT_ENOUGH_MEMORY
  else None.

(** Creation that is refused - the table is full (1), the entry point is in the
    kernel's half (2), or there is not enough memory (3) - changes nothing. *)
Theorem create_refused_spec k request r (Hr : create_refusal k request = Some r) :
  process_create_user_process request k = Ok (r, k).
Proof.
  unfold create_refusal in Hr. unfold process_create_user_process. run_step.
  destruct (PROCESS_COUNT_MAX <=? active_process_count k); [by injection Hr as <- |].
  destruct (KERNEL_VIRTUAL_ADDRESS_BASE <=? buf request); [by injection Hr as <- |].
  run_step. change (paging (umem (fsys k))) with (k_paging k). rewrite negb_involutive.
  destruct (_ || _); [| done]. injection Hr as <-. by rewrite set_paging_same.
Qed.

(** C35. When the program cannot be read, creation answers 4 and does not clean up:
    the block stays in use and the count raised, the two frames and the directory
    stay taken, the block has no page directory, and the new directory, not the
    caller's, is active. *)
Theorem create_read_failure k request i j cs rr
    (Hready : CreateReady k request i j cs)
    (Hp : in_fat (parent_cluster_number request))
    (Hr : read_refusal (dir_table (fsys k) (parent_cluster_number request)) request = Some rr) :
  exists f0 f1 p k', process_create_user_process request k =
      Ok (PROCESS_CREATE_FAIL_FS_READ_FAILURE, k') /\
    (process_list k).[i] = Some p /\
    process_list k' = (process_list k).[i := filled_pcb request i f0 f1 p] /\
    page_directory_virtual_addr (context (filled_pcb request i f0 f1 p)) =
      page_directory_virtual_addr (context p) /\
    process_used k' = (process_used k).[i := true] /\
    active_process_count k' = active_process_count k + 1 /\
    free_page_frame_count (k_paging k') = free_page_frame_count (k_paging k) - 2 /\
    in_use (k_paging k') (ListDir j) /\ active (k_paging k') (ListDir j).
Proof.
  rewrite (create_enter k request i j cs Hready).
  destruct (create_space k request i j cs Hready)
    as (p & r & s1 & s2 & s3 & f0 & f1 & Hpcb & Ha & Hc & Ha0 & Ha1 & Hns).
  pose proof Hready as [Hinv Hn Hslot _ _ _ _ _ _].
  destruct (read_refused Hcap (loading k j s3) request rr) as (f' & Hread & Hom);
    [apply set_umem_inv, Hinv | done | done |].
  assert (Hne : (u32 rr =? 0) = false).
  { unfold read_refusal in Hr. destruct (negb _); [by injection Hr as <- |].
    destruct (find_entry _ _ _); [| by injection Hr as <-].
    destruct (_ =? _); [by injection Hr as <- |]. destruct (_ <? _); [by injection Hr as <- | done]. }
  exists f0, f1, p. eexists. split.
  { rewrite (load_process_run k request i p r j s1 s2 s3 f0 f1 rr f'); try done; [| apply Hns].
    by rewrite Hne. }
  assert (Hm : paging (umem f') = paging (umem (loading k j s3))) by (by rewrite (om_memory _ _ _ Hom)).
  unfold k_paging. cbn [kernel_with fsys process_list process_used active_process_count].
  rewrite Hm. split_and!; try done; try apply Hns. split; [apply Hns | done].
Qed.

(** ** Destroying a process *)

(** What the loop of [process_destroy] keeps once the kernel's frame is free: the
    frame of the stack stays taken, and the entries of the pages it frees lead to
    other frames. *)
Record Releasing s (j f1 : Z) : Prop := {
  re_tables : PagingSpec.tables_ok s;
  re_valid : valid_ref (ListDir j);
  re_frames : zlen (page_frame_map s) = PAGE_FRAME_MAX_COUNT;
  re_kernel : (page_frame_map s).[0] = Some false;
  re_stack : (page_frame_map s).[f1] = Some true;
  re_entries : forall i, i = 0 \/ i = KERNEL_PAGE_INDEX ->
    0 <= lower_address (pd_entry s (ListDir j) i) < PAGE_FRAME_MAX_COUNT /\
    lower_address (pd_entry s (ListDir j) i) <> f1
}.

Lemma free_releasing s j f1 junk va :
  Releasing s j f1 -> page_index va = 0 \/ page_index va = KERNEL_PAGE_INDEX ->
  exists b s', paging_free_user_page_frame junk (directory_addr j) va s = Ok (b, s') /\
    Releasing s' j f1.
Proof.
  intros [Htab Hr Hlen Hk Hst Hent] Hva. destruct (Hent _ Hva) as [Hlow Hne].
  set (a := lower_address (pd_entry s (ListDir j) (page_index va))) in *.
  destruct (zget_is_Some (page_frame_map s) a) as [b Hb]; [by rewrite Hlen |].
  pose proof (free_run_map s junk (ListDir j) va b Htab Hr) as Hrun. fold a in Hrun.
  exists b. eexists. split.
  { apply Hrun; [| done]. unfold PAGE_FRAME_MAX_COUNT in Hlow. unfold PAGE_ENTRY_COUNT. lia. }
  destruct b; [| done]. unfold freed. fold a. set (s1 := set_frames _ _ s).
  assert (Htab1 : PagingSpec.tables_ok s1) by by apply set_frames_tables.
  destruct (map_page_frames s1 (ListDir j) va junk 0) as (Hm & _).
  assert (Hf1 : f1 <> 0) by (intros ->; congruence).
  split; try done.
  - by apply map_page_tables.
  - rewrite Hm. cbn. by rewrite zlen_zset.
  - rewrite Hm. cbn. rewrite zget_zset. by case_decide.
  - rewrite Hm. cbn. by rewrite zget_zset_ne.
  - intros i Hi. rewrite pd_entry_map_page by done. case_decide; [done |].
    unfold pd_entry, s1. rewrite directory_set_frames. by apply Hent.
Qed.

Lemma get_pcb_some k i p : (process_list k).[i] = Some p -> get_pcb i k = Ok (p, k).
Proof. intros Hi. unfold get_pcb. by rewrite Hi. Qed.

Lemma free_frames_releasing n : forall jdx k junk i p j f1,
  (process_list k).[i] = Some p -> page_directory_virtual_addr (context p) = directory_addr j ->
  zlen (virtual_addr_used p) = jdx + Z.of_nat n -> 0 <= jdx ->
  (forall m a, jdx <= m -> (virtual_addr_used p).[m] = Some a ->
     page_index a = 0 \/ page_index a = KERNEL_PAGE_INDEX) ->
  Releasing (k_paging k) j f1 ->
  exists s', free_frames n jdx junk i k = Ok (tt, set_paging s' k) /\ Releasing s' j f1.
Proof.
  induction n as [| n IH]; intros jdx k junk i p j f1 Hp Hpd Hlen Hj Hidx Hrel; cbn [free_frames].
  - exists (k_paging k). by rewrite set_paging_same.
  - destruct (zget_is_Some (virtual_addr_used p) jdx) as [a Ha]; [lia |].
    run_step using get_pcb_some; [| exact Hp].
    erewrite bind_run; [| unfold of_res; rewrite Ha; reflexivity].
    destruct (free_releasing (k_paging k) j f1 (junk jdx) a) as (b & s1 & Hrun & Hrel1);
      [done | by apply (Hidx jdx) |].
    rewrite <- Hpd in Hrun. run_step using on_paging_run; [| exact Hrun].
    destruct (IH (jdx + 1) (set_paging s1 k) junk i p j f1) as (s2 & Hrun2 & Hrel2); try done.
    + lia.
    + lia.
    + intros m x Hm. apply Hidx. lia.
    + exists s2. by rewrite Hrun2.
Qed.

(** The first call frees the frame at physical address 0: the address the block
    keeps lies in the kernel's half, whose entry leads there. *)
Lemma free_kernel_frame s j f1 junk va :
  PagingInv s -> valid_ref (ListDir j) -> in_use s (ListDir j) ->
  page_index va = KERNEL_PAGE_INDEX ->
  (page_frame_map s).[0] = Some true -> (page_frame_map s).[f1] = Some true -> f1 <> 0 ->
  0 <= lower_address (pd_entry s (ListDir j) 0) < PAGE_FRAME_MAX_COUNT ->
  lower_address (pd_entry s (ListDir j) 0) <> f1 ->
  exists s', paging_free_user_page_frame junk (directory_addr j) va s = Ok (true, s') /\
    Releasing s' j f1.
Proof.
  intros Hinv Hr Hu Hva Hk Hst Hne Hlow Hent. pose proof (pi_table _ Hinv) as Htab.
  pose proof (pi_kernel _ Hinv _ Hr Hu) as Hke.
  exists (freed junk (ListDir j) va s). split.
  { apply (free_run_map s junk (ListDir j) va true Htab Hr); rewrite Hva, Hke; done. }
  unfold freed. rewrite Hva, Hke. cbn [lower_address kernel_entry]. set (s1 := set_frames _ _ s).
  assert (Htab1 : PagingSpec.tables_ok s1) by by apply set_frames_tables.
  destruct (map_page_frames s1 (ListDir j) va junk 0) as (Hm & _).
  split; try done.
  - by apply map_page_tables.
  - rewrite Hm. cbn. rewrite zlen_zset. apply (pi_frames _ Hinv).
  - rewrite Hm. cbn. apply zget_zset_eq. by eapply zget_range.
  - rewrite Hm. cbn. by rewrite zget_zset_ne.
  - intros i Hi. rewrite pd_entry_map_page by done. case_decide as Hd; [done |].
    destruct Hi as [-> | ->]; [| by destruct Hd].
    unfold pd_entry, s1. by rewrite directory_set_frames.
Qed.

Lemma entry_lower e a f :
  entry_translate e a = Some (f * PAGE_FRAME_SIZE + u32 a mod PAGE_FRAME_SIZE) -> lower_address e = f.
Proof.
  unfold entry_translate. destruct (_ && _); [| done]. intros Ht. apply (inj Some) in Ht.
  rewrite Z.shiftl_mul_pow2, PAGE_FRAME_SIZE_eq in Ht by lia. lia.
Qed.

(** The entry of the lowest page in a new address space. *)
Lemma new_space_low s j va f0 f1 s' :
  PagingInv s -> NewSpace s j va f0 f1 s' ->
  0 <= lower_address (pd_entry s' (ListDir j) 0) < PAGE_FRAME_MAX_COUNT /\
  (f1 <> 0 -> lower_address (pd_entry s' (ListDir j) 0) <> f1).
Proof.
  intros Hinv [_ _ _ (Hf0 & _ & Hne) _ _ Hcode _ Hent _ _].
  destruct (decide (page_index va = 0)) as [Hva | Hva].
  - specialize (Hcode va eq_refl). rewrite Hva in Hcode. apply entry_lower in Hcode as ->.
    split; [| done]. rewrite <- (pi_frames _ Hinv). by eapply zget_range.
  - rewrite Hent by (done || congruence). rewrite decide_False by done. split; [done |].
    intros Hf1. cbn. congruence.
Qed.

(** The process table while every block in use is at the index of its pid and
    every other block is zero, as creation and destruction leave it. *)
Record TableOk k : Prop := {
  tk_pid : forall i p, (process_list k).[i] = Some p ->
    (process_used k).[i] = Some true -> pid p = i;
  tk_zero : forall i p, (process_list k).[i] = Some p ->
    (process_used k).[i] = Some false -> p = zero_pcb
}.

Lemma frame_page f :
  0 <= f < PAGE_FRAME_MAX_COUNT -> page_index (u32 (f + KERNEL_VIRTUAL_ADDRESS_BASE)) = KERNEL_PAGE_INDEX.
Proof.
  unfold PAGE_FRAME_MAX_COUNT, KERNEL_VIRTUAL_ADDRESS_BASE, KERNEL_PAGE_INDEX. intros Hf.
  rewrite page_index_eq, u32_idemp, PAGE_FRAME_SIZE_eq, u32_small by lia. symmetry.
  apply Z.div_unique with f; lia.
Qed.

(** The pages of the addresses a new block keeps. *)
Lemma new_pcb_addrs request i pd f0 f1 :
  0 <= f0 < PAGE_FRAME_MAX_COUNT -> 0 <= f1 < PAGE_FRAME_MAX_COUNT ->
  let l := virtual_addr_used (new_pcb request i pd f0 f1 zero_pcb) in
  l.[0] = Some (u32 (f0 + KERNEL_VIRTUAL_ADDRESS_BASE)) /\
  forall m a, 1 <= m -> l.[m] = Some a -> page_index a = 0 \/ page_index a = KERNEL_PAGE_INDEX.
Proof.
  intros Hf0 Hf1 l. split.
  { cbn. rewrite zget_zset_ne by done. by apply zget_zset_eq. }
  intros m a Hm Ha. cbn in Ha. rewrite zget_zset in Ha. case_decide.
  - apply (inj Some) in Ha as <-. right. by apply frame_page.
  - rewrite zget_zset_ne in Ha by lia. left.
    pose proof (zget_range _ _ _ Ha) as Hr.
    change (zrep PROCESS_PAGE_FRAME_COUNT_MAX 0).[m] with (zrep 8 0).[m] in Ha.
    rewrite (zget_zrep 8 0 m) in Ha by exact Hr. by apply (inj Some) in Ha as <-.
Qed.

(** The loop of [process_destroy] on a block creation filled. *)
Lemma destroy_frees k j f0 f1 i p junk :
  PagingInv (k_paging k) -> valid_ref (ListDir j) -> in_use (k_paging k) (ListDir j) ->
  (process_list k).[i] = Some p -> page_directory_virtual_addr (context p) = directory_addr j ->
  zlen (virtual_addr_used p) = PROCESS_PAGE_FRAME_COUNT_MAX ->
  0 <= f0 < PAGE_FRAME_MAX_COUNT ->
  (virtual_addr_used p).[0] = Some (u32 (f0 + KERNEL_VIRTUAL_ADDRESS_BASE)) ->
  (forall m a, 1 <= m -> (virtual_addr_used p).[m] = Some a ->
     page_index a = 0 \/ page_index a = KERNEL_PAGE_INDEX) ->
  (page_frame_map (k_paging k)).[0] = Some true ->
  (page_frame_map (k_paging k)).[f1] = Some true -> f1 <> 0 ->
  0 <= lower_address (pd_entry (k_paging k) (ListDir j) 0) < PAGE_FRAME_MAX_COUNT ->
  lower_address (pd_entry (k_paging k) (ListDir j) 0) <> f1 ->
  exists s', free_frames (Z.to_nat PROCESS_PAGE_FRAME_COUNT_MAX) 0 junk i k = Ok (tt, set_paging s' k) /\
    Releasing s' j f1.
Proof.
  intros Hinv Hr Hu Hp Hpd Hlen Hf0 Ha0 Hrest Hk Hst Hne Hlow Hlow1.
  destruct (free_kernel_frame (k_paging k) j f1 (junk 0) (u32 (f0 + KERNEL_VIRTUAL_ADDRESS_BASE)))
    as (s1 & Hrun & Hrel); try done; [by apply frame_page |].
  change (Z.to_nat PROCESS_PAGE_FRAME_COUNT_MAX) with 8%nat. cbn [free_frames].
  run_step using get_pcb_some; [| exact Hp].
  erewrite bind_run; [| unfold of_res; rewrite Ha0; reflexivity].
  rewrite <- Hpd in Hrun. run_step using on_paging_run; [| exact Hrun].
  destruct (free_frames_releasing 7 1 (set_paging s1 k) junk i p j f1) as (s2 & Hrun2 & Hrel2);
    try done.
  exists s2. split; [exact Hrun2 | done].
Qed.

(** The block a pid is looked up at. *)
Lemma pid_index k i p l :
  TableOk k -> unused_slot k = Some i -> zlen (process_list k) = PROCESS_COUNT_MAX ->
  zlen (process_used k) = PROCESS_COUNT_MAX ->
  pid p = i -> l = (process_list k).[i := p] ->
  for_find 0 PROCESS_COUNT_MAX (fun m => pid (znth zero_pcb l m) =? i) = Some i.
Proof.
  intros [Hpid _] Hslot Hll Hlu Hp ->. unfold unused_slot in Hslot.
  apply for_find_Some in Hslot as (Hi & _ & Hlow). apply for_find_Some. split; [done |]. split.
  - rewrite (znth_Some _ _ _ p); [by apply Z.eqb_eq |]. apply zget_zset_eq. by rewrite Hll.
  - intros m Hm. specialize (Hlow m Hm).
    destruct (zget_is_Some (process_list k) m) as [q Hq]; [lia |].
    destruct (zget_is_Some (process_used k) m) as [b Hb]; [lia |].
    rewrite (znth_Some _ _ _ _ Hb) in Hlow. destruct b; [| done].
    rewrite (znth_Some _ _ _ q) by (rewrite zget_zset_ne by lia; done).
    rewrite (Hpid m q Hq Hb). apply Z.eqb_neq. lia.
Qed.

(** ** Theorems *)

(** C29. Creating a process: with a free block, a free directory and enough frames,
    and a program that fits its page, creation succeeds. The block gets the
    context of the entry point, the new address space has two fresh frames (its
    program's page and its stack's), the program's bytes are in the first one,
    every other frame, directory, block and cluster is as it was, and the caller's
    page directory is active again. *)
Theorem create_process_spec k request i j e cs
    (Hready : CreateReady k request i j cs) (Hprog : Program (fsys k) request e cs) :
  exists f0 f1 k', process_create_user_process request k = Ok (PROCESS_CREATE_SUCCESS, k') /\
    ProcessCreated k request i j cs f0 f1 k'.
Proof. by apply (create_succeeds k request i j e cs). Qed.

(** C32. A process that is created and destroyed leaves the process table and its
    count as they were, but not the frames: destruction frees the frame at physical
    address 0, in which the kernel runs, and the frame of the process's stack stays
    taken. The block keeps frame numbers with the kernel's base added where
    destruction expects the process's virtual addresses. *)
Theorem create_then_destroy k request i j e cs junk
    (Hready : CreateReady k request i j cs) (Hprog : Program (fsys k) request e cs)
    (Htable : TableOk k) (Hboot : (page_frame_map (k_paging k)).[0] = Some true) :
  exists k1 k2 f1, process_create_user_process request k = Ok (PROCESS_CREATE_SUCCESS, k1) /\
    process_destroy junk i k1 = Ok (true, k2) /\
    process_list k2 = process_list k /\ process_used k2 = process_used k /\
    active_process_count k2 = active_process_count k /\
    (page_frame_map (k_paging k2)).[0] = Some false /\
    find_free_frame (page_frame_map (k_paging k2)) = Some 0 /\
    (page_frame_map (k_paging k)).[f1] = Some false /\
    (page_frame_map (k_paging k2)).[f1] = Some true.
Proof.
  destruct (create_succeeds k request i j e cs Hready Hprog) as (f0 & f1 & k1 & Hrun & Hcr).
  destruct Hready as [Hinv Hn Hslot _ _ _ _ _ _].
  destruct Hcr as [Hinv1 (p & Hp & Hl1) Hu1 Hn1 Hns _ _ _ _].
  pose proof Hns as [Hpi Hus Hv (Hf0 & Hf1 & Hne) Hm _ _ _ _ _ _].
  destruct (new_space_low _ _ _ _ _ _ (ki_paging _ Hinv) Hns) as [Hlow Hlow1].
  pose proof Hslot as Hslot'. unfold unused_slot in Hslot'. apply for_find_Some in Hslot' as (Hi & Hun & _).
  destruct (zget_is_Some (process_used k) i) as [b Hb]; [by rewrite (ki_used _ Hinv) |].
  rewrite (znth_Some _ _ _ _ Hb) in Hun. destruct b; [done |].
  pose proof (tk_zero _ Htable _ _ Hp Hb) as ->.
  assert (Hfr : forall f, (page_frame_map (k_paging k)).[f] = Some false -> 0 <= f < PAGE_FRAME_MAX_COUNT).
  { intros f Hf. rewrite <- (pi_frames _ (ki_paging _ Hinv)). by eapply zget_range. }
  assert (Hz : forall f, (page_frame_map (k_paging k)).[f] = Some false -> f <> 0) by (intros f Hf ->; congruence).
  assert (Hp1 : (process_list k1).[i] = Some (new_pcb request i (directory_addr j) f0 f1 zero_pcb))
    by (rewrite Hl1; by eapply zset_slot).
  destruct (new_pcb_addrs request i (directory_addr j) f0 f1) as [Ha0 Har]; [by apply Hfr.. |].
  set (ka := set_manager (process_used k1).[i := false] (u32 (active_process_count k1 - 1)) k1).
  destruct (destroy_frees ka j f0 f1 i _ junk Hpi Hv Hus Hp1) as (s' & Hfree & Hrel); try done.
  { by apply Hfr. }
  { change (k_paging ka) with (k_paging k1). rewrite Hm, !zget_zset_ne; [done | by apply Hz | by apply Hz]. }
  { change (k_paging ka) with (k_paging k1). rewrite Hm. apply zget_zset_eq. rewrite zlen_zset. by eapply zget_range. }
  { by apply Hz. }
  { by apply Hlow1, Hz. }
  exists k1. eexists. exists f1. split; [done |]. split.
  { unfold process_destroy. run_step.
    erewrite (pid_index k i _ (process_list k1) Htable Hslot);
      [| apply Hinv | apply Hinv | | exact Hl1]; [| done].
    run_step. fold ka. erewrite bind_run; [| exact Hfree].
    run_step using get_pcb_some; [| exact Hp1].
    run_step using on_paging_run; [| by apply free_directory_run].
    run_step using update_pcb_slot; [| exact Hp1]. reflexivity. }
  split.
  { cbn. rewrite Hl1, zset_zset. by apply zset_id. }
  split.
  { cbn. rewrite Hu1, zset_zset. by apply zset_id. }
  split.
  { cbn. rewrite Hn1, u32_small; [lia |]. unfold PROCESS_COUNT_MAX in Hn. lia. }
  destruct Hrel as [_ _ Hlen Hk0 Hst _].
  split; [done |]. split; [| by split].
  apply for_find_Some. split; [done |]. split; [| lia]. cbn.
  by rewrite (znth_Some _ _ _ _ Hk0).
Qed.
End Create.
