(* ===== verification/Terminal.v ===== *)
(** Terminal: the text screen and its cursor - src/framebuffer/framebuffer.c and
    the screen functions of src/interrupt/syscall_command.c. *)

From Stdlib Require Import ZArith Lia.
From stdpp Require Import base tactics numbers list.
From S2P Require Import Prelude Memory CString Pic.
#[local] Open Scope eff_scope.

(** ** Constants *)

Definition FRAMEBUFFER_MEMORY_OFFSET : Z := 0xC00B8000.
Definition CURSOR_PORT_CMD : Z := 0x03D4.
Definition CURSOR_PORT_DATA : Z := 0x03D5.
Definition VGA_WIDTH : Z := 80.
(** The visible screen: 25 rows of 80 cells of two bytes. *)
Definition SCREEN_CELLS : Z := 25 * VGA_WIDTH.

(** ** Words in memory *)

Section Words.
Context {M : Type} `{ByteMem M}.

Definition load_char (a : Z) : Eff M Z := fun m => of_res (load8 a m) m.
Definition store_char (a v : Z) : Eff M unit :=
  fun m => match store8 a v m with Ok m' => Ok (tt, m') | Fault e => Fault e end.
(** [*(uint32_t* ) a], and the same bytes as an [int32_t]. *)
Definition load32 (a : Z) : Eff M Z :=
  fun m => of_res (res_bind (load_bytes 4 a m) (fun bs => Ok (le_val bs))) m.
Definition load_i32 (a : Z) : Eff M Z := x <- load32 a ;; ret (i32 x).
Definition store32 (a v : Z) : Eff M unit :=
  fun m => match store_bytes a (le_bytes 4 (u32 v)) m with Ok m' => Ok (tt, m') | Fault e => Fault e end.
End Words.

(** ** The screen *)

Section Screen.
Context {M : Type} `{ByteMem M}.

(** [(bg << 4) | (fg & 0xF)] *)
Definition colour_bits (fg bg : Z) : Z := u16 (Z.lor (Z.shiftl bg 4) (Z.land fg 0xF)).

(** The arguments are [uint8_t]; [pos] is a [uint16_t]. *)
Definition framebuffer_write (row col c fg bg : Z) : Eff M unit :=
  let pos := u16 (u8 row * (80 * 2) + u8 col * 2) in
  store_char (FRAMEBUFFER_MEMORY_OFFSET + pos) c ;;;
  store_char (FRAMEBUFFER_MEMORY_OFFSET + (pos + 1)) (u8 (colour_bits (u8 fg) (u8 bg))).

Definition framebuffer_clear : Eff M unit :=
  fun m => match memset FRAMEBUFFER_MEMORY_OFFSET 0x00 (25 * 2 * 80 * 2) m with
           | Ok m' => Ok (tt, m')
           | Fault e => Fault e
           end.

(** [struct CP] at an address: [row], then [col]. *)
Definition cp_row (cp : Z) : Z := cp.
Definition cp_col (cp : Z) : Z := cp + 4.

Definition putchar (buffer text_color cursor_position : Z) : Eff M Z :=
  row <- load_i32 (cp_row cursor_position) ;;
  col <- load_i32 (cp_col cursor_position) ;;
  c <- load_char buffer ;;
  framebuffer_write row col c text_color 0x0 ;;;
  col <- load_i32 (cp_col cursor_position) ;;
  (if VGA_WIDTH - 1 <=? col then
     row <- load_i32 (cp_row cursor_position) ;;
     store32 (cp_row cursor_position) (row + 1) ;;;
     store32 (cp_col cursor_position) (-1)
   else ret tt) ;;;
  ret 0.

(** [for (i = 0; i < p->count; i++)], with [p]'s fields and the cursor read anew
    in every turn. *)
Fixpoint puts_loop (fuel : nat) (i buffer p cursor_position : Z) : Eff M unit :=
  count <- load32 p ;;
  if count <=? u32 i then ret tt else
  match fuel with
  | O => stop Stuck
  | S fuel' =>
    text_color <- load32 (p + 4) ;;
    putchar (buffer + i) text_color cursor_position ;;;
    col <- load_i32 (cp_col cursor_position) ;;
    store32 (cp_col cursor_position) (col + 1) ;;;
    puts_loop fuel' (i + 1) buffer p cursor_position
  end.

(** As many turns as the count asks for at the call. *)
Definition puts (buffer p cursor_position : Z) : Eff M Z :=
  count <- load32 p ;;
  puts_loop (Z.to_nat count) 0 buffer p cursor_position ;;;
  ret 0.

Definition clear_screen : Eff M Z := framebuffer_clear ;;; ret 0.
End Screen.

(** ** The cursor *)

Section Cursor.
Context {S : Type} `{PortState S} `{PortMachine}.

Definition framebuffer_set_cursor (r c : Z) : Eff S unit :=
  let pos := u16 (u8 r * 80 + u8 c) in
  out CURSOR_PORT_CMD 0x0F ;;;
  out CURSOR_PORT_DATA (u8 (Z.land pos 0xFF)) ;;;
  out CURSOR_PORT_CMD 0x0E ;;;
  out CURSOR_PORT_DATA (u8 (Z.land (Z.shiftr pos 8) 0xFF)).

Definition framebuffer_get_cursor_position : Eff S Z :=
  out CURSOR_PORT_CMD 0x0F ;;;
  lo <- in_ CURSOR_PORT_DATA ;;
  out CURSOR_PORT_CMD 0x0E ;;;
  hi <- in_ CURSOR_PORT_DATA ;;
  ret (u16 (Z.lor (Z.lor 0 lo) (Z.shiftl hi 8))).
Definition get_cursor_position : Eff S Z := framebuffer_get_cursor_position.
End Cursor.

(** ** What a store leaves alone *)

Section Touches.
Context {M : Type} `{ByteMemLaws M}.
Implicit Types (m : M) (a n : Z) (bs : list Z).

(** From [m] to [m'] only cells in [R] changed, and no mapping. *)
Record Touches m (R : Z -> Prop) m' : Prop := {
  to_resolve : forall x, mem_resolve m' x = mem_resolve m x;
  to_frame : forall c, ~ R c -> mem_get m' c = mem_get m c
}.

Lemma touches_trans m1 m2 m3 R1 R2 :
  Touches m1 R1 m2 -> Touches m2 R2 m3 -> Touches m1 (fun c => R1 c \/ R2 c) m3.
Proof.
  intros [Hr1 Hf1] [Hr2 Hf2]. split.
  - intros x. by rewrite Hr2.
  - intros c Hc. rewrite Hf2, Hf1; tauto.
Qed.
Lemma touches_mono m m' (R R' : Z -> Prop) :
  Touches m R m' -> (forall c, R c -> R' c) -> Touches m R' m'.
Proof. intros [Hr Hf] HR. split; [done |]. intros c Hc. apply Hf. auto. Qed.

Lemma touches_range m R m' a n c : Touches m R m' -> in_range m' a n c <-> in_range m a n c.
Proof. intros [Hr _]. unfold in_range. by setoid_rewrite Hr. Qed.
Lemma touches_mapped m R m' a n : Touches m R m' -> mapped m a n -> mapped m' a n.
Proof. intros [Hr _] Hm i Hi. rewrite Hr. by apply Hm. Qed.
Lemma touches_separate m R m' a n : Touches m R m' -> separate m a n -> separate m' a n.
Proof. intros [Hr _] Hs i j. rewrite !Hr. apply Hs. Qed.
Lemma touches_apart m R m' a n b k : Touches m R m' -> apart m a n b k -> apart m' a n b k.
Proof. intros Ht Ha c. rewrite !(touches_range _ _ _ _ _ _ Ht). apply Ha. Qed.
Lemma touches_holds m R m' a bs :
  Touches m R m' -> (forall c, R c -> ~ in_range m a (zlen bs) c) -> holds m a bs -> holds m' a bs.
Proof.
  intros [Hr Hf] HR Hh i b Hi. destruct (Hh _ _ Hi) as (c & Hc & Hg). exists c.
  rewrite Hr. split; [done |]. rewrite Hf; [done |].
  intros Hin. apply (HR _ Hin). exists i. split; [by eapply zget_range | done].
Qed.

Lemma stored_touches m a bs m' : stored m a bs m' -> Touches m (in_range m a (zlen bs)) m'.
Proof. intros [Hr Hf _]. by split. Qed.

Lemma in_range_sub m a n o k c :
  0 <= o -> o + k <= n -> in_range m (a + o) k c -> in_range m a n c.
Proof.
  intros Ho Hk (i & Hi & Hr). exists (o + i). split; [lia |]. by rewrite Z.add_assoc.
Qed.
Lemma in_range_disjoint m a n o1 k1 o2 k2 c :
  separate m a n -> 0 <= o1 -> o1 + k1 <= o2 -> o2 + k2 <= n ->
  in_range m (a + o1) k1 c -> ~ in_range m (a + o2) k2 c.
Proof.
  intros Hs Ho H12 Hn (i & Hi & Hri) (j & Hj & Hrj).
  rewrite <- Z.add_assoc in Hri, Hrj.
  assert (o1 + i = o2 + j) by (apply Hs; [lia | lia | congruence]). lia.
Qed.

Lemma holds_app m a l1 l2 : holds m a (l1 ++ l2) <-> holds m a l1 /\ holds m (a + zlen l1) l2.
Proof.
  pose proof (zlen_nonneg l1). split.
  - intros Hh. split; intros i b Hi; pose proof (zget_range _ _ _ Hi).
    + apply Hh. by rewrite zget_app_l by lia.
    + rewrite <- Z.add_assoc. apply Hh. rewrite zget_app_r by lia.
      by replace (zlen l1 + i - zlen l1) with i by lia.
  - intros [Hl Hr] i b Hi. destruct (Z.lt_ge_cases i (zlen l1)).
    + apply Hl. by rewrite zget_app_l in Hi by lia.
    + rewrite zget_app_r in Hi by lia. destruct (Hr _ _ Hi) as (c & Hc & Hg).
      exists c. split; [| done]. rewrite <- Hc. f_equal. f_equal. lia.
Qed.
Lemma holds_mapped m a bs : holds m a bs -> mapped m a (zlen bs).
Proof. intros Hh i Hi. destruct (zget_is_Some bs i Hi) as [b Hb]. destruct (Hh _ _ Hb) as (c & Hc & _). by exists c. Qed.

Lemma load_char_holds m a bs i b :
  holds m a bs -> bs.[i] = Some b -> load_char (a + i) m = Ok (b, m).
Proof. intros Hh Hi. unfold load_char, of_res. by rewrite (load8_holds m a bs i b). Qed.
Lemma load32_holds m a v : holds m a (le_bytes 4 v) -> load32 a m = Ok (v mod 2 ^ 32, m).
Proof.
  intros Hh. unfold load32, of_res. rewrite (load_bytes_holds 4 a m (le_bytes 4 v)); [| done | done].
  cbn [res_bind]. by rewrite le_val_le_bytes.
Qed.

Lemma store_bytes_ok m a bs :
  mapped m a (zlen bs) -> separate m a (zlen bs) -> all_bytes bs ->
  exists m', store_bytes a bs m = Ok m' /\ Touches m (in_range m a (zlen bs)) m' /\ holds m' a bs.
Proof.
  intros Hm Hs Hb. destruct (store_bytes_mapped bs a m Hm) as (m' & Hrun & Hst).
  exists m'. split; [done |]. split; [by apply stored_touches |]. by apply Hst.
Qed.
Lemma store32_ok m a v :
  mapped m a 4 -> separate m a 4 ->
  exists m', store32 a v m = Ok (tt, m') /\ Touches m (in_range m a 4) m' /\
    holds m' a (le_bytes 4 (u32 v)).
Proof.
  intros Hm Hs. destruct (store_bytes_ok m a (le_bytes 4 (u32 v))) as (m' & Hrun & Ht & Hh); [done | done | |].
  { apply le_bytes_all_bytes. }
  exists m'. unfold store32. by rewrite Hrun.
Qed.
End Touches.
