(* ===== verification/TerminalSpec.v ===== *)
(** TerminalSpec: what printing and clearing do to the screen, and the hardware
    cursor. *)

From Stdlib Require Import ZArith Lia.
From stdpp Require Import base tactics numbers list.
From S2P Require Import Prelude Memory CString Pic Terminal.
#[local] Open Scope eff_scope.

(** ** Cells and cursors *)

(** Cell [pos] in row-major order: the character, then its colours. *)
Definition cell_addr (pos : Z) : Z := FRAMEBUFFER_MEMORY_OFFSET + 2 * pos.
Definition text_cells (color : Z) (bs : list Z) : list Z :=
  concat ((fun b => [b; Z.land color 0xF]) <$> bs).
Definition cursor_bytes (pos : Z) : list Z := le_bytes 4 (pos / 80) ++ le_bytes 4 (pos mod 80).

Lemma text_cells_cons color b bs :
  text_cells color (b :: bs) = [b; Z.land color 0xF] ++ text_cells color bs.
Proof. done. Qed.
Lemma zlen_text_cells color bs : zlen (text_cells color bs) = 2 * zlen bs.
Proof.
  induction bs as [| b bs IH]; [done |]. rewrite text_cells_cons, zlen_app, IH, (zlen_cons b bs).
  change (zlen [b; Z.land color 0xF]) with 2. lia.
Qed.

Lemma land_15 x : Z.land x 0xF = x mod 2 ^ 4.
Proof. change 0xF with (Z.ones 4). apply Z.land_ones. lia. Qed.
Lemma colour_low fg : u8 (colour_bits (u8 fg) (u8 0x0)) = Z.land fg 0xF.
Proof.
  unfold colour_bits. change (Z.shiftl (u8 0) 4) with 0. rewrite Z.lor_0_l, !land_15.
  assert (Hm : u8 fg mod 2 ^ 4 = fg mod 2 ^ 4).
  { unfold u8. apply Z.mod_mod_divide. by exists (2 ^ 4). }
  pose proof (Z.mod_pos_bound fg (2 ^ 4) ltac:(done)).
  rewrite Hm, u16_small, u8_small by lia. done.
Qed.
Lemma colour_byte fg : is_byte (Z.land fg 0xF).
Proof. rewrite land_15. pose proof (Z.mod_pos_bound fg (2 ^ 4) ltac:(done)). unfold is_byte. lia. Qed.

Lemma cell_rows pos :
  0 <= pos < SCREEN_CELLS ->
  0 <= pos / 80 < 25 /\ 0 <= pos mod 80 < 80 /\ pos = 80 * (pos / 80) + pos mod 80.
Proof.
  unfold SCREEN_CELLS, VGA_WIDTH. intros Hp.
  pose proof (Z.div_mod pos 80 ltac:(lia)). pose proof (Z.mod_pos_bound pos 80 ltac:(lia)). lia.
Qed.
Lemma cell_pos pos :
  0 <= pos < SCREEN_CELLS -> u16 (u8 (pos / 80) * (80 * 2) + u8 (pos mod 80) * 2) = 2 * pos.
Proof.
  intros Hp. destruct (cell_rows pos Hp) as (Hr & Hc & Heq).
  rewrite !u8_small by lia. rewrite u16_small; lia.
Qed.

Lemma i32_small x : - 2 ^ 31 <= x < 2 ^ 31 -> i32 x = x.
Proof. intros Hx. unfold i32. rewrite Z.mod_small by lia. lia. Qed.

(** The two words of the cursor while a character is printed: at the right edge
    it waits one cell before the next row. *)
Definition printed_bytes (pos : Z) : list Z :=
  if decide (pos mod 80 = 79) then le_bytes 4 (pos / 80 + 1) ++ le_bytes 4 (2 ^ 32 - 1)
  else cursor_bytes pos.

Section Print.
Context {M : Type} `{ByteMemLaws M}.
Implicit Types (m : M) (bs : list Z).

Lemma framebuffer_write_ok m pos c fg :
  0 <= pos < SCREEN_CELLS -> is_byte c ->
  mapped m FRAMEBUFFER_MEMORY_OFFSET (2 * SCREEN_CELLS) ->
  separate m FRAMEBUFFER_MEMORY_OFFSET (2 * SCREEN_CELLS) ->
  exists m', framebuffer_write (pos / 80) (pos mod 80) c fg 0x0 m = Ok (tt, m') /\
    Touches m (in_range m (cell_addr pos) 2) m' /\ holds m' (cell_addr pos) [c; Z.land fg 0xF].
Proof.
  intros Hp Hc Hm Hs. unfold cell_addr.
  destruct (store_bytes_ok m (FRAMEBUFFER_MEMORY_OFFSET + 2 * pos) [c; Z.land fg 0xF])
    as (m' & Hrun & Ht & Hh).
  - apply (mapped_sub _ _ (2 * SCREEN_CELLS)); [done | lia | change (zlen _) with 2; lia].
  - apply (separate_sub _ _ (2 * SCREEN_CELLS)); [done | lia | change (zlen _) with 2; lia].
  - repeat constructor; [apply Hc.. | apply colour_byte | apply colour_byte].
  - exists m'. split; [| done]. cbn [store_bytes] in Hrun.
    unfold framebuffer_write. rewrite cell_pos by done. rewrite colour_low.
    unfold bind, store_char. destruct (store8 _ c m) as [m1 |]; cbn [res_bind] in Hrun; [| done].
    rewrite Z.add_assoc. destruct (store8 _ _ m1); cbn [res_bind] in Hrun; [| done]. congruence.
Qed.

Lemma le_word_holds m cp x y :
  holds m cp (le_bytes 4 x ++ le_bytes 4 y) <-> holds m cp (le_bytes 4 x) /\ holds m (cp_col cp) (le_bytes 4 y).
Proof. apply holds_app. Qed.

(** Reading and storing the cursor's fields. *)
Lemma load_row m cp x y :
  holds m cp (le_bytes 4 x ++ le_bytes 4 y) -> load_i32 (cp_row cp) m = Ok (i32 (x mod 2 ^ 32), m).
Proof. intros [Hx _]%le_word_holds. unfold load_i32, bind, cp_row. by rewrite (load32_holds _ _ _ Hx). Qed.
Lemma load_col m cp x y :
  holds m cp (le_bytes 4 x ++ le_bytes 4 y) -> load_i32 (cp_col cp) m = Ok (i32 (y mod 2 ^ 32), m).
Proof. intros [_ Hy]%le_word_holds. unfold load_i32, bind. by rewrite (load32_holds _ _ _ Hy). Qed.

Lemma store_row m cp x y v :
  holds m cp (le_bytes 4 x ++ le_bytes 4 y) -> separate m cp 8 ->
  exists m', store32 (cp_row cp) v m = Ok (tt, m') /\ Touches m (in_range m cp 8) m' /\
    holds m' cp (le_bytes 4 (u32 v) ++ le_bytes 4 y).
Proof.
  intros Hh Hs. pose proof (holds_mapped _ _ _ Hh) as Hm. apply le_word_holds in Hh as [Hx Hy].
  assert (Hs0 : separate m (cp + 0) 4) by (apply (separate_sub _ _ 8); [done | lia..]).
  rewrite Z.add_0_r in Hs0. unfold cp_row.
  destruct (store32_ok m cp v) as (m' & Hrun & Ht & Hh'); [by eapply mapped_le | done |].
  exists m'. split; [done |]. split.
  - eapply touches_mono; [exact Ht |]. intros c Hc. apply (in_range_sub m cp 8 0 4); rewrite ?Z.add_0_r; done.
  - apply le_word_holds. split; [done |]. eapply touches_holds; [exact Ht | | exact Hy].
    intros c Hc. apply (in_range_disjoint m cp 8 0 4 4 4); rewrite ?Z.add_0_r; done.
Qed.
Lemma store_col m cp x y v :
  holds m cp (le_bytes 4 x ++ le_bytes 4 y) -> separate m cp 8 ->
  exists m', store32 (cp_col cp) v m = Ok (tt, m') /\ Touches m (in_range m cp 8) m' /\
    holds m' cp (le_bytes 4 x ++ le_bytes 4 (u32 v)).
Proof.
  intros Hh Hs. pose proof (holds_mapped _ _ _ Hh) as Hm. apply le_word_holds in Hh as [Hx Hy].
  unfold cp_col in *.
  destruct (store32_ok m (cp + 4) v) as (m' & Hrun & Ht & Hh').
  { by apply holds_mapped in Hy. }
  { apply (separate_sub _ _ 8); [done | lia..]. }
  exists m'. split; [done |]. split.
  - eapply touches_mono; [exact Ht |]. intros c Hc. by apply (in_range_sub m cp 8 4 4).
  - apply le_word_holds. split; [| done]. eapply touches_holds; [exact Ht | | exact Hx].
    intros c Hc Hc'. apply (in_range_disjoint m cp 8 0 4 4 4 c); rewrite ?Z.add_0_r; done.
Qed.

(** The end of [putchar], and of a turn of [puts], on the cursor. *)
Lemma edge_ok m cp pos :
  0 <= pos < SCREEN_CELLS -> holds m cp (cursor_bytes pos) -> separate m cp 8 ->
  exists m', (col <- load_i32 (cp_col cp) ;;
    (if VGA_WIDTH - 1 <=? col then
       row <- load_i32 (cp_row cp) ;;
       store32 (cp_row cp) (row + 1) ;;;
       store32 (cp_col cp) (-1)
     else ret tt) ;;;
    ret 0) m = Ok (0, m') /\ Touches m (in_range m cp 8) m' /\ holds m' cp (printed_bytes pos).
Proof.
  intros Hp Hh Hs. destruct (cell_rows pos Hp) as (Hr & Hc & _). unfold cursor_bytes in Hh.
  run_step using load_col; [| exact Hh]. rewrite Z.mod_small, i32_small by lia.
  unfold printed_bytes, VGA_WIDTH. destruct (Z.leb_spec (80 - 1) (pos mod 80)).
  - rewrite decide_True by lia.
    destruct (store_row m cp _ _ (pos / 80 + 1) Hh Hs) as (m1 & Hrun1 & Ht1 & Hh1).
    destruct (store_col m1 cp _ _ (-1) Hh1) as (m2 & Hrun2 & Ht2 & Hh2); [by eapply touches_separate |].
    exists m2. split.
    { erewrite bind_run; [reflexivity |]. run_step using load_row; [| exact Hh].
      rewrite Z.mod_small, i32_small by lia. by run_step using Hrun1. }
    split.
    + eapply touches_mono; [by eapply touches_trans |]. intros c [Hx | Hx]; [done |].
      by apply (touches_range _ _ _ _ _ _ Ht1) in Hx.
    + rewrite u32_small in Hh2 by lia. exact Hh2.
  - rewrite decide_False by lia. exists m. split; [done |]. split; [by split | done].
Qed.
Lemma advance_ok m cp pos :
  0 <= pos < SCREEN_CELLS -> holds m cp (printed_bytes pos) -> separate m cp 8 ->
  exists m', (col <- load_i32 (cp_col cp) ;; store32 (cp_col cp) (col + 1)) m = Ok (tt, m') /\
    Touches m (in_range m cp 8) m' /\ holds m' cp (cursor_bytes (pos + 1)).
Proof.
  intros Hp Hh Hs. destruct (cell_rows pos Hp) as (Hr & Hc & Heq). unfold printed_bytes in Hh.
  assert (Hnext : (pos + 1) / 80 = (if decide (pos mod 80 = 79) then pos / 80 + 1 else pos / 80) /\
                  (pos + 1) mod 80 = (if decide (pos mod 80 = 79) then 0 else pos mod 80 + 1)).
  { case_decide; split; symmetry;
      first [apply (Z.div_unique _ _ _ 0); lia | apply (Z.mod_unique _ _ (pos / 80 + 1)); lia
            | apply (Z.div_unique _ _ _ (pos mod 80 + 1)); lia | apply (Z.mod_unique _ _ (pos / 80)); lia]. }
  unfold cursor_bytes at 1. destruct Hnext as [-> ->]. case_decide.
  - destruct (store_col m cp _ _ (-1 + 1) Hh Hs) as (m' & Hrun & Ht & Hh').
    exists m'. split; [| by split]. run_step using load_col; [| exact Hh]. exact Hrun.
  - destruct (store_col m cp _ _ (pos mod 80 + 1) Hh Hs) as (m' & Hrun & Ht & Hh').
    exists m'. split.
    + run_step using load_col; [| exact Hh]. by rewrite Z.mod_small, i32_small by lia.
    + split; [done |]. by rewrite u32_small in Hh' by lia.
Qed.

(** ** Printing *)

(** Memory ready for [puts]: the text at [buffer], its length and colour at [p],
    the cursor at [cp], the screen mapped; the screen and the cursor share no cell
    with the arguments or with each other. *)
Record Console m (buffer p cp : Z) bs (color pos : Z) : Prop := {
  co_text : holds m buffer bs;
  co_bytes : all_bytes bs;
  co_attr : holds m p (le_bytes 4 (zlen bs) ++ le_bytes 4 color);
  co_color : 0 <= color < 2 ^ 32;
  co_cursor : holds m cp (cursor_bytes pos);
  co_cursor_sep : separate m cp 8;
  co_screen : mapped m FRAMEBUFFER_MEMORY_OFFSET (2 * SCREEN_CELLS);
  co_screen_sep : separate m FRAMEBUFFER_MEMORY_OFFSET (2 * SCREEN_CELLS);
  co_screen_text : apart m FRAMEBUFFER_MEMORY_OFFSET (2 * SCREEN_CELLS) buffer (zlen bs);
  co_screen_attr : apart m FRAMEBUFFER_MEMORY_OFFSET (2 * SCREEN_CELLS) p 8;
  co_screen_cursor : apart m FRAMEBUFFER_MEMORY_OFFSET (2 * SCREEN_CELLS) cp 8;
  co_cursor_text : apart m cp 8 buffer (zlen bs);
  co_cursor_attr : apart m cp 8 p 8
}.

(** The cells one turn of the loop, or the whole print, may change. *)
Definition print_area m (cp pos n : Z) (c : Z) : Prop :=
  in_range m (cell_addr pos) (2 * n) c \/ in_range m cp 8 c.

Lemma cells_in_screen m pos n c :
  0 <= pos -> pos + n <= SCREEN_CELLS -> in_range m (cell_addr pos) (2 * n) c ->
  in_range m FRAMEBUFFER_MEMORY_OFFSET (2 * SCREEN_CELLS) c.
Proof. intros Hp Hn. apply in_range_sub; lia. Qed.

Lemma console_next m buffer p cp bs color pos n m' :
  Console m buffer p cp bs color pos -> 0 <= pos -> pos + n <= SCREEN_CELLS ->
  Touches m (print_area m cp pos n) m' -> holds m' cp (cursor_bytes (pos + n)) ->
  Console m' buffer p cp bs color (pos + n).
Proof.
  intros [Ht Hb Hat Hco Hcu Hcs Hsc Hss Hst Hsa Hsu Hct Hca] Hp Hn Hto Hcu'.
  split; try done.
  - eapply touches_holds; [exact Hto | | done]. intros c [Hc | Hc]; [| by apply Hct].
    by apply Hst, (cells_in_screen _ pos n).
  - eapply touches_holds; [exact Hto | | done]. intros c [Hc | Hc]; [| by apply Hca].
    by apply Hsa, (cells_in_screen _ pos n).
  - by eapply touches_separate.
  - by eapply touches_mapped.
  - by eapply touches_separate.
  - by eapply touches_apart.
  - by eapply touches_apart.
  - by eapply touches_apart.
  - by eapply touches_apart.
  - by eapply touches_apart.
Qed.

(** One turn: a character and the step of the cursor. *)
Lemma turn_ok {A} m buffer p cp bs color pos i b (k : Eff M A) :
  Console m buffer p cp bs color pos -> 0 <= pos < SCREEN_CELLS -> bs.[i] = Some b ->
  exists m', (putchar (buffer + i) color cp ;;;
    col <- load_i32 (cp_col cp) ;; store32 (cp_col cp) (col + 1) ;;; k) m = k m' /\
    Touches m (print_area m cp pos 1) m' /\
    holds m' (cell_addr pos) [b; Z.land color 0xF] /\
    Console m' buffer p cp bs color (pos + 1).
Proof.
  intros Hcon Hp Hi. pose proof Hcon as [Ht Hb Hat Hco Hcu Hcs Hsc Hss Hst Hsa Hsu Hct Hca].
  destruct (cell_rows pos Hp) as (Hr & Hc & _). pose proof Hcu as Hcu0. unfold cursor_bytes in Hcu0.
  destruct (framebuffer_write_ok m pos b color Hp) as (m1 & Hrun1 & Ht1 & Hh1); [| done | done |].
  { exact (Forall_zget _ _ _ _ Hb Hi). }
  assert (Hcell : forall c, in_range m (cell_addr pos) 2 c -> ~ in_range m cp 8 c).
  { intros c Hc1. by apply Hsu, (cells_in_screen m pos 1); [lia | lia |]. }
  assert (Hcu1 : holds m1 cp (cursor_bytes pos)) by by eapply touches_holds.
  assert (Hcs1 : separate m1 cp 8) by by eapply touches_separate.
  destruct (edge_ok m1 cp pos Hp Hcu1 Hcs1) as (m2 & Hrun2 & Ht2 & Hh2).
  destruct (advance_ok m2 cp pos Hp Hh2) as (m3 & Hrun3 & Ht3 & Hh3); [by eapply touches_separate |].
  assert (Ht23 : Touches m1 (in_range m cp 8) m3).
  { eapply touches_mono; [eapply touches_trans; [exact Ht2 | exact Ht3] |].
    intros c [Hc' | Hc'].
    - by apply (touches_range _ _ _ _ _ _ Ht1) in Hc'.
    - apply (touches_range _ _ _ _ _ _ Ht2) in Hc'. by apply (touches_range _ _ _ _ _ _ Ht1) in Hc'. }
  assert (Hto : Touches m (print_area m cp pos 1) m3).
  { eapply touches_mono; [eapply touches_trans; [exact Ht1 | exact Ht23] |]. by intros c [Hc' | Hc']; [left | right]. }
  exists m3. split.
  { assert (Hput : putchar (buffer + i) color cp m = Ok (0, m2)).
    { unfold putchar. run_step using load_row; [| exact Hcu0]. rewrite Z.mod_small, i32_small by lia.
      run_step using load_col; [| exact Hcu0]. rewrite Z.mod_small, i32_small by lia.
      run_step using load_char_holds; [| exact Ht | exact Hi].
      run_step using Hrun1. exact Hrun2. }
    rewrite (bind_run _ _ _ _ _ Hput). revert Hrun3. unfold bind.
    destruct (load_i32 (cp_col cp) m2) as [[col m2'] |]; [| done]. by intros ->. }
  split; [done |]. split.
  - eapply touches_holds; [exact Ht23 | | exact Hh1]. intros c Hc'.
    change (zlen _) with 2. intros Hc2. apply (touches_range _ _ _ _ _ _ Ht1) in Hc2.
    exact (Hcell c Hc2 Hc').
  - by eapply console_next; [exact Hcon | lia | lia |..].
Qed.

Lemma load_count m p n color :
  holds m p (le_bytes 4 n ++ le_bytes 4 color) -> 0 <= n < 2 ^ 32 -> load32 p m = Ok (n, m).
Proof. intros [Hn _]%le_word_holds Hr. by rewrite (load32_holds _ _ _ Hn), Z.mod_small. Qed.
Lemma load_color m p n color :
  holds m p (le_bytes 4 n ++ le_bytes 4 color) -> 0 <= color < 2 ^ 32 ->
  load32 (p + 4) m = Ok (color, m).
Proof. intros [_ Hc]%le_word_holds Hr. unfold cp_col in Hc. by rewrite (load32_holds _ _ _ Hc), Z.mod_small. Qed.

Lemma puts_loop_ok n : forall m buffer p cp bs color pos i,
  Console m buffer p cp bs color pos -> 0 <= i -> i + Z.of_nat n = zlen bs ->
  0 <= pos -> pos + Z.of_nat n <= SCREEN_CELLS -> zlen bs < 2 ^ 31 ->
  exists m', puts_loop n i buffer p cp m = Ok (tt, m') /\
    Touches m (print_area m cp pos (Z.of_nat n)) m' /\
    holds m' (cell_addr pos) (text_cells color (zdrop i bs)) /\
    Console m' buffer p cp bs color (pos + Z.of_nat n).
Proof.
  induction n as [| n IH]; intros m buffer p cp bs color pos i Hcon Hi Hn Hp Hfit Hlen; cbn [puts_loop];
    (run_step using load_count; [| apply Hcon | lia]); rewrite (u32_small i) by lia.
  - rewrite (proj2 (Z.leb_le _ _)) by lia. exists m. split; [done |]. split; [by split |].
    rewrite Z.add_0_r. split; [| done]. rewrite (zlen_0_inv (zdrop i bs)); [| rewrite zlen_zdrop; lia].
    intros j x Hj. by apply zget_range in Hj as [? ?%Z.nle_gt].
  - rewrite (proj2 (Z.leb_gt _ _)) by lia.
    run_step using load_color; [| apply Hcon | apply Hcon].
    destruct (zget_is_Some bs i ltac:(lia)) as [b Hb].
    destruct (turn_ok m buffer p cp bs color pos i b (puts_loop n (i + 1) buffer p cp) Hcon ltac:(lia) Hb)
      as (m1 & Hrun & Ht1 & Hh1 & Hcon1). rewrite Hrun.
    destruct (IH m1 buffer p cp bs color (pos + 1) (i + 1) Hcon1) as (m' & Hrun' & Ht' & Hh' & Hcon');
      [lia.. |].
    exists m'. split; [done |]. split.
    { eapply touches_mono; [by eapply touches_trans |]. unfold print_area. intros c [[Hc | Hc] | [Hc | Hc]].
      - left. replace (cell_addr pos) with (cell_addr pos + 0) in Hc by lia.
        apply (in_range_sub m (cell_addr pos) _ 0 (2 * 1)); [lia | lia | done].
      - by right.
      - left. apply (touches_range _ _ _ _ _ _ Ht1) in Hc.
        replace (cell_addr (pos + 1)) with (cell_addr pos + 2) in Hc by (unfold cell_addr; lia).
        apply (in_range_sub m (cell_addr pos) _ 2 (2 * Z.of_nat n)); [lia | lia | done].
      - right. by apply (touches_range _ _ _ _ _ _ Ht1) in Hc. }
    replace (pos + Z.of_nat (S n)) with (pos + 1 + Z.of_nat n) by lia. split; [| done].
    assert (zdrop i bs = b :: zdrop (i + 1) bs) as ->.
    { unfold zdrop. replace (Z.to_nat (i + 1)) with (S (Z.to_nat i)) by lia.
      apply drop_S. unfold zget in Hb. by rewrite decide_True in Hb by lia. }
    rewrite text_cells_cons. apply holds_app. change (zlen [b; Z.land color 0xF]) with 2. split.
    + eapply touches_holds; [exact Ht' | | exact Hh1]. change (zlen [b; _]) with 2.
      intros c [Hc | Hc] Hc2.
      * unfold cell_addr in *. rewrite Z.mul_add_distr_l, Z.add_assoc in Hc.
        rewrite <- Z.add_assoc in Hc.
        apply (in_range_disjoint m1 FRAMEBUFFER_MEMORY_OFFSET (2 * SCREEN_CELLS) (2 * pos) 2
                 (2 * pos + 2 * 1) (2 * Z.of_nat n) c (co_screen_sep _ _ _ _ _ _ _ Hcon1)); [lia.. | done | done].
      * apply (co_screen_cursor _ _ _ _ _ _ _ Hcon1 c); [| done].
        apply (cells_in_screen m1 pos 1); [lia | lia | done].
    + replace (cell_addr pos + 2) with (cell_addr (pos + 1)) by (unfold cell_addr; lia). done.
Qed.

(** C37. Printing a text that fits the screen puts its characters, in its colour on
    black, into consecutive cells from the cursor in row-major order, going on at
    the next row after the last column, and leaves the cursor behind the last
    character; no other cell of memory changes. *)
Theorem puts_spec m buffer p cp bs color pos
    (Hcon : Console m buffer p cp bs color pos)
    (Hpos : 0 <= pos) (Hfit : pos + zlen bs <= SCREEN_CELLS) :
  exists m', puts buffer p cp m = Ok (0, m') /\
    holds m' (cell_addr pos) (text_cells color bs) /\
    holds m' cp (cursor_bytes (pos + zlen bs)) /\
    (forall c, ~ print_area m cp pos (zlen bs) c -> mem_get m' c = mem_get m c) /\
    (forall a, mem_resolve m' a = mem_resolve m a).
Proof.
  pose proof (zlen_nonneg bs) as Hl. assert (Hb : zlen bs < 2 ^ 31) by (unfold SCREEN_CELLS, VGA_WIDTH in Hfit; lia).
  destruct (puts_loop_ok (Z.to_nat (zlen bs)) m buffer p cp bs color pos 0 Hcon)
    as (m' & Hrun & [Hres Hfr] & Hh & Hcon'); [lia.. |].
  rewrite Z2Nat.id in * by lia. exists m'. split.
  { unfold puts. run_step using load_count; [| apply Hcon | lia]. by run_step using Hrun. }
  split; [exact Hh |]. split; [apply Hcon' |]. by split.
Qed.
End Print.

(** ** The hardware cursor

    The registers of the display controller as the log of writes, latest first,
    leaves them: the index port selects, the data port stores. *)

Fixpoint crtc_index (log : list (Z * Z)) : option Z :=
  match log with
  | [] => None
  | (port, v) :: log' => if decide (port = CURSOR_PORT_CMD) then Some v else crtc_index log'
  end.
Fixpoint crtc_register (i : Z) (log : list (Z * Z)) : option Z :=
  match log with
  | [] => None
  | (port, v) :: log' =>
    if decide (port = CURSOR_PORT_DATA /\ crtc_index log' = Some i) then Some v
    else crtc_register i log'
  end.

(** The data port reads the selected register of the cursor's two. *)
Class CrtcMachine `{PortMachine} := {
  crtc_reads log i v : i = 0x0E \/ i = 0x0F -> crtc_index log = Some i ->
    crtc_register i log = Some v -> port_in log CURSOR_PORT_DATA = v
}.

Section CursorSpec.
Context {S : Type} `{PortStateLaws S} `{CrtcMachine}.

Lemma cursor_word pos :
  0 <= pos < 2 ^ 16 ->
  u16 (Z.lor (Z.lor 0 (u8 (u8 (Z.land pos 0xFF)))) (Z.shiftl (u8 (u8 (Z.land (Z.shiftr pos 8) 0xFF))) 8)) = pos.
Proof.
  intros Hp. change 0xFF with (Z.ones 8). rewrite !Z.land_ones, Z.shiftr_div_pow2 by lia.
  rewrite (Z.mod_small (pos / 2 ^ 8)) by (split; [by apply Z.div_pos; lia | by apply Z.div_lt_upper_bound; lia]).
  assert (Hq : 0 <= pos / 2 ^ 8 < 2 ^ 8) by (split; [by apply Z.div_pos; lia | by apply Z.div_lt_upper_bound; lia]).
  pose proof (Z.mod_pos_bound pos (2 ^ 8) ltac:(done)) as Hm.
  rewrite !u8_small by (rewrite ?u8_small; lia).
  rewrite Z.lor_0_l, Z.lor_comm, Z.shiftl_mul_pow2, Zlor_add_high by lia.
  pose proof (Z.div_mod pos (2 ^ 8) ltac:(lia)). rewrite u16_small; lia.
Qed.

(** The cursor is where it was put: after [framebuffer_set_cursor r c] the
    position read back is 80 * r + c, whatever the rest of the display's registers
    held. *)
Theorem cursor_roundtrip (s : S) r c (Hr : 0 <= r < 2 ^ 8) (Hc : 0 <= c < 2 ^ 8) :
  exists s1 s2, framebuffer_set_cursor r c s = Ok (tt, s1) /\
    framebuffer_get_cursor_position s1 = Ok (80 * r + c, s2).
Proof.
  assert (Hpos : 0 <= r * 80 + c < 2 ^ 16) by lia.
  assert (Hw := cursor_word (r * 80 + c) Hpos). set (pos := r * 80 + c) in *.
  set (lo := u8 (u8 (Z.land pos 0xFF))) in *. set (hi := u8 (u8 (Z.land (Z.shiftr pos 8) 0xFF))) in *.
  set (l1 := [(0x3D5, hi); (0x3D4, 0x0E); (0x3D5, lo); (0x3D4, 0x0F)] ++ ports s).
  assert (Hset : framebuffer_set_cursor r c s = Ok (tt, set_ports l1 s)).
  { unfold framebuffer_set_cursor. rewrite (u8_small r), (u8_small c) by lia. fold pos. rewrite (u16_small pos) by exact Hpos.
    rewrite <- (set_self s) at 1. rewrite !out_then, out_run. by rewrite ports_set, set_set. }
  exists (set_ports l1 s), (set_ports ((0x3D4, 0x0E) :: (0x3D4, 0x0F) :: l1) s). split; [done |].
  unfold framebuffer_get_cursor_position. rewrite out_then. unfold in_ at 1. run_step.
  rewrite ports_set, (crtc_reads _ 0x0F lo) by (done || by right). rewrite out_then.
  unfold in_. run_step. rewrite ports_set, (crtc_reads _ 0x0E hi) by (done || by left).
  unfold ret. do 2 f_equal. replace (80 * r + c) with pos by (unfold pos; lia). rewrite <- Hw.
  by rewrite (u8_small lo), (u8_small hi) by apply u8_range.
Qed.
End CursorSpec.
