(* ===== verification/Keyboard.v ===== *)
(** Keyboard: src/keyboard/keyboard.c - the scancode table, the driver's state and
    its interrupt. *)

From Stdlib Require Import ZArith Lia.
From stdpp Require Import base tactics numbers strings list.
From S2P Require Import Prelude Memory Pic Terminal FatLayout.
#[local] Open Scope eff_scope.

Definition KEYBOARD_DATA_PORT : Z := 0x60.

Record KeyboardDriverState := mkKeyboard {
  read_extended_mode : bool;
  keyboard_input_on : bool;
  keyboard_buffer : Z
}.
Definition boot_keyboard : KeyboardDriverState := mkKeyboard false false 0.

(** The table of the source, 16 scancodes a row; scancodes from 0x54 on, the
    releases among them, map to 0. *)
Definition keyboard_scancode_1_to_ascii_map : list Z :=
  [0; 0x1B] ++ str "1234567890-=" ++ [0x08; 0x09] ++
  str "qwertyuiop[]" ++ [0x0A; 0] ++ str "as" ++
  str "dfghjkl;" ++ [0x27] ++ str "`" ++ [0] ++ str "\zxcv" ++
  str "bnm,./" ++ [0] ++ str "*" ++ [0] ++ str " " ++ zrep 6 0 ++
  zrep 10 0 ++ str "-" ++ zrep 3 0 ++ str "+" ++ zrep 1 0 ++
  zrep 176 0.

(** A state with a keyboard driver in it. *)
Class KeyboardState (S : Type) := {
  keyboard : S -> KeyboardDriverState;
  set_keyboard : KeyboardDriverState -> S -> S
}.
Class KeyboardStateLaws (S : Type) `{PortState S} `{KeyboardState S} := {
  keyboard_set k s : keyboard (set_keyboard k s) = k;
  keyboard_ports l s : keyboard (set_ports l s) = keyboard s;
  ports_keyboard k s : ports (set_keyboard k s) = ports s
}.

Section Keyboard.
Context {S : Type} `{PortState S} `{KeyboardState S} `{PortMachine}.

Definition set_input (on : bool) (k : KeyboardDriverState) : KeyboardDriverState :=
  mkKeyboard (read_extended_mode k) on (keyboard_buffer k).
Definition set_buffer (c : Z) (k : KeyboardDriverState) : KeyboardDriverState :=
  mkKeyboard (read_extended_mode k) (keyboard_input_on k) c.

Definition keyboard_state_activate : Eff S unit :=
  modify (fun s => if negb (keyboard_input_on (keyboard s))
                   then set_keyboard (set_input true (keyboard s)) s else s).
Definition keyboard_state_deactivate : Eff S unit :=
  modify (fun s => if keyboard_input_on (keyboard s)
                   then set_keyboard (set_input false (keyboard s)) s else s).

(** The character handed over, and the buffer emptied; the caller stores the
    character at its pointer in between. *)
Definition get_keyboard_buffer (store : Z -> Eff S unit) : Eff S unit :=
  c <- gets (fun s => keyboard_buffer (keyboard s)) ;;
  store c ;;;
  modify (fun s => set_keyboard (set_buffer 0x0 (keyboard s)) s).

Definition keyboard_isr : Eff S unit :=
  scancode <- in_ KEYBOARD_DATA_PORT ;;
  on <- gets (fun s => keyboard_input_on (keyboard s)) ;;
  (if (on : bool) then
     mapped <- of_res (of_option BadAccess keyboard_scancode_1_to_ascii_map.[scancode]) ;;
     modify (fun s => set_keyboard (set_buffer (u8 (u16 mapped)) (keyboard s)) s)
   else ret tt) ;;;
  pic_ack (PIC1_OFFSET + IRQ_KEYBOARD).
End Keyboard.

(** ** Keys *)

Section Spec.
Context {S : Type} `{KeyboardStateLaws S} `{!PortStateLaws S} `{PortMachine}.
Implicit Types (s : S).

Lemma map_size : zlen keyboard_scancode_1_to_ascii_map = 256.
Proof. done. Qed.
Lemma map_ascii : Forall (fun c => 0 <= c < 128) keyboard_scancode_1_to_ascii_map.
Proof. by repeat constructor. Qed.
Lemma map_release i : 0x80 <= i < 256 -> keyboard_scancode_1_to_ascii_map.[i] = Some 0.
Proof.
  intros Hi. set (l := ztake 128 keyboard_scancode_1_to_ascii_map).
  change keyboard_scancode_1_to_ascii_map with (l ++ zrep 128 0).
  assert (Hl : zlen l = 128) by done.
  rewrite zget_app_r by lia. rewrite Hl. apply zget_zrep. lia.
Qed.

Lemma both_acked s :
  pic_ack (PIC1_OFFSET + IRQ_KEYBOARD) s =
    Ok (tt, set_ports ((PIC1_COMMAND, PIC_ACK) :: (PIC2_COMMAND, PIC_ACK) :: ports s) s).
Proof.
  rewrite <- (set_self s) at 1. change (pic_ack _) with (out PIC2_COMMAND PIC_ACK ;;; out (S := S) PIC1_COMMAND PIC_ACK).
  by rewrite out_then, out_run, ports_set, set_set.
Qed.

(** C40. A key press with the driver on leaves the table's ASCII character in the
    buffer, a release leaves 0 there - over the character pressed, if nobody has
    fetched it yet; with the driver off the buffer keeps what it had. The
    interrupt is acknowledged in every case. *)
Theorem keyboard_isr_spec s (sc := u8 (port_in (ports s) KEYBOARD_DATA_PORT)) :
  exists s', keyboard_isr s = Ok (tt, s') /\
    ports s' = (PIC1_COMMAND, PIC_ACK) :: (PIC2_COMMAND, PIC_ACK) :: ports s /\
    keyboard_input_on (keyboard s') = keyboard_input_on (keyboard s) /\
    (keyboard_input_on (keyboard s) = false -> keyboard s' = keyboard s) /\
    (keyboard_input_on (keyboard s) = true ->
       keyboard_scancode_1_to_ascii_map.[sc] = Some (keyboard_buffer (keyboard s')) /\
       0 <= keyboard_buffer (keyboard s') < 128 /\
       (0x80 <= sc -> keyboard_buffer (keyboard s') = 0)).
Proof.
  unfold keyboard_isr. run_step. change (u16 KEYBOARD_DATA_PORT) with KEYBOARD_DATA_PORT. fold sc. run_step.
  assert (Hsc : 0 <= sc < 256) by apply u8_range.
  destruct (keyboard_input_on (keyboard s)) eqn:Hon.
  - destruct (zget_is_Some keyboard_scancode_1_to_ascii_map sc) as [c Hc]; [by rewrite map_size |].
    assert (Hr : 0 <= c < 128) by exact (Forall_zget _ _ _ _ map_ascii Hc).
    assert (Hcu : u8 (u16 c) = c) by (rewrite u16_small, u8_small by (rewrite ?u16_small; lia); lia).
    set (s1 := set_keyboard (set_buffer (u8 (u16 c)) (keyboard s)) s).
    exists (set_ports ((PIC1_COMMAND, PIC_ACK) :: (PIC2_COMMAND, PIC_ACK) :: ports s1) s1).
    assert (Hk : keyboard s1 = set_buffer c (keyboard s)) by (unfold s1; rewrite keyboard_set; by rewrite Hcu).
    rewrite keyboard_ports, Hk, ports_set. cbn [set_buffer keyboard_buffer keyboard_input_on].
    split.
    { erewrite bind_run; [apply both_acked |].
      erewrite bind_run; [| unfold of_res; rewrite Hc; reflexivity]. reflexivity. }
    split; [unfold s1; by rewrite ports_keyboard |]. split; [done |]. split; [done |]. intros _.
    split; [done |]. split; [done |]. intros Hrel. rewrite map_release in Hc by lia. congruence.
  - eexists. split; [run_step; apply both_acked |]. rewrite ports_set, keyboard_ports. by rewrite Hon.
Qed.
End Spec.
