(* ===== verification/Descriptors.v ===== *)
(** Descriptors: the segment descriptors of src/gdt/gdt.c and the interrupt gates
    of src/interrupt/idt.c, as the processor reads them. *)

From Stdlib Require Import ZArith Lia.
From stdpp Require Import base tactics numbers list.
From S2P Require Import Prelude Process.

(** ** Segments *)

Definition GDT_MAX_ENTRY_COUNT : Z := 32.
Definition GDT_KERNEL_CODE_SEGMENT_SELECTOR : Z := 0x8.
Definition GDT_KERNEL_DATA_SEGMENT_SELECTOR : Z := 0x10.
Definition GDT_USER_CODE_SEGMENT_SELECTOR : Z := 0x18.
Definition GDT_USER_DATA_SEGMENT_SELECTOR : Z := 0x20.
Definition GDT_TSS_SELECTOR : Z := 0x28.

Record SegmentDescriptor := mkSegment {
  segment_low : Z;
  base_low : Z;
  base_mid : Z;
  type_bit : Z;
  non_system : Z;
  seg_dpl_bit : Z;
  present : Z;
  segment_high : Z;
  available_bit : Z;
  code_in_64 : Z;
  db_flag : Z;
  granularity : Z;
  base_high : Z
}.

(** [sizeof(struct TSSEntry)]: 26 words. *)
Definition TSS_SIZE : Z := 4 * 26.

Definition null_segment : SegmentDescriptor := mkSegment 0 0 0 0 0 0 0 0 0 0 0 0 0.
Definition flat_segment (type dpl : Z) : SegmentDescriptor :=
  mkSegment 0xFFFF 0 0 type 1 dpl 1 0xF 0 0 1 1 0.
Definition tss_segment : SegmentDescriptor :=
  mkSegment (u16 TSS_SIZE) 0 0 0x9 0 0 1 (Z.shiftr (Z.land TSS_SIZE (Z.shiftl 0xF 16)) 16) 0 0 1 0 0.

Definition global_descriptor_table : list SegmentDescriptor :=
  [null_segment; flat_segment 0xA 0; flat_segment 0x2 0; flat_segment 0xA 0x3; flat_segment 0x2 0x3;
   tss_segment] ++ zrep (GDT_MAX_ENTRY_COUNT - 6) null_segment.

Definition set_base (low mid high : Z) (d : SegmentDescriptor) : SegmentDescriptor :=
  mkSegment (segment_low d) low mid (type_bit d) (non_system d) (seg_dpl_bit d) (present d)
    (segment_high d) (available_bit d) (code_in_64 d) (db_flag d) (granularity d) high.

(** [tss] is the address of [_interrupt_tss_entry]. *)
Definition gdt_install_tss (tss : Z) (t : list SegmentDescriptor) : list SegmentDescriptor :=
  let base := u32 tss in
  t.[5 := set_base (u16 (Z.land base 0xFFFF))
            (u8 (Z.shiftr (Z.land base (Z.shiftl 0xFF 16)) 16))
            (u8 (Z.shiftr (Z.land base (u32 (Z.shiftl 0xFF 24))) 24))
            (znth null_segment t 5)].

(** What the processor makes of a descriptor. *)
Definition segment_base (d : SegmentDescriptor) : Z :=
  Z.lor (Z.lor (Z.shiftl (base_high d) 24) (Z.shiftl (base_mid d) 16)) (base_low d).
(** The last offset of the segment, in bytes. *)
Definition segment_limit (d : SegmentDescriptor) : Z :=
  let l := Z.lor (Z.shiftl (segment_high d) 16) (segment_low d) in
  if granularity d =? 1 then l * 4096 + 4095 else l.
Definition selected (t : list SegmentDescriptor) (selector : Z) : SegmentDescriptor :=
  znth null_segment t (Z.shiftr selector 3).
Definition rpl (selector : Z) : Z := Z.land selector 0x3.

(** A selector a program of privilege [dpl] can load: present, of that privilege,
    covering all 4 GiB from 0. *)
Definition flat_for (t : list SegmentDescriptor) (selector type dpl : Z) : Prop :=
  let d := selected t selector in
  rpl selector = dpl /\ seg_dpl_bit d = dpl /\ present d = 1 /\ non_system d = 1 /\ type_bit d = type /\
  segment_base d = 0 /\ segment_limit d = 2 ^ 32 - 1.

Lemma install_base tss t :
  0 <= tss < 2 ^ 32 -> 5 < zlen t -> segment_base (znth null_segment (gdt_install_tss tss t) 5) = tss.
Proof.
  intros Ht Hl. unfold gdt_install_tss, znth at 1. rewrite zget_zset_eq by lia.
  cbn [from_option id]. unfold segment_base. cbn [set_base base_low base_mid base_high].
  rewrite (u32_small tss) by done. change (u32 (Z.shiftl 0xFF 24)) with (Z.shiftl (Z.ones 8) 24).
  change 0xFF with (Z.ones 8). change 0xFFFF with (Z.ones 16).
  unfold u8, u16. rewrite <- !Z.land_ones by lia.
  apply Z.bits_inj'. intros i Hi.
  rewrite !Z.lor_spec, !Z.shiftl_spec, !Z.land_spec, !Z.testbit_ones by lia.
  destruct (Z.lt_ge_cases i 32) as [H32 | H32].
  - destruct (Z.lt_ge_cases i 24) as [H24 | H24].
    + rewrite (Z.testbit_neg_r _ (i - 24)) by lia.
      destruct (Z.lt_ge_cases i 16) as [H16 | H16].
      * rewrite (Z.testbit_neg_r _ (i - 16)) by lia.
        rewrite (proj2 (Z.leb_le 0 i)), (proj2 (Z.ltb_lt i 16)) by lia. by destruct (Z.testbit tss i).
      * rewrite Z.shiftr_spec, Z.land_spec, Z.shiftl_spec, Z.testbit_ones by lia.
        replace (i - 16 + 16) with i by lia.
        rewrite (proj2 (Z.leb_le 0 (i - 16))), (proj2 (Z.ltb_lt (i - 16) 8)), (proj2 (Z.ltb_ge i 16)) by lia.
        by destruct (Z.testbit tss i).
    + rewrite (Z.shiftr_spec _ _ (i - 24)), (Z.shiftr_spec _ _ (i - 16)), !Z.land_spec, !Z.shiftl_spec, !Z.testbit_ones by lia.
      replace (i - 24 + 24) with i by lia. replace (i - 16 + 16) with i by lia.
      rewrite (proj2 (Z.leb_le 0 (i - 24))), (proj2 (Z.ltb_lt (i - 24) 8)), (proj2 (Z.ltb_ge i 16)),
        (proj2 (Z.ltb_ge (i - 16) 8)) by lia.
      by destruct (Z.testbit tss i).
  - rewrite (proj2 (Z.ltb_ge i 16)), (proj2 (Z.ltb_ge (i - 16) 8)), (proj2 (Z.ltb_ge (i - 24) 8)) by lia.
    rewrite !andb_false_r. symmetry. rewrite <- (Z.mod_small tss (2 ^ 32)) by lia.
    by apply Z.mod_pow2_bits_high.
Qed.

(** ** Interrupt gates *)

Definition IDT_MAX_ENTRY_COUNT : Z := 256.
Definition ISR_STUB_TABLE_LIMIT : Z := 64.
Definition INTERRUPT_GATE_R_BIT_1 : Z := 0x0.
Definition INTERRUPT_GATE_R_BIT_2 : Z := 0x6.
Definition INTERRUPT_GATE_R_BIT_3 : Z := 0x0.

Record IDTGate := mkGate {
  offset_low : Z;
  segment : Z;
  _reserved : Z;
  _r_bit_1 : Z;
  _r_bit_2 : Z;
  gate_32 : Z;
  _r_bit_3 : Z;
  dpl_bit : Z;
  valid_bit : Z;
  offset_high : Z
}.
Definition zero_gate : IDTGate := mkGate 0 0 0 0 0 0 0 0 0 0.
Definition interrupt_descriptor_table : list IDTGate := zrep IDT_MAX_ENTRY_COUNT zero_gate.

Definition set_interrupt_gate (int_vector handler_address gdt_seg_selector privilege : Z)
    (t : list IDTGate) : list IDTGate :=
  let g := znth zero_gate t (u8 int_vector) in
  t.[u8 int_vector :=
    mkGate (u16 (Z.land (u32 handler_address) 0xFFFF)) (u16 gdt_seg_selector) (_reserved g)
      INTERRUPT_GATE_R_BIT_1 INTERRUPT_GATE_R_BIT_2 1 INTERRUPT_GATE_R_BIT_3 (Z.land privilege 0x3) 1
      (u16 (Z.shiftr (u32 handler_address) 16))].

(** [isr_stub_table] gives the entry points of the assembly stubs. *)
Definition idt_step (isr_stub_table : Z -> Z) (t : list IDTGate) (i : Z) : list IDTGate :=
  if i =? 0x30
  then set_interrupt_gate i (isr_stub_table i) GDT_KERNEL_CODE_SEGMENT_SELECTOR 0x3 t
  else set_interrupt_gate i (isr_stub_table i) GDT_KERNEL_CODE_SEGMENT_SELECTOR 0 t.
Definition initialize_idt (isr_stub_table : Z -> Z) (t : list IDTGate) : list IDTGate :=
  foldl (idt_step isr_stub_table) t (seqZ 0 ISR_STUB_TABLE_LIMIT).

(** What the processor makes of a gate: a 32-bit interrupt gate is type 0xE. *)
Definition gate_offset (g : IDTGate) : Z := Z.lor (Z.shiftl (offset_high g) 16) (offset_low g).
Definition gate_type (g : IDTGate) : Z := Z.lor (Z.shiftl (gate_32 g) 3) (_r_bit_2 g).

Definition gate_of (isr_stub_table : Z -> Z) (i : Z) : IDTGate :=
  let a := u32 (isr_stub_table i) in
  mkGate (a mod 2 ^ 16) GDT_KERNEL_CODE_SEGMENT_SELECTOR 0 0 6 1 0 (if i =? 0x30 then 3 else 0) 1 (a / 2 ^ 16).

(** ** Theorems *)

(** The selectors a new process gets name flat 4 GiB segments of privilege 3,
    code and data, the kernel's name those of privilege 0, and after
    [gdt_install_tss] the task register's selector names the TSS: its base is the
    TSS's address and its limit covers it. *)
Theorem gdt_spec tss entrypoint pd c
    (t := gdt_install_tss tss global_descriptor_table) (ctx := initial_context entrypoint pd c)
    (Htss : 0 <= tss < 2 ^ 32) :
  flat_for t (cs ctx) 0xA 3 /\ flat_for t (ss ctx) 0x2 3 /\
  flat_for t (ds (cpu ctx)) 0x2 3 /\ flat_for t (es (cpu ctx)) 0x2 3 /\
  flat_for t (fs (cpu ctx)) 0x2 3 /\ flat_for t (gs (cpu ctx)) 0x2 3 /\
  flat_for t GDT_KERNEL_CODE_SEGMENT_SELECTOR 0xA 0 /\
  flat_for t GDT_KERNEL_DATA_SEGMENT_SELECTOR 0x2 0 /\
  segment_base (selected t GDT_TSS_SELECTOR) = tss /\
  present (selected t GDT_TSS_SELECTOR) = 1 /\ type_bit (selected t GDT_TSS_SELECTOR) = 0x9 /\
  TSS_SIZE <= segment_limit (selected t GDT_TSS_SELECTOR) + 1.
Proof.
  assert (Hcases : forall i d, i <> 5 -> global_descriptor_table.[i] = Some d ->
            znth null_segment t i = d).
  { intros i d Hi Hd. unfold t, gdt_install_tss, znth. by rewrite zget_zset_ne, Hd. }
  split_and!; try (by unfold flat_for, selected; erewrite Hcases; [| | reflexivity]; [done | done]).
  - by apply install_base.
  - done.
  - done.
  - done.
Qed.

Definition gates_clean (t : list IDTGate) : Prop :=
  zlen t = IDT_MAX_ENTRY_COUNT /\ forall i, _reserved (znth zero_gate t i) = 0.

Lemma idt_step_run isr t j :
  gates_clean t -> 0 <= j < IDT_MAX_ENTRY_COUNT -> idt_step isr t j = t.[j := gate_of isr j].
Proof.
  unfold IDT_MAX_ENTRY_COUNT. intros [Hlen Hres] Hj. unfold idt_step, set_interrupt_gate, gate_of.
  rewrite (u8_small j), Hres by lia. pose proof (u32_range (isr j)) as Hr.
  assert (Hd : 0 <= u32 (isr j) / 2 ^ 16 < 2 ^ 16)
    by (split; [apply Z.div_pos; lia | apply Z.div_lt_upper_bound; lia]).
  change 0xFFFF with (Z.ones 16). rewrite Z.land_ones, Z.shiftr_div_pow2 by lia.
  unfold u16. rewrite (Z.mod_small (_ / _)) by done. rewrite Z.mod_mod by lia.
  by destruct (j =? 0x30).
Qed.

Lemma gates_clean_step isr t j : gates_clean t -> gates_clean t.[j := gate_of isr j].
Proof.
  intros [Hlen Hres]. split; [by rewrite zlen_zset |]. intros i. unfold znth.
  rewrite zget_zset. case_decide; [done |]. apply Hres.
Qed.

Lemma idt_fold isr l : forall t i,
  gates_clean t -> Forall (fun j => 0 <= j < IDT_MAX_ENTRY_COUNT) l ->
  znth zero_gate (foldl (idt_step isr) t l) i = if decide (i ∈ l) then gate_of isr i else znth zero_gate t i.
Proof.
  induction l as [| j l IH]; intros t i Hc Hl; cbn [foldl]; [done |].
  apply Forall_cons in Hl as [Hj Hl]. rewrite idt_step_run by done.
  rewrite IH by (done || by apply gates_clean_step).
  destruct (decide (i ∈ l)) as [Hi | Hi].
  - by rewrite decide_True by by right.
  - destruct (decide (i = j)) as [-> | Hne].
    + rewrite decide_True by left. unfold znth. by rewrite zget_zset_eq by (by rewrite (proj1 Hc)).
    + rewrite decide_False by (intros [-> | ?]%elem_of_cons; done). unfold znth. by rewrite zget_zset_ne.
Qed.

(** C38. The interrupt table: each of the 64 vectors with a stub has a present
    32-bit interrupt gate to that stub in the kernel's code segment, only 0x30 can
    be raised from privilege 3, and the other vectors have no gate. *)
Theorem initialize_idt_spec isr_stub_table i
    (g := znth zero_gate (initialize_idt isr_stub_table interrupt_descriptor_table) i) :
  (0 <= i < ISR_STUB_TABLE_LIMIT ->
     valid_bit g = 1 /\ gate_offset g = u32 (isr_stub_table i) /\ gate_type g = 0xE /\ _r_bit_3 g = 0 /\
     segment g = GDT_KERNEL_CODE_SEGMENT_SELECTOR /\ (3 <= dpl_bit g <-> i = 0x30)) /\
  (ISR_STUB_TABLE_LIMIT <= i < IDT_MAX_ENTRY_COUNT -> valid_bit g = 0).
Proof.
  assert (Hzero : forall j, znth zero_gate interrupt_descriptor_table j = zero_gate).
  { intros j. unfold znth. destruct (_.[j]) as [x |] eqn:Hx; [| done].
    pose proof (zget_range _ _ _ Hx) as Hr. unfold interrupt_descriptor_table in *.
    rewrite zlen_zrep in Hr by done. rewrite zget_zrep in Hx by done. by injection Hx as <-. }
  assert (Hg : g = if decide (i ∈ seqZ 0 ISR_STUB_TABLE_LIMIT) then gate_of isr_stub_table i else zero_gate).
  { unfold g, initialize_idt. rewrite idt_fold, Hzero; [done | |].
    - split; [done |]. intros j. by rewrite Hzero.
    - apply Forall_forall. intros j Hj%elem_of_seqZ.
      unfold ISR_STUB_TABLE_LIMIT, IDT_MAX_ENTRY_COUNT in *. lia. }
  clearbody g. subst g. unfold ISR_STUB_TABLE_LIMIT. split; intros Hi.
  - rewrite decide_True by (apply elem_of_seqZ; lia). split_and!; try done.
    + unfold gate_offset, gate_of. cbn [offset_high offset_low].
      pose proof (Z.mod_pos_bound (u32 (isr_stub_table i)) (2 ^ 16) ltac:(done)).
      rewrite Z.shiftl_mul_pow2, Zlor_add_high by lia.
      pose proof (Z.div_mod (u32 (isr_stub_table i)) (2 ^ 16) ltac:(done)). lia.
    + cbn [gate_of dpl_bit]. by destruct (Z.eqb_spec i 0x30); split.
  - rewrite decide_False; [done |]. intros Hin%elem_of_seqZ. lia.
Qed.
