(* ===== verification/Assembly.v ===== *)
(** Assembly: the code around the C functions - the interrupt stubs of
    src/interrupt/intsetup.s and process_context_switch of
    src/kernel/kernel-entrypoint.s, an instruction at a time - and what they promise
    to the C code: the frame a handler gets, and that the interrupted program goes on
    as it was, at once or after other processes had their turn. *)

From Stdlib Require Import ZArith Lia.
From stdpp Require Import base tactics numbers list gmap.
From S2P Require Import Prelude Process Scheduler Descriptors.
#[local] Open Scope eff_scope.

(** ** The processor *)

Record Processor := mkProcessor {
  registers : CPURegister;
  p_eip : Z;
  p_cs : Z;
  p_eflags : Z;
  p_ss : Z
}.
(** With the words of the kernel's stack from its top on: from [esp] in ring 0, from
    the TSS's [esp0] in ring 3. What lies below is lost to an interrupt at any
    time. [eip] is followed from an interrupt to [iret], not within the code. *)
Record Machine := mkMachine {
  processor : Processor;
  kstack : list Z
}.

Inductive Reg : Type := R_EDI | R_ESI | R_EBP | R_ESP | R_EBX | R_EDX | R_ECX | R_EAX | R_GS | R_FS | R_ES | R_DS.
Definition get_reg (x : Reg) (r : CPURegister) : Z :=
  match x with
  | R_EDI => edi r | R_ESI => esi r | R_EBP => ebp r | R_ESP => esp r
  | R_EBX => ebx r | R_EDX => edx r | R_ECX => ecx r | R_EAX => eax r
  | R_GS => gs r | R_FS => fs r | R_ES => es r | R_DS => ds r
  end.
Definition put_reg (x : Reg) (v : Z) (r : CPURegister) : CPURegister :=
  let f y := if match x, y with
                | R_EDI, R_EDI | R_ESI, R_ESI | R_EBP, R_EBP | R_ESP, R_ESP | R_EBX, R_EBX | R_EDX, R_EDX | R_ECX, R_ECX | R_EAX, R_EAX
                | R_GS, R_GS | R_FS, R_FS | R_ES, R_ES | R_DS, R_DS => true
                | _, _ => false
                end then v else get_reg y r in
  mkCPU (f R_EDI) (f R_ESI) (f R_EBP) (f R_ESP) (f R_EBX) (f R_EDX) (f R_ECX) (f R_EAX) (f R_GS) (f R_FS) (f R_ES) (f R_DS).

Definition with_registers (r : CPURegister) (c : Processor) : Processor :=
  mkProcessor r (p_eip c) (p_cs c) (p_eflags c) (p_ss c).
Definition with_flags (f : Z) (c : Processor) : Processor :=
  mkProcessor (registers c) (p_eip c) (p_cs c) f (p_ss c).
Definition on_processor (f : Processor -> Processor) : Eff Machine unit :=
  modify (fun m => mkMachine (f (processor m)) (kstack m)).

(** The flags an [and] leaves; of them the code looks at the zero flag. *)
Definition ZERO_FLAG : Z := 6.
Class Alu := {
  alu_flags : Z -> Z -> Z;
  alu_zero result flags : Z.testbit (alu_flags result flags) ZERO_FLAG = (result =? 0)
}.

(** ** Instructions *)

Definition reg (x : Reg) : Eff Machine Z := gets (fun m => get_reg x (registers (processor m))).
Definition mov (x : Reg) (v : Z) : Eff Machine unit :=
  on_processor (fun c => with_registers (put_reg x v (registers c)) c).
Definition flags : Eff Machine Z := gets (fun m => p_eflags (processor m)).

Definition push (v : Z) : Eff Machine unit :=
  a <- reg R_ESP ;;
  mov R_ESP (u32 (a - 4)) ;;;
  modify (fun m => mkMachine (processor m) (v :: kstack m)).
Definition pop : Eff Machine Z :=
  w <- (fun m => of_res (of_option BadAccess (head (kstack m))) m) ;;
  a <- reg R_ESP ;;
  mov R_ESP (u32 (a + 4)) ;;;
  modify (fun m => mkMachine (processor m) (tail (kstack m))) ;;;
  ret w.
Definition push_reg (x : Reg) : Eff Machine unit := v <- reg x ;; push v.
Definition pop_reg (x : Reg) : Eff Machine unit := v <- pop ;; mov x v.
Definition pushf : Eff Machine unit := f <- flags ;; push f.
Definition popf : Eff Machine unit := f <- pop ;; on_processor (with_flags f).

(** [mov x, \[esp+k\]], [mov \[esp+k\], x] and [lea x, \[esp+k\]]; [k] is a number of words. *)
Definition mov_from (x : Reg) (k : nat) : Eff Machine unit :=
  w <- (fun m => of_res (of_option BadAccess (kstack m !! k)) m) ;; mov x w.
Definition mov_to (k : nat) (x : Reg) : Eff Machine unit :=
  v <- reg x ;;
  modify (fun m => mkMachine (processor m) (<[k := v]> (kstack m))).
Definition lea (x : Reg) (k : nat) : Eff Machine unit := a <- reg R_ESP ;; mov x (u32 (a + 4 * Z.of_nat k)).
(** [mov esp, x], up the stack. *)
Definition mov_esp (x : Reg) : Eff Machine unit :=
  v <- reg x ;;
  a <- reg R_ESP ;;
  let k := u32 (v - a) / 4 in
  n <- gets (fun m => zlen (kstack m)) ;;
  if (u32 (v - a) mod 4 =? 0) && (k <=? n) then
    mov R_ESP v ;;; modify (fun m => mkMachine (processor m) (zdrop k (kstack m)))
  else stop BadAccess.
Definition add_esp (k : nat) : Eff Machine unit :=
  a <- reg R_ESP ;;
  mov R_ESP (u32 (a + 4 * Z.of_nat k)) ;;;
  modify (fun m => mkMachine (processor m) (drop k (kstack m))).
(** [mov ax, n] and [mov x, ax] for a segment register *)
Definition mov_ax (n : Z) : Eff Machine unit := v <- reg R_EAX ;; mov R_EAX (Z.lor (Z.land v 0xFFFF0000) n).
Definition mov_segment (x : Reg) : Eff Machine unit := v <- reg R_EAX ;; mov x (u16 v).

Definition pushad : Eff Machine unit :=
  a <- reg R_ESP ;;
  push_reg R_EAX ;;; push_reg R_ECX ;;; push_reg R_EDX ;;; push_reg R_EBX ;;;
  push a ;;; push_reg R_EBP ;;; push_reg R_ESI ;;; push_reg R_EDI.
(** The word for [esp] is skipped. *)
Definition popad : Eff Machine unit :=
  pop_reg R_EDI ;;; pop_reg R_ESI ;;; pop_reg R_EBP ;;; pop ;;;
  pop_reg R_EBX ;;; pop_reg R_EDX ;;; pop_reg R_ECX ;;; pop_reg R_EAX.

Definition user_level (selector : Z) : bool := negb (Z.land selector 3 =? 0).

(** Back to ring 3 also the user's stack is taken from the kernel's. *)
Definition iret : Eff Machine unit :=
  ip <- pop ;; code <- pop ;; f <- pop ;;
  if user_level code then
    a <- pop ;; stack <- pop ;;
    on_processor (fun c => mkProcessor (put_reg R_ESP a (registers c)) ip code f stack)
  else on_processor (fun c => mkProcessor (registers c) ip code f (p_ss c)).

(** An interrupt through a gate: from ring 3 to the stack of the TSS, with the flags
    TF, IF, NT, RF and VM cleared. Some exceptions bring an error code. *)
Definition GATE_CLEARED : Z := 0x34300.
Definition deliver (entry top : Z) (code : option Z) : Eff Machine unit :=
  c <- gets processor ;;
  (if user_level (p_cs c) then
     on_processor (fun c => mkProcessor (put_reg R_ESP top (registers c)) (p_eip c) (p_cs c) (p_eflags c)
                             GDT_KERNEL_DATA_SEGMENT_SELECTOR) ;;;
     push (p_ss c) ;;; push (esp (registers c))
   else ret tt) ;;;
  push (p_eflags c) ;;; push (p_cs c) ;;; push (p_eip c) ;;;
  on_processor (fun c => mkProcessor (registers c) entry GDT_KERNEL_CODE_SEGMENT_SELECTOR
                          (Z.ldiff (p_eflags c) GATE_CLEARED) (p_ss c)) ;;;
  match code with
  | Some e => push e
  | None => ret tt
  end.

(** ** intsetup.s *)

Section Stubs.
Context `{Alu}.

(** [and x, n] *)
Definition and_reg (x : Reg) (n : Z) : Eff Machine unit :=
  v <- reg x ;;
  mov x (Z.land v n) ;;;
  on_processor (fun c => with_flags (alu_flags (Z.land v n) (p_eflags c)) c).
Definition zero_flag : Eff Machine bool := gets (fun m => Z.testbit (p_eflags (processor m)) ZERO_FLAG).

(** [call_generic_handler] before and after the call of the C function. *)
Definition segment_register_setup : Eff Machine unit :=
  mov_ax 0x10 ;;;
  mov_segment R_DS ;;; mov_segment R_ES ;;; mov_segment R_FS ;;; mov_segment R_GS ;;;
  pop_reg R_EAX ;;;
  popf ;;;
  a <- reg R_ESP ;; mov R_EBP a.
Definition call_generic_handler : Eff Machine unit :=
  push_reg R_DS ;;; push_reg R_ES ;;; push_reg R_FS ;;; push_reg R_GS ;;;
  pushad ;;;
  pushf ;;;
  push_reg R_EAX ;;;
  mov_from R_EAX 13 ;;;
  and_reg R_EAX 0x3 ;;;
  z <- zero_flag ;;
  (if z : bool then ret tt else mov_from R_EAX 19 ;;; mov_to 5 R_EAX) ;;;
  segment_register_setup.
Definition return_from_handler : Eff Machine unit :=
  popad ;;;
  pop_reg R_GS ;;; pop_reg R_FS ;;; pop_reg R_ES ;;; pop_reg R_DS ;;;
  add_esp 2 ;;;
  iret.

(** The macros' instances: these vectors expect an error code on the stack. *)
Definition error_code_vectors : list Z := [8; 10; 11; 12; 13; 14; 17; 30].
Definition expects_error_code (n : Z) : bool := bool_decide (n ∈ error_code_vectors).
Definition interrupt_handler (n : Z) : Eff Machine unit :=
  (if expects_error_code n then push n else push 0 ;;; push n) ;;;
  call_generic_handler.
End Stubs.

(** ** What the C code sees *)

(** The argument of [main_interrupt_handler], passed by value: it is the top of the
    stack before the call. *)
Definition frame_at (l : list Z) : option InterruptFrame :=
  match l with
  | di :: si :: bp :: sp :: b :: d :: c :: a :: g :: f :: e :: dd :: n :: err :: ip :: code :: fl :: _ =>
    Some (mkFrame (mkCPU di si bp sp b d c a g f e dd) n err ip code fl)
  | _ => None
  end.
(** What a C function leaves: any registers and flags, with the stack as it was. *)
Definition after_call (r : CPURegister) (f : Z) (m : Machine) : Machine :=
  mkMachine (mkProcessor (put_reg R_ESP (esp (registers (processor m))) r) (p_eip (processor m)) (p_cs (processor m)) f
               (p_ss (processor m))) (kstack m).

(** ** kernel-entrypoint.s *)

(** [struct Context] as an argument. *)
Definition context_words (c : Context) : list Z :=
  let r := cpu c in
  [edi r; esi r; ebp r; esp r; ebx r; edx r; ecx r; eax r; gs r; fs r; es r; ds r;
   eip c; cs c; eflags c; ctx_esp c; ss c; page_directory_virtual_addr c].
Definition switch_to_context : Eff Machine unit :=
  lea R_ECX 1 ;;;
  mov_esp R_ECX ;;;
  popad ;;;
  pop_reg R_GS ;;; pop_reg R_FS ;;; pop_reg R_ES ;;; pop_reg R_DS ;;;
  iret.
Definition take_frame : Eff Machine InterruptFrame := fun m => of_res (of_option BadAccess (frame_at (kstack m))) m.

Section Interrupts.
Context `{Alu}.

(** From an interrupt to the call of the C function. *)
Definition interrupted (entry top : Z) (code : option Z) (n : Z) : Eff Machine InterruptFrame :=
  deliver entry top code ;;;
  interrupt_handler n ;;;
  take_frame.
End Interrupts.

(** ** Runs *)

Ltac asm_cbn :=
  cbv -[u32 u16 Z.land Z.lor Z.ldiff Z.sub Z.add Z.eqb user_level Z.testbit expects_error_code alu_flags].
Ltac asm_step := erewrite bind_run; [| asm_cbn; reflexivity].

Lemma u32_sub_l x y : u32 (u32 x - y) = u32 (x - y).
Proof. apply (u32_add_l x (- y)). Qed.
Lemma u32_sub_add x y z : u32 (u32 x - y + z) = u32 (x - (y - z)).
Proof. replace (u32 x - y + z) with (u32 x - (y - z)) by lia. apply u32_sub_l. Qed.
(** Steps of the stack pointer taken together. *)
Ltac words :=
  repeat first [rewrite u32_sub_add | rewrite u32_sub_l | rewrite u32_add_l | rewrite <- Z.sub_add_distr | rewrite <- Z.add_assoc].

(** A selector of ring 0 in a segment register. *)
Lemma mov_ax_segment v n : 0 <= n < 2 ^ 16 -> u16 (Z.lor (Z.land v 0xFFFF0000) n) = n.
Proof.
  intros Hn. unfold u16. rewrite <- Z.land_ones by lia.
  rewrite Z.land_lor_distr_l, <- Z.land_assoc. change (Z.land 0xFFFF0000 (Z.ones 16)) with 0.
  rewrite Z.land_0_r, Z.lor_0_l, Z.land_ones by lia. by apply Z.mod_small.
Qed.

Lemma pushad_run di si bp sp b d c a g f e dd ip code fl st K :
  pushad (mkMachine (mkProcessor (mkCPU di si bp sp b d c a g f e dd) ip code fl st) K) =
  Ok (tt, mkMachine (mkProcessor (mkCPU di si bp (u32 (sp - 32)) b d c a g f e dd) ip code fl st)
            (di :: si :: bp :: sp :: b :: d :: c :: a :: K)).
Proof. unfold pushad, push_reg. do 8 asm_step. asm_cbn. by words. Qed.
Lemma popad_run r ip code fl st di si bp sp b d c a K :
  popad (mkMachine (mkProcessor r ip code fl st) (di :: si :: bp :: sp :: b :: d :: c :: a :: K)) =
  Ok (tt, mkMachine (mkProcessor (mkCPU di si bp (u32 (esp r + 32)) b d c a (gs r) (fs r) (es r) (ds r)) ip code fl st) K).
Proof. destruct r. unfold popad, pop_reg. do 7 asm_step. asm_cbn. by words. Qed.

Section Runs.
Context `{Alu}.
Implicit Types (r : CPURegister).

Lemma segment_register_setup_run di si bp sp b d cc v g f e dd ip code fl st a fl0 K :
  segment_register_setup (mkMachine (mkProcessor (mkCPU di si bp sp b d cc v g f e dd) ip code fl st) (a :: fl0 :: K)) =
  Ok (tt, mkMachine (mkProcessor
    (mkCPU di si (u32 (sp + 8)) (u32 (sp + 8)) b d cc a 0x10 0x10 0x10 0x10) ip code fl0 st) K).
Proof.
  unfold segment_register_setup, pop_reg. do 5 asm_step. rewrite !mov_ax_segment by lia.
  do 3 asm_step. asm_cbn. by words.
Qed.

(** The registers at the call of the C function. *)
Definition handler_registers r : CPURegister :=
  let a := u32 (esp r - 48) in
  mkCPU (edi r) (esi r) a a (ebx r) (edx r) (ecx r) (eax r) 0x10 0x10 0x10 0x10.

Lemma call_generic_handler_run r ip code fl st n err ip0 code0 fl0 K :
  (user_level (ds r) = true -> K <> []) ->
  call_generic_handler (mkMachine (mkProcessor r ip code fl st) (n :: err :: ip0 :: code0 :: fl0 :: K)) =
  Ok (tt, mkMachine (mkProcessor (handler_registers r) ip code fl st)
    (edi r :: esi r :: ebp r :: (if user_level (ds r) then default 0 (head K) else u32 (esp r - 16)) ::
     ebx r :: edx r :: ecx r :: eax r :: gs r :: fs r :: es r :: ds r ::
     n :: err :: ip0 :: code0 :: fl0 :: K)).
Proof.
  intros HK. destruct r as [di si bp sp b d c a g f e dd]. cbn [ds] in HK. unfold call_generic_handler, push_reg.
  do 4 asm_step. erewrite bind_run; [| apply pushad_run]. do 5 asm_step. rewrite alu_zero.
  unfold user_level in *. cbn [ds]. destruct (Z.land dd 3 =? 0).
  - asm_step. rewrite segment_register_setup_run. asm_cbn. by words.
  - destruct K as [| sp0 K]; [by destruct HK |]. asm_step. rewrite segment_register_setup_run. asm_cbn. by words.
Qed.

Lemma return_from_handler_run r ip code fl st di si bp sp b d c a g f e dd n err K :
  return_from_handler (mkMachine (mkProcessor r ip code fl st)
    (di :: si :: bp :: sp :: b :: d :: c :: a :: g :: f :: e :: dd :: n :: err :: K)) =
  iret (mkMachine (mkProcessor (mkCPU di si bp (u32 (esp r + 56)) b d c a g f e dd) ip code fl st) K).
Proof.
  unfold return_from_handler, pop_reg. erewrite bind_run; [| apply popad_run]. do 5 asm_step. by words.
Qed.
Lemma iret_user r ip code fl st ip0 code0 fl0 sp0 st0 K :
  user_level code0 = true ->
  iret (mkMachine (mkProcessor r ip code fl st) (ip0 :: code0 :: fl0 :: sp0 :: st0 :: K)) =
  Ok (tt, mkMachine (mkProcessor (put_reg R_ESP sp0 r) ip0 code0 fl0 st0) K).
Proof. intros Hu. unfold iret. do 3 asm_step. rewrite Hu. by destruct r. Qed.
Lemma iret_kernel r ip code fl st ip0 code0 fl0 K :
  user_level code0 = false ->
  iret (mkMachine (mkProcessor r ip code fl st) (ip0 :: code0 :: fl0 :: K)) =
  Ok (tt, mkMachine (mkProcessor (put_reg R_ESP (u32 (esp r + 12)) r) ip0 code0 fl0 st) K).
Proof. intros Hu. unfold iret. do 3 asm_step. rewrite Hu. destruct r. asm_cbn. by words. Qed.

(** ** Interrupts *)

(** The words the processor pushes, and where they end. *)
Definition return_words (c : Processor) (K : list Z) : list Z :=
  p_eip c :: p_cs c :: p_eflags c :: (if user_level (p_cs c) then esp (registers c) :: p_ss c :: K else K).
Definition return_esp (c : Processor) (top : Z) : Z :=
  if user_level (p_cs c) then top - 20 else esp (registers c) - 12.
(** The processor in ring 0 with the stack pointer at [a]. *)
Definition kernel_processor (c : Processor) (entry a : Z) : Processor :=
  mkProcessor (put_reg R_ESP (u32 a) (registers c)) entry GDT_KERNEL_CODE_SEGMENT_SELECTOR
    (Z.ldiff (p_eflags c) GATE_CLEARED)
    (if user_level (p_cs c) then GDT_KERNEL_DATA_SEGMENT_SELECTOR else p_ss c).

Lemma deliver_run c entry top code K :
  deliver entry top code (mkMachine c K) =
  Ok (tt, match code with
          | None => mkMachine (kernel_processor c entry (return_esp c top)) (return_words c K)
          | Some err => mkMachine (kernel_processor c entry (return_esp c top - 4)) (err :: return_words c K)
          end).
Proof.
  destruct c as [r ip cs0 fl st]. destruct r as [di si bp sp b d c a g f e dd].
  unfold deliver, kernel_processor, return_esp, return_words. asm_step. cbn [p_cs registers].
  destruct (user_level cs0); do 5 asm_step; destruct code; asm_cbn; by words.
Qed.

(** The frame of an interrupt. The stub takes [ds] for the level that was
    interrupted; of ring 0 it leaves the stack pointer that [pushad] stored. *)
Definition frame_esp (c : Processor) (top : Z) : Z :=
  if user_level (ds (registers c)) then esp (registers c) else u32 (return_esp c top - 24).
Definition frame_of (c : Processor) (top n err : Z) : InterruptFrame :=
  mkFrame (put_reg R_ESP (frame_esp c top) (registers c)) n err (p_eip c) (p_cs c) (p_eflags c).
Definition register_words (r : CPURegister) : list Z :=
  [edi r; esi r; ebp r; esp r; ebx r; edx r; ecx r; eax r; gs r; fs r; es r; ds r].
Definition handler_machine (c : Processor) (entry top n err : Z) (K : list Z) : Machine :=
  let k := kernel_processor c entry (return_esp c top - 8) in
  mkMachine
    (mkProcessor (handler_registers (registers k)) (p_eip k) (p_cs k) (p_eflags k) (p_ss k))
    (register_words (f_cpu (frame_of c top n err)) ++ n :: err :: return_words c K).

(** Ring 0 runs with selectors of ring 0. *)
Definition level_ok (c : Processor) : Prop :=
  user_level (p_cs c) = false -> user_level (ds (registers c)) = false /\ 0 <= esp (registers c) < 2 ^ 32.

Lemma interrupted_run c entry top code n K :
  level_ok c -> expects_error_code n = bool_decide (is_Some code) ->
  interrupted entry top code n (mkMachine c K) =
    Ok (frame_of c top n (default 0 code), handler_machine c entry top n (default 0 code) K).
Proof.
  intros Hlv Hn. unfold interrupted. erewrite bind_run; [| apply deliver_run].
  assert (Hstub : interrupt_handler n
      (match code with
       | None => mkMachine (kernel_processor c entry (return_esp c top)) (return_words c K)
       | Some err => mkMachine (kernel_processor c entry (return_esp c top - 4)) (err :: return_words c K)
       end) =
    call_generic_handler (mkMachine (kernel_processor c entry (return_esp c top - 8))
      (n :: default 0 code :: return_words c K))).
  { unfold kernel_processor. generalize (return_esp c top) (return_words c K). intros a L.
    destruct c as [r ip cs0 fl st]. destruct r. unfold interrupt_handler. rewrite Hn.
    destruct code; cbn [bool_decide]; asm_step; cbn [default]; by words. }
  erewrite bind_run; [| rewrite Hstub; unfold kernel_processor, return_words; apply call_generic_handler_run].
  - change (esp (put_reg R_ESP ?x ?r)) with x. change (ds (put_reg R_ESP ?x ?r)) with (ds r).
    assert (Hsp : frame_esp c top =
      if user_level (ds (registers c)) then
        default 0 (head (if user_level (p_cs c) then esp (registers c) :: p_ss c :: K else K))
      else u32 (u32 (return_esp c top - 8) - 16)).
    { unfold frame_esp. destruct (user_level (ds (registers c))) eqn:Hd; [| by words].
      destruct (user_level (p_cs c)) eqn:Hu; [done |]. destruct (Hlv Hu). congruence. }
    unfold handler_machine, frame_of. rewrite Hsp. reflexivity.
  - change (ds (put_reg R_ESP ?x ?r)) with (ds r). intros Hd. destruct (user_level (p_cs c)) eqn:Hu; [done |].
    destruct (Hlv Hu). congruence.
Qed.

(** Back from the C function, whatever it left in the registers. *)
Lemma return_run c entry top n err K r f :
  level_ok c ->
  return_from_handler (after_call r f (handler_machine c entry top n err K)) = Ok (tt, mkMachine c K).
Proof.
  intros Hlv. unfold after_call, handler_machine, register_words. cbn [kstack processor app].
  rewrite return_from_handler_run. unfold return_words. destruct (user_level (p_cs c)) eqn:Hu.
  - rewrite iret_user by done. by destruct c as [[] ? ? ? ?].
  - rewrite iret_kernel by done. destruct (Hlv Hu) as [_ Hesp]. unfold kernel_processor, return_esp. rewrite Hu.
    assert (Hsp : forall x, 0 <= x < 2 ^ 32 -> u32 (u32 (u32 (u32 (x - 12 - 8) - 48) + 56) + 12) = x)
      by (intros x Hx; words; rewrite u32_small; lia).
    destruct c as [[] ? ? ? ?]. cbn [registers Process.esp] in Hesp. asm_cbn. by rewrite Hsp.
Qed.

(** ** The switch *)

Lemma lea_mov_esp r ip code fl st w K (rest : unit -> Eff Machine unit) :
  bind (lea R_ECX 1) (fun _ => bind (mov_esp R_ECX) rest) (mkMachine (mkProcessor r ip code fl st) (w :: K)) =
  rest tt (mkMachine (mkProcessor (put_reg R_ESP (u32 (esp r + 4)) (put_reg R_ECX (u32 (esp r + 4)) r)) ip code fl st) K).
Proof.
  destruct r as [di si bp sp b d c a g f e dd]. asm_step. cbn [esp].
  assert (Hd : u32 (u32 (sp + 4) - sp) = 4) by (rewrite u32_sub_l; by replace (sp + 4 - sp) with 4 by lia).
  unfold mov_esp. unfold bind at 1. unfold bind at 1, reg at 1, gets at 1. cbn [processor registers get_reg put_reg ecx].
  unfold bind at 1, reg at 1, gets at 1. cbn [processor registers get_reg put_reg esp]. rewrite Hd.
  change (4 mod 4 =? 0) with true. change (4 / 4) with 1. unfold bind at 1, gets at 1. cbn [kstack andb].
  rewrite zlen_cons. rewrite (proj2 (Z.leb_le 1 _)) by (pose proof (zlen_nonneg K); lia). reflexivity.
Qed.
(** [process_context_switch] with the context on the stack, as C passes it. *)
Definition context_processor (ctx : Context) : Processor :=
  mkProcessor (put_reg R_ESP (ctx_esp ctx) (cpu ctx)) (eip ctx) (cs ctx) (eflags ctx) (ss ctx).
Lemma context_switch_run r ip code fl st w ctx K :
  user_level (cs ctx) = true ->
  switch_to_context (mkMachine (mkProcessor r ip code fl st) (w :: context_words ctx ++ K)) =
  Ok (tt, mkMachine (context_processor ctx) (page_directory_virtual_addr ctx :: K)).
Proof.
  intros Hu. unfold switch_to_context. rewrite lea_mov_esp. unfold context_words, context_processor. cbn [app].
  erewrite bind_run; [| apply popad_run]. unfold pop_reg. do 4 asm_step. rewrite iret_user by done.
  by destruct ctx as [[] ? ? ? ? ? ?].
Qed.

(** ** Theorems *)

(** C7. An interrupt or exception of any of the 64 vectors, in ring 3 or in ring 0:
    the stub and [call_generic_handler] give the C function the registers, the
    vector, the error code and the return address of the interrupted program - the
    stack pointer is the program's own when [ds] is a selector of ring 3, else the
    one of the kernel's stack - and when the function returns, whatever it left in
    the registers, the program goes on with every register, flag and selector as it
    was and the kernel's stack is as before. *)
Theorem interrupt_returns (c : Processor) entry top code n K
    (Hlv : level_ok c) (Hn : expects_error_code n = bool_decide (is_Some code)) :
  exists m, interrupted entry top code n (mkMachine c K) = Ok (frame_of c top n (default 0 code), m) /\
    forall r f, return_from_handler (after_call r f m) = Ok (tt, mkMachine c K).
Proof.
  exists (handler_machine c entry top n (default 0 code) K). split; [by apply interrupted_run |].
  intros r f. by apply return_run.
Qed.

(** C8. Preemption is not seen by a process. A process is interrupted by the timer,
    [timer_isr] saves the context it makes of the frame, and at some later time, from
    whatever state the kernel is in then, [process_context_switch] is given that
    context: the processor is in the state it was interrupted in, registers, flags,
    selectors and address. This holds for a process that keeps a selector of ring 3 in
    [ds]; one that clears [ds] is taken for the kernel and goes on with its stack
    pointer in the kernel's stack. *)
Theorem preempted_resumes (c : Processor) entry top n K pd
    (Hu : user_level (p_cs c) = true) (Hss : p_ss c = Z.lor 0x20 0x3) (Hn : expects_error_code n = false) :
  exists frame m, interrupted entry top None n (mkMachine c K) = Ok (frame, m) /\
    forall r ip code fl st w K', exists K'',
      switch_to_context (mkMachine (mkProcessor r ip code fl st) (w :: context_words (frame_context frame pd) ++ K')) =
        Ok (tt, mkMachine (if user_level (ds (registers c)) then c
                           else with_registers (put_reg R_ESP (u32 (top - 44)) (registers c)) c) K'').
Proof.
  exists (frame_of c top n 0), (handler_machine c entry top n 0 K).
  split; [apply (interrupted_run c entry top None); [intros Hk; congruence | done] |].
  intros r ip code fl st w K'. exists (pd :: K'). rewrite context_switch_run by done. do 3 f_equal.
  unfold context_processor, frame_of, frame_context, frame_esp, return_esp. rewrite Hu, <- Hss.
  replace (top - 20 - 24) with (top - 44) by lia.
  destruct (user_level (ds (registers c))); by destruct c as [[] ? ? ? ?].
Qed.
End Runs.
