(* ===== verification/Cmos.v ===== *)
(** Cmos: src/cmos/cmos.c - reading the real-time clock. *)

From Stdlib Require Import ZArith Lia.
From stdpp Require Import base tactics numbers list.
From S2P Require Import Prelude Pic.
#[local] Open Scope eff_scope.

Definition CURRENT_YEAR : Z := 2023.
Definition CMOS_ADDRESS : Z := 0x70.
Definition CMOS_DATA : Z := 0x71.

Record Time := mkTime {
  second : Z;
  minute : Z;
  hour : Z;
  day : Z;
  month : Z;
  year : Z
}.
#[export] Instance time_eq_dec : EqDecision Time.
Proof. solve_decision. Defined.

(** ** Conversion

    [century_register] is 0 and nothing assigns it: the branches that read the
    century are dead and [last_century] always equals [century]. *)

Definition bcd (x : Z) : Z := u32 (Z.land x 0x0F + x / 16 * 10).

(** [if (!(registerB & 0x04)) ...]: the day uses the hour just converted. *)
Definition convert_bcd (t : Time) : Time :=
  let h := Z.lor (u32 (Z.land (hour t) 0x0F + Z.land (hour t) 0x70 / 16 * 10 + 7) mod 24)
                 (Z.land (hour t) 0x80) in
  mkTime (bcd (second t)) (bcd (minute t)) h
    (u32 (bcd (day t) + (if h mod 24 =? 0 then 0 else 1))) (bcd (month t)) (bcd (year t)).

Definition convert (registerB : Z) (t : Time) : Time :=
  let t1 := if Z.land registerB 0x04 =? 0 then convert_bcd t else t in
  let h := if (Z.land registerB 0x02 =? 0) && negb (Z.land (hour t1) 0x80 =? 0)
           then u32 (Z.land (hour t1) 0x7F + 12) mod 24 else hour t1 in
  let y := u32 (year t1 + CURRENT_YEAR / 100 * 100) in
  let y := if y <? CURRENT_YEAR then u32 (y + 100) else y in
  mkTime (second t1) (minute t1) h (day t1) (month t1) y.

(** ** The clock *)

Section Cmos.
Context {W : Type} `{PortState W} `{PortMachine}.

Definition get_update_in_progress_flag : Eff W Z :=
  out CMOS_ADDRESS 0x0A ;;; v <- in_ CMOS_DATA ;; ret (Z.land v 0x80).
Definition get_RTC_register (reg : Z) : Eff W Z := out CMOS_ADDRESS reg ;;; in_ CMOS_DATA.

(** [while (get_update_in_progress_flag());] *)
Fixpoint wait_update (fuel : nat) : Eff W unit :=
  busy <- get_update_in_progress_flag ;;
  if busy =? 0 then ret tt else
  match fuel with
  | O => stop Stuck
  | S fuel' => wait_update fuel'
  end.

Definition read_registers : Eff W Time :=
  s <- get_RTC_register 0x00 ;;
  m <- get_RTC_register 0x02 ;;
  h <- get_RTC_register 0x04 ;;
  d <- get_RTC_register 0x07 ;;
  mo <- get_RTC_register 0x08 ;;
  y <- get_RTC_register 0x09 ;;
  ret (mkTime s m h d mo y).

(** The do-while: read until two readings in a row agree. *)
Fixpoint stable_reading (waits fuel : nat) (last : Time) : Eff W Time :=
  wait_update waits ;;;
  t <- read_registers ;;
  if decide (last = t) then ret t else
  match fuel with
  | O => stop Stuck
  | S fuel' => stable_reading waits fuel' t
  end.

(** [waits] bounds a wait for the clock's update, [turns] the readings. *)
Definition read_time (waits turns : nat) : Eff W Time :=
  wait_update waits ;;;
  t <- read_registers ;;
  t <- stable_reading waits turns t ;;
  registerB <- get_RTC_register 0x0B ;;
  ret (convert registerB t).

(** [put] stores a word at an address. *)
Definition read_rtc (waits turns : nat) (put : Z -> Z -> Eff W unit) (current_time : Z) : Eff W unit :=
  t <- read_time waits turns ;;
  put (current_time + 12) (day t) ;;;
  put (current_time + 8) (hour t) ;;;
  put (current_time + 4) (minute t) ;;;
  put (current_time + 16) (month t) ;;;
  put current_time (second t) ;;;
  put (current_time + 20) (year t).
End Cmos.

(** ** A clock between two updates *)

(** The register the log of writes, latest first, has selected. *)
Fixpoint cmos_index (log : list (Z * Z)) : option Z :=
  match log with
  | [] => None
  | (port, v) :: log' => if decide (port = CMOS_ADDRESS) then Some v else cmos_index log'
  end.

(** The data port reads the selected register, whose contents [clock] gives. *)
Class StableClock `{PortMachine} (clock : Z -> Z) := {
  clock_reads log r : cmos_index log = Some r -> port_in log CMOS_DATA = clock r;
  clock_byte r : is_byte (clock r)
}.

(** A clock that shows the date [t], as BCD in 24-hour mode, and is not being
    updated. *)
Definition to_bcd (x : Z) : Z := 16 * (x / 10) + x mod 10.
Record Shows (clock : Z -> Z) (t : Time) : Prop := {
  sh_idle : Z.land (clock 0x0A) 0x80 = 0;
  sh_mode : clock 0x0B = 0x02;
  sh_second : clock 0x00 = to_bcd (second t) /\ 0 <= second t < 60;
  sh_minute : clock 0x02 = to_bcd (minute t) /\ 0 <= minute t < 60;
  sh_hour : clock 0x04 = to_bcd (hour t) /\ 0 <= hour t < 24;
  sh_day : clock 0x07 = to_bcd (day t) /\ 1 <= day t <= 31;
  sh_month : clock 0x08 = to_bcd (month t) /\ 1 <= month t <= 12;
  sh_year : clock 0x09 = to_bcd (year t - 2000) /\ 2000 <= year t < 2100
}.

(** The date [read_rtc] makes of it: seven hours on, but with the day one on at
    every hour other than midnight, and years before 2023 in the next century. *)
Definition local_time (t : Time) : Time :=
  let h := (hour t + 7) mod 24 in
  mkTime (second t) (minute t) h (day t + (if h =? 0 then 0 else 1)) (month t)
    (if year t <? CURRENT_YEAR then year t + 100 else year t).

Lemma to_bcd_byte x : 0 <= x < 100 -> 0 <= to_bcd x < 2 ^ 8.
Proof.
  intros Hx. unfold to_bcd. pose proof (Z.mod_pos_bound x 10 ltac:(lia)).
  assert (0 <= x / 10 < 10) by (split; [apply Z.div_pos; lia | apply Z.div_lt_upper_bound; lia]). lia.
Qed.
Lemma to_bcd_digits x :
  0 <= x < 100 -> to_bcd x / 16 = x / 10 /\ Z.land (to_bcd x) 0x0F = x mod 10.
Proof.
  intros Hx. change 0x0F with (Z.ones 4). rewrite Z.land_ones by lia. unfold to_bcd.
  pose proof (Z.mod_pos_bound x 10 ltac:(lia)). split; symmetry.
  - apply (Z.div_unique _ _ _ (x mod 10)); lia.
  - apply (Z.mod_unique _ _ (x / 10)); lia.
Qed.
Lemma bcd_to_bcd x : 0 <= x < 100 -> bcd (to_bcd x) = x.
Proof.
  intros Hx. destruct (to_bcd_digits x Hx) as [Hq Hm]. unfold bcd. rewrite Hq, Hm.
  pose proof (Z.div_mod x 10 ltac:(lia)). rewrite u32_small; lia.
Qed.

(** In 24-hour mode the hour register never has bit 7 set. *)
Lemma hour_cases (P : Z -> Prop) h :
  0 <= h < 24 -> Forall P (seqZ 0 24) -> P h.
Proof. intros Hh Hall. rewrite Forall_forall in Hall. apply Hall, elem_of_seqZ. lia. Qed.
Lemma hour_digits h :
  0 <= h < 24 ->
  Z.lor (u32 (Z.land (to_bcd h) 0x0F + Z.land (to_bcd h) 0x70 / 16 * 10 + 7) mod 24)
    (Z.land (to_bcd h) 0x80) = (h + 7) mod 24.
Proof. intros Hh. pattern h. apply (hour_cases _ h Hh). repeat (constructor; [reflexivity |]). constructor. Qed.

Lemma convert_local t :
  0 <= second t < 60 -> 0 <= minute t < 60 -> 0 <= hour t < 24 -> 1 <= day t <= 31 ->
  1 <= month t <= 12 -> 2000 <= year t < 2100 ->
  convert 0x02 (mkTime (to_bcd (second t)) (to_bcd (minute t)) (to_bcd (hour t)) (to_bcd (day t))
                  (to_bcd (month t)) (to_bcd (year t - 2000))) = local_time t.
Proof.
  intros Hs Hm Hh Hd Hmo Hy. unfold convert, convert_bcd. cbn [second minute hour day month year].
  change (Z.land 0x02 0x04 =? 0) with true. change (Z.land 0x02 0x02 =? 0) with false. cbn [andb second minute hour day month year].
  rewrite hour_digits, !bcd_to_bcd by lia. unfold local_time.
  pose proof (Z.mod_pos_bound (hour t + 7) 24 ltac:(lia)). rewrite (Z.mod_small (_ mod 24)) by lia.
  change (CURRENT_YEAR / 100 * 100) with 2000.
  rewrite (u32_small (year t - 2000 + 2000)) by lia.
  replace (year t - 2000 + 2000) with (year t) by lia.
  rewrite (u32_small (year t + 100)) by lia. f_equal.
  rewrite u32_small; [done |]. destruct (_ =? 0); lia.
Qed.

Section Spec.
Context {W : Type} `{PortStateLaws W} `{StableClock clock}.
Implicit Types (s : W).

Definition selecting (l : list (Z * Z)) s : W := set_ports (l ++ ports s) s.

Lemma register_run {A} r l s (k : Z -> Eff W A) :
  0 <= r < 2 ^ 8 ->
  bind (get_RTC_register r) k (selecting l s) = k (clock r) (selecting ((CMOS_ADDRESS, r) :: l) s).
Proof.
  intros Hr. unfold get_RTC_register, selecting, bind at 1. rewrite out_then. unfold in_, gets.
  rewrite ports_set, (u8_small r) by done.
  change (u16 CMOS_DATA) with CMOS_DATA. change (u16 CMOS_ADDRESS) with CMOS_ADDRESS.
  rewrite (clock_reads _ r) by done. by rewrite u8_small by apply (clock_byte r).
Qed.
Lemma wait_run {A} (k : unit -> Eff W A) waits l s :
  Z.land (clock 0x0A) 0x80 = 0 ->
  bind (wait_update waits) k (selecting l s) = k tt (selecting ((CMOS_ADDRESS, 0x0A) :: l) s).
Proof.
  intros Hidle.
  assert (Hw : wait_update waits (selecting l s) = Ok (tt, selecting ((CMOS_ADDRESS, 0x0A) :: l) s)).
  { destruct waits; cbn [wait_update]; unfold get_update_in_progress_flag, selecting, bind at 1;
      rewrite out_then; unfold in_, gets, bind; rewrite ports_set;
      change (u16 CMOS_DATA) with CMOS_DATA; change (u16 CMOS_ADDRESS) with CMOS_ADDRESS;
      rewrite (clock_reads _ 0x0A), u8_small, Hidle by (apply (clock_byte 0x0A) || done); done. }
  by rewrite (bind_run _ _ _ _ _ Hw).
Qed.

Definition shown : Time :=
  mkTime (clock 0x00) (clock 0x02) (clock 0x04) (clock 0x07) (clock 0x08) (clock 0x09).
Lemma read_registers_run l s :
  exists l', read_registers (selecting l s) = Ok (shown, selecting l' s).
Proof. eexists. unfold read_registers. rewrite !register_run by done. reflexivity. Qed.

(** C39. A clock between two updates is read in two turns, and the result is its
    date with the hour moved to UTC+7. The day is one too high until 17:00 UTC and
    one too low in the hour from then: the code adds a day at every local hour but
    midnight. *)
Theorem read_rtc_spec waits turns t s (Hshows : Shows clock t) :
  exists s', read_time waits turns s =
    Ok (mkTime (second t) (minute t) ((hour t + 7) mod 24)
          (day t + (if hour t =? 17 then 0 else 1)) (month t)
          (if year t <? CURRENT_YEAR then year t + 100 else year t), s').
Proof.
  destruct Hshows as [Hidle Hmode [Hs Hsr] [Hm Hmr] [Hh Hhr] [Hd Hdr] [Hmo Hmor] [Hy Hyr]].
  replace s with (selecting [] s) by apply set_self.
  destruct (read_registers_run [(CMOS_ADDRESS, 0x0A)] s) as (l1 & Hrun1).
  destruct (read_registers_run ((CMOS_ADDRESS, 0x0A) :: l1) s) as (l2 & Hrun2).
  assert (Hstable : stable_reading waits turns shown (selecting l1 s) = Ok (shown, selecting l2 s)).
  { destruct turns; cbn [stable_reading]; rewrite wait_run by done; rewrite (bind_run _ _ _ _ _ Hrun2);
      by rewrite decide_True. }
  eexists. unfold read_time. rewrite wait_run by done. rewrite (bind_run _ _ _ _ _ Hrun1).
  rewrite (bind_run _ _ _ _ _ Hstable), register_run by done. unfold ret. do 2 f_equal.
  unfold shown. rewrite Hmode, Hs, Hm, Hh, Hd, Hmo, Hy, convert_local by done.
  unfold local_time. f_equal. pattern (hour t). apply (hour_cases _ _ Hhr).
  repeat (constructor; [reflexivity |]). constructor.
Qed.
End Spec.
