(* ===== verification/System.v ===== *)
(** System: the whole kernel - system calls and interrupt dispatch
    (src/interrupt/interrupt.c, src/interrupt/syscall_command.c) and start-up
    (src/kernel/kernel.c). *)

From Stdlib Require Import ZArith Lia.
From stdpp Require Import base tactics numbers strings list gmap fin_maps.
From S2P Require Import Prelude Memory CString Disk FatLayout Fat32 Paging Process Pic Scheduler.
From S2P Require Import Terminal Keyboard Descriptors Cmos.
#[local] Open Scope eff_scope.

(** ** State *)

(** [esp0] is the TSS's kernel stack pointer; [halted] is set by the [hlt] of the
    page fault branch, which no interrupt ends: the gate has cleared the interrupt
    flag. *)
Record System (D : Type) := mkSystem {
  kernel : Kernel D;
  kbd : KeyboardDriverState;
  gdt : list SegmentDescriptor;
  idt : list IDTGate;
  esp0 : Z;
  halted : bool
}.
Arguments mkSystem {D}.
Arguments kernel {D}.
Arguments kbd {D}.
Arguments gdt {D}.
Arguments idt {D}.
Arguments esp0 {D}.
Arguments halted {D}.

(** What the C code takes from outside its own variables: the flags of entries it
    does not initialise, the result of a function without a return, where the
    linker and the stack put the TSS, the stubs and the locals whose address
    escapes, and the number of polls the model allows a wait for the clock. *)
Class Environment := {
  env_junk : Z -> PageDirectoryEntryFlag;
  env_no_return : Z;
  env_tss : Z;
  env_isr_stub_table : Z -> Z;
  env_ebp : Z;
  env_buff : Z;
  env_attr : Z;
  env_waits : nat;
  env_turns : nat
}.

Section System.
Context {D : Type} `{BlockDevice D} `{Layout} `{PortMachine} `{Environment}.
Implicit Types (s : System D).

Definition set_kernel (k : Kernel D) s : System D :=
  mkSystem k (kbd s) (gdt s) (idt s) (esp0 s) (halted s).
Definition set_tables (g : list SegmentDescriptor) (i : list IDTGate) s : System D :=
  mkSystem (kernel s) (kbd s) g i (esp0 s) (halted s).
Definition set_esp0 (a : Z) s : System D :=
  mkSystem (kernel s) (kbd s) (gdt s) (idt s) a (halted s).
Definition set_halted s : System D :=
  mkSystem (kernel s) (kbd s) (gdt s) (idt s) (esp0 s) true.

#[export] Instance system_ports : PortState (System D) := {|
  ports s := ports (kernel s);
  set_ports l s := set_kernel (set_ports l (kernel s)) s
|}.
#[export] Instance system_keyboard : KeyboardState (System D) := {|
  keyboard s := kbd s;
  set_keyboard k s := mkSystem (kernel s) k (gdt s) (idt s) (esp0 s) (halted s)
|}.

(** Calls into the kernel's parts, and access to memory through the active page
    directory. *)
Definition on_kernel {A : Type} (c : Eff (Kernel D) A) : Eff (System D) A :=
  fun s => match c (kernel s) with
           | Ok (a, k) => Ok (a, set_kernel k s)
           | Fault e => Fault e
           end.
Definition kernel_memory {A : Type} (c : Eff PagedMemory A) : Eff (Kernel D) A :=
  fun k => match c (umem (fsys k)) with
           | Ok (a, m) => Ok (a, set_fsys (set_umem m (fsys k)) k)
           | Fault e => Fault e
           end.
Definition on_memory {A : Type} (c : Eff PagedMemory A) : Eff (System D) A :=
  on_kernel (kernel_memory c).

Definition store_all (a : Z) (bs : list Z) : Eff PagedMemory unit :=
  fun m => match store_bytes a bs m with Ok m' => Ok (tt, m') | Fault e => Fault e end.
Definition load_all (a n : Z) : Eff PagedMemory (list Z) :=
  fun m => of_res (load_bytes (Z.to_nat n) a m) m.

(** ** ps *)

Definition state_text (x : PROCESS_STATE) : list Z :=
  match x with
  | PROCESS_RUNNING => str "PROCESS_RUNNING" ++ [0]
  | PROCESS_READY => str "PROCESS_READY" ++ [0]
  | PROCESS_TERMINATED => str "PROCESS_TERMINATED" ++ [0]
  end.

(** [while (pid != 0) { buff[j] = pid % 10 + '0'; pid /= 10; }]: [j] stays. A
    32-bit pid has at most ten digits. *)
Fixpoint pid_digits (fuel : nat) (j the_pid : Z) (buff : list Z) : list Z :=
  if the_pid =? 0 then buff else
  match fuel with
  | O => buff
  | S fuel' => pid_digits fuel' j (the_pid / 10) buff.[j := u8 (the_pid mod 10 + 48)]
  end.
Definition PID_DIGITS : nat := 10.

(** [buff] up to the count that is printed; the rest of the 100 bytes is not. *)
Definition process_line (p : ProcessControlBlock) : list Z :=
  let buff := zrep 32 32 in
  let buff := if pid p =? 0 then buff.[3 := 48] else buff in
  let buff := pid_digits PID_DIGITS 3 (pid p) buff in
  let buff := zsplice 5 (ztake 8 (pcb_name p)) buff in
  let buff := foldl (fun b j => if znth 0 b j =? 0 then b.[j := 32] else b) buff (seqZ 5 9) in
  let buff := zsplice 13 (state_text (state p)) buff in
  ztake (13 + zlen (state_text (state p))) buff.

Definition list_process (cursor_position i : Z) : Eff (Kernel D) unit :=
  u <- gets process_used ;;
  l <- gets process_list ;;
  if znth false u i then
    let line := process_line (znth zero_pcb l i) in
    kernel_memory (
      store_all env_buff line ;;;
      store32 env_attr (zlen line) ;;;
      store32 (env_attr + 4) 0xf ;;;
      puts env_buff env_attr cursor_position ;;;
      row <- load_i32 (cp_row cursor_position) ;;
      store32 (cp_row cursor_position) (row + 1) ;;;
      store32 (cp_col cursor_position) 0)
  else ret tt.
Definition list_all_process (cursor_position : Z) : Eff (Kernel D) Z :=
  foldr (fun i k => list_process cursor_position i ;;; k) (ret env_no_return)
    (seqZ 0 PROCESS_COUNT_MAX).

(** ** System calls *)

(** [*(struct FAT32DriverRequest* ) a], packed. *)
Definition decode_request (bs : list Z) : FAT32DriverRequest :=
  mkRequest (le_val (zslice 0 4 bs)) (zslice 4 8 bs) (zslice 12 3 bs)
    (le_val (zslice 15 4 bs)) (le_val (zslice 19 4 bs)).
Definition REQUEST_SIZE : Z := 23.
Definition load_request (a : Z) : Eff (System D) FAT32DriverRequest :=
  bs <- on_memory (load_all a REQUEST_SIZE) ;; ret (decode_request bs).

(** [*((int8_t* ) a) = v] *)
Definition store_result (a v : Z) : Eff (System D) unit := on_memory (store_char a (u8 v)).

Definition move_text_cursor (row col cursor_color : Z) : Eff (System D) Z :=
  framebuffer_set_cursor (u16 row) (u16 col) ;;;
  on_memory (framebuffer_write (u16 row) (u16 col) 32 cursor_color 0x0) ;;;
  ret 0.

Definition syscall (frame : InterruptFrame) : Eff (System D) unit :=
  let n := eax (f_cpu frame) in
  let b := ebx (f_cpu frame) in
  let c := ecx (f_cpu frame) in
  let d := edx (f_cpu frame) in
  if n =? 0 then
    request <- load_request b ;; r <- on_kernel (on_fs (read request)) ;; store_result c r
  else if n =? 1 then
    request <- load_request b ;; r <- on_kernel (on_fs (read_directory request)) ;; store_result c r
  else if n =? 2 then
    request <- load_request b ;; r <- on_kernel (on_fs (write request)) ;; store_result c r
  else if n =? 3 then
    request <- load_request b ;; r <- on_kernel (on_fs (delete request)) ;; store_result c r
  else if n =? 4 then get_keyboard_buffer (fun v => on_memory (store_char b v))
  else if n =? 5 then on_memory (putchar b c d) ;;; ret tt
  else if n =? 6 then on_memory (puts b c d) ;;; ret tt
  else if n =? 7 then keyboard_state_activate
  else if n =? 8 then move_text_cursor b c d ;;; ret tt
  else if n =? 9 then on_memory clear_screen ;;; ret tt
  else if n =? 10 then
    pos <- get_cursor_position ;;
    on_memory (store_all b (le_bytes 2 (u16 pos)))
  else if n =? 11 then
    request <- load_request b ;; r <- on_kernel (process_create_user_process request) ;; store_result c r
  else if n =? 12 then r <- on_kernel (list_all_process b) ;; store_result c r
  else if n =? 13 then on_kernel (process_destroy env_junk b) ;;; ret tt
  else if n =? 14 then
    read_rtc env_waits env_turns (fun a v => on_memory (store32 a v)) b
  else if n =? 15 then
    nm <- on_memory (load_all b 8) ;;
    on_kernel (process_create_user_process (mkRequest 0 nm (zrep 3 0) c 0x100000)) ;;;
    ret tt
  else ret tt.

(** ** Interrupts *)

Definition PAGE_FAULT : Z := 0xE.

Definition main_interrupt_handler (frame : InterruptFrame) : Eff (System D) unit :=
  let n := int_number frame in
  if n =? PAGE_FAULT then modify set_halted
  else if n =? PIC1_OFFSET + IRQ_KEYBOARD then keyboard_isr
  else if n =? PIC1_OFFSET + IRQ_TIMER then on_kernel (timer_isr frame)
  else if n =? 0x30 then syscall frame
  else on_memory (framebuffer_write 40 0 n 0xf 0x0).

(** ** Start-up *)

Definition set_tss_kernel_current_stack : Eff (System D) unit := modify (set_esp0 (u32 (env_ebp + 8))).

(** The request for the shell. *)
Definition shell_request : FAT32DriverRequest :=
  mkRequest 0 (str "shell" ++ zrep 3 0) (zrep 3 0) ROOT_CLUSTER_NUMBER 0x100000.

(** [load_gdt], [lidt] and [ltr] tell the processor where the tables are; the
    tables are the ones of the state. *)
Definition setup_devices : Eff (System D) unit :=
  pic_remap ;;;
  modify (fun s => set_tables (gdt s) (initialize_idt env_isr_stub_table (idt s)) s) ;;;
  activate_keyboard_interrupt ;;;
  on_memory framebuffer_clear ;;;
  on_memory (framebuffer_write 0 0 32 0xF 0) ;;;
  framebuffer_set_cursor 0 0.
Definition setup_shell : Eff (System D) unit :=
  on_kernel (on_fs initialize_filesystem_fat32) ;;;
  modify (fun s => set_tables (gdt_install_tss env_tss (gdt s)) (idt s) s) ;;;
  on_kernel (on_paging (paging_allocate_user_page_frame kernel_directory_addr 0)) ;;;
  set_tss_kernel_current_stack ;;;
  on_kernel (process_create_user_process shell_request) ;;;
  on_kernel scheduler_init ;;;
  on_kernel scheduler_switch_to_next_process.
Definition kernel_setup : Eff (System D) unit := setup_devices ;;; setup_shell.

(** The kernel's variables as the boot loader leaves them. *)
Definition boot_kernel_state (fs : FS D PagedMemory) : Kernel D :=
  mkKernel fs (zrep PROCESS_COUNT_MAX zero_pcb) (zrep PROCESS_COUNT_MAX false) 0 0 0 [] None.
Definition boot_system (d : D) (physical : gmap Z Z) : System D :=
  mkSystem (boot_kernel_state (mkFS d boot_driver_state (mkPaged boot_paging physical) []))
    boot_keyboard global_descriptor_table interrupt_descriptor_table 0 false.
End System.
