(* ===== verification/Shell.v ===== *)
(** Shell: the user's shell and its commands (src/user_mode/user-shell.c,
    src/user_mode/command_list/). The kernel is an interface of system calls. *)

From Stdlib Require Import ZArith Lia.
From stdpp Require Import base tactics numbers strings list.
From S2P Require Import Prelude Memory CString Disk FatLayout Fat32.
#[local] Open Scope eff_scope.

Definition DEFAULT_ARGS_COUNT : Z := 10.
Definition BIOS_LIGHT_GRAY : Z := 0x7.
Definition BIOS_LIGHT_BLUE : Z := 0x9.
Definition BIOS_LIGHT_GREEN : Z := 0xA.
Definition BIOS_LIGHT_RED : Z := 0xC.
Definition BIOS_WHITE : Z := 0xF.

(** ** Data *)

Record CP := mkCP { row_of : Z; col_of : Z }.

(** [char info[8]; char ext[3]; uint32_t len_info; uint8_t len_ext] *)
Record Arg := mkArg { info : list Z; arg_ext : list Z; len_info : Z; len_ext : Z }.
Definition zero_arg : Arg := mkArg (zrep 8 0) (zrep 3 0) 0 0.

(** [char info[2048]; uint32_t len_info; uint32_t argument_neff] *)
Record CommandStruct := mkCommand { line : list Z; line_len : Z; argument_neff : Z }.
Definition COMMAND_SIZE : Z := 2048.
Definition zero_command : CommandStruct := mkCommand (zrep COMMAND_SIZE 0) 0 0.
Definition zero_args : list Arg := zrep DEFAULT_ARGS_COUNT zero_arg.

(** [Arg path[10]; uint32_t neff] *)
Record CurrentWorkingDirectory := mkCWD { path : list Arg; neff : Z }.

(** ** The kernel as the shell sees it

    [sys_read] and [sys_read_directory] take the array at the request's [buf] and
    give the code and the array after the call; [sys_write] takes the bytes at
    [buf]. Calls that print move the cursor whose address they are given. *)
Class ShellKernel (K : Type) := {
  sys_read : FAT32DriverRequest -> list Z -> K -> Res (Z * list Z * K);
  sys_read_directory : FAT32DriverRequest -> list Z -> K -> Res (Z * list Z * K);
  sys_write : FAT32DriverRequest -> list Z -> K -> Res (Z * K);
  sys_delete : FAT32DriverRequest -> K -> Res (Z * K);
  sys_getchar : K -> Z * K;
  sys_putchar : Z -> Z -> CP -> K -> CP * K;
  sys_puts : list Z -> Z -> CP -> K -> CP * K;
  sys_keyboard_on : K -> K;
  sys_move_cursor : Z -> Z -> Z -> K -> K;
  sys_clear : K -> K;
  sys_ps : CP -> K -> CP * K;
  sys_kill : Z -> K -> K;
  sys_exec : list Z -> Z -> K -> K
}.

(** What the C code takes from outside its variables: the byte at address 0, the
    three bytes behind the literal ["root"], a character variable nothing
    initialises, what a stack buffer holds, and how many polls of the keyboard the
    model allows a line. *)
Class ShellEnvironment := {
  byte_at_0 : Z;
  after_root : list Z;
  first_buf : Z;
  stack_junk : Z -> list Z;
  key_polls : nat
}.

(** [memcpy(dest, src, n)] on arrays, from their starts. *)
Definition array_copy (dest src : list Z) (n : Z) : Res (list Z) :=
  if decide (0 <= n <= zlen dest /\ n <= zlen src) then Ok (ztake n src ++ zdrop n dest)
  else Fault BadAccess.

(** [memcmp(s1, s2, n)] on arrays. *)
Definition array_cmp (s1 s2 : list Z) (n : Z) : Res Z := memcmp (array_ptr s1) (array_ptr s2) n.

Record Shell (K : Type) := mkShell {
  kern : K;
  cursor_position : CP;
  current_dir : list FAT32DirectoryEntry;
  current_working_directory : CurrentWorkingDirectory
}.
Arguments mkShell {K}.
Arguments kern {K}.
Arguments cursor_position {K}.
Arguments current_dir {K}.
Arguments current_working_directory {K}.

(** ** Arguments

    The three inner loops of [get_command]'s parsing; [i] is the index, [buf] the
    character read last, [first] the first space. *)
Fixpoint find_space (fuel : nat) (l : list Z) (len i buf : Z) (first : option Z)
  : Res (Z * Z * option Z) :=
  if len <=? i then Ok (i, buf, first) else
  match fuel with
  | O => Fault Stuck
  | S fuel' =>
    res_bind (of_option BadAccess l.[i]) (fun c =>
    if c =? 32 then Ok (i, c, if first is Some _ then first else Some i)
    else find_space fuel' l len (i + 1) c first)
  end.

Fixpoint skip_spaces (fuel : nat) (l : list Z) (len i buf : Z) (is_args : bool)
  : Res (Z * Z * bool) :=
  if negb (buf =? 32) || (len <=? i) then Ok (i, buf, is_args) else
  match fuel with
  | O => Fault Stuck
  | S fuel' =>
    res_bind (of_option BadAccess l.[i]) (fun c =>
    if negb (c =? 32) then Ok (i, c, true) else skip_spaces fuel' l len (i + 1) c true)
  end.

(** [arg->info[arg->len_info] = c; arg->len_info++] *)
Definition arg_append (c : Z) (a : Arg) : Res Arg :=
  if decide (0 <= len_info a < zlen (info a))
  then Ok (mkArg (info a).[len_info a := c] (arg_ext a) (len_info a + 1) (len_ext a))
  else Fault BadAccess.

Fixpoint take_arg (fuel : nat) (l : list Z) (len i buf n : Z) (args : list Arg)
  : Res (Z * Z * list Arg) :=
  if (buf =? 32) || (buf =? 0) || (len <=? i) then Ok (i, buf, args) else
  match fuel with
  | O => Fault Stuck
  | S fuel' =>
    res_bind (of_option BadAccess args.[n]) (fun a =>
    res_bind (arg_append buf a) (fun a' =>
    res_bind (of_option BadAccess l.[i + 1]) (fun c =>
    take_arg fuel' l len (i + 1) c n args.[n := a'])))
  end.

(** One round per word. The loops advance [i], which [len] bounds. *)
Fixpoint parse_words (rounds : nat) (l : list Z) (len i buf n : Z) (first : option Z) (args : list Arg)
  : Res (Z * Z * option Z * list Arg) :=
  if len <=? i then Ok (i, n, first, args) else
  match rounds with
  | O => Fault Stuck
  | S rounds' =>
    let fuel := S (Z.to_nat len) in
    res_bind (find_space fuel l len i buf first) (fun '(i, buf, first) =>
    res_bind (skip_spaces fuel l len i buf false) (fun '(i, buf, is_args) =>
    res_bind (take_arg fuel l len i buf n args) (fun '(i, buf, args) =>
    parse_words rounds' l len i buf (if is_args then n + 1 else n) first args)))
  end.

(** The command word's length and the arguments. *)
Definition parse_command (c : CommandStruct) (args : list Arg) : Res (CommandStruct * list Arg) :=
  res_bind (parse_words (S (Z.to_nat (line_len c))) (line c) (line_len c) 0 0 (argument_neff c) None args)
    (fun '(i, n, first, args) =>
     Ok (mkCommand (line c) (default i first) n, args)).

Section Shell.
Context {K : Type} `{ShellKernel K} `{ShellEnvironment}.
Implicit Types (s : Shell K).

Definition set_kern (k : K) s : Shell K :=
  mkShell k (cursor_position s) (current_dir s) (current_working_directory s).
Definition set_cursor (p : CP) s : Shell K :=
  mkShell (kern s) p (current_dir s) (current_working_directory s).
Definition set_dir (t : list FAT32DirectoryEntry) s : Shell K :=
  mkShell (kern s) (cursor_position s) t (current_working_directory s).
Definition set_cwd (w : CurrentWorkingDirectory) s : Shell K :=
  mkShell (kern s) (cursor_position s) (current_dir s) w.

(** ** System calls *)

Definition call_code (c : K -> Res (Z * K)) : Eff (Shell K) Z :=
  fun s => match c (kern s) with
           | Ok (r, k) => Ok (r, set_kern k s)
           | Fault e => Fault e
           end.
Definition call_bytes (c : K -> Res (Z * list Z * K)) : Eff (Shell K) (Z * list Z) :=
  fun s => match c (kern s) with
           | Ok (r, bs, k) => Ok (r, bs, set_kern k s)
           | Fault e => Fault e
           end.
Definition call_unit (c : K -> K) : Eff (Shell K) unit := modify (fun s => set_kern (c (kern s)) s).
Definition call_print (c : CP -> K -> CP * K) : Eff (Shell K) unit :=
  modify (fun s => let '(p, k) := c (cursor_position s) (kern s) in set_cursor p (set_kern k s)).

Definition puts (text : list Z) (color : Z) : Eff (Shell K) unit := call_print (sys_puts text color).
Definition putchar (c color : Z) : Eff (Shell K) unit := call_print (sys_putchar c color).
Definition add_col (n : Z) : Eff (Shell K) unit :=
  modify (fun s => set_cursor (mkCP (row_of (cursor_position s)) (col_of (cursor_position s) + n)) s).
(** [cursor_position.col = 0; cursor_position.row++] *)
Definition new_line : Eff (Shell K) unit :=
  modify (fun s => set_cursor (mkCP (row_of (cursor_position s) + 1) 0) s).
Definition home : Eff (Shell K) unit := modify (set_cursor (mkCP 0 0)).
Definition move_to_cursor : Eff (Shell K) unit :=
  p <- gets cursor_position ;; call_unit (sys_move_cursor (row_of p) (col_of p) BIOS_WHITE).

(** ** Helpers *)

Definition get_entry_row (argument : Arg) : Eff (Shell K) Z :=
  t <- gets current_dir ;;
  ret match for_find 2 64 (fun i => mem_eq (name (row t i)) (info argument) 8 &&
                                    mem_eq (ext (row t i)) (arg_ext argument) 3) with
      | Some i => i
      | None => u32 (-1)
      end.
Definition get_cluster_number : Eff (Shell K) Z := gets (fun s => entry_cluster (row (current_dir s) 0)).
Definition get_cluster_number_self (e : FAT32DirectoryEntry) : Z := entry_cluster e.

(** [memcpy(request.name, argument->info, argument->len_info)] over zeros. *)
Definition name_of (argument : Arg) : Eff (Shell K) (list Z) :=
  of_res (array_copy (zrep 8 0) (info argument) (len_info argument)).
Definition ext_of (from : list Z) (n : Z) : Eff (Shell K) (list Z) :=
  of_res (array_copy (zrep 3 0) from n).

(** ** Reading a line *)

Definition handle_keyboard_input (c : Z) : Eff (Shell K) unit :=
  (if c =? 8 then
     p <- gets cursor_position ;;
     if 3 <? col_of p then add_col (-1) ;;; putchar byte_at_0 BIOS_WHITE else ret tt
   else putchar c BIOS_WHITE ;;; add_col 1) ;;;
  move_to_cursor.

Definition store_key (c : Z) (cmd : CommandStruct) : Res CommandStruct :=
  let n := line_len cmd in
  if c =? 8 then
    if 0 <? n then
      if decide (n < zlen (line cmd)) then Ok (mkCommand (line cmd).[n := 0] (n - 1) (argument_neff cmd))
      else Fault BadAccess
    else Ok cmd
  else if decide (n < zlen (line cmd)) then Ok (mkCommand (line cmd).[n := c] (n + 1) (argument_neff cmd))
  else Fault BadAccess.

(** [while (buf != '\n')], a poll of the keyboard a round. *)
Fixpoint read_keys (fuel : nat) (buf : Z) (cmd : CommandStruct) : Eff (Shell K) CommandStruct :=
  if buf =? 10 then ret cmd else
  match fuel with
  | O => stop Stuck
  | S fuel' =>
    c <- (fun s => let '(c, k) := sys_getchar (kern s) in Ok (c, set_kern k s)) ;;
    if negb (c =? 0) && negb (c =? 10) then
      handle_keyboard_input c ;;;
      cmd' <- of_res (store_key c cmd) ;;
      read_keys fuel' c cmd'
    else read_keys fuel' c cmd
  end.

Definition get_command (cmd : CommandStruct) (args : list Arg) : Eff (Shell K) (CommandStruct * list Arg) :=
  cmd <- read_keys key_polls first_buf cmd ;;
  r <- of_res (parse_command cmd args) ;;
  new_line ;;;
  ret r.

(** ** The prompt *)

Definition arg_text (a : Arg) : Res (list Z) :=
  if decide (0 <= len_info a <= zlen (info a)) then Ok (ztake (len_info a) (info a)) else Fault BadAccess.
Fixpoint path_text (l : list Arg) : Res (list Z) :=
  match l with
  | [] => Ok []
  | a :: l' => res_bind (arg_text a) (fun t => res_bind (path_text l') (fun r => Ok (t ++ [47] ++ r)))
  end.
(** The text without its last slash; with no component the count is -1. *)
Definition prompt_path (w : CurrentWorkingDirectory) : Res (list Z) :=
  if decide (0 < neff w <= zlen (path w))
  then res_bind (path_text (ztake (neff w) (path w))) (fun t => Ok (ztake (zlen t - 1) t))
  else Fault BadAccess.

Definition print_template : Eff (Shell K) unit :=
  puts (str "Moggers@OS-IF2230") BIOS_LIGHT_GREEN ;;;
  puts (str ":") BIOS_WHITE ;;;
  w <- gets current_working_directory ;;
  text <- of_res (prompt_path w) ;;
  puts text BIOS_LIGHT_RED ;;;
  new_line ;;;
  puts (str ":$ ") BIOS_LIGHT_GRAY ;;;
  move_to_cursor.

Definition not_found_text : list Z := str " : command not found" ++ [0].
Definition print_unknown (command : list Z) (size : Z) : Eff (Shell K) unit :=
  puts (ztake size command) BIOS_WHITE ;;;
  if size + zlen not_found_text <=? 2048
  then puts not_found_text BIOS_LIGHT_RED ;;; new_line
  else stop BadAccess.

(** ** Commands on the current directory *)

(** [current_dir.dir_table_buf.table[i]]; index -1 is the last 32 bytes of the
    allocation table in front of it, which the shell keeps zero. *)
Definition table_row (t : list FAT32DirectoryEntry) (i : Z) : FAT32DirectoryEntry :=
  if i =? u32 (-1) then empty_entry else row t i.

(** [memset(&current_dir, 0)], then the directory's table. *)
Definition read_current_dir (request : FAT32DriverRequest) : Eff (Shell K) unit :=
  r <- call_bytes (sys_read_directory request (zrep CLUSTER_SIZE 0)) ;;
  modify (set_dir (decode_table r.2)).

Definition clusters_of (e : FAT32DirectoryEntry) : Z :=
  let n := filesize e / CLUSTER_SIZE in
  if filesize e mod CLUSTER_SIZE =? 0 then n else n + 1.

(** [while (buf != 0x0)] over the buffer. *)
Fixpoint print_file (l : list Z) : Eff (Shell K) unit :=
  match l with
  | [] => stop BadAccess
  | c :: l' =>
    if c =? 0 then ret tt else
    (if c =? 10 then new_line else putchar c BIOS_WHITE ;;; add_col 1) ;;;
    print_file l'
  end.

(** [retcode] is a word nothing initialises, of which the kernel writes the low
    byte. *)
Definition cat_code (junk code : Z) : Z := 256 * (u32 junk / 256) + u8 code.

Definition cat (retcode : Z) (argument : Arg) : Eff (Shell K) unit :=
  i <- get_entry_row argument ;;
  t <- gets current_dir ;;
  let cluster_needed := clusters_of (table_row t i) in
  if 1 <? cluster_needed then stop BadAccess else
  let cl := if cluster_needed =? 1 then zrep CLUSTER_SIZE 0 else stack_junk CLUSTER_SIZE in
  p <- get_cluster_number ;;
  nm <- name_of argument ;;
  ex <- ext_of (arg_ext argument) (len_ext argument) ;;
  r <- call_bytes (sys_read (mkRequest 0 nm ex p CLUSTER_SIZE) cl) ;;
  (if cat_code retcode r.1 =? 0 then print_file r.2 else ret tt) ;;;
  new_line.

Definition ls_row (e : FAT32DirectoryEntry) : Eff (Shell K) unit :=
  if user_attribute e =? UATTR_NOT_EMPTY then
    puts (name e) (if attribute e =? ATTR_SUBDIRECTORY then BIOS_LIGHT_BLUE else BIOS_WHITE) ;;;
    new_line
  else ret tt.
Definition ls : Eff (Shell K) unit :=
  t <- gets current_dir ;;
  foldr (fun i k => ls_row (row t i) ;;; k) (ret tt) (seqZ 0 64).

Definition mkdir (argument : Arg) : Eff (Shell K) unit :=
  p <- get_cluster_number ;;
  nm <- name_of argument ;;
  ex <- ext_of (info argument) (len_ext argument) ;;
  call_code (sys_write (mkRequest 0 nm ex p 0) []) ;;;
  ret tt.

Definition rm (argument : Arg) : Eff (Shell K) unit :=
  p <- get_cluster_number ;;
  nm <- name_of argument ;;
  ex <- ext_of (info argument) (len_ext argument) ;;
  call_code (sys_delete (mkRequest 0 nm ex p 0)) ;;;
  ret tt.

(** What a write finds at [buf]: the array and what is behind it on the stack. *)
Definition at_buf (cl : list Z) : list Z := ztake CLUSTER_SIZE (cl ++ stack_junk CLUSTER_SIZE).

(** [mv] and [cp]; [keep] is whether the source stays. Their arrays differ: [mv]
    has as many clusters as the file, [cp] has one. *)
Definition transfer (keep : bool) (cl : list Z) (argument1 argument2 : Arg) : Eff (Shell K) unit :=
  p <- get_cluster_number ;;
  nm <- name_of argument1 ;;
  entry_row <- get_entry_row argument2 ;;
  t <- gets current_dir ;;
  let source := mkRequest 0 nm (zrep 3 0) p CLUSTER_SIZE in
  if entry_row =? u32 (-1) then
    r <- call_bytes (sys_read source cl) ;;
    (if keep : bool then ret 0 else call_code (sys_delete source)) ;;;
    call_code (sys_write (mkRequest 0 (ztake 8 (info argument2)) (zrep 3 0) p CLUSTER_SIZE) (at_buf r.2)) ;;;
    ret tt
  else if attribute (table_row t entry_row) =? ATTR_SUBDIRECTORY then
    r <- call_bytes (sys_read source cl) ;;
    (if keep : bool then ret 0 else call_code (sys_delete source)) ;;;
    let target := get_cluster_number_self (table_row t entry_row) in
    call_code (sys_write (mkRequest 0 nm (zrep 3 0) target CLUSTER_SIZE) (at_buf r.2)) ;;;
    ret tt
  else ret tt.

Definition mv (argument1 argument2 : Arg) : Eff (Shell K) unit :=
  i <- get_entry_row argument1 ;;
  t <- gets current_dir ;;
  transfer false (zrep (CLUSTER_SIZE * clusters_of (table_row t i)) 0) argument1 argument2.
Definition cp (argument1 argument2 : Arg) : Eff (Shell K) unit :=
  i <- get_entry_row argument1 ;;
  t <- gets current_dir ;;
  let cluster_needed := clusters_of (table_row t i) in
  if 1 <? cluster_needed then stop BadAccess else
  transfer true (if cluster_needed =? 1 then zrep CLUSTER_SIZE 0 else stack_junk CLUSTER_SIZE) argument1 argument2.

(** ** The current directory *)

Definition directory_request (nm : list Z) (p : Z) : FAT32DriverRequest :=
  mkRequest 0 nm (zrep 3 0) p CLUSTER_SIZE.

(** [path[i]] of the path, for an [i] in range. *)
Definition path_at (w : CurrentWorkingDirectory) (i : Z) : Res Arg := of_option BadAccess (path w).[i].
Definition set_path (i : Z) (a : Arg) (n : Z) (w : CurrentWorkingDirectory) : CurrentWorkingDirectory :=
  mkCWD (path w).[i := a] n.
Definition set_info (l : list Z) (a : Arg) : Arg := mkArg l (arg_ext a) (len_info a) (len_ext a).
Definition set_len_info (n : Z) (a : Arg) : Arg := mkArg (info a) (arg_ext a) n (len_ext a).

Definition root_text : list Z := str "root".

(** Leaving a directory: the last component goes, unless it is the root. *)
Definition path_up (w : CurrentWorkingDirectory) : Res CurrentWorkingDirectory :=
  res_bind (path_at w (neff w - 1)) (fun a =>
  res_bind (array_cmp (info a) root_text 4) (fun r =>
  if negb (r =? 0) then Ok (set_path (neff w - 1) zero_arg (neff w - 1) w) else Ok w)).
(** Entering one. *)
Definition path_down (argument : Arg) (w : CurrentWorkingDirectory) : Res CurrentWorkingDirectory :=
  res_bind (path_at w (neff w)) (fun a =>
  res_bind (array_copy (info a) (info argument) 8) (fun l =>
  Ok (set_path (neff w) (set_info l (set_len_info (len_info argument) a)) (neff w + 1) w))).

(** A directory of the table, with or without the name. *)
Definition is_folder_row (e : FAT32DirectoryEntry) : bool :=
  (user_attribute e =? UATTR_NOT_EMPTY) && (attribute e =? ATTR_SUBDIRECTORY).

Definition of_path (f : CurrentWorkingDirectory -> Res CurrentWorkingDirectory) : Eff (Shell K) unit :=
  w <- gets current_working_directory ;; w' <- of_res (f w) ;; modify (set_cwd w').

Definition cd (argument : Arg) : Eff (Shell K) unit :=
  p <- get_cluster_number ;;
  nm <- name_of argument ;;
  t <- gets current_dir ;;
  match for_find 0 64 (fun i => is_folder_row (row t i) && mem_eq (name (row t i)) nm 8) with
  | None => ret tt
  | Some _ =>
    read_current_dir (directory_request nm p) ;;;
    up <- of_res (array_cmp (info argument) (str ".." ++ [0]) 3) ;;
    if up =? 0 then of_path path_up else
    t <- gets current_dir ;;
    match for_find 0 64 (fun i => is_folder_row (row t i) && negb (mem_eq (name (row t i)) (info argument) 8)) with
    | None => ret tt
    | Some _ => of_path (path_down argument)
    end
  end.

Definition cd_root : Eff (Shell K) unit :=
  read_current_dir (directory_request (root_text ++ zrep 4 0) 2) ;;;
  of_path (fun w =>
    res_bind (path_at w (neff w)) (fun a =>
    res_bind (array_copy (info a) (root_text ++ [0] ++ after_root) 8) (fun l =>
    Ok (set_path (neff w) (set_info l (set_len_info 4 a)) (neff w + 1) w)))).

Definition cd_refresh : Eff (Shell K) unit :=
  t <- gets current_dir ;;
  p <- get_cluster_number ;;
  read_current_dir (directory_request (name (row t 0)) p).

(** ** find

    The directories below the current one, depth first; [fuel] bounds the depth. *)
Fixpoint find_recursive (fuel : nat) (path_result : CurrentWorkingDirectory)
    (dtable : list FAT32DirectoryEntry) (target : Arg) : Eff (Shell K) (option CurrentWorkingDirectory) :=
  match fuel with
  | O => stop Stuck
  | S fuel' =>
    foldr (fun i k =>
      let e := row dtable i in
      if negb (user_attribute e =? UATTR_NOT_EMPTY) then k else
      if mem_eq (name e) (info target) 8 && mem_eq (ext e) (arg_ext target) 3 then ret (Some path_result)
      else if attribute e =? ATTR_SUBDIRECTORY then
        r <- call_bytes (sys_read_directory (directory_request (name e) (get_cluster_number_self e))
               (stack_junk CLUSTER_SIZE)) ;;
        a <- of_res (path_at path_result (neff path_result)) ;;
        let to_passed := set_path (neff path_result) (mkArg (name e) (ext e) 8 3) (neff path_result + 1) path_result in
        res <- find_recursive fuel' to_passed (decode_table r.2) target ;;
        if res is Some w then ret (Some w) else k
      else k) (ret None) (seqZ 2 62)
  end.

(** The characters in front of the first zero; those of a name that fills its
    array are followed by the extension's. *)
Fixpoint until_zero (l : list Z) : Res (list Z) :=
  match l with
  | [] => Fault BadAccess
  | c :: l' => if c =? 0 then Ok [] else res_bind (until_zero l') (fun r => Ok (c :: r))
  end.
Definition arg_string (a : Arg) : Res (list Z) := until_zero (info a ++ arg_ext a).
Fixpoint find_text (l : list Arg) (argument : Arg) : Res (list Z) :=
  match l with
  | [] => arg_string argument
  | a :: l' => res_bind (arg_string a) (fun t => res_bind (find_text l' argument) (fun r => Ok (t ++ [47] ++ r)))
  end.
(** A path has room for ten components. *)
Definition FIND_DEPTH : nat := 11.
Definition find (argument : Arg) : Eff (Shell K) unit :=
  w <- gets current_working_directory ;;
  t <- gets current_dir ;;
  res <- find_recursive FIND_DEPTH w t argument ;;
  let w' := default w res in
  text <- of_res (find_text (ztake (neff w') (path w')) argument) ;;
  puts text BIOS_WHITE ;;;
  new_line.

(** ** The other commands *)

Definition clear : Eff (Shell K) unit := call_unit sys_clear ;;; home.
Definition exec (argument : Arg) : Eff (Shell K) unit :=
  p <- get_cluster_number ;; call_unit (sys_exec (info argument) p).
Definition pid_of (l : list Z) : Z := foldl (fun pid c => u32 (pid * 10 + c - 48)) 0 l.
Definition kill (argument : Arg) : Eff (Shell K) unit :=
  t <- of_res (arg_text argument) ;; call_unit (sys_kill (pid_of t)).

Definition APPLE_SIZE : Z := 0x8a713.
Definition apple_row (buf : list Z) (frame r : Z) : Eff (Shell K) unit :=
  let o := r * 26 + frame * (10 * 26) in
  if o + 26 <=? zlen buf then
    puts (ztake 25 (zslice o 26 buf) ++ [32]) BIOS_WHITE ;;; new_line
  else stop BadAccess.
Definition apple : Eff (Shell K) unit :=
  r <- call_bytes (sys_read (mkRequest 0 (str "os-dev" ++ zrep 2 0) (zrep 3 0) ROOT_CLUSTER_NUMBER APPLE_SIZE)
         (stack_junk APPLE_SIZE)) ;;
  foldr (fun frame k =>
    call_unit sys_clear ;;; home ;;;
    foldr (fun row k => apple_row r.2 frame row ;;; k) k (seqZ 0 10)) (ret tt) (seqZ 0 2181).

(** ** The shell *)

(** The first command whose name agrees with the word typed, in as many
    characters as the word has. *)
Fixpoint dispatch (word : list Z) (n : Z) (table : list (list Z * Eff (Shell K) unit))
    (other : Eff (Shell K) unit) : Eff (Shell K) unit :=
  match table with
  | [] => other
  | (nm, run) :: rest =>
    r <- of_res (array_cmp word (nm ++ [0]) n) ;;
    if r =? 0 then run else dispatch word n rest other
  end.

Definition commands (retcode : Z) (n : Z) (args : list Arg) : list (list Z * Eff (Shell K) unit) :=
  let a := znth zero_arg args in
  [ (str "cat", if 0 <? n then cat retcode (a 0) else ret tt);
    (str "ls", ls);
    (str "mkdir", mkdir (a 0) ;;; cd_refresh);
    (str "cd", cd (a 0));
    (str "rm", rm (a 0) ;;; cd_refresh);
    (str "mv", mv (a 0) (a 1) ;;; cd_refresh);
    (str "find", find (a 0));
    (str "clear", clear);
    (str "exec", exec (a 0));
    (str "ps", call_print sys_ps);
    (str "kill", kill (a 0));
    (str "apple", apple);
    (str "cp", cp (a 0) (a 1)) ].

(** One round of the loop of [main]. *)
Definition shell_round (retcode : Z) : Eff (Shell K) unit :=
  print_template ;;;
  r <- get_command zero_command zero_args ;;
  dispatch (line r.1) (line_len r.1) (commands retcode (argument_neff r.1) r.2)
    (print_unknown (line r.1) (line_len r.1)).

Fixpoint shell_rounds (retcodes : list Z) : Eff (Shell K) unit :=
  match retcodes with
  | [] => ret tt
  | j :: rest => shell_round j ;;; shell_rounds rest
  end.
Definition shell_start : Eff (Shell K) unit := cd_root ;;; call_unit sys_keyboard_on ;;; home.

(** The variables before [main]. *)
Definition boot_shell (k : K) : Shell K :=
  mkShell k (mkCP 0 0) zero_table (mkCWD (zrep 10 zero_arg) 0).
End Shell.
