(* ===== verification/ShellParse.v ===== *)
(** ShellParse: the shell's line parser against a tokenizer that splits a line at
    its spaces. *)

From Stdlib Require Import ZArith Lia.
From stdpp Require Import base tactics numbers strings list.
From S2P Require Import Prelude Memory CString Disk FatLayout Fat32.
From S2P Require Import Shell.

(** ** The reference

    The pieces between the spaces of a line, the empty ones too: [n] spaces make
    [n + 1] pieces. *)
Fixpoint pieces (l : list Z) : list (list Z) :=
  match l with
  | [] => [[]]
  | c :: l' =>
    match pieces l' with
    | p :: ps => if c =? 32 then [] :: p :: ps else (c :: p) :: ps
    | [] => []
    end
  end.

Definition arg_of (w : list Z) : Arg := mkArg (w ++ zrep (8 - zlen w) 0) (zrep 3 0) (zlen w) 0.

(** The words among the pieces. *)
Definition words_of (ps : list (list Z)) : list (list Z) := filter (fun p => p <> []) ps.

(** The number of arguments counted: a space at the end counts one more. *)
Definition counted (ps : list (list Z)) : Z :=
  zlen (words_of ps) + (if last ps is Some [] then 1 else 0).

Definition args_fit (ws : list (list Z)) : bool :=
  forallb (fun w => zlen w <=? 8) ws && (zlen ws <=? DEFAULT_ARGS_COUNT).

(** What the parser answers for a line: the length of the command word, the
    number and the texts of the arguments; it runs out of its arrays when a word is
    longer than eight characters or there are more than ten. *)
Definition parse_line (c : CommandStruct) : Res (CommandStruct * list Arg) :=
  let ps := pieces (ztake (line_len c) (line c)) in
  let ws := words_of (tail ps) in
  if args_fit ws
  then Ok (mkCommand (line c) (zlen (hd [] ps)) (counted (tail ps)),
           (arg_of <$> ws) ++ zrep (DEFAULT_ARGS_COUNT - zlen ws) zero_arg)
  else Fault BadAccess.

(** ** The tokenizer *)

Definition no_space (l : list Z) : Prop := Forall (fun c => c <> 32) l.
(** A rest that is empty or begins with a space. *)
Definition at_space (l : list Z) : Prop := l = [] \/ exists l', l = 32 :: l'.

Lemma span_spaces (l : list Z) : exists n v, l = replicate n 32 ++ v /\ (v = [] \/ exists c v', v = c :: v' /\ c <> 32).
Proof.
  induction l as [| c l (n & v & -> & Hv)]; [exists O, []; eauto |].
  destruct (decide (c = 32)) as [-> | Hc]; [by exists (S n), v |].
  exists O, (c :: replicate n 32 ++ v). split; [done |]. right. eauto.
Qed.
Lemma span_word (l : list Z) : exists w r, l = w ++ r /\ no_space w /\ at_space r.
Proof.
  induction l as [| c l (w & r & -> & Hw & Hr)].
  { exists [], []. split_and!; [done | constructor | by left]. }
  destruct (decide (c = 32)) as [-> | Hc].
  - exists [], (32 :: w ++ r). split_and!; [done | constructor | right; eauto].
  - exists (c :: w), r. split_and!; [done | by constructor | done].
Qed.

Lemma pieces_cons l : exists p ps, pieces l = p :: ps.
Proof.
  induction l as [| c l (p & ps & Hp)]; cbn [pieces]; [eauto |].
  rewrite Hp. destruct (c =? 32); eauto.
Qed.
Lemma pieces_space l : pieces (32 :: l) = [] :: pieces l.
Proof. cbn [pieces]. by destruct (pieces_cons l) as (p & ps & ->). Qed.
Lemma pieces_spaces n v : pieces (replicate n 32 ++ v) = replicate n [] ++ pieces v.
Proof.
  induction n as [| n IH]; [done |]. cbn [replicate app]. by rewrite pieces_space, IH.
Qed.
Lemma pieces_word w r : no_space w -> at_space r -> pieces (w ++ r) = w :: tail (pieces r).
Proof.
  intros Hw Hr. induction Hw as [| c w Hc Hw IH]; cbn [app].
  - destruct Hr as [-> | (r' & ->)]; [done |]. by rewrite pieces_space.
  - cbn [pieces]. rewrite IH. by apply Z.eqb_neq in Hc as ->.
Qed.

(** The first piece is how the line begins. *)
Lemma word_prefix l : exists k, l = hd [] (pieces l) ++ k.
Proof.
  destruct (span_word l) as (w & r & -> & Hw & Hr). rewrite pieces_word by done. by exists r.
Qed.

Lemma words_of_app ps qs : words_of (ps ++ qs) = words_of ps ++ words_of qs.
Proof. apply filter_app. Qed.
Lemma words_of_empties n : words_of (replicate n []) = [].
Proof.
  induction n as [| n IH]; [done |]. cbn [replicate].
  unfold words_of. rewrite filter_cons_False by auto. exact IH.
Qed.
Lemma words_of_cons w ps : w <> [] -> words_of (w :: ps) = w :: words_of ps.
Proof. intros. unfold words_of. by rewrite filter_cons_True. Qed.

Lemma counted_word n w ps : w <> [] -> counted (replicate n [] ++ w :: ps) = counted ps + 1.
Proof.
  intros Hw. unfold counted. rewrite words_of_app, words_of_empties, words_of_cons by done.
  rewrite last_app, last_cons. cbn [app]. rewrite zlen_cons.
  destruct (last ps) as [[|] |]; [lia.. |]. destruct w; [done | lia].
Qed.
Lemma counted_empties n : counted (replicate (S n) []) = 1.
Proof.
  unfold counted. rewrite words_of_empties, zlen_nil.
  by rewrite replicate_S_end, last_snoc.
Qed.

(** ** The loops of the parser on a line [pre ++ s ++ post], from the start of [s] *)

Lemma zlen_replicate {A} n (x : A) : zlen (replicate n x) = Z.of_nat n.
Proof. unfold zlen. by rewrite length_replicate. Qed.
Lemma zget_here {A} (pre : list A) x k : (pre ++ x :: k).[zlen pre] = Some x.
Proof. rewrite zget_app_r by lia. by rewrite Z.sub_diag. Qed.

Lemma zget_next pre (x : Z) k : k <> [] -> (pre ++ x :: k).[zlen pre + 1] = Some (hd 0 k).
Proof.
  intros Hk. destruct k as [| y k]; [done |].
  replace (zlen pre + 1) with (zlen (pre ++ [x])) by (rewrite zlen_app; done).
  change (x :: y :: k) with ([x] ++ y :: k). by rewrite app_assoc, zget_here.
Qed.

Lemma find_space_run u : forall fuel pre t post buf first len,
  no_space u -> at_space t -> (length u < fuel)%nat -> len = zlen pre + zlen u + zlen t ->
  find_space fuel (pre ++ u ++ t ++ post) len (zlen pre) buf first =
  Ok (zlen pre + zlen u,
      (if t is [] then default buf (last u) else 32),
      (if t is [] then first else Some (default (zlen pre + zlen u) first))).
Proof.
  induction u as [| c u IH]; intros [| fuel] pre t post buf first len Hu Ht Hf ->;
    cbn [length] in Hf; try lia; cbn [find_space].
  - cbn [app]. rewrite zlen_nil, !Z.add_0_r.
    destruct Ht as [-> | (t' & ->)].
    + by rewrite (proj2 (Z.leb_le _ _)) by (rewrite zlen_nil; lia).
    + rewrite zlen_cons. pose proof (zlen_nonneg t').
      rewrite (proj2 (Z.leb_gt _ _)) by lia. cbn [app]. rewrite zget_here. cbn. by destruct first.
  - apply Forall_cons in Hu as [Hc Hu]. rewrite zlen_cons. pose proof (zlen_nonneg u).
    pose proof (zlen_nonneg t). rewrite (proj2 (Z.leb_gt _ _)) by lia.
    cbn [app]. rewrite zget_here. cbn [of_option res_bind]. rewrite (proj2 (Z.eqb_neq _ _) Hc).
    specialize (IH fuel (pre ++ [c]) t post c first (zlen pre + (zlen u + 1) + zlen t)).
    rewrite <- app_assoc, zlen_app in IH. change (zlen [c]) with 1 in IH.
    cbn [app] in IH. rewrite IH by (try done; lia). rewrite last_cons.
    replace (zlen pre + 1 + zlen u) with (zlen pre + (zlen u + 1)) by lia.
    by destruct (last u).
Qed.

Lemma find_space_here fuel pre k buf first len :
  zlen pre < len ->
  find_space (S fuel) (pre ++ 32 :: k) len (zlen pre) buf first =
  Ok (zlen pre, 32, Some (default (zlen pre) first)).
Proof.
  intros H. cbn [find_space]. rewrite (proj2 (Z.leb_gt _ _)) by lia. rewrite zget_here.
  cbn. by destruct first.
Qed.

Lemma skip_spaces_run n : forall fuel pre v post is_args len,
  (v = [] \/ exists c v', v = c :: v' /\ c <> 32) ->
  (n < fuel)%nat -> len = zlen pre + Z.of_nat n + zlen v ->
  skip_spaces fuel (pre ++ replicate n 32 ++ v ++ post) len (zlen pre) 32 is_args =
  Ok (zlen pre + Z.of_nat n, hd 32 v, if replicate n 32 ++ v is [] then is_args else true).
Proof.
  induction n as [| n IH]; intros [| fuel] pre v post is_args len Hv Hf ->; try lia;
    cbn [skip_spaces replicate app]; rewrite Z.eqb_refl; cbn [negb orb].
  - rewrite Z.add_0_r. destruct Hv as [-> | (c & v' & -> & Hc)].
    + by rewrite (proj2 (Z.leb_le _ _)) by (rewrite zlen_nil; lia).
    + rewrite zlen_cons. pose proof (zlen_nonneg v').
      rewrite (proj2 (Z.leb_gt _ _)) by lia. cbn [app]. rewrite zget_here.
      cbn [of_option res_bind]. by rewrite (proj2 (Z.eqb_neq _ _) Hc).
  - pose proof (zlen_nonneg v). rewrite (proj2 (Z.leb_gt _ _)) by lia.
    rewrite zget_here. cbn [of_option res_bind]. rewrite Z.eqb_refl. cbn [negb].
    specialize (IH fuel (pre ++ [32]) v post true (zlen pre + Z.of_nat (S n) + zlen v)).
    rewrite <- app_assoc, zlen_app in IH. change (zlen [32]) with 1 in IH.
    cbn [app] in IH. rewrite IH by (try done; lia).
    replace (zlen pre + 1 + Z.of_nat n) with (zlen pre + Z.of_nat (S n)) by lia.
    by destruct (replicate n 32 ++ v).
Qed.

Lemma arg_append_spec c x :
  zlen x <= 8 ->
  arg_append c (arg_of x) = if zlen x <? 8 then Ok (arg_of (x ++ [c])) else Fault BadAccess.
Proof.
  intros Hx. unfold arg_append, arg_of. cbn [info len_info arg_ext len_ext].
  pose proof (zlen_nonneg x). rewrite zlen_app, zlen_zrep by lia.
  replace (zlen x + (8 - zlen x)) with 8 by lia.
  destruct (Z.ltb_spec (zlen x) 8); [rewrite decide_True by lia | by rewrite decide_False by lia].
  rewrite zlen_app. change (zlen [c]) with 1. do 2 f_equal.
  apply zget_ext. intros j.
  rewrite zget_zset, zlen_app, zlen_zrep by lia.
  case_decide as Hj.
  - destruct Hj as [<- _]. rewrite <- app_assoc. cbn [app]. by rewrite zget_here.
  - destruct (decide (0 <= j < 8)); [| rewrite !zget_None; rewrite ?zlen_app, ?zlen_zrep by lia;
      change (zlen [c]) with 1; done || lia].
    destruct (Z.lt_trichotomy j (zlen x)) as [Hlt | [-> | Hgt]]; [| lia |].
    + rewrite <- app_assoc, !zget_app_l by lia. done.
    + rewrite (zget_app_r x), (zget_app_r (x ++ [c])) by (rewrite ?zlen_app; change (zlen [c]) with 1; lia).
      rewrite zlen_app. change (zlen [c]) with 1. by rewrite !zget_zrep by lia.
Qed.

Lemma take_arg_run w : forall fuel pre r post x n args len,
  no_space w -> at_space r -> Forall (fun c => c <> 0) w -> post <> [] ->
  (length w < fuel)%nat -> args.[n] = Some (arg_of x) -> zlen x <= 8 ->
  len = zlen pre + zlen w + zlen r ->
  take_arg fuel (pre ++ w ++ r ++ post) len (zlen pre) (hd 0 (w ++ r ++ post)) n args =
  if zlen x + zlen w <=? 8
  then Ok (zlen pre + zlen w, hd 0 (r ++ post), args.[n := arg_of (x ++ w)])
  else Fault BadAccess.
Proof.
  induction w as [| c w IH]; intros [| fuel] pre r post x n args len Hw Hr Hz Hpost Hf Ha Hx ->;
    cbn [length] in Hf; try lia; cbn [take_arg app hd].
  - change (zlen (@nil Z)) with 0.
    rewrite !Z.add_0_r.
    rewrite app_nil_r.
    rewrite (zset_id _ _ _ Ha).
    rewrite (proj2 (Z.leb_le (zlen x) 8)) by exact Hx.
    destruct Hr as [-> | (r' & ->)]; [| done].
    by rewrite (proj2 (Z.leb_le _ _)), orb_true_r by (rewrite zlen_nil; lia).
  - apply Forall_cons in Hw as [Hc Hw], Hz as [Hc0 Hz]. rewrite zlen_cons.
    pose proof (zlen_nonneg w). pose proof (zlen_nonneg r).
    rewrite (proj2 (Z.eqb_neq c 32)), (proj2 (Z.eqb_neq c 0)) by done.
    rewrite (proj2 (Z.leb_gt _ (zlen pre))) by lia.
    rewrite Ha. cbn [orb of_option res_bind]. rewrite arg_append_spec by done.
    destruct (Z.ltb_spec (zlen x) 8); cbn [res_bind];
      [| by rewrite (proj2 (Z.leb_gt _ _)) by lia].
    assert (Hnext : (pre ++ c :: w ++ r ++ post).[zlen pre + 1] = Some (hd 0 (w ++ r ++ post))).
    { apply (zget_next pre). by destruct w, r. }
    rewrite Hnext. cbn [of_option res_bind].
    specialize (IH fuel (pre ++ [c]) r post (x ++ [c]) n (args.[n := arg_of (x ++ [c])])
      (zlen pre + (zlen w + 1) + zlen r)).
    rewrite <- !app_assoc, !zlen_app in IH. change (zlen [c]) with 1 in IH. cbn [app] in IH.
    apply zget_range in Ha.
    rewrite IH by (try done; try lia; by apply zget_zset_eq).
    rewrite zset_zset.
    replace (zlen pre + 1 + zlen w) with (zlen pre + (zlen w + 1)) by lia.
    by replace (zlen x + 1 + zlen w) with (zlen x + (zlen w + 1)) by lia.
Qed.

Lemma take_arg_none fuel l len i c n args :
  c <> 32 -> c <> 0 -> i < len -> args.[n] = None ->
  take_arg (S fuel) l len i c n args = Fault BadAccess.
Proof.
  intros H1 H2 H3 H4. cbn [take_arg].
  rewrite (proj2 (Z.eqb_neq c 32)), (proj2 (Z.eqb_neq c 0)), (proj2 (Z.leb_gt len i)) by done.
  by rewrite H4.
Qed.

(** ** The parser *)

Lemma args_fit_cons w ws k :
  forallb (fun w : list Z => zlen w <=? 8) (w :: ws) && (k + zlen (w :: ws) <=? DEFAULT_ARGS_COUNT) =
  (zlen w <=? 8) && (forallb (fun w : list Z => zlen w <=? 8) ws && (k + 1 + zlen ws <=? DEFAULT_ARGS_COUNT)).
Proof.
  cbn [forallb]. rewrite zlen_cons, <- andb_assoc.
  by replace (k + (zlen ws + 1)) with (k + 1 + zlen ws) by lia.
Qed.

(** What the rounds of the parser do from a space, [done] being the arguments
    found so far. *)
Definition rest_spec (s : list Z) (done : list Arg) (i : Z) (first : option Z)
  : Res (Z * Z * option Z * list Arg) :=
  let ps := tail (pieces s) in
  let ws := words_of ps in
  if forallb (fun w => zlen w <=? 8) ws && (zlen done + zlen ws <=? DEFAULT_ARGS_COUNT)
  then Ok (i + zlen s, zlen done + counted ps,
           if s is [] then first else Some (default i first),
           done ++ (arg_of <$> ws) ++ zrep (DEFAULT_ARGS_COUNT - zlen done - zlen ws) zero_arg)
  else Fault BadAccess.

Definition slots (done : list Arg) : list Arg := done ++ zrep (DEFAULT_ARGS_COUNT - zlen done) zero_arg.

Lemma slots_next done :
  zlen done < DEFAULT_ARGS_COUNT -> (slots done).[zlen done] = Some (arg_of []).
Proof.
  intros H. unfold slots. rewrite zget_app_r, Z.sub_diag by lia. by apply zget_zrep; lia.
Qed.
Lemma slots_full done :
  zlen done = DEFAULT_ARGS_COUNT -> (slots done).[zlen done] = None.
Proof.
  intros H. unfold slots. rewrite H, Z.sub_diag. change (zrep 0 zero_arg) with (@nil Arg).
  rewrite app_nil_r. apply zget_None. lia.
Qed.
Lemma slots_set done a :
  zlen done < DEFAULT_ARGS_COUNT -> (slots done).[zlen done := a] = slots (done ++ [a]).
Proof.
  intros H. unfold slots. rewrite zlen_app. change (zlen [a]) with 1.
  replace (DEFAULT_ARGS_COUNT - zlen done)
    with (Z.of_nat (S (Z.to_nat (DEFAULT_ARGS_COUNT - (zlen done + 1))))) by lia.
  unfold zrep at 1. rewrite Nat2Z.id. cbn [replicate]. rewrite <- app_assoc. unfold zset.
  rewrite decide_True by apply zlen_nonneg. unfold zlen at 1. rewrite Nat2Z.id.
  rewrite insert_app_r_alt by lia. by rewrite Nat.sub_diag.
Qed.

Lemma parse_words_empty rounds l len i buf n first args :
  len <= i -> parse_words rounds l len i buf n first args = Ok (i, n, first, args).
Proof. intros H. destruct rounds; cbn [parse_words]; by rewrite (proj2 (Z.leb_le _ _)). Qed.

(** One round, from a space to the next one. *)
Lemma parse_round n w r : forall rounds pre post buf first done len,
  w <> [] -> no_space w -> at_space r -> Forall (fun c => c <> 0) w -> post <> [] ->
  zlen done <= DEFAULT_ARGS_COUNT ->
  let s := replicate (S n) 32 ++ w ++ r in
  len = zlen pre + zlen s ->
  parse_words (S rounds) (pre ++ s ++ post) len (zlen pre) buf (zlen done) first (slots done) =
  if (zlen w <=? 8) && (zlen done <? DEFAULT_ARGS_COUNT)
  then parse_words rounds (pre ++ s ++ post) len (zlen pre + Z.of_nat (S n) + zlen w) (hd 0 (r ++ post))
         (zlen done + 1) (Some (default (zlen pre) first)) (slots (done ++ [arg_of w]))
  else Fault BadAccess.
Proof.
  intros rounds pre post buf first done len Hw0 Hw Hr Hz Hpost Hdone s Hlen. subst s.
  assert (Hl : len = zlen pre + Z.of_nat (S n) + zlen w + zlen r).
  { rewrite Hlen, !zlen_app, zlen_replicate. lia. }
  clear Hlen. pose proof (zlen_nonneg w). pose proof (zlen_nonneg r). pose proof (zlen_nonneg pre).
  cbn [parse_words]. rewrite (proj2 (Z.leb_gt _ _)) by lia.
  set (L := pre ++ (replicate (S n) 32 ++ w ++ r) ++ post).
  assert (HL1 : L = pre ++ 32 :: (replicate n 32 ++ w ++ r) ++ post) by done.
  rewrite HL1 at 1. rewrite find_space_here by lia. cbn [res_bind].
  assert (HL2 : L = pre ++ replicate (S n) 32 ++ (w ++ r) ++ post).
  { unfold L. by rewrite <- !app_assoc. }
  rewrite HL2 at 1.
  rewrite (skip_spaces_run (S n) _ pre (w ++ r));
    [| right; destruct w as [| c w]; [done |]; apply Forall_cons in Hw as [? _]; cbn; eauto
     | lia | rewrite zlen_app; lia].
  cbn [res_bind replicate app].
  assert (HL3 : L = (pre ++ replicate (S n) 32) ++ w ++ r ++ post).
  { rewrite HL2. by rewrite <- !app_assoc. }
  assert (Hpre : zlen pre + Z.of_nat (S n) = zlen (pre ++ replicate (S n) 32)).
  { by rewrite zlen_app, zlen_replicate. }
  replace (hd 32 (w ++ r)) with (hd 0 (w ++ r ++ post)) by (by destruct w).
  rewrite Hpre. rewrite HL3 at 1. rewrite <- (andb_comm (zlen done <? DEFAULT_ARGS_COUNT)).
  destruct (Z.ltb_spec (zlen done) DEFAULT_ARGS_COUNT) as [Hlt | Hge]; cbn [andb].
  - rewrite (take_arg_run w _ _ r post []); try done; [| unfold zlen in *; lia | by apply slots_next | lia].
    change (zlen (@nil Z) + zlen w) with (zlen w). cbn [app].
    destruct (zlen w <=? 8); cbn [res_bind]; [| done]. by rewrite slots_set.
  - destruct w as [| c w]; [done |]. apply Forall_cons in Hw as [Hc _], Hz as [Hc0 _].
    cbn [app hd]. rewrite zlen_cons in *. pose proof (zlen_nonneg w).
    rewrite take_arg_none; try done; [rewrite <- Hpre; lia | apply slots_full; lia].
Qed.

Lemma parse_round_spaces n rounds pre post buf first done :
  zlen done <= DEFAULT_ARGS_COUNT ->
  let s := replicate (S n) 32 in
  parse_words (S rounds) (pre ++ s ++ post) (zlen pre + zlen s) (zlen pre) buf (zlen done) first (slots done) =
  rest_spec s done (zlen pre) first.
Proof.
  intros Hdone s. unfold rest_spec. subst s.
  replace (pieces (replicate (S n) 32)) with ([] :: replicate (S n) ([] : list Z)).
  2: { pose proof (pieces_spaces (S n) []) as Hp. rewrite app_nil_r in Hp. rewrite Hp.
       cbn [pieces]. by rewrite <- replicate_S_end. }
  cbn [tail]. rewrite counted_empties, words_of_empties. rewrite zlen_replicate.
  change (zlen (@nil (list Z))) with 0. cbn [forallb andb].
  rewrite (proj2 (Z.leb_le (zlen done + 0) _)) by lia. rewrite Z.sub_0_r.
  cbn [parse_words]. pose proof (zlen_nonneg pre). rewrite (proj2 (Z.leb_gt _ _)) by lia.
  cbn [replicate app]. rewrite find_space_here by lia. cbn [res_bind].
  change (32 :: replicate n 32 ++ post) with (replicate (S n) 32 ++ [] ++ post).
  rewrite (skip_spaces_run (S n) _ pre [] post); [| by left | lia | change (zlen (@nil Z)) with 0; lia].
  cbn [res_bind replicate app hd take_arg]. cbn [orb Z.eqb Pos.eqb res_bind].
  by rewrite parse_words_empty by lia.
Qed.

Lemma rest_spec_round n w r done i first :
  w <> [] -> no_space w -> at_space r ->
  rest_spec (replicate (S n) 32 ++ w ++ r) done i first =
  if (zlen w <=? 8) && (zlen done <? DEFAULT_ARGS_COUNT)
  then rest_spec r (done ++ [arg_of w]) (i + Z.of_nat (S n) + zlen w) (Some (default i first))
  else Fault BadAccess.
Proof.
  intros Hw0 Hw Hr. unfold rest_spec.
  rewrite pieces_spaces, pieces_word by done. cbn [replicate app tail].
  rewrite words_of_app, words_of_empties, words_of_cons, counted_word by done. cbn [app].
  rewrite args_fit_cons, !zlen_app, zlen_cons. change (zlen [arg_of w]) with 1.
  rewrite zlen_cons, !zlen_app, zlen_replicate.
  destruct (Z.leb_spec (zlen w) 8); cbn [andb]; [| done].
  set (ws := words_of (tail (pieces r))). pose proof (zlen_nonneg ws).
  destruct (Z.ltb_spec (zlen done) DEFAULT_ARGS_COUNT).
  - destruct (forallb _ ws && _); [| done]. cbn [fmap list_fmap]. rewrite <- app_assoc. cbn [app].
    replace (i + (Z.of_nat n + (zlen w + zlen r) + 1))
      with (i + Z.of_nat (S n) + zlen w + zlen r) by lia.
    replace (zlen done + (counted (tail (pieces r)) + 1))
      with (zlen done + 1 + counted (tail (pieces r))) by lia.
    replace (DEFAULT_ARGS_COUNT - zlen done - (zlen ws + 1))
      with (DEFAULT_ARGS_COUNT - (zlen done + 1) - zlen ws) by lia.
    by destruct r.
  - rewrite (proj2 (Z.leb_gt _ _)), andb_false_r by lia. done.
Qed.

Lemma parse_rest rounds : forall pre s post buf first done,
  at_space s -> Forall (fun c => c <> 0) s -> post <> [] -> zlen done <= DEFAULT_ARGS_COUNT ->
  (length s <= rounds)%nat ->
  parse_words rounds (pre ++ s ++ post) (zlen pre + zlen s) (zlen pre) buf (zlen done) first (slots done) =
  rest_spec s done (zlen pre) first.
Proof.
  induction rounds as [| rounds IH]; intros pre s post buf first done Hs Hz Hpost Hdone Hf;
    (destruct Hs as [-> | (s' & ->)];
     [rewrite parse_words_empty by (change (zlen (@nil Z)) with 0; lia);
      unfold rest_spec; cbn [pieces tail]; change (counted []) with 0; change (words_of []) with (@nil (list Z));
      change (zlen (@nil (list Z))) with 0; change (zlen (@nil Z)) with 0; cbn [forallb andb];
      rewrite (proj2 (Z.leb_le _ _)) by lia; by rewrite !Z.add_0_r, Z.sub_0_r |]);
    [cbn in Hf; lia |].
  destruct (span_spaces s') as (n & v & -> & Hv).
  change (32 :: replicate n 32 ++ v) with (replicate (S n) 32 ++ v) in *.
  destruct Hv as [-> | (c & v' & -> & Hc)].
  { rewrite app_nil_r. by apply parse_round_spaces. }
  destruct (span_word (c :: v')) as (w & r & Hwr & Hw & Hr).
  assert (Hw0 : w <> []).
  { intros ->. cbn in Hwr. subst r. destruct Hr as [? | (? & ?)]; simplify_eq. }
  rewrite Hwr in *. apply Forall_app in Hz as [_ [Hz Hzr]%Forall_app].
  rewrite parse_round by done. rewrite rest_spec_round by done.
  destruct (_ && _) eqn:Hfit; [| done].
  apply andb_true_iff in Hfit as [_ Hfit%Z.ltb_lt].
  set (pre' := pre ++ replicate (S n) 32 ++ w).
  assert (Hpre : zlen pre' = zlen pre + Z.of_nat (S n) + zlen w).
  { unfold pre'. rewrite !zlen_app, zlen_replicate. lia. }
  rewrite <- Hpre.
  replace (pre ++ (replicate (S n) 32 ++ w ++ r) ++ post) with (pre' ++ r ++ post)
    by (unfold pre'; by rewrite <- !app_assoc).
  replace (zlen pre + zlen (replicate (S n) 32 ++ w ++ r)) with (zlen pre' + zlen r)
    by (rewrite !zlen_app, zlen_replicate; lia).
  replace (zlen done + 1) with (zlen (done ++ [arg_of w])) by (by rewrite zlen_app).
  apply IH; try done.
  - rewrite zlen_app. change (zlen [arg_of w]) with 1. lia.
  - rewrite !length_app, length_replicate in Hf. destruct w; [done |]. cbn in Hf. lia.
Qed.

(** The first round reads the command's word and goes on from the space behind it. *)
Lemma parse_from_space rounds w r post n args :
  no_space w -> at_space r -> r <> [] ->
  let len := zlen w + zlen r in
  parse_words (S rounds) (w ++ r ++ post) len 0 0 n None args =
  parse_words (S rounds) (w ++ r ++ post) len (zlen w) 0 n None args.
Proof.
  intros Hw Hr Hr0 len. destruct Hr as [? | (r' & ->)]; [done |].
  pose proof (zlen_nonneg w). pose proof (zlen_nonneg r').
  assert (Hlen : len = zlen w + zlen r' + 1) by (unfold len; rewrite zlen_cons; lia).
  cbn [parse_words]. rewrite !(proj2 (Z.leb_gt len _)) by lia.
  pose proof (find_space_run w (S (Z.to_nat len)) [] (32 :: r') post 0 None len) as Hfind.
  cbn [app] in Hfind. change (zlen (@nil Z)) with 0 in Hfind. cbn [app]. rewrite Hfind; [| done | right; eauto | |].
  - cbn [app default]. by rewrite (find_space_here _ w) by lia.
  - unfold zlen in *. lia.
  - rewrite zlen_cons. lia.
Qed.

Lemma parse_one_word rounds w post n args :
  no_space w -> w <> [] ->
  parse_words (S rounds) (w ++ post) (zlen w) 0 0 n None args = Ok (zlen w, n, None, args).
Proof.
  intros Hw Hw0. destruct w as [| c w _] using rev_ind; [done |].
  apply Forall_app in Hw as [Hw [Hc _]%Forall_cons].
  pose proof (zlen_nonneg w). assert (Hlen : zlen (w ++ [c]) = zlen w + 1) by (by rewrite zlen_app).
  cbn [parse_words]. rewrite (proj2 (Z.leb_gt _ 0)) by lia.
  pose proof (find_space_run (w ++ [c]) (S (Z.to_nat (zlen (w ++ [c])))) [] [] post 0 None (zlen (w ++ [c])))
    as Hfind.
  cbn [app] in Hfind. change (zlen (@nil Z)) with 0 in Hfind.
  rewrite Hfind; [| apply Forall_app; split; [done | by constructor] | by left | unfold zlen; lia | lia].
  rewrite last_snoc. cbn [default from_option id res_bind skip_spaces].
  rewrite (proj2 (Z.eqb_neq c 32)) by done. cbn [negb orb res_bind take_arg]. rewrite Z.add_0_l, Z.leb_refl, orb_true_r. cbn [res_bind].
  by rewrite parse_words_empty.
Qed.

Lemma slots_nil : slots [] = zero_args.
Proof. done. Qed.

Lemma parse_command_splits (c : CommandStruct) :
  zlen (line c) = COMMAND_SIZE -> 0 <= line_len c < COMMAND_SIZE -> argument_neff c = 0 ->
  Forall (fun b => b <> 0) (ztake (line_len c) (line c)) ->
  parse_command c zero_args = parse_line c.
Proof.
  intros Hsize Hlen Hn Hz. unfold parse_command, parse_line. rewrite Hn, <- slots_nil.
  assert (Hpost : zdrop (line_len c) (line c) <> []).
  { intros Hnil. apply (f_equal zlen) in Hnil. rewrite zlen_zdrop in Hnil.
    change (zlen []) with 0 in Hnil. lia. }
  assert (Hl : zlen (ztake (line_len c) (line c)) = line_len c) by (rewrite zlen_ztake; lia).
  rewrite <- (ztake_zdrop (line_len c) (line c)) at 1.
  destruct (span_word (ztake (line_len c) (line c))) as (w & r & Hwr & Hw & Hr).
  rewrite Hwr in *. apply Forall_app in Hz as [_ Hz]. rewrite zlen_app in Hl.
  rewrite <- Hl, <- app_assoc, pieces_word by done. cbn [tail hd].
  destruct (decide (r = [])) as [-> | Hr0].
  - rewrite app_nil_l. change (zlen (@nil Z)) with 0. rewrite Z.add_0_r.
    destruct (decide (w = [])) as [-> | Hw0].
    + change (zlen (@nil Z)) with 0. by rewrite parse_words_empty.
    + by rewrite parse_one_word by done.
  - rewrite parse_from_space by done.
    pose proof (parse_rest (S (Z.to_nat (zlen w + zlen r))) w r (zdrop (zlen w + zlen r) (line c)) 0 None [])
      as Hrest.
    change (zlen (@nil Arg)) with 0 in Hrest.
    rewrite Hrest; try done; [| by rewrite Hl | unfold zlen; lia].
    unfold rest_spec, args_fit. change (zlen (@nil Arg)) with 0.
    destruct (forallb _ _ && _); cbn [res_bind]; [| done].
    rewrite Z.add_0_l, Z.sub_0_r. by destruct r.
Qed.

(** C19. The parser of [get_command], for every line without zero characters that fits its
    buffer, gives what splitting the line at its spaces gives: the length of the
    first piece, the other pieces that are not empty, in order, as arguments, and
    their number, one more for a space at the end; a word of more than eight
    characters or an eleventh one runs out of the arrays, and nothing else does. *)
Theorem parse_command_spec (c : CommandStruct) :
  zlen (line c) = COMMAND_SIZE -> 0 <= line_len c < COMMAND_SIZE -> argument_neff c = 0 ->
  Forall (fun b => b <> 0) (ztake (line_len c) (line c)) ->
  parse_command c zero_args = parse_line c.
Proof. apply parse_command_splits. Qed.

(** ** Termination

    Each loop ends with its index where it was or further, and a round of the three
    advances it, whatever the line holds. *)

Definition advances {B} (i : Z) (index : B -> Z) (r : Res B) : Prop :=
  match r with Ok b => i <= index b | Fault e => e <> Stuck end.

Lemma find_space_ends l len first fuel : forall i buf,
  (Z.to_nat (len - i) < fuel)%nat ->
  match find_space fuel l len i buf first with
  | Ok (i', buf', _) => i <= i' /\ (i' < len -> l.[i'] = Some 32 /\ buf' = 32)
  | Fault e => e <> Stuck
  end.
Proof.
  induction fuel as [| fuel IH]; intros i buf Hf; [lia |]. cbn [find_space].
  destruct (Z.leb_spec len i); [lia |].
  destruct l.[i] as [c |] eqn:Hc; cbn [of_option res_bind]; [| done].
  destruct (Z.eqb_spec c 32) as [-> | ?]; [by split; [lia |] |].
  specialize (IH (i + 1) c ltac:(lia)).
  destruct (find_space _ _ _ _ _ _) as [[[i' buf'] f'] |]; [| done].
  destruct IH as [? ?]. split; [lia | done].
Qed.

Lemma skip_spaces_ends l len fuel : forall i buf b,
  (Z.to_nat (len - i) < fuel)%nat ->
  match skip_spaces fuel l len i buf b with
  | Ok (i', _, _) => i <= i' /\ (i < len -> l.[i] = Some 32 -> buf = 32 -> i < i')
  | Fault e => e <> Stuck
  end.
Proof.
  induction fuel as [| fuel IH]; intros i buf b Hf; [lia |]. cbn [skip_spaces].
  destruct (negb (buf =? 32) || (len <=? i)) eqn:Hg.
  { split; [lia |]. intros Hi _ ->. apply orb_true_iff in Hg as [Hg | Hg%Z.leb_le]; [done | lia]. }
  apply orb_false_iff in Hg as [_ Hg%Z.leb_gt].
  destruct l.[i] as [c |] eqn:Hc; cbn [of_option res_bind]; [| done].
  destruct (Z.eqb_spec c 32) as [-> | ?]; cbn [negb].
  - specialize (IH (i + 1) 32 true ltac:(lia)).
    destruct (skip_spaces _ _ _ _ _ _) as [[[i' buf'] f'] |]; [| done]. split; intros; lia.
  - split; [lia |]. intros _ [= ->]. done.
Qed.

Lemma take_arg_ends l len n fuel : forall i buf args,
  (Z.to_nat (len - i) < fuel)%nat ->
  advances i (fun r => r.1.1) (take_arg fuel l len i buf n args).
Proof.
  induction fuel as [| fuel IH]; intros i buf args Hf; [lia |]. cbn [take_arg].
  destruct ((buf =? 32) || (buf =? 0) || (len <=? i)) eqn:Hg; [cbn; lia |].
  apply orb_false_iff in Hg as [_ Hg%Z.leb_gt].
  destruct args.[n] as [a |]; cbn [of_option res_bind]; [| done].
  unfold arg_append. destruct (decide _); cbn [res_bind]; [| done].
  destruct l.[i + 1] as [c |]; cbn [of_option res_bind]; [| done].
  match goal with |- advances _ _ (take_arg _ _ _ _ _ _ ?a') => specialize (IH (i + 1) c a' ltac:(lia)) end.
  destruct (take_arg _ _ _ _ _ _ _) as [[[i' buf'] args'] |]; [| done]. cbn in *. lia.
Qed.

Lemma parse_words_ends l len rounds : forall i buf n first args,
  0 <= i -> (Z.to_nat (len - i) <= rounds)%nat ->
  parse_words rounds l len i buf n first args <> Fault Stuck.
Proof.
  induction rounds as [| rounds IH]; intros i buf n first args Hi Hf; cbn [parse_words];
    (destruct (Z.leb_spec len i); [done |]); [lia |].
  set (fuel := S (Z.to_nat len)).
  pose proof (find_space_ends l len first fuel i buf ltac:(lia)) as H1.
  destruct (find_space _ _ _ _ _ _) as [[[i1 b1] f1] |]; cbn [res_bind]; [| congruence].
  pose proof (skip_spaces_ends l len fuel i1 b1 false ltac:(lia)) as H2.
  destruct (skip_spaces _ _ _ _ _ _) as [[[i2 b2] f2] |]; cbn [res_bind]; [| congruence].
  pose proof (take_arg_ends l len n fuel i2 b2 args ltac:(lia)) as H3.
  destruct (take_arg _ _ _ _ _ _ _) as [[[i3 b3] f3] |]; cbn [res_bind advances fst] in *; [| congruence].
  destruct H1 as [? H1], H2 as [? H2]. apply IH; [lia |].
  destruct (decide (i1 < len)) as [Hlt | ?]; [| lia].
  destruct (H1 Hlt) as [Hc Hb]. specialize (H2 Hlt Hc Hb). lia.
Qed.

(** The parser's nested loops end on every line, whatever its bytes are. *)
Theorem parse_command_terminates (c : CommandStruct) (args : list Arg) :
  parse_command c args <> Fault Stuck.
Proof.
  unfold parse_command.
  pose proof (parse_words_ends (line c) (line_len c) (S (Z.to_nat (line_len c))) 0 0 (argument_neff c) None args
    ltac:(lia) ltac:(lia)) as H.
  destruct (parse_words _ _ _ _ _ _ _ _) as [[[[i n] first] args'] | e]; cbn [res_bind]; congruence.
Qed.
