(* ===== verification/ShellSpec.v ===== *)
(** ShellSpec: what the shell relies on - the contract of the kernel's calls over
    the map of a directory - and its input side: the line editor and the choice of
    a command. *)

From Stdlib Require Import ZArith Lia.
From stdpp Require Import base tactics numbers strings list gmap.
From S2P Require Import Prelude Memory CString Disk FatLayout Fat32 FatLogic FatChain FatWrite.
From S2P Require Import FatRead FatDelete FatVolume.
From S2P Require Import Shell.
From S2P Require Import ShellParse.
#[local] Open Scope eff_scope.

(** ** The contract of the kernel *)

(** A name that the map of a directory can have: of eight bytes, not all zero, and
    not one of the directory's own entries. *)
Record name_ok (v : Volume) (nm : list Z) : Prop := {
  no_length : zlen nm = 8;
  no_bytes : all_bytes nm;
  no_zero : nm <> zrep 8 0;
  no_shadow : (nm, zrep 3 0) ∉ vol_shadow v
}.
Definition file_request (nm : list Z) (p size : Z) : FAT32DriverRequest := mkRequest 0 nm (zrep 3 0) p size.
Definition node_at (v : Volume) (nm : list Z) : option Node := vol_nodes v !! ((nm, zrep 3 0) : Name).

(** A row that shows a node; a table that shows the entries of a volume. *)
Definition row_shows (e : FAT32DirectoryEntry) (nd : Node) : Prop :=
  match nd with
  | File sz _ => attribute e <> ATTR_SUBDIRECTORY /\ filesize e = sz
  | Folder _ => attribute e = ATTR_SUBDIRECTORY
  end.
Definition shows (t : list FAT32DirectoryEntry) (v : Volume) : Prop :=
  forall nm p size, name_ok v nm ->
  match node_at v nm with
  | None => find_entry 2 t (file_request nm p size) = None
  | Some nd => exists i, find_entry 2 t (file_request nm p size) = Some i /\ row_shows (row t i) nd
  end.

(** An array after a call that puts [out] at its start. *)
Definition overwrite (out : option (list Z)) (b : list Z) : list Z :=
  match out with
  | Some bytes => bytes ++ zdrop (zlen bytes) b
  | None => b
  end.
(** The arrays the shell hands to the kernel are no longer than this. *)
Definition ARRAY_MAX : Z := 2 ^ 20.
(** The bytes of a file fit an array. *)
Definition fits (v : Volume) (nm b : list Z) : Prop :=
  forall sz bytes, node_at v nm = Some (File sz bytes) -> zlen bytes <= zlen b.

(** [at_directory k p t v]: the directory in the cluster [p] has the table [t] and
    stands for the map [v]. [keys k]: what the next polls of the keyboard give. *)
Class ShellKernelView (K : Type) := {
  at_directory : K -> Z -> list FAT32DirectoryEntry -> Volume -> Prop;
  keys : K -> list Z
}.
(** A call that leaves both. *)
Definition quiet_kernel {K : Type} `{ShellKernelView K} (k k' : K) : Prop :=
  keys k' = keys k /\ forall p t v, at_directory k p t v -> at_directory k' p t v.

Class ShellKernelLaws (K : Type) `{ShellKernel K} `{ShellKernelView K} : Prop := {
  directory_self k p t v : at_directory k p t v -> entry_cluster (row t 0) = p;
  directory_names k p t v i : at_directory k p t v -> 0 <= i < DIR_ENTRIES -> zlen (name (row t i)) = 8;
  directory_flag k p t v : at_directory k p t v -> is_directory_table t = true;
  directory_shows k p t v : at_directory k p t v -> shows t v;

  read_law k p t v nm b :
    at_directory k p t v -> name_ok v nm -> fits v nm b -> all_bytes b -> zlen b <= ARRAY_MAX ->
    let step := vol_step v (CallRead (file_request nm p CLUSTER_SIZE)) in
    exists k', sys_read (file_request nm p CLUSTER_SIZE) b k = Ok (step.1.1, overwrite step.2 b, k') /\
      keys k' = keys k /\ at_directory k' p t v;
  write_law k p t v nm size data :
    at_directory k p t v -> name_ok v nm -> size = 0 /\ data = [] \/ size = CLUSTER_SIZE /\ source_ok size data ->
    1 <= vol_space v ->
    let step := vol_step v (CallWrite (file_request nm p size) data) in
    exists k' t', sys_write (file_request nm p size) data k = Ok (step.1.1, k') /\
      keys k' = keys k /\ at_directory k' p t' step.1.2 /\ row t' 0 = row t 0;
  delete_law k p t v nm size :
    at_directory k p t v -> name_ok v nm -> 0 <= size < 2 ^ 32 ->
    let step := vol_step v (CallDelete (file_request nm p size)) in
    exists k' t', sys_delete (file_request nm p size) k = Ok (step.1.1, k') /\
      keys k' = keys k /\ at_directory k' p t' step.1.2 /\ row t' 0 = row t 0;
  open_law k p t v nm i t' v' :
    at_directory k p t v -> zlen nm = 8 ->
    for_find 0 DIR_ENTRIES (fun j => mem_eq (name (row t j)) nm 8) = Some i ->
    attribute (row t i) = ATTR_SUBDIRECTORY -> at_directory k (entry_cluster (row t i)) t' v' ->
    exists bs k', sys_read_directory (directory_request nm p) (zrep CLUSTER_SIZE 0) k = Ok (0, bs, k') /\
      decode_table bs = t' /\ quiet_kernel k k';

  getchar_law k c rest : keys k = c :: rest ->
    exists k', sys_getchar k = (c, k') /\ keys k' = rest /\
      forall p t v, at_directory k p t v -> at_directory k' p t v;
  putchar_law c color p k : quiet_kernel k (sys_putchar c color p k).2;
  puts_law text color p k : quiet_kernel k (sys_puts text color p k).2;
  move_cursor_law row col color k : quiet_kernel k (sys_move_cursor row col color k);
  keyboard_on_law k : quiet_kernel k (sys_keyboard_on k);
  clear_law k : quiet_kernel k (sys_clear k);
  ps_law p k : quiet_kernel k (sys_ps p k).2
}.

(** What is assumed of the storage the shell does not initialise: the first
    character is not a line's end, and arrays have their sizes. *)
Class ShellEnvironmentOk `{ShellEnvironment} : Prop := {
  first_buf_ok : first_buf <> 10;
  after_root_ok : zlen after_root = 3;
  stack_junk_ok n : 0 <= n -> zlen (stack_junk n) = n /\ all_bytes (stack_junk n)
}.

Section Output.
Context {K : Type} `{ShellKernelLaws K} `{ShellEnvironment}.
Implicit Types (s : Shell K) (k : K).

(** ** Output leaves the files and the keys *)

Record Stays s s' : Prop := {
  stays_directory p t v : at_directory (kern s) p t v -> at_directory (kern s') p t v;
  stays_table : current_dir s' = current_dir s;
  stays_cwd : current_working_directory s' = current_working_directory s
}.
Record Quiet s s' : Prop := {
  quiet_keys : keys (kern s') = keys (kern s);
  quiet_stays : Stays s s'
}.
#[export] Instance Stays_preorder : PreOrder Stays.
Proof.
  split; [by split |]. intros s1 s2 s3 [D1 T1 W1] [D2 T2 W2]. split; [auto | congruence | congruence].
Qed.
#[export] Instance Quiet_preorder : PreOrder Quiet.
Proof.
  split; [by split |]. intros s1 s2 s3 [K1 S1] [K2 S2]. split; [congruence | by transitivity s2].
Qed.

(** A computation that always ends and leaves them. *)
Definition quiet {A} (c : Eff (Shell K) A) : Prop := forall s, wp c (fun _ s' => Quiet s s') s.

Lemma quiet_wp {A} (c : Eff (Shell K) A) (Q : A -> Shell K -> Prop) s :
  quiet c -> (forall a s', Quiet s s' -> Q a s') -> wp c Q s.
Proof. intros Hc HQ. apply (wp_mono c (fun _ s' => Quiet s s')); [apply Hc | auto]. Qed.

Lemma quiet_ret {A} (a : A) : quiet (ret a).
Proof. intros s. by apply wp_ret. Qed.
Lemma quiet_bind {A B} (c : Eff (Shell K) A) (f : A -> Eff (Shell K) B) :
  quiet c -> (forall a, quiet (f a)) -> quiet (bind c f).
Proof.
  intros Hc Hf s. apply wp_bind, (quiet_wp _ _ _ Hc). intros a s' Hs'.
  apply (quiet_wp _ _ _ (Hf a)). intros b s'' Hs''. by transitivity s'.
Qed.
Lemma quiet_gets {A} (f : Shell K -> A) : quiet (gets f).
Proof. intros s. by apply wp_gets. Qed.
Lemma quiet_modify (f : Shell K -> Shell K) : (forall s, Quiet s (f s)) -> quiet (modify f).
Proof. intros Hf s. apply wp_modify, Hf. Qed.
Lemma quiet_print (c : CP -> K -> CP * K) : (forall p k, quiet_kernel k (c p k).2) -> quiet (call_print c).
Proof.
  intros Hc. apply quiet_modify. intros s. specialize (Hc (cursor_position s) (kern s)).
  destruct (c _ _) as [p k]. destruct Hc as [Hk Hd]. split; [done | by split].
Qed.
Lemma quiet_unit (c : K -> K) : (forall k, quiet_kernel k (c k)) -> quiet (call_unit c).
Proof. intros Hc. apply quiet_modify. intros s. destruct (Hc (kern s)). split; [done | by split]. Qed.
Lemma quiet_puts text color : quiet (puts text color).
Proof. apply quiet_print. intros p k. apply puts_law. Qed.
Lemma quiet_putchar c color : quiet (putchar c color).
Proof. apply quiet_print. intros p k. apply putchar_law. Qed.
Lemma quiet_new_line : quiet new_line.
Proof. by apply quiet_modify. Qed.
Lemma quiet_home : quiet home.
Proof. by apply quiet_modify. Qed.
Lemma quiet_add_col n : quiet (add_col n).
Proof. by apply quiet_modify. Qed.
Lemma quiet_move_to_cursor : quiet move_to_cursor.
Proof. apply quiet_bind; [apply quiet_gets |]. intros p. apply quiet_unit. intros k. apply move_cursor_law. Qed.
Lemma quiet_foldr {A} (f : A -> Eff (Shell K) unit) l :
  (forall x, quiet (f x)) -> quiet (foldr (fun x rest => f x ;;; rest) (ret tt) l).
Proof. intros Hf. induction l as [| x l IH]; [apply quiet_ret |]. by apply quiet_bind. Qed.
End Output.

Create HintDb quiet.
#[export] Hint Resolve quiet_ret quiet_gets quiet_puts quiet_putchar quiet_new_line quiet_home
  quiet_add_col quiet_move_to_cursor : quiet.
(** A computation made of quiet ones. *)
Ltac solve_quiet :=
  repeat first
    [ solve [eauto with quiet]
    | apply quiet_bind; [| intros ?]
    | match goal with |- quiet (if ?b then _ else _) => destruct b end ].

(** ** The line editor

    The line that a sequence of polls types: zeros are polls without a key, a
    backspace takes the last character away. *)
Definition type_key (text : list Z) (c : Z) : list Z :=
  if c =? 0 then text else if c =? 8 then ztake (zlen text - 1) text else text ++ [c].
Definition typed (polls : list Z) : list Z := foldl type_key [] polls.

(** The text of a command. What is behind it in the buffer is left from keys taken
    back. *)
Definition text_of (cmd : CommandStruct) : list Z := ztake (line_len cmd) (line cmd).
Record line_buffer (cmd : CommandStruct) : Prop := {
  lb_size : zlen (line cmd) = COMMAND_SIZE;
  lb_len : 0 <= line_len cmd <= COMMAND_SIZE;
  lb_no_zero : Forall (fun b => b <> 0) (text_of cmd)
}.

Lemma zlen_text cmd : line_buffer cmd -> zlen (text_of cmd) = line_len cmd.
Proof. intros [Hs Hl _]. unfold text_of. rewrite zlen_ztake. lia. Qed.

Lemma ztake_zset_next (l : list Z) n c :
  0 <= n < zlen l -> ztake (n + 1) l.[n := c] = ztake n l ++ [c].
Proof.
  intros Hn. apply zget_ext. intros j.
  destruct (decide (0 <= j < n + 1)) as [Hj | Hj].
  - rewrite zget_ztake, zget_zset by lia. case_decide as Hd.
    + destruct Hd as [<- _]. rewrite zget_app_r by (rewrite zlen_ztake; lia).
      rewrite zlen_ztake. by replace (n - Z.min (Z.max 0 n) (zlen l)) with 0 by lia.
    + rewrite zget_app_l by (rewrite zlen_ztake; lia). by rewrite zget_ztake by lia.
  - rewrite !zget_None; [done | rewrite zlen_app, zlen_ztake; change (zlen [c]) with 1; lia
      | rewrite zlen_ztake, zlen_zset; lia].
Qed.
Lemma ztake_zset_beyond (l : list Z) n k c : n <= k -> ztake n l.[k := c] = ztake n l.
Proof.
  intros Hn. apply zget_ext. intros j. destruct (decide (j < n)) as [Hj | Hj].
  - rewrite !zget_ztake by lia. apply zget_zset_ne. lia.
  - rewrite !zget_None; rewrite ?zlen_ztake, ?zlen_zset; done || lia.
Qed.
Lemma ztake_ztake n k (l : list Z) : n <= k -> ztake n (ztake k l) = ztake n l.
Proof. intros Hn. unfold ztake. rewrite take_take. f_equal. lia. Qed.

(** Storing a key edits the text. *)
Lemma store_key_spec c cmd :
  line_buffer cmd -> line_len cmd < COMMAND_SIZE -> c <> 0 ->
  exists cmd', store_key c cmd = Ok cmd' /\ line_buffer cmd' /\ text_of cmd' = type_key (text_of cmd) c /\
    argument_neff cmd' = argument_neff cmd /\ line_len cmd' <= line_len cmd + 1.
Proof.
  intros Hb Hlt Hc. pose proof (zlen_text cmd Hb) as Hlen. destruct Hb as [Hs Hl Hz].
  unfold store_key, type_key. rewrite (proj2 (Z.eqb_neq c 0)) by done. rewrite Hlen.
  destruct (c =? 8) eqn:Hbs.
  - destruct (Z.ltb_spec 0 (line_len cmd)) as [Hpos | Hzero].
    + rewrite decide_True by lia. eexists. split; [done |].
      assert (Htext : ztake (line_len cmd - 1) (line cmd).[line_len cmd := 0] =
        ztake (line_len cmd - 1) (text_of cmd)).
      { unfold text_of. by rewrite ztake_zset_beyond, ztake_ztake by lia. }
      split_and!; cbn [line line_len argument_neff text_of]; try done; [| lia].
      split; cbn [line line_len text_of]; [by rewrite zlen_zset | lia |].
      unfold text_of at 1. cbn [line line_len]. rewrite Htext. by apply Forall_take.
    + eexists. split; [done |]. split_and!; try done; [| lia].
      rewrite (zlen_0_inv (text_of cmd)) by lia. unfold ztake. by rewrite take_nil.
  - rewrite decide_True by lia. eexists. split; [done |].
    assert (Htext : ztake (line_len cmd + 1) (line cmd).[line_len cmd := c] = text_of cmd ++ [c])
      by (apply ztake_zset_next; lia).
    split_and!; cbn [line line_len argument_neff text_of]; try done.
    split; cbn [line line_len text_of]; [by rewrite zlen_zset | lia |].
    unfold text_of at 1. cbn [line line_len]. rewrite Htext. apply Forall_app. split; [done | by constructor].
Qed.

Section Editor.
Context {K : Type} `{ShellKernelLaws K} `{ShellEnvironment}.
Implicit Types (s : Shell K).

Lemma quiet_handle_keyboard_input c : quiet (handle_keyboard_input c).
Proof. unfold handle_keyboard_input. solve_quiet. Qed.

Lemma read_keys_spec polls : forall fuel b cmd rest s,
  Forall (fun c => c <> 10) polls -> b <> 10 -> line_buffer cmd ->
  line_len cmd + zlen polls < COMMAND_SIZE -> (length polls + 1 < fuel)%nat ->
  keys (kern s) = polls ++ 10 :: rest ->
  wp (read_keys fuel b cmd) (fun cmd' s' =>
    line_buffer cmd' /\ text_of cmd' = foldl type_key (text_of cmd) polls /\
    argument_neff cmd' = argument_neff cmd /\ line_len cmd' < COMMAND_SIZE /\
    keys (kern s') = rest /\ Stays s s') s.
Proof.
  induction polls as [| c polls IH]; intros [| fuel] b cmd rest s Hno Hb10 Hcmd Hlen Hfuel Hkeys;
    cbn [length] in Hfuel; try lia; cbn [read_keys app] in *; rewrite (proj2 (Z.eqb_neq b 10)) by done;
    destruct (getchar_law _ _ _ Hkeys) as (k1 & Hget & Hk1 & Hd1); apply wp_bind; unfold wp at 1;
    rewrite Hget.
  - cbn [Z.eqb Pos.eqb negb andb]. destruct fuel; [lia |]. cbn [read_keys Z.eqb Pos.eqb].
    apply wp_ret. rewrite zlen_nil in Hlen. split_and!; try done; lia.
  - apply Forall_cons in Hno as [Hc Hno]. rewrite zlen_cons in Hlen. pose proof (zlen_nonneg polls).
    rewrite (proj2 (Z.eqb_neq c 10)) by done. cbn [negb]. rewrite andb_true_r. cbn [foldl].
    assert (Hstay : Stays s (set_kern k1 s)) by by split.
    destruct (Z.eqb_spec c 0) as [-> | Hc0]; cbn [negb].
    + eapply wp_mono; [apply (IH fuel 0 cmd rest (set_kern k1 s)); try done; lia |].
      intros cmd' s' (? & ? & ? & ? & ? & ?). split_and!; try done. by transitivity (set_kern k1 s).
    + apply wp_bind, (quiet_wp _ _ _ (quiet_handle_keyboard_input c)). intros _ s1 [Hq Hst1].
      destruct (store_key_spec c cmd Hcmd ltac:(lia) Hc0) as (cmd1 & Hst & Hb1 & Htext & Hn1 & Hl1).
      apply wp_bind, (wp_of_res _ cmd1); [exact Hst |].
      eapply wp_mono; [apply (IH fuel c cmd1 rest s1); try done; [lia.. | by rewrite Hq] |].
      intros cmd' s' (? & -> & -> & ? & ? & ?). split_and!; try done; [by rewrite Htext |].
      transitivity s1; [by transitivity (set_kern k1 s) | done].
Qed.

Lemma zero_command_buffer : line_buffer zero_command.
Proof. split; [done | cbn; unfold COMMAND_SIZE; lia | constructor]. Qed.

(** Reading a command: the line typed, split at its spaces. *)
Lemma get_command_spec polls rest s :
  let args := words_of (tail (pieces (typed polls))) in
  first_buf <> 10 -> Forall (fun c => c <> 10) polls -> zlen polls < COMMAND_SIZE ->
  (length polls + 1 < key_polls)%nat -> keys (kern s) = polls ++ 10 :: rest ->
  args_fit args = true ->
  wp (get_command zero_command zero_args) (fun '(cmd, l) s' =>
    (exists text, line cmd = typed polls ++ text) /\ zlen (typed polls) <= zlen (line cmd) /\
    line_len cmd = zlen (hd [] (pieces (typed polls))) /\
    argument_neff cmd = counted (tail (pieces (typed polls))) /\
    l = (arg_of <$> args) ++ zrep (DEFAULT_ARGS_COUNT - zlen args) zero_arg /\
    Forall (fun b => b <> 0) (typed polls) /\ keys (kern s') = rest /\ Stays s s') s.
Proof.
  intros args Hfirst Hno Hlen Hfuel Hkeys Hfit. unfold get_command. apply wp_bind.
  eapply wp_mono; [apply (read_keys_spec polls _ _ _ rest); try done; apply zero_command_buffer |].
  intros cmd s' (Hb & Htext & Hn & Hl & Hk & Hst). change (foldl _ _ polls) with (typed polls) in Htext.
  pose proof (lb_no_zero _ Hb) as Hz.
  assert (Hparse : parse_command cmd zero_args =
    Ok (mkCommand (line cmd) (zlen (hd [] (pieces (typed polls)))) (counted (tail (pieces (typed polls)))),
        (arg_of <$> words_of (tail (pieces (typed polls)))) ++
        zrep (DEFAULT_ARGS_COUNT - zlen (words_of (tail (pieces (typed polls))))) zero_arg)).
  { rewrite parse_command_splits; [| apply Hb | destruct Hb; lia | done | exact Hz].
    unfold parse_line. change (ztake (line_len cmd) (line cmd)) with (text_of cmd). rewrite Htext. fold args. by rewrite Hfit. }
  apply wp_bind, (wp_of_res _ _ _ _ Hparse). apply wp_bind, (quiet_wp _ _ _ quiet_new_line).
  intros _ s1 [Hq Hst1]. apply wp_ret. cbn [line line_len argument_neff]. rewrite Htext in Hz.
  assert (Hpre : line cmd = typed polls ++ zdrop (line_len cmd) (line cmd)).
  { rewrite <- Htext. symmetry. apply ztake_zdrop. }
  split_and!; try done; [by eexists | rewrite Hpre, zlen_app; pose proof (zlen_nonneg (zdrop (line_len cmd) (line cmd))); lia
    | congruence | by transitivity s'].
Qed.
End Editor.

(** ** The choice of a command *)

(** The first entry of a table whose name begins with the word. *)
Definition selected {C : Type} (w : list Z) (table : list (list Z * C)) : option C :=
  snd <$> head (filter (fun e => w `prefix_of` e.1) table).

Lemma selected_cons {C : Type} (w nm : list Z) (c : C) table :
  selected w ((nm, c) :: table) = if decide (w `prefix_of` nm) then Some c else selected w table.
Proof.
  unfold selected. case_decide as Hd; [by rewrite filter_cons_True | by rewrite filter_cons_False].
Qed.

(** [memcmp] of a word without zeros with a literal: equal when the literal begins
    with it; the literal's end stops the comparison. *)
Lemma memcmp_word w : forall pre l pre' nm,
  Forall (fun c => c <> 0) w -> zlen pre = zlen pre' ->
  exists r, memcmp_loop (length w) (zlen pre) (array_ptr (pre ++ w ++ l)) (array_ptr (pre' ++ nm ++ [0])) = Ok r /\
    (r = 0 <-> w `prefix_of` nm).
Proof.
  induction w as [| c w IH]; intros pre l pre' nm Hz Hpre; cbn [length memcmp_loop].
  { exists 0. split; [done |]. split; [intros _; apply prefix_nil | done]. }
  apply Forall_cons in Hz as [Hc Hz]. unfold array_ptr at 1 2. cbn [app].
  rewrite zget_here, Hpre. cbn [of_option res_bind].
  destruct nm as [| d nm]; cbn [app]; rewrite zget_here; cbn [of_option res_bind].
  - destruct (Z.ltb_spec c 0); [| destruct (Z.ltb_spec 0 c); [| lia]]; eexists; (split; [done |]);
      (split; [done | by intros ?%prefix_nil_inv]).
  - destruct (Z.ltb_spec c d); [| destruct (Z.ltb_spec d c)].
    1, 2: eexists; split; [done |]; split; [done |]; intros ?%prefix_cons_inv_1; lia.
    assert (c = d) as <- by lia.
    destruct (IH (pre ++ [c]) l (pre' ++ [c]) nm Hz) as (r & Hr & Hiff); [rewrite !zlen_app; lia |].
    rewrite zlen_app in Hr. change (zlen [c]) with 1 in Hr. rewrite <- !app_assoc in Hr. cbn [app] in Hr.
    exists r. rewrite <- Hpre. split; [exact Hr |]. rewrite Hiff. split.
    + intros Hp. by apply prefix_cons.
    + by intros ?%prefix_cons_inv_2.
Qed.

Section Dispatch.
Context {K : Type} `{ShellKernel K} `{ShellEnvironment}.
Implicit Types (s : Shell K).

Lemma dispatch_selects w l table (other : Eff (Shell K) unit) s :
  Forall (fun c => c <> 0) w ->
  dispatch (w ++ l) (zlen w) table other s = default other (selected w table) s.
Proof.
  intros Hz. induction table as [| [nm run] table IH]; cbn [dispatch]; [done |].
  destruct (memcmp_word w [] l [] nm Hz eq_refl) as (r & Hr & Hiff). change (zlen (@nil Z)) with 0 in Hr.
  cbn [app] in Hr.
  assert (Hcmp : array_cmp (w ++ l) (nm ++ [0]) (zlen w) = Ok r).
  { unfold array_cmp, memcmp, zlen at 1. by rewrite Nat2Z.id. }
  unfold bind, of_res at 1. rewrite Hcmp, selected_cons.
  destruct (Z.eqb_spec r 0) as [Hr0 | Hr0]; case_decide; try tauto.
Qed.

(** C22. The shell runs the first command of its table whose name begins with the word
    typed; if there is none it prints that the command is unknown. A word that is
    longer than a name is not compared beyond the name's end. *)
Theorem dispatch_spec (cmd : CommandStruct) table (other : Eff (Shell K) unit) s
    (Hlen : 0 <= line_len cmd <= zlen (line cmd)) (Hz : Forall (fun c => c <> 0) (text_of cmd)) :
  dispatch (line cmd) (line_len cmd) table other s = default other (selected (text_of cmd) table) s.
Proof.
  rewrite <- (ztake_zdrop (line_len cmd) (line cmd)) at 1. fold (text_of cmd).
  replace (line_len cmd) with (zlen (text_of cmd)) at 2 by (unfold text_of; rewrite zlen_ztake; lia).
  by apply dispatch_selects.
Qed.
End Dispatch.
