(* ===== verification/ShellPath.v ===== *)
(** ShellPath: the shell's current path, and the search for a name below it. *)

From Stdlib Require Import ZArith Lia.
From stdpp Require Import base tactics numbers strings list.
From S2P Require Import Prelude Memory CString Disk FatLayout Fat32.
From S2P Require Import Shell.
From S2P Require Import ShellParse.

(** ** Well-formed paths *)

Record arg_ok (a : Arg) : Prop := { arg_info : zlen (info a) = 8; arg_len : 0 <= len_info a <= 8 }.
Record path_ok (w : CurrentWorkingDirectory) : Prop := {
  path_size : zlen (path w) = 10;
  path_neff : 1 <= neff w <= 10;
  path_args : Forall arg_ok (path w);
  path_root : exists a, (path w).[0] = Some a /\ ztake 4 (info a) = root_text
}.

Lemma path_text_length l :
  Forall arg_ok l -> exists t, path_text l = Ok t /\ zlen t <= 9 * zlen l /\ (l <> [] -> 1 <= zlen t).
Proof.
  intros Hl. induction Hl as [| a l [Hi Hn] Hl (t & Ht & Hlen & _)]; cbn [path_text].
  { exists []. split_and!; [done | by cbn | done]. }
  unfold arg_text. rewrite decide_True by lia. rewrite Ht. cbn [res_bind]. eexists. split; [done |].
  pose proof (zlen_nonneg t). rewrite !zlen_app, zlen_ztake. change (zlen [47]) with 1. rewrite zlen_cons.
  split; [lia | intros _; lia].
Qed.

Lemma path_text_ok w :
  path_ok w -> exists t, path_text (ztake (neff w) (path w)) = Ok t /\ 1 <= zlen t <= 90.
Proof.
  intros [Hs Hn Ha _].
  destruct (path_text_length (ztake (neff w) (path w))) as (t & Ht & Hlen & Hpos); [by apply Forall_take |].
  exists t. split; [done |]. rewrite zlen_ztake in Hlen. split; [| lia]. apply Hpos. intros Hnil.
  apply (f_equal zlen) in Hnil. rewrite zlen_ztake in Hnil. change (zlen []) with 0 in Hnil. lia.
Qed.
Lemma prompt_path_ok w : path_ok w -> exists t, prompt_path w = Ok t.
Proof.
  intros Hw. pose proof Hw as [Hs Hn _ _]. destruct (path_text_ok w Hw) as (t & Ht & _).
  unfold prompt_path. rewrite decide_True by lia. rewrite Ht. by eexists.
Qed.

(** C25. The prompt's text fits its array [path[1000]]: for a well-formed path the loop
    stores at most 90 characters, of which the last slash is not printed. *)
Theorem prompt_bounds (w : CurrentWorkingDirectory) (Hw : path_ok w) :
  exists t, path_text (ztake (neff w) (path w)) = Ok t /\ 1 <= zlen t <= 90 /\
    prompt_path w = Ok (ztake (zlen t - 1) t).
Proof.
  pose proof Hw as [Hs Hn Ha _]. destruct (path_text_ok w Hw) as (t & Ht & Hlen).
  exists t. split; [done |]. split; [lia |]. unfold prompt_path. rewrite decide_True by lia. by rewrite Ht.
Qed.

(** ** Steps *)

(** What [cd] does to the path: up to the parent, down to a directory. *)
Inductive PathStep : Type := Up | Down (argument : Arg).
Definition path_step (st : PathStep) (w : CurrentWorkingDirectory) : Res CurrentWorkingDirectory :=
  match st with
  | Up => path_up w
  | Down argument => path_down argument w
  end.
Definition step_ok (st : PathStep) : Prop := if st is Down argument then arg_ok argument else True.

Lemma array_cmp_root l :
  8 <= zlen l -> exists r, array_cmp l root_text 4 = Ok r /\ (r = 0 <-> ztake 4 l = root_text).
Proof.
  intros Hl. unfold array_cmp, memcmp.
  destruct (memcmp_loop_zero (Z.to_nat 4) 0 l root_text) as (r & Hr & Hiff); [done | lia | by vm_compute |].
  exists r. split; [done |]. rewrite Hiff. split.
  - intros Hj. apply zget_ext. intros j. destruct (decide (0 <= j < 4)) as [? | ?].
    + rewrite zget_ztake by lia. apply Hj. lia.
    + rewrite !zget_None; [done | change (zlen root_text) with 4; lia | rewrite zlen_ztake; lia].
  - intros Heq j Hj. rewrite <- Heq, zget_ztake by lia. done.
Qed.

Lemma path_ok_set w i a n :
  path_ok w -> arg_ok a -> 1 <= n <= 10 -> 1 <= i -> path_ok (set_path i a n w).
Proof.
  intros [Hs Hn Ha (r & Hr & Hroot)] Hok Hn' Hi. split; cbn [path neff set_path].
  - by rewrite zlen_zset.
  - done.
  - by apply Forall_zset.
  - exists r. split; [| done]. rewrite zget_zset_ne; [done | lia].
Qed.
Lemma arg_ok_at w i : path_ok w -> 0 <= i < 10 -> exists a, path_at w i = Ok a /\ (path w).[i] = Some a /\ arg_ok a.
Proof.
  intros [Hs _ Ha _] Hi. destruct (zget_is_Some (path w) i) as [a Hget]; [lia |].
  exists a. unfold path_at. rewrite Hget. split_and!; [done | done | by apply (Forall_zget _ _ _ _ Ha Hget)].
Qed.

(** A component is entered by copying its eight characters. *)
Lemma path_down_run w argument :
  path_ok w -> arg_ok argument -> neff w < 10 ->
  exists a, arg_ok a /\ info a = info argument /\ len_info a = len_info argument /\
    path_down argument w = Ok (set_path (neff w) a (neff w + 1) w).
Proof.
  intros Hw [Hi Hl] Hlt. pose proof (path_neff _ Hw) as Hn.
  destruct (arg_ok_at w (neff w) Hw ltac:(lia)) as (slot & Hat & _ & [Hsi Hsl]).
  unfold path_down. rewrite Hat. cbn [res_bind].
  unfold array_copy. rewrite decide_True by lia. cbn [res_bind].
  eexists. split; [| split; [| split; [| reflexivity]]]; cbn [set_info set_len_info info len_info].
  - split; cbn [set_info set_len_info info len_info]; [| lia]. rewrite zlen_app, zlen_ztake, zlen_zdrop. lia.
  - rewrite (ztake_all 8) by lia. rewrite (zlen_0_inv (zdrop 8 (info slot))) by (rewrite zlen_zdrop; lia).
    apply app_nil_r.
  - done.
Qed.
Lemma path_up_run w :
  path_ok w -> exists a, (path w).[neff w - 1] = Some a /\ arg_ok a /\
    path_up w = Ok (if decide (ztake 4 (info a) = root_text) then w else set_path (neff w - 1) zero_arg (neff w - 1) w).
Proof.
  intros Hw. pose proof (path_neff _ Hw) as Hn.
  destruct (arg_ok_at w (neff w - 1) Hw ltac:(lia)) as (a & Hat & Hget & Ha).
  exists a. split; [done |]. split; [done |]. unfold path_up. rewrite Hat. cbn [res_bind].
  destruct (array_cmp_root (info a)) as (r & Hr & Hiff); [destruct Ha; lia |].
  rewrite Hr. cbn [res_bind]. destruct (Z.eqb_spec r 0) as [Hz | Hz]; case_decide; cbn [negb]; tauto.
Qed.

Lemma zero_arg_ok : arg_ok zero_arg.
Proof. by split. Qed.

(** C24. A step keeps the path well-formed: it has between one and ten components, the
    first of them the root, each of at most eight characters. The one exception is
    to enter a directory from a path of ten components, which writes behind the
    array. *)
Theorem path_step_ok (st : PathStep) (w : CurrentWorkingDirectory) (Hw : path_ok w) (Hst : step_ok st) :
  match path_step st w with
  | Ok w' => path_ok w'
  | Fault e => e = BadAccess /\ neff w = 10 /\ st <> Up
  end.
Proof.
  pose proof (path_neff _ Hw) as Hn. destruct st as [| argument]; cbn [path_step].
  - destruct (path_up_run w Hw) as (a & Ha & _ & ->). case_decide as Hroot; [done |].
    assert (neff w <> 1).
    { intros H1. destruct (path_root _ Hw) as (r & Hr & Hrt). rewrite H1, Z.sub_diag, Hr in Ha.
      by injection Ha as ->. }
    apply path_ok_set; [done | apply zero_arg_ok | lia | lia].
  - destruct (decide (neff w = 10)) as [H10 | Hlt].
    + unfold path_down, path_at. rewrite zget_None by (rewrite (path_size _ Hw); lia). done.
    + destruct (path_down_run w argument Hw Hst ltac:(lia)) as (a & Ha & _ & _ & ->).
      apply path_ok_set; [done | done | lia | lia].
Qed.

(** Entering a directory and leaving it again. *)
Lemma path_up_after_down w argument :
  path_ok w -> arg_ok argument -> neff w < 10 -> (path w).[neff w] = Some zero_arg ->
  exists w', path_down argument w = Ok w' /\
    path_up w' = Ok (if decide (ztake 4 (info argument) = root_text) then w' else w).
Proof.
  intros Hw Ha Hlt Hfree.
  pose proof (path_neff _ Hw) as Hn.
  destruct (path_down_run w argument Hw Ha Hlt) as (a & Haok & Hinfo & _ & Hdown).
  eexists. split; [exact Hdown |].
  assert (Hw' : path_ok (set_path (neff w) a (neff w + 1) w)) by (apply path_ok_set; done || lia).
  destruct (path_up_run _ Hw') as (b & Hb & _ & ->). cbn [path neff set_path] in *.
  replace (neff w + 1 - 1) with (neff w) in * by lia.
  rewrite zget_zset_eq in Hb by (rewrite (path_size _ Hw); lia). injection Hb as <-.
  rewrite Hinfo. f_equal. case_decide; [done |]. unfold set_path. cbn [path].
  rewrite zset_zset, zset_id by done. by destruct w.
Qed.

(** ** The search

    Every level of the search enters a component in a path of ten, so the fuel
    outlasts the array. *)
Section Find.
Context {K : Type} `{ShellKernel K} `{ShellEnvironment}.
Context (Hread : forall request b (k : K), sys_read_directory request b k <> Fault Stuck).

Lemma path_at_not_stuck w i : path_at w i <> Fault Stuck.
Proof. unfold path_at. by destruct ((path w).[i]). Qed.

Lemma bind_not_stuck {S A B : Type} (c : Eff S A) (f : A -> Eff S B) s :
  c s <> Fault Stuck -> (forall a s', c s = Ok (a, s') -> f a s' <> Fault Stuck) -> bind c f s <> Fault Stuck.
Proof.
  intros Hc Hf. unfold bind. destruct (c s) as [[a s'] | e]; [by apply Hf |].
  intros [= ->]. by apply Hc.
Qed.

Lemma find_recursive_ends fuel : forall w t a (s : Shell K),
  zlen (path w) = 10 -> 0 <= neff w <= 10 -> (Z.to_nat (10 - neff w) < fuel)%nat ->
  find_recursive fuel w t a s <> Fault Stuck.
Proof.
  induction fuel as [| fuel IH]; intros w t a s Hsize Hn Hf; [lia |]. cbn [find_recursive].
  revert s. induction (seqZ 2 62) as [| i l IHl]; intros s; cbn [foldr]; [done |].
  destruct (negb _); [apply IHl |]. destruct (_ && _); [done |]. destruct (_ =? _); [| apply IHl].
  apply bind_not_stuck.
  { unfold call_bytes. pose proof (Hread (directory_request (name (row t i)) (get_cluster_number_self (row t i)))
      (stack_junk CLUSTER_SIZE) (kern s)) as Hr. destruct (sys_read_directory _ _ _) as [[[r b] k] | e]; [done |]. congruence. }
  intros r s1 _. apply bind_not_stuck.
  { unfold of_res. intros Hstuck. destruct (path_at w (neff w)) as [x | e] eqn:Hat; [done |].
    injection Hstuck as ->. by apply (path_at_not_stuck w (neff w)). }
  intros slot s2 Hat. assert (Hlt : neff w < 10).
  { unfold of_res, path_at in Hat. destruct ((path w).[neff w]) as [x |] eqn:Hx; [| done].
    apply zget_range in Hx. lia. }
  apply bind_not_stuck.
  - apply IH; cbn [set_path path neff]; [by rewrite zlen_zset | lia | lia].
  - intros [w' |] s3 _; [done | apply IHl].
Qed.

End Find.
