(* ===== verification/ShellFiles.v ===== *)
(** ShellFiles: what the lines typed at the shell do to the current directory. *)

From Stdlib Require Import ZArith Lia.
From stdpp Require Import base tactics numbers strings list gmap.
From S2P Require Import Prelude Memory CString Disk FatLayout Fat32 FatLogic FatChain FatWrite.
From S2P Require Import FatRead FatDelete FatVolume.
From S2P Require Import Shell.
From S2P Require Import ShellParse.
From S2P Require Import ShellSpec.
From S2P Require Import ShellPath.
#[local] Open Scope eff_scope.

(** ** The specification: typed lines as operations on the map *)

Inductive Verb : Type := Cat | Ls | Mkdir | Cd | Rm | Mv | Find | Clear | Exec | Ps | Kill | Apple | Cp.
Definition verbs : list (list Z * Verb) :=
  [(str "cat", Cat); (str "ls", Ls); (str "mkdir", Mkdir); (str "cd", Cd); (str "rm", Rm); (str "mv", Mv);
   (str "find", Find); (str "clear", Clear); (str "exec", Exec); (str "ps", Ps); (str "kill", Kill);
   (str "apple", Apple); (str "cp", Cp)].

(** The name an argument gives: its characters, filled up with zeros. *)
Definition pad (w : list Z) : list Z := w ++ zrep (8 - zlen w) 0.
Definition nth_name (args : list (list Z)) (i : Z) : list Z := pad (znth [] args i).

Section Specification.
Context `{ShellEnvironment}.
Implicit Types (v : Volume) (p : Z).

(** What [mv] and [cp] write at the new name: the file when it fits one cluster;
    for a larger file [mv] has zeros and for a missing one what is on the stack. *)
Definition moved v (a : list Z) : list Z :=
  match node_at v a with
  | Some (File sz bytes) => if CLUSTER_SIZE <? sz then zrep CLUSTER_SIZE 0 else bytes
  | _ => stack_junk CLUSTER_SIZE
  end.
Definition write_effect p v (b data : list Z) : Volume :=
  (vol_step v (CallWrite (file_request b p CLUSTER_SIZE) data)).1.2.
Definition remove_effect p v (a : list Z) : Volume :=
  (vol_step v (CallDelete (file_request a p CLUSTER_SIZE))).1.2.
Definition transfer_effect (keep : bool) p v (a b : list Z) : Volume :=
  match node_at v b with
  | None => write_effect p (if keep then v else remove_effect p v a) b (moved v a)
  | Some _ => v
  end.

Definition verb_effect p v (verb : Verb) (args : list (list Z)) : Volume :=
  let a := nth_name args 0 in
  let b := nth_name args 1 in
  match verb with
  | Mkdir => (vol_step v (CallWrite (file_request a p 0) [])).1.2
  | Rm => (vol_step v (CallDelete (file_request a p 0))).1.2
  | Mv => transfer_effect false p v a b
  | _ => v
  end.

Definition no_folder v (a : list Z) : Prop := forall e, node_at v a <> Some (Folder e).
(** A file of one cluster at most. *)
Definition one_cluster v (a : list Z) : Prop :=
  forall sz bytes, node_at v a = Some (File sz bytes) -> sz <= CLUSTER_SIZE.

(** The lines described here: names a directory can have, room for what is
    written, no directory as a file. The commands that leave the directory are not
    among them, nor is [cp], which leaves the shell with an old table (see
    [cp_not_listed]). [n] is the number of arguments counted. *)
Definition verb_ok v (verb : Verb) (n : Z) (args : list (list Z)) : Prop :=
  let a := nth_name args 0 in
  let b := nth_name args 1 in
  match verb with
  | Ls | Clear | Ps => True
  | Cat => 0 < n -> name_ok v a /\ no_folder v a /\
      forall sz bytes, node_at v a = Some (File sz bytes) -> sz <= CLUSTER_SIZE /\ 0 ∈ bytes
  | Mkdir => name_ok v a /\ 1 <= vol_space v
  | Rm => name_ok v a
  | Mv => name_ok v a /\ name_ok v b /\ no_folder v a /\ no_folder v b /\ 1 <= vol_space v
  | Cp | Cd | Find | Exec | Kill | Apple => False
  end.

(** A line, as the polls of the keyboard that type it. *)
Definition line_effect p v (polls : list Z) : Volume :=
  let ps := pieces (typed polls) in
  match selected (hd [] ps) verbs with
  | Some verb => verb_effect p v verb (words_of (tail ps))
  | None => v
  end.
Record line_ok v (polls : list Z) : Prop := {
  lk_no_end : Forall (fun c => c <> 10) polls;
  lk_polls : (length polls + 1 < key_polls)%nat;
  lk_length : zlen polls < COMMAND_SIZE;
  lk_args : args_fit (words_of (tail (pieces (typed polls)))) = true;
  lk_verb :
    let ps := pieces (typed polls) in
    match selected (hd [] ps) verbs with
    | Some verb => verb_ok v verb (counted (tail ps)) (words_of (tail ps))
    | None => zlen (hd [] ps) + zlen not_found_text <= 2048
    end
}.

Definition session p v (lines : list (list Z)) : Volume := foldl (line_effect p) v lines.
Fixpoint session_ok p v (lines : list (list Z)) : Prop :=
  match lines with
  | [] => True
  | l :: rest => line_ok v l /\ session_ok p (line_effect p v l) rest
  end.
End Specification.

(** Files as [write] leaves them. *)
Record volume_ok (v : Volume) : Prop := {
  vo_file : forall nm sz bytes, node_at v nm = Some (File sz bytes) ->
    0 < sz <= CLUSTER_SIZE * CLUSTER_MAP_SIZE /\ zlen bytes = CLUSTER_SIZE * clusters_for sz /\ all_bytes bytes
}.

Lemma fresh_volume_ok : volume_ok fresh_volume.
Proof. split. intros nm sz bytes Hn. unfold node_at, fresh_volume in Hn. cbn in Hn. by rewrite lookup_empty in Hn. Qed.
Lemma name_ok_step v c nm : name_ok v nm -> name_ok (vol_step v c).1.2 nm.
Proof. intros [? ? ? ?]. split; try done. by rewrite vol_step_shadow. Qed.

Lemma file_bytes_one data :
  source_ok CLUSTER_SIZE data ->
  zlen (file_bytes CLUSTER_SIZE data) = CLUSTER_SIZE /\ all_bytes (file_bytes CLUSTER_SIZE data).
Proof.
  intros Hso. unfold file_bytes. change (clusters_for CLUSTER_SIZE) with 1. change (seqZ 0 1) with [0].
  unfold enc_all. cbn [fmap list_fmap concat]. rewrite app_nil_r.
  apply (file_part_ok CLUSTER_SIZE data 0); [done | done | by vm_compute].
Qed.

Lemma volume_ok_delete v request : volume_ok v -> volume_ok (vol_step v (CallDelete request)).1.2.
Proof.
  intros [Hf]. cbn [vol_step call_request].
  destruct (vol_nodes v !! _) as [[| []] |]; try done; split; intros nm sz bs Hl;
    unfold node_at in Hl; cbn [fst snd vol_nodes] in Hl; apply lookup_delete_Some in Hl as [_ Hl]; by apply (Hf nm).
Qed.
Lemma volume_ok_write v nm p size data :
  volume_ok v -> size = 0 \/ size = CLUSTER_SIZE /\ source_ok size data ->
  volume_ok (vol_step v (CallWrite (file_request nm p size) data)).1.2.
Proof.
  intros [Hf] Hsize. cbn [vol_step call_request]. case_decide; [done |].
  destruct (vol_nodes v !! _); [done |]. split. intros nm' sz bytes Hl.
  unfold node_at in Hl. cbn [fst snd vol_nodes] in Hl. apply lookup_insert_Some in Hl as [[_ Hl] | [_ Hl]]; [| by apply (Hf nm')].
  unfold new_node in Hl. cbn [buffer_size file_request] in Hl.
  destruct Hsize as [-> | [-> Hso]]; [done |]. change (CLUSTER_SIZE =? 0) with false in Hl.
  injection Hl as <- <-. split; [consts; lia | by apply file_bytes_one].
Qed.
Lemma delete_space v request : volume_ok v -> vol_space v <= vol_space (vol_step v (CallDelete request)).1.2.
Proof.
  intros _. cbn [vol_step call_request].
  destruct (vol_nodes v !! _) as [[sz bytes | []] |]; cbn [fst snd vol_space node_clusters]; try lia.
  pose proof (Z.div_pos (zlen bytes) CLUSTER_SIZE (zlen_nonneg bytes) ltac:(consts; lia)). lia.
Qed.

(** ** Arguments and rows *)

Lemma name_of_arg {K : Type} (w : list Z) : zlen w <= 8 -> @name_of K (arg_of w) = ret (pad w).
Proof.
  intros Hw. pose proof (zlen_nonneg w). unfold name_of, array_copy, arg_of. cbn [info len_info].
  rewrite zlen_app, !zlen_zrep by lia. rewrite decide_True by lia.
  rewrite ztake_app_eq by done. unfold pad.
  assert (zdrop (zlen w) (zrep 8 0) = zrep (8 - zlen w) 0) as ->; [| done].
  unfold zdrop, zrep. rewrite drop_replicate. f_equal. lia.
Qed.
Lemma ext_of_none {K : Type} (l : list Z) : @ext_of K l 0 = ret (zrep 3 0).
Proof. unfold ext_of, array_copy. pose proof (zlen_nonneg l). by rewrite decide_True by (change (zlen (zrep 3 0)) with 3; lia). Qed.

Lemma args_fit_nth (ws : list (list Z)) i : args_fit ws = true -> zlen (znth [] ws i) <= 8.
Proof.
  unfold args_fit, znth. intros [Hf _]%andb_true_iff.
  destruct (ws.[i]) as [w |] eqn:Hw; cbn [default from_option id]; [| rewrite zlen_nil; lia].
  apply zget_elem in Hw. rewrite forallb_forall in Hf.
  apply Z.leb_le, Hf. by apply list_elem_of_In.
Qed.
Lemma znth_args (ws : list (list Z)) n i :
  0 <= i < 2 -> zlen ws + n = DEFAULT_ARGS_COUNT -> znth zero_arg ((arg_of <$> ws) ++ zrep n zero_arg) i =
  arg_of (znth [] ws i).
Proof.
  intros Hi Hn. unfold znth, DEFAULT_ARGS_COUNT in *. destruct (Z.lt_ge_cases i (zlen ws)) as [Hlt | Hge].
  - rewrite zget_app_l by (by rewrite zlen_fmap). rewrite zget_fmap. by destruct (zget_is_Some ws i ltac:(lia)) as [w ->].
  - rewrite zget_app_r by (by rewrite zlen_fmap). rewrite zlen_fmap, zget_zrep by lia.
    by rewrite (zget_None ws) by lia.
Qed.

Lemma pad_length w : zlen w <= 8 -> zlen (pad w) = 8.
Proof. intros. pose proof (zlen_nonneg w). unfold pad. rewrite zlen_app, zlen_zrep by lia. lia. Qed.

Section Rows.
Context {K : Type} `{ShellKernelLaws K} `{!ShellEnvironment} `{!ShellEnvironmentOk}.
Implicit Types (s : Shell K) (v : Volume) (p : Z).

(** [get_entry_row] finds what the file system finds. *)
Lemma entry_row_unfold w s p size :
  get_entry_row (arg_of w) s =
  Ok (default (u32 (-1)) (find_entry 2 (current_dir s) (file_request (pad w) p size)), s).
Proof. reflexivity. Qed.

(** The row an argument's clusters are taken from. *)
Lemma row_of_argument k p t v w :
  at_directory k p t v -> name_ok v (pad w) ->
  let e := table_row t (default (u32 (-1)) (find_entry 2 t (file_request (pad w) p CLUSTER_SIZE))) in
  match node_at v (pad w) with
  | None => find_entry 2 t (file_request (pad w) p CLUSTER_SIZE) = None /\ e = empty_entry
  | Some nd => default (u32 (-1)) (find_entry 2 t (file_request (pad w) p CLUSTER_SIZE)) <> u32 (-1) /\ row_shows e nd
  end.
Proof.
  intros Hd Hn. pose proof (directory_shows _ _ _ _ Hd (pad w) p CLUSTER_SIZE Hn) as Hs.
  destruct (node_at v (pad w)) as [nd |].
  - destruct Hs as (i & Hfind & Hrow). rewrite Hfind. cbn [default from_option id].
    apply for_find_Some in Hfind as (Hi & _).
    assert (i <> u32 (-1)) by (change (u32 (-1)) with 4294967295; lia).
    unfold table_row. rewrite (proj2 (Z.eqb_neq i (u32 (-1)))) by done. done.
  - by rewrite Hs.
Qed.

(** ** The directory after a change

    [Stale s p t v]: the kernel has the directory's table [t]; the shell's copy
    may be an older one of the same directory. *)
Definition Stale s p (t : list FAT32DirectoryEntry) v : Prop :=
  at_directory (kern s) p t v /\ row t 0 = row (current_dir s) 0.

(** What a command promises: the map, the rest of the input, the path. *)
Definition ends_with (p : Z) v s (s' : Shell K) : Prop :=
  at_directory (kern s') p (current_dir s') v /\ keys (kern s') = keys (kern s) /\
  current_working_directory s' = current_working_directory s.

(** The row of a table that a name opens: the first one with the name. *)
Record opens (t : list FAT32DirectoryEntry) (nm : list Z) (i : Z) : Prop := {
  op_row : 0 <= i < DIR_ENTRIES;
  op_name : name (row t i) = nm;
  op_folder : is_folder_row (row t i) = true;
  op_first j : 0 <= j < i -> name (row t j) <> nm
}.

Lemma named k p t v nm i :
  at_directory k p t v -> zlen nm = 8 -> 0 <= i < DIR_ENTRIES ->
  mem_eq (name (row t i)) nm 8 = true <-> name (row t i) = nm.
Proof. intros Hd Hnm Hi. apply mem_eq_full; [by apply (directory_names _ _ _ _ _ Hd) | done]. Qed.
Lemma opens_find k p t v nm i :
  at_directory k p t v -> zlen nm = 8 -> opens t nm i ->
  for_find 0 DIR_ENTRIES (fun j => mem_eq (name (row t j)) nm 8) = Some i.
Proof.
  intros Hd Hnm [Hi Hn _ Hfirst]. apply for_find_Some. split; [lia |]. split.
  - by apply (named _ _ _ _ _ _ Hd).
  - intros j Hj. apply not_true_is_false. rewrite (named _ _ _ _ _ _ Hd) by (done || lia). apply Hfirst. lia.
Qed.
Lemma folder_row_attribute e : is_folder_row e = true -> attribute e = ATTR_SUBDIRECTORY.
Proof. unfold is_folder_row. by intros [_ ?%Z.eqb_eq]%andb_true_iff. Qed.
Lemma opens_self k p t v : at_directory k p t v -> opens t (name (row t 0)) 0.
Proof.
  intros Hd. split; [unfold DIR_ENTRIES; lia | done | | lia].
  exact (directory_flag _ _ _ _ Hd).
Qed.

(** Opening a directory makes its table the shell's. *)
Lemma read_current_dir_spec s p t v nm i t' v' :
  at_directory (kern s) p t v -> zlen nm = 8 -> opens t nm i ->
  at_directory (kern s) (entry_cluster (row t i)) t' v' ->
  wp (read_current_dir (directory_request nm p)) (fun _ s' =>
    current_dir s' = t' /\ quiet_kernel (kern s) (kern s') /\
    current_working_directory s' = current_working_directory s) s.
Proof.
  intros Hd Hnm Hop Hd'.
  destruct (open_law _ p t v nm i t' v' Hd Hnm) as (bs & k' & Hrun & Hbs & Hq);
    [by apply (opens_find _ _ _ _ _ _ Hd) | by apply folder_row_attribute, Hop | done |].
  unfold read_current_dir. wp_step.
  apply (wp_intro _ _ _ (0, bs) (set_kern k' s)); [unfold call_bytes; by rewrite Hrun |].
  wp_step. cbn [snd]. by rewrite Hbs.
Qed.

Lemma cd_refresh_spec s p t v :
  Stale s p t v -> wp cd_refresh (fun _ s' => ends_with p v s s') s.
Proof.
  intros [Hd Hrow]. unfold cd_refresh, get_cluster_number. wp_step. wp_step. wp_step. wp_step.
  rewrite <- Hrow, (directory_self _ _ _ _ Hd).
  eapply wp_mono.
  - apply (read_current_dir_spec s p t v _ 0 t v); [done | | by apply (opens_self _ _ _ _ Hd) |].
    + apply (directory_names _ _ _ _ _ Hd). unfold DIR_ENTRIES. lia.
    + by rewrite (directory_self _ _ _ _ Hd).
  - intros _ s' (Ht & [Hk Hq] & Hw). split_and!; [rewrite Ht; by apply Hq | done | done].
Qed.

Lemma mkdir_spec w s p v :
  at_directory (kern s) p (current_dir s) v -> zlen w <= 8 -> name_ok v (pad w) -> 1 <= vol_space v ->
  wp (mkdir (arg_of w) ;;; cd_refresh) (fun _ s' =>
    ends_with p (vol_step v (CallWrite (file_request (pad w) p 0) [])).1.2 s s') s.
Proof.
  intros Hd Hw Hn Hsp. wp_step. unfold mkdir, get_cluster_number. wp_step. wp_step.
  rewrite name_of_arg, ext_of_none by done. wp_steps. rewrite (directory_self _ _ _ _ Hd).
  destruct (write_law (kern s) p (current_dir s) v (pad w) 0 [] Hd Hn ltac:(by left) Hsp)
    as (k' & t' & Hrun & Hk & Hd' & Hrow).
  apply (wp_intro _ _ _ (vol_step v (CallWrite (file_request (pad w) p 0) [])).1.1 (set_kern k' s)).
  { unfold call_code, file_request in *. by rewrite Hrun. }
  wp_step. eapply wp_mono; [by apply (cd_refresh_spec _ p t') |].
  intros _ s' (? & Hks & ?). split_and!; [done | | done]. by rewrite Hks.
Qed.

Lemma rm_spec w s p v :
  at_directory (kern s) p (current_dir s) v -> zlen w <= 8 -> name_ok v (pad w) ->
  wp (rm (arg_of w) ;;; cd_refresh) (fun _ s' =>
    ends_with p (vol_step v (CallDelete (file_request (pad w) p 0))).1.2 s s') s.
Proof.
  intros Hd Hw Hn. wp_step. unfold rm, get_cluster_number. wp_step. wp_step.
  rewrite name_of_arg, ext_of_none by done. wp_steps. rewrite (directory_self _ _ _ _ Hd).
  destruct (delete_law (kern s) p (current_dir s) v (pad w) 0 Hd Hn ltac:(lia))
    as (k' & t' & Hrun & Hk & Hd' & Hrow).
  apply (wp_intro _ _ _ (vol_step v (CallDelete (file_request (pad w) p 0))).1.1 (set_kern k' s)).
  { unfold call_code, file_request in *. by rewrite Hrun. }
  wp_step. eapply wp_mono; [by apply (cd_refresh_spec _ p t') |].
  intros _ s' (? & Hks & ?). split_and!; [done | | done]. by rewrite Hks.
Qed.

(** ** mv and cp *)

Lemma clusters_for_one sz : 0 < sz <= CLUSTER_SIZE -> clusters_for sz = 1.
Proof.
  intros Hsz. destruct (clusters_for_bounds sz) as (Hc1 & Hc2 & Hc3); [lia |]. revert Hc2 Hc3. consts. lia.
Qed.
Lemma clusters_of_for e : clusters_of e = clusters_for (filesize e).
Proof. reflexivity. Qed.

(** What the array holds that is written. *)
Definition after_read p v (a cl : list Z) : list Z :=
  overwrite (vol_step v (CallRead (file_request a p CLUSTER_SIZE))).2 cl.

Lemma moved_source v a : volume_ok v -> no_folder v a -> source_ok CLUSTER_SIZE (moved v a).
Proof.
  intros Hv Hf. unfold moved. destruct (node_at v a) as [[sz bytes | e] |] eqn:Ha.
  - destruct (vo_file v Hv a sz bytes Ha) as (Hsz & Hlen & Hby). destruct (Z.ltb_spec CLUSTER_SIZE sz).
    + split; [by vm_compute | by apply Forall_zrep].
    + rewrite clusters_for_one in Hlen by lia. split; [rewrite Hlen; by vm_compute | done].
  - by destruct (Hf e).
  - destruct (stack_junk_ok CLUSTER_SIZE ltac:(done)) as [Hl Hb]. split; [rewrite Hl; by vm_compute | done].
Qed.

Lemma remove_effect_facts p v a b :
  volume_ok v -> name_ok v b -> 1 <= vol_space v ->
  volume_ok (remove_effect p v a) /\ name_ok (remove_effect p v a) b /\ 1 <= vol_space (remove_effect p v a).
Proof.
  intros Hv Hn Hsp. split; [by apply volume_ok_delete | split; [by apply name_ok_step |]].
  pose proof (delete_space v (file_request a p CLUSTER_SIZE) Hv). unfold remove_effect. lia.
Qed.

(** The delete call that [mv] makes and [cp] does not. *)
Lemma source_kept_or_deleted (keep : bool) a s p t v :
  Stale s p t v -> name_ok v a ->
  wp (if keep then ret 0 else call_code (sys_delete (file_request a p CLUSTER_SIZE))) (fun _ s' =>
    (exists t', Stale s' p t' (if keep then v else remove_effect p v a)) /\ current_dir s' = current_dir s /\
    keys (kern s') = keys (kern s) /\ current_working_directory s' = current_working_directory s) s.
Proof.
  intros [Hd Hrow] Hn. destruct keep.
  - wp_step. split_and!; try done. by exists t.
  - destruct (delete_law (kern s) p t v a CLUSTER_SIZE Hd Hn ltac:(consts; lia)) as (k' & t' & Hrun & Hk & Hd' & Hr).
    apply (wp_intro _ _ _ (vol_step v (CallDelete (file_request a p CLUSTER_SIZE))).1.1 (set_kern k' s)).
    { unfold call_code. by rewrite Hrun. }
    split_and!; try done. exists t'. split; [done |]. cbn. congruence.
Qed.

Lemma write_moved b data s p t v :
  Stale s p t v -> name_ok v b -> 1 <= vol_space v -> source_ok CLUSTER_SIZE data ->
  wp (call_code (sys_write (file_request b p CLUSTER_SIZE) data)) (fun _ s' =>
    (exists t', Stale s' p t' (write_effect p v b data)) /\ current_dir s' = current_dir s /\
    keys (kern s') = keys (kern s) /\ current_working_directory s' = current_working_directory s) s.
Proof.
  intros [Hd Hrow] Hn Hsp Hso.
  destruct (write_law (kern s) p t v b CLUSTER_SIZE data Hd Hn ltac:(by right) Hsp) as (k' & t' & Hrun & Hk & Hd' & Hr).
  apply (wp_intro _ _ _ (vol_step v (CallWrite (file_request b p CLUSTER_SIZE) data)).1.1 (set_kern k' s)).
  { unfold call_code. by rewrite Hrun. }
  split_and!; try done. exists t'. split; [done |]. cbn. congruence.
Qed.

Lemma transfer_spec (keep : bool) cl wa wb s p v :
  at_directory (kern s) p (current_dir s) v -> volume_ok v -> zlen wa <= 8 -> zlen wb <= 8 ->
  name_ok v (pad wa) -> name_ok v (pad wb) -> no_folder v (pad wa) -> no_folder v (pad wb) ->
  1 <= vol_space v -> fits v (pad wa) cl -> all_bytes cl -> zlen cl <= ARRAY_MAX ->
  at_buf (after_read p v (pad wa) cl) = moved v (pad wa) ->
  wp (transfer keep cl (arg_of wa) (arg_of wb)) (fun _ s' =>
    (exists t, Stale s' p t (transfer_effect keep p v (pad wa) (pad wb))) /\ current_dir s' = current_dir s /\
    keys (kern s') = keys (kern s) /\ current_working_directory s' = current_working_directory s) s.
Proof.
  intros Hd Hv Hwa Hwb Hna Hnb Hfa Hfb Hsp Hfit Hby Hlen Hbuf.
  unfold transfer, get_cluster_number. wp_step. wp_step. rewrite name_of_arg by done. wp_steps.
  rewrite (directory_self _ _ _ _ Hd). eapply wp_intro; [apply (entry_row_unfold wb s p CLUSTER_SIZE) |].
  wp_steps. unfold transfer_effect.
  pose proof (row_of_argument (kern s) p (current_dir s) v wb Hd Hnb) as Hrow.
  destruct (node_at v (pad wb)) as [[szb bb | e] |] eqn:Hb; [| by destruct (Hfb e) |].
  - destruct Hrow as [Hi [Hattr _]]. rewrite (proj2 (Z.eqb_neq _ _) Hi), (proj2 (Z.eqb_neq _ _) Hattr).
    wp_step. split_and!; try done. exists (current_dir s). by split.
  - destruct Hrow as [-> _]. cbn [default from_option id]. rewrite Z.eqb_refl. wp_step.
    destruct (read_law (kern s) p (current_dir s) v (pad wa) cl Hd Hna Hfit Hby Hlen) as (k1 & Hrun & Hk1 & Hd1).
    eapply (wp_intro _ _ _ _ (set_kern k1 s)).
    { unfold call_bytes. fold (file_request (pad wa) p CLUSTER_SIZE). rewrite Hrun. reflexivity. }
    fold (after_read p v (pad wa) cl). cbn [snd]. rewrite Hbuf.
    wp_step. eapply wp_mono; [by apply (source_kept_or_deleted keep _ (set_kern k1 s) p (current_dir s) v) |].
    intros _ s2 ((t2 & Hst2) & Hc2 & Hk2 & Hw2). wp_step.
    unfold arg_of at 1. cbn [info]. fold (pad wb). rewrite ztake_all by (rewrite pad_length; lia).
    destruct (remove_effect_facts p v (pad wa) (pad wb) Hv Hnb Hsp) as (_ & Hnb' & Hsp').
    eapply wp_mono; [apply (write_moved _ _ s2 p t2); [exact Hst2 | by destruct keep | by destruct keep |] |].
    { by apply moved_source. }
    intros _ s3 ((t3 & Hst3) & Hc3 & Hk3 & Hw3). wp_step.
    split_and!; [by exists t3 | by rewrite Hc3, Hc2 | rewrite Hk3, Hk2; exact Hk1 | by rewrite Hw3, Hw2].
Qed.

(** The arrays of [mv], which is as large as the file, and of [cp]. *)
Lemma mv_array p v a n :
  volume_ok v -> no_folder v a ->
  match node_at v a with Some (File sz _) => n = clusters_for sz | Some (Folder _) => True | None => n = 0 end ->
  at_buf (after_read p v a (zrep (CLUSTER_SIZE * n) 0)) = moved v a.
Proof.
  intros Hv Hf Hn. unfold after_read, vol_step, moved. cbn [call_request file_request buffer_size].
  change (vol_nodes v !! request_key _) with (node_at v a).
  destruct (node_at v a) as [[sz bytes | e] |] eqn:Ha; [| by destruct (Hf e) |]; cbn [snd overwrite].
  - destruct (vo_file v Hv a sz bytes Ha) as (Hsz & Hlen & _). subst n.
    destruct (Z.ltb_spec CLUSTER_SIZE sz); cbn [snd overwrite]; unfold at_buf.
    + pose proof (clusters_for_bounds sz ltac:(lia)) as (Hc1 & _).
      apply zget_ext. intros j. destruct (decide (0 <= j < CLUSTER_SIZE)).
      * rewrite zget_ztake, zget_app_l by (rewrite ?zlen_zrep; consts; lia).
        by rewrite !zget_zrep by (consts; lia).
      * rewrite !zget_None; [done | rewrite zlen_zrep by (consts; lia); lia |].
        rewrite zlen_ztake, zlen_app. pose proof (zlen_nonneg (stack_junk CLUSTER_SIZE)).
        rewrite zlen_zrep by (consts; lia). consts. lia.
    + rewrite clusters_for_one in * by lia. rewrite Z.mul_1_r in *.
      rewrite <- app_assoc. by apply ztake_app_eq.
  - subst n. unfold at_buf. change (zrep (CLUSTER_SIZE * 0) 0) with (@nil Z). cbn [app].
    apply ztake_all. destruct (stack_junk_ok CLUSTER_SIZE ltac:(done)) as [-> _]. done.
Qed.

(** [mv] and then the table read again. *)
Lemma mv_spec wa wb s p v :
  at_directory (kern s) p (current_dir s) v -> volume_ok v -> zlen wa <= 8 -> zlen wb <= 8 ->
  name_ok v (pad wa) -> name_ok v (pad wb) -> no_folder v (pad wa) -> no_folder v (pad wb) ->
  1 <= vol_space v ->
  wp (mv (arg_of wa) (arg_of wb) ;;; cd_refresh) (fun _ s' =>
    ends_with p (transfer_effect false p v (pad wa) (pad wb)) s s') s.
Proof.
  intros Hd Hv Hwa Hwb Hna Hnb Hfa Hfb Hsp. wp_step. unfold mv. wp_step.
  eapply wp_intro; [apply (entry_row_unfold wa s p CLUSTER_SIZE) |]. wp_steps.
  pose proof (row_of_argument (kern s) p (current_dir s) v wa Hd Hna) as Hrow.
  set (i := default _ _) in *.
  eapply wp_mono.
  - apply (transfer_spec false _ wa wb s p v); try done.
    + intros sz bytes Ha. rewrite Ha in Hrow. destruct Hrow as [_ [_ Hsz]].
      destruct (vo_file v Hv _ _ _ Ha) as (Hs & Hl & _). rewrite clusters_of_for, Hsz, Hl.
      pose proof (clusters_for_bounds sz ltac:(lia)) as (Hc1 & _). rewrite zlen_zrep by (consts; lia). lia.
    + by apply Forall_zrep.
    + destruct (node_at v (pad wa)) as [[sz bytes | e] |] eqn:Ha; [| by destruct (Hfa e) |].
      * destruct Hrow as [_ [_ Hsz]]. destruct (vo_file v Hv _ _ _ Ha) as (Hs & Hl & _).
        rewrite clusters_of_for, Hsz. pose proof (clusters_for_bounds sz ltac:(lia)) as (Hc1 & Hc2 & Hc3).
        revert Hc1 Hc2 Hc3 Hs. unfold ARRAY_MAX. consts. intros. rewrite zlen_zrep by lia. lia.
      * destruct Hrow as [_ ->]. by vm_compute.
    + apply (mv_array p v (pad wa)); [done | done |].
      destruct (node_at v (pad wa)) as [[sz bytes | e] |]; [| by destruct Hrow |].
      * destruct Hrow as [_ [_ <-]]. apply clusters_of_for.
      * by destruct Hrow as [_ ->].
  - intros _ s2 ((t2 & Hst2) & _ & Hk2 & Hw2). eapply wp_mono; [apply (cd_refresh_spec _ _ _ _ Hst2) |].
    intros _ s3 (Hd3 & Hk3 & Hw3). split_and!; [done | by rewrite Hk3 | congruence].
Qed.

Lemma cp_array p v a n :
  volume_ok v -> no_folder v a -> one_cluster v a ->
  match node_at v a with Some (File sz _) => n = clusters_for sz | Some (Folder _) => True | None => n = 0 end ->
  let cl := if n =? 1 then zrep CLUSTER_SIZE 0 else stack_junk CLUSTER_SIZE in
  n <= 1 /\ all_bytes cl /\ zlen cl = CLUSTER_SIZE /\ fits v a cl /\ at_buf (after_read p v a cl) = moved v a.
Proof.
  intros Hv Hf Hone Hn cl. destruct (stack_junk_ok CLUSTER_SIZE ltac:(done)) as [Hj Hjb].
  unfold after_read, vol_step, moved, fits. cbn [call_request file_request buffer_size].
  change (vol_nodes v !! request_key _) with (node_at v a).
  destruct (node_at v a) as [[sz bytes | e] |] eqn:Ha; [| by destruct (Hf e) |].
  - destruct (vo_file v Hv a sz bytes Ha) as (Hsz & Hlen & _). pose proof (Hone _ _ Ha) as Hle.
    rewrite clusters_for_one in Hn, Hlen by lia. subst n. unfold cl. cbn [Z.eqb Pos.eqb].
    rewrite (proj2 (Z.ltb_ge CLUSTER_SIZE sz)) by lia. cbn [snd overwrite].
    split_and!; [done | by apply Forall_zrep | done | |].
    + intros sz' bytes' [= <- <-]. by rewrite Hlen.
    + unfold at_buf. rewrite <- app_assoc. apply ztake_app_eq. by rewrite Hlen.
  - subst n. unfold cl. cbn [Z.eqb snd overwrite]. split_and!; try done.
    unfold at_buf. by apply ztake_app_eq.
Qed.

Lemma cp_spec wa wb s p v :
  at_directory (kern s) p (current_dir s) v -> volume_ok v -> zlen wa <= 8 -> zlen wb <= 8 ->
  name_ok v (pad wa) -> name_ok v (pad wb) -> no_folder v (pad wa) -> no_folder v (pad wb) ->
  1 <= vol_space v -> one_cluster v (pad wa) ->
  wp (cp (arg_of wa) (arg_of wb)) (fun _ s' =>
    (exists t, Stale s' p t (transfer_effect true p v (pad wa) (pad wb))) /\ current_dir s' = current_dir s /\
    keys (kern s') = keys (kern s) /\ current_working_directory s' = current_working_directory s) s.
Proof.
  intros Hd Hv Hwa Hwb Hna Hnb Hfa Hfb Hsp Hone. unfold cp. wp_step.
  eapply wp_intro; [apply (entry_row_unfold wa s p CLUSTER_SIZE) |]. wp_steps.
  pose proof (row_of_argument (kern s) p (current_dir s) v wa Hd Hna) as Hrow.
  set (i := default _ _) in *. set (n := clusters_of (table_row (current_dir s) i)).
  destruct (cp_array p v (pad wa) n Hv Hfa Hone) as (Hn & Hby & Hlen & Hfit & Hbuf).
  { destruct (node_at v (pad wa)) as [[sz bytes | e] |]; [| done |].
    - destruct Hrow as [_ [_ <-]]. apply clusters_of_for.
    - destruct Hrow as [_ He]. unfold n. by rewrite He. }
  rewrite (proj2 (Z.ltb_ge 1 n)) by done.
  apply transfer_spec; try done. rewrite Hlen. by vm_compute.
Qed.

(** ** cat, and the commands that only print *)

Lemma quiet_print_file l : 0 ∈ l -> quiet (print_file l).
Proof.
  induction l as [| c l IH]; [by intros ?%elem_of_nil |]. intros Hin. cbn [print_file].
  destruct (Z.eqb_spec c 0) as [-> | Hc]; [apply quiet_ret |].
  apply elem_of_cons in Hin as [Hin | Hin]; [done |].
  apply quiet_bind; [solve_quiet |]. intros _. by apply IH.
Qed.

Lemma cat_spec r w s p v :
  at_directory (kern s) p (current_dir s) v -> volume_ok v -> zlen w <= 8 -> name_ok v (pad w) ->
  no_folder v (pad w) ->
  (forall sz bytes, node_at v (pad w) = Some (File sz bytes) -> sz <= CLUSTER_SIZE /\ 0 ∈ bytes) ->
  wp (cat r (arg_of w)) (fun _ s' => ends_with p v s s') s.
Proof.
  intros Hd Hv Hw Hn Hf Hfile. unfold cat, get_cluster_number. wp_step.
  eapply wp_intro; [apply (entry_row_unfold w s p CLUSTER_SIZE) |]. wp_step. wp_step.
  pose proof (row_of_argument (kern s) p (current_dir s) v w Hd Hn) as Hrow.
  set (i := default _ _) in *. set (n := clusters_of (table_row (current_dir s) i)).
  destruct (cp_array p v (pad w) n Hv Hf) as (Hn1 & Hby & Hlen & Hfit & _).
  { intros sz bytes Ha. by destruct (Hfile _ _ Ha). }
  { destruct (node_at v (pad w)) as [[sz bytes | e] |]; [| done |].
    - destruct Hrow as [_ [_ <-]]. apply clusters_of_for.
    - destruct Hrow as [_ He]. unfold n. by rewrite He. }
  rewrite (proj2 (Z.ltb_ge 1 n)) by done. wp_step. wp_step. rewrite name_of_arg, ext_of_none by done.
  wp_step. wp_step. wp_step. wp_step. wp_step. rewrite (directory_self _ _ _ _ Hd).
  set (cl := if n =? 1 then _ else _) in *.
  destruct (read_law (kern s) p (current_dir s) v (pad w) cl Hd Hn Hfit Hby ltac:(rewrite Hlen; by vm_compute))
    as (k1 & Hrun & Hk1 & Hd1).
  eapply (wp_intro _ _ _ _ (set_kern k1 s)).
  { unfold call_bytes. fold (file_request (pad w) p CLUSTER_SIZE). rewrite Hrun. reflexivity. }
  cbn [fst snd]. apply wp_bind, quiet_wp.
  - destruct (_ =? 0) eqn:Hcode; [| apply quiet_ret]. apply quiet_print_file. revert Hcode.
    unfold vol_step. cbn [call_request file_request buffer_size].
    change (vol_nodes v !! request_key _) with (node_at v (pad w)).
    pose proof (Z.div_pos (u32 r) 256 (proj1 (u32_range r)) ltac:(lia)). unfold cat_code.
    destruct (node_at v (pad w)) as [[sz bytes | e] |] eqn:Ha; [| by destruct (Hf e) |].
    + destruct (Hfile _ _ eq_refl) as [Hsz Hin]. rewrite (proj2 (Z.ltb_ge CLUSTER_SIZE sz)) by lia. intros _.
      cbn [snd overwrite]. apply elem_of_app. by left.
    + cbn [fst]. change (u8 2) with 2. intros Hz%Z.eqb_eq. lia.
  - intros _ s2 [Hk2 Hst2]. apply (quiet_wp _ _ _ quiet_new_line). intros _ s3 [Hk3 Hst3].
    assert (Hst : Stays (set_kern k1 s) s3) by by transitivity s2.
    split_and!.
    + rewrite (stays_table _ _ Hst). by apply (stays_directory _ _ Hst).
    + rewrite Hk3, Hk2. exact Hk1.
    + by rewrite (stays_cwd _ _ Hst).
Qed.
End Rows.

(** ** What becomes of a file *)

Section Outcomes.
Context {K : Type} `{ShellKernelLaws K} `{!ShellEnvironment} `{!ShellEnvironmentOk}.
Implicit Types (s : Shell K) (v : Volume) (p : Z).

Lemma file_bytes_whole data : source_ok CLUSTER_SIZE data -> file_bytes CLUSTER_SIZE data = data.
Proof.
  intros [Hlen _]. unfold file_bytes. change (clusters_for CLUSTER_SIZE) with 1. change (seqZ 0 1) with [0].
  unfold enc_all. cbn [fmap list_fmap concat]. rewrite app_nil_r. unfold file_part.
  change (part_size CLUSTER_SIZE 0) with CLUSTER_SIZE. rewrite Z.sub_diag, Z.mul_0_r.
  rewrite zslice_all by (rewrite Hlen; by vm_compute). apply app_nil_r.
Qed.

(** Writing a new name of one cluster where there is room. *)
Lemma write_effect_nodes p v b data :
  source_ok CLUSTER_SIZE data -> Z.of_nat (size (vol_nodes v)) < VOLUME_ROWS -> node_at v b = None ->
  vol_nodes (write_effect p v b data) = <[(b, zrep 3 0) := File CLUSTER_SIZE data]> (vol_nodes v).
Proof.
  intros Hso Hroom Hb. unfold write_effect, vol_step. cbn [call_request].
  rewrite decide_False by lia. change (vol_nodes v !! request_key _) with (node_at v b). rewrite Hb.
  cbn [fst snd vol_nodes]. unfold new_node. cbn [file_request buffer_size].
  change (CLUSTER_SIZE =? 0) with false. cbv iota. by rewrite file_bytes_whole.
Qed.
Lemma remove_effect_nodes p v a :
  no_folder v a -> vol_nodes (remove_effect p v a) = base.delete ((a, zrep 3 0) : Name) (vol_nodes v).
Proof.
  intros Hf. unfold remove_effect, vol_step. cbn [call_request].
  change (vol_nodes v !! request_key _) with (node_at v a).
  destruct (node_at v a) as [[sz bytes | e] |] eqn:Ha; [done | by destruct (Hf e) |].
  cbn [fst snd]. symmetry. by apply delete_id.
Qed.

(** C20. [mv] to a name that is not taken. The old name is gone and no other is touched;
    under the new one is a file of exactly one cluster: the file's bytes if one
    cluster holds them, zeros if the file was larger - its content is lost -, and
    what was on the stack if there was no such file. *)
Theorem mv_outcome wa wb s p v
    (Hd : at_directory (kern s) p (current_dir s) v) (Hv : volume_ok v) (Hwa : zlen wa <= 8) (Hwb : zlen wb <= 8)
    (Hna : name_ok v (pad wa)) (Hnb : name_ok v (pad wb)) (Hfa : no_folder v (pad wa))
    (Hb : node_at v (pad wb) = None) (Hne : pad wa <> pad wb)
    (Hroom : Z.of_nat (size (vol_nodes v)) < VOLUME_ROWS) (Hsp : 1 <= vol_space v) :
  exists s' v', bind (mv (arg_of wa) (arg_of wb)) (fun _ => cd_refresh) s = Ok (tt, s') /\
    at_directory (kern s') p (current_dir s') v' /\
    node_at v' (pad wa) = None /\ node_at v' (pad wb) = Some (File CLUSTER_SIZE (moved v (pad wa))) /\
    forall k, k <> (pad wa, zrep 3 0) -> k <> (pad wb, zrep 3 0) -> vol_nodes v' !! k = vol_nodes v !! k.
Proof.
  destruct (wp_run _ _ _ (mv_spec wa wb s p v Hd Hv Hwa Hwb Hna Hnb Hfa ltac:(intros e; by rewrite Hb) Hsp))
    as ([] & s' & Hrun & Hd' & _).
  assert (Hnodes : vol_nodes (transfer_effect false p v (pad wa) (pad wb)) =
    <[(pad wb, zrep 3 0) := File CLUSTER_SIZE (moved v (pad wa))]>
      (base.delete ((pad wa, zrep 3 0) : Name) (vol_nodes v))).
  { unfold transfer_effect. rewrite Hb, <- (remove_effect_nodes p v) by done.
    apply write_effect_nodes; [by apply moved_source | |].
    - rewrite remove_effect_nodes, map_size_delete by done. destruct (vol_nodes v !! _); unfold id; lia.
    - unfold node_at. rewrite remove_effect_nodes by done. rewrite lookup_delete_ne by congruence. exact Hb. }
  exists s', (transfer_effect false p v (pad wa) (pad wb)). split; [done |]. split; [done |].
  unfold node_at. rewrite Hnodes. split_and!.
  - rewrite lookup_insert_ne by congruence. apply lookup_delete_eq.
  - apply lookup_insert_eq.
  - intros k Hka Hkb. by rewrite lookup_insert_ne, lookup_delete_ne by congruence.
Qed.

(** C26. After [cp] to a name that is not taken the copy is on the disk, but the shell
    goes on with the table from before, in which the copy has no row. *)
Theorem cp_not_listed wa wb s p v
    (Hd : at_directory (kern s) p (current_dir s) v) (Hv : volume_ok v) (Hwa : zlen wa <= 8) (Hwb : zlen wb <= 8)
    (Hna : name_ok v (pad wa)) (Hnb : name_ok v (pad wb)) (Hfa : no_folder v (pad wa))
    (Hone : one_cluster v (pad wa)) (Hb : node_at v (pad wb) = None)
    (Hroom : Z.of_nat (size (vol_nodes v)) < VOLUME_ROWS) (Hsp : 1 <= vol_space v) :
  exists s' t' v' i, cp (arg_of wa) (arg_of wb) s = Ok (tt, s') /\ at_directory (kern s') p t' v' /\
    vol_nodes v' = <[(pad wb, zrep 3 0) := File CLUSTER_SIZE (moved v (pad wa))]> (vol_nodes v) /\
    find_entry 2 t' (file_request (pad wb) p CLUSTER_SIZE) = Some i /\
    find_entry 2 (current_dir s') (file_request (pad wb) p CLUSTER_SIZE) = None.
Proof.
  destruct (wp_run _ _ _ (cp_spec wa wb s p v Hd Hv Hwa Hwb Hna Hnb Hfa ltac:(intros e; by rewrite Hb) Hsp Hone))
    as ([] & s' & Hrun & (t' & Hd' & _) & Hc & _).
  unfold transfer_effect in Hd'. rewrite Hb in Hd'. set (v' := write_effect p v (pad wb) (moved v (pad wa))) in *.
  assert (Hnodes : vol_nodes v' = <[(pad wb, zrep 3 0) := File CLUSTER_SIZE (moved v (pad wa))]> (vol_nodes v))
    by (apply write_effect_nodes; [by apply moved_source | done | done]).
  assert (Hnb' : name_ok v' (pad wb)) by by apply name_ok_step.
  pose proof (directory_shows _ _ _ _ Hd' (pad wb) p CLUSTER_SIZE Hnb') as Hs.
  unfold node_at in Hs. rewrite Hnodes, lookup_insert_eq in Hs. destruct Hs as (i & Hi & _).
  exists s', t', v', i. split_and!; try done.
  pose proof (directory_shows _ _ _ _ Hd (pad wb) p CLUSTER_SIZE Hnb) as Hs. rewrite Hb in Hs. by rewrite Hc.
Qed.
End Outcomes.

(** ** A session *)

Section Session.
Context {K : Type} `{ShellKernelLaws K} `{!ShellEnvironment} `{!ShellEnvironmentOk}.
Implicit Types (s : Shell K) (v : Volume) (p : Z).

Record ShellAt s p v : Prop := {
  sa_directory : at_directory (kern s) p (current_dir s) v;
  sa_volume : volume_ok v;
  sa_path : path_ok (current_working_directory s)
}.

Definition run_verb (r n : Z) (args : list Arg) (verb : Verb) : Eff (Shell K) unit :=
  let a := znth zero_arg args in
  match verb with
  | Cat => if 0 <? n then cat r (a 0) else ret tt
  | Ls => ls
  | Mkdir => mkdir (a 0) ;;; cd_refresh
  | Cd => cd (a 0)
  | Rm => rm (a 0) ;;; cd_refresh
  | Mv => mv (a 0) (a 1) ;;; cd_refresh
  | Find => find (a 0)
  | Clear => clear
  | Exec => exec (a 0)
  | Ps => call_print sys_ps
  | Kill => kill (a 0)
  | Apple => apple
  | Cp => cp (a 0) (a 1)
  end.

Lemma selected_fmap {C C' : Type} (f : C -> C') (w : list Z) table :
  selected w ((fun e => (e.1, f e.2)) <$> table) = f <$> selected w table.
Proof.
  induction table as [| [nm c] table IH]; [done |]. cbn [fmap list_fmap fst snd].
  rewrite !selected_cons. by case_decide.
Qed.
Lemma selected_command (w : list Z) r n args :
  selected w (commands r n args) = run_verb r n args <$> selected w verbs.
Proof.
  rewrite <- selected_fmap. unfold commands, verbs. cbn [fmap list_fmap fst snd run_verb]. reflexivity.
Qed.

Lemma quiet_ls : quiet ls.
Proof.
  apply quiet_bind; [apply quiet_gets |]. intros t. apply quiet_foldr. intros i.
  unfold ls_row. solve_quiet.
Qed.
Lemma quiet_clear : quiet clear.
Proof. apply quiet_bind; [apply quiet_unit, clear_law | intros _; apply quiet_home]. Qed.
Lemma quiet_print_unknown w k :
  zlen w + zlen not_found_text <= 2048 -> quiet (print_unknown (w ++ k) (zlen w)).
Proof.
  intros Hlen. unfold print_unknown. apply quiet_bind; [apply quiet_puts |]. intros _.
  rewrite (proj2 (Z.leb_le _ _)) by done. solve_quiet.
Qed.

Lemma ends_with_quiet s s' p v :
  at_directory (kern s) p (current_dir s) v -> Quiet s s' -> ends_with p v s s'.
Proof.
  intros Hd [Hk Hst]. split_and!; [| done | apply Hst].
  rewrite (stays_table _ _ Hst). by apply (stays_directory _ _ Hst).
Qed.

(** Every command does what its operation says. *)
Lemma run_verb_spec r n ws verb s p v :
  ShellAt s p v -> args_fit ws = true -> verb_ok v verb n ws ->
  wp (run_verb r n ((arg_of <$> ws) ++ zrep (DEFAULT_ARGS_COUNT - zlen ws) zero_arg) verb)
    (fun _ s' => ends_with p (verb_effect p v verb ws) s s') s.
Proof.
  intros [Hd Hv Hpath] Hfit Hok.
  pose proof (args_fit_nth ws 0 Hfit) as H0'. pose proof (args_fit_nth ws 1 Hfit) as H1'.
  assert (Hq : forall c : Eff (Shell K) unit, quiet c -> wp c (fun _ s' => ends_with p v s s') s).
  { intros c Hc. apply (quiet_wp _ _ _ Hc). intros _ s'. by apply ends_with_quiet. }
  destruct verb; cbn [verb_ok verb_effect run_verb] in *; try done;
    rewrite ?(znth_args ws (DEFAULT_ARGS_COUNT - zlen ws) 0), ?(znth_args ws (DEFAULT_ARGS_COUNT - zlen ws) 1) by lia.
  - destruct (Z.ltb_spec 0 n) as [Hn |]; [| by apply Hq, quiet_ret].
    destruct (Hok Hn) as (Hna & Hf & Hfile). by apply cat_spec.
  - apply Hq, quiet_ls.
  - destruct Hok. by apply mkdir_spec.
  - by apply rm_spec.
  - destruct Hok as (? & ? & ? & ? & ?). by apply mv_spec.
  - apply Hq, quiet_clear.
  - apply Hq, quiet_print, ps_law.
Qed.

Lemma verb_effect_volume_ok v p verb n ws :
  volume_ok v -> verb_ok v verb n ws -> volume_ok (verb_effect p v verb ws).
Proof.
  intros Hv Hok. destruct verb; try done; cbn [verb_effect verb_ok] in *.
  - apply volume_ok_write; [done | by left].
  - by apply volume_ok_delete.
  - destruct Hok as (? & Hnb & ? & ? & ?). unfold transfer_effect. destruct (node_at v (nth_name ws 1)); [done |].
    apply volume_ok_write; [by apply volume_ok_delete |]. right. split; [done |]. by apply moved_source.
Qed.

Lemma print_template_spec s :
  path_ok (current_working_directory s) -> wp print_template (fun _ s' => Quiet s s') s.
Proof.
  intros Hp. destruct (prompt_path_ok _ Hp) as (t & Ht). unfold print_template.
  wp_step. apply (quiet_wp _ _ _ (quiet_puts _ _)). intros _ s1 H1'.
  wp_step. apply (quiet_wp _ _ _ (quiet_puts _ _)). intros _ s2 H2'.
  assert (Hs2 : Quiet s s2) by by transitivity s1.
  wp_step. wp_step. rewrite (stays_cwd _ _ (quiet_stays _ _ Hs2)).
  apply wp_bind, (wp_of_res _ _ _ _ Ht).
  eapply quiet_wp; [solve_quiet |]. intros _ s3 Hs3. by transitivity s2.
Qed.

(** One line. *)
Lemma shell_round_spec r polls rest s p v :
  ShellAt s p v -> line_ok v polls -> keys (kern s) = polls ++ 10 :: rest ->
  wp (shell_round r) (fun _ s' => ShellAt s' p (line_effect p v polls) /\ keys (kern s') = rest) s.
Proof.
  intros [Hd Hv Hpath] [Hno Hpolls Hlen Hargs Hverb] Hkeys. unfold shell_round.
  wp_step. eapply wp_mono; [by apply print_template_spec |]. intros _ s1 [Hk1 Hst1].
  wp_step. eapply wp_mono.
  { apply (get_command_spec polls rest); try done; [apply first_buf_ok | by rewrite Hk1]. }
  intros [cmd l] s2 (Hline & Hle & Hlen' & Hneff & -> & Hz & Hk2 & Hst2). cbn [fst snd].
  assert (Hst : Stays s s2) by by transitivity s1.
  assert (Hd2 : at_directory (kern s2) p (current_dir s2) v).
  { rewrite (stays_table _ _ Hst). by apply (stays_directory _ _ Hst). }
  assert (Hpath2 : path_ok (current_working_directory s2)) by by rewrite (stays_cwd _ _ Hst).
  set (ps := pieces (typed polls)) in *. set (w := hd [] ps) in *.
  destruct (word_prefix (typed polls)) as (k & Htyped). fold ps w in Htyped.
  destruct Hline as (text & Hline). rewrite Htyped, <- app_assoc in Hline.
  assert (Hzw : Forall (fun b => b <> 0) w) by (rewrite Htyped in Hz; by apply Forall_app in Hz as [? _]).
  unfold wp. rewrite Hline, Hlen', Hneff, dispatch_selects, selected_command by done. unfold line_effect. fold ps w.
  cbv zeta in Hverb. fold w in Hverb. destruct (selected w verbs) as [verb |]; cbn [fmap option_fmap option_map default from_option id].
  - pose proof (run_verb_spec r (counted (tail ps)) (words_of (tail ps)) verb s2 p v) as Hrun.
    apply (wp_mono _ _ _ _ (Hrun ltac:(by split) Hargs Hverb)).
    intros _ s3 (Hd3 & Hk3 & Hw3). split; [| congruence].
    split; [done | by apply (verb_effect_volume_ok _ _ _ (counted (tail ps))) | by rewrite Hw3].
  - apply (quiet_wp _ _ _ (quiet_print_unknown w (k ++ text) Hverb)). intros _ s3 Hq.
    destruct (ends_with_quiet s2 s3 p v Hd2 Hq) as (Hd3 & Hk3 & Hw3).
    split; [| congruence]. split; [done | done | by rewrite Hw3].
Qed.

(** The variables before [main], and what [main] does before its loop. *)
Definition boot_path : CurrentWorkingDirectory := mkCWD (zrep 10 zero_arg) 0.
Definition root_entry : Arg := mkArg (root_text ++ [0] ++ after_root) (zrep 3 0) 4 0.

(** The start of the shell: the root directory's table becomes the current one, and
    the path is the root. *)
Lemma shell_start_spec k t v
    (Hd : at_directory k ROOT_CLUSTER_NUMBER t v) (Hv : volume_ok v) (Hroot : opens t root_name 0) :
  exists s, shell_start (boot_shell k) = Ok (tt, s) /\ ShellAt s ROOT_CLUSTER_NUMBER v /\
    keys (kern s) = keys k /\ current_dir s = t /\
    current_working_directory s = mkCWD (zrep 10 zero_arg).[0 := root_entry] 1.
Proof.
  assert (Hlen : zlen (root_text ++ [0] ++ after_root) = 8)
    by (rewrite !zlen_app, after_root_ok; by vm_compute).
  assert (Hgoal : wp shell_start (fun _ s => at_directory (kern s) ROOT_CLUSTER_NUMBER t v /\ current_dir s = t /\
    keys (kern s) = keys k /\ current_working_directory s = mkCWD (zrep 10 zero_arg).[0 := root_entry] 1) (boot_shell k)).
  2: { destruct (wp_run _ _ _ Hgoal) as ([] & s & Hrun & Hds & Ht & Hk & Hw). exists s. split; [done |].
       split_and!; try done. split; [by rewrite Ht | done |]. rewrite Hw.
       split; cbn [path neff]; [by rewrite zlen_zset | lia | |].
       - apply Forall_zset; [by apply Forall_zrep |]. split; [exact Hlen | cbn; lia].
       - exists root_entry. by rewrite zget_zset_eq. }
  unfold shell_start, cd_root. wp_step. wp_step.
  pose proof (directory_self _ _ _ _ Hd) as Hself.
  eapply wp_mono; [by apply (read_current_dir_spec (boot_shell k) ROOT_CLUSTER_NUMBER t v root_name 0 t v);
    [| | | rewrite Hself] |].
  intros _ s1 (Ht & [Hk Hq] & Hw). unfold of_path. wp_step. wp_step. rewrite Hw. cbn [boot_shell current_working_directory].
  eapply wp_bind, (wp_of_res _ (mkCWD (zrep 10 zero_arg).[0 := root_entry] 1)).
  { unfold path_at, array_copy. cbn [path neff]. rewrite zget_zrep by lia. cbn [of_option res_bind].
    rewrite decide_True by (split; [by cbn | by rewrite Hlen]). cbn [res_bind].
    rewrite ztake_all by by rewrite Hlen.
    unfold set_path, root_entry. cbn. by rewrite app_nil_r. }
  wp_step. apply wp_bind, (quiet_wp _ _ _ (quiet_unit _ keyboard_on_law)). intros _ s2 [Hk2 Hst2].
  apply (quiet_wp _ _ _ quiet_home). intros _ s3 [Hk3 Hst3].
  assert (Hst : Stays (set_cwd (mkCWD (zrep 10 zero_arg).[0 := root_entry] 1) s1) s3) by by transitivity s2.
  split_and!.
  - apply (stays_directory _ _ Hst), Hq, Hd.
  - by rewrite (stays_table _ _ Hst).
  - rewrite Hk3, Hk2. exact Hk.
  - by rewrite (stays_cwd _ _ Hst).
Qed.

(** A session: line by line. *)
Lemma shell_refines retcodes lines rest s p v
    (Hat : ShellAt s p v) (Hok : session_ok p v lines) (Hn : length retcodes = length lines)
    (Hkeys : keys (kern s) = concat ((fun l => l ++ [10]) <$> lines) ++ rest) :
  exists s', shell_rounds retcodes s = Ok (tt, s') /\
    ShellAt s' p (session p v lines) /\ keys (kern s') = rest.
Proof.
  revert retcodes s v Hat Hok Hn Hkeys.
  induction lines as [| l lines IH]; intros [| r retcodes] s v Hat Hok Hn Hkeys; try done; [by exists s |].
  destruct Hok as [Hl Hok]. cbn [fmap list_fmap concat] in Hkeys. rewrite <- !app_assoc in Hkeys.
  destruct (wp_run _ _ _ (shell_round_spec r l _ s p v Hat Hl Hkeys)) as ([] & s1 & Hrun & Hat1 & Hk1).
  destruct (IH retcodes s1 (line_effect p v l) Hat1 Hok ltac:(by injection Hn) Hk1) as (s' & Hruns & Hat' & Hk').
  exists s'. split; [| done]. cbn [shell_rounds]. by erewrite bind_run; [| exact Hrun].
Qed.
End Session.
