(* ===== verification/ShellCd.v ===== *)
(** ShellCd: entering directories and leaving them. *)

From Stdlib Require Import ZArith Lia.
From stdpp Require Import base tactics numbers strings list gmap.
From S2P Require Import Prelude Memory CString Disk FatLayout Fat32 FatLogic FatChain FatWrite.
From S2P Require Import FatRead FatDelete FatVolume.
From S2P Require Import Shell.
From S2P Require Import ShellParse.
From S2P Require Import ShellSpec.
From S2P Require Import ShellPath.
From S2P Require Import ShellFiles.
#[local] Open Scope eff_scope.

Section Cd.
Context {K : Type} `{ShellKernelLaws K} `{!ShellEnvironment}.
Implicit Types (s : Shell K) (v : Volume) (p : Z).

Definition parent_text : list Z := str "..".

(** The search of [cd] in the shell's table. *)
Lemma cd_search k p t v nm i :
  at_directory k p t v -> zlen nm = 8 -> opens t nm i ->
  for_find 0 64 (fun j => is_folder_row (row t j) && mem_eq (name (row t j)) nm 8) = Some i.
Proof.
  intros Hd Hnm [Hi Hn Hf Hfirst]. unfold DIR_ENTRIES in Hi. apply for_find_Some. split; [lia |]. split.
  - rewrite Hf. cbn [andb]. apply (named _ _ _ _ _ _ Hd); done.
  - intros j Hj. apply andb_false_iff. right. apply not_true_is_false.
    rewrite (named _ _ _ _ _ _ Hd) by (unfold DIR_ENTRIES; done || lia). apply Hfirst. lia.
Qed.
(** The second search: any directory of another name will do. *)
Lemma cd_other k p t v nm :
  at_directory k p t v -> zlen nm = 8 -> opens t dot_dot 1 -> nm <> dot_dot ->
  exists j, for_find 0 64 (fun i => is_folder_row (row t i) && negb (mem_eq (name (row t i)) nm 8)) = Some j.
Proof.
  intros Hd Hnm [_ Hn Hf _] Hne. destruct (for_find _ _ _) as [j |] eqn:Hfind; [by exists j |]. exfalso.
  pose proof (proj1 (for_find_None _ _ _) Hfind 1 ltac:(lia)) as Hno. cbv beta in Hno.
  rewrite Hf in Hno. cbn [andb] in Hno. apply negb_false_iff in Hno.
  apply (named _ _ _ _ _ _ Hd) in Hno; [congruence | done | unfold DIR_ENTRIES; lia].
Qed.

Lemma is_parent w :
  zlen w <= 8 -> exists r, array_cmp (info (arg_of w)) (parent_text ++ [0]) 3 = Ok r /\
    (r = 0 <-> ztake 3 (pad w) = parent_text ++ [0]).
Proof.
  intros Hw. change (info (arg_of w)) with (pad w). pose proof (pad_length w Hw) as Hlen.
  unfold array_cmp, memcmp.
  destruct (memcmp_loop_zero (Z.to_nat 3) 0 (pad w) (parent_text ++ [0])) as (r & Hr & Hiff); [done | lia | by vm_compute |].
  exists r. split; [done |]. rewrite Hiff. split.
  - intros Hj. apply zget_ext. intros j. destruct (decide (0 <= j < 3)) as [? | ?].
    + rewrite zget_ztake by lia. apply Hj. lia.
    + rewrite !zget_None; [done | change (zlen (parent_text ++ [0])) with 3; lia | rewrite zlen_ztake; lia].
  - intros Heq j Hj. rewrite <- Heq, zget_ztake by lia. done.
Qed.

(** Both directions: the table of the directory opened, and a step of the path. *)
Lemma cd_spec w i t' v' s p v w' :
  at_directory (kern s) p (current_dir s) v -> zlen w <= 8 -> opens (current_dir s) (pad w) i ->
  at_directory (kern s) (entry_cluster (row (current_dir s) i)) t' v' -> opens t' dot_dot 1 ->
  (if decide (ztake 3 (pad w) = parent_text ++ [0]) then path_up (current_working_directory s)
   else path_down (arg_of w) (current_working_directory s)) = Ok w' ->
  wp (cd (arg_of w)) (fun _ s' =>
    current_dir s' = t' /\ quiet_kernel (kern s) (kern s') /\ current_working_directory s' = w') s.
Proof.
  intros Hd Hw Hop Hd' Hpar Hpath. pose proof (pad_length w Hw) as Hlen.
  unfold cd, get_cluster_number. wp_step. wp_step. rewrite name_of_arg by done. wp_step. wp_step. wp_step. wp_step.
  rewrite (cd_search _ _ _ _ _ _ Hd Hlen Hop). wp_step. rewrite (directory_self _ _ _ _ Hd).
  eapply wp_mono; [by apply (read_current_dir_spec s p (current_dir s) v (pad w) i t' v') |].
  intros _ s1 (Ht & Hq & Hw1). destruct (is_parent w Hw) as (r & Hr & Hiff).
  apply wp_bind, (wp_of_res _ r); [exact Hr |]. unfold of_path.
  destruct (Z.eqb_spec r 0) as [Hr0 | Hr0]; case_decide; try tauto.
  - wp_step. wp_step. rewrite Hw1. apply wp_bind, (wp_of_res _ w'); [exact Hpath |]. by wp_step.
  - wp_step. wp_step. rewrite Ht. destruct Hq as [Hk Hq].
    destruct (cd_other (kern s1) (entry_cluster (row (current_dir s) i)) t' v' (info (arg_of w))) as (j & ->);
      [by apply Hq | done | done | |].
    { change (info (arg_of w)) with (pad w). intros Heq. by rewrite Heq in *. }
    wp_step. wp_step. rewrite Hw1. apply wp_bind, (wp_of_res _ w'); [exact Hpath |]. by wp_step.
Qed.

(** C21. [cd name] and then [cd ..]. The first makes the table of the directory [name]
    the shell's and enters the name in the path; the second makes the parent's
    table the shell's again and restores the path. Names that begin with "root" are
    the exception: for them the path keeps the name. *)
Theorem cd_roundtrip w i c t' v' s p v
    (Hd : at_directory (kern s) p (current_dir s) v) (Hp : opens (current_dir s) dot_dot 1)
    (Hw : zlen w <= 8) (Hne : ztake 3 (pad w) <> parent_text ++ [0])
    (Hop : opens (current_dir s) (pad w) i) (Hc : entry_cluster (row (current_dir s) i) = c)
    (Hd' : at_directory (kern s) c t' v') (Hp' : opens t' dot_dot 1) (Hback : entry_cluster (row t' 1) = p)
    (Hpath : path_ok (current_working_directory s)) (Hdepth : neff (current_working_directory s) < 10)
    (Hfree : (path (current_working_directory s)).[neff (current_working_directory s)] = Some zero_arg) :
  exists s1 s2, cd (arg_of w) s = Ok (tt, s1) /\ current_dir s1 = t' /\
    path_down (arg_of w) (current_working_directory s) = Ok (current_working_directory s1) /\
    cd (arg_of parent_text) s1 = Ok (tt, s2) /\ current_dir s2 = current_dir s /\
    current_working_directory s2 =
      (if decide (ztake 4 (pad w) = root_text) then current_working_directory s1 else current_working_directory s) /\
    quiet_kernel (kern s) (kern s2).
Proof.
  assert (Ha : arg_ok (arg_of w)).
  { pose proof (zlen_nonneg w). split; [exact (pad_length w Hw) | by cbn]. }
  destruct (path_up_after_down _ _ Hpath Ha Hdepth Hfree) as (w1 & Hdown & Hup).
  assert (Hdown' : (if decide (ztake 3 (pad w) = parent_text ++ [0]) then path_up (current_working_directory s)
    else path_down (arg_of w) (current_working_directory s)) = Ok w1) by by rewrite decide_False.
  rewrite <- Hc in Hd'.
  destruct (wp_run _ _ _ (cd_spec w i t' v' s p v w1 Hd Hw Hop Hd' Hp' Hdown')) as ([] & s1 & Hrun1 & Ht1 & [Hk1 Hq1] & Hw1).
  subst t' w1. rewrite <- Hback in Hd.
  destruct (wp_run _ _ _ (cd_spec parent_text 1 (current_dir s) v s1 _ v' _ (Hq1 _ _ _ Hd') ltac:(by vm_compute) Hp'
    (Hq1 _ _ _ Hd) Hp ltac:(rewrite decide_True by (by vm_compute); exact Hup)))
    as ([] & s2 & Hrun2 & Ht2 & [Hk2 Hq2] & Hw2).
  exists s1, s2. split_and!; try done. split; [congruence | auto].
Qed.
End Cd.
