(* ===== verification/ShellFs.v ===== *)
(** ShellFs: the kernel of the shell built from a machine that makes file calls on
    an array of the caller, and the contract of ShellSpec.v proved for it. One such
    machine is the file system of Fat32.v itself; another, in ShellMachine.v, the
    whole kernel behind the interrupt 0x30. The rest of the kernel - keyboard,
    screen, processes - stays a parameter. *)

From Stdlib Require Import ZArith Lia.
From stdpp Require Import base tactics numbers strings list gmap.
From S2P Require Import Prelude Memory CString Disk FatLayout Fat32 FatLogic FatChain FatWrite.
From S2P Require Import FatRead FatDelete FatVolume.
From S2P Require Import Shell.
From S2P Require Import ShellParse.
From S2P Require Import ShellSpec.
From S2P Require Import ShellPath.
From S2P Require Import ShellFiles.

(** ** The rest of the kernel *)

Class RestOfKernel (T : Type) := {
  rest_getchar : T -> Z * T;
  rest_putchar : Z -> Z -> CP -> T -> CP * T;
  rest_puts : list Z -> Z -> CP -> T -> CP * T;
  rest_keyboard_on : T -> T;
  rest_move_cursor : Z -> Z -> Z -> T -> T;
  rest_clear : T -> T;
  rest_ps : CP -> T -> CP * T;
  rest_kill : Z -> T -> T;
  rest_exec : list Z -> Z -> T -> T
}.
(** What is relied on: a poll takes the next key, and output takes none. *)
Class RestLaws (T : Type) `{RestOfKernel T} := {
  rest_keys : T -> list Z;
  rest_getchar_law t c l : rest_keys t = c :: l -> exists t', rest_getchar t = (c, t') /\ rest_keys t' = l;
  rest_putchar_law c color p t : rest_keys (rest_putchar c color p t).2 = rest_keys t;
  rest_puts_law text color p t : rest_keys (rest_puts text color p t).2 = rest_keys t;
  rest_keyboard_on_law t : rest_keys (rest_keyboard_on t) = rest_keys t;
  rest_move_cursor_law r c color t : rest_keys (rest_move_cursor r c color t) = rest_keys t;
  rest_clear_law t : rest_keys (rest_clear t) = rest_keys t;
  rest_ps_law p t : rest_keys (rest_ps p t).2 = rest_keys t
}.

(** ** An array in memory *)

(** The array after a store of [bytes] at its start. *)
Lemma load_overwritten {M} `{ByteMemLaws M} (m m' : M) a b bytes :
  holds m a b -> separate m a (zlen b) -> all_bytes bytes -> zlen bytes <= zlen b -> stored m a bytes m' ->
  load_bytes (length b) a m' = Ok (bytes ++ zdrop (zlen bytes) b).
Proof.
  intros Hh Hsep Hbs Hle Hst. pose proof (zlen_nonneg bytes). apply load_bytes_holds.
  { rewrite zlen_app, zlen_zdrop. unfold zlen in *. lia. }
  intros i x Hi. pose proof (zget_range _ _ _ Hi) as Hr. rewrite zlen_app, zlen_zdrop in Hr.
  destruct (Z.lt_ge_cases i (zlen bytes)) as [Hlt | Hge].
  - rewrite zget_app_l in Hi by done. apply (stored_holds _ _ _ _ Hst); [| done | done].
    intros j k Hj Hk. apply Hsep; lia.
  - rewrite zget_app_r, zget_zdrop in Hi by lia. replace (zlen bytes + (i - zlen bytes)) with i in Hi by lia.
    destruct (Hh i x Hi) as (c & Hc & Hg). exists c.
    rewrite (stored_resolve _ _ _ _ Hst). split; [done |]. rewrite (stored_frame _ _ _ _ Hst); [done |].
    intros (j & Hj & Hcj). specialize (Hsep i j ltac:(lia) ltac:(lia) ltac:(congruence)). lia.
Qed.

(** ** Machines that make file calls *)

Inductive FileCall : Type := FileRead | FileReadDirectory | FileWrite | FileDelete.
(** [file_call call request b]: the call on a request whose [buf] is an array that
    holds [b]; its code, and the array after it. *)
Class FileMachine (A : Type) := {
  file_call : FileCall -> FAT32DriverRequest -> list Z -> A -> Res (Z * list Z * A)
}.

Definition call_kind (c : Call) : FileCall :=
  match c with
  | CallRead _ => FileRead
  | CallWrite _ _ => FileWrite
  | CallDelete _ => FileDelete
  end.
(** What the caller of a call on the volume [v] has to see to. *)
Record array_ok (p : Z) (v : Volume) (c : Call) (b : list Z) : Prop := {
  ao_request : request_ok (call_request c);
  ao_parent : parent_cluster_number (call_request c) = p;
  ao_name : req_name (call_request c) <> zrep 8 0;
  ao_shadow : request_key (call_request c) ∉ vol_shadow v;
  ao_length : zlen b <= ARRAY_MAX;
  ao_bytes : all_bytes b;
  ao_call :
    match c with
    | CallWrite request data =>
      (buffer_size request = 0 -> req_ext request = zrep 3 0 /\ 1 <= vol_space v) /\
      (0 < buffer_size request -> source_ok (buffer_size request) data /\ b = data /\
         clusters_for (buffer_size request) <= vol_space v)
    | CallRead request =>
      forall sz bytes, vol_nodes v !! request_key request = Some (File sz bytes) -> zlen bytes <= zlen b
    | CallDelete _ => True
    end
}.

(** The calls of such a machine, in a state in which they can be made, do what the
    map operations do to the volume that its file system represents. *)
Class FileMachineSpec (A D M : Type) `{FileMachine A} `{BlockDeviceSpec D} `{ByteMem M} := {
  machine_files : A -> FS D M;
  machine_ready : A -> Prop;
  machine_call c b a p v :
    machine_ready a -> Represents (machine_files a) p v -> array_ok p v c b ->
    exists a', file_call (call_kind c) (call_request c) b a =
        Ok ((vol_step v c).1.1, overwrite (vol_step v c).2 b, a') /\
      machine_ready a' /\ Represents (machine_files a') p (vol_step v c).1.2 /\
      table_kept c (machine_files a) p (machine_files a');
  machine_open a p v nm i :
    machine_ready a -> Represents (machine_files a) p v -> zlen nm = 8 ->
    let t := dir_table (machine_files a) p in
    for_find 0 DIR_ENTRIES (fun j => mem_eq (name (row t j)) nm 8) = Some i ->
    attribute (row t i) = ATTR_SUBDIRECTORY -> in_fat (entry_cluster (row t i)) ->
    exists a', file_call FileReadDirectory (directory_request nm p) (zrep CLUSTER_SIZE 0) a =
        Ok (0, cluster (disk (machine_files a)) (entry_cluster (row t i)), a') /\
      machine_ready a' /\
      forall q u, Represents (machine_files a) q u ->
        Represents (machine_files a') q u /\ dir_table (machine_files a') q = dir_table (machine_files a) q
}.

(** ** Calls on an array somewhere in memory *)

Definition set_buf (a : Z) (request : FAT32DriverRequest) : FAT32DriverRequest :=
  mkRequest a (req_name request) (req_ext request) (parent_cluster_number request) (buffer_size request).
Definition call_at (a : Z) (c : Call) : Call :=
  match c with
  | CallWrite request data => CallWrite (set_buf a request) data
  | CallRead request => CallRead (set_buf a request)
  | CallDelete request => CallDelete (set_buf a request)
  end.
Lemma vol_step_at a c v : vol_step v (call_at a c) = vol_step v c.
Proof. by destruct c. Qed.

Section ArrayCalls.
Context {D M : Type} `{BlockDeviceSpec D} `{ByteMemLaws M}.
Context (Hcap : CLUSTER_BLOCK_COUNT * CLUSTER_MAP_SIZE <= dev_blocks).
Implicit Types (st : FS D M) (v : Volume) (p : Z).

Lemma array_call_ok (m : M) a c b p v :
  array_ok p v c b -> mapped m a (zlen b) -> holds m a b -> call_ok m p v (call_at a c).
Proof.
  intros [[? ? ? ? ?] Hp Hn Hs _ _ Hc] Hm Hh. destruct c as [request data | request | request]; cbn [call_at] in *.
  - destruct Hc as [Hz Hpos]. split; try done. split; [exact Hz |]. intros Hsz. destruct (Hpos Hsz) as (? & <- & ?). done.
  - split; try done. intros sz bytes Hb. apply (mapped_le _ _ _ _ Hm), (Hc sz bytes Hb).
  - by split.
Qed.

(** The bytes that a call delivers fit the array. *)
Lemma represents_bytes st p v k sz bytes :
  Represents st p v -> vol_nodes v !! k = Some (File sz bytes) -> all_bytes bytes.
Proof.
  intros [chs Hl] Hn. destruct (lo_complete _ _ _ _ Hl k ltac:(by eexists)) as (i & Hu & Hk).
  pose proof (lo_lookup _ _ _ _ Hl i Hu) as Hlk. rewrite Hk, Hn in Hlk.
  unfold node_of in Hlk. destruct (_ =? _); [done |]. injection Hlk as _ ->. apply chain_bytes_ok.
  intros c Hc. apply (cluster_ok Hcap); [apply (lo_inv _ _ _ _ Hl) | by eapply layout_above].
Qed.
Lemma delivered_fits st p v c b bytes :
  Represents st p v -> array_ok p v c b -> (vol_step v c).2 = Some bytes ->
  zlen bytes <= zlen b /\ all_bytes bytes.
Proof.
  intros Hrep Hok Hv. pose proof (ao_call _ _ _ _ Hok) as Hc. destruct c as [request data | request | request].
  - unfold vol_step in Hv. case_decide; [done |]. by destruct (vol_nodes v !! _) as [[|] |].
  - unfold vol_step in Hv. cbn [call_request] in Hv.
    destruct (vol_nodes v !! request_key request) as [[sz bs |] |] eqn:Hnode; try done.
    destruct (_ <? _); [done |]. injection Hv as ->. split; [by apply (Hc sz) | by eapply represents_bytes].
  - unfold vol_step in Hv. by destruct (vol_nodes v !! _) as [[| []] |].
Qed.
(** Reading a directory into an array of one cluster. *)
Lemma open_call st (m : M) p v chs nm a i m' :
  Layout st p v chs -> zlen nm = 8 ->
  let t := dir_table st p in
  for_find 0 DIR_ENTRIES (fun j => mem_eq (name (row t j)) nm 8) = Some i ->
  attribute (row t i) = ATTR_SUBDIRECTORY -> in_fat (entry_cluster (row t i)) ->
  store_bytes a (cluster (disk st) (entry_cluster (row t i))) m = Ok m' ->
  exists st', read_directory (set_buf a (directory_request nm p)) (set_umem m st) = Ok (0, st') /\ umem st' = m' /\
    forall q u, Represents st q u -> Represents st' q u /\ dir_table st' q = dir_table st q.
Proof.
  intros Hl Hnm t Hfind Hattr Hc Hst.
  destruct (read_directory_found Hcap (set_umem m st) (set_buf a (directory_request nm p)) i m')
    as (st' & Hrun & Hom); try done.
  { apply (lo_inv _ _ _ _ Hl). }
  { apply (lo_parent _ _ _ _ Hl). }
  { pose proof (lo_directory _ _ _ _ Hl) as Hdir. unfold is_directory_table in Hdir.
    by apply andb_true_iff in Hdir as [Hdir%Z.eqb_eq _]. }
  exists st'. split; [done |]. split; [apply (om_memory _ _ _ Hom) |]. intros q u [chq Hlq].
  split; [| exact (only_memory_table (set_umem m st) m' st' q (proj1 (lo_parent _ _ _ _ Hlq)) Hom)].
  exists chq. eapply layout_memory; [by apply (layout_umem st) | exact Hom].
Qed.
(** The array after a call that answered. *)
Lemma answered_load (m m' : M) a c b p v st :
  Represents st p v -> array_ok p v c b -> holds m a b -> separate m a (zlen b) ->
  answered m (call_at a c) (vol_step v c).2 m' ->
  load_bytes (length b) a m' = Ok (overwrite (vol_step v c).2 b).
Proof.
  intros Hrep Hok Hh Hsep Hans. unfold answered in Hans.
  destruct (vol_step v c).2 as [bytes |] eqn:Hv; cbn [overwrite].
  - destruct (delivered_fits st p v c b bytes Hrep Hok Hv) as [Hle Hbs].
    apply (load_overwritten m); try done. by destruct c.
  - subst m'. by apply load_bytes_holds.
Qed.
End ArrayCalls.

(** ** The caller's array as a memory *)

Definition empty_flat (n : Z) : FlatMem := {| flat_lo := 0; flat_hi := n; flat_cells := ∅ |}.
Definition flat_of (b : list Z) : FlatMem :=
  match store_bytes 0 b (empty_flat (zlen b)) with
  | Ok m => m
  | Fault _ => empty_flat (zlen b)
  end.

Lemma flat_of_stored b :
  zlen b <= 2 ^ 32 -> stored (empty_flat (zlen b)) 0 b (flat_of b).
Proof.
  intros Hb. unfold flat_of.
  destruct (store_bytes_mapped b 0 (empty_flat (zlen b))) as (m & -> & Hst); [| done].
  apply flat_mapped; cbn; lia.
Qed.
Lemma flat_of_mapped b n : zlen b <= 2 ^ 32 -> n <= zlen b -> mapped (flat_of b) 0 n.
Proof.
  intros Hb Hn. apply (stored_mapped _ _ _ _ _ _ (flat_of_stored b Hb)). apply flat_mapped; cbn; lia.
Qed.
Lemma flat_of_separate b n : zlen b <= 2 ^ 32 -> n <= zlen b -> separate (flat_of b) 0 n.
Proof.
  intros Hb Hn. apply (stored_separate _ _ _ _ _ _ (flat_of_stored b Hb)). apply flat_separate; cbn; lia.
Qed.
Lemma flat_of_holds b : zlen b <= 2 ^ 32 -> all_bytes b -> holds (flat_of b) 0 b.
Proof.
  intros Hb Hby. apply (stored_holds _ _ _ _ (flat_of_stored b Hb)); [| done]. apply flat_separate; cbn; lia.
Qed.

Lemma load_stored b bytes (m : FlatMem) :
  zlen b <= 2 ^ 32 -> all_bytes b -> all_bytes bytes -> zlen bytes <= zlen b ->
  stored (flat_of b) 0 bytes m ->
  load_bytes (length b) 0 m = Ok (bytes ++ zdrop (zlen bytes) b).
Proof.
  intros Hb Hby Hbs Hle. apply (load_overwritten (flat_of b)); [by apply flat_of_holds | | done | done].
  by apply flat_of_separate.
Qed.
Lemma load_flat_of b : zlen b <= 2 ^ 32 -> all_bytes b -> load_bytes (length b) 0 (flat_of b) = Ok b.
Proof. intros Hb Hby. apply load_bytes_holds; [done | by apply flat_of_holds]. Qed.

(** ** The kernel *)

Section ShellFs.
Context {A T : Type} `{FileMachine A} `{RestOfKernel T}.

Record FsKernel := mkFsKernel { files : A; rest : T }.

Definition with_rest (t : T) (k : FsKernel) : FsKernel := mkFsKernel (files k) t.
Definition on_files (call : FileCall) (request : FAT32DriverRequest) (b : list Z) (k : FsKernel)
  : Res (Z * list Z * FsKernel) :=
  res_bind (file_call call request b (files k)) (fun '(r, b', a) => Ok (r, b', mkFsKernel a (rest k))).

#[export] Instance fs_shell_kernel : ShellKernel FsKernel := {|
  sys_read := on_files FileRead;
  sys_read_directory := on_files FileReadDirectory;
  sys_write request data k := res_bind (on_files FileWrite request data k) (fun '(r, _, k') => Ok (r, k'));
  sys_delete request k := res_bind (on_files FileDelete request [] k) (fun '(r, _, k') => Ok (r, k'));
  sys_getchar k := let '(c, t) := rest_getchar (rest k) in (c, with_rest t k);
  sys_putchar c color p k := let '(p', t) := rest_putchar c color p (rest k) in (p', with_rest t k);
  sys_puts text color p k := let '(p', t) := rest_puts text color p (rest k) in (p', with_rest t k);
  sys_keyboard_on k := with_rest (rest_keyboard_on (rest k)) k;
  sys_move_cursor r c color k := with_rest (rest_move_cursor r c color (rest k)) k;
  sys_clear k := with_rest (rest_clear (rest k)) k;
  sys_ps p k := let '(p', t) := rest_ps p (rest k) in (p', with_rest t k);
  sys_kill pid k := with_rest (rest_kill pid (rest k)) k;
  sys_exec nm p k := with_rest (rest_exec nm p (rest k)) k
|}.
End ShellFs.
Arguments FsKernel : clear implicits.

(** ** The contract *)

Section Laws.
Context {A D M T : Type} `{FileMachineSpec A D M} `{!ByteMemLaws M} `{RestLaws T}.
Context (Hcap : CLUSTER_BLOCK_COUNT * CLUSTER_MAP_SIZE <= dev_blocks).
Implicit Types (k : FsKernel A T) (st : FS D M) (v : Volume) (p : Z).

Definition state_of k : FS D M := machine_files (files k).

#[export] Instance fs_shell_view : ShellKernelView (FsKernel A T) := {|
  at_directory k p t v := machine_ready (files k) /\ Represents (state_of k) p v /\
    t = dir_table (state_of k) p /\ entry_cluster (row t 0) = p;
  keys k := rest_keys (rest k)
|}.

Lemma represents_table st p v : Represents st p v -> table_ok (dir_table st p).
Proof. intros [chs Hl]. by apply (layout_table Hcap st p v chs). Qed.
Lemma represents_row st p v i : Represents st p v -> 0 <= i < DIR_ENTRIES -> zlen (name (row (dir_table st p) i)) = 8.
Proof.
  intros [Hlen Hok]%represents_table Hi. rewrite <- Hlen in Hi.
  pose proof (zget_znth empty_entry (dir_table st p) i Hi) as Hr.
  by destruct (Forall_zget _ _ _ _ Hok Hr) as (? & _).
Qed.
Lemma file_request_ok v nm p size : name_ok v nm -> 0 <= size < 2 ^ 32 -> request_ok (file_request nm p size).
Proof. intros [Hl Hb _ _] Hs. split; cbn; [done | done | done | by apply Forall_zrep | lia]. Qed.

Lemma represents_shows st p v : Represents st p v -> shows (dir_table st p) v.
Proof.
  intros [chs Hl] nm q size Hn.
  (* the size is not looked at by the search *)
  change (find_entry 2 (dir_table st p) (file_request nm q size))
    with (find_entry 2 (dir_table st p) (file_request nm p 0)).
  pose proof (file_request_ok v nm p 0 Hn ltac:(lia)) as Hro. destruct Hn as [_ _ Hz Hsh].
  destruct (node_at v nm) as [nd |] eqn:Hnd.
  - destruct (find_node Hcap st p v chs Hl (file_request nm p 0) Hro Hz Hsh nd Hnd) as (i & Hu & Hk & -> & Hfind).
    exists i. split; [apply Hfind; lia |]. unfold node_of.
    destruct (Z.eqb_spec (attribute (row (dir_table st p) i)) ATTR_SUBDIRECTORY) as [Ha | Ha]; [exact Ha | by split].
  - by apply (find_unknown Hcap st p v chs Hl (file_request nm p 0) Hro Hz Hsh 2).
Qed.

(** A call of the map. *)
Lemma on_files_agrees c b k p v :
  machine_ready (files k) -> Represents (state_of k) p v -> array_ok p v c b ->
  exists k', on_files (call_kind c) (call_request c) b k =
      Ok ((vol_step v c).1.1, overwrite (vol_step v c).2 b, k') /\
    machine_ready (files k') /\ Represents (state_of k') p (vol_step v c).1.2 /\
    table_kept c (state_of k) p (state_of k') /\ rest k' = rest k.
Proof.
  intros Hr Hrep Hok. destruct (machine_call c b (files k) p v Hr Hrep Hok) as (a & Hrun & Hr' & Hrep' & Hkept).
  exists (mkFsKernel a (rest k)). split; [unfold on_files; by rewrite Hrun | done].
Qed.

Lemma array_ok_of c b p v nm size :
  name_ok v nm -> 0 <= size < 2 ^ 32 -> call_request c = file_request nm p size ->
  zlen b <= ARRAY_MAX -> all_bytes b ->
  match c with
  | CallWrite request data =>
    (buffer_size request = 0 -> req_ext request = zrep 3 0 /\ 1 <= vol_space v) /\
    (0 < buffer_size request -> source_ok (buffer_size request) data /\ b = data /\
       clusters_for (buffer_size request) <= vol_space v)
  | CallRead request => forall sz bytes, vol_nodes v !! request_key request = Some (File sz bytes) ->
      zlen bytes <= zlen b
  | CallDelete _ => True
  end -> array_ok p v c b.
Proof.
  intros Hn Hs Hreq Hl Hb Hc. pose proof (file_request_ok v nm p size Hn Hs). destruct Hn as [_ _ Hz Hsh].
  by split; rewrite ?Hreq.
Qed.

(** Reading a directory into an array of one cluster. *)
Lemma open_directory k p t v nm i t' v' :
  at_directory k p t v -> zlen nm = 8 ->
  for_find 0 DIR_ENTRIES (fun j => mem_eq (name (row t j)) nm 8) = Some i ->
  attribute (row t i) = ATTR_SUBDIRECTORY -> at_directory k (entry_cluster (row t i)) t' v' ->
  exists bs k', on_files FileReadDirectory (directory_request nm p) (zrep CLUSTER_SIZE 0) k = Ok (0, bs, k') /\
    decode_table bs = t' /\ quiet_kernel k k'.
Proof.
  intros (Hr & Hrep & -> & _) Hnm Hfind Hattr (_ & [chs' Hl'] & -> & _).
  destruct (machine_open (files k) p v nm i Hr Hrep Hnm Hfind Hattr) as (a & Hrun & Hr' & Hsame); [apply (lo_parent _ _ _ _ Hl') |].
  eexists _, (mkFsKernel a (rest k)). split; [unfold on_files; rewrite Hrun; reflexivity |]. split; [done |].
  split; [done |]. intros q t u (_ & Hrepq & -> & Hself). destruct (Hsame q u Hrepq) as [Hrepq' Htab].
  unfold at_directory, fs_shell_view, state_of in *. cbn [files]. rewrite Htab.
  exact (conj Hr' (conj Hrepq' (conj eq_refl Hself))).
Qed.

Lemma quiet_rest k t : rest_keys t = rest_keys (rest k) -> quiet_kernel k (with_rest t k).
Proof. intros Ht. split; [exact Ht | by intros p u v Hd]. Qed.

Lemma fs_read_law k p t v nm b :
  at_directory k p t v -> name_ok v nm -> fits v nm b -> all_bytes b -> zlen b <= ARRAY_MAX ->
  let step := vol_step v (CallRead (file_request nm p CLUSTER_SIZE)) in
  exists k', sys_read (file_request nm p CLUSTER_SIZE) b k = Ok (step.1.1, overwrite step.2 b, k') /\
    keys k' = keys k /\ at_directory k' p t v.
Proof.
  intros (Hr & Hrep & -> & Hself) Hn Hfit Hby Hlen step. subst step.
  set (c := CallRead (file_request nm p CLUSTER_SIZE)).
  assert (Hv : (vol_step v c).1.2 = v).
  { cbn [c vol_step call_request]. destruct (vol_nodes v !! _) as [[|] |]; try done. by destruct (_ <? _). }
  destruct (on_files_agrees c b k p v Hr Hrep) as (k' & Hrun & Hr' & Hrep' & Hkept & Hrest).
  - apply (array_ok_of c b p v nm CLUSTER_SIZE); [done | by consts | done | done | done |].
    intros sz bytes Hb. by apply (Hfit sz).
  - exists k'. split; [exact Hrun |]. split; [cbn; by rewrite Hrest |]. rewrite Hv in Hrep'.
    cbn [table_kept c] in Hkept. split_and!; rewrite ?Hkept; done.
Qed.

Lemma fs_change_law c b k p t v nm size :
  at_directory k p t v -> name_ok v nm -> 0 <= size < 2 ^ 32 -> call_request c = file_request nm p size ->
  array_ok p v c b -> (if c is CallRead _ then False else True) ->
  exists k' t', res_bind (on_files (call_kind c) (file_request nm p size) b k) (fun '(r, _, k') => Ok (r, k')) =
      Ok ((vol_step v c).1.1, k') /\
    keys k' = keys k /\ at_directory k' p t' (vol_step v c).1.2 /\ row t' 0 = row t 0.
Proof.
  intros (Hr & Hrep & -> & Hself) Hn Hs Hreq Hok Hc.
  destruct (on_files_agrees c b k p v Hr Hrep Hok) as (k' & Hrun & Hr' & Hrep' & Hkept & Hrest).
  assert (Hrow : row (dir_table (state_of k') p) 0 = row (dir_table (state_of k) p) 0)
    by (destruct c; [exact Hkept | destruct Hc | exact Hkept]).
  rewrite Hreq in Hrun. exists k', (dir_table (state_of k') p). rewrite Hrun.
  split; [done |]. split; [cbn; by rewrite Hrest |]. split; [| exact Hrow].
  refine (conj Hr' (conj Hrep' (conj eq_refl _))). rewrite Hrow. exact Hself.
Qed.

(** The shell's kernel, built from a machine's [read], [read_directory], [write] and
    [delete] on an array of the caller, keeps the contract that the theorems on the
    shell are proved from. *)
Lemma fs_shell_laws : ShellKernelLaws (FsKernel A T).
Proof.
  split.
  - by intros k p t v (_ & _ & _ & ?).
  - intros k p t v i (_ & Hrep & -> & _) Hi. by apply (represents_row _ _ v).
  - intros k p t v (_ & [chs Hl] & -> & _). apply (lo_directory _ _ _ _ Hl).
  - intros k p t v (_ & Hrep & -> & _). by apply represents_shows.
  - exact fs_read_law.
  - intros k p t v nm size data Hd Hn [[-> ->] | [-> Hso]] Hsp.
    + apply (fs_change_law (CallWrite (file_request nm p 0) []) [] k p t v nm 0); try done.
      apply (array_ok_of _ [] p v nm 0); [done | done | done | done | constructor |]. by split.
    + destruct Hso as [Hlen Hby]. change (Z.max CLUSTER_SIZE CLUSTER_SIZE) with CLUSTER_SIZE in Hlen.
      apply (fs_change_law (CallWrite (file_request nm p CLUSTER_SIZE) data) data k p t v nm CLUSTER_SIZE); try done.
      apply (array_ok_of _ data p v nm CLUSTER_SIZE); [done | done | done | by rewrite Hlen | done |].
      split; [done |]. intros _. split; [by split | by split].
  - intros k p t v nm size Hd Hn Hs.
    apply (fs_change_law (CallDelete (file_request nm p size)) [] k p t v nm size); try done.
    apply (array_ok_of _ [] p v nm size); [done | done | done | done | constructor | exact I].
  - exact open_directory.
  - intros k c l Hk. destruct (rest_getchar_law (rest k) c l Hk) as (t' & Hg & Ht').
    exists (with_rest t' k). cbn [sys_getchar fs_shell_kernel]. rewrite Hg. split_and!; [done | done |].
    by intros p t v Hd.
  - intros c color p k. pose proof (rest_putchar_law c color p (rest k)) as Ht.
    cbn. destruct (rest_putchar _ _ _ _). by apply quiet_rest.
  - intros text color p k. pose proof (rest_puts_law text color p (rest k)) as Ht.
    cbn. destruct (rest_puts _ _ _ _). by apply quiet_rest.
  - intros r c color k. apply quiet_rest, rest_move_cursor_law.
  - intros k. apply quiet_rest, rest_keyboard_on_law.
  - intros k. apply quiet_rest, rest_clear_law.
  - intros p k. pose proof (rest_ps_law p (rest k)) as Ht. cbn. destruct (rest_ps _ _). by apply quiet_rest.
Qed.

(** A session on any such machine. *)
Lemma shell_on_machine `{!ShellEnvironment} `{!ShellEnvironmentOk} retcodes lines more (a : A) (t : T) v :
  let st := machine_files a in
  machine_ready a -> Represents st ROOT_CLUSTER_NUMBER v -> volume_ok v ->
  entry_cluster (row (dir_table st ROOT_CLUSTER_NUMBER) 0) = ROOT_CLUSTER_NUMBER ->
  opens (dir_table st ROOT_CLUSTER_NUMBER) root_name 0 ->
  session_ok ROOT_CLUSTER_NUMBER v lines -> length retcodes = length lines ->
  rest_keys t = concat ((fun l => l ++ [10]) <$> lines) ++ more ->
  exists s, bind shell_start (fun _ => shell_rounds retcodes) (boot_shell (mkFsKernel a t)) = Ok (tt, s) /\
    machine_ready (files (kern s)) /\
    Represents (state_of (kern s)) ROOT_CLUSTER_NUMBER (session ROOT_CLUSTER_NUMBER v lines) /\
    current_dir s = dir_table (state_of (kern s)) ROOT_CLUSTER_NUMBER /\ rest_keys (rest (kern s)) = more.
Proof.
  intros st Hr Hrep Hvol Hself Hroot Hok Hn Hkeys. pose proof fs_shell_laws as Hlaws.
  destruct (shell_start_spec (mkFsKernel a t) (dir_table st ROOT_CLUSTER_NUMBER) v) as (s1 & Hstart & Hat & Hk & _);
    [by split_and! | done | done |].
  destruct (shell_refines retcodes lines more s1 ROOT_CLUSTER_NUMBER v Hat Hok Hn) as (s2 & Hrun & Hat2 & Hk2);
    [rewrite Hk; exact Hkeys |].
  exists s2. split; [by erewrite bind_run; [| exact Hstart] |].
  destruct Hat2 as [(Hr2 & Hrep2 & Ht2 & _) _ _]. by split_and!.
Qed.
End Laws.

(** ** The file system as a machine *)

Section Flat.
Context {D T : Type} `{BlockDeviceSpec D} `{RestLaws T}.
Context (Hcap : CLUSTER_BLOCK_COUNT * CLUSTER_MAP_SIZE <= dev_blocks).
Implicit Types (st : FS D FlatMem) (v : Volume) (p : Z).

Definition file_function (call : FileCall) (request : FAT32DriverRequest) : Eff (FS D FlatMem) Z :=
  match call with
  | FileRead => read request
  | FileReadDirectory => read_directory request
  | FileWrite => write request
  | FileDelete => delete request
  end.
(** The caller's memory is the array, at address 0. *)
#[export] Instance flat_machine : FileMachine (FS D FlatMem) := {|
  file_call call request b st :=
    match file_function call (set_buf 0 request) (set_umem (flat_of b) st) with
    | Ok (r, st') => res_bind (load_bytes (length b) 0 (umem st')) (fun b' => Ok (r, b', st'))
    | Fault e => Fault e
    end
|}.

Lemma flat_call c b st p v :
  Represents st p v -> array_ok p v c b ->
  exists st', file_call (call_kind c) (call_request c) b st =
      Ok ((vol_step v c).1.1, overwrite (vol_step v c).2 b, st') /\ True /\
    Represents st' p (vol_step v c).1.2 /\ table_kept c st p st'.
Proof.
  intros Hrep Hok. pose proof (ao_bytes _ _ _ _ Hok) as Hb.
  assert (Hlen : zlen b <= 2 ^ 32) by (pose proof (ao_length _ _ _ _ Hok); unfold ARRAY_MAX in *; lia).
  pose proof (flat_of_holds b Hlen Hb) as Hh.
  destruct (call_agrees Hcap st p v (flat_of b) (call_at 0 c) Hrep) as (st' & Hrun & Hrep' & Hans & Hkept).
  { apply (array_call_ok _ _ _ b); [done | by apply flat_of_mapped | done]. }
  rewrite vol_step_at in *. exists st'. split; [| split_and!; [done | done | by destruct c]].
  cbn [file_call flat_machine].
  assert (Hf : file_function (call_kind c) (set_buf 0 (call_request c)) = run_call (call_at 0 c)) by by destruct c.
  rewrite Hf, Hrun. rewrite (answered_load Hcap (flat_of b) (umem st') 0 c b p v st); try done. by apply flat_of_separate.
Qed.

Lemma flat_open st p v nm i :
  Represents st p v -> zlen nm = 8 ->
  let t := dir_table st p in
  for_find 0 DIR_ENTRIES (fun j => mem_eq (name (row t j)) nm 8) = Some i ->
  attribute (row t i) = ATTR_SUBDIRECTORY -> in_fat (entry_cluster (row t i)) ->
  exists st', file_call FileReadDirectory (directory_request nm p) (zrep CLUSTER_SIZE 0) st =
      Ok (0, cluster (disk st) (entry_cluster (row t i)), st') /\ True /\
    forall q u, Represents st q u -> Represents st' q u /\ dir_table st' q = dir_table st q.
Proof.
  intros [chs Hl] Hnm t Hfind Hattr Hc. set (b := zrep CLUSTER_SIZE 0).
  assert (Hb : zlen b = CLUSTER_SIZE) by done.
  assert (Hbb : all_bytes b) by by apply Forall_zrep.
  assert (Hsmall : zlen b <= 2 ^ 32) by by rewrite Hb.
  pose proof (cluster_ok Hcap (disk st) _ (inv_dev _ (lo_inv _ _ _ _ Hl)) Hc) as [Hcl Hcb].
  destruct (store_bytes_mapped (cluster (disk st) (entry_cluster (row t i))) 0 (flat_of b)) as (m & Hst & Hstored).
  { apply flat_of_mapped; [done |]. by rewrite Hcl, Hb. }
  destruct (open_call Hcap st (flat_of b) p v chs nm 0 i m Hl Hnm Hfind Hattr Hc Hst) as (st' & Hrun & Hm & Hsame).
  exists st'. split; [| done]. cbn [file_call flat_machine file_function].
  change (set_buf 0 (directory_request nm p)) with (directory_request nm p) in *. rewrite Hrun, Hm.
  rewrite (load_stored b _ m) by (try done; by rewrite Hcl, Hb). cbn [res_bind].
  rewrite (zlen_0_inv (zdrop _ _)); [by rewrite app_nil_r |]. rewrite zlen_zdrop, Hcl, Hb. lia.
Qed.

#[export] Instance flat_machine_spec : FileMachineSpec (FS D FlatMem) D FlatMem.
Proof.
  refine {| machine_files st := st; machine_ready _ := True |}.
  - intros c b st p v _. apply flat_call.
  - intros st p v nm i _. apply flat_open.
Defined.

(** A session at the shell, down to the disk. The shell starts on a disk whose root
    directory stands for a map; then lines are typed at the keyboard, with backspaces
    and idle polls in them. Every line runs to its end, and what it does to the disk is
    what its operation does to the map: [mkdir] enters a directory, [rm] removes a
    name, [mv] renames a file of one cluster (a larger one is replaced by zeros, a
    missing one comes into being with what is on the stack), and [cat], [ls],
    [clear], [ps] and unknown words change nothing. After every line the shell's copy
    of the table is the one on the disk. *)
Theorem shell_on_disk `{!ShellEnvironment} `{!ShellEnvironmentOk} retcodes lines more st (t : T) v
    (Hrep : Represents st ROOT_CLUSTER_NUMBER v) (Hvol : volume_ok v)
    (Hself : entry_cluster (row (dir_table st ROOT_CLUSTER_NUMBER) 0) = ROOT_CLUSTER_NUMBER)
    (Hroot : opens (dir_table st ROOT_CLUSTER_NUMBER) root_name 0)
    (Hok : session_ok ROOT_CLUSTER_NUMBER v lines) (Hn : length retcodes = length lines)
    (Hkeys : rest_keys t = concat ((fun l => l ++ [10]) <$> lines) ++ more) :
  exists s, bind shell_start (fun _ => shell_rounds retcodes) (boot_shell (mkFsKernel st t)) = Ok (tt, s) /\
    Represents (files (kern s)) ROOT_CLUSTER_NUMBER (session ROOT_CLUSTER_NUMBER v lines) /\
    current_dir s = dir_table (files (kern s)) ROOT_CLUSTER_NUMBER /\ rest_keys (rest (kern s)) = more.
Proof.
  assert (Hready : machine_ready st) by exact I.
  destruct (shell_on_machine Hcap retcodes lines more st t v Hready Hrep Hvol Hself Hroot Hok Hn Hkeys)
    as (s & Hrun & _ & Hrest). by exists s.
Qed.
End Flat.
