(* ===== verification/Programs.v ===== *)
(** Programs: the two user programs, the clock at the screen's edge (src/timer/) and
    the green cell that moves along the last row (src/bounce/). *)

From Stdlib Require Import ZArith Lia.
From stdpp Require Import base tactics numbers strings list.
From S2P Require Import Prelude.
From S2P Require Import Cmos.
From S2P Require Import Shell.
#[local] Open Scope eff_scope.

(** The calls the programs make. Printing moves the cursor whose address it is
    given. *)
Class ProgramKernel (K : Type) := {
  prog_time : K -> Time * K;
  prog_puts : list Z -> Z -> CP -> K -> CP * K;
  prog_putchar : Z -> Z -> CP -> K -> CP * K
}.
(** The byte at address 0, which [bounce] prints. *)
Class ProgramEnvironment := { null_byte : Z }.

(** ** The clock *)

Module Clock.
Definition DEFAULT_ROW : Z := 24.
Definition DEFAULT_COL : Z := 60.
Definition TEXT_LENGTH : Z := 19.

(** [buf] before the loop: characters, so each value is cut to a byte. *)
Definition time_digits (t : Time) : list Z :=
  u8 <$> [year t / 1000; year t mod 1000 / 100; year t mod 100 / 10; year t mod 10; 32;
          month t / 10; month t mod 10; 32; day t / 10; day t mod 10; 32;
          hour t / 10; hour t mod 10; 58; minute t / 10; minute t mod 10; 58; second t / 10; second t mod 10].
Definition is_separator (i : Z) : bool := (i =? 4) || (i =? 7) || (i =? 10) || (i =? 13) || (i =? 16).
Definition time_text (t : Time) : list Z :=
  foldl (fun buf i => if is_separator i then buf else buf.[i := u8 (znth 0 buf i + 48)]) (time_digits t)
    (seqZ 0 TEXT_LENGTH).

(** One round of the loop of [main]. *)
Definition clock_frame {K : Type} `{ProgramKernel K} (cursor : CP) (k : K) : CP * K :=
  let '(t, k) := prog_time k in
  let '(_, k) := prog_puts (time_text t) 0xE cursor k in
  (mkCP DEFAULT_ROW DEFAULT_COL, k).
Fixpoint clock_frames {K : Type} `{ProgramKernel K} (n : nat) (cursor : CP) (k : K) : CP * K :=
  match n with
  | O => (cursor, k)
  | S n' => let '(cursor, k) := clock_frame cursor k in clock_frames n' cursor k
  end.
Definition clock_start : CP := mkCP DEFAULT_ROW DEFAULT_COL.
End Clock.

(** ** The moving cell *)

Module Bounce.
(** [DEFAULT_ROW] and [DEFAULT_COL] of bounce.c. *)
Definition BOUNCE_ROW : Z := 24.
Definition BOUNCE_COL : Z := 0.

Record Bounce := mkBounce { cursor : CP; previous_cursor : CP; prev_time : Z }.
Definition bounce_start : Bounce := mkBounce (mkCP BOUNCE_ROW BOUNCE_COL) (mkCP 0 0) 0.

(** One round of the loop of [main]: when the second changes the previous cell is
    overwritten and the next one drawn. The text printed is at the address that the
    character [buf], 0, makes. *)
Definition bounce_round {K : Type} `{ProgramKernel K} `{ProgramEnvironment} (b : Bounce) (k : K) : Bounce * K :=
  let '(t, k) := prog_time k in
  if second t =? prev_time b then (b, k) else
  let '(previous, k) := prog_putchar null_byte 0x0 (previous_cursor b) k in
  let '(c, k) := prog_puts [null_byte] 0xA (cursor b) k in
  (mkBounce (if col_of c =? 79 then mkCP (row_of c) 0 else c) (mkCP (row_of c) (col_of (cursor b))) (second t), k).
Fixpoint bounce_rounds {K : Type} `{ProgramKernel K} `{ProgramEnvironment} (n : nat) (b : Bounce) (k : K)
  : Bounce * K :=
  match n with
  | O => (b, k)
  | S n' => let '(b, k) := bounce_round b k in bounce_rounds n' b k
  end.
End Bounce.

(** ** What the clock shows *)

(** A date of four digits for the year and two for every other field. *)
Record printable (t : Time) : Prop := {
  pr_year : 0 <= year t < 10000;
  pr_month : 0 <= month t < 100;
  pr_day : 0 <= day t < 100;
  pr_hour : 0 <= hour t < 100;
  pr_minute : 0 <= minute t < 100;
  pr_second : 0 <= second t < 100
}.

(** The value of decimal digits, and a date read from a text "YYYY MM DD hh:mm:ss". *)
Definition decimal (l : list Z) : Z := foldl (fun n c => 10 * n + (c - 48)) 0 l.
Definition read_text (l : list Z) : Time :=
  mkTime (decimal (zslice 17 2 l)) (decimal (zslice 14 2 l)) (decimal (zslice 11 2 l))
    (decimal (zslice 8 2 l)) (decimal (zslice 5 2 l)) (decimal (zslice 0 4 l)).

Lemma two_digits x : 0 <= x < 100 -> decimal [x / 10 + 48; x mod 10 + 48] = x /\ 0 <= x / 10 < 10 /\ 0 <= x mod 10 < 10.
Proof.
  intros Hx. pose proof (Z.div_mod x 10 ltac:(lia)). pose proof (Z.mod_pos_bound x 10 ltac:(lia)).
  cbn [decimal foldl]. lia.
Qed.
Lemma four_digits x :
  0 <= x < 10000 ->
  decimal [x / 1000 + 48; x mod 1000 / 100 + 48; x mod 100 / 10 + 48; x mod 10 + 48] = x /\
  0 <= x / 1000 < 10 /\ 0 <= x mod 1000 / 100 < 10 /\ 0 <= x mod 100 / 10 < 10 /\ 0 <= x mod 10 < 10.
Proof.
  intros Hx. assert (Hm : x mod 1000 mod 100 = x mod 100 /\ x mod 100 mod 10 = x mod 10).
  { split; apply Z.mod_mod_divide; [by exists 10 | by exists 10]. }
  destruct Hm as [Hm1 Hm2].
  pose proof (Z.div_mod x 1000 ltac:(lia)). pose proof (Z.div_mod (x mod 1000) 100 ltac:(lia)).
  pose proof (Z.div_mod (x mod 100) 10 ltac:(lia)).
  pose proof (Z.mod_pos_bound x 1000 ltac:(lia)). pose proof (Z.mod_pos_bound x 100 ltac:(lia)).
  pose proof (Z.mod_pos_bound x 10 ltac:(lia)). rewrite Hm1, Hm2 in *.
  cbn [decimal foldl]. lia.
Qed.

(** The text written out. *)
Lemma time_text_digits t :
  printable t ->
  Clock.time_text t =
  [year t / 1000 + 48; year t mod 1000 / 100 + 48; year t mod 100 / 10 + 48; year t mod 10 + 48; 32;
   month t / 10 + 48; month t mod 10 + 48; 32; day t / 10 + 48; day t mod 10 + 48; 32;
   hour t / 10 + 48; hour t mod 10 + 48; 58; minute t / 10 + 48; minute t mod 10 + 48; 58;
   second t / 10 + 48; second t mod 10 + 48].
Proof.
  intros [Hy Hmo Hd Hh Hmi Hs].
  destruct (four_digits _ Hy) as (_ & H1 & H2 & H3 & H4). destruct (two_digits _ Hmo) as (_ & H5 & H6).
  destruct (two_digits _ Hd) as (_ & H7 & H8). destruct (two_digits _ Hh) as (_ & H9 & H10).
  destruct (two_digits _ Hmi) as (_ & H11 & H12). destruct (two_digits _ Hs) as (_ & H13 & H14).
  unfold Clock.time_text, Clock.time_digits. cbn [fmap list_fmap].
  revert H1 H2 H3 H4 H5 H6 H7 H8 H9 H10 H11 H12 H13 H14.
  generalize (year t / 1000), (year t mod 1000 / 100), (year t mod 100 / 10), (year t mod 10),
    (month t / 10), (month t mod 10), (day t / 10), (day t mod 10), (hour t / 10), (hour t mod 10),
    (minute t / 10), (minute t mod 10), (second t / 10), (second t mod 10).
  intros. rewrite !(u8_small (_ : Z)) by lia.
  change (seqZ 0 Clock.TEXT_LENGTH) with [0; 1; 2; 3; 4; 5; 6; 7; 8; 9; 10; 11; 12; 13; 14; 15; 16; 17; 18].
  lazy -[u8 Z.add Z.le Z.lt]. rewrite !(u8_small (_ + 48)) by lia. reflexivity.
Qed.

(** The clock's text is the date: for every date of four and two digits the 19
    characters "YYYY MM DD hh:mm:ss" read back as the date, and they fit the 20
    columns from where they are printed to the screen's edge. *)
Theorem time_text_roundtrip (t : Time) (Ht : printable t) :
  read_text (Clock.time_text t) = t /\ zlen (Clock.time_text t) = Clock.TEXT_LENGTH /\
  Clock.DEFAULT_COL + Clock.TEXT_LENGTH <= 80.
Proof.
  rewrite (time_text_digits t Ht). destruct Ht as [Hy Hmo Hd Hh Hmi Hs].
  split; [| by split]. unfold read_text. cbn [zslice ztake zdrop].
  transitivity (mkTime (decimal [second t / 10 + 48; second t mod 10 + 48])
    (decimal [minute t / 10 + 48; minute t mod 10 + 48]) (decimal [hour t / 10 + 48; hour t mod 10 + 48])
    (decimal [day t / 10 + 48; day t mod 10 + 48]) (decimal [month t / 10 + 48; month t mod 10 + 48])
    (decimal [year t / 1000 + 48; year t mod 1000 / 100 + 48; year t mod 100 / 10 + 48; year t mod 10 + 48]));
    [reflexivity |].
  rewrite (proj1 (four_digits _ Hy)), (proj1 (two_digits _ Hmo)), (proj1 (two_digits _ Hd)),
    (proj1 (two_digits _ Hh)), (proj1 (two_digits _ Hmi)), (proj1 (two_digits _ Hs)).
  by destruct t.
Qed.

(** ** Where the cell moves *)

Section BounceBounds.
Context {K : Type} `{ProgramKernel K} `{ProgramEnvironment}.
(** A character printed inside a row moves the cursor one column on. *)
Context (Hputs : forall c color p (k : K), 0 <= col_of p < 79 ->
  (prog_puts [c] color p k).1 = mkCP (row_of p) (col_of p + 1)).

(** The cell stays on the last row, in the columns 0 to 78, however many rounds are
    run; the cell overwritten is on the row of the cell drawn, from the second
    drawing on. *)
Theorem bounce_bounds n (k : K) :
  let b := (Bounce.bounce_rounds n Bounce.bounce_start k).1 in
  row_of (Bounce.cursor b) = Bounce.BOUNCE_ROW /\ 0 <= col_of (Bounce.cursor b) < 79 /\
  0 <= col_of (Bounce.previous_cursor b) < 79 /\
  (Bounce.previous_cursor b = mkCP 0 0 \/ row_of (Bounce.previous_cursor b) = Bounce.BOUNCE_ROW).
Proof.
  assert (Hinv : forall n b (k : K),
    row_of (Bounce.cursor b) = Bounce.BOUNCE_ROW -> 0 <= col_of (Bounce.cursor b) < 79 ->
    0 <= col_of (Bounce.previous_cursor b) < 79 ->
    Bounce.previous_cursor b = mkCP 0 0 \/ row_of (Bounce.previous_cursor b) = Bounce.BOUNCE_ROW ->
    let b' := (Bounce.bounce_rounds n b k).1 in
    row_of (Bounce.cursor b') = Bounce.BOUNCE_ROW /\ 0 <= col_of (Bounce.cursor b') < 79 /\
    0 <= col_of (Bounce.previous_cursor b') < 79 /\
    (Bounce.previous_cursor b' = mkCP 0 0 \/ row_of (Bounce.previous_cursor b') = Bounce.BOUNCE_ROW)).
  2: { apply Hinv; [done | by cbn | by cbn | by left]. }
  clear n k. induction n as [| n IH]; intros b k Hr Hc Hp Hpr; cbn [Bounce.bounce_rounds]; [done |].
  unfold Bounce.bounce_round. destruct (prog_time k) as [t k1].
  destruct (_ =? _); [by apply IH |]. destruct (prog_putchar _ _ _ _) as [q k2].
  pose proof (Hputs null_byte 0xA (Bounce.cursor b) k2 Hc) as Hput.
  destruct (prog_puts _ _ _ _) as [c k3]. cbn [fst] in Hput. subst c. cbn [row_of col_of].
  apply IH; cbn [Bounce.cursor Bounce.previous_cursor row_of col_of]; try (by right);
    destruct (Z.eqb_spec (col_of (Bounce.cursor b) + 1) 79); cbn [row_of col_of]; try done; lia.
Qed.
End BounceBounds.
