(* ===== verification/BootSpec.v ===== *)
(** BootSpec: start-up. From the state the boot loader leaves and a disk with a
    shell on it, [kernel_setup] ends with the shell about to run. *)

From Stdlib Require Import ZArith Lia.
From stdpp Require Import base tactics numbers strings list gmap fin_maps.
From S2P Require Import Prelude Memory CString Disk FatLayout Fat32 FatLogic FatChain FatRead FatInit.
From S2P Require Import Paging PagingSpec Process Pic Scheduler SchedulerSpec ProcessSpec.
From S2P Require Import Terminal TerminalSpec Keyboard Descriptors System.
#[local] Open Scope eff_scope.

Section Boot.
Context {D : Type} `{BlockDeviceSpec D} `{LayoutOk} `{PicMachine p1 p2} `{Environment}.
Context (Hcap : CLUSTER_BLOCK_COUNT * CLUSTER_MAP_SIZE <= dev_blocks).
Implicit Types (s : System D) (k : Kernel D).

#[export] Instance kernel_port_laws : PortStateLaws (Kernel D).
Proof. split; [done | done |]. by intros []. Qed.
#[export] Instance system_port_laws : PortStateLaws (System D).
Proof. split; [done | done |]. by intros [[]]. Qed.

(** ** Running the parts *)

Lemma on_kernel_run {A} (c : Eff (Kernel D) A) s a k :
  c (kernel s) = Ok (a, k) -> on_kernel c s = Ok (a, set_kernel k s).
Proof. unfold on_kernel. by intros ->. Qed.
Lemma on_memory_run {A} (c : Eff PagedMemory A) s a m :
  c (umem (fsys (kernel s))) = Ok (a, m) ->
  on_memory c s = Ok (a, set_kernel (set_fsys (set_umem m (fsys (kernel s))) (kernel s)) s).
Proof. intros Hc. apply on_kernel_run. unfold kernel_memory. by rewrite Hc. Qed.

(** ** The kernel's half *)

(** An address of the kernel's half lies in the first frame, in any directory in
    use. *)
Lemma kernel_half (m : PagedMemory) r va :
  PagingInv (paging m) -> active (paging m) r -> in_use (paging m) r ->
  KERNEL_VIRTUAL_ADDRESS_BASE <= va < KERNEL_VIRTUAL_ADDRESS_BASE + PAGE_FRAME_SIZE ->
  mem_resolve m (u32 va) = Some (va - KERNEL_VIRTUAL_ADDRESS_BASE).
Proof.
  intros Hinv Ha Hu Hva. rewrite PAGE_FRAME_SIZE_eq in Hva. unfold KERNEL_VIRTUAL_ADDRESS_BASE in *.
  assert (Hidx : page_index va = KERNEL_PAGE_INDEX).
  { rewrite page_index_eq, PAGE_FRAME_SIZE_eq, u32_small by lia. unfold KERNEL_PAGE_INDEX.
    symmetry. apply (Z.div_unique _ _ _ (va - 0xC0000000)); lia. }
  unfold mem_resolve, paged_memory. rewrite u32_small by lia.
  rewrite (translate_active _ r), Hidx by done. rewrite (pi_kernel _ Hinv) by (done || apply Ha).
  unfold entry_translate. cbn [kernel_entry flag kernel_flag present_bit use_pagesize_4_mb andb lower_address].
  rewrite PAGE_FRAME_SIZE_eq, u32_small by lia. f_equal.
  rewrite Z.shiftl_mul_pow2, Z.mul_0_l, Z.add_0_l by lia. symmetry.
  apply (Z.mod_unique _ _ 768); lia.
Qed.

Lemma screen_ready (m : PagedMemory) r n :
  PagingInv (paging m) -> active (paging m) r -> in_use (paging m) r -> 0 <= n <= 8000 ->
  mapped m FRAMEBUFFER_MEMORY_OFFSET n /\ separate m FRAMEBUFFER_MEMORY_OFFSET n.
Proof.
  intros Hinv Ha Hu Hn.
  assert (Hres : forall i, 0 <= i < n -> mem_resolve m (u32 (FRAMEBUFFER_MEMORY_OFFSET + i)) =
            Some (FRAMEBUFFER_MEMORY_OFFSET + i - KERNEL_VIRTUAL_ADDRESS_BASE)).
  { intros i Hi. apply (kernel_half m r); try done.
    rewrite PAGE_FRAME_SIZE_eq. unfold FRAMEBUFFER_MEMORY_OFFSET, KERNEL_VIRTUAL_ADDRESS_BASE. lia. }
  split.
  - intros i Hi. rewrite Hres by done. by eexists.
  - intros i j Hi Hj. rewrite !Hres by done. intros Heq%(inj Some). lia.
Qed.

(** Clearing the screen and writing its first cell leave the paging state alone. *)
Lemma clear_run (m : PagedMemory) r :
  PagingInv (paging m) -> active (paging m) r -> in_use (paging m) r ->
  exists m', framebuffer_clear m = Ok (tt, m') /\ paging m' = paging m.
Proof.
  intros Hinv Ha Hu. destruct (screen_ready m r 8000 Hinv Ha Hu ltac:(lia)) as [Hm _].
  destruct (store_bytes_mapped (replicate (Z.to_nat 8000) (u8 0)) FRAMEBUFFER_MEMORY_OFFSET m) as (m' & Hst & _).
  { change (zlen _) with (zlen (zrep 8000 (u8 0))). by rewrite zlen_zrep. }
  exists m'. split; [| by eapply store_bytes_paging].
  unfold framebuffer_clear, memset. change (25 * 2 * 80 * 2) with 8000.
  by rewrite memset_loop_store, Z.add_0_r, Hst.
Qed.
Lemma store_char_paging a v (m m' : PagedMemory) : store_char a v m = Ok (tt, m') -> paging m' = paging m.
Proof.
  unfold store_char, store8. destruct (mem_resolve m (u32 a)); [| done]. by intros [= <-].
Qed.
Lemma first_cell_run (m : PagedMemory) r :
  PagingInv (paging m) -> active (paging m) r -> in_use (paging m) r ->
  exists m', framebuffer_write 0 0 32 0xF 0 m = Ok (tt, m') /\ paging m' = paging m.
Proof.
  intros Hinv Ha Hu. destruct (screen_ready m r (2 * SCREEN_CELLS) Hinv Ha Hu) as [Hm Hs]; [done |].
  destruct (framebuffer_write_ok m 0 32 0xF) as (m' & Hrun & _ & _); [done | done | done | done |].
  exists m'. change (framebuffer_write 0 0 32 0xF 0 m = Ok (tt, m')) in Hrun. split; [done |].
  unfold framebuffer_write, bind in Hrun. destruct (store_char _ 32 m) as [[[] m1] |] eqn:Hst; [| done].
  rewrite (store_char_paging _ _ _ _ Hrun). by eapply store_char_paging.
Qed.

(** ** Devices *)

Lemma unmask_ready {S : Type} `{PortStateLaws S} irq (s : S) v m :
  master_after p1 (ports s) = m -> phase m = Ready ->
  u8 (Z.land (u8 (mask m)) (Z.lnot (Z.shiftl 1 irq))) = v ->
  unmask irq s = Ok (tt, set_ports ((0x21, v) :: ports s) s).
Proof. intros <- Hm Hv. apply unmask_run. by rewrite (pic1_reads (ports s)). Qed.

Definition cursor_log : list (Z * Z) := [(0x3D5, 0); (0x3D4, 0xE); (0x3D5, 0); (0x3D4, 0xF)].
Definition device_log : list (Z * Z) := cursor_log ++ (0x21, 0xFD) :: remap_log.

Lemma set_cursor_run s :
  framebuffer_set_cursor 0 0 s = Ok (tt, set_ports (cursor_log ++ ports s) s).
Proof.
  rewrite <- (set_self s) at 1. unfold framebuffer_set_cursor. rewrite !out_then, out_run.
  by rewrite ports_set, set_set.
Qed.

(** The kernel with other memory and another log of port writes. *)
Definition with_memory (m : PagedMemory) (log : list (Z * Z)) k : Kernel D :=
  set_ports log (set_fsys (set_umem m (fsys k)) k).

Lemma devices_run s r :
  PagingInv (k_paging (kernel s)) -> active (k_paging (kernel s)) r -> in_use (k_paging (kernel s)) r ->
  ports s = [] ->
  exists m, setup_devices s = Ok (tt,
      mkSystem (with_memory m device_log (kernel s)) (kbd s) (gdt s)
        (initialize_idt env_isr_stub_table (idt s)) (esp0 s) (halted s)) /\
    paging m = k_paging (kernel s).
Proof.
  intros Hinv Ha Hu Hlog. set (m0 := umem (fsys (kernel s))).
  destruct (clear_run m0 r Hinv Ha Hu) as (m1 & Hrun1 & Hp1).
  destruct (first_cell_run m1 r) as (m2 & Hrun2 & Hp2); [by rewrite Hp1.. |].
  exists m2. split; [| by rewrite Hp2, Hp1].
  unfold setup_devices. run_step using pic_remap_run. run_step.
  run_step using (unmask_ready IRQ_KEYBOARD _ 0xFD (mkPic Ready 0x20 4 0xFF));
    [| | done | by vm_compute]; cycle 1.
  { cbn [set_tables kernel]. change (ports (set_kernel ?k s)) with (ports k).
    rewrite Hlog, app_nil_r. exact (proj1 (remap_pics p1)). }
  run_step using on_memory_run; [| exact Hrun1].
  run_step using on_memory_run; [| exact Hrun2].
  rewrite set_cursor_run. destruct s as [[f l u n c x log ctx] kb g i e h]. cbn [ports system_ports kernel_ports kernel out_log] in Hlog.
  subst log. unfold with_memory, device_log.
  cbn [set_ports ports system_ports kernel_ports set_kernel set_tables set_fsys set_umem kernel kbd gdt idt esp0 halted
       fsys process_list process_used active_process_count current_process_idx next_process_idx out_log cpu_context
       disk driver_state stray]. rewrite app_nil_r. reflexivity.
Qed.

(** ** The shell *)

(** A formatted disk with a shell in its root directory: row [e], clusters [cs],
    small enough for the page at its entry point. *)
Record ShellDisk (f : FS D PagedMemory) (e : Z) (cs : list Z) : Prop := {
  sd_dev : dev_ok (disk f);
  sd_signature : has_signature f;
  sd_reserved : forall c, 0 <= c <= ROOT_CLUSTER_NUMBER -> (stored_fat f).[c] <> Some FAT32_FAT_EMPTY_ENTRY;
  sd_directory : user_attribute (row (dir_table f ROOT_CLUSTER_NUMBER) 0) = UATTR_NOT_EMPTY;
  sd_row : find_entry 0 (dir_table f ROOT_CLUSTER_NUMBER) shell_request = Some e;
  sd_file : attribute (row (dir_table f ROOT_CLUSTER_NUMBER) e) <> ATTR_SUBDIRECTORY;
  sd_size : filesize (row (dir_table f ROOT_CLUSTER_NUMBER) e) <= buffer_size shell_request;
  sd_chain : chain (stored_fat f) (entry_cluster (row (dir_table f ROOT_CLUSTER_NUMBER) e)) cs;
  sd_fit : CLUSTER_SIZE * zlen cs <= PAGE_FRAME_SIZE
}.

(** The paging state once [kernel_setup] has mapped the kernel's low page. *)
Definition setup_paging : Paging := allocated KernelDir 0 0 boot_paging.

Lemma boot_free : find_free_frame (page_frame_map boot_paging) = Some 0.
Proof. done. Qed.
Lemma setup_paging_inv : PagingInv setup_paging.
Proof. apply allocated_inv; [apply boot_inv | done | done | done | exact boot_free]. Qed.
Lemma boot_active : active boot_paging KernelDir.
Proof. by split. Qed.
Lemma setup_paging_facts :
  active setup_paging KernelDir /\ unused_directory setup_paging = Some 0 /\
  free_page_frame_count setup_paging = 31.
Proof.
  unfold setup_paging, allocated.
  set (s1 := set_frames _ _ boot_paging).
  destruct (map_page_frames s1 KernelDir 0 user_flag 0) as (Hm & Hc & Hu & Hcr). split; [| split].
  - split; [done | by rewrite Hcr].
  - unfold unused_directory. by rewrite Hu.
  - by rewrite Hc.
Qed.

(** The kernel when it creates the shell's process. *)
Definition setup_kernel (f : FS D PagedMemory) (m : PagedMemory) k : Kernel D :=
  set_paging setup_paging (set_fsys (set_umem m f) k).

Lemma mounted_ready f f' m k e cs :
  ShellDisk f e cs -> FSInv f' -> fat_of f' = stored_fat f ->
  (forall c, in_fat c -> cluster (disk f') c = cluster (disk f) c) ->
  process_list k = zrep PROCESS_COUNT_MAX zero_pcb -> process_used k = zrep PROCESS_COUNT_MAX false ->
  active_process_count k = 0 ->
  CreateReady (setup_kernel f' m k) shell_request 0 0 cs /\
  Program (fsys (setup_kernel f' m k)) shell_request e cs.
Proof.
  intros [Hd Hs Hres Hdir Hrow Hfile Hsize Hch Hfit] Hinv Hfat Hcl Hpl Hpu Hn.
  destruct setup_paging_facts as (Hact & Hun & Hfree).
  split.
  - split.
    + split.
      * apply set_umem_inv, set_umem_inv, Hinv.
      * apply setup_paging_inv.
      * by exists KernelDir.
      * cbn. by rewrite Hpl.
      * cbn. by rewrite Hpu.
      * intros i p Hi. cbn in Hi. rewrite Hpl in Hi. pose proof (zget_range _ _ _ Hi) as Hr.
        rewrite zlen_zrep in Hr by done. rewrite zget_zrep in Hi by done. by injection Hi as <-.
    + cbn. by rewrite Hn.
    + unfold unused_slot. cbn. by rewrite Hpu.
    + exact Hun.
    + done.
    + done.
    + done.
    + change (free_page_frame_count (k_paging (setup_kernel f' m k))) with (free_page_frame_count setup_paging).
      rewrite Hfree. by vm_compute.
    + done.
  - assert (Hroot : in_fat ROOT_CLUSTER_NUMBER) by by vm_compute.
    assert (Hdt : dir_table (fsys (setup_kernel f' m k)) ROOT_CLUSTER_NUMBER = dir_table f ROOT_CLUSTER_NUMBER).
    { unfold dir_table. change (disk (fsys (setup_kernel f' m k))) with (disk f'). by rewrite Hcl. }
    split; change (parent_cluster_number shell_request) with ROOT_CLUSTER_NUMBER; rewrite ?Hdt; try done.
    change (fat_of (fsys (setup_kernel f' m k))) with (fat_of f'). by rewrite Hfat.
Qed.

Lemma pd_entry_cr3 (pg : Paging) c r i : pd_entry (set_cr3 c pg) r i = pd_entry pg r i.
Proof. by destruct r. Qed.

(** A user page of a new space, seen through its directory. *)
Lemma space_loaded (m : PagedMemory) (pg : Paging) va f0 f1 (pg3 : Paging) (l : list Z) :
  NewSpace pg 0 va f0 f1 pg3 -> paging m = set_cr3 (directory_addr 0 - KERNEL_VIRTUAL_ADDRESS_BASE) pg3 ->
  0 <= va < KERNEL_VIRTUAL_ADDRESS_BASE -> va mod PAGE_FRAME_SIZE + zlen l <= PAGE_FRAME_SIZE ->
  (forall o b, l.[o] = Some b -> mem_get m (f0 * PAGE_FRAME_SIZE + va mod PAGE_FRAME_SIZE + o) = b) ->
  forall o b, l.[o] = Some b -> load8 (va + o) m = Ok b.
Proof.
  intros Hns Hm Hva Hfit Hload o b Ho. pose proof (zget_range _ _ _ Ho) as Hor.
  unfold load8. rewrite (resolve_page m (ListDir 0) va f0 (zlen l)); rewrite ?Hm; try done.
  - by rewrite (Hload o b Ho).
  - apply set_cr3_inv, Hns.
  - intros a Ha. rewrite pd_entry_cr3. by apply (ns_code _ _ _ _ _ _ Hns).
Qed.

(** The state after the shell's process was created. *)
Record ShellCreated (k : Kernel D) (f0 f1 : Z) k' : Prop := {
  sc_list : process_list k' =
    (process_list k).[0 := new_pcb shell_request 0 (directory_addr 0) f0 f1 zero_pcb];
  sc_used : process_used k' = (process_used k).[0 := true];
  sc_rest : current_process_idx k' = current_process_idx k /\ next_process_idx k' = next_process_idx k
}.

(** The first switch, to the process just created. *)
Lemma shell_switch k f0 f1 k' :
  ShellCreated k f0 f1 k' -> process_list k = zrep PROCESS_COUNT_MAX zero_pcb ->
  process_used k = zrep PROCESS_COUNT_MAX false -> current_process_idx k = 0 -> next_process_idx k = 0 ->
  SwitchReady k' /\
  znth zero_pcb (paused k') 0 = new_pcb shell_request 0 (directory_addr 0) f0 f1 zero_pcb.
Proof.
  intros [Hl Hu (Hc & Hn)] Hl0 Hu0 Hc0 Hn0. rewrite Hl0 in Hl. rewrite Hu0 in Hu. rewrite Hc0 in Hc.
  rewrite Hn0 in Hn.
  split.
  - split.
    + split; [by rewrite Hl |]. split; [by rewrite Hu |]. by rewrite Hc.
    + by rewrite Hu.
    + by rewrite Hn, Hu.
    + rewrite Hc, Hu. intros i Hi Hne. exfalso. rewrite zget_zset_ne in Hi by done.
      pose proof (zget_range _ _ _ Hi) as Hr. rewrite zlen_zrep in Hr by done.
      by rewrite zget_zrep in Hi by done.
  - unfold paused. rewrite Hc, Hl. done.
Qed.

(** What start-up leaves behind. *)
Record ShellRunning (f : FS D PagedMemory) (ks : list Z) (log : list (Z * Z)) g tbl h s' : Prop := {
  sh_sched : SchedInv (kernel s');
  sh_current : current_process_idx (kernel s') = 0;
  sh_active : active (k_paging (kernel s')) (ListDir 0);
  sh_context : cpu_context (kernel s') = Some (initial_context 0 (directory_addr 0) zero_context);
  sh_loaded : forall o b, (chain_bytes (cluster (disk f)) ks).[o] = Some b ->
    load8 o (umem (fsys (kernel s'))) = Ok b;
  sh_stack : StackReady (umem (fsys (kernel s')));
  sh_files : FSInv (fsys (kernel s')) /\
    forall c, in_fat c -> cluster (disk (fsys (kernel s'))) c = cluster (disk f) c;
  sh_gdt : gdt s' = gdt_install_tss env_tss g;
  sh_idt : idt s' = tbl;
  sh_log : ports s' = (PIC1_COMMAND, PIC_ACK) :: (PIC2_COMMAND, PIC_ACK) :: (0x21, 0xFC) :: pit_log ++ log;
  sh_halted : halted s' = h
}.

Lemma switched_memory k' :
  umem (fsys (switched k')) =
    mkPaged (set_cr3
      (let pd := page_directory_virtual_addr (context (znth zero_pcb (paused k') (next_process_idx k'))) in
       if KERNEL_VIRTUAL_ADDRESS_BASE <? pd then u32 (pd - KERNEL_VIRTUAL_ADDRESS_BASE) else pd)
      (k_paging k')) (k_frames k').
Proof. done. Qed.

Lemma switched_fs k' : FSInv (fsys k') -> FSInv (fsys (switched k')).
Proof. intros [? ? ? ?]. by split. Qed.

Lemma shell_length (f : FS D PagedMemory) e ks :
  ShellDisk f e ks -> zlen (chain_bytes (cluster (disk f)) ks) = CLUSTER_SIZE * zlen ks.
Proof.
  intros Hd. apply chain_bytes_ok. intros c Hc. apply (cluster_ok Hcap); [apply Hd |].
  apply (chain_in_fat _ _ _ _ (stored_fat_ok Hcap f (sd_dev _ _ _ Hd)) (sd_chain _ _ _ Hd) Hc).
Qed.

Lemma shell_bytes (f : FS D PagedMemory) e ks (f' : FS D PagedMemory) :
  ShellDisk f e ks -> (forall c, in_fat c -> cluster (disk f') c = cluster (disk f) c) ->
  chain_bytes (cluster (disk f')) ks = chain_bytes (cluster (disk f)) ks.
Proof.
  intros Hd Hcl. apply chain_bytes_ext. intros c Hc. apply Hcl.
  by apply (chain_in_fat _ _ _ _ (stored_fat_ok Hcap f (sd_dev _ _ _ Hd)) (sd_chain _ _ _ Hd)).
Qed.

(** The process's directory, context and program once it is switched to. *)
Lemma switched_shell (f : FS D PagedMemory) k1 f0 f1 k2 e ks :
  ShellDisk f e ks -> ShellCreated k1 f0 f1 k2 -> next_process_idx k2 = 0 ->
  znth zero_pcb (paused k2) 0 = new_pcb shell_request 0 (directory_addr 0) f0 f1 zero_pcb ->
  NewSpace (k_paging k1) 0 0 f0 f1 (k_paging k2) ->
  (forall o b, (chain_bytes (cluster (disk f)) ks).[o] = Some b ->
    mem_get (umem (fsys k2)) (f0 * PAGE_FRAME_SIZE + o) = b) ->
  active (k_paging (switched k2)) (ListDir 0) /\
  cpu_context (switched k2) = Some (initial_context 0 (directory_addr 0) zero_context) /\
  (forall o b, (chain_bytes (cluster (disk f)) ks).[o] = Some b ->
    load8 o (umem (fsys (switched k2))) = Ok b) /\
  StackReady (umem (fsys (switched k2))).
Proof.
  intros Hdisk Hsc Hnext Hpaused Hspace Hload.
  assert (Hpg : k_paging (switched k2) = set_cr3 (directory_addr 0 - KERNEL_VIRTUAL_ADDRESS_BASE) (k_paging k2)).
  { unfold k_paging. rewrite switched_memory, Hnext, Hpaused.
    pose proof (addr_range (ListDir 0) ltac:(apply Hspace)) as Ha. cbn [addr_of] in Ha.
    rewrite PAGE_FRAME_SIZE_eq in Ha.
    change (page_directory_virtual_addr (context (new_pcb shell_request 0 (directory_addr 0) f0 f1 zero_pcb)))
      with (directory_addr 0).
    cbn [paging]. unfold KERNEL_VIRTUAL_ADDRESS_BASE in *.
    destruct (Z.ltb_spec 0xC0000000 (directory_addr 0)); [| lia]. by rewrite u32_small by lia. }
  assert (Hact : active (k_paging (switched k2)) (ListDir 0))
    by (split; [apply Hspace | by rewrite Hpg]).
  split; [exact Hact |]. split; [| split].
  - unfold switched. cbn [cpu_context]. by rewrite Hnext, Hpaused.
  - intros o b Ho.
    apply (space_loaded (umem (fsys (switched k2))) (k_paging k1) 0 f0 f1 (k_paging k2)
             (chain_bytes (cluster (disk f)) ks) Hspace Hpg); [done | | | done].
    + rewrite Zmod_0_l, Z.add_0_l. rewrite (shell_length f e ks) by done. apply Hdisk.
    + intros o' b' Ho'. rewrite Zmod_0_l, Z.add_0_r. by apply Hload.
  - apply (stack_ready _ (ListDir 0) f1); [| exact Hact |].
    + change (PagingInv (k_paging (switched k2))). rewrite Hpg. apply set_cr3_inv, Hspace.
    + intros a Ha. change (paging (umem (fsys (switched k2)))) with (k_paging (switched k2)).
      rewrite Hpg, pd_entry_cr3. by apply (ns_stack _ _ _ _ _ _ Hspace).
Qed.

Lemma shell_run k kb g tbl e0 h e ks log :
  ShellDisk (fsys k) e ks -> k_paging k = boot_paging ->
  process_list k = zrep PROCESS_COUNT_MAX zero_pcb -> process_used k = zrep PROCESS_COUNT_MAX false ->
  active_process_count k = 0 -> current_process_idx k = 0 -> next_process_idx k = 0 ->
  out_log k = log -> master_after p1 log = mkPic Ready 0x20 4 0xFD ->
  exists s', setup_shell (mkSystem k kb g tbl e0 h) = Ok (tt, s') /\
    ShellRunning (fsys k) ks log g tbl h s'.
Proof.
  intros Hdisk Hpg Hl Hu Hn Hc Hx Hlog Hpic.
  destruct (mount_ok Hcap (fsys k)) as (f' & Hmount & Hinv & Hfat & Hcl & Hm & _); [apply Hdisk.. |].
  destruct (mounted_ready (fsys k) f' (umem (fsys k)) k e ks) as [Hready Hprog]; try done.
  destruct (create_succeeds Hcap _ shell_request 0 0 e ks Hready Hprog) as (f0 & f1 & k' & Hcreate & Hcr).
  destruct Hcr as [Hkinv (p & Hp & Hl') Hu' _ Hspace Hload _ Hdisk' Hrest].
  assert (p = zero_pcb) as ->.
  { change ((process_list k).[0] = Some p) in Hp. rewrite Hl, zget_zrep in Hp by done. congruence. }
  set (k1 := setup_kernel f' (umem (fsys k)) k) in *.
  destruct Hrest as (Hc' & Hx' & Hlog' & Hctx').
  set (k2 := set_ports ((0x21, 0xFC) :: pit_log ++ log) k').
  assert (Hsc : ShellCreated k1 f0 f1 k2) by (split; [exact Hl' | exact Hu' | by split]).
  destruct (shell_switch k1 f0 f1 k2 Hsc Hl Hu Hc Hx) as [Hsr Hpaused].
  assert (Hnext : next_process_idx k2 = 0) by (cbn; rewrite Hx'; exact Hx).
  exists (mkSystem (switched k2) kb (gdt_install_tss env_tss g) tbl (u32 (env_ebp + 8)) h). split.
  - unfold setup_shell. run_step using on_kernel_run; [| apply on_fs_run, Hmount]. run_step.
    run_step using on_kernel_run; [| apply on_paging_run]; cycle 1.
    { cbn [set_tables set_kernel kernel]. unfold k_paging. cbn [set_fsys fsys]. rewrite Hm.
      fold (k_paging k). rewrite Hpg.
      apply (allocate_run boot_paging KernelDir 0 0); [apply boot_inv | done | exact boot_free]. }
    run_step. fold setup_paging.
    assert (Hk1 : set_paging setup_paging (set_fsys f' k) = k1)
      by (unfold k1, setup_kernel; rewrite <- Hm; by destruct f').
    match goal with |- context [set_esp0 ?a ?b] =>
      replace (set_esp0 a b) with (mkSystem k1 kb (gdt_install_tss env_tss g) tbl (u32 (env_ebp + 8)) h)
        by (rewrite <- Hk1; reflexivity)
    end.
    run_step using on_kernel_run; [| exact Hcreate].
    run_step using on_kernel_run; [| unfold scheduler_init; rewrite activate_timer_run;
      apply (unmask_ready IRQ_TIMER _ 0xFC (mkPic Ready 0x20 4 0xFD)); [| done | by vm_compute]]; cycle 1.
    { cbn [set_kernel kernel]. rewrite ports_set. change (ports k') with (out_log k').
      rewrite Hlog'. change (out_log k1) with (out_log k). rewrite Hlog, master_app, Hpic. by vm_compute. }
    rewrite (on_kernel_run _ _ tt (switched k2)); [done |].
    cbn [set_kernel kernel]. rewrite ports_set, set_set. change (ports k') with (out_log k').
    rewrite Hlog'. change (out_log k1) with (out_log k). rewrite Hlog. fold k2.
    apply switch_run; [apply Hsr | by rewrite Hnext].
  - destruct (switched_shell (fsys k) k1 f0 f1 k2 e ks) as (Hact & Hctx & Hld & Hstk);
      [exact Hdisk | exact Hsc | exact Hnext | exact Hpaused | exact Hspace | |].
    { intros o b Ho. rewrite <- (Hload o b).
      - change (buf shell_request mod PAGE_FRAME_SIZE) with 0. by rewrite Z.add_0_r.
      - change (disk (fsys k1)) with (disk f'). by rewrite (shell_bytes (fsys k) e ks f' Hdisk Hcl). }
    split; cbn [kernel kbd gdt idt esp0 halted].
    + by apply switched_inv.
    + exact Hnext.
    + exact Hact.
    + exact Hctx.
    + exact Hld.
    + exact Hstk.
    + split; [apply switched_fs, Hkinv |]. intros c Hin. exact (eq_trans (Hdisk' c Hin) (Hcl c Hin)).
    + reflexivity.
    + reflexivity.
    + reflexivity.
    + reflexivity.
Qed.

(** ** Start-up *)

Lemma shell_disk_memory f e ks m : ShellDisk f e ks -> ShellDisk (set_umem m f) e ks.
Proof. intros [? ? ? ? ? ? ? ? ?]. by split. Qed.

(** The interrupt controllers once start-up has ended: offsets set, the timer and
    the keyboard unmasked. *)
Lemma boot_pics p p' :
  let log := (PIC1_COMMAND, PIC_ACK) :: (PIC2_COMMAND, PIC_ACK) :: (0x21, 0xFC) :: pit_log ++ device_log in
  master_after p log = mkPic Ready 0x20 4 0xFC /\ slave_after p' log = mkPic Ready 0x28 2 0xFF.
Proof.
  intros log.
  change log with (((PIC1_COMMAND, PIC_ACK) :: (PIC2_COMMAND, PIC_ACK) :: (0x21, 0xFC) :: pit_log ++
    cursor_log ++ [(0x21, 0xFD)]) ++ remap_log).
  rewrite master_app, slave_app. unfold master_after at 2, slave_after at 2.
  rewrite (proj1 (remap_pics p)), (proj2 (remap_pics p')). by split; vm_compute.
Qed.

Lemma boot_run d physical e ks :
  let s := boot_system d physical in
  ShellDisk (fsys (kernel s)) e ks ->
  exists s', kernel_setup s = Ok (tt, s') /\
    ShellRunning (fsys (kernel s)) ks device_log global_descriptor_table
      (initialize_idt env_isr_stub_table interrupt_descriptor_table) false s'.
Proof.
  intros s Hdisk.
  destruct (devices_run s KernelDir) as (m & Hdev & Hm);
    [apply boot_inv | apply boot_active | done | done |].
  destruct (shell_run (with_memory m device_log (kernel s)) boot_keyboard global_descriptor_table
    (initialize_idt env_isr_stub_table interrupt_descriptor_table) 0 false e ks device_log)
    as (s' & Hrun & Hsh); try reflexivity; [by apply shell_disk_memory | exact Hm |].
  exists s'. split; [unfold kernel_setup; erewrite bind_run; [| exact Hdev]; exact Hrun |].
  destruct Hsh. by split.
Qed.

(** C12. From the state the boot loader leaves, on a formatted disk whose root
    directory holds a shell that fits a page, start-up ends: process 0 is the
    running process of a consistent process table, its page directory is the
    active one and shows the shell's file at address 0, the processor is about to
    continue in ring 3 at that address with interrupts enabled, the descriptor
    tables are installed, and both interrupt controllers deliver at their new
    offsets with the timer and the keyboard unmasked and nothing else. *)
Theorem boot_spec d physical e ks :
  let s := boot_system d physical in
  ShellDisk (fsys (kernel s)) e ks ->
  exists s', kernel_setup s = Ok (tt, s') /\ SchedInv (kernel s') /\
    current_process_idx (kernel s') = 0 /\
    active (k_paging (kernel s')) (ListDir 0) /\
    cpu_context (kernel s') = Some (initial_context 0 (directory_addr 0) zero_context) /\
    (forall o b, (chain_bytes (cluster d) ks).[o] = Some b -> load8 o (umem (fsys (kernel s'))) = Ok b) /\
    gdt s' = gdt_install_tss env_tss global_descriptor_table /\
    idt s' = initialize_idt env_isr_stub_table interrupt_descriptor_table /\
    master_after p1 (ports s') = mkPic Ready 0x20 4 0xFC /\
    slave_after p2 (ports s') = mkPic Ready 0x28 2 0xFF /\ halted s' = false.
Proof.
  intros s Hdisk. destruct (boot_run d physical e ks Hdisk) as (s' & Hrun & Hsh).
  destruct Hsh as [Hinv Hcur Hact Hctx Hld _ _ Hg Hi Hlog Hh]. exists s'. split; [exact Hrun |].
  rewrite Hlog. destruct (boot_pics p1 p2) as [Hp1 Hp2].
  exact (conj Hinv (conj Hcur (conj Hact (conj Hctx (conj Hld (conj Hg (conj Hi (conj Hp1 (conj Hp2 Hh))))))))).
Qed.
End Boot.
