(* ===== verification/InserterBoot.v ===== *)
(** InserterBoot: the machine boots into the shell that the inserter put on a new
    image. *)

From Stdlib Require Import ZArith Lia.
From stdpp Require Import base tactics numbers strings list gmap fin_maps.
From S2P Require Import Prelude Memory CString Disk FatLayout Fat32 FatLogic FatChain FatWrite.
From S2P Require Import FatRead FatDelete FatInit FatVolume FatMount Inserter InserterSpec.
From S2P Require Import Paging PagingSpec Process Pic Scheduler SchedulerSpec ProcessSpec.
From S2P Require Import Terminal TerminalSpec Keyboard Descriptors System BootSpec.
Import Image.

(** ** The bytes of a file in its clusters *)

Lemma file_bytes_get size data o :
  0 < size -> source_ok size data -> ~ whole_last_cluster size -> 0 <= o < size ->
  (file_bytes size data).[o] = data.[o].
Proof.
  intros Hs Hd Hw Ho. pose proof (clusters_for_bounds size Hs) as (Hk & _ & Hup).
  assert (HC : 0 < CLUSTER_SIZE) by done. pose proof (Z.mod_pos_bound o CLUSTER_SIZE HC) as Hm.
  pose proof (Z.div_mod o CLUSTER_SIZE ltac:(lia)) as Hdm.
  assert (Hj : 0 <= o / CLUSTER_SIZE < clusters_for size)
    by (split; [apply Z.div_pos; lia | apply Z.div_lt_upper_bound; lia]).
  change (file_bytes size data) with (chain_bytes (file_part size data) (seqZ 0 (clusters_for size))).
  rewrite (chain_bytes_file size data); [| done | done | | | lia].
  - rewrite file_part_get; [by rewrite <- Hdm | done | done | done |].
    split; [lia |]. apply part_covers; [done | done | done | lia | lia].
  - unfold zlen. rewrite length_seqZ. lia.
  - intros j c Hc. pose proof (zget_range _ _ _ Hc) as Hr. unfold zlen in Hr. rewrite length_seqZ in Hr.
    rewrite zget_seqZ in Hc by lia. injection Hc as <-. by rewrite Z.add_0_l.
Qed.

Lemma file_bytes_ok size data :
  0 < size -> source_ok size data ->
  zlen (file_bytes size data) = CLUSTER_SIZE * clusters_for size /\ all_bytes (file_bytes size data).
Proof.
  intros Hs Hd. pose proof (clusters_for_bounds size Hs) as (Hk & _).
  change (file_bytes size data) with (chain_bytes (file_part size data) (seqZ 0 (clusters_for size))).
  assert (Hok : forall c, c ∈ seqZ 0 (clusters_for size) -> cluster_data_ok (file_part size data c))
    by (intros c Hc%elem_of_seqZ; apply file_part_ok; [done | done | lia]).
  destruct (chain_bytes_ok _ _ Hok) as [-> Hb]. split; [| exact Hb]. unfold zlen. rewrite length_seqZ. lia.
Qed.

(** ** A volume with a shell *)

Definition shell_key : Name := request_key shell_request.

Section ShellVolume.
Context {D M D' : Type} `{BlockDeviceSpec D} `{ByteMemLaws M} `{BlockDeviceSpec D'} `{LayoutOk}.
Context (Hcap : CLUSTER_BLOCK_COUNT * CLUSTER_MAP_SIZE <= dev_blocks (D := D)).

Lemma represents_shell_disk (st : FS D M) (new : FS D' PagedMemory) v sz bytes :
  Represents st ROOT_CLUSTER_NUMBER v -> dev_ok (disk new) -> same_clusters (disk st) (disk new) ->
  vol_nodes v !! shell_key = Some (File sz bytes) -> shell_key ∉ vol_shadow v ->
  sz <= buffer_size shell_request -> zlen bytes <= PAGE_FRAME_SIZE ->
  exists e ks, ShellDisk new e ks /\ chain_bytes (cluster (disk new)) ks = bytes.
Proof.
  intros [chs Hl] Hd Hcl Hn Hsh Hsz Hfit. pose proof (lo_inv _ _ _ _ Hl) as Hinv.
  assert (Hro : request_ok shell_request).
  { split; [done | | done | by apply Forall_zrep | done]. apply (bool_decide_eq_true_1 (Forall (fun b => 0 <= b < 256) _)).
    by vm_compute. }
  destruct (find_node Hcap st ROOT_CLUSTER_NUMBER v chs Hl shell_request Hro ltac:(done) Hsh _ Hn)
    as (i & Hu & _ & Hnode & Hfind).
  pose proof (lo_owns _ _ _ _ Hl i Hu) as Hown.
  pose proof (same_clusters_table st new ROOT_CLUSTER_NUMBER Hcl ltac:(done)) as Hdir.
  pose proof (stored_fat_coherent _ Hinv) as Hfat. rewrite <- (same_clusters_fat st new Hcl) in Hfat.
  unfold node_of in Hnode. destruct (attribute _ =? ATTR_SUBDIRECTORY) eqn:Ha; [done |]. injection Hnode as -> ->.
  assert (Hin : forall c, c ∈ chs i -> in_fat c)
    by (intros c Hc; by apply (layout_above st ROOT_CLUSTER_NUMBER v chs Hl i)).
  exists i, (chs i). split.
  - split; rewrite ?Hdir, ?Hfat.
    + exact Hd.
    + by apply (same_clusters_signature st), Hl.
    + apply (inv_reserved _ Hinv).
    + pose proof (lo_directory _ _ _ _ Hl) as Hisdir. unfold is_directory_table in Hisdir.
      apply andb_prop in Hisdir as [Hisdir _]. by apply Z.eqb_eq.
    + by apply Hfind.
    + by apply Z.eqb_neq.
    + exact Hsz.
    + apply (ow_chain _ _ _ _ Hown).
    + assert (Hok : forall c, c ∈ chs i -> cluster_data_ok (cluster (disk st) c))
        by (intros c Hc; apply (cluster_ok Hcap); [apply (inv_dev _ Hinv) | by apply Hin]).
      rewrite <- (proj1 (chain_bytes_ok _ _ Hok)). exact Hfit.
  - apply chain_bytes_ext. intros c Hc. by apply Hcl, Hin.
Qed.
End ShellVolume.

(** ** The makefile's insert-shell *)

Section Install.
Context `{HostEnvironment}.
Implicit Types (h : Host) (v : Volume).

(** An insertion takes no entry away. *)
Lemma insertions_keep h args : forall v k nd,
  vol_nodes v !! k = Some nd ->
  vol_nodes (insertions h v args) !! k = Some nd /\ vol_shadow (insertions h v args) = vol_shadow v.
Proof.
  induction args as [| [target number] args IH]; intros v k nd Hk; [done |]. cbn [insertions].
  set (c := insertion h target number).
  assert (Hstep : vol_nodes (vol_step v c).1.2 !! k = Some nd).
  { unfold c, insertion, vol_step. cbn [call_request]. case_decide; [done |].
    destruct (vol_nodes v !! request_key _) as [nd' |] eqn:Hreq; [done |]. cbn.
    rewrite lookup_insert_ne; [done |]. congruence. }
  destruct (IH _ k nd Hstep) as [? ->]. by rewrite vol_step_shadow.
Qed.

(** The volume after the shell's insertion, first of all. *)
Lemma shell_inserted h number :
  insert_ok h ROOT_CLUSTER_NUMBER fresh_volume (str "shell") number ->
  let content := target_bytes h (str "shell") in 0 < zlen content ->
  vol_nodes (vol_step fresh_volume (insertion h (str "shell") number)).1.2 !! shell_key =
    Some (File (zlen content)
            (file_bytes (zlen content) (ztake (Z.max CLUSTER_SIZE (zlen content)) (filled buffer_junk content)))).
Proof.
  intros Hok content Hpos. unfold insertion. fold content.
  rewrite (insert_request_eq _ _ _ (str "shell") ROOT_CLUSTER_NUMBER); [| done | done | apply Hok |].
  - unfold vol_step. cbn [call_request]. rewrite decide_False by (by vm_compute).
    cbn [vol_nodes fresh_volume]. rewrite lookup_empty. cbn [fst snd vol_nodes].
    unfold new_node. cbn [buffer_size]. rewrite (proj2 (Z.eqb_neq _ _)) by lia. apply lookup_insert_eq.
  - pose proof (io_size _ _ _ _ _ Hok) as Hsz. fold content in Hsz. unfold IMAGE_SIZE in Hsz. lia.
Qed.

(** A machine whose disk has the clusters of an image. *)
Definition has_image {D} `{BlockDeviceSpec D} (img : list Z) (d : D) : Prop :=
  dev_ok d /\ exists m : FlatMem, image_ok m /\ image_bytes m = img /\ same_clusters m d.

(** The machine after start-up from an image with the volume [v] whose program
    "shell" is [shell]. *)
Record Booted {D} `{BlockDeviceSpec D} `{LayoutOk} `{PortMachine} `{Environment} v (shell : list Z)
    (s' : System D) : Prop := {
  bo_sched : SchedInv (kernel s');
  bo_active : active (k_paging (kernel s')) (ListDir 0);
  bo_context : cpu_context (kernel s') = Some (initial_context 0 (directory_addr 0) zero_context);
  bo_loaded o b : shell.[o] = Some b -> load8 o (umem (fsys (kernel s'))) = Ok b;
  bo_stack : StackReady (umem (fsys (kernel s')));
  bo_volume : Represents (fsys (kernel s')) ROOT_CLUSTER_NUMBER v;
  bo_own : row (dir_table (fsys (kernel s')) ROOT_CLUSTER_NUMBER) 0 = row new_root_dir 0
}.

Lemma installed_run {D} `{BlockDeviceSpec D} `{LayoutOk} `{PicMachine p1 p2} `{Environment}
    storage number args h img :
  CLUSTER_BLOCK_COUNT * CLUSTER_MAP_SIZE <= dev_blocks (D := D) ->
  files h !! storage = Some img -> image_file img -> ztake BLOCK_SIZE img <> fs_signature ->
  insertions_ok h storage ROOT_CLUSTER_NUMBER fresh_volume ((str "shell", number) :: args) ->
  let shell := target_bytes h (str "shell") in
  0 < zlen shell <= 0x100000 -> ~ whole_last_cluster (zlen shell) ->
  exists h' img', inserter_runs storage ((str "shell", number) :: args) h =
      Ok (zrep (zlen ((str "shell", number) :: args)) 0, h') /\
    files h' !! storage = Some img' /\
    forall (d : D) physical, has_image img' d ->
    exists s', kernel_setup (boot_system d physical) = Ok (tt, s') /\
      Booted (insertions h fresh_volume ((str "shell", number) :: args)) shell s'.
Proof.
  intros Hcap Himg Hfile Hnew Hok shell Hsize Hwhole.
  destruct (inserter_runs_spec storage _ h img ROOT_CLUSTER_NUMBER _ fresh_volume Himg Hfile
              (blank_stands_for img Hnew) Hok) as (h' & img' & Hruns & _ & Himg' & _ & _ & Hv').
  destruct (Hv' ltac:(done)) as (st & Hst & Hrep & Hown). clear Hv'.
  exists h', img'. split; [exact Hruns |]. split; [exact Himg' |]. intros d physical (Hd & m & Hm & Hmb & Hcl).
  destruct Hok as (_ & Hshell & _).
  set (v := insertions h fresh_volume ((str "shell", number) :: args)) in *.
  pose proof (shell_inserted h number Hshell ltac:(fold shell; lia)) as Hnode. fold shell in Hnode.
  destruct (insertions_keep h args _ _ _ Hnode) as [Hnode' Hshadow'].
  set (s := boot_system d physical).
  assert (Hsame : same_clusters (disk st) d).
  { intros c Hc. rewrite <- (image_bytes_same m (disk st)); [by apply Hcl | congruence | done]. }
  assert (Hsource : source_ok (zlen shell) (ztake (Z.max CLUSTER_SIZE (zlen shell)) (filled buffer_junk shell)))
    by (apply filled_source; apply Hshell).
  assert (Hlen : CLUSTER_SIZE * clusters_for (zlen shell) <= PAGE_FRAME_SIZE).
  { pose proof (clusters_for_bounds (zlen shell) ltac:(lia)) as (_ & Hlo & _).
    change PAGE_FRAME_SIZE with 4194304. change CLUSTER_SIZE with 2048 in *. lia. }
  destruct (represents_shell_disk image_room st (fsys (kernel s)) v _ _ Hrep Hd Hsame Hnode') as (e & ks & Hdisk & Hks).
  { unfold v. cbn [insertions]. rewrite Hshadow', vol_step_shadow.
    apply (bool_decide_eq_false_1 (shell_key ∈ vol_shadow fresh_volume)). by vm_compute. }
  { change (buffer_size shell_request) with 0x100000. lia. }
  { destruct (file_bytes_ok (zlen shell) _ ltac:(lia) Hsource) as [-> _]. exact Hlen. }
  destruct (boot_run Hcap d physical e ks Hdisk) as (s' & Hrun & Hsh). destruct (sh_files _ _ _ _ _ _ _ Hsh) as [Hinv Hkeep].
  assert (Hsame' : same_clusters (disk st) (disk (fsys (kernel s')))).
  { intros c Hc. rewrite Hkeep by done. by apply Hsame. }
  destruct Hrep as [chs Hl]. pose proof (lo_inv _ _ _ _ Hl) as Hinv0.
  exists s'. split; [exact Hrun |]. split; [apply Hsh.. | | apply Hsh | |].
  - intros o b Ho. apply (sh_loaded _ _ _ _ _ _ _ Hsh).
    pose proof (zget_range _ _ _ Ho) as Hr. refine (eq_trans (f_equal (fun l => zget l o) Hks) _).
    rewrite file_bytes_get by (done || lia). rewrite filled_get by lia. exact Ho.
  - exists chs. apply (layout_copy st); [exact Hl | exact Hinv | | exact Hsame'].
    rewrite <- (stored_fat_coherent _ Hinv), <- (stored_fat_coherent _ Hinv0). by apply same_clusters_fat.
  - rewrite <- Hown. unfold own_entry. f_equal. by apply same_clusters_table.
Qed.

(** C4. From the build to the running shell. On a new image the inserter is run for a
    shell and then for any number of other files. Every run ends with exit code 0,
    and a machine that has the resulting image as its disk - the emulator's drive,
    whatever device that is - boots: [kernel_setup] ends with process 0 about to run
    in ring 3 at address 0, where the bytes of the shell's file are - unless that file
    fills several clusters exactly, when the inserter has lost its last cluster. *)
Theorem installed_shell_boots {D} `{BlockDeviceSpec D} `{LayoutOk} `{PicMachine p1 p2} `{Environment}
    storage number args h img
    (Hcap : CLUSTER_BLOCK_COUNT * CLUSTER_MAP_SIZE <= dev_blocks (D := D))
    (Himg : files h !! storage = Some img) (Hfile : image_file img) (Hnew : ztake BLOCK_SIZE img <> fs_signature)
    (Hok : insertions_ok h storage ROOT_CLUSTER_NUMBER fresh_volume ((str "shell", number) :: args)) :
  let shell := target_bytes h (str "shell") in
  0 < zlen shell <= 0x100000 -> ~ whole_last_cluster (zlen shell) ->
  exists h' img', inserter_runs storage ((str "shell", number) :: args) h =
      Ok (zrep (zlen ((str "shell", number) :: args)) 0, h') /\
    files h' !! storage = Some img' /\
    forall (d : D) physical, has_image img' d ->
    exists s', kernel_setup (boot_system d physical) = Ok (tt, s') /\ SchedInv (kernel s') /\
      active (k_paging (kernel s')) (ListDir 0) /\
      cpu_context (kernel s') = Some (initial_context 0 (directory_addr 0) zero_context) /\
      forall o b, shell.[o] = Some b -> load8 o (umem (fsys (kernel s'))) = Ok b.
Proof.
  intros shell Hsize Hwhole.
  destruct (installed_run storage number args h img Hcap Himg Hfile Hnew Hok Hsize Hwhole)
    as (h' & img' & Hruns & Himg' & Hboot). exists h', img'. split; [done |]. split; [done |].
  intros d physical Hd. destruct (Hboot d physical Hd) as (s' & Hrun & [? ? ? ? _ _ _]). by exists s'.
Qed.
End Install.
