(* ===== verification/SystemSpec.v ===== *)
(** SystemSpec: the file system calls as a process makes them, and the lines
    [ps] prints. *)

From Stdlib Require Import ZArith Lia.
From stdpp Require Import base tactics numbers strings list gmap fin_maps.
From S2P Require Import Prelude Memory CString Disk FatLayout Fat32 FatLogic FatChain FatWrite.
From S2P Require Import FatRead FatDelete FatVolume Paging PagingSpec Process Pic Scheduler.
From S2P Require Import ProcessSpec Terminal TerminalSpec Keyboard Descriptors System BootSpec.
#[local] Open Scope eff_scope.

(** ** Requests in memory *)

Definition encode_request (request : FAT32DriverRequest) : list Z :=
  le_bytes 4 (buf request) ++ req_name request ++ req_ext request ++
  le_bytes 4 (parent_cluster_number request) ++ le_bytes 4 (buffer_size request).

Lemma zslice_app_skip (l k : list Z) i n : zlen l = i -> zslice i n (l ++ k) = zslice 0 n k.
Proof. intros Hl. unfold zslice. by rewrite zdrop_app_eq. Qed.
Lemma zslice_app_take (l k : list Z) n : zlen l = n -> zslice 0 n (l ++ k) = l.
Proof. intros Hl. rewrite zslice_0. by apply ztake_app_eq. Qed.

Lemma decode_encode_request request :
  request_ok request -> 0 <= buf request < 2 ^ 32 -> 0 <= parent_cluster_number request < 2 ^ 32 ->
  decode_request (encode_request request) = request /\ zlen (encode_request request) = REQUEST_SIZE.
Proof.
  intros [Hn _ He _ Hs] Hb Hp. unfold decode_request, encode_request. split.
  - rewrite (zslice_app_take (le_bytes 4 (buf request))) by by rewrite zlen_le_bytes.
    rewrite (zslice_app_skip (le_bytes 4 (buf request))) by by rewrite zlen_le_bytes.
    rewrite (zslice_app_take (req_name request)) by done.
    rewrite !(app_assoc (le_bytes 4 (buf request))).
    rewrite (zslice_app_skip (le_bytes 4 (buf request) ++ req_name request)) by (rewrite zlen_app, zlen_le_bytes; lia).
    rewrite (zslice_app_take (req_ext request)) by done.
    rewrite (app_assoc (le_bytes 4 (buf request) ++ req_name request)).
    rewrite (zslice_app_skip ((le_bytes 4 (buf request) ++ req_name request) ++ req_ext request))
      by (rewrite !zlen_app, zlen_le_bytes; lia).
    rewrite (zslice_app_take (le_bytes 4 (parent_cluster_number request))) by by rewrite zlen_le_bytes.
    rewrite (app_assoc ((le_bytes 4 (buf request) ++ req_name request) ++ req_ext request)).
    rewrite (zslice_app_skip (((le_bytes 4 (buf request) ++ req_name request) ++ req_ext request) ++
      le_bytes 4 (parent_cluster_number request))) by (rewrite !zlen_app, !zlen_le_bytes; lia).
    rewrite zslice_all by by rewrite zlen_le_bytes.
    rewrite !le_val_le_bytes_small by lia. by destruct request.
  - rewrite !zlen_app, !zlen_le_bytes. unfold REQUEST_SIZE. lia.
Qed.

(** ** The system calls on files *)

Definition call_number (c : Call) : Z :=
  match c with
  | CallRead _ => 0
  | CallWrite _ _ => 2
  | CallDelete _ => 3
  end.

Section Syscalls.
Context {D : Type} `{BlockDeviceSpec D} `{LayoutOk} `{PortMachine} `{Environment}.
Context (Hcap : CLUSTER_BLOCK_COUNT * CLUSTER_MAP_SIZE <= dev_blocks).
Implicit Types (s : System D).

Definition memory s : PagedMemory := umem (fsys (kernel s)).

(** [syscall] does with a file call what the kernel's function does, and stores
    the code. *)
Lemma syscall_file_call c frame s request r f :
  request = call_request c -> eax (f_cpu frame) = call_number c ->
  load_request (ebx (f_cpu frame)) s = Ok (request, s) ->
  run_call c (fsys (kernel s)) = Ok (r, f) ->
  syscall frame s = store_result (ecx (f_cpu frame)) r (set_kernel (set_fsys f (kernel s)) s).
Proof.
  intros -> Hn Hload Hrun. unfold syscall. rewrite Hn.
  destruct c; cbn [call_number call_request run_call Z.eqb Pos.eqb] in *;
    (erewrite bind_run; [| exact Hload]; erewrite bind_run; [reflexivity |];
     apply on_kernel_run, on_fs_run, Hrun).
Qed.

Lemma set_kernel_same s : set_kernel (kernel s) s = s.
Proof. by destruct s. Qed.

Lemma load_request_run a s request :
  request_ok request -> 0 <= buf request < 2 ^ 32 -> 0 <= parent_cluster_number request < 2 ^ 32 ->
  holds (memory s) a (encode_request request) -> load_request a s = Ok (request, s).
Proof.
  intros Hro Hb Hp Hh. destruct (decode_encode_request request Hro Hb Hp) as [Hdec Hlen].
  unfold load_request. erewrite bind_run; [unfold ret; by rewrite Hdec |].
  rewrite (on_memory_run _ s (encode_request request) (memory s)).
  - f_equal. f_equal. destruct s as [[[] ? ? ? ? ? ? ?] ? ? ? ? ?]. reflexivity.
  - unfold load_all, of_res. by rewrite (load_bytes_holds _ _ _ (encode_request request)).
Qed.

Lemma store_char_mapped (m : PagedMemory) a v :
  is_Some (mem_resolve m (u32 a)) -> exists m', store_char a v m = Ok (tt, m').
Proof. intros [c Hc]. unfold store_char, store8. rewrite Hc. by eexists. Qed.

Lemma answered_resolve (m : PagedMemory) c out m' a :
  answered m c out m' -> mem_resolve m' a = mem_resolve m a.
Proof. destruct out; cbn; [intros Hst; apply (stored_resolve _ _ _ _ Hst) | by intros ->]. Qed.

End Syscalls.

(** ** ps *)

(** The loop over the digits of a pid overwrites one column: the first digit is
    the one that stays. *)
Lemma pid_digits_first fuel j : forall x buff,
  0 < x < 10 ^ Z.of_nat fuel ->
  exists d k, 0 <= k /\ 1 <= d <= 9 /\ d * 10 ^ k <= x < (d + 1) * 10 ^ k /\
    pid_digits fuel j x buff = buff.[j := 48 + d].
Proof.
  induction fuel as [| fuel IH]; intros x buff Hx; [change (10 ^ Z.of_nat 0) with 1 in Hx; lia |].
  cbn [pid_digits]. destruct (Z.eqb_spec x 0); [lia |].
  pose proof (Z.div_mod x 10 ltac:(lia)) as Hdm. pose proof (Z.mod_pos_bound x 10 ltac:(lia)) as Hm.
  destruct (Z.eq_dec (x / 10) 0) as [Hz | Hz].
  - exists x, 0. rewrite Hz. split_and!; try lia.
    destruct fuel; cbn [pid_digits Z.eqb]; rewrite (Z.mod_small x 10) by lia;
      rewrite u8_small by lia; by rewrite Z.add_comm.
  - destruct (IH (x / 10) buff.[j := u8 (x mod 10 + 48)]) as (d & k & Hk & Hd & Hr & Hrun).
    { replace (Z.of_nat (S fuel)) with (Z.of_nat fuel + 1) in Hx by lia.
      rewrite Z.pow_add_r in Hx by lia. split; [pose proof (Z.div_pos x 10); lia |].
      apply Z.div_lt_upper_bound; lia. }
    exists d, (k + 1). rewrite Z.pow_add_r by lia. split_and!; try lia.
    by rewrite Hrun, zset_zset.
Qed.

(** The loop that turns zeros into spaces, a column at a time. *)
Definition blank (b : Z) : Z := if b =? 0 then 32 else b.
Lemma blank_columns l : forall buff,
  foldl (fun b j => if znth 0 b j =? 0 then b.[j := 32] else b) buff l =
  foldl (fun b j => b.[j := blank (znth 0 b j)]) buff l.
Proof.
  induction l as [| j l IH]; intros buff; [done |]. cbn [foldl]. rewrite IH. f_equal. unfold blank, znth.
  destruct (buff.[j]) as [x |] eqn:Hj; cbn [default from_option id].
  - destruct (x =? 0); [done |]. symmetry. by apply zset_id.
  - done.
Qed.

(** The line [ps] prints of a process: the name with its zeros as spaces, the
    state with the zero that ends it, and of the pid only the first digit - the
    processes 1 and 10 to 15 look alike. *)
Theorem process_line_spec p nm
    (Hname : ztake 8 (pcb_name p) = nm) (Hlen : zlen nm = 8) (Hpid : 0 <= pid p < 2 ^ 32) :
  exists d k, 0 <= k /\ 0 <= d <= 9 /\ (d = 0 -> pid p = 0) /\ d * 10 ^ k <= pid p < (d + 1) * 10 ^ k /\
    process_line p = [32; 32; 32; 48 + d; 32] ++ (blank <$> nm) ++ state_text (state p).
Proof.
  assert (Hdigit : exists d k, 0 <= k /\ 0 <= d <= 9 /\ (d = 0 -> pid p = 0) /\
    d * 10 ^ k <= pid p < (d + 1) * 10 ^ k /\
    pid_digits PID_DIGITS 3 (pid p) (if pid p =? 0 then (zrep 32 32).[3 := 48] else zrep 32 32) =
      (zrep 32 32).[3 := 48 + d]).
  { destruct (Z.eqb_spec (pid p) 0) as [Hz | Hz].
    - exists 0, 0. rewrite Hz. split_and!; done || lia.
    - destruct (pid_digits_first PID_DIGITS 3 (pid p) (zrep 32 32)) as (d & k & Hk & Hd & Hr & Hrun);
        [change (10 ^ Z.of_nat PID_DIGITS) with 10000000000; lia |].
      exists d, k. split_and!; try done; lia. }
  destruct Hdigit as (d & k & Hk & Hd & Hz & Hr & Hrun). exists d, k. do 4 (split; [done |]).
  unfold process_line. rewrite Hrun, blank_columns, Hname. clear Hrun.
  generalize (48 + d) as x. generalize blank as bl. intros bl x.
  do 8 (destruct nm as [| ? nm]; [done |]). destruct nm; [| unfold zlen in Hlen; cbn in Hlen; lia].
  destruct (state p); reflexivity.
Qed.
