(* ===== verification/UserCall.v ===== *)
(** UserCall: the file calls of the shell as it makes them - a request and an array
    on its stack, four registers, and the interrupt 0x30 (syscall in
    src/user_mode/user-shell.c). *)

From Stdlib Require Import ZArith Lia.
From stdpp Require Import base tactics numbers strings list gmap fin_maps.
From S2P Require Import Prelude Memory CString Disk FatLayout Fat32 FatLogic FatChain FatWrite.
From S2P Require Import FatRead FatDelete FatVolume Paging PagingSpec Process Pic Scheduler.
From S2P Require Import ProcessSpec Terminal TerminalSpec Keyboard Descriptors Assembly System BootSpec SystemSpec.
From S2P Require Import Shell ShellParse ShellSpec ShellPath ShellFiles ShellFs.
#[local] Open Scope eff_scope.

(** ** The interrupt *)

(** The process at a call - the registers besides the four, its address, flags and
    selectors, which are those of ring 3 - the kernel's stack, and what the C code of
    the kernel leaves in registers and flags. *)
Class UserFrame := {
  user_state : Z -> Z -> Z -> Z -> Processor;
  kernel_words : list Z;
  handler_leaves : CPURegister;
  handler_flags : Z;
  user_ring a b c d : user_level (p_cs (user_state a b c d)) = true;
  user_data a b c d : user_level (ds (registers (user_state a b c d))) = true
}.

Definition set_registers (a b c d : Z) (r : CPURegister) : CPURegister :=
  mkCPU (edi r) (esi r) (ebp r) (esp r) b d c a (gs r) (fs r) (es r) (ds r).

(** Where the compiler puts the request, the code and the array of a call: on the
    stack of the process. *)
Record CallFrame := mkCallFrame { request_at : Z; retcode_at : Z; array_at : Z }.
Class UserStorage := { call_frame : FileCall -> FAT32DriverRequest -> Z -> CallFrame }.

Definition file_call_number (call : FileCall) : Z :=
  match call with
  | FileRead => 0
  | FileReadDirectory => 1
  | FileWrite => 2
  | FileDelete => 3
  end.

Record in_stack (a n : Z) : Prop := {
  is_from : STACK_PAGE <= a;
  is_to : a + n <= KERNEL_VIRTUAL_ADDRESS_BASE
}.
Lemma in_stack_range a n : in_stack a n -> 0 <= n -> 0 <= a < 2 ^ 32.
Proof.
  intros [Hf Ht] Hn. unfold STACK_PAGE, KERNEL_VIRTUAL_ADDRESS_BASE in *. rewrite PAGE_FRAME_SIZE_eq in Hf. lia.
Qed.
Definition apart (a n b k : Z) : Prop := a + n <= b \/ b + k <= a.
Class UserStorageOk `{UserStorage} : Prop := {
  storage_stack call request n : 0 <= n <= ARRAY_MAX ->
    let F := call_frame call request n in
    in_stack (request_at F) REQUEST_SIZE /\ in_stack (retcode_at F) 1 /\ in_stack (array_at F) n;
  storage_apart call request n : 0 <= n <= ARRAY_MAX ->
    let F := call_frame call request n in
    apart (request_at F) REQUEST_SIZE (array_at F) n /\ apart (retcode_at F) 1 (array_at F) n
}.

Section UserCall.
Context {D : Type} `{BlockDevice D} `{Layout} `{PortMachine} `{Environment} `{Alu} `{UserFrame} `{UserStorage}.
Implicit Types (s : System D).

(** The four registers are loaded, then [int $0x30]: the processor goes through the
    gate of the interrupt table, the stub calls the kernel, and the process goes on. *)
Definition load_registers (a b c d : Z) : Eff Machine unit :=
  mov R_EBX b ;;; mov R_ECX c ;;; mov R_EDX d ;;; mov R_EAX a.
Definition user_syscall (a b c d : Z) : Eff (System D) Processor :=
  fun s =>
    res_bind ((load_registers a b c d ;;;
               interrupted (gate_offset (znth zero_gate (idt s) 0x30)) (esp0 s) None 0x30)
                (mkMachine (user_state a b c d) kernel_words))
      (fun '(frame, m) =>
    res_bind (main_interrupt_handler frame s) (fun '(_, s') =>
    res_bind (return_from_handler (after_call handler_leaves handler_flags m)) (fun '(_, m') =>
    Ok (processor m', s')))).

(** Of the call the kernel sees a frame with the four registers; the process sees its
    own registers again. *)
Definition user_frame (a b c d : Z) : InterruptFrame :=
  let u := user_state a b c d in
  mkFrame (set_registers a b c d (registers u)) 0x30 0 (p_eip u) (p_cs u) (p_eflags u).
Lemma user_syscall_run a b c d s :
  user_syscall a b c d s =
    res_bind (main_interrupt_handler (user_frame a b c d) s) (fun '(_, s') =>
      Ok (with_registers (set_registers a b c d (registers (user_state a b c d))) (user_state a b c d), s')).
Proof.
  unfold user_syscall. pose proof (user_ring a b c d) as Hring. pose proof (user_data a b c d) as Hdata.
  set (u := with_registers (set_registers a b c d (registers (user_state a b c d))) (user_state a b c d)).
  assert (Hlevel : level_ok u) by (intros Hk; change (user_level (p_cs (user_state a b c d)) = false) in Hk; congruence).
  assert (Hload : load_registers a b c d (mkMachine (user_state a b c d) kernel_words) = Ok (tt, mkMachine u kernel_words)) by reflexivity.
  erewrite bind_run; [| exact Hload]. rewrite (interrupted_run u _ (esp0 s) None 0x30) by done. cbn [res_bind].
  assert (Hframe : frame_of u (esp0 s) 0x30 0 = user_frame a b c d).
  { unfold frame_of, frame_esp. change (user_level (ds (registers u))) with (user_level (ds (registers (user_state a b c d)))).
    by rewrite Hdata. }
  cbn [default]. rewrite Hframe. destruct (main_interrupt_handler _ s) as [[[] s'] |]; [| done]. cbn [res_bind].
  by rewrite return_run.
Qed.

(** [syscall(n, (uint32_t) &request, (uint32_t) &retcode, 0)], after the array and
    the request were filled in; then [retcode], an [int8_t], and the array. *)
Definition int_call (call : FileCall) (request : FAT32DriverRequest) (b : list Z)
  : Eff (System D) (Z * list Z) :=
  let F := call_frame call request (zlen b) in
  on_memory (store_all (array_at F) b) ;;;
  on_memory (store_all (request_at F) (encode_request (set_buf (array_at F) request))) ;;;
  user_syscall (file_call_number call) (request_at F) (retcode_at F) 0 ;;;
  r <- on_memory (fun m => of_res (load8 (retcode_at F) m) m) ;;
  b' <- on_memory (load_all (array_at F) (zlen b)) ;;
  ret (i8 r, b').

#[export] Instance system_machine : FileMachine (System D) := {|
  file_call call request b s :=
    match int_call call request b s with
    | Ok ((r, b'), s') => Ok (r, b', s')
    | Fault e => Fault e
    end
|}.
End UserCall.

(** ** The stack in memory *)

Section Stack.
Context {M : Type} `{ByteMemLaws M}.
Implicit Types (m : M).

Lemma stack_mapped m a n : StackReady m -> in_stack a n -> mapped m a n.
Proof.
  intros [Hm _] [Hf Ht]. replace a with (STACK_PAGE + (a - STACK_PAGE)) by lia.
  apply (mapped_sub _ _ _ _ _ Hm); [lia |]. unfold STACK_PAGE in *. lia.
Qed.
Lemma stack_separate m a n : StackReady m -> in_stack a n -> separate m a n.
Proof.
  intros [_ Hs] [Hf Ht]. replace a with (STACK_PAGE + (a - STACK_PAGE)) by lia.
  apply (separate_sub _ _ _ _ _ Hs); [lia |]. unfold STACK_PAGE in *. lia.
Qed.
Lemma stack_apart m a n b k :
  StackReady m -> in_stack a n -> in_stack b k -> apart a n b k ->
  forall c, in_range m a n c -> ~ in_range m b k c.
Proof.
  intros [_ Hs] [Ha Ha'] [Hb Hb'] Hap c (i & Hi & Hci) (j & Hj & Hcj).
  specialize (Hs (a - STACK_PAGE + i) (b - STACK_PAGE + j)).
  replace (STACK_PAGE + (a - STACK_PAGE + i)) with (a + i) in Hs by lia.
  replace (STACK_PAGE + (b - STACK_PAGE + j)) with (b + j) in Hs by lia.
  assert (a - STACK_PAGE + i = b - STACK_PAGE + j)
    by (apply Hs; [unfold STACK_PAGE in *; lia.. | congruence]).
  unfold apart in Hap. lia.
Qed.
Lemma stack_stored m a bs m' : stored m a bs m' -> StackReady m -> StackReady m'.
Proof. intros Hst [Hm Hs]. split; [by eapply stored_mapped | by eapply stored_separate]. Qed.
End Stack.
