(* ===== verification/ShellMachine.v ===== *)
(** ShellMachine: the kernel behind the interrupt 0x30 is a machine that makes the
    shell's file calls, so that a session is followed from the keys through
    registers, paging and system calls down to the disk. *)

From Stdlib Require Import ZArith Lia.
From stdpp Require Import base tactics numbers strings list gmap fin_maps.
From S2P Require Import Prelude Memory CString Disk FatLayout Fat32 FatLogic FatChain FatWrite.
From S2P Require Import FatRead FatDelete FatVolume Paging PagingSpec Process Pic Scheduler.
From S2P Require Import ProcessSpec Terminal TerminalSpec Keyboard Descriptors Assembly System BootSpec SystemSpec.
From S2P Require Import Shell ShellParse ShellSpec ShellPath ShellFiles ShellFs UserCall.
#[local] Open Scope eff_scope.

Lemma encode_request_bytes request : request_ok request -> all_bytes (encode_request request).
Proof.
  intros [_ Hn _ He _]. unfold encode_request.
  repeat (apply Forall_app; split); try done; apply le_bytes_all_bytes.
Qed.

Section Machine.
Context {D : Type} `{BlockDeviceSpec D} `{LayoutOk} `{PortMachine} `{Environment} `{Alu} `{UserFrame} `{UserStorageOk}.
Context (Hcap : CLUSTER_BLOCK_COUNT * CLUSTER_MAP_SIZE <= dev_blocks).
Implicit Types (s : System D) (v : Volume).

Definition files_of s : FS D PagedMemory := fsys (kernel s).
(** The system with other memory, and with another file system. *)
Definition with_mem (m : PagedMemory) s : System D :=
  set_kernel (set_fsys (set_umem m (files_of s)) (kernel s)) s.
Definition with_fs (f : FS D PagedMemory) s : System D := set_kernel (set_fsys f (kernel s)) s.

Lemma store_char_stored (m : PagedMemory) a x :
  is_Some (mem_resolve m (u32 a)) -> exists m', store_char a x m = Ok (tt, m') /\ stored m a [x] m'.
Proof.
  intros Hr. destruct (store_bytes_mapped [x] a m) as (m' & Hrun & Hst).
  { intros i Hi. change (zlen [x]) with 1 in Hi. replace (a + i) with a by lia. exact Hr. }
  exists m'. split; [| exact Hst]. cbn [store_bytes] in Hrun. unfold store_char.
  destruct (store8 a x m); cbn [res_bind] in Hrun; [by injection Hrun as -> | done].
Qed.
Lemma store_all_run a bs s :
  mapped (memory s) a (zlen bs) ->
  exists m, on_memory (store_all a bs) s = Ok (tt, with_mem m s) /\ stored (memory s) a bs m.
Proof.
  intros Hm. destruct (store_bytes_mapped bs a (memory s) Hm) as (m & Hrun & Hst).
  exists m. split; [| exact Hst]. apply on_memory_run. change (umem (fsys (kernel s))) with (memory s).
  unfold store_all. by rewrite Hrun.
Qed.
Lemma with_mem_same s : with_mem (memory s) s = s.
Proof. by destruct s as [[[] ? ? ? ? ? ? ?] ? ? ? ? ?]. Qed.
Lemma load_one s a x :
  holds (memory s) a [x] -> on_memory (fun m => of_res (load8 a m) m) s = Ok (x, s).
Proof.
  intros Hh. destruct (Hh 0 x eq_refl) as (c & Hc & Hg). rewrite Z.add_0_r in Hc.
  rewrite (on_memory_run _ s x (memory s)); [exact (f_equal (fun s' => Ok (x, s')) (with_mem_same s)) |].
  change (umem (fsys (kernel s))) with (memory s). unfold load8, of_res. by rewrite Hc, Hg.
Qed.
Lemma load_array s a (b : list Z) r :
  load_bytes (length b) a (memory s) = Ok r -> on_memory (load_all a (zlen b)) s = Ok (r, s).
Proof.
  intros Hl. rewrite (on_memory_run _ s r (memory s)); [exact (f_equal (fun s' => Ok (r, s')) (with_mem_same s)) |].
  change (umem (fsys (kernel s))) with (memory s). unfold load_all, zlen. rewrite Nat2Z.id. by rewrite Hl.
Qed.

(** The codes of the calls are those of an [int8_t]. *)
Lemma vol_step_code v c : i8 (u8 (vol_step v c).1.1) = (vol_step v c).1.1.
Proof.
  unfold vol_step. destruct c; cbn [call_request]; repeat case_decide; try done;
    destruct (vol_nodes v !! _) as [[? ? | []] |]; try done; by case_match.
Qed.

(** The array and the request in the memory of the process. *)
Record LaidOut s call (request : FAT32DriverRequest) (b : list Z) (s2 : System D) : Prop := {
  ld_state : exists m, s2 = with_mem m s;
  ld_stack : StackReady (memory s2);
  ld_array : holds (memory s2) (array_at (call_frame call request (zlen b))) b;
  ld_encoded : holds (memory s2) (request_at (call_frame call request (zlen b)))
    (encode_request (set_buf (array_at (call_frame call request (zlen b))) request))
}.

Lemma lay_out s call request b :
  StackReady (memory s) -> request_ok request -> 0 <= parent_cluster_number request < 2 ^ 32 ->
  zlen b <= ARRAY_MAX -> all_bytes b ->
  let F := call_frame call request (zlen b) in
  exists s1 s2, on_memory (store_all (array_at F) b) s = Ok (tt, s1) /\
    on_memory (store_all (request_at F) (encode_request (set_buf (array_at F) request))) s1 = Ok (tt, s2) /\
    LaidOut s call request b s2.
Proof.
  intros Hst Hro Hp Hlen Hb F. pose proof (zlen_nonneg b) as Hb0.
  destruct (storage_stack call request (zlen b) ltac:(lia)) as (Hrq & Hrc & Har).
  destruct (storage_apart call request (zlen b) ltac:(lia)) as [Hap _]. fold F in Hrq, Hrc, Har, Hap.
  assert (Hro' : request_ok (set_buf (array_at F) request)) by by destruct Hro.
  pose proof (in_stack_range _ _ Har Hb0 : 0 <= buf (set_buf (array_at F) request) < 2 ^ 32) as Hbuf.
  destruct (decode_encode_request _ Hro' Hbuf Hp) as [_ Henc].
  destruct (store_all_run (array_at F) b s) as (m1 & Hrun1 & Hst1); [by apply stack_mapped |].
  pose proof (stack_stored _ _ _ _ Hst1 Hst) as Hr1.
  destruct (store_all_run (request_at F) (encode_request (set_buf (array_at F) request)) (with_mem m1 s))
    as (m2 & Hrun2 & Hst2); [rewrite Henc; by apply stack_mapped |].
  exists (with_mem m1 s), (with_mem m2 s). split; [exact Hrun1 |]. split; [exact Hrun2 |]. split.
  - by exists m2.
  - by apply (stack_stored m1 _ _ m2 Hst2).
  - apply (stored_holds_other m1 _ _ m2 _ _ Hst2).
    + rewrite Henc. apply (stack_apart m1); try done.
    + apply (stored_holds _ _ _ _ Hst1); [by apply stack_separate | done].
  - apply (stored_holds _ _ _ _ Hst2); [rewrite Henc; by apply (stack_separate m1) |]. by apply encode_request_bytes.
Qed.

(** From the return of the kernel's function to the shell's code after the call. *)
Lemma int_call_returns s call request b s2 f r b' :
  let F := call_frame call request (zlen b) in
  (exists s1, on_memory (store_all (array_at F) b) s = Ok (tt, s1) /\
    on_memory (store_all (request_at F) (encode_request (set_buf (array_at F) request))) s1 = Ok (tt, s2)) ->
  (exists m, s2 = with_mem m s) -> zlen b <= ARRAY_MAX ->
  main_interrupt_handler (user_frame (file_call_number call) (request_at F) (retcode_at F) 0) s2 =
    store_result (retcode_at F) r (with_fs f s2) ->
  StackReady (umem f) -> load_bytes (length b) (array_at F) (umem f) = Ok b' ->
  exists m, int_call call request b s = Ok ((i8 (u8 r), b'), with_fs (set_umem m f) s) /\ StackReady m.
Proof.
  intros F (s1 & Hrun1 & Hrun2) [m2 Hs2] Hlen Hsys Hready Hload. pose proof (zlen_nonneg b) as Hb0.
  destruct (storage_stack call request (zlen b) ltac:(lia)) as (_ & Hrc & Har).
  destruct (storage_apart call request (zlen b) ltac:(lia)) as [_ Hap]. fold F in Hrc, Har, Hap.
  destruct (store_char_stored (umem f) (retcode_at F) (u8 r)) as (m & Hst & Hstored).
  { rewrite <- (Z.add_0_r (retcode_at F)). apply (stack_mapped _ _ _ Hready Hrc). lia. }
  pose proof (stack_stored _ _ _ _ Hstored Hready) as Hready'.
  exists m. split; [| exact Hready']. set (s4 := with_fs (set_umem m f) s).
  assert (Hs4 : store_result (retcode_at F) r (with_fs f s2) = Ok (tt, s4)).
  { unfold store_result. rewrite (on_memory_run _ _ tt m) by exact Hst. subst s2. reflexivity. }
  destruct (load_bytes_inv (length b) (array_at F) (umem f) b' Hload) as [Hh Hlen'];
    [by apply stack_mapped |].
  unfold int_call. fold F. erewrite bind_run; [| exact Hrun1]. erewrite bind_run; [| exact Hrun2].
  erewrite bind_run; [| rewrite user_syscall_run, Hsys, Hs4; reflexivity].
  erewrite bind_run; [| apply (load_one s4 _ (u8 r))].
  - erewrite bind_run; [reflexivity |]. apply load_array, load_bytes_holds; [exact Hlen' |].
    apply (stored_holds_other (umem f) _ _ m _ _ Hstored); [| exact Hh].
    change (zlen [u8 r]) with 1. rewrite Hlen'. by apply (stack_apart (umem f)).
  - apply (stored_holds _ _ _ _ Hstored); [by apply stack_separate |].
    apply Forall_singleton, u8_range.
Qed.

Lemma machine_call_run s c b p v :
  StackReady (memory s) -> Represents (files_of s) p v -> array_ok p v c b ->
  exists f, int_call (call_kind c) (call_request c) b s =
      Ok (((vol_step v c).1.1, overwrite (vol_step v c).2 b), with_fs f s) /\
    StackReady (umem f) /\ Represents f p (vol_step v c).1.2 /\ table_kept c (files_of s) p f.
Proof.
  intros Hst Hrep Hok. pose proof Hok as [Hro Hp _ _ Hlen Hb _].
  assert (Hpar : 0 <= parent_cluster_number (call_request c) < 2 ^ 32).
  { rewrite Hp. destruct Hrep as [chs Hl]. pose proof (proj1 (lo_parent _ _ _ _ Hl)) as Hin.
    unfold in_fat, CLUSTER_MAP_SIZE in Hin. lia. }
  destruct (lay_out s (call_kind c) (call_request c) b Hst Hro Hpar Hlen Hb)
    as (s1 & s2 & Hrun1 & Hrun2 & [[m Hs2] Hst2 Harr Henc]).
  set (F := call_frame (call_kind c) (call_request c) (zlen b)) in *.
  pose proof (zlen_nonneg b) as Hb0.
  destruct (storage_stack (call_kind c) (call_request c) (zlen b) ltac:(lia)) as (_ & _ & Har). fold F in Har.
  assert (Hcall : call_ok m p v (call_at (array_at F) c)).
  { subst s2. apply (array_call_ok _ _ _ b); [done | by apply stack_mapped | exact Harr]. }
  destruct (call_agrees Hcap (files_of s) p v m _ Hrep Hcall) as (f & Hrun & Hrep' & Hans & Hkept).
  rewrite vol_step_at in *.
  assert (Hrf : StackReady (umem f)).
  { subst s2. destruct (vol_step v c).2; cbn [answered] in Hans; [by apply (stack_stored _ _ _ _ Hans) | by rewrite Hans]. }
  destruct (int_call_returns s (call_kind c) (call_request c) b s2 f (vol_step v c).1.1 (overwrite (vol_step v c).2 b))
    as (m4 & Hint & Hst4); [by exists s1 | by exists m | exact Hlen | | exact Hrf | |].
  - fold F. change (main_interrupt_handler ?frame s2) with (syscall frame s2).
    rewrite (syscall_file_call (call_at (array_at F) c) _ s2 (call_request (call_at (array_at F) c)) (vol_step v c).1.1 f);
      [reflexivity | done | by destruct c | | by subst s2].
    assert (Hreq : call_request (call_at (array_at F) c) = set_buf (array_at F) (call_request c)) by by destruct c.
    rewrite Hreq. apply load_request_run; [by destruct Hro | | exact Hpar | exact Henc].
    exact (in_stack_range _ _ Har Hb0).
  - subst s2. by apply (answered_load Hcap m (umem f) (array_at F) c b p v (files_of s)), Hans; [.. | apply stack_separate].
  - rewrite vol_step_code in Hint. exists (set_umem m4 f). split; [exact Hint |]. split; [exact Hst4 |]. split.
    + destruct Hrep' as [chs Hl]. exists chs. by apply layout_umem.
    + by destruct c.
Qed.

Lemma machine_open_run s p v nm i :
  StackReady (memory s) -> Represents (files_of s) p v -> zlen nm = 8 -> all_bytes nm ->
  let t := dir_table (files_of s) p in
  for_find 0 DIR_ENTRIES (fun j => mem_eq (name (row t j)) nm 8) = Some i ->
  attribute (row t i) = ATTR_SUBDIRECTORY -> in_fat (entry_cluster (row t i)) ->
  exists f, int_call FileReadDirectory (directory_request nm p) (zrep CLUSTER_SIZE 0) s =
      Ok ((0, cluster (disk (files_of s)) (entry_cluster (row t i))), with_fs f s) /\
    StackReady (umem f) /\
    forall q u, Represents (files_of s) q u -> Represents f q u /\ dir_table f q = dir_table (files_of s) q.
Proof.
  intros Hst Hrep Hnm Hnb t Hfind Hattr Hc. pose proof Hrep as [chs Hl].
  set (b := zrep CLUSTER_SIZE 0). set (request := directory_request nm p).
  assert (Hb : zlen b = CLUSTER_SIZE) by done.
  assert (Hlen : zlen b <= ARRAY_MAX) by by rewrite Hb.
  assert (Hro : request_ok request) by (split; [exact Hnm | exact Hnb | done | by apply Forall_zrep | done]).
  assert (Hpar : 0 <= p < 2 ^ 32)
    by (pose proof (proj1 (lo_parent _ _ _ _ Hl)) as Hin; unfold in_fat, CLUSTER_MAP_SIZE in Hin; lia).
  destruct (lay_out s FileReadDirectory request b Hst Hro Hpar Hlen ltac:(by apply Forall_zrep))
    as (s1 & s2 & Hrun1 & Hrun2 & [[m Hs2] Hst2 Harr Henc]).
  set (F := call_frame FileReadDirectory request (zlen b)) in *.
  destruct (storage_stack FileReadDirectory request (zlen b) ltac:(rewrite Hb; unfold ARRAY_MAX; consts; lia))
    as (_ & _ & Har). fold F in Har.
  pose proof (cluster_ok Hcap (disk (files_of s)) _ (inv_dev _ (lo_inv _ _ _ _ Hl)) Hc) as [Hcl Hcb].
  set (bytes := cluster (disk (files_of s)) (entry_cluster (row t i))) in *.
  assert (Hm2 : memory s2 = m) by by subst s2.
  rewrite Hm2 in Hst2, Harr, Henc.
  destruct (store_bytes_mapped bytes (array_at F) m) as (m3 & Hstore & Hstored).
  { rewrite Hcl, <- Hb. by apply stack_mapped. }
  destruct (open_call Hcap (files_of s) m p v chs nm (array_at F) i m3 Hl Hnm Hfind Hattr Hc Hstore)
    as (f & Hrun & Hm & Hsame).
  assert (Hrf : StackReady (umem f)) by (rewrite Hm; by apply (stack_stored _ _ _ _ Hstored)).
  destruct (int_call_returns s FileReadDirectory request b s2 f 0 bytes) as (m4 & Hint & Hst4);
    [by exists s1 | by exists m | exact Hlen | | exact Hrf | |].
  - fold F. change (main_interrupt_handler ?frame s2) with (syscall frame s2).
    unfold syscall, user_frame. cbn [file_call_number f_cpu eax set_registers Z.eqb Pos.eqb].
    pose proof (in_stack_range _ _ Har (zlen_nonneg b)) as Hbuf.
    erewrite bind_run; [| apply (load_request_run _ _ (set_buf (array_at F) request));
      [by destruct Hro | exact Hbuf | exact Hpar | by rewrite Hm2]].
    erewrite bind_run; [reflexivity |]. apply on_kernel_run, on_fs_run. by subst s2.
  - rewrite Hm, (load_overwritten m m3 _ b bytes); [.. | exact Hstored]; try done.
    + rewrite (zlen_0_inv (zdrop _ _)); [by rewrite app_nil_r |]. rewrite zlen_zdrop, Hcl, Hb. lia.
    + by apply stack_separate.
    + by rewrite Hcl, Hb.
  - exists (set_umem m4 f). split; [exact Hint |]. split; [exact Hst4 |]. intros q u Hq.
    destruct (Hsame q u Hq) as [[chq Hlq] Htab]. split; [exists chq; by apply layout_umem | exact Htab].
Qed.

Lemma with_fs_twice f g s : with_fs f (with_fs g s) = with_fs f s.
Proof. reflexivity. Qed.

(** The kernel is such a machine as long as the shell's stack is mapped; of its
    state [s0] only the file system and memory move. *)
Definition machine_state s0 s : Prop := StackReady (memory s) /\ exists f, s = with_fs f s0.

#[export] Instance system_machine_spec s0 : FileMachineSpec (System D) D PagedMemory.
Proof.
  refine {| machine_files := files_of; machine_ready := machine_state s0 |}.
  - intros c b s p v [Hst [g ->]] Hrep Hok.
    destruct (machine_call_run _ c b p v Hst Hrep Hok) as (f & Hrun & Hst' & Hrep' & Hk).
    exists (with_fs f (with_fs g s0)). split_and!; [| split; [exact Hst' | by exists f] | exact Hrep' | exact Hk].
    cbn [file_call system_machine]. by rewrite Hrun.
  - intros s p v nm i [Hst [g ->]] Hrep Hnm t Hfind Hattr Hc.
    destruct (machine_open_run _ p v nm i Hst Hrep Hnm) as (f & Hrun & Hst' & Hsame); try done.
    { apply for_find_Some in Hfind as (Hi & Heq & _). pose proof Hrep as [chs Hl].
      destruct (row_ok t i (layout_table Hcap _ _ _ _ Hl)) as (Hlen & Hby & _).
      apply mem_eq_full in Heq; [| done | done]. by rewrite <- Heq. }
    exists (with_fs f (with_fs g s0)). split_and!; [| split; [exact Hst' | by exists f] | exact Hsame].
    cbn [file_call system_machine]. by rewrite Hrun.
Defined.
End Machine.

(** ** A session of the shell as a process *)

Section Session.
Context {D T : Type} `{BlockDeviceSpec D} `{LayoutOk} `{PortMachine} `{Environment} `{Alu} `{UserFrame} `{UserStorageOk}.
Context `{RestLaws T} `{!ShellEnvironment} `{!ShellEnvironmentOk}.
Context (Hcap : CLUSTER_BLOCK_COUNT * CLUSTER_MAP_SIZE <= dev_blocks).

(** A session on the kernel, from the keys to the disk. *)
Lemma session_run retcodes lines more (s : System D) (t : T) v :
  StackReady (memory s) -> Represents (files_of s) ROOT_CLUSTER_NUMBER v -> volume_ok v ->
  entry_cluster (row (dir_table (files_of s) ROOT_CLUSTER_NUMBER) 0) = ROOT_CLUSTER_NUMBER ->
  opens (dir_table (files_of s) ROOT_CLUSTER_NUMBER) root_name 0 ->
  session_ok ROOT_CLUSTER_NUMBER v lines -> length retcodes = length lines ->
  rest_keys t = concat ((fun l => l ++ [10]) <$> lines) ++ more ->
  exists sh f, bind shell_start (fun _ => shell_rounds retcodes) (boot_shell (mkFsKernel s t)) = Ok (tt, sh) /\
    files (kern sh) = with_fs f s /\ StackReady (umem f) /\
    Represents f ROOT_CLUSTER_NUMBER (session ROOT_CLUSTER_NUMBER v lines) /\
    current_dir sh = dir_table f ROOT_CLUSTER_NUMBER /\ rest_keys (rest (kern sh)) = more.
Proof.
  intros Hst Hrep Hvol Hself Hroot Hok Hn Hkeys. pose (spec := system_machine_spec Hcap s).
  assert (Hready : machine_ready (FileMachineSpec := spec) s).
  { split; [exact Hst |]. exists (files_of s). by destruct s as [[] ? ? ? ? ?]. }
  destruct (shell_on_machine Hcap retcodes lines more s t v Hready Hrep Hvol Hself Hroot Hok Hn Hkeys)
    as (sh & Hrun & [Hst' [f Hf]] & Hrep' & Hdir & Hk).
  unfold state_of in *. cbn [spec system_machine_spec machine_files] in Hrep', Hdir. rewrite Hf in Hst', Hrep', Hdir.
  exists sh, f. by split_and!.
Qed.

End Session.
