(* ===== verification/WholeMachine.v ===== *)
(** WholeMachine: from the build to the end of a session - the inserter's image is
    the disk of the machine, the machine boots, and the shell works on it through the
    interrupt 0x30. *)

From Stdlib Require Import ZArith Lia.
From stdpp Require Import base tactics numbers strings list gmap fin_maps.
From S2P Require Import Prelude Memory CString Disk FatLayout Fat32 FatLogic FatChain FatWrite.
From S2P Require Import FatRead FatDelete FatInit FatVolume FatMount Inserter InserterSpec.
From S2P Require Import Paging PagingSpec Process Pic Scheduler SchedulerSpec ProcessSpec.
From S2P Require Import Terminal TerminalSpec Keyboard Descriptors Assembly System BootSpec InserterBoot SystemSpec.
From S2P Require Import Shell ShellParse ShellSpec ShellPath ShellFiles ShellFs UserCall ShellMachine.
Import Image.


(** The root directory's entry for itself, which the shell looks for. *)
Lemma root_opens_itself t : row t 0 = row new_root_dir 0 -> opens t root_name 0.
Proof. intros Hr. split; rewrite ?Hr; [done | by vm_compute | by vm_compute | lia]. Qed.

Section Install.
Context `{HostEnvironment}.
Implicit Types (h : Host) (v : Volume).

(** The files an insertion leaves are as [write] leaves them. *)
Lemma insertion_volume_ok h p v target number :
  insert_ok h p v target number -> volume_ok v -> vol_space v <= CLUSTER_MAP_SIZE ->
  let v' := (vol_step v (insertion h target number)).1.2 in
  volume_ok v' /\ vol_space v' <= CLUSTER_MAP_SIZE.
Proof.
  intros Hok [Hf] Hsp v'. subst v'. pose proof Hok as [_ _ _ Hsize Hby _ Hroom].
  set (content := target_bytes h target) in *. pose proof (zlen_nonneg content) as Hc.
  pose proof (filled_source buffer_junk content Hsize Hby) as Hsource.
  unfold insertion. fold content. cbn [vol_step call_request]. case_decide; [done |].
  destruct (vol_nodes v !! _); [done |].
  assert (Hbuf : buffer_size (insert_request target number (zlen content)) = zlen content)
    by (unfold insert_request, scan_name, scan_parent; unfold IMAGE_SIZE in Hsize; repeat case_match; cbn;
        apply u32_small; lia).
  unfold new_node. rewrite Hbuf. cbn [fst snd vol_space].
  destruct (Z.eqb_spec (zlen content) 0) as [Hz | Hz]; [split; [| lia] |].
  - split. intros nm sz bytes Hl. unfold node_at in Hl. cbn [vol_nodes] in Hl.
    apply lookup_insert_Some in Hl as [[_ Hl] | [_ Hl]]; [done | by apply (Hf nm)].
  - pose proof (clusters_for_bounds (zlen content) ltac:(lia)) as (Hk & _ & Hup).
    split; [| lia]. split. intros nm sz bytes Hl. unfold node_at in Hl. cbn [vol_nodes] in Hl.
    apply lookup_insert_Some in Hl as [[_ Hl] | [_ Hl]]; [| by apply (Hf nm)].
    injection Hl as <- <-. destruct (file_bytes_ok (zlen content) _ ltac:(lia) Hsource) as [? ?].
    split; [| done]. split; [lia |].
    change CLUSTER_SIZE with 2048 in *. change CLUSTER_MAP_SIZE with 512 in *. lia.
Qed.
Lemma insertions_volume_ok h storage p args : forall v,
  volume_ok v -> vol_space v <= CLUSTER_MAP_SIZE -> insertions_ok h storage p v args ->
  volume_ok (insertions h v args).
Proof.
  induction args as [| [target number] args IH]; intros v Hv Hsp; [done |]. intros (_ & Hok & Hrest).
  destruct (insertion_volume_ok h p v target number Hok Hv Hsp) as [Hv' Hsp']. by apply IH.
Qed.
End Install.

