(* ===== verification/AssemblyExample.v ===== *)
(** AssemblyExample: a process interrupted by the timer, and a kernel's page
    fault. *)

From Stdlib Require Import ZArith Lia.
From stdpp Require Import base tactics numbers list gmap.
From S2P Require Import Prelude Process Scheduler Descriptors Assembly.

#[export] Instance sample_alu : Alu.
Proof.
  refine {| alu_flags result f := if result =? 0 then Z.setbit f ZERO_FLAG else Z.clearbit f ZERO_FLAG |}.
  intros result f. destruct (result =? 0); [by apply Z.setbit_eq | by apply Z.clearbit_eq].
Defined.

(** In ring 3 at 0x40, in ring 0 at 0xC0101234. *)
Definition user_processor : Processor :=
  mkProcessor (mkCPU 1 2 3 0xBFFFFF00 5 6 7 8 0x23 0x23 0x23 0x23) 0x40 0x1B 0x202 0x23.
Definition kernel_at_work : Processor :=
  mkProcessor (mkCPU 1 2 3 0xC0200000 5 6 7 8 0x10 0x10 0x10 0x10) 0xC0101234 0x8 0x2 0x10.

Lemma interrupt_returns_witness :
  exists m, interrupted 0xC0110000 0 (Some 2) 14 (mkMachine kernel_at_work [9; 10]) =
      Ok (mkFrame (mkCPU 1 2 3 0xC01FFFDC 5 6 7 8 0x10 0x10 0x10 0x10) 14 2 0xC0101234 0x8 0x2, m) /\
    forall r f, return_from_handler (after_call r f m) = Ok (tt, mkMachine kernel_at_work [9; 10]).
Proof. by apply (interrupt_returns kernel_at_work 0xC0110000 0 (Some 2) 14 [9; 10]). Defined.

Lemma preempted_resumes_witness :
  exists frame m, interrupted 0xC0110200 0xC0200008 None 32 (mkMachine user_processor []) = Ok (frame, m) /\
    forall r ip code fl st w K', exists K'',
      switch_to_context (mkMachine (mkProcessor r ip code fl st) (w :: context_words (frame_context frame 0xC0300000) ++ K')) =
        Ok (tt, mkMachine user_processor K'').
Proof. by apply (preempted_resumes user_processor 0xC0110200 0xC0200008 32 [] 0xC0300000). Defined.

(** The same process after it cleared [ds]. *)
Lemma cleared_ds :
  exists frame m, interrupted 0xC0110200 0xC0200008 None 32
      (mkMachine (with_registers (put_reg R_DS 0 (registers user_processor)) user_processor) []) = Ok (frame, m) /\
    esp (f_cpu frame) = 0xC01FFFDC.
Proof. eexists _, _. split; [by apply interrupted_run | vm_compute; reflexivity]. Qed.
