(* ===== verification/DeviceExample.v ===== *)
(** DeviceExample: the theorems on the screen, the keyboard, the descriptor tables
    and the clock applied to concrete machines. *)

From Stdlib Require Import ZArith Lia.
From stdpp Require Import base tactics numbers strings list gmap.
From S2P Require Import Prelude Memory CString FatLayout Process Pic Terminal TerminalSpec Keyboard.
From S2P Require Import Descriptors Cmos.

(** ** The screen *)

Definition kernel_lo : Z := 0xC0000000.
Definition kernel_hi : Z := 0xC0400000.
Definition text_addr : Z := 0xC0001000.
Definition attr_addr : Z := 0xC0002000.
Definition cursor_addr : Z := 0xC0003000.
(** Printed from the 78th column of the first row on: it wraps. *)
Definition hello : list Z := str "moggers".
Definition console_memory : FlatMem :=
  let m := {| flat_lo := kernel_lo; flat_hi := kernel_hi; flat_cells := ∅ |} in
  match res_bind (store_bytes text_addr hello m) (fun m =>
        res_bind (store_bytes attr_addr (le_bytes 4 7 ++ le_bytes 4 0xF) m)
          (store_bytes cursor_addr (cursor_bytes 78))) with
  | Ok m' => m'
  | Fault _ => m
  end.

Lemma console_bounds : flat_lo console_memory = kernel_lo /\ flat_hi console_memory = kernel_hi.
Proof. by vm_compute. Qed.
Lemma console_mapped a n :
  kernel_lo <= a -> a + n <= kernel_hi -> mapped console_memory a n /\ separate console_memory a n.
Proof.
  unfold kernel_lo, kernel_hi. intros. destruct console_bounds as [Hlo Hhi]. unfold kernel_lo, kernel_hi in *.
  split; [apply flat_mapped | apply flat_separate]; lia.
Qed.
Lemma console_apart a n b k :
  kernel_lo <= a -> a + n <= kernel_hi -> kernel_lo <= b -> b + k <= kernel_hi ->
  a + n <= b \/ b + k <= a -> apart console_memory a n b k.
Proof.
  unfold kernel_lo, kernel_hi. intros ? ? ? ? Hd c (i & Hi & Hri) (j & Hj & Hrj).
  apply flat_resolve in Hri, Hrj. rewrite u32_small in Hri, Hrj by lia. lia.
Qed.
Lemma console_holds a bs n :
  zlen bs = n -> kernel_lo <= a -> a + n <= kernel_hi ->
  load_bytes (Z.to_nat n) a console_memory = Ok bs -> holds console_memory a bs.
Proof.
  intros Hn Hlo Hhi Hload. pose proof (zlen_nonneg bs).
  apply (load_bytes_inv (Z.to_nat n) a console_memory bs Hload).
  rewrite Z2Nat.id by lia. by apply console_mapped.
Qed.

Lemma console_ready : Console console_memory text_addr attr_addr cursor_addr hello 0xF 78.
Proof.
  split.
  - apply (console_holds _ _ 7); [done | done | done | by vm_compute].
  - by repeat constructor.
  - apply (console_holds _ _ 8); [done | done | done | by vm_compute].
  - done.
  - apply (console_holds _ _ 8); [done | done | done | by vm_compute].
  - by apply console_mapped.
  - by apply console_mapped.
  - by apply console_mapped.
  - apply console_apart; try done. by right.
  - apply console_apart; try done. by right.
  - apply console_apart; try done. by right.
  - apply console_apart; try done. by right.
  - apply console_apart; try done. by right.
Qed.

Lemma puts_spec_witness :
  exists m', puts text_addr attr_addr cursor_addr console_memory = Ok (0, m') /\
    holds m' (cell_addr 78) (text_cells 0xF hello) /\ holds m' cursor_addr (le_bytes 4 1 ++ le_bytes 4 5).
Proof.
  destruct (puts_spec console_memory text_addr attr_addr cursor_addr hello 0xF 78 console_ready)
    as (m' & Hrun & Hcells & Hcur & _); [done | done |].
  exists m'. split; [exact Hrun |]. split; [exact Hcells | exact Hcur].
Defined.

(** ** The ports

    A machine with a display controller, a keyboard that has sent 'a' and a clock,
    as the log of writes leaves them. *)

(** Clock registers: 05:30:00 on 10 December 2023, UTC. *)
Definition sample_clock (r : Z) : Z :=
  if decide (r = 0x02) then 0x30 else if decide (r = 0x04) then 0x05
  else if decide (r = 0x07) then 0x10 else if decide (r = 0x08) then 0x12
  else if decide (r = 0x09) then 0x23 else if decide (r = 0x0A) then 0x26
  else if decide (r = 0x0B) then 0x02 else 0.
#[export] Instance device_ports : PortMachine := {|
  port_in log port :=
    if decide (port = CURSOR_PORT_DATA) then
      match crtc_index log with Some i => default 0 (crtc_register i log) | None => 0 end
    else if decide (port = CMOS_DATA) then
      match cmos_index log with Some r => sample_clock r | None => 0 end
    else if decide (port = KEYBOARD_DATA_PORT) then 0x1E
    else 0
|}.
#[export] Instance device_crtc : CrtcMachine.
Proof. split. intros log i v _ Hi Hv. cbn. by rewrite Hi, Hv. Qed.
#[export] Instance device_clock : StableClock sample_clock.
Proof.
  split.
  - intros log r Hr. cbn. by rewrite Hr.
  - intros r. unfold sample_clock, is_byte. repeat case_decide; lia.
Qed.

(** A state of ports and a keyboard driver. *)
Definition device : Type := list (Z * Z) * KeyboardDriverState.
#[export] Instance device_port_state : PortState device := {| ports s := s.1; set_ports l s := (l, s.2) |}.
#[export] Instance device_port_laws : PortStateLaws device.
Proof. split; [done | done |]. by intros []. Qed.
#[export] Instance device_keyboard : KeyboardState device := {| keyboard s := s.2; set_keyboard k s := (s.1, k) |}.
#[export] Instance device_keyboard_laws : KeyboardStateLaws device.
Proof. by split. Qed.

Lemma cursor_roundtrip_witness :
  exists s1 s2 : device, framebuffer_set_cursor 24 79 ([], boot_keyboard) = Ok (tt, s1) /\
    framebuffer_get_cursor_position s1 = Ok (1999, s2).
Proof. apply (cursor_roundtrip (S := device) ([], boot_keyboard) 24 79); lia. Defined.

Lemma keyboard_isr_spec_witness :
  exists s' : device, keyboard_isr ([], set_input true boot_keyboard) = Ok (tt, s') /\
    Some (keyboard_buffer (keyboard s')) = Some 97.
Proof.
  destruct (keyboard_isr_spec (S := device) ([], set_input true boot_keyboard))
    as (s' & Hrun & _ & _ & _ & Hon).
  exists s'. split; [exact Hrun |]. destruct (Hon eq_refl) as [Hc _]. rewrite <- Hc. by vm_compute.
Defined.

Lemma read_rtc_spec_witness :
  exists s' : device, read_time 10 10 ([], boot_keyboard) = Ok (mkTime 0 30 12 11 12 2023, s').
Proof.
  apply (read_rtc_spec (W := device) (clock := sample_clock) 10 10 (mkTime 0 30 5 10 12 2023)).
  split; vm_compute; intuition (discriminate || reflexivity).
Defined.

(** ** The descriptor tables *)

Lemma gdt_spec_witness :
  segment_base (selected (gdt_install_tss 0xC0109020 global_descriptor_table) GDT_TSS_SELECTOR) = 0xC0109020.
Proof.
  destruct (gdt_spec 0xC0109020 0 0 zero_context) as (_ & _ & _ & _ & _ & _ & _ & _ & Hb & _); [lia |].
  exact Hb.
Defined.
