(* ===== verification/SystemExample.v ===== *)
(** SystemExample: the theorems on paging, the interrupt controllers, the
    scheduler and the process table applied to concrete states - a kernel that has
    booted from the disk image with a file on it. *)

From Stdlib Require Import ZArith Lia.
From stdpp Require Import base tactics numbers strings list gmap.
From S2P Require Import Prelude Memory CString Disk FatLayout Fat32 FatLogic FatChain FatWrite.
From S2P Require Import FatRead FatInit FatExample Paging PagingSpec Process Pic Scheduler.
From S2P Require Import SchedulerSpec ProcessSpec.
Import Image.

(** Whether an operation ends; its state is then [exec]'s. *)
Definition ends {S A : Type} (c : Eff S A) (s : S) : bool :=
  match c s with
  | Ok _ => true
  | Fault _ => false
  end.
Lemma exec_ends {S A : Type} (c : Eff S A) (s : S) : ends c s = true -> exists a, c s = Ok (a, exec c s).
Proof. unfold ends, exec. destruct (c s) as [[a s'] |]; [| done]. by exists a. Qed.

(** ** Paging *)

#[export] Instance sample_layout : Layout := {|
  kernel_directory_addr := 0xC0104000;
  page_directory_list_addr := 0xC0105000
|}.
#[export] Instance sample_layout_ok : LayoutOk.
Proof. split; vm_compute; intuition discriminate. Qed.

(** [kernel_setup] maps the first 4 MiB of the kernel's own directory; then one
    process's space is set up. *)
Definition booted : Paging := exec (paging_allocate_user_page_frame kernel_directory_addr 0) boot_paging.
Definition with_space : Paging := exec paging_create_new_page_directory booted.
Definition with_page : Paging := exec (paging_allocate_user_page_frame (directory_addr 0) 0) with_space.

Lemma booted_reached : rtc paging_step boot_paging booted.
Proof.
  destruct (exec_ends (paging_allocate_user_page_frame kernel_directory_addr 0) boot_paging)
    as [a Ha]; [by vm_compute |].
  eapply rtc_once, (step_allocate boot_paging KernelDir 0 a); [done | done | done | exact Ha].
Qed.
Lemma with_space_reached : rtc paging_step boot_paging with_space.
Proof.
  eapply rtc_r; [apply booted_reached |].
  destruct (exec_ends paging_create_new_page_directory booted) as [a Ha]; [by vm_compute |].
  eapply step_create, Ha.
Qed.
Lemma with_space_used : in_use with_space (ListDir 0).
Proof. by vm_compute. Qed.
Lemma with_page_reached : rtc paging_step boot_paging with_page.
Proof.
  eapply rtc_r; [apply with_space_reached |].
  destruct (exec_ends (paging_allocate_user_page_frame (directory_addr 0) 0) with_space)
    as [a Ha]; [by vm_compute |].
  eapply (step_allocate with_space (ListDir 0) 0 a); [done | apply with_space_used | done | exact Ha].
Qed.
Lemma with_page_used : in_use with_page (ListDir 0).
Proof. by vm_compute. Qed.
Lemma with_page_maps : maps with_page (ListDir 0) (page_index 0).
Proof. split; [done |]. split; [done |]. split; [done |]. by vm_compute. Qed.
Lemma with_page_entry : pd_entry with_page (ListDir 0) 0 = set_mapping user_flag 1 zero_entry.
Proof. by vm_compute. Qed.
Lemma booted_inv : PagingInv booted.
Proof. apply reachable_inv, booted_reached. Qed.
Lemma with_space_inv : PagingInv with_space.
Proof. apply reachable_inv, with_space_reached. Qed.
Lemma with_page_inv : PagingInv with_page.
Proof. apply reachable_inv, with_page_reached. Qed.
Lemma with_page_frames : page_frame_map with_page = [true; true] ++ zrep 30 false.
Proof. by vm_compute. Qed.
Lemma with_space_frames : page_frame_map with_space = [true] ++ zrep 31 false.
Proof. by vm_compute. Qed.
Lemma with_page_dirs : page_directory_used with_page = [true] ++ zrep 31 false.
Proof. by vm_compute. Qed.
Lemma booted_active : active booted KernelDir.
Proof. split; [done |]. by vm_compute. Qed.
Lemma booted_frames : page_frame_map booted = [true] ++ zrep 31 false.
Proof. by vm_compute. Qed.
Lemma booted_count : free_page_frame_count booted = 31.
Proof. by vm_compute. Qed.
Lemma booted_unused : unused_directory booted = Some 0.
Proof. by vm_compute. Qed.
#[global] Opaque booted with_space with_page.



Lemma free_page_spec_witness :
  exists s', paging_free_user_page_frame zero_flag (directory_addr 0) 0 with_page = Ok (true, s') /\
    PagingInv s' /\ page_frame_map s' = [true; false] ++ zrep 30 false /\
    ~ maps s' (ListDir 0) 0.
Proof.
  destruct (free_page_spec with_page zero_flag (ListDir 0) 0 with_page_inv with_page_maps with_page_used eq_refl)
    as (s' & Hrun & Hinv & Hm & _ & Hn & _).
  exists s'. split; [exact Hrun |]. split; [exact Hinv |]. split; [| exact Hn].
  change (page_index 0) with 0 in Hm. rewrite with_page_frames, with_page_entry in Hm. exact Hm.
Defined.

(** The local variable may hold the flag of the entry before. *)
Lemma free_page_uninitialised_flag_witness :
  exists s' d', paging_free_user_page_frame user_flag (directory_addr 0) 16 with_page = Ok (true, s') /\
    directory s' (ListDir 0) = Some d' /\ translate_in d' 16 = Some (u32 16 mod PAGE_FRAME_SIZE).
Proof.
  apply (free_page_uninitialised_flag with_page user_flag (ListDir 0) 16 with_page_inv);
    [exact with_page_maps | reflexivity | reflexivity].
Defined.

Lemma create_directory_spec_witness :
  exists s', paging_create_new_page_directory with_page = Ok (directory_addr 1, s') /\
    PagingInv s' /\ (forall j, ~ maps s' (ListDir 1) j).
Proof.
  pose proof (create_directory_spec with_page with_page_inv) as Hs. rewrite with_page_dirs in Hs.
  replace (for_find _ _ _) with (Some 1) in Hs by by vm_compute.
  destruct Hs as (s' & Hrun & Hinv & _ & _ & Hm & _).
  exists s'. split; [exact Hrun |]. split; [exact Hinv | exact Hm].
Defined.

Lemma free_directory_spec_witness :
  exists s', paging_free_page_directory (directory_addr 0) with_page = Ok (false, s') /\
    PagingInv s' /\ directory s' (ListDir 0) = Some zero_directory /\
    page_frame_map s' = [true; true] ++ zrep 30 false.
Proof.
  destruct (free_directory_spec with_page 0 with_page_inv ltac:(done))
    as (s' & Hrun & Hinv & _ & Hd & _ & Hm & _).
  exists s'. split; [exact Hrun |]. split; [exact Hinv |]. split; [exact Hd |].
  by rewrite Hm, with_page_frames.
Defined.

Lemma allocate_check_spec_witness : exists b, paging_allocate_check 30 with_page = Ok (b, with_page) /\ b = true.
Proof.
  destruct (allocate_check_spec with_page 30 with_page_inv) as (b & Hrun & Hb).
  exists b. split; [exact Hrun |]. apply Hb. rewrite with_page_frames. by vm_compute.
Defined.

(** The kernel's directory with a cached translation of its first page. *)
Definition with_cache : Paging := set_tlb {[ 0 := pd_entry booted KernelDir 0 ]} booted.
Lemma with_cache_entry r i : pd_entry with_cache r i = pd_entry booted r i.
Proof. unfold pd_entry, with_cache. by rewrite directory_set_tlb. Qed.
Lemma update_keeps_tlb_witness :
  exists s', update_page_directory_entry kernel_directory_addr PAGE_FRAME_SIZE 0 user_flag with_cache =
    Ok (tt, s') /\ tlb_coherent s'.
Proof.
  assert (Htab : PagingSpec.tables_ok with_cache).
  { intros r Hr. unfold with_cache. rewrite directory_set_tlb. by apply (pi_table _ booted_inv). }
  destruct (Htab KernelDir) as (d & Hd & _); [done |].
  eexists. split; [by apply (update_run with_cache KernelDir d) |].
  eapply (update_keeps_tlb with_cache KernelDir); [exact Htab | done | | by apply (update_run with_cache KernelDir d)].
  intros i e r Hi Ha. change (({[ 0 := pd_entry booted KernelDir 0 ]} : gmap Z PageDirectoryEntry) !! i = Some e) in Hi.
  apply lookup_singleton_Some in Hi as [<- <-]. rewrite with_cache_entry.
  change (active_directory with_cache) with (active_directory booted) in Ha.
  rewrite (active_directory_of _ _ booted_active) in Ha. by apply (inj Some) in Ha as <-.
Defined.

(** ** The interrupt controllers *)

(** A machine whose mask registers read back, with controllers as reset leaves
    them. *)
Definition reset_pic : Pic8259 := mkPic AwaitOffset 0 0 0.
#[export] Instance sample_ports : PortMachine := {|
  port_in log port :=
    if decide (port = PIC1_DATA) then mask (master_after reset_pic log)
    else if decide (port = PIC2_DATA) then mask (slave_after reset_pic log)
    else 0
|}.
#[export] Instance sample_machine : PicMachine reset_pic reset_pic.
Proof. by split. Qed.

#[export] Instance log_state : PortState (list (Z * Z)) := {| ports l := l; set_ports l _ := l |}.
#[export] Instance log_state_laws : PortStateLaws (list (Z * Z)).
Proof. by split. Qed.

Lemma pic_setup_spec_witness :
  exists s1 s2 s3 : list (Z * Z), pic_remap [] = Ok (tt, s1) /\ activate_keyboard_interrupt s1 = Ok (tt, s2) /\
    activate_timer_interrupt s2 = Ok (tt, s3) /\
    master_after reset_pic s3 = mkPic Ready 0x20 4 0xFC.
Proof.
  destruct (pic_setup_spec (S := list (Z * Z)) (p1 := reset_pic) (p2 := reset_pic) [])
    as (s1 & s2 & s3 & H1 & H2 & H3 & _ & _ & _ & _ & Hm & _).
  exists s1, s2, s3. split; [exact H1 |]. split; [exact H2 |]. split; [exact H3 | exact Hm].
Defined.

(** ** The scheduler *)

(** Three processes, the first of them running. *)
Definition sample_pcb (i : Z) (st : PROCESS_STATE) : ProcessControlBlock :=
  mkPCB i st (zrep 10 0) (mkContext zero_cpu (i * 64) 0x1B 0x202 USER_STACK 0x23 (directory_addr i))
    (zrep 8 0) 2.
Definition three_processes : list ProcessControlBlock :=
  [sample_pcb 0 PROCESS_RUNNING; sample_pcb 1 PROCESS_READY; sample_pcb 2 PROCESS_READY] ++ zrep 13 zero_pcb.
Definition kernel_of (f : FS FlatMem PagedMemory) (l : list ProcessControlBlock) (n cur next : Z) :=
  mkKernel f l (zrep n true ++ zrep (16 - n) false) n cur next [] None.
Definition idle_fs : FS FlatMem PagedMemory := mkFS blank_image boot_driver_state (mkPaged booted ∅) [].
Definition scheduled : Kernel FlatMem := kernel_of idle_fs three_processes 3 0 1.
Definition sample_frame : InterruptFrame :=
  mkFrame (mkCPU 1 2 3 4 5 6 7 8 0x23 0x23 0x23 0x23) 0x20 0 0x1234 0x1B 0x202.

Lemma used_cases i : (zrep 3 true ++ zrep 13 false).[i] = Some true -> i = 0 \/ i = 1 \/ i = 2.
Proof.
  intros Hi. pose proof (zget_range _ _ _ Hi) as Hr. change (zlen _) with 16 in Hr.
  assert (i = 0 \/ i = 1 \/ i = 2 \/ 3 <= i) as [-> | [-> | [-> | ?]]] by lia; [tauto.. |].
  rewrite zget_app_r in Hi by (change (zlen _) with 3; lia). change (zlen (zrep 3 true)) with 3 in Hi.
  rewrite zget_zrep in Hi by lia. done.
Qed.
Lemma scheduled_ok : SchedInv scheduled.
Proof.
  split; [by repeat split | done | done | | by vm_compute].
  intros i Hi. destruct (used_cases i Hi) as [-> | [-> | ->]]; reflexivity.
Qed.



Lemma first_switch_spec_witness :
  exists k', scheduler_switch_to_next_process (kernel_of idle_fs (sample_pcb 0 PROCESS_READY :: zrep 15 zero_pcb) 1 0 0) =
    Ok (tt, k') /\ SchedInv k' /\ current_process_idx k' = 0.
Proof.
  apply first_switch_spec. split; [by repeat split | done | done |].
  intros i Hi Hne. exfalso. pose proof (zget_range _ _ _ Hi) as Hr. change (zlen _) with 16 in Hr.
  change (current_process_idx _) with 0 in Hne. cbn [kernel_of process_used] in Hi.
  change (zrep 1 true ++ zrep (16 - 1) false) with ([true] ++ zrep 15 false) in Hi.
  rewrite zget_app_r in Hi by (change (zlen [true]) with 1; lia).
  change (zlen [true]) with 1 in Hi. rewrite zget_zrep in Hi by lia. done.
Defined.

(** Sixteen processes, the one in slot 14 running. *)
Lemma last_slot_overrun_witness :
  scheduler_switch_to_next_process
    (kernel_of idle_fs ((fun i => sample_pcb i PROCESS_READY) <$> seqZ 0 16) 16 14 15) = Fault BadAccess.
Proof. apply last_slot_overrun; [by repeat split | reflexivity]. Defined.

(** Process 1 was destroyed after it was chosen. *)
Lemma stale_choice_witness :
  exists k', scheduler_switch_to_next_process
      (kernel_of idle_fs (three_processes.[1 := zero_pcb]) 3 0 1) = Ok (tt, k') /\
    cpu_context k' = Some zero_context /\ cr3 (k_paging k') = 0.
Proof. apply stale_choice; [by repeat split | by cbn | discriminate | reflexivity]. Defined.

(** ** Processes *)

(** A disk and its driver in a kernel with other memory. *)
Definition moved (st : FS FlatMem FlatMem) (m : PagedMemory) : FS FlatMem PagedMemory :=
  mkFS (disk st) (driver_state st) m [].
Lemma moved_inv st m : FSInv st -> FSInv (moved st m).
Proof. intros [? ? ? ?]. by split. Qed.
Lemma moved_table st m c : dir_table (moved st m) c = dir_table st c.
Proof. done. Qed.
Lemma moved_fat st m : fat_of (moved st m) = fat_of st.
Proof. done. Qed.

(** The kernel after start-up, with the disk that holds one file. *)
Definition installed : FS FlatMem PagedMemory := moved written (mkPaged booted ∅).
Definition boot_kernel : Kernel FlatMem :=
  mkKernel installed (zrep 16 zero_pcb) (zrep 16 false) 0 0 0 [] None.
(** The request the kernel makes for its shell, for that file. *)
Definition program_request : FAT32DriverRequest := mkRequest 0 file_name (str "txt") 2 0x100000.
Definition missing_request : FAT32DriverRequest := mkRequest 0 file_name (str "bin") 2 0x100000.

Lemma installed_inv : FSInv installed.
Proof. destruct written_ok as [Hw _]. apply moved_inv, (fw_inv _ _ _ _ _ _ Hw). Qed.
Lemma installed_root : dir_table installed 2 = new_root_dir.[2 := file_entry write_request 3].
Proof. unfold installed. rewrite moved_table. exact written_root. Qed.
Lemma installed_fat : fat_of installed = fat_of written.
Proof. apply moved_fat. Qed.
#[global] Opaque installed.
Lemma boot_kernel_inv : KernelInv boot_kernel.
Proof.
  split.
  - exact installed_inv.
  - exact booted_inv.
  - exists KernelDir. exact booted_active.
  - reflexivity.
  - reflexivity.
  - intros i p Hp. cbn [boot_kernel process_list] in Hp. pose proof (zget_range _ _ _ Hp) as Hr.
    rewrite zlen_zrep in Hr by lia. rewrite zget_zrep in Hp by lia. by apply (inj Some) in Hp as <-.
Qed.
Lemma boot_kernel_table : TableOk boot_kernel.
Proof.
  split; intros i p Hp Hu; cbn [boot_kernel process_list process_used] in *;
    pose proof (zget_range _ _ _ Hp) as Hr; rewrite zlen_zrep in Hr by lia;
    rewrite zget_zrep in Hp by lia; rewrite zget_zrep in Hu by lia; [congruence |]. by apply (inj Some) in Hp as <-.
Qed.
Lemma boot_kernel_ready cs rq :
  zlen cs = 2 -> rq = program_request \/ rq = missing_request -> CreateReady boot_kernel rq 0 0 cs.
Proof.
  intros Hcs Hrq. assert (Hb : buf rq = 0 /\ buffer_size rq = 0x100000) by (by destruct Hrq as [-> | ->]).
  destruct Hb as [Hb Hs].
  split; rewrite ?Hb, ?Hs, ?Hcs.
  - exact boot_kernel_inv.
  - done.
  - done.
  - exact booted_unused.
  - done.
  - done.
  - done.
  - change (free_page_frame_count (k_paging boot_kernel)) with (free_page_frame_count booted).
    rewrite booted_count. done.
  - done.
Qed.
Lemma installed_program : Program installed program_request 2 [3; 4].
Proof.
  destruct written_ok as [_ Hch].
  split; change (parent_cluster_number program_request) with 2; rewrite ?installed_root, ?installed_fat;
    [by vm_compute.. | exact Hch].
Qed.

Lemma create_process_spec_witness :
  exists f0 f1 k', process_create_user_process program_request boot_kernel = Ok (PROCESS_CREATE_SUCCESS, k') /\
    ProcessCreated boot_kernel program_request 0 0 [3; 4] f0 f1 k'.
Proof.
  apply (create_process_spec image_capacity boot_kernel program_request 0 0 2 [3; 4]);
    [apply boot_kernel_ready; [reflexivity | by left] | exact installed_program].
Defined.

Lemma create_refused_spec_witness :
  process_create_user_process (mkRequest 0xC0000000 file_name (str "txt") 2 2048) boot_kernel =
    Ok (PROCESS_CREATE_FAIL_INVALID_ENTRYPOINT, boot_kernel).
Proof. apply create_refused_spec. by vm_compute. Defined.

Lemma create_read_failure_witness :
  exists f0 f1 p k', process_create_user_process missing_request boot_kernel =
      Ok (PROCESS_CREATE_FAIL_FS_READ_FAILURE, k') /\
    (process_list boot_kernel).[0] = Some p /\
    process_list k' = (process_list boot_kernel).[0 := filled_pcb missing_request 0 f0 f1 p] /\
    page_directory_virtual_addr (context (filled_pcb missing_request 0 f0 f1 p)) =
      page_directory_virtual_addr (context p) /\
    process_used k' = (process_used boot_kernel).[0 := true] /\
    active_process_count k' = active_process_count boot_kernel + 1 /\
    free_page_frame_count (k_paging k') = free_page_frame_count (k_paging boot_kernel) - 2 /\
    in_use (k_paging k') (ListDir 0) /\ active (k_paging k') (ListDir 0).
Proof.
  apply (create_read_failure image_capacity boot_kernel missing_request 0 0 [3; 4] 2);
    [apply boot_kernel_ready; [reflexivity | by right] | by vm_compute |].
  change (parent_cluster_number missing_request) with 2.
  change (fsys boot_kernel) with installed. rewrite installed_root. by vm_compute.
Defined.

Lemma create_then_destroy_witness :
  exists k1 k2 f1, process_create_user_process program_request boot_kernel = Ok (PROCESS_CREATE_SUCCESS, k1) /\
    process_destroy (fun _ => zero_flag) 0 k1 = Ok (true, k2) /\
    process_list k2 = process_list boot_kernel /\ process_used k2 = process_used boot_kernel /\
    active_process_count k2 = active_process_count boot_kernel /\
    (page_frame_map (k_paging k2)).[0] = Some false /\
    find_free_frame (page_frame_map (k_paging k2)) = Some 0 /\
    (page_frame_map (k_paging boot_kernel)).[f1] = Some false /\
    (page_frame_map (k_paging k2)).[f1] = Some true.
Proof.
  apply (create_then_destroy image_capacity boot_kernel program_request 0 0 2 [3; 4]);
    [apply boot_kernel_ready; [reflexivity | by left] | exact installed_program | exact boot_kernel_table |].
  change (k_paging boot_kernel) with booted. by rewrite booted_frames.
Defined.
