(* ===== verification/BootExample.v ===== *)
(** BootExample: the start-up theorem applied to a disk image with a shell on
    it, and the [ps] lines of concrete processes. *)

From Stdlib Require Import ZArith Lia.
From stdpp Require Import base tactics numbers strings list gmap.
From S2P Require Import Prelude Memory CString Disk FatLayout Fat32 FatLogic FatChain FatWrite.
From S2P Require Import FatRead FatInit FatExample Paging PagingSpec Process Pic Scheduler.
From S2P Require Import SchedulerSpec ProcessSpec SystemExample.
From S2P Require Import Terminal Keyboard Descriptors System BootSpec FatVolume VolumeExample SystemSpec.
Import Image.

#[export] Instance sample_environment : Environment := {|
  env_junk _ := zero_flag;
  env_no_return := 0;
  env_tss := 0xC0106000;
  env_isr_stub_table n := 0xC0110000 + 16 * n;
  env_ebp := 0xC0200000;
  env_buff := 0xC0200100;
  env_attr := 0xC0200200;
  env_waits := 10;
  env_turns := 10
|}.

(** The inserter's image with a shell of 3000 bytes. *)
Definition insert_shell : FAT32DriverRequest := mkRequest 4096 (str "shell" ++ zrep 3 0) (zrep 3 0) 2 3000.
Definition with_shell : FS FlatMem FlatMem := exec (write insert_shell) formatted.
Lemma with_shell_ok :
  FileWritten formatted insert_shell 2 [3; 4] (ztake 3000 sample_bytes) with_shell /\
  chain (fat_of with_shell) 3 [3; 4].
Proof.
  destruct (write_file_written image_capacity formatted insert_shell 2
              (ztake 3000 sample_bytes) [3; 4]) as (st' & Hrun & Hw);
    [apply formatted_ready; [by apply sample_request_ok | done | by vm_compute] | done
    | by apply sample_source | apply sample_holds | apply sample_clusters | done |].
  unfold with_shell. by rewrite (exec_ok _ _ _ _ Hrun).
Qed.
#[global] Opaque with_shell.

Lemma with_shell_root : dir_table with_shell 2 = new_root_dir.[2 := file_entry insert_shell 3].
Proof.
  destruct with_shell_ok as [Hw _]. pose proof (fw_dir _ _ _ _ _ _ Hw) as Hd.
  change (parent_cluster_number insert_shell) with ROOT_CLUSTER_NUMBER in Hd.
  rewrite (fm_root _ _ formatted_ok) in Hd. exact Hd.
Qed.
Lemma with_shell_stored : stored_fat with_shell = fat_of with_shell.
Proof.
  destruct with_shell_ok as [Hw _]. pose proof (fw_inv _ _ _ _ _ _ Hw) as Hinv.
  unfold stored_fat. rewrite (inv_coherent _ Hinv). apply decode_encode_words, (inv_fat _ Hinv).
Qed.

Lemma with_shell_disk (f : FS FlatMem PagedMemory) :
  disk f = disk with_shell -> ShellDisk f 2 [3; 4].
Proof.
  intros Hd. destruct with_shell_ok as [Hw Hch]. pose proof (fw_inv _ _ _ _ _ _ Hw) as Hinv.
  assert (Hst : stored_fat f = fat_of with_shell) by (unfold stored_fat; rewrite Hd; exact with_shell_stored).
  assert (Hroot : dir_table f ROOT_CLUSTER_NUMBER = new_root_dir.[2 := file_entry insert_shell 3])
    by (unfold dir_table; rewrite Hd; exact with_shell_root).
  split; rewrite ?Hst, ?Hroot.
  - rewrite Hd. exact (inv_dev _ Hinv).
  - unfold has_signature. rewrite Hd, (fw_frame _ _ _ _ _ _ Hw).
    + exact (fm_signature _ _ formatted_ok).
    + split; [discriminate | reflexivity].
    + discriminate.
    + discriminate.
    + rewrite list_elem_of_In. intros [Hc | [Hc | []]]; discriminate Hc.
  - exact (inv_reserved _ Hinv).
  - vm_compute. reflexivity.
  - vm_compute. reflexivity.
  - vm_compute. discriminate.
  - vm_compute. discriminate.
  - exact Hch.
  - vm_compute. discriminate.
Qed.

Lemma boot_spec_witness :
  exists s', kernel_setup (boot_system (disk with_shell) ∅) = Ok (tt, s') /\ SchedInv (kernel s') /\
    current_process_idx (kernel s') = 0 /\
    active (k_paging (kernel s')) (ListDir 0) /\
    cpu_context (kernel s') = Some (initial_context 0 (directory_addr 0) zero_context) /\
    (forall o b, (chain_bytes (cluster (disk with_shell)) [3; 4]).[o] = Some b ->
       load8 o (umem (fsys (kernel s'))) = Ok b) /\
    gdt s' = gdt_install_tss env_tss global_descriptor_table /\
    idt s' = initialize_idt env_isr_stub_table interrupt_descriptor_table /\
    master_after reset_pic (ports s') = mkPic Ready 0x20 4 0xFC /\
    slave_after reset_pic (ports s') = mkPic Ready 0x28 2 0xFF /\ halted s' = false.
Proof. apply (boot_spec image_capacity (disk with_shell) ∅ 2 [3; 4]). apply with_shell_disk. reflexivity. Defined.

(** ** A system call *)

(** A process asks for a directory: its request is at 0x1000, the code goes to
    0x2000. *)
Definition mkdir_memory : PagedMemory :=
  match store_bytes 0x1000 (encode_request folder_request) (mkPaged booted ∅) with
  | Ok m => m
  | Fault _ => mkPaged booted ∅
  end.
Definition mkdir_system : System FlatMem :=
  mkSystem (boot_kernel_state (moved formatted mkdir_memory)) boot_keyboard global_descriptor_table
    interrupt_descriptor_table 0 false.
Definition mkdir_frame : InterruptFrame :=
  mkFrame (mkCPU 0 0 0 0 0x1000 0 0x2000 2 0 0 0 0) 0x30 0 0 0x1B 0x202.

Lemma moved_represents (st : FS FlatMem FlatMem) (m : PagedMemory) p v :
  Represents st p v -> Represents (moved st m) p v.
Proof. intros [chs []]. exists chs. split; try done. by apply moved_inv. Qed.

Lemma mapped_check (m : PagedMemory) a n :
  forallb (fun i => bool_decide (is_Some (mem_resolve m (u32 (a + i))))) (seqZ 0 n) = true -> mapped m a n.
Proof.
  intros Hall i Hi. rewrite forallb_forall in Hall. specialize (Hall i).
  eapply bool_decide_eq_true_1, Hall, list_elem_of_In, elem_of_seqZ. lia.
Qed.
Lemma mkdir_holds : holds mkdir_memory 0x1000 (encode_request folder_request).
Proof.
  apply (load_bytes_inv 23).
  - apply (bool_decide_eq_true_1 (load_bytes 23 0x1000 mkdir_memory = Ok (encode_request folder_request))).
    vm_compute. reflexivity.
  - apply mapped_check. vm_compute. reflexivity.
Qed.
Lemma mkdir_result : is_Some (mem_resolve mkdir_memory (u32 0x2000)).
Proof.
  apply (bool_decide_eq_true_1 (is_Some (mem_resolve mkdir_memory (u32 0x2000)))). vm_compute. reflexivity.
Qed.
Lemma mkdir_ok : call_ok mkdir_memory ROOT_CLUSTER_NUMBER fresh_volume (CallWrite folder_request []).
Proof.
  split.
  - exact folder_request_ok.
  - reflexivity.
  - by apply (bool_decide_eq_false_1 (req_name folder_request = zrep 8 0)).
  - apply (bool_decide_eq_false_1 (request_key folder_request ∈ vol_shadow fresh_volume)). by vm_compute.
  - split; [| discriminate]. intros _. split; [reflexivity | discriminate].
Qed.


(** ** ps *)

(** Process 12, "clock". *)
Definition clock_pcb (n : Z) : ProcessControlBlock :=
  mkPCB n PROCESS_READY (str "clock" ++ zrep 5 0) zero_context (zrep 8 0) 2.

Lemma process_line_spec_witness :
  exists d k, 0 <= k /\ 0 <= d <= 9 /\ (d = 0 -> pid (clock_pcb 12) = 0) /\
    d * 10 ^ k <= pid (clock_pcb 12) < (d + 1) * 10 ^ k /\
    process_line (clock_pcb 12) =
      [32; 32; 32; 48 + d; 32] ++ (blank <$> (str "clock" ++ zrep 3 0)) ++ state_text PROCESS_READY.
Proof. by apply (process_line_spec (clock_pcb 12)). Defined.
Lemma look_alike : process_line (clock_pcb 12) = process_line (clock_pcb 1).
Proof. reflexivity. Qed.
