(* ===== verification/InserterExample.v ===== *)
(** InserterExample: the makefile's insert-shell on a blank image, with a shell of
    3000 bytes; restarts of the sample volume. *)

From Stdlib Require Import ZArith Lia.
From stdpp Require Import base tactics numbers strings list gmap fin_maps.
From S2P Require Import Prelude Memory CString Disk FatLayout Fat32 FatLogic FatChain FatWrite.
From S2P Require Import FatRead FatDelete FatInit FatVolume FatMount FatExample VolumeExample.
From S2P Require Import Inserter InserterSpec.
From S2P Require Import Paging PagingSpec Process Pic Scheduler SchedulerSpec ProcessSpec.
From S2P Require Import Terminal TerminalSpec Keyboard Descriptors System BootSpec InserterBoot.
From S2P Require Import SystemExample BootExample.
Import Image.

#[export] Instance sample_host_environment : HostEnvironment := {|
  image_junk := ∅;
  buffer_junk := {[ 3001 := 77 ]}
|}.

Definition storage_path : Path := str "storage.bin".
Definition shell_file : list Z := ztake 3000 sample_bytes.
(** [qemu-img create] makes an image of zeros. *)
Definition new_image : list Z := zrep IMAGE_SIZE 0.
Definition build_host : Host := mkHost {[ storage_path := new_image; str "shell" := shell_file ]} [] [].

Lemma new_image_file : image_file new_image.
Proof. split; [by apply zlen_zrep | by apply Forall_zrep]. Qed.
Lemma new_image_unsigned : ztake BLOCK_SIZE new_image <> fs_signature.
Proof.
  intros Heq. assert (H0 : (ztake BLOCK_SIZE new_image).[0] = Some 0).
  { rewrite zget_ztake by done. by apply zget_zrep. }
  by rewrite Heq in H0.
Qed.
Lemma build_storage : files build_host !! storage_path = Some new_image.
Proof. apply lookup_insert_eq. Qed.
Lemma build_shell : target_bytes build_host (str "shell") = shell_file.
Proof.
  unfold target_bytes, build_host. cbn [files]. rewrite lookup_insert_ne by done. by rewrite lookup_singleton_eq.
Qed.
Lemma build_missing : target_bytes build_host (str "os-dev") = [].
Proof.
  unfold target_bytes, build_host. cbn [files]. rewrite lookup_insert_ne by done. by rewrite lookup_singleton_ne by done.
Qed.
Lemma shell_file_ok : zlen shell_file = 3000 /\ all_bytes shell_file.
Proof.
  destruct sample_bytes_ok as [Hl Hb]. split; [unfold shell_file; rewrite zlen_ztake, Hl; lia | by apply Forall_take].
Qed.

Lemma text_dec (l : list Z) : forallb (fun b => (0 <? b) && (b <? 256)) l = true -> Forall (fun c => 0 < c < 2 ^ 8) l.
Proof.
  intros Hl. apply Forall_forall. intros b Hb. rewrite forallb_forall in Hl.
  specialize (Hl b ltac:(by apply list_elem_of_In)). apply andb_prop in Hl as [?%Z.ltb_lt ?%Z.ltb_lt]. lia.
Qed.

(** The shell, and a file that is not there: it becomes a directory. *)
Lemma shell_insert_ok : insert_ok build_host ROOT_CLUSTER_NUMBER fresh_volume (str "shell") (str "2").
Proof.
  destruct shell_file_ok as [Hl Hb].
  split; rewrite ?build_shell, ?Hl; [reflexivity | by apply text_dec | discriminate | done | exact Hb | | done].
  apply (bool_decide_eq_false_1 (_ ∈ vol_shadow fresh_volume)). by vm_compute.
Qed.
Lemma dev_insert_ok :
  let v := (vol_step fresh_volume (insertion build_host (str "shell") (str "2"))).1.2 in
  insert_ok build_host ROOT_CLUSTER_NUMBER v (str "os-dev") (str "2").
Proof.
  intros v. split; rewrite ?build_missing.
  - reflexivity.
  - by apply text_dec.
  - discriminate.
  - done.
  - constructor.
  - unfold v. rewrite vol_step_shadow. apply (bool_decide_eq_false_1 (_ ∈ vol_shadow fresh_volume)). by vm_compute.
  - assert (Hv : vol_space v = 507); [| rewrite Hv; done].
    unfold v, insertion. rewrite build_shell, (proj1 shell_file_ok).
    unfold vol_step. cbn [call_request]. rewrite decide_False by (by vm_compute).
    cbn [vol_nodes fresh_volume]. rewrite lookup_empty. reflexivity.
Qed.
Lemma build_ok :
  insertions_ok build_host storage_path ROOT_CLUSTER_NUMBER fresh_volume [(str "shell", str "2"); (str "os-dev", str "2")].
Proof.
  refine (conj _ (conj shell_insert_ok (conj _ (conj dev_insert_ok I)))); discriminate.
Qed.

Lemma insert_spec_witness :
  let step := vol_step fresh_volume (insertion build_host (str "shell") (str "2")) in
  exists img',
    inserter [str "./inserter"; str "shell"; str "2"; storage_path] build_host =
      Ok (0, mkHost (<[storage_path := img']> (files build_host))
               ([] ++ banner (str "shell") (zlen (target_bytes build_host (str "shell"))) ++ report step.1.1) []) /\
    image_file img' /\ holds_volume img' ROOT_CLUSTER_NUMBER (row new_root_dir 0) step.1.2.
Proof.
  apply (insert_spec _ (str "shell") (str "2") storage_path [] build_host new_image ROOT_CLUSTER_NUMBER (row new_root_dir 0));
    [exact build_storage | exact new_image_file | exact (blank_stands_for _ new_image_unsigned) | exact shell_insert_ok].
Defined.

Lemma scan_u_decimal_witness : scan_u ([32; 9] ++ decimal 1024) = Some 1024.
Proof. apply (scan_u_decimal 1024 [32; 9]); [done | by repeat constructor]. Defined.

Lemma installed_shell_boots_witness :
  exists h' img', inserter_runs storage_path [(str "shell", str "2"); (str "os-dev", str "2")] build_host =
      Ok ([0; 0], h') /\
    files h' !! storage_path = Some img' /\
    forall (d : FlatMem) physical, has_image img' d ->
    exists s', kernel_setup (boot_system d physical) = Ok (tt, s') /\ SchedInv (kernel s') /\
      active (k_paging (kernel s')) (ListDir 0) /\
      cpu_context (kernel s') = Some (initial_context 0 (directory_addr 0) zero_context) /\
      forall o b, (target_bytes build_host (str "shell")).[o] = Some b -> load8 o (umem (fsys (kernel s'))) = Ok b.
Proof.
  apply (installed_shell_boots storage_path (str "2") [(str "os-dev", str "2")] build_host new_image image_room
           build_storage new_image_file new_image_unsigned build_ok);
    rewrite build_shell, (proj1 shell_file_ok); [done | by intros [? _]].
Defined.
(** There is such a disk for every image. *)
Lemma image_disk img : image_file img -> exists d : FlatMem, has_image img d.
Proof.
  intros [Hl Hb]. destruct (fread_filled ∅ img) as (m & _ & Hm & Heq); [by rewrite Hl | exact Hb |].
  exists m. split; [exact Hm |]. exists m. split; [exact Hm |]. split; [| by intros c _]. rewrite Heq.
  unfold filled. rewrite (zlen_0_inv (zdrop _ _)); [apply app_nil_r |].
  rewrite zlen_zdrop, zlen_image_bytes, Hl. unfold IMAGE_SIZE. lia.
Qed.

Lemma restart_keeps_volume_witness :
  exists answers st1, run_calls sample_calls formatted = Ok (answers, st1) /\
    (forall new : FS FlatMem PagedMemory, dev_ok (disk new) -> same_clusters (disk st1) (disk new) ->
     exists mounted, initialize_filesystem_fat32 new = Ok (tt, mounted) /\
       Represents mounted ROOT_CLUSTER_NUMBER (vol_run fresh_volume sample_calls).2).
Proof.
  apply (restart_keeps_volume image_capacity image_capacity);
    [apply (formatted_represents _ _ formatted_ok) | exact sample_calls_ok].
Defined.
