(* ===== verification/ShellExample.v ===== *)
(** ShellExample: the theorems on the shell and the user programs at concrete inputs:
    a session on the root directory of the formatted image, a clock. *)

From Stdlib Require Import ZArith Lia.
From stdpp Require Import base tactics numbers strings list gmap.
From S2P Require Import Prelude Memory CString Disk FatLayout Fat32 FatLogic FatChain FatWrite.
From S2P Require Import FatRead FatDelete FatInit FatVolume FatExample.
From S2P Require Import Shell.
From S2P Require Import ShellParse.
From S2P Require Import ShellSpec.
From S2P Require Import ShellPath.
From S2P Require Import ShellFiles.
From S2P Require Import ShellCd.
From S2P Require Import ShellFs.
From S2P Require Import Cmos.
From S2P Require Import Programs.
Import Image.

(** ** A keyboard and a screen: the keys still to come *)

#[export] Instance sample_rest : RestOfKernel (list Z) := {|
  rest_getchar t := (hd 0 t, tail t);
  rest_putchar _ _ p t := (p, t);
  rest_puts _ _ p t := (p, t);
  rest_keyboard_on t := t;
  rest_move_cursor _ _ _ t := t;
  rest_clear t := t;
  rest_ps p t := (p, t);
  rest_kill _ t := t;
  rest_exec _ _ t := t
|}.
#[export] Instance sample_rest_laws : RestLaws (list Z).
Proof.
  refine {| rest_keys t := t |}; try reflexivity. intros t c l ->. by exists l.
Defined.

(** Storage: the stack holds letters and a zero. *)
#[export] Instance sample_environment : ShellEnvironment := {|
  byte_at_0 := 0;
  after_root := [0; 0; 0];
  first_buf := 0;
  stack_junk n := (zrep n 65).[n - 1 := 0];
  key_polls := 200
|}.
#[export] Instance sample_environment_ok : ShellEnvironmentOk.
Proof.
  split; [done | done |]. intros n Hn. unfold stack_junk, sample_environment.
  split; [by rewrite zlen_zset, zlen_zrep |]. apply Forall_zset; [by apply Forall_zrep | done].
Qed.

(** ** The parser and the dispatcher *)

Definition typed_line (text : list Z) : CommandStruct :=
  mkCommand (text ++ zrep (COMMAND_SIZE - zlen text) 0) (zlen text) 0.

Lemma parse_command_spec_witness :
  (exists cmd args, parse_line (typed_line (str "mv  a bc ")) = Ok (cmd, args) /\ line_len cmd = 2 /\
     argument_neff cmd = 3 /\ ztake 3 args = [arg_of (str "a"); arg_of (str "bc"); zero_arg]) /\
  parse_command (typed_line (str "mv  a bc ")) zero_args = parse_line (typed_line (str "mv  a bc ")).
Proof.
  split; [eexists _, _; split; [reflexivity |]; by vm_compute |].
  apply parse_command_spec; [by vm_compute | by vm_compute | done |].
  apply (bool_decide_eq_true_1 (Forall (fun b => b <> 0) (str "mv  a bc "))). by vm_compute.
Defined.

(** ** A boolean form of the admissible lines *)

Definition name_okb (v : Volume) (nm : list Z) : bool :=
  (zlen nm =? 8) && forallb (fun b => (0 <=? b) && (b <? 256)) nm &&
  bool_decide (nm <> zrep 8 0) && bool_decide (((nm, zrep 3 0) : Name) ∉ vol_shadow v).
Definition no_folderb (v : Volume) (nm : list Z) : bool :=
  if node_at v nm is Some (Folder _) then false else true.

Definition verb_okb (v : Volume) (verb : Verb) (n : Z) (args : list (list Z)) : bool :=
  let a := nth_name args 0 in
  let b := nth_name args 1 in
  match verb with
  | Ls | Clear | Ps => true
  | Cat => (n <=? 0) || (name_okb v a && no_folderb v a &&
      match node_at v a with
      | Some (File sz bytes) => (sz <=? CLUSTER_SIZE) && bool_decide (0 ∈ bytes)
      | _ => true
      end)
  | Mkdir => name_okb v a && (1 <=? vol_space v)
  | Rm => name_okb v a
  | Mv => name_okb v a && name_okb v b && no_folderb v a && no_folderb v b && (1 <=? vol_space v)
  | Cp | Cd | Find | Exec | Kill | Apple => false
  end.
Definition line_okb (v : Volume) (polls : list Z) : bool :=
  let ps := pieces (typed polls) in
  forallb (fun c => negb (c =? 10)) polls && (Nat.ltb (length polls + 1) key_polls) &&
  (zlen polls <? COMMAND_SIZE) && args_fit (words_of (tail ps)) &&
  match selected (hd [] ps) verbs with
  | Some verb => verb_okb v verb (counted (tail ps)) (words_of (tail ps))
  | None => zlen (hd [] ps) + zlen not_found_text <=? 2048
  end.
Fixpoint session_okb (p : Z) (v : Volume) (lines : list (list Z)) : bool :=
  match lines with
  | [] => true
  | l :: rest => line_okb v l && session_okb p (line_effect p v l) rest
  end.

Lemma name_okb_ok v nm : name_okb v nm = true -> name_ok v nm.
Proof.
  unfold name_okb. intros [[[Hl%Z.eqb_eq Hb]%andb_prop Hz%bool_decide_eq_true_1]%andb_prop
    Hs%bool_decide_eq_true_1]%andb_prop. split; [done | by apply bytes_dec | done | done].
Qed.
Lemma no_folderb_ok v nm : no_folderb v nm = true -> no_folder v nm.
Proof. unfold no_folderb. intros Hf e He. by rewrite He in Hf. Qed.
Lemma verb_okb_ok v verb n args : verb_okb v verb n args = true -> verb_ok v verb n args.
Proof.
  destruct verb; try done; cbn [verb_okb verb_ok].
  - intros [Hn%Z.leb_le | [[Hn Hf]%andb_prop Hm]%andb_prop]%orb_true_iff Hpos; [lia |].
    split; [by apply name_okb_ok |]. split; [by apply no_folderb_ok |]. intros sz bytes Hnode. rewrite Hnode in Hm.
    apply andb_prop in Hm as [?%Z.leb_le ?%bool_decide_eq_true_1]. done.
  - intros [Hn Hs%Z.leb_le]%andb_prop. split; [by apply name_okb_ok | done].
  - apply name_okb_ok.
  - intros [[[[Ha Hb]%andb_prop Hfa]%andb_prop Hfb]%andb_prop Hs%Z.leb_le]%andb_prop.
    split_and!; auto using name_okb_ok, no_folderb_ok.
Qed.
Lemma session_okb_ok p lines : forall v, session_okb p v lines = true -> session_ok p v lines.
Proof.
  induction lines as [| l lines IH]; intros v; cbn [session_okb session_ok]; [done |].
  intros [Hl Hrest]%andb_prop. split; [| by apply IH]. unfold line_okb in Hl.
  apply andb_prop in Hl as [Hl Hv]. apply andb_prop in Hl as [Hl Hargs]. apply andb_prop in Hl as [Hl Hlen%Z.ltb_lt].
  apply andb_prop in Hl as [Hno Hp%Nat.ltb_lt]. split; try done.
  - apply Forall_forall. intros c Hc. rewrite forallb_forall in Hno.
    specialize (Hno c ltac:(by apply list_elem_of_In)). by apply negb_true_iff, Z.eqb_neq in Hno.
  - cbv zeta. destruct (selected _ verbs); [by apply verb_okb_ok | by apply Z.leb_le].
Qed.

(** ** A session *)

(** A directory (with a typing error taken back), a file out of nothing, its second
    name, its content, the listing, an unknown word, the directory removed. *)
Definition sample_lines : list (list Z) :=
  [str "mkdur" ++ [8; 8] ++ [0] ++ str "ir docs"; str "mv none new"; str "mv new old"; str "cat old"; str "ls";
   str "l"; str ""; str "sl"; str "rm docs"].

Lemma sample_session :
  let v := session ROOT_CLUSTER_NUMBER fresh_volume sample_lines in
  (node_at v (pad (str "docs")), node_at v (pad (str "new")), vol_space v) = (None, None, 508) /\
  node_at v (pad (str "old")) = Some (File CLUSTER_SIZE (stack_junk CLUSTER_SIZE)).
Proof. by vm_compute. Qed.

Lemma formatted_root : Represents formatted ROOT_CLUSTER_NUMBER fresh_volume.
Proof. apply (formatted_represents _ _ formatted_ok). Qed.
Lemma root_opens i nm :
  (0 <=? i) && (i <? DIR_ENTRIES) && bool_decide (name (row new_root_dir i) = nm) && is_folder_row (row new_root_dir i) &&
  forallb (fun j => bool_decide (name (row new_root_dir j) <> nm)) (seqZ 0 i) = true ->
  opens (dir_table formatted ROOT_CLUSTER_NUMBER) nm i.
Proof.
  intros Hb. assert (dir_table formatted ROOT_CLUSTER_NUMBER = new_root_dir) as -> by exact (fm_root _ _ formatted_ok).
  apply andb_prop in Hb as [Hb Hj]. apply andb_prop in Hb as [Hb Hf]. apply andb_prop in Hb as [Hb Hn%bool_decide_eq_true_1].
  apply andb_prop in Hb as [H0%Z.leb_le H1%Z.ltb_lt]. split; [done | done | done |].
  intros j Hj'. rewrite forallb_forall in Hj. apply (bool_decide_eq_true_1 (name (row new_root_dir j) <> nm)), Hj.
  apply list_elem_of_In, elem_of_seqZ. lia.
Qed.
Lemma root_self : entry_cluster (row (dir_table formatted ROOT_CLUSTER_NUMBER) 0) = ROOT_CLUSTER_NUMBER.
Proof.
  assert (dir_table formatted ROOT_CLUSTER_NUMBER = new_root_dir) as -> by exact (fm_root _ _ formatted_ok).
  by vm_compute.
Qed.

#[export] Instance image_machine : FileMachineSpec (FS FlatMem FlatMem) FlatMem FlatMem :=
  flat_machine_spec image_capacity.
Definition sample_keys : list Z := concat ((fun l => l ++ [10]) <$> sample_lines) ++ str "next".

Lemma shell_on_disk_witness :
  exists s : Shell (FsKernel (FS FlatMem FlatMem) (list Z)),
    bind shell_start (fun _ => shell_rounds (zrep 9 0)) (boot_shell (mkFsKernel formatted sample_keys)) = Ok (tt, s) /\
    Represents (files (kern s)) ROOT_CLUSTER_NUMBER (session ROOT_CLUSTER_NUMBER fresh_volume sample_lines) /\
    current_dir s = dir_table (files (kern s)) ROOT_CLUSTER_NUMBER /\ rest_keys (rest (kern s)) = str "next".
Proof.
  apply (shell_on_disk image_capacity); [exact formatted_root | exact fresh_volume_ok | exact root_self | | | done | done].
  - apply root_opens. by vm_compute.
  - apply session_okb_ok. by vm_compute.
Defined.

Definition sample_shell : Shell (FsKernel (FS FlatMem FlatMem) (list Z)) :=
  mkShell (mkFsKernel formatted sample_keys) (mkCP 0 0) (dir_table formatted ROOT_CLUSTER_NUMBER)
    (mkCWD (zrep 10 zero_arg).[0 := root_entry] 1).

Lemma sample_path_ok : path_ok (mkCWD (zrep 10 zero_arg).[0 := root_entry] 1).
Proof.
  split; [done | cbn; lia | | by exists root_entry].
  apply Forall_zset; [by apply Forall_zrep | split; [by vm_compute | cbn; lia]].
Qed.

Lemma prompt_bounds_witness :
  path_ok (mkCWD (zrep 10 zero_arg).[0 := root_entry] 1) /\
  exists t, path_text (ztake 1 (zrep 10 zero_arg).[0 := root_entry]) = Ok t /\ 1 <= zlen t <= 90 /\
    prompt_path (mkCWD (zrep 10 zero_arg).[0 := root_entry] 1) = Ok (ztake (zlen t - 1) t).
Proof. split; [exact sample_path_ok |]. apply (prompt_bounds _ sample_path_ok). Defined.

Lemma path_step_ok_witness :
  step_ok (Down (arg_of (str "docs"))) /\
  match path_step (Down (arg_of (str "docs"))) (mkCWD (zrep 10 zero_arg).[0 := root_entry] 1) with
  | Ok w' => path_ok w'
  | Fault e => e = BadAccess /\ 1 = 10 /\ Down (arg_of (str "docs")) <> Up
  end.
Proof.
  assert (Hs : step_ok (Down (arg_of (str "docs")))) by (split; [by vm_compute | by vm_compute]).
  split; [exact Hs |]. apply (path_step_ok _ _ sample_path_ok Hs).
Defined.

(** "m" is "mkdir", the first command it begins. *)
Lemma dispatch_spec_witness :
  selected (str "m") verbs = Some Mkdir /\
  dispatch (K := FsKernel (FS FlatMem FlatMem) (list Z)) (line (typed_line (str "m"))) 1 (commands 0 0 zero_args) ls sample_shell =
    default ls (selected (text_of (typed_line (str "m"))) (commands 0 0 zero_args)) sample_shell.
Proof.
  split; [by vm_compute |]. apply (dispatch_spec (typed_line (str "m"))); [by vm_compute |].
  apply (bool_decide_eq_true_1 (Forall (fun c => c <> 0) (text_of (typed_line (str "m"))))). by vm_compute.
Defined.

Lemma sample_at : at_directory (kern sample_shell) ROOT_CLUSTER_NUMBER (current_dir sample_shell) fresh_volume.
Proof. split; [exact I | split; [exact formatted_root | split; [done | exact root_self]]]. Qed.
Lemma sample_name nm : name_okb fresh_volume nm = true -> name_ok fresh_volume nm.
Proof. apply name_okb_ok. Qed.

(** A file that does not exist is moved, and copied. *)
Lemma mv_outcome_witness :
  exists s' v', bind (mv (arg_of (str "none")) (arg_of (str "new"))) (fun _ => cd_refresh) sample_shell = Ok (tt, s') /\
    at_directory (kern s') ROOT_CLUSTER_NUMBER (current_dir s') v' /\
    node_at v' (pad (str "none")) = None /\
    node_at v' (pad (str "new")) = Some (File CLUSTER_SIZE (moved fresh_volume (pad (str "none")))) /\
    forall k, k <> (pad (str "none"), zrep 3 0) -> k <> (pad (str "new"), zrep 3 0) ->
      vol_nodes v' !! k = vol_nodes fresh_volume !! k.
Proof.
  pose proof (fs_shell_laws (A := FS FlatMem FlatMem) (T := list Z) image_capacity) as Hlaws.
  apply (mv_outcome (str "none") (str "new") sample_shell ROOT_CLUSTER_NUMBER fresh_volume sample_at fresh_volume_ok);
    try (by vm_compute); try (apply sample_name; by vm_compute); apply no_folderb_ok; by vm_compute.
Defined.

Lemma cp_not_listed_witness :
  exists s' t' v' i, cp (arg_of (str "none")) (arg_of (str "new")) sample_shell = Ok (tt, s') /\
    at_directory (kern s') ROOT_CLUSTER_NUMBER t' v' /\
    vol_nodes v' = <[(pad (str "new"), zrep 3 0) := File CLUSTER_SIZE (moved fresh_volume (pad (str "none")))]>
      (vol_nodes fresh_volume) /\
    find_entry 2 t' (file_request (pad (str "new")) ROOT_CLUSTER_NUMBER CLUSTER_SIZE) = Some i /\
    find_entry 2 (current_dir s') (file_request (pad (str "new")) ROOT_CLUSTER_NUMBER CLUSTER_SIZE) = None.
Proof.
  pose proof (fs_shell_laws (A := FS FlatMem FlatMem) (T := list Z) image_capacity) as Hlaws.
  apply (cp_not_listed (str "none") (str "new") sample_shell ROOT_CLUSTER_NUMBER fresh_volume sample_at fresh_volume_ok);
    try (by vm_compute); try (apply sample_name; by vm_compute); try (apply no_folderb_ok; by vm_compute).
Defined.

(** The root directory is its own parent and is entered by its own name. *)
Lemma cd_roundtrip_witness :
  exists s1 s2, cd (arg_of (str "root")) sample_shell = Ok (tt, s1) /\ current_dir s1 = current_dir sample_shell /\
    path_down (arg_of (str "root")) (current_working_directory sample_shell) = Ok (current_working_directory s1) /\
    cd (arg_of parent_text) s1 = Ok (tt, s2) /\ current_dir s2 = current_dir sample_shell /\
    current_working_directory s2 = (if decide (ztake 4 (pad (str "root")) = root_text)
      then current_working_directory s1 else current_working_directory sample_shell) /\
    quiet_kernel (kern sample_shell) (kern s2).
Proof.
  pose proof (fs_shell_laws (A := FS FlatMem FlatMem) (T := list Z) image_capacity) as Hlaws.
  apply (cd_roundtrip (str "root") 0 ROOT_CLUSTER_NUMBER (current_dir sample_shell) fresh_volume sample_shell
    ROOT_CLUSTER_NUMBER fresh_volume sample_at).
  - apply root_opens. by vm_compute.
  - by vm_compute.
  - by vm_compute.
  - apply root_opens. by vm_compute.
  - exact root_self.
  - exact sample_at.
  - apply root_opens. by vm_compute.
  - unfold sample_shell. cbn [current_dir].
    assert (dir_table formatted ROOT_CLUSTER_NUMBER = new_root_dir) as -> by exact (fm_root _ _ formatted_ok).
    by vm_compute.
  - exact sample_path_ok.
  - by vm_compute.
  - by vm_compute.
Defined.

(** ** The user programs *)

(** A clock that moves a second on each call; printing moves the cursor. *)
#[export] Instance sample_program_kernel : ProgramKernel Z := {|
  prog_time k := (mkTime (k mod 60) 30 12 17 8 2024, k + 1);
  prog_puts text _ p k := (mkCP (row_of p) (col_of p + zlen text), k);
  prog_putchar _ _ p k := (p, k)
|}.
#[export] Instance sample_program_environment : ProgramEnvironment := {| null_byte := 0 |}.

Lemma time_text_roundtrip_witness :
  Clock.time_text (mkTime 5 30 12 17 8 2024) = str "2024 08 17 12:30:05" /\
  read_text (Clock.time_text (mkTime 5 30 12 17 8 2024)) = mkTime 5 30 12 17 8 2024.
Proof.
  split; [by vm_compute |]. apply (time_text_roundtrip (mkTime 5 30 12 17 8 2024)).
  split; cbn; lia.
Defined.

Lemma bounce_bounds_witness :
  let b := (Bounce.bounce_rounds 500 Bounce.bounce_start 0).1 in
  row_of (Bounce.cursor b) = Bounce.BOUNCE_ROW /\ 0 <= col_of (Bounce.cursor b) < 79 /\
  0 <= col_of (Bounce.previous_cursor b) < 79 /\
  (Bounce.previous_cursor b = mkCP 0 0 \/ row_of (Bounce.previous_cursor b) = Bounce.BOUNCE_ROW).
Proof.
  assert (Hputs : forall c color p (k : Z), 0 <= col_of p < 79 ->
    (prog_puts [c] color p k).1 = mkCP (row_of p) (col_of p + 1)) by (intros; reflexivity).
  apply (bounce_bounds Hputs 500 0).
Defined.

(** ** A directory tree without end

    Every directory holds a directory of the same name. *)
Definition loop_table : list FAT32DirectoryEntry :=
  new_root_dir.[2 := dir_entry (str "loop" ++ zrep 4 0) (zrep 3 0) ATTR_SUBDIRECTORY 3 0].
Definition loop_kernel : ShellKernel unit := {|
  sys_read _ b k := Ok (2, b, k);
  sys_read_directory _ _ k := Ok (0, encode_table loop_table, k);
  sys_write _ _ k := Ok (2, k);
  sys_delete _ k := Ok (1, k);
  sys_getchar k := (0, k);
  sys_putchar _ _ p k := (p, k);
  sys_puts _ _ p k := (p, k);
  sys_keyboard_on k := k;
  sys_move_cursor _ _ _ k := k;
  sys_clear k := k;
  sys_ps p k := (p, k);
  sys_kill _ k := k;
  sys_exec _ _ k := k
|}.

