(* ===== verification/MachineExample.v ===== *)
(** MachineExample: a session on the machine that boots from the sample image. *)

From Stdlib Require Import ZArith Lia.
From stdpp Require Import base tactics numbers strings list gmap fin_maps.
From S2P Require Import Prelude Memory CString Disk FatLayout Fat32 FatLogic FatChain FatWrite.
From S2P Require Import FatRead FatDelete FatInit FatVolume FatMount Inserter InserterSpec.
From S2P Require Import Paging PagingSpec Process Pic Scheduler SchedulerSpec ProcessSpec.
From S2P Require Import Terminal TerminalSpec Keyboard Descriptors Assembly System BootSpec InserterBoot SystemSpec.
From S2P Require Import Shell ShellParse ShellSpec ShellPath ShellFiles ShellFs UserCall ShellMachine WholeMachine.
From S2P Require Import AssemblyExample SystemExample BootExample InserterExample ShellExample.
Import Image.

(** Interrupts from the shell's code at 0x40; its calls keep their data at the ends
    of the stack's page. *)
#[export] Instance sample_user_frame : UserFrame.
Proof.
  by refine {|
    user_state _ _ _ _ := mkProcessor (mkCPU 0 0 0 0xBFFFFF00 0 0 0 0 0x23 0x23 0x23 0x23) 0x40 0x1B 0x202 0x23;
    kernel_words := [];
    handler_leaves := mkCPU 1 2 3 4 5 6 7 8 0x10 0x10 0x10 0x10;
    handler_flags := 2
  |}.
Defined.
#[export] Instance sample_storage : UserStorage := {|
  call_frame _ _ _ := mkCallFrame 0xBFFFF000 0xBFFFF100 0xBFC00000
|}.
#[export] Instance sample_storage_ok : UserStorageOk.
Proof.
  split; intros call request n Hn; unfold ARRAY_MAX in Hn; cbn -[Z.le Z.add STACK_PAGE];
    [| unfold apart; change REQUEST_SIZE with 23; lia].
  split_and!; (split; [change STACK_PAGE with 0xBFC00000; lia | change REQUEST_SIZE with 23;
    change KERNEL_VIRTUAL_ADDRESS_BASE with 0xC0000000; lia]).
Qed.

(** The volume of the image: a shell, a directory, 506 free clusters. *)
Definition build_args : list (Path * list Z) := [(str "shell", str "2"); (str "os-dev", str "2")].
Definition built_volume (bytes : list Z) : Volume :=
  mkVolume (<[(pad (str "os-dev"), zrep 3 0) := Folder true]> {[ shell_key := File 3000 bytes ]})
    (vol_shadow fresh_volume) 506.

Lemma build_volume : exists bytes, insertions build_host fresh_volume build_args = built_volume bytes.
Proof.
  destruct shell_file_ok as [Hl _]. cbn [build_args insertions]. unfold insertion.
  rewrite build_shell, build_missing, Hl.
  assert (Hstep : forall data, (vol_step fresh_volume (CallWrite (insert_request (str "shell") (str "2") 3000) data)).1.2 =
    mkVolume {[ shell_key := File 3000 (file_bytes 3000 data) ]} (vol_shadow fresh_volume) 507).
  { intros data. unfold vol_step. cbn [call_request]. rewrite decide_False by (by vm_compute).
    cbn [vol_nodes fresh_volume]. rewrite lookup_empty. reflexivity. }
  rewrite Hstep. generalize (file_bytes 3000 (ztake (Z.max CLUSTER_SIZE 3000) (filled buffer_junk shell_file))).
  generalize (ztake (Z.max CLUSTER_SIZE (zlen (@nil Z))) (filled buffer_junk [])). intros data bytes. exists bytes.
  unfold vol_step. cbn [call_request]. rewrite decide_False by (by vm_compute). cbn [vol_nodes].
  rewrite lookup_singleton_ne by (by vm_compute). reflexivity.
Qed.
Lemma built_session bytes : session_okb ROOT_CLUSTER_NUMBER (built_volume bytes) sample_lines = true.
Proof. vm_compute. reflexivity. Qed.
Lemma build_session_ok :
  session_ok ROOT_CLUSTER_NUMBER (insertions build_host fresh_volume build_args) sample_lines.
Proof. destruct build_volume as [bytes ->]. apply session_okb_ok, built_session. Qed.


(** A machine booted from the image. *)
Lemma built_machine :
  exists s' : System FlatMem, Booted (insertions build_host fresh_volume build_args) shell_file s'.
Proof.
  destruct (installed_run (D := FlatMem) storage_path (str "2") [(str "os-dev", str "2")] build_host new_image image_room
              build_storage new_image_file new_image_unsigned build_ok) as (h' & img' & Hruns & Himg & Hboot).
  - by rewrite build_shell, (proj1 shell_file_ok).
  - rewrite build_shell, (proj1 shell_file_ok). by intros [? _].
  - destruct (inserter_runs_spec storage_path build_args build_host new_image ROOT_CLUSTER_NUMBER _ fresh_volume
      build_storage new_image_file (blank_stands_for _ new_image_unsigned) build_ok)
      as (h2 & img2 & Hruns2 & _ & Himg2 & Hf2 & _).
    unfold build_args in Hruns2. rewrite Hruns in Hruns2. injection Hruns2 as <-. rewrite Himg in Himg2.
    injection Himg2 as <-. destruct (image_disk img' Hf2) as [d Hd].
    destruct (Hboot d ∅ Hd) as (s' & _ & Hb). exists s'. by rewrite build_shell in Hb.
Qed.

